(* ===== verification/_CoqProject ===== *)
-Q . S2P
Prelude.v
PyString.v
Regex.v
RegexParse.v
PyRe.v
RegexFacts.v
RegexExact.v
Config.v
Nolint.v
LintState.v
IncludeState.v
FunctionState.v
Cleanse.v
Expr.v
Paths.v
HeaderGuard.v
LineChecks.v
Nesting.v
NestingFacts.v
Constructs.v
Spacing.v
Braces.v
Style.v
Includes.v
WhatYouUse.v
Casts.v
Language.v
Process.v
Termination.v
JUnit.v
Driver.v
DriverFacts.v
ClangTidy.v
ClangFormat.v
Patterns.v
