(* ===== verification/Prelude.v ===== *)
(** * Verification of the Python tooling of the Turtle repository

    The Python of the repository is the tooling under src/build_support: the linter
    cpplint.py, and the scripts run_clang_tidy.py, run_clang_tidy_extra.py and
    run_clang_format.py that run the clang tools over the C++ sources.  This library
    models all of it that has behaviour of its own, as executable definitions with
    the names of the source (without a leading underscore), and proves what makes
    its parts correct.

    ** The program and its model

    A run of cpplint.py parses the command line, and for each file applies the
    configuration files above it, splits the text into lines, removes comments and
    strings, and runs some forty checks on each line; three objects carry state from
    line to line (the includes, the function, the nesting of blocks), and the
    checks report through an error handler that consults the NOLINT suppressions,
    the verbosity and the filters, and counts.

    - Prelude: scopes, tactics, exceptions ([exn]), diagnostics and events, and the
      monad [M] of a check: the events in order and a value or an exception.  What
      was reported before an exception stays reported.  [halts] and [yields] follow
      a computation's statements and show that its loops end.
    - PyString: Python's strings, lists and dictionaries as the code uses them
      (negative indices, clamped slices, split, strip, find, in insertion order).
    - Regex, RegexParse, PyRe, RegexFacts, RegexExact: Python's [re].  A parser for
      the pattern syntax, a backtracking matcher with groups, look-ahead, back
      references, lazy and greedy repeats, a denotational semantics that the matcher
      is proved sound and complete for, and [Match], [Search] and [ReplaceAll] with
      their cache of compiled patterns, which raise for a malformed pattern.  The
      checks use their values on literals; Patterns lists all of these literals and
      shows that they compile.
    - Config: module-level tables and settings.  Nolint: suppressions.
      LintState: class _CppLintState, _ShouldPrintError and Error.  JUnit:
      FormatJUnitXML.  IncludeState, FunctionState: the classes of that name.
    - Paths: os.path for POSIX and class FileInfo.  HeaderGuard: copyright lines,
      PathSplitToList, GetHeaderGuardCPPVariable, CheckForHeaderGuard.
    - Cleanse: CleanseRawStrings, RemoveMultiLineComments, CleanseComments, class
      CleansedLines.  Expr: CloseExpression, ReverseCloseExpression.
    - Nesting, NestingFacts: the block classes and class NestingState, with object
      identity and the deep copies of the preprocessor stack.
    - LineChecks, Constructs, Spacing, Braces, Style, Includes, WhatYouUse, Casts,
      Language: the checks.
    - Process: ProcessLine and ProcessFileData, which compose them, and [handle],
      what an event does to the suppressions and to the linter.
    - Termination: the loops of all checks end.
    - Driver, DriverFacts: ProcessConfigOverrides, ProcessFile, ParseArguments with
      getopt, _ExpandDirectories, _FilterExcludedFiles and main, in a state and
      exception monad [P] over the program's globals.
    - ClangTidy: run_clang_tidy.py, whose worker threads, queue and shared list of
      failures are a step relation, and run_clang_tidy_extra.py.  ClangFormat:
      run_clang_format.py.

    ** What the theorems show

    - Regular expressions: the cache is transparent, and no pattern literal raises.
    - Cleansing: it returns for every file and keeps the number of lines; comments
      over several lines become empty ones, line by line, and one without an end is
      reported; what a // cuts off.
    - Brackets: the searches stay in bounds and find exactly the matching bracket;
      _GetTextInside returns exactly the balanced text; the arguments of a
      constructor are joined exactly at the commas inside brackets.
    - Nesting: [Update] never raises and keeps the stacks well formed; depth follows
      the braces; a conditional keeps the stack of its first branch.
    - Includes: the order check refines a regular language of header types.
    - Reporting: the last filter that applies decides; NOLINT comments, read as text,
      suppress exactly what they name; counts are exact; the JUnit report has exactly
      the recorded failures, by file in order of first failure, and with it the exit
      code is 1 exactly if there is one.
    - Files and names: the repository name, the header guard and what its check
      reports for the #ifndef and the #endif line; the newline at the end; filters
      are restored after every file.
    - Termination: linting any file ends, and so does the whole program.
    - Worker pool: when it is joined every file was handled once and the failures
      are exactly the failing files; it makes progress if every file is selected and
      none raises, and hangs if one is not selected or ends its worker with an
      exception; which files are skipped; the exit code.  Formatting: the comparison
      is exact.

    Some theorems record where the code does not do what it means to: see
    [RepositoryName_svn_diverges], [RepositoryName_at_root],
    [namespace_offset_hides_class], [unbalanced_argument_raises],
    [address_of_cast_at_end_of_line_raises], [config_settings_leak],
    [tidy_unselected_file_hangs], [tidy_crashed_worker_hangs] and
    [format_forgets_earlier_directories]; or where a comment says otherwise:
    [PathSplitToList_docstring], [own_header_after_others] and
    [comment_after_url_kept].

    ** Assumptions and bounds

    Text is a sequence of code points 0 to 255, as if decoded as Latin-1; only
    CheckForBadCharacters sees other code points.  The interpreter is Python 3 on a
    POSIX system.  The file system, the clang tools, the patterns users write in
    configuration files and the usage text are parameters of the definitions.  A
    loop that is not structural takes fuel, at least the length of the text or path
    it shortens in each round; without fuel it results in [FuelExhausted], and the
    theorems show that this does not occur.  A loop over a range of lines takes the
    number of lines that are left.  Where the code iterates over a set, the model
    takes one order.

    ** Not modelled

    The text of the usage message, argparse in the two scripts, the progress output,
    the handler of the keyboard interrupt, and the codec of the output stream.  The
    C++ sources of the repository (the server and its libraries, demos, tests) and
    the vendored benchmark are no part of this library. *)

From stdpp Require Import base list strings gmap.
From Stdlib Require Import ZArith Lia Ascii.

(** ** Scopes *)

Declare Scope py_scope.
Delimit Scope py_scope with py.

(** ** Automation *)

(** The lemmas that simplify the Python string and list operations live in two
    databases: [py] for resolution, [pysimp] for rewriting. *)
Create HintDb py.
Create Rewrite HintDb pysimp.

(** Turn boolean tests in the context and the goal into propositions. *)
Ltac bools :=
  repeat match goal with
  | H : (_ && _)%bool = true |- _ => apply andb_true_iff in H; destruct H
  | H : (_ || _)%bool = false |- _ => apply orb_false_iff in H; destruct H
  | H : negb _ = true |- _ => apply negb_true_iff in H
  | H : negb _ = false |- _ => apply negb_false_iff in H
  | H : Z.eqb _ _ = true |- _ => apply Z.eqb_eq in H
  | H : Z.eqb _ _ = false |- _ => apply Z.eqb_neq in H
  | H : Z.ltb _ _ = true |- _ => apply Z.ltb_lt in H
  | H : Z.ltb _ _ = false |- _ => apply Z.ltb_ge in H
  | H : Z.leb _ _ = true |- _ => apply Z.leb_le in H
  | H : Z.leb _ _ = false |- _ => apply Z.leb_gt in H
  | H : Nat.eqb _ _ = true |- _ => apply Nat.eqb_eq in H
  | H : Nat.eqb _ _ = false |- _ => apply Nat.eqb_neq in H
  | H : Nat.ltb _ _ = true |- _ => apply Nat.ltb_lt in H
  | H : Nat.ltb _ _ = false |- _ => apply Nat.ltb_ge in H
  | H : Nat.leb _ _ = true |- _ => apply Nat.leb_le in H
  | H : Nat.leb _ _ = false |- _ => apply Nat.leb_gt in H
  | H : Ascii.eqb _ _ = true |- _ => apply Ascii.eqb_eq in H
  | H : Ascii.eqb _ _ = false |- _ => apply Ascii.eqb_neq in H
  | H : String.eqb _ _ = true |- _ => apply String.eqb_eq in H
  | H : String.eqb _ _ = false |- _ => apply String.eqb_neq in H
  end.

(** Case analysis on the scrutinee of a match or an [if], in the goal first and
    then in the hypotheses. *)
Ltac cases :=
  match goal with
  | |- context [match ?e with _ => _ end] => destruct e eqn:?
  | H : context [match ?e with _ => _ end] |- _ => destruct e eqn:?
  end.

(** The closing tactic of routine cases: reduce the branches and finish. *)
Ltac crush :=
  repeat (simpl in *; simplify_eq; bools; try done; try lia; try cases).

(** ** Results and exceptions *)

(** The exceptions the modelled Python code can raise.  [FuelExhausted] is not
    one of Python's: it is the outcome of a modelled loop without fuel, and the
    theorems about such loops show that it never occurs.  [SystemExitMessage] is
    [sys.exit] with a text, which is printed and makes the exit code 1. *)
Inductive exn :=
  | IndexError
  | KeyError
  | AttributeError
  | TypeError
  | AssertionError
  | NameError
  | OSError
  | ReError
  | FuelExhausted
  | ValueError (msg : string)
  | SystemExit (code : Z)
  | SystemExitMessage (msg : string).

(** [f] on every element in order, stopping at the first exception; [mapS] also
    passes a state along. *)
Fixpoint mapE {A B} (f : A -> exn + B) (l : list A) : exn + list B :=
  match l with
  | [] => inr []
  | a :: l' =>
      match f a with
      | inl e => inl e
      | inr b => match mapE f l' with inl e => inl e | inr r => inr (b :: r) end
      end
  end.
Fixpoint mapS {S A B} (f : S -> A -> exn + (B * S)) (s : S) (l : list A) : exn + list B :=
  match l with
  | [] => inr []
  | a :: l' =>
      match f s a with
      | inl e => inl e
      | inr (b, s') => match mapS f s' l' with inl e => inl e | inr r => inr (b :: r) end
      end
  end.

Lemma mapE_ok {A B} (f : A -> exn + B) l :
  (forall a, exists b, f a = inr b) -> exists r, mapE f l = inr r /\ length r = length l.
Proof.
  intros H. induction l as [|a l (r & IH & Hl)]; simpl; [by eexists|].
  destruct (H a) as [b ->]. rewrite IH. eexists. split; [done|]. simpl. by rewrite Hl.
Qed.

Lemma mapS_ok {S A B} (P : S -> Prop) (f : S -> A -> exn + (B * S)) :
  (forall s a, P s -> exists b s', f s a = inr (b, s') /\ P s') ->
  forall l s, P s -> exists r, mapS f s l = inr r /\ length r = length l.
Proof.
  intros H l. induction l as [|a l IH]; intros s Hs; simpl; [by eexists|].
  destruct (H s a Hs) as (b & s' & -> & Hs'). destruct (IH s' Hs') as (r & -> & Hl).
  eexists. split; [done|]. simpl. by rewrite Hl.
Qed.

(** The line number of a diagnostic: one check passes [None]. *)
Inductive lineno := Line (n : Z) | NoLine.
Coercion Line : Z >-> lineno.

(** One call of the linter's error handler:
    [error(filename, linenum, category, confidence, message)]. *)
Record diag := Diag {
  d_file : string;
  d_line : lineno;
  d_category : string;
  d_confidence : Z;
  d_message : string
}.

#[export] Instance exn_eq_dec : EqDecision exn.
Proof. solve_decision. Defined.

#[export] Instance lineno_eq_dec : EqDecision lineno.
Proof. solve_decision. Defined.

#[export] Instance diag_eq_dec : EqDecision diag.
Proof. solve_decision. Defined.

(** What a check does to the state of the linter: a call of the error handler, the
    registration of the NOLINT comments of a line, the reset of all suppressions,
    and the registration of a file's global suppressions (the last three decide
    whether later errors are printed). *)
Inductive event :=
  | Report (d : diag)
  | Nolint (filename raw_line : string) (linenum : Z)
  | ResetSuppressions
  | GlobalSuppressions (lines : list string).

(** A computation of the linter: its events, in order, and a value or the
    exception that ended it.  What was reported before an exception stays
    reported. *)
Definition M (A : Type) : Type := (list event * (exn + A))%type.

Definition retM {A} (a : A) : M A := ([], inr a).
Definition raise {A} (e : exn) : M A := ([], inl e).
Definition emit (e : event) : M unit := ([e], inr ()).
Definition error (filename : string) (linenum : lineno) (category : string) (confidence : Z)
    (message : string) : M unit :=
  emit (Report (Diag filename linenum category confidence message)).
Definition bindM {A B} (m : M A) (f : A -> M B) : M B :=
  match m with
  | (w, inl e) => (w, inl e)
  | (w, inr a) => let '(w', r) := f a in (w ++ w', r)
  end.

(** A computation without events. *)
Definition liftE {A} (r : exn + A) : M A := ([], r).

(** An operation that returns [None] where Python raises [e]. *)
Definition try_get {A} (e : exn) (o : option A) : M A :=
  match o with Some a => retM a | None => raise e end.

(** [if c: body] as a statement. *)
Definition mwhen (c : bool) (body : M unit) : M unit := if c then body else retM ().

(** [for x in l: body x] as a statement. *)
Fixpoint mfor {A} (l : list A) (body : A -> M unit) : M unit :=
  match l with
  | [] => retM ()
  | x :: l' => bindM (body x) (fun _ => mfor l' body)
  end.

Notation "'let*' x := c 'in' k" := (bindM c (fun x => k))
  (at level 10, x name, c at level 200, k at level 200,
   format "'let*'  x  :=  c  'in' '//' k") : py_scope.
Notation "'let*' ' p := c 'in' k" := (bindM c (fun x => match x with p => k end))
  (at level 10, p pattern, c at level 200, k at level 200) : py_scope.
Notation "c ;;; k" := (bindM c (fun _ => k))
  (at level 60, right associativity) : py_scope.

(** Exceptions alone. *)
Definition bindE {A B} (r : exn + A) (f : A -> exn + B) : exn + B :=
  match r with inl e => inl e | inr a => f a end.
Notation "'let?' x := c 'in' k" := (bindE c (fun x => k))
  (at level 10, x name, c at level 200, k at level 200,
   format "'let?'  x  :=  c  'in' '//' k") : py_scope.
Notation "'let?' ' p := c 'in' k" := (bindE c (fun x => match x with p => k end))
  (at level 10, p pattern, c at level 200, k at level 200) : py_scope.

(** The events, the calls of the error handler and the outcome of a computation. *)
Definition events {A} (m : M A) : list event := fst m.
Definition reports (es : list event) : list diag :=
  omap (fun e => match e with Report d => Some d | _ => None end) es.
Definition diags {A} (m : M A) : list diag := reports (fst m).
Definition outcome {A} (m : M A) : exn + A := snd m.

(** The monad laws; they let proofs about checks reassociate their statements. *)
Lemma bindM_retM_l {A B} (a : A) (f : A -> M B) : bindM (retM a) f = f a.
Proof. unfold bindM, retM. by destruct (f a). Qed.

Lemma bindM_retM_r {A} (m : M A) : bindM m retM = m.
Proof. destruct m as [w [e|a]]; simpl; [done|]. by rewrite app_nil_r. Qed.

Lemma bindM_assoc {A B C} (m : M A) (f : A -> M B) (g : B -> M C) :
  bindM (bindM m f) g = bindM m (fun a => bindM (f a) g).
Proof.
  destruct m as [w [e|a]]; simpl; [done|].
  destruct (f a) as [w' [e|b]]; simpl; [done|].
  destruct (g b) as [w'' r]; simpl. by rewrite app_assoc.
Qed.

Lemma reports_app es es' : reports (es ++ es') = reports es ++ reports es'.
Proof. apply omap_app. Qed.

Lemma diags_bindM {A B} (m : M A) (f : A -> M B) :
  diags (bindM m f) =
  diags m ++ match outcome m with inl _ => [] | inr a => diags (f a) end.
Proof.
  destruct m as [w [e|a]]; simpl; [by rewrite app_nil_r|].
  destruct (f a) as [w' r]. unfold diags. simpl. apply reports_app.
Qed.

#[export] Hint Rewrite @bindM_retM_l @bindM_retM_r @bindM_assoc @diags_bindM @reports_app : pysimp.

(** ** Computations whose loops end *)

(** A result that is not the lack of fuel: a value, or one of Python's exceptions. *)
Definition ends {A} (r : exn + A) : Prop := r <> inl FuelExhausted.
Definition halts {A} (m : M A) : Prop := ends (outcome m).

Create HintDb ends.

Lemma ends_inr {A} (a : A) : ends (inr a).
Proof. discriminate. Qed.

Lemma ends_inl {A} e : e <> FuelExhausted -> ends (A := A) (inl e).
Proof. intros H [= ->]. done. Qed.

Lemma ends_same {A B} e : ends (A := A) (inl e) -> ends (A := B) (inl e).
Proof. intros H [= ->]. by apply H. Qed.

Lemma ends_bindE {A B} (r : exn + A) (f : A -> exn + B) :
  ends r -> (forall a, r = inr a -> ends (f a)) -> ends (bindE r f).
Proof. intros Hr Hf. destruct r as [e|a]; [|by apply Hf]. intros [= ->]. by apply Hr. Qed.

Lemma ends_some_value {A} (r : exn + A) : (exists a, r = inr a) -> ends r.
Proof. intros [a ->]. apply ends_inr. Qed.

Lemma halts_bindM {A B} (m : M A) (f : A -> M B) :
  halts m -> (forall a, outcome m = inr a -> halts (f a)) -> halts (bindM m f).
Proof.
  destruct m as [w [e|a]]; intros Hm Hf.
  - intros [= ->]. by apply Hm.
  - specialize (Hf a eq_refl). unfold halts in *. cbn [bindM]. by destruct (f a) as [w' r].
Qed.

Lemma halts_retM {A} (a : A) : halts (retM a).
Proof. apply ends_inr. Qed.

Lemma halts_raise {A} e : e <> FuelExhausted -> halts (A := A) (raise e).
Proof. apply ends_inl. Qed.

Lemma halts_liftE {A} (r : exn + A) : ends r -> halts (liftE r).
Proof. done. Qed.

Lemma halts_emit e : halts (emit e).
Proof. apply ends_inr. Qed.

Lemma halts_error f l c n m : halts (error f l c n m).
Proof. apply ends_inr. Qed.

Lemma halts_try_get {A} e (o : option A) : e <> FuelExhausted -> halts (try_get e o).
Proof. destruct o; intros H; [apply halts_retM|by apply halts_raise]. Qed.

Lemma halts_mwhen c body : halts body -> halts (mwhen c body).
Proof. destruct c; [done|]. intros _. apply halts_retM. Qed.

Lemma halts_mfor {A} (l : list A) body : (forall a, halts (body a)) -> halts (mfor l body).
Proof.
  intros H. induction l as [|a l IH]; [apply halts_retM|]. cbn [mfor].
  apply halts_bindM; [apply H|done].
Qed.

(** A computation that ends, and whose value satisfies [P]. *)
Definition yields {A} (P : A -> Prop) (m : M A) : Prop :=
  halts m /\ forall a, outcome m = inr a -> P a.

Lemma yields_bindM {A B} (Q : A -> Prop) (P : B -> Prop) (m : M A) (f : A -> M B) :
  yields Q m -> (forall a, Q a -> yields P (f a)) -> yields P (bindM m f).
Proof.
  intros [Hm HQ] Hf. split.
  - apply halts_bindM; [done|]. intros a Ha. by apply Hf, HQ.
  - destruct m as [w [e|a]]; [done|]. cbn [bindM]. intros b Hb.
    destruct (Hf a (HQ a eq_refl)) as [_ H]. apply H. by destruct (f a).
Qed.

Lemma yields_then {A B} (P : B -> Prop) (m : M A) (f : A -> M B) :
  halts m -> (forall a, yields P (f a)) -> yields P (bindM m f).
Proof. intros Hm Hf. by apply (yields_bindM (fun _ => True)). Qed.

Lemma yields_retM {A} (P : A -> Prop) a : P a -> yields P (retM a).
Proof. intros H. split; [apply halts_retM|]. by intros b [= <-]. Qed.

Lemma yields_value {A} (P : A -> Prop) (m : M A) a : outcome m = inr a -> P a -> yields P m.
Proof. intros E H. unfold yields, halts. rewrite E. split; [apply ends_inr|]. by intros b [= <-]. Qed.

Lemma yields_halts {A} (m : M A) : halts m -> yields (fun _ => True) m.
Proof. done. Qed.

Lemma halts_yields {A} (P : A -> Prop) (m : M A) : yields P m -> halts m.
Proof. by intros [H _]. Qed.

#[export] Hint Resolve ends_inr halts_retM halts_emit halts_error : ends.
#[export] Hint Extern 1 (ends (inl _)) => apply ends_inl; discriminate : ends.
#[export] Hint Extern 1 (halts (raise _)) => apply halts_raise; discriminate : ends.
#[export] Hint Extern 1 (halts (try_get _ _)) => apply halts_try_get; discriminate : ends.

(** Show that a computation ends by following its statements: a sequence, a
    conditional, a loop over a list, a case analysis on a value, a computation that
    is known to end, or else the body of the function that is called. *)
Ltac head t := match t with ?f _ => head f | _ => t end.
Ltac ends_step :=
  lazymatch goal with
  | |- halts (bindM _ _) => apply halts_bindM
  | |- halts (mwhen _ _) => apply halts_mwhen
  | |- halts (mfor _ _) => apply halts_mfor
  | |- halts (liftE _) => apply halts_liftE
  | |- ends (bindE _ _) => apply ends_bindE
  | |- forall _, _ => intros ?
  | |- halts (match ?e with _ => _ end) => ends_case e
  | |- ends (match ?e with _ => _ end) => ends_case e
  | |- halts (let _ := _ in _) => cbv zeta
  | |- ends (let _ := _ in _) => cbv zeta
  | |- halts ?m => first [solve [eauto 3 with ends nocore] | let f := head m in unfold f]
  | |- ends ?r => first [solve [eauto 3 with ends nocore] | let f := head r in unfold f]
  end
with ends_case e :=
  let T := type of e in
  let T := eval hnf in T in
  lazymatch T with
  | (exn + _)%type =>
      let H := fresh in
      assert (H : ends e) by (repeat ends_step);
      revert H; destruct e; intros H; [try exact (ends_same _ H)|clear H]
  | _ => destruct e
  end.
Ltac ends := repeat ends_step.
