(* ===== verification/PyString.v ===== *)
(** * Python's [str], [list] and [dict] as the sources use them

    Text is Rocq's [string]: a sequence of 8-bit characters, read as the code
    points 0 to 255 (Latin-1), so the character classes below are Python's own
    ([str.isspace], [str.isalnum], ...) on that range.  A Python [int] is [Z];
    indices follow Python's rules: a negative index counts from the end, a
    subscript out of range raises (here [None]), a slice is clamped. *)

From stdpp Require Import base list strings.
From Stdlib Require Import ZArith Lia Ascii.
From S2P Require Import Prelude.
Local Open Scope Z_scope.

#[global] Arguments String.append : simpl nomatch.
#[global] Arguments String.length : simpl nomatch.

(** ** Characters *)

Definition code (c : ascii) : N := N_of_ascii c.
Definition in_range (c : ascii) (lo hi : N) : bool := (lo <=? code c)%N && (code c <=? hi)%N.

(** [str.isspace] on one character: also what [\s] matches. *)
Definition is_space (c : ascii) : bool :=
  in_range c 9 13 || in_range c 28 32 || (code c =? 133)%N || (code c =? 160)%N.

(** [str.isdecimal]: also what [\d] matches. *)
Definition is_digit (c : ascii) : bool := in_range c 48 57.

Definition is_upper (c : ascii) : bool :=
  in_range c 65 90 || (in_range c 192 222 && negb (code c =? 215)%N).
Definition is_lower_ascii (c : ascii) : bool := in_range c 97 122.

(** [str.isalnum] on Latin-1, and the underscore: what [\w] matches. *)
Definition is_alnum (c : ascii) : bool :=
  is_digit c || in_range c 65 90 || in_range c 97 122
  || (code c =? 170)%N || (code c =? 181)%N || (code c =? 186)%N
  || (code c =? 178)%N || (code c =? 179)%N || (code c =? 185)%N
  || in_range c 188 190
  || in_range c 192 214 || in_range c 216 246 || in_range c 248 255.
Definition is_word (c : ascii) : bool := is_alnum c || Ascii.eqb c "_".

(** [str.lower] on one character of Latin-1. *)
Definition lower_char (c : ascii) : ascii :=
  if is_upper c then ascii_of_N (code c + 32) else c.

(** [str.upper] on one ASCII character; above ASCII the sources never call it
    (every caller has replaced such characters by an underscore before). *)
Definition upper_char (c : ascii) : ascii :=
  if is_lower_ascii c then ascii_of_N (code c - 32) else c.

(** The double quote, the backslash and control characters of the sources. *)
Definition chr (n : N) : string := String (ascii_of_N n) EmptyString.
Definition dquote_char : ascii := ascii_of_N 34.
Definition dquote : string := chr 34.
Definition newline : string := chr 10.
Definition cr : string := chr 13.

(** ** Length, subscripts and slices *)

Definition zlen (s : string) : Z := Z.of_nat (String.length s).

Fixpoint sdrop (n : nat) (s : string) : string :=
  match n, s with
  | O, _ => s
  | S n', String _ s' => sdrop n' s'
  | S _, EmptyString => EmptyString
  end.

Fixpoint stake (n : nat) (s : string) : string :=
  match n, s with
  | S n', String c s' => String c (stake n' s')
  | _, _ => EmptyString
  end.

Fixpoint sget (n : nat) (s : string) : option ascii :=
  match n, s with
  | _, EmptyString => None
  | O, String c _ => Some c
  | S n', String _ s' => sget n' s'
  end.

(** [s[i]]; [None] is Python's [IndexError]. *)
Definition str_at (s : string) (i : Z) : option ascii :=
  let j := if i <? 0 then i + zlen s else i in
  if j <? 0 then None else sget (Z.to_nat j) s.

(** How a slice bound is clamped to a length. *)
Definition clamp (len i : Z) : Z :=
  let j := if i <? 0 then i + len else i in Z.max 0 (Z.min j len).

(** [s[a:b]], [s[a:]] and [s[:b]]. *)
Definition slice (s : string) (a b : Z) : string :=
  let a' := clamp (zlen s) a in
  let b' := clamp (zlen s) b in
  stake (Z.to_nat (b' - a')) (sdrop (Z.to_nat a') s).
Definition slice_from (s : string) (a : Z) : string := sdrop (Z.to_nat (clamp (zlen s) a)) s.
Definition slice_to (s : string) (b : Z) : string := stake (Z.to_nat (clamp (zlen s) b)) s.

(** [l[i]] and [l[i] = x] on lists, and the slices [l[a:b]]. *)
Definition py_nth {A} (l : list A) (i : Z) : option A :=
  let j := if i <? 0 then i + Z.of_nat (length l) else i in
  if j <? 0 then None else l !! Z.to_nat j.
Definition py_set {A} (l : list A) (i : Z) (x : A) : option (list A) :=
  let j := if i <? 0 then i + Z.of_nat (length l) else i in
  if (j <? 0) || (Z.of_nat (length l) <=? j) then None else Some (<[Z.to_nat j := x]> l).
Definition list_slice {A} (l : list A) (a b : Z) : list A :=
  let n := Z.of_nat (length l) in
  let a' := clamp n a in
  let b' := clamp n b in
  take (Z.to_nat (b' - a')) (drop (Z.to_nat a') l).

(** ** Searching *)

(** [s.startswith(p)] and [s.endswith(p)]. *)
Fixpoint startswith (s p : string) : bool :=
  match p, s with
  | EmptyString, _ => true
  | String a p', String b s' => Ascii.eqb a b && startswith s' p'
  | String _ _, EmptyString => false
  end.
Definition endswith (s p : string) : bool :=
  (zlen p <=? zlen s) && String.eqb (slice_from s (zlen s - zlen p)) p.

(** [s.find(sub)]: the first position, or -1; [find_from] counts from [i]. *)
Fixpoint find_from (s sub : string) (i : Z) : Z :=
  if startswith s sub then i
  else match s with
       | EmptyString => -1
       | String _ s' => find_from s' sub (i + 1)
       end.
Definition str_find (s sub : string) : Z := find_from s sub 0.

(** [s.find(sub, start)] for [0 <= start]. *)
Definition str_find_at (s sub : string) (start : Z) : Z :=
  if zlen s <? start then -1 else find_from (sdrop (Z.to_nat start) s) sub start.

(** [s.rfind(sub)]: the last position, or -1. *)
Fixpoint rfind_from (s sub : string) (i : Z) : Z :=
  let here := if startswith s sub then i else -1 in
  match s with
  | EmptyString => here
  | String _ s' => let r := rfind_from s' sub (i + 1) in if r <? 0 then here else r
  end.
Definition str_rfind (s sub : string) : Z := rfind_from s sub 0.

(** [sub in s]. *)
Definition contains (s sub : string) : bool := 0 <=? str_find s sub.

(** [s.count(c)] for a one-character string. *)
Fixpoint count_char (s : string) (c : ascii) : Z :=
  match s with
  | EmptyString => 0
  | String a s' => (if Ascii.eqb a c then 1 else 0) + count_char s' c
  end.

(** [s.count(sub)] for a substring that is not empty: occurrences without overlaps. *)
Fixpoint count_go (s sub : string) (skip : nat) : Z :=
  match s with
  | EmptyString => 0
  | String _ s' =>
      match skip with
      | S k => count_go s' sub k
      | O => if startswith s sub then 1 + count_go s' sub (String.length sub - 1)
             else count_go s' sub 0
      end
  end.
Definition str_count (s sub : string) : Z := count_go s sub 0.

(** ** Transformations *)

(** [s.replace(old, new)], [old] not empty: left to right, without overlaps.
    [skip] counts the characters of the last occurrence still to be passed. *)
Fixpoint replace_go (old new s : string) (skip : nat) : string :=
  match s with
  | EmptyString => EmptyString
  | String c s' =>
      match skip with
      | S k => replace_go old new s' k
      | O => if startswith s old
             then new +:+ replace_go old new s' (String.length old - 1)
             else String c (replace_go old new s' 0)
      end
  end.
Definition str_replace (s old new : string) : string := replace_go old new s 0.

Fixpoint smap (f : ascii -> ascii) (s : string) : string :=
  match s with
  | EmptyString => EmptyString
  | String c s' => String (f c) (smap f s')
  end.
Definition lower (s : string) : string := smap lower_char s.
Definition upper (s : string) : string := smap upper_char s.

(** [s.lstrip()] and [s.rstrip()] over a set of characters. *)
Fixpoint lstrip_by (p : ascii -> bool) (s : string) : string :=
  match s with
  | String c s' => if p c then lstrip_by p s' else s
  | EmptyString => EmptyString
  end.
Fixpoint rstrip_by (p : ascii -> bool) (s : string) : string :=
  match s with
  | EmptyString => EmptyString
  | String c s' =>
      match rstrip_by p s' with
      | EmptyString => if p c then EmptyString else String c EmptyString
      | r => String c r
      end
  end.
Definition lstrip (s : string) : string := lstrip_by is_space s.
Definition rstrip (s : string) : string := rstrip_by is_space s.
Definition strip (s : string) : string := lstrip (rstrip s).

(** [s.split(sep)] for a one-character separator: never empty. *)
Fixpoint split_char (sep : ascii) (s : string) : list string :=
  match s with
  | EmptyString => [EmptyString]
  | String c s' =>
      if Ascii.eqb c sep then EmptyString :: split_char sep s'
      else match split_char sep s' with
           | w :: ws => String c w :: ws
           | [] => [String c EmptyString]
           end
  end.

(** [s.split(sep)] for a separator that is not empty; [cur] is the piece read so
    far and [skip] counts the characters of a separator still to be passed. *)
Fixpoint split_str_go (sep s cur : string) (skip : nat) : list string :=
  match s with
  | EmptyString => [cur]
  | String c s' =>
      match skip with
      | S k => split_str_go sep s' cur k
      | O => if startswith s sep
             then cur :: split_str_go sep s' EmptyString (String.length sep - 1)
             else split_str_go sep s' (cur +:+ String c EmptyString) 0
      end
  end.
Definition split_str (s sep : string) : list string := split_str_go sep s EmptyString 0.

(** [s.split()]: the words between runs of whitespace; [cur] is the word read so
    far. *)
Fixpoint split_ws_go (s cur : string) : list string :=
  match s with
  | EmptyString => if String.eqb cur EmptyString then [] else [cur]
  | String c s' =>
      if is_space c
      then if String.eqb cur EmptyString then split_ws_go s' EmptyString
           else cur :: split_ws_go s' EmptyString
      else split_ws_go s' (cur +:+ String c EmptyString)
  end.
Definition split_ws (s : string) : list string := split_ws_go s EmptyString.

(** [sep.join(l)]. *)
Fixpoint join (sep : string) (l : list string) : string :=
  match l with
  | [] => EmptyString
  | [w] => w
  | w :: ws => w +:+ sep +:+ join sep ws
  end.

(** [all(p(c) for c in s)]. *)
Fixpoint sall (p : ascii -> bool) (s : string) : bool :=
  match s with
  | EmptyString => true
  | String c s' => p c && sall p s'
  end.

(** [s.isspace()]: not empty, and whitespace only. *)
Definition isspace (s : string) : bool := negb (String.eqb s EmptyString) && sall is_space s.

(** [s * n] for a one-character string. *)
Fixpoint repeat_char (c : ascii) (n : nat) : string :=
  match n with
  | O => EmptyString
  | S n' => String c (repeat_char c n')
  end.

(** [x in l] for a list or a set of strings given by its elements. *)
Definition str_mem (x : string) (l : list string) : bool := existsb (String.eqb x) l.

(** [a < b] on strings: code point order. *)
Fixpoint str_ltb (a b : string) : bool :=
  match a, b with
  | _, EmptyString => false
  | EmptyString, String _ _ => true
  | String x a', String y b' =>
      if Ascii.eqb x y then str_ltb a' b' else (code x <? code y)%N
  end.

(** [str(n)] and ['%d' % n]: decimal. *)
Fixpoint digits_of (fuel : nat) (n : Z) (acc : string) : string :=
  match fuel with
  | O => acc
  | S f =>
      let acc' := String (ascii_of_N (48 + Z.to_N (n mod 10))) acc in
      if n / 10 =? 0 then acc' else digits_of f (n / 10) acc'
  end.
Definition str_of_Z (n : Z) : string :=
  if n <? 0 then String "-" (digits_of (S (Z.to_nat (Z.log2 (- n)))) (- n) EmptyString)
  else digits_of (S (Z.to_nat (Z.log2 n))) n EmptyString.

(** ** Dictionaries: the list of the items in insertion order *)

Section Dict.
Context {V : Type}.

Fixpoint dict_get (k : string) (d : list (string * V)) : option V :=
  match d with
  | [] => None
  | (k', v) :: d' => if String.eqb k' k then Some v else dict_get k d'
  end.

(** [d[k] = v]: a key keeps its place. *)
Fixpoint dict_set (k : string) (v : V) (d : list (string * V)) : list (string * V) :=
  match d with
  | [] => [(k, v)]
  | (k', v') :: d' => if String.eqb k' k then (k, v) :: d' else (k', v') :: dict_set k v d'
  end.

(** [d.setdefault(k, v)]. *)
Definition dict_setdefault (k : string) (v : V) (d : list (string * V)) : list (string * V) :=
  match dict_get k d with Some _ => d | None => d ++ [(k, v)] end.

(** [dict(items)]. *)
Definition dict_of (items : list (string * V)) : list (string * V) :=
  fold_left (fun d '(k, v) => dict_set k v d) items [].
End Dict.

(** ** Lemmas *)

Lemma slength_app s t : String.length (s +:+ t) = (String.length s + String.length t)%nat.
Proof. induction s; simpl; congruence. Qed.

Lemma zlen_nonneg s : 0 <= zlen s.
Proof. unfold zlen. lia. Qed.

Lemma zlen_app s t : zlen (s +:+ t) = zlen s + zlen t.
Proof. unfold zlen. rewrite slength_app. lia. Qed.

Lemma sapp_nil_r s : s +:+ EmptyString = s.
Proof. induction s; simpl; congruence. Qed.

Lemma sapp_assoc s t u : (s +:+ t) +:+ u = s +:+ t +:+ u.
Proof. induction s; simpl; congruence. Qed.

Lemma slength_sdrop n s : String.length (sdrop n s) = (String.length s - n)%nat.
Proof. revert s; induction n; intros []; simpl; auto. Qed.

Lemma slength_stake n s : String.length (stake n s) = Nat.min n (String.length s).
Proof. revert s; induction n; intros []; simpl; auto. Qed.

Lemma stake_sdrop n s : stake n s +:+ sdrop n s = s.
Proof. revert s; induction n; intros []; simpl; congruence. Qed.

Lemma sdrop_sdrop n m s : sdrop n (sdrop m s) = sdrop (m + n) s.
Proof.
  revert s; induction m; intros s; simpl; [done|]. destruct s; [by destruct n | apply IHm].
Qed.

Lemma sdrop_app a b : sdrop (String.length a) (a +:+ b) = b.
Proof. induction a; simpl; [done | assumption]. Qed.

Lemma stake_app a b : stake (String.length a) (a +:+ b) = a.
Proof. induction a; simpl; [by destruct b | congruence]. Qed.

Lemma sget_lt n s c : sget n s = Some c -> (n < String.length s)%nat.
Proof.
  revert s; induction n; intros []; simpl; try done; try lia. intros H%IHn. lia.
Qed.

Lemma sget_is_Some n s : (n < String.length s)%nat -> is_Some (sget n s).
Proof.
  revert s; induction n; intros []; simpl; try lia; [eauto|]. intros. apply IHn. lia.
Qed.

Lemma sget_sdrop n s c : sget n s = Some c -> sdrop n s = String c (sdrop (S n) s).
Proof. revert s; induction n; intros []; simpl; try done; [congruence | apply IHn]. Qed.

Lemma zlen_slice_le s a b : zlen (slice s a b) <= zlen s.
Proof. unfold slice, zlen. rewrite slength_stake, slength_sdrop. lia. Qed.

Lemma startswith_app s p : startswith (p +:+ s) p = true.
Proof. induction p; simpl; [by destruct s|]. by rewrite Ascii.eqb_refl. Qed.

Lemma startswith_true s p : startswith s p = true <-> exists t, s = p +:+ t.
Proof.
  split.
  - revert s; induction p as [|a p IH]; intros s; [by exists s|].
    destruct s as [|b s]; simpl; [done|]. intros H; bools; subst.
    destruct (IH s) as [t ->]; [done | by exists t].
  - intros [t ->]. apply startswith_app.
Qed.

Lemma endswith_true s p : endswith s p = true <-> exists t, s = t +:+ p.
Proof.
  unfold endswith, slice_from, clamp, zlen. split.
  - intros [_ E]%andb_true_iff. apply String.eqb_eq in E.
    revert E. generalize (Z.to_nat (0 `max`
      ((if Z.of_nat (String.length s) - Z.of_nat (String.length p) <? 0
        then Z.of_nat (String.length s) - Z.of_nat (String.length p) + Z.of_nat (String.length s)
        else Z.of_nat (String.length s) - Z.of_nat (String.length p))
       `min` Z.of_nat (String.length s)))).
    intros n <-. exists (stake n s). symmetry. apply stake_sdrop.
  - intros [t ->]. rewrite slength_app. apply andb_true_iff. split; [apply Z.leb_le; lia|].
    rewrite (proj2 (Z.ltb_ge _ _)) by lia.
    replace (Z.to_nat _) with (String.length t) by lia.
    apply String.eqb_eq, sdrop_app.
Qed.

Lemma split_char_nonempty sep s : split_char sep s <> [].
Proof. destruct s; simpl; repeat case_match; done. Qed.

(** Splitting on a separator and joining with it gives the string back. *)
Lemma join_split_char sep s : join (String sep EmptyString) (split_char sep s) = s.
Proof.
  induction s as [|c s IH]; [done|]. simpl.
  pose proof (split_char_nonempty sep s) as Hne.
  destruct (Ascii.eqb c sep) eqn:E; bools; subst.
  - destruct (split_char sep s); [done|]. simpl. f_equal. exact IH.
  - destruct (split_char sep s) as [|w ws] eqn:Hs; [done|].
    destruct ws; simpl in *; by rewrite <- IH.
Qed.

(** The words of a split do not hold the separator. *)
Lemma split_char_no_sep sep s :
  Forall (fun w => sall (fun c => negb (Ascii.eqb c sep)) w = true) (split_char sep s).
Proof.
  induction s as [|c s IH]; [repeat constructor|]. simpl.
  destruct (Ascii.eqb c sep) eqn:E; [by constructor|].
  destruct (split_char sep s); [constructor; [simpl; by rewrite E | done]|].
  inversion IH; subst. constructor; [|done]. simpl. rewrite E. done.
Qed.

Lemma find_from_ge s sub i : find_from s sub i = -1 \/ i <= find_from s sub i.
Proof.
  revert i; induction s as [|c s IH]; intros i; simpl; case_match; try lia; auto.
  destruct (IH (i + 1)); [by left | right; lia].
Qed.

(** [find] returns a position at which the substring stands, and no earlier one does. *)
Lemma find_from_spec s sub i :
  0 <= i ->
  (find_from s sub i = -1 /\ forall n, (n <= String.length s)%nat -> startswith (sdrop n s) sub = false)
  \/ (exists n, find_from s sub i = i + Z.of_nat n /\ (n <= String.length s)%nat
      /\ startswith (sdrop n s) sub = true
      /\ forall m, (m < n)%nat -> startswith (sdrop m s) sub = false).
Proof.
  revert i; induction s as [|c s IH]; intros i Hi; cbn [find_from].
  - destruct (startswith "" sub) eqn:E.
    + right. exists O. repeat split; [lia | simpl; lia | done | lia].
    + left. split; [done|]. intros [|n]; simpl; [done | lia].
  - destruct (startswith (String c s) sub) eqn:E.
    + right. exists O. repeat split; [lia | simpl; lia | done | lia].
    + destruct (IH (i + 1) ltac:(lia)) as [[-> H]|(n & -> & Hn & Hs & Hm)].
      * left. split; [done|]. intros [|n] ?; simpl in *; [done | apply H; lia].
      * right. exists (S n). repeat split; [lia | simpl; lia | done |].
        intros [|m] ?; simpl; [done | apply Hm; lia].
Qed.

Lemma str_find_cases s sub :
  (str_find s sub = -1 /\ contains s sub = false)
  \/ exists a b, s = a +:+ sub +:+ b /\ str_find s sub = zlen a.
Proof.
  unfold contains, str_find.
  destruct (find_from_spec s sub 0) as [[E _]|(n & E & Hn & Hs & _)]; [lia| |].
  - left. by rewrite E.
  - right. apply startswith_true in Hs as [t Ht]. exists (stake n s), t. split.
    + by rewrite <- Ht, stake_sdrop.
    + rewrite E. unfold zlen. rewrite slength_stake. lia.
Qed.

(** An occurrence that [find] returns lies within the string. *)
Lemma str_find_bound s sub : 0 <= str_find s sub -> str_find s sub + zlen sub <= zlen s.
Proof.
  destruct (str_find_cases s sub) as [[-> _]|(a & b & -> & ->)]; [lia|].
  rewrite !zlen_app. pose proof (zlen_nonneg b). lia.
Qed.

Lemma zlen_slice_from s a : 0 <= a <= zlen s -> zlen (slice_from s a) = zlen s - a.
Proof.
  unfold slice_from, clamp. intros H. rewrite (proj2 (Z.ltb_ge _ _)) by lia.
  unfold zlen in *. rewrite slength_sdrop. lia.
Qed.

Lemma contains_spec s sub :
  contains s sub = true <-> exists a b, s = a +:+ sub +:+ b.
Proof.
  unfold contains, str_find. rewrite Z.leb_le. split.
  - intros H. destruct (find_from_spec s sub 0) as [[E _]|(n & E & Hn & Hs & _)]; [lia..|].
    apply startswith_true in Hs as [t Ht]. exists (stake n s), t.
    by rewrite <- Ht, stake_sdrop.
  - intros (a & b & ->).
    destruct (find_from_spec (a +:+ sub +:+ b) sub 0) as [[_ H]|(n & -> & _)]; [lia| |lia].
    specialize (H (String.length a)). rewrite slength_app in H.
    rewrite sdrop_app, startswith_app in H. discriminate H. lia.
Qed.

Lemma slength_smap f s : String.length (smap f s) = String.length s.
Proof. induction s; simpl; congruence. Qed.

Lemma contains_prefix a b sub : contains (a +:+ b) sub = false -> contains a sub = false.
Proof.
  rewrite <- !not_true_iff_false, !contains_spec. intros H (u & v & ->). apply H.
  exists u, (v +:+ b). by rewrite !sapp_assoc.
Qed.

Lemma str_mem_In x l : str_mem x l = true <-> In x l.
Proof.
  unfold str_mem. rewrite existsb_exists. split.
  - intros (y & Hy & E). bools. by subst.
  - intros H. exists x. by rewrite String.eqb_refl.
Qed.

Lemma sall_app p s t : sall p (s +:+ t) = sall p s && sall p t.
Proof. induction s; simpl; [done|]. by rewrite IHs, andb_assoc. Qed.

Lemma sall_ext p q s : (forall c, p c = q c) -> sall p s = sall q s.
Proof. intros H. induction s; simpl; [done|]. by rewrite H, IHs. Qed.

Lemma str_ltb_irrefl s : str_ltb s s = false.
Proof. induction s; simpl; [done|]. by rewrite Ascii.eqb_refl. Qed.

Lemma code_inj a b : code a = code b -> a = b.
Proof.
  intros H. rewrite <- (ascii_N_embedding a), <- (ascii_N_embedding b).
  unfold code in H. by rewrite H.
Qed.

Lemma str_ltb_trans a b c : str_ltb a b = true -> str_ltb b c = true -> str_ltb a c = true.
Proof.
  revert b c; induction a as [|x a IH]; intros [|y b] [|z c]; simpl; try done.
  destruct (Ascii.eqb x y) eqn:Exy; destruct (Ascii.eqb y z) eqn:Eyz; bools; subst.
  - rewrite Ascii.eqb_refl. eauto.
  - rewrite (proj2 (Ascii.eqb_neq _ _)); done.
  - rewrite (proj2 (Ascii.eqb_neq _ _)); done.
  - rewrite !N.ltb_lt. intros. rewrite (proj2 (Ascii.eqb_neq _ _)); [apply N.ltb_lt; lia|].
    intros ->. lia.
Qed.

Lemma py_nth_lt {A} (l : list A) (i : Z) x :
  0 <= i -> py_nth l i = Some x -> i < Z.of_nat (length l).
Proof.
  unfold py_nth. intros Hi. destruct (i <? 0) eqn:E; bools; [lia|].
  rewrite (proj2 (Z.ltb_ge _ _)) by lia. intros H%lookup_lt_Some. lia.
Qed.

Lemma py_nth_is_Some {A} (l : list A) (i : Z) :
  0 <= i < Z.of_nat (length l) -> is_Some (py_nth l i).
Proof.
  unfold py_nth. intros Hi. rewrite (proj2 (Z.ltb_ge i 0)) by lia.
  rewrite (proj2 (Z.ltb_ge i 0)) by lia. apply lookup_lt_is_Some_2. lia.
Qed.

Lemma str_at_lt s i c : 0 <= i -> str_at s i = Some c -> i < zlen s.
Proof.
  unfold str_at, zlen. intros Hi. rewrite (proj2 (Z.ltb_ge i 0)) by lia.
  rewrite (proj2 (Z.ltb_ge i 0)) by lia. intros H%sget_lt. lia.
Qed.

Lemma str_at_is_Some s i : 0 <= i < zlen s -> is_Some (str_at s i).
Proof.
  unfold str_at, zlen. intros Hi. rewrite (proj2 (Z.ltb_ge i 0)) by lia.
  rewrite (proj2 (Z.ltb_ge i 0)) by lia. apply sget_is_Some. lia.
Qed.

#[export] Hint Rewrite slength_app zlen_app sapp_nil_r sapp_assoc slength_sdrop slength_stake
  stake_sdrop slength_smap sall_app @length_app @length_insert @length_map : pysimp.
#[export] Hint Resolve zlen_nonneg startswith_app split_char_nonempty str_ltb_irrefl : py.

Lemma slice_from_app a b : slice_from (a +:+ b) (zlen a) = b.
Proof.
  unfold slice_from, clamp. pose proof (zlen_nonneg a). pose proof (zlen_nonneg b).
  rewrite (proj2 (Z.ltb_ge _ _)), zlen_app, Z.min_l, Z.max_r by lia.
  unfold zlen. rewrite Nat2Z.id. apply sdrop_app.
Qed.

Lemma slice_to_app a b : slice_to (a +:+ b) (zlen a) = a.
Proof.
  unfold slice_to, clamp. pose proof (zlen_nonneg a). pose proof (zlen_nonneg b).
  rewrite (proj2 (Z.ltb_ge _ _)), zlen_app, Z.min_l, Z.max_r by lia.
  unfold zlen. rewrite Nat2Z.id. apply stake_app.
Qed.

Lemma zlen_String c s : zlen (String c s) = zlen s + 1.
Proof. unfold zlen. simpl. lia. Qed.

(** The last occurrence of one character. *)
Lemma rfind_from_char c s : forall i, 0 <= i ->
  (sall (fun d => negb (Ascii.eqb c d)) s = true /\ rfind_from s (String c EmptyString) i = -1) \/
  exists a b, s = a +:+ String c b /\ sall (fun d => negb (Ascii.eqb c d)) b = true
    /\ rfind_from s (String c EmptyString) i = i + zlen a.
Proof.
  induction s as [|d s IH]; intros i Hi; simpl; [by left|].
  destruct (IH (i + 1)) as [[H ->]|(a & b & -> & H & E)]; [lia| |].
  - rewrite H, !andb_true_r. simpl. destruct (Ascii.eqb c d) eqn:E; bools.
    + right. exists EmptyString, s. subst. simpl. split_and!; [done|done|].
      replace (startswith s "") with true by (by destruct s). unfold zlen. simpl. lia.
    + by left.
  - right. exists (String d a), b. split_and!; [done|done|]. rewrite E.
    pose proof (zlen_nonneg a). rewrite (proj2 (Z.ltb_ge _ _)), zlen_String by lia. lia.
Qed.

Lemma str_rfind_char c s :
  (sall (fun d => negb (Ascii.eqb c d)) s = true /\ str_rfind s (String c EmptyString) = -1) \/
  exists a b, s = a +:+ String c b /\ sall (fun d => negb (Ascii.eqb c d)) b = true
    /\ str_rfind s (String c EmptyString) = zlen a.
Proof. unfold str_rfind. apply (rfind_from_char c s 0). lia. Qed.

(** [rstrip] cuts off the longest suffix of such characters. *)
Lemma rstrip_by_app p s : exists t, s = rstrip_by p s +:+ t /\ sall p t = true.
Proof.
  induction s as [|c s (t & Hs & Ht)]; simpl; [by exists EmptyString|].
  destruct (rstrip_by p s) as [|d r] eqn:E.
  - simpl in Hs. subst. destruct (p c) eqn:Ec.
    + exists (String c t). simpl. by rewrite Ec.
    + by exists t.
  - exists t. split; [|done]. simpl in *. by f_equal.
Qed.

Lemma rstrip_by_snoc p s c : p c = true -> rstrip_by p (s +:+ String c EmptyString) = rstrip_by p s.
Proof. intros Hc. induction s as [|d s IH]; simpl; [by rewrite Hc|]. by rewrite IH. Qed.

Lemma rstrip_by_nil p s : rstrip_by p s = EmptyString <-> sall p s = true.
Proof.
  induction s as [|c s IH]; simpl; [done|].
  destruct (rstrip_by p s), (p c); simpl; naive_solver.
Qed.

Lemma sapp_inv_head a b c : a +:+ b = a +:+ c -> b = c.
Proof. induction a; simpl; [done|]. intros H. simplify_eq. auto. Qed.

Lemma startswith_nil s : startswith s EmptyString = true.
Proof. by destruct s. Qed.

Lemma dict_get_set {V} k k' (v : V) d :
  dict_get k' (dict_set k v d) = if String.eqb k k' then Some v else dict_get k' d.
Proof.
  induction d as [|[k0 v0] d IH]; cbn [dict_set dict_get]; [done|].
  destruct (String.eqb_spec k0 k) as [->|Hne]; cbn [dict_get].
  - by destruct (String.eqb k k').
  - destruct (String.eqb_spec k0 k') as [->|]; [|exact IH].
    destruct (String.eqb_spec k k') as [->|]; done.
Qed.
