(* ===== verification/Regex.v ===== *)
(** * Python's regular expressions: syntax, matching and its specification

    The sources use [re] and [sre_compile] throughout.  This file models the
    matcher of the standard library as a backtracking matcher in
    continuation-passing style, in the priority order of [sre] (an alternative
    before the next one, a greedy repeat before its exit, a lazy one after it,
    and no further iteration of a repeat after an empty one).  Two
    specifications stand beside it: the ordered list of all results
    ([results]), of which the matcher returns the first that its continuation
    accepts, and a relation ([den]) without fuel or order, which says between
    which two states an expression can match at all. *)

From stdpp Require Import base list strings.
From Stdlib Require Import ZArith Lia Ascii.
From S2P Require Import Prelude PyString.

(** ** Syntax *)

(** Character classes: [\d], [\s], [\w]. *)
Inductive cclass := CDigit | CSpace | CWord.

(** An item of a set: a range of characters, or a class or its complement. *)
Inductive citem :=
  | CRange (lo hi : ascii)
  | CClass (k : cclass) (negated : bool).

Inductive regex :=
  | REmpty
  | RSet (negated : bool) (items : list citem)
  | RAny
  | RSeq (a b : regex)
  | RAlt (a b : regex)
  | RRep (greedy : bool) (lo : nat) (hi : option nat) (a : regex)
  | RGroup (n : nat) (a : regex)
  | RBackref (n : nat)
  | RLook (positive : bool) (a : regex)
  | RBegin
  | REnd
  | RWordB
  | RNotWordB.

(** [re.I] and [re.S]. *)
Record flags := Flags { icase : bool; dotall : bool }.
Definition no_flags : flags := Flags false false.

(** ** Characters and sets *)

Definition class_mem (k : cclass) (c : ascii) : bool :=
  match k with CDigit => is_digit c | CSpace => is_space c | CWord => is_word c end.

Definition item_mem (c : ascii) (i : citem) : bool :=
  match i with
  | CRange lo hi => in_range c (code lo) (code hi)
  | CClass k negated => xorb negated (class_mem k c)
  end.

(** With [re.I] a character matches when one of its case variants does. *)
Definition set_mem (fl : flags) (negated : bool) (items : list citem) (c : ascii) : bool :=
  xorb negated
    (existsb (item_mem c) items
     || icase fl && (existsb (item_mem (lower_char c)) items
                     || existsb (item_mem (upper_char c)) items)).

Definition chars_eq (fl : flags) (a b : ascii) : bool :=
  Ascii.eqb a b || icase fl && Ascii.eqb (lower_char a) (lower_char b).

(** ** Matcher states *)

(** A state: the position, the character before it, the text after it and the
    groups closed so far, the last one first. *)
Record state := St {
  pos : nat;
  before : option ascii;
  rest : string;
  caps : list (nat * (nat * nat))
}.

Definition advance (x : state) (c : ascii) (r : string) : state :=
  St (S (pos x)) (Some c) r (caps x).
Definition set_cap (n start : nat) (x : state) : state :=
  St (pos x) (before x) (rest x) ((n, (start, pos x)) :: caps x).

Fixpoint cap_lookup (n : nat) (cs : list (nat * (nat * nat))) : option (nat * nat) :=
  match cs with
  | [] => None
  | (m, se) :: cs' => if Nat.eqb m n then Some se else cap_lookup n cs'
  end.

(** One character that satisfies [p]. *)
Definition eat (p : ascii -> bool) (x : state) : option state :=
  match rest x with
  | String c r => if p c then Some (advance x c r) else None
  | EmptyString => None
  end.

(** The given text, character by character. *)
Fixpoint eat_text (fl : flags) (t : string) (x : state) : option state :=
  match t with
  | EmptyString => Some x
  | String c t' =>
      match eat (chars_eq fl c) x with
      | Some y => eat_text fl t' y
      | None => None
      end
  end.

Definition word_at (o : option ascii) : bool :=
  match o with Some c => is_word c | None => false end.
Definition next_char (x : state) : option ascii :=
  match rest x with String c _ => Some c | EmptyString => None end.
Definition at_word_boundary (x : state) : bool :=
  xorb (word_at (before x)) (word_at (next_char x)).

(** [$] without [re.M]: the end, or a newline that is the last character. *)
Definition at_end (x : state) : bool :=
  match rest x with
  | EmptyString => true
  | String c EmptyString => (code c =? 10)%N
  | _ => false
  end.

Definition dec (hi : option nat) : option nat := option_map Nat.pred hi.

(** Whether a repeat may try one more iteration: the bound is not reached and
    the last iteration, if any, moved. *)
Definition may_iterate (hi : option nat) (last : option nat) (x : state) : bool :=
  match hi with Some O => false | _ => true end
  && match last with Some p => negb (Nat.eqb p (pos x)) | None => true end.

(** Fuel that a repeat never exhausts: every iteration but the last moves. *)
Definition loop_fuel (x : state) : nat := S (S (String.length (rest x))).

Section Engine.
Context (fl : flags) (subject : string).

(** ** The matcher *)

Section Loops.
Context {A : Type} (body : (state -> option A) -> state -> option A).

(** The iterations of a repeat past its lower bound. *)
Fixpoint loop (greedy : bool) (fuel : nat) (hi : option nat) (last : option nat)
    (k : state -> option A) (x : state) : option A :=
  match fuel with
  | O => None
  | S f =>
      let more :=
        if may_iterate hi last x
        then body (loop greedy f (dec hi) (Some (pos x)) k) x
        else None in
      if greedy
      then match more with Some r => Some r | None => k x end
      else match k x with Some r => Some r | None => more end
  end.

(** The iterations up to the lower bound. *)
Fixpoint times (lo : nat) (k : state -> option A) (x : state) : option A :=
  match lo with
  | O => k x
  | S n => body (times n k) x
  end.
End Loops.

Definition text_of_group (n : nat) (x : state) : option string :=
  match cap_lookup n (caps x) with
  | Some (s, e) => Some (stake (e - s) (sdrop s subject))
  | None => None
  end.

Definition sub_hi (hi : option nat) (lo : nat) : option nat :=
  option_map (fun h => h - lo) hi.

Fixpoint run {A : Type} (r : regex) (k : state -> option A) (x : state) {struct r} : option A :=
  match r with
  | REmpty => k x
  | RSet negated items =>
      match eat (set_mem fl negated items) x with Some y => k y | None => None end
  | RAny =>
      match eat (fun c => dotall fl || negb (code c =? 10)%N) x with
      | Some y => k y
      | None => None
      end
  | RSeq a b => run a (run b k) x
  | RAlt a b => match run a k x with Some r' => Some r' | None => run b k x end
  | RRep greedy lo hi a =>
      times (run a) lo
        (fun y => loop (run a) greedy (loop_fuel y) (sub_hi hi lo) None k y) x
  | RGroup n a => run a (fun y => k (set_cap n (pos x) y)) x
  | RBackref n =>
      match text_of_group n x with
      | Some t => match eat_text fl t x with Some y => k y | None => None end
      | None => None
      end
  | RLook positive a =>
      match run a (fun y => Some y) x with
      | Some _ => if positive then k x else None
      | None => if positive then None else k x
      end
  | RBegin => if Nat.eqb (pos x) 0 then k x else None
  | REnd => if at_end x then k x else None
  | RWordB => if at_word_boundary x then k x else None
  | RNotWordB => if at_word_boundary x then None else k x
  end.

(** ** The ordered results *)

Definition opt_list {B} (o : option B) : list B := match o with Some b => [b] | None => [] end.

Section LoopResults.
Context (body : state -> list state).

Fixpoint loop_results (greedy : bool) (fuel : nat) (hi last : option nat) (x : state)
    : list state :=
  match fuel with
  | O => []
  | S f =>
      let more :=
        if may_iterate hi last x
        then flat_map (loop_results greedy f (dec hi) (Some (pos x))) (body x)
        else [] in
      if greedy then more ++ [x] else x :: more
  end.

Fixpoint times_results (lo : nat) (x : state) : list state :=
  match lo with
  | O => [x]
  | S n => flat_map (times_results n) (body x)
  end.
End LoopResults.

Fixpoint results (r : regex) (x : state) {struct r} : list state :=
  match r with
  | REmpty => [x]
  | RSet negated items => opt_list (eat (set_mem fl negated items) x)
  | RAny => opt_list (eat (fun c => dotall fl || negb (code c =? 10)%N) x)
  | RSeq a b => flat_map (results b) (results a x)
  | RAlt a b => results a x ++ results b x
  | RRep greedy lo hi a =>
      flat_map
        (fun y => loop_results (results a) greedy (loop_fuel y) (sub_hi hi lo) None y)
        (times_results (results a) lo x)
  | RGroup n a => map (set_cap n (pos x)) (results a x)
  | RBackref n =>
      match text_of_group n x with
      | Some t => opt_list (eat_text fl t x)
      | None => []
      end
  | RLook positive a =>
      match results a x with
      | [] => if positive then [] else [x]
      | _ :: _ => if positive then [x] else []
      end
  | RBegin => if Nat.eqb (pos x) 0 then [x] else []
  | REnd => if at_end x then [x] else []
  | RWordB => if at_word_boundary x then [x] else []
  | RNotWordB => if at_word_boundary x then [] else [x]
  end.

(** ** The relation *)

(** The iterations of a repeat past its lower bound. *)
Inductive iters (R : state -> state -> Prop) : option nat -> option nat -> state -> state -> Prop :=
  | iters_stop hi last x : iters R hi last x x
  | iters_more hi last x y z :
      may_iterate hi last x = true ->
      R x y -> iters R (dec hi) (Some (pos x)) y z -> iters R hi last x z.

Inductive exactly (R : state -> state -> Prop) : nat -> state -> state -> Prop :=
  | exactly_0 x : exactly R 0 x x
  | exactly_S n x y z : R x y -> exactly R n y z -> exactly R (S n) x z.

Fixpoint den (r : regex) (x y : state) {struct r} : Prop :=
  match r with
  | REmpty => y = x
  | RSet negated items => eat (set_mem fl negated items) x = Some y
  | RAny => eat (fun c => dotall fl || negb (code c =? 10)%N) x = Some y
  | RSeq a b => exists z, den a x z /\ den b z y
  | RAlt a b => den a x y \/ den b x y
  | RRep _ lo hi a =>
      exists z, exactly (den a) lo x z /\ iters (den a) (sub_hi hi lo) None z y
  | RGroup n a => exists z, den a x z /\ y = set_cap n (pos x) z
  | RBackref n => exists t, text_of_group n x = Some t /\ eat_text fl t x = Some y
  | RLook true a => y = x /\ exists z, den a x z
  | RLook false a => y = x /\ forall z, ~ den a x z
  | RBegin => y = x /\ pos x = 0
  | REnd => y = x /\ at_end x = true
  | RWordB => y = x /\ at_word_boundary x = true
  | RNotWordB => y = x /\ at_word_boundary x = false
  end.

(** ** The matcher returns the first accepted result *)

Fixpoint first_some {B C} (k : B -> option C) (l : list B) : option C :=
  match l with
  | [] => None
  | b :: l' => match k b with Some c => Some c | None => first_some k l' end
  end.

Lemma first_some_app {B C} (k : B -> option C) l1 l2 :
  first_some k (l1 ++ l2) =
  match first_some k l1 with Some c => Some c | None => first_some k l2 end.
Proof. induction l1 as [|b l1 IH]; simpl; [done|]. by destruct (k b). Qed.

Lemma first_some_flat_map {B C D} (k : C -> option D) (f : B -> list C) l :
  first_some k (flat_map f l) = first_some (fun b => first_some k (f b)) l.
Proof.
  induction l as [|b l IH]; simpl; [done|]. rewrite first_some_app, IH. done.
Qed.

Lemma first_some_map {B C D} (k : C -> option D) (f : B -> C) l :
  first_some k (map f l) = first_some (fun b => k (f b)) l.
Proof. induction l as [|b l IH]; simpl; [done|]. by rewrite IH. Qed.

Lemma first_some_ext {B C} (k k' : B -> option C) l :
  (forall b, k b = k' b) -> first_some k l = first_some k' l.
Proof. intros H. induction l as [|b l IH]; simpl; [done|]. by rewrite H, IH. Qed.

Lemma first_some_opt {B C} (k : B -> option C) o :
  first_some k (opt_list o) = match o with Some b => k b | None => None end.
Proof. destruct o; simpl; [by destruct (k b) | done]. Qed.

Lemma loop_first {A} (body : (state -> option A) -> state -> option A) bres greedy k :
  (forall k' x, body k' x = first_some k' (bres x)) ->
  forall fuel hi last x,
    loop body greedy fuel hi last k x = first_some k (loop_results bres greedy fuel hi last x).
Proof.
  intros Hb fuel. induction fuel as [|f IH]; intros hi last x; [done|]. cbn [loop loop_results].
  assert (Hmore : (if may_iterate hi last x
                   then body (loop body greedy f (dec hi) (Some (pos x)) k) x else None) =
                  first_some k (if may_iterate hi last x
                   then flat_map (loop_results bres greedy f (dec hi) (Some (pos x))) (bres x)
                   else [])).
  { destruct (may_iterate hi last x); [|done].
    rewrite Hb, first_some_flat_map. apply first_some_ext. intros y. apply IH. }
  rewrite Hmore. destruct greedy; [|done]. rewrite first_some_app. simpl. by destruct (k x).
Qed.

Lemma times_first {A} (body : (state -> option A) -> state -> option A) bres k :
  (forall k' x, body k' x = first_some k' (bres x)) ->
  forall lo x, times body lo k x = first_some k (times_results bres lo x).
Proof.
  intros Hb lo. induction lo as [|n IH]; intros x; simpl; [by destruct (k x)|].
  rewrite Hb, first_some_flat_map. apply first_some_ext. intros y. apply IH.
Qed.

Lemma run_first r : forall A (k : state -> option A) x,
  run r k x = first_some k (results r x).
Proof.
  induction r; intros A k x; cbn [run results];
    try (by rewrite first_some_opt); try (case_match; simpl; try case_match; done).
  - simpl. by destruct (k x).
  - rewrite IHr1, first_some_flat_map. apply first_some_ext. intros y. apply IHr2.
  - by rewrite first_some_app, IHr1, IHr2.
  - rewrite (times_first _ (results r)) by (intros; apply IHr).
    rewrite first_some_flat_map. apply first_some_ext. intros y.
    apply loop_first. intros; apply IHr.
  - rewrite IHr, first_some_map. done.
  - destruct (text_of_group n x); [by rewrite first_some_opt | done].
  - rewrite IHr. destruct (results r x), positive; simpl; by try destruct (k x).
Qed.

(** ** The results are those of the relation *)

(** A state follows another one: it is further right in the same text. *)
Definition follows (x y : state) : Prop :=
  pos x <= pos y /\ pos y + String.length (rest y) = pos x + String.length (rest x).

Lemma follows_refl x : follows x x.
Proof. split; lia. Qed.

Lemma follows_trans x y z : follows x y -> follows y z -> follows x z.
Proof. unfold follows. lia. Qed.

Lemma eat_follows p x y : eat p x = Some y -> follows x y.
Proof.
  unfold eat, follows. destruct (rest x) as [|c r] eqn:E; [done|].
  destruct (p c); [|done]. intros [= <-]. simpl. lia.
Qed.

Lemma eat_text_follows t : forall x y, eat_text fl t x = Some y -> follows x y.
Proof.
  induction t as [|c t IH]; simpl; intros x y; [intros [= ->]; apply follows_refl|].
  destruct (eat (chars_eq fl c) x) as [z|] eqn:E; [|done].
  intros H. eapply follows_trans; [by eapply eat_follows | by apply IH].
Qed.

Lemma exactly_follows R n x y :
  (forall x y, R x y -> follows x y) -> exactly R n x y -> follows x y.
Proof. intros HR. induction 1; eauto using follows_refl, follows_trans. Qed.

Lemma iters_follows R hi last x y :
  (forall x y, R x y -> follows x y) -> iters R hi last x y -> follows x y.
Proof. intros HR. induction 1; eauto using follows_refl, follows_trans. Qed.

Lemma den_follows r : forall x y, den r x y -> follows x y.
Proof.
  induction r; intros x y; cbn [den].
  - intros ->. apply follows_refl.
  - apply eat_follows.
  - apply eat_follows.
  - intros (z & H1 & H2). eauto using follows_trans.
  - intros [H|H]; eauto.
  - intros (z & H1 & H2). eapply follows_trans.
    + by eapply exactly_follows, H1.
    + by eapply iters_follows, H2.
  - intros (z & H & ->). apply IHr in H. exact H.
  - intros (t & _ & H). by eapply eat_text_follows.
  - destruct positive; intros [-> _]; apply follows_refl.
  - intros [-> _]; apply follows_refl.
  - intros [-> _]; apply follows_refl.
  - intros [-> _]; apply follows_refl.
  - intros [-> _]; apply follows_refl.
Qed.

(** Fuel that is enough for the iterations from [x] after an iteration from [last]. *)
Definition enough (fuel : nat) (last : option nat) (x : state) : Prop :=
  (last = Some (pos x) /\ 1 <= fuel) \/ loop_fuel x <= fuel.

Lemma enough_step f hi last x y :
  enough (S f) last x -> may_iterate hi last x = true -> follows x y ->
  enough f (Some (pos x)) y.
Proof.
  unfold enough, may_iterate, loop_fuel. intros He Hm [H1 H2].
  destruct He as [[-> _]|He].
  - rewrite Nat.eqb_refl, andb_false_r in Hm. done.
  - destruct (decide (pos x = pos y)) as [Heq|]; [left; split; [by rewrite Heq | lia] | right; lia].
Qed.

Lemma loop_results_iters body R greedy :
  (forall x y, In y (body x) <-> R x y) -> (forall x y, R x y -> follows x y) ->
  forall fuel hi last x y, enough fuel last x ->
    In y (loop_results body greedy fuel hi last x) <-> iters R hi last x y.
Proof.
  intros Hb Hf fuel. induction fuel as [|f IH]; intros hi last x y He.
  { destruct He as [[_ ?]|?]; unfold loop_fuel in *; lia. }
  cbn [loop_results].
  assert (Hmore : In y (if may_iterate hi last x
      then flat_map (loop_results body greedy f (dec hi) (Some (pos x))) (body x) else [])
      <-> may_iterate hi last x = true /\ exists z, R x z /\ iters R (dec hi) (Some (pos x)) z y).
  { destruct (may_iterate hi last x) eqn:Hm; [|split; [done | intros [? _]; done]].
    rewrite in_flat_map. split.
    - intros (z & Hz%Hb & Hy). split; [done|]. exists z. split; [done|].
      eapply IH, Hy. eapply enough_step; eauto.
    - intros (_ & z & Hz & Hi). exists z. split; [by apply Hb|].
      eapply IH, Hi. eapply enough_step; eauto. }
  transitivity (y = x \/ (may_iterate hi last x = true
      /\ exists z, R x z /\ iters R (dec hi) (Some (pos x)) z y)).
  - destruct greedy.
    + rewrite in_app_iff, Hmore. simpl. intuition auto.
    + simpl. rewrite Hmore. intuition auto.
  - split.
    + intros [->|(Hm & z & Hz & Hi)]; [constructor | by econstructor].
    + inversion 1 as [|? ? ? z ? Hm Hz Hi]; subst; [by left|].
      right. split; [done|]. by exists z.
Qed.

Lemma times_results_exactly body R :
  (forall x y, In y (body x) <-> R x y) ->
  forall lo x y, In y (times_results body lo x) <-> exactly R lo x y.
Proof.
  intros Hb lo. induction lo as [|n IH]; intros x y; simpl.
  - split; [intros [->|[]]; constructor | inversion 1; auto].
  - rewrite in_flat_map. setoid_rewrite Hb. setoid_rewrite IH. split.
    + intros (z & H1 & H2). by econstructor.
    + inversion 1; subst; eauto.
Qed.

Lemma in_opt_list {B} (o : option B) b : In b (opt_list o) <-> o = Some b.
Proof. destruct o; simpl; naive_solver. Qed.

Lemma results_den r : forall x y, In y (results r x) <-> den r x y.
Proof.
  induction r; intros x y; cbn [results den].
  - simpl. naive_solver.
  - apply in_opt_list.
  - apply in_opt_list.
  - rewrite in_flat_map. setoid_rewrite IHr1. setoid_rewrite IHr2. naive_solver.
  - rewrite in_app_iff, IHr1, IHr2. done.
  - rewrite in_flat_map. setoid_rewrite (times_results_exactly _ _ IHr).
    assert (Hl : forall z, In y (loop_results (results r) greedy (loop_fuel z) (sub_hi hi lo) None z)
                           <-> iters (den r) (sub_hi hi lo) None z y).
    { intros z. apply (loop_results_iters _ _ _ IHr (den_follows r)). by right. }
    setoid_rewrite Hl. done.
  - rewrite in_map_iff. setoid_rewrite IHr. naive_solver.
  - destruct (text_of_group n x) as [t|]; [|naive_solver]. rewrite in_opt_list. naive_solver.
  - destruct (results r x) as [|z l] eqn:E, positive; simpl.
    + split; [done|]. intros (_ & z & Hz%IHr). by rewrite E in Hz.
    + split; [intros [->|[]]; split; [done|]; intros z Hz%IHr; by rewrite E in Hz | naive_solver].
    + split; [intros [->|[]]; split; [done|]; exists z; apply IHr; rewrite E; by left | naive_solver].
    + split; [done|]. intros [_ H]. destruct (H z). apply IHr. rewrite E. by left.
  - destruct (Nat.eqb (pos x) 0) eqn:E; bools; simpl; naive_solver.
  - destruct (at_end x); simpl; naive_solver.
  - destruct (at_word_boundary x); simpl; naive_solver.
  - destruct (at_word_boundary x); simpl; naive_solver.
Qed.

(** The matcher answers exactly when the relation allows an accepted result. *)
Lemma run_some_iff r A (k : state -> option A) x :
  (exists a, run r k x = Some a) <-> exists y, den r x y /\ is_Some (k y).
Proof.
  rewrite run_first. setoid_rewrite <- results_den.
  induction (results r x) as [|y l IH]; simpl; [naive_solver|].
  destruct (k y) as [a|] eqn:E.
  - split; [|by eauto]. intros _. exists y. split; [by left | by rewrite E].
  - rewrite IH. split; [naive_solver|]. intros (z & [->|Hz] & Hk); [|by eauto].
    rewrite E in Hk. by destruct Hk.
Qed.

Lemma run_sound r A (k : state -> option A) x a :
  run r k x = Some a -> exists y, den r x y /\ k y = Some a.
Proof.
  rewrite run_first. setoid_rewrite <- results_den.
  induction (results r x) as [|y l IH]; simpl; [done|].
  destruct (k y) as [b|] eqn:E; [|naive_solver].
  intros [= ->]. exists y. split; [by left | done].
Qed.

Lemma run_none r A (k : state -> option A) x y :
  run r k x = None -> den r x y -> k y = None.
Proof.
  intros H Hd. destruct (k y) as [a|] eqn:E; [|done].
  destruct (proj2 (run_some_iff r A k x)) as [b Hb]; [by exists y; rewrite E | congruence].
Qed.
End Engine.
