(* ===== verification/RegexParse.v ===== *)
(** * Python's pattern syntax: [sre_compile.compile] and [re.escape]

    The patterns of the model are the pattern strings of the sources, read by
    the compiler of this file into the syntax of [Regex].  It covers what the
    sources use: literals and escapes, sets, [.], [^], [$], [\b], [\B],
    alternation, capturing and non-capturing groups, lookaheads (positive ones
    without capturing groups inside), backreferences, greedy and lazy repeats, and the
    global flag [(?i)].  [None] stands for [re.error], and for the constructs
    outside this list, which no pattern of the sources has. *)

From stdpp Require Import base list strings.
From Stdlib Require Import ZArith Lia Ascii.
From S2P Require Import Prelude PyString Regex.

(** ** Escapes *)

Definition lit (c : ascii) : citem := CRange c c.
Definition rlit (c : ascii) : regex := RSet false [lit c].

Definition hex_val (c : ascii) : option N :=
  if in_range c 48 57 then Some (code c - 48)%N
  else if in_range c 65 70 then Some (code c - 55)%N
  else if in_range c 97 102 then Some (code c - 87)%N
  else None.

(** What a backslash and the text after it stand for inside and outside a set. *)
Inductive escape :=
  | EItem (i : citem)
  | EWordB | ENotWordB | EBegin
  | EBackref (n : nat).

Definition is_ascii_letter (c : ascii) : bool := in_range c 65 90 || in_range c 97 122.

Definition parse_escape (in_set : bool) (p : string) : option (escape * string) :=
  match p with
  | EmptyString => None
  | String c p' =>
      let item i := Some (EItem i, p') in
      if Ascii.eqb c "d" then item (CClass CDigit false)
      else if Ascii.eqb c "D" then item (CClass CDigit true)
      else if Ascii.eqb c "s" then item (CClass CSpace false)
      else if Ascii.eqb c "S" then item (CClass CSpace true)
      else if Ascii.eqb c "w" then item (CClass CWord false)
      else if Ascii.eqb c "W" then item (CClass CWord true)
      else if Ascii.eqb c "n" then item (lit (ascii_of_N 10))
      else if Ascii.eqb c "t" then item (lit (ascii_of_N 9))
      else if Ascii.eqb c "r" then item (lit (ascii_of_N 13))
      else if Ascii.eqb c "f" then item (lit (ascii_of_N 12))
      else if Ascii.eqb c "v" then item (lit (ascii_of_N 11))
      else if Ascii.eqb c "a" then item (lit (ascii_of_N 7))
      else if Ascii.eqb c "0" then item (lit (ascii_of_N 0))
      else if Ascii.eqb c "x" then
        match p' with
        | String h (String l p'') =>
            match hex_val h, hex_val l with
            | Some a, Some b => Some (EItem (lit (ascii_of_N (16 * a + b))), p'')
            | _, _ => None
            end
        | _ => None
        end
      else if Ascii.eqb c "b" then
        if in_set then item (lit (ascii_of_N 8)) else Some (EWordB, p')
      else if in_set then
        if is_ascii_letter c || is_digit c then None else item (lit c)
      else if Ascii.eqb c "B" then Some (ENotWordB, p')
      else if Ascii.eqb c "A" then Some (EBegin, p')
      else if in_range c 49 57 then Some (EBackref (N.to_nat (code c - 48)), p')
      else if is_ascii_letter c then None
      else item (lit c)
  end.

(** ** Sets *)

(** One element of a set: a character or a class escape. *)
Definition set_elem (p : string) : option (citem * string) :=
  match p with
  | EmptyString => None
  | String c p' =>
      if (code c =? 92)%N
      then match parse_escape true p' with
           | Some (EItem i, p'') => Some (i, p'')
           | _ => None
           end
      else Some (lit c, p')
  end.

Definition single (i : citem) : option ascii :=
  match i with
  | CRange a b => if Ascii.eqb a b then Some a else None
  | CClass _ _ => None
  end.

(** The items up to the closing bracket; a bracket that comes first is literal. *)
Fixpoint set_items (fuel : nat) (first : bool) (p : string) (acc : list citem)
    : option (list citem * string) :=
  match fuel with
  | O => None
  | S f =>
      match p with
      | EmptyString => None
      | String c p' =>
          if Ascii.eqb c "]" && negb first then Some (rev acc, p')
          else
            match set_elem p with
            | None => None
            | Some (i, q) =>
                match q with
                | String d q' =>
                    if Ascii.eqb d "-" then
                      match q' with
                      | EmptyString => None
                      | String e _ =>
                          if Ascii.eqb e "]"
                          then set_items f false q' (lit "-" :: i :: acc)
                          else
                            match set_elem q' with
                            | Some (j, q'') =>
                                match single i, single j with
                                | Some lo, Some hi =>
                                    if (code lo <=? code hi)%N
                                    then set_items f false q'' (CRange lo hi :: acc)
                                    else None
                                | _, _ => None
                                end
                            | None => None
                            end
                      end
                    else set_items f false q (i :: acc)
                | EmptyString => None
                end
            end
      end
  end.

Definition parse_set (p : string) : option (regex * string) :=
  match p with
  | String c p' =>
      let negated := Ascii.eqb c "^" in
      let q := if negated then p' else p in
      match set_items (S (String.length q)) true q [] with
      | Some (items, r) => Some (RSet negated items, r)
      | None => None
      end
  | EmptyString => None
  end.

(** ** Repeats *)

Fixpoint take_digits (p : string) (acc : string) : string * string :=
  match p with
  | String c p' => if is_digit c then take_digits p' (acc +:+ String c EmptyString) else (acc, p)
  | EmptyString => (acc, p)
  end.
Fixpoint nat_of_digits (s : string) (acc : nat) : nat :=
  match s with
  | EmptyString => acc
  | String c s' => nat_of_digits s' (10 * acc + N.to_nat (code c - 48))
  end.

(** The bounds after an opening brace; [None] when the brace is a literal. *)
Definition parse_bounds (p : string) : option (nat * option nat * string) :=
  let '(lo, q) := take_digits p EmptyString in
  let '(hi, q') :=
    match q with
    | String c q1 => if Ascii.eqb c "," then take_digits q1 EmptyString else (lo, q)
    | EmptyString => (lo, q)
    end in
  match q' with
  | String c q2 =>
      if Ascii.eqb c "}" && negb (startswith p "}") then
        Some (if String.eqb lo EmptyString then 0 else nat_of_digits lo 0,
              if String.eqb hi EmptyString then None else Some (nat_of_digits hi 0), q2)
      else None
  | EmptyString => None
  end.

Definition bounds_ok (lo : nat) (hi : option nat) : bool :=
  match hi with Some h => Nat.leb lo h | None => true end.

(** The repeat operator at the start of [p], if there is one. *)
Definition parse_repeat (p : string) : option (nat * option nat * string) :=
  match p with
  | String c p' =>
      if Ascii.eqb c "*" then Some (0, None, p')
      else if Ascii.eqb c "+" then Some (1, None, p')
      else if Ascii.eqb c "?" then Some (0, Some 1, p')
      else if Ascii.eqb c "{" then parse_bounds p'
      else None
  | EmptyString => None
  end.

(** ** Groups and alternatives *)

Inductive group_kind :=
  | GTop
  | GCapture (n : nat)
  | GPlain
  | GLook (positive : bool) (groups : nat).

(** An open group: its finished alternatives and the items of the current one,
    both last first; an item carries whether a repeat may follow it. *)
Record frame := Frame {
  f_kind : group_kind;
  f_alts : list regex;
  f_items : list (regex * bool)
}.

Record pstate := PState {
  p_stack : list frame;
  p_frame : frame;
  p_next : nat;
  p_flags : flags
}.

Fixpoint seq_of (l : list regex) : regex :=
  match l with
  | [] => REmpty
  | [r] => r
  | r :: l' => RSeq r (seq_of l')
  end.
Fixpoint alt_of (l : list regex) : regex :=
  match l with
  | [] => REmpty
  | [r] => r
  | r :: l' => RAlt r (alt_of l')
  end.
Definition close_items (f : frame) : regex := seq_of (rev (map fst (f_items f))).
Definition close_frame (f : frame) : regex := alt_of (rev (close_items f :: f_alts f)).

Definition push_item (r : regex) (repeatable : bool) (s : pstate) : pstate :=
  let f := p_frame s in
  PState (p_stack s) (Frame (f_kind f) (f_alts f) ((r, repeatable) :: f_items f))
    (p_next s) (p_flags s).
Definition open_group (k : group_kind) (next : nat) (s : pstate) : pstate :=
  PState (p_frame s :: p_stack s) (Frame k [] []) next (p_flags s).
Definition next_alt (s : pstate) : pstate :=
  let f := p_frame s in
  PState (p_stack s) (Frame (f_kind f) (close_items f :: f_alts f) []) (p_next s) (p_flags s).

Definition close_group (s : pstate) : option pstate :=
  match p_stack s with
  | [] => None
  | outer :: stack =>
      let r := close_frame (p_frame s) in
      let back := PState stack outer (p_next s) (p_flags s) in
      match f_kind (p_frame s) with
      | GTop => None
      | GCapture n => Some (push_item (RGroup n r) true back)
      | GPlain => Some (push_item r true back)
      | GLook b groups =>
          if negb b || Nat.eqb groups (p_next s) then Some (push_item (RLook b r) true back) else None
      end
  end.

(** A repeat applies to the last item; another repeat may not follow it. *)
Definition repeat_last (greedy : bool) (lo : nat) (hi : option nat) (s : pstate) : option pstate :=
  let f := p_frame s in
  match f_items f with
  | (r, true) :: items =>
      Some (PState (p_stack s)
              (Frame (f_kind f) (f_alts f) ((RRep greedy lo hi r, false) :: items))
              (p_next s) (p_flags s))
  | _ => None
  end.

Definition at_pattern_start (s : pstate) : bool :=
  match p_stack s, f_alts (p_frame s), f_items (p_frame s) with
  | [], [], [] => true
  | _, _, _ => false
  end.

Definition set_icase (s : pstate) : pstate :=
  PState (p_stack s) (p_frame s) (p_next s) (Flags true (dotall (p_flags s))).

(** One token of the pattern: the new state and the text after it. *)
Definition parse_open (p : string) (s : pstate) : option (pstate * string) :=
  if startswith p "?:" then Some (open_group GPlain (p_next s) s, sdrop 2 p)
  else if startswith p "?=" then Some (open_group (GLook true (p_next s)) (p_next s) s, sdrop 2 p)
  else if startswith p "?!" then Some (open_group (GLook false (p_next s)) (p_next s) s, sdrop 2 p)
  else if startswith p "?i)" then
    if at_pattern_start s then Some (set_icase s, sdrop 3 p) else None
  else if startswith p "?" then None
  else Some (open_group (GCapture (p_next s)) (S (p_next s)) s, p).

Definition parse_token (c : ascii) (p : string) (s : pstate) : option (pstate * string) :=
  match parse_repeat (String c p) with
  | Some (lo, hi, q) =>
      if bounds_ok lo hi then
        if startswith q "?"
        then option_map (fun s' => (s', sdrop 1 q)) (repeat_last false lo hi s)
        else option_map (fun s' => (s', q)) (repeat_last true lo hi s)
      else None
  | None =>
      if Ascii.eqb c "*" || Ascii.eqb c "+" || Ascii.eqb c "?" then None
      else if Ascii.eqb c "(" then parse_open p s
      else if Ascii.eqb c ")" then option_map (fun s' => (s', p)) (close_group s)
      else if Ascii.eqb c "|" then Some (next_alt s, p)
      else if Ascii.eqb c "." then Some (push_item RAny true s, p)
      else if Ascii.eqb c "^" then Some (push_item RBegin false s, p)
      else if Ascii.eqb c "$" then Some (push_item REnd false s, p)
      else if Ascii.eqb c "[" then
        match parse_set p with
        | Some (r, q) => Some (push_item r true s, q)
        | None => None
        end
      else if (code c =? 92)%N then
        match parse_escape false p with
        | Some (EItem i, q) => Some (push_item (RSet false [i]) true s, q)
        | Some (EWordB, q) => Some (push_item RWordB false s, q)
        | Some (ENotWordB, q) => Some (push_item RNotWordB false s, q)
        | Some (EBegin, q) => Some (push_item RBegin false s, q)
        | Some (EBackref n, q) =>
            if Nat.ltb n (p_next s) then Some (push_item (RBackref n) true s, q) else None
        | None => None
        end
      else Some (push_item (rlit c) true s, p)
  end.

Fixpoint parse_loop (fuel : nat) (p : string) (s : pstate) : option (regex * flags) :=
  match fuel with
  | O => None
  | S f =>
      match p with
      | EmptyString =>
          match p_stack s with
          | [] => Some (close_frame (p_frame s), p_flags s)
          | _ :: _ => None
          end
      | String c p' =>
          match parse_token c p' s with
          | Some (s', q) => parse_loop f q s'
          | None => None
          end
      end
  end.

(** A compiled pattern. *)
Record pattern := Pattern { p_regex : regex; p_fl : flags }.

(** [sre_compile.compile(p, flags)].  Every token takes at least one character,
    so the fuel is enough. *)
Definition re_compile (fl : flags) (p : string) : option pattern :=
  match parse_loop (S (String.length p)) p (PState [] (Frame GTop [] []) 1 fl) with
  | Some (r, fl') => Some (Pattern r fl')
  | None => None
  end.

(** ** [re.escape] *)

(** The characters [re.escape] puts a backslash before. *)
Definition special_chars : string :=
  "()[]{}?*+-|^$\.&~# " +:+ chr 9 +:+ chr 10 +:+ chr 13 +:+ chr 11 +:+ chr 12.
Definition is_special (c : ascii) : bool := negb (sall (fun d => negb (Ascii.eqb c d)) special_chars).

Fixpoint re_escape (s : string) : string :=
  match s with
  | EmptyString => EmptyString
  | String c s' =>
      if is_special c then String "\" (String c (re_escape s')) else String c (re_escape s')
  end.

(** The expression that matches a text and nothing else. *)
Definition rtext (s : string) : regex := seq_of (map rlit (String.list_ascii_of_string s)).

(** ** A compiled escape matches its text *)

Lemma parse_token_plain c p s :
  is_special c = false -> parse_token c p s = Some (push_item (rlit c) true s, p).
Proof.
  destruct c as [[] [] [] [] [] [] [] []]; intros H;
    (discriminate H || reflexivity).
Qed.

Lemma parse_token_special c p s :
  is_special c = true ->
  parse_token "\" (String c p) s = Some (push_item (rlit c) true s, p).
Proof.
  destruct c as [[] [] [] [] [] [] [] []]; intros H;
    (discriminate H || reflexivity).
Qed.

(** The frame after the characters of a text were pushed on it. *)
Fixpoint push_text (t : string) (s : pstate) : pstate :=
  match t with
  | EmptyString => s
  | String c t' => push_text t' (push_item (rlit c) true s)
  end.

Lemma parse_loop_escape t : forall fuel s,
  String.length (re_escape t) < fuel -> p_stack s = [] ->
  parse_loop fuel (re_escape t) s = Some (close_frame (p_frame (push_text t s)), p_flags s).
Proof.
  induction t as [|c t IH]; intros [|f] s Hf Hs; simpl in *; try lia.
  { by rewrite Hs. }
  destruct (is_special c) eqn:E; simpl in *.
  - rewrite (parse_token_special c) by done. rewrite IH; [done | lia | done].
  - rewrite (parse_token_plain c) by done. rewrite IH; [done | lia | done].
Qed.

Lemma push_text_frame t s :
  p_frame (push_text t s) =
  Frame (f_kind (p_frame s)) (f_alts (p_frame s))
    (rev (map (fun c => (rlit c, true)) (String.list_ascii_of_string t)) ++ f_items (p_frame s)).
Proof.
  revert s; induction t as [|c t IH]; intros s; simpl; [by destruct (p_frame s)|].
  rewrite IH. simpl. by rewrite <- app_assoc.
Qed.

Lemma re_compile_escape t : re_compile no_flags (re_escape t) = Some (Pattern (rtext t) no_flags).
Proof.
  unfold re_compile. rewrite parse_loop_escape by (simpl; auto with lia).
  rewrite push_text_frame. simpl. unfold close_frame, close_items, rtext. simpl.
  rewrite app_nil_r, map_rev, map_map, rev_involutive. done.
Qed.

Lemma den_rlit fl subject c x y :
  icase fl = false -> den fl subject (rlit c) x y <-> eat (chars_eq fl c) x = Some y.
Proof.
  intros Hi. unfold rlit. cbn [den]. unfold eat, set_mem, chars_eq. rewrite Hi.
  destruct (rest x) as [|d r]; [done|]. simpl. rewrite !orb_false_r.
  assert (in_range d (code c) (code c) = Ascii.eqb c d) as ->; [|done].
  unfold in_range. destruct (Ascii.eqb c d) eqn:E; bools.
  - subst. by rewrite N.leb_refl.
  - apply not_true_iff_false. intros H; bools.
    apply E, code_inj. by apply N.le_antisymm; apply N.leb_le.
Qed.

Lemma den_seq_of fl subject rs : forall x y,
  den fl subject (seq_of rs) x y <->
  match rs with
  | [] => y = x
  | r :: rs' => exists z, den fl subject r x z /\ den fl subject (seq_of rs') z y
  end.
Proof. destruct rs as [|r [|r' rs]]; intros x y; simpl; naive_solver. Qed.

Lemma den_rtext subject t : forall x y,
  den no_flags subject (rtext t) x y <-> eat_text no_flags t x = Some y.
Proof.
  induction t as [|c t IH]; intros x y; unfold rtext; simpl map; rewrite den_seq_of; cbn [eat_text].
  - naive_solver.
  - setoid_rewrite den_rlit; [|done]. destruct (eat (chars_eq no_flags c) x) as [z|].
    + rewrite <- IH. unfold rtext. naive_solver.
    + naive_solver.
Qed.

(** ** Patterns built around an escaped text *)

Lemma parse_loop_text t : forall n q s,
  parse_loop (String.length t + n) (re_escape t +:+ q) s = parse_loop n q (push_text t s).
Proof.
  induction t as [|c t IH]; intros n q s; [done|]. cbn [String.length re_escape Nat.add push_text].
  destruct (is_special c) eqn:E; cbn [String.append parse_loop].
  - change (String.append ?a ?b) with (a +:+ b).
    rewrite (parse_token_special c) by done. apply IH.
  - rewrite (parse_token_plain c) by done. apply IH.
Qed.

Lemma re_escape_head t q : startswith q "?" = false -> startswith (re_escape t +:+ q) "?" = false.
Proof.
  destruct t as [|c t]; [done|]. intros _. cbn [re_escape]. destruct (is_special c) eqn:E; [done|].
  simpl. destruct c as [[] [] [] [] [] [] [] []]; (discriminate E || reflexivity).
Qed.

Lemma re_escape_length t : String.length t <= String.length (re_escape t).
Proof. induction t as [|c t IH]; simpl; [done|]. destruct (is_special c); simpl; lia. Qed.

Lemma re_escape_plain t : sall (fun c => negb (is_special c)) t = true -> re_escape t = t.
Proof.
  induction t as [|c t IH]; [done|]. cbn [sall re_escape]. intros H. bools. by rewrite H, IH.
Qed.

(** [k] tokens of a pattern: the state and the text after them. *)
Fixpoint parse_steps (k : nat) (p : string) (s : pstate) : option (pstate * string) :=
  match k with
  | O => Some (s, p)
  | S k' =>
      match p with
      | EmptyString => None
      | String c p' =>
          match parse_token c p' s with
          | Some (s', q) => parse_steps k' q s'
          | None => None
          end
      end
  end.

Lemma parse_steps_loop k : forall n p s s' q,
  parse_steps k p s = Some (s', q) -> parse_loop (k + n) p s = parse_loop n q s'.
Proof.
  induction k as [|k IH]; intros n p s s' q H; cbn [parse_steps] in H; [by simplify_eq|].
  cbn [Nat.add parse_loop]. destruct p as [|c p]; [done|].
  destruct (parse_token c p s) as [[s1 q1]|]; [|done]. by apply IH.
Qed.

(** A repeat operator at the end of the tokens, when no [?] follows it. *)
Lemma parse_steps_repeat k p s s1 c lo q s' :
  parse_steps k p s = Some (s1, String c q) ->
  (c = "*"%char /\ lo = 0 \/ c = "+"%char /\ lo = 1) ->
  startswith q "?" = false -> repeat_last true lo None s1 = Some s' ->
  parse_steps (S k) p s = Some (s', q).
Proof.
  revert p s. induction k as [|k IH]; intros p s H Hc Hq Hr.
  - cbn [parse_steps] in H. simplify_eq. cbn [parse_steps].
    assert (parse_token c q s1 = Some (s', q)) as ->; [|done].
    unfold parse_token. destruct Hc as [[-> ->]|[-> ->]]; cbn [parse_repeat]; simpl; by rewrite Hq, Hr.
  - cbn [parse_steps] in H. destruct p as [|d p]; [done|].
    destruct (parse_token d p s) as [[s2 q2]|] eqn:E; [|done].
    specialize (IH _ _ H Hc Hq Hr). remember (S k) as k' eqn:Ek. cbn [parse_steps]. by rewrite E.
Qed.

Lemma push_text_state t s :
  push_text t s =
  PState (p_stack s)
    (Frame (f_kind (p_frame s)) (f_alts (p_frame s))
       (rev (map (fun c => (rlit c, true)) (String.list_ascii_of_string t)) ++ f_items (p_frame s)))
    (p_next s) (p_flags s).
Proof.
  rewrite <- push_text_frame.
  assert (H : p_stack (push_text t s) = p_stack s /\ p_next (push_text t s) = p_next s
    /\ p_flags (push_text t s) = p_flags s)
    by (revert s; induction t as [|c t IH]; intros s; [done|]; exact (IH (push_item (rlit c) true s))).
  destruct H as (<- & <- & <-). by destruct (push_text t s).
Qed.

Definition p_start : pstate := PState [] (Frame GTop [] []) 1 no_flags.

(** A pattern made of a fixed prefix, an escaped text and a fixed suffix is
    compiled piece by piece: the prefix takes [kp] tokens and leads to the parser
    state [s1], the suffix takes [ks] from there. *)
Lemma re_compile_around prefix t suffix kp ks s1 s2 :
  (forall q, startswith q "?" = false -> parse_steps kp (prefix +:+ q) p_start = Some (s1, q)) ->
  parse_steps ks suffix
    (PState (p_stack s1)
       (Frame (f_kind (p_frame s1)) (f_alts (p_frame s1))
          (rev (map (fun c => (rlit c, true)) (String.list_ascii_of_string t)) ++ f_items (p_frame s1)))
       (p_next s1) (p_flags s1)) = Some (s2, EmptyString) -> p_stack s2 = [] ->
  startswith suffix "?" = false -> kp <= String.length prefix -> ks <= String.length suffix ->
  re_compile no_flags (prefix +:+ re_escape t +:+ suffix)
  = Some (Pattern (close_frame (p_frame s2)) (p_flags s2)).
Proof.
  intros Hp Hs Hst Ht Hkp Hks. unfold re_compile. pose proof (re_escape_length t).
  set (n := String.length (prefix +:+ re_escape t +:+ suffix) - (kp + String.length t + ks)).
  replace (S (String.length (prefix +:+ re_escape t +:+ suffix)))
    with (kp + (String.length t + (ks + S n))) by (unfold n; rewrite !slength_app; lia).
  rewrite (parse_steps_loop kp _ _ _ _ _ (Hp _ (re_escape_head t suffix Ht))).
  rewrite parse_loop_text, push_text_state, (parse_steps_loop ks _ _ _ _ _ Hs). cbn [parse_loop]. by rewrite Hst.
Qed.

(** The states in which the parser is after a fixed prefix, and after a fixed
    suffix that follows items it knows nothing about. *)
Definition steps_state (o : option (pstate * string)) : pstate :=
  match o with Some (s, _) => s | None => p_start end.

(** [compile_around p t q kp ks]: in the goal, compile [p], the escaped [t] and
    [q] put together, as [re_compile_around] does. *)
Ltac parse_prefix :=
  let q := fresh "q" in let Hq := fresh "Hq" in
  intros q Hq;
  first [ vm_compute; reflexivity
        | eapply parse_steps_repeat;
          [vm_compute; reflexivity | first [by left | by right] | exact Hq | vm_compute; reflexivity] ].
Ltac compile_around p t q kp ks :=
  erewrite (re_compile_around p t q kp ks (steps_state (parse_steps kp p p_start)));
  [ | parse_prefix | vm_compute; reflexivity | reflexivity | done | simpl; lia | simpl; lia ].
