(* ===== verification/PyRe.v ===== *)
(** * Python's [re] module on compiled patterns, and cpplint's wrappers

    Match objects, [match], [search], [finditer], [sub], [split], and the
    functions [Match], [Search] and [ReplaceAll] of cpplint.py.  As they are written
    they pass on the cache of compiled patterns and raise [re.error] for a pattern that
    does not compile: [Match_cached], [Search_cached], [ReplaceAll_cached].  [MatchE]
    and [SearchE] leave the cache out, for a pattern that is built at run time;
    [Match], [Search] and [ReplaceAll] are their values for the literals of the
    sources, all of which compile (the file Patterns has the list and the proof). *)

From stdpp Require Import base list strings gmap.
From Stdlib Require Import ZArith Lia Ascii.
From S2P Require Import Prelude PyString Regex RegexParse.

(** ** Match objects *)

Record mobj := Mobj { m_subject : string; m_begin : nat; m_final : state }.

(** [m.start(n)] and [m.end(n)]; -1 for a group that did not take part. *)
Definition m_span (m : mobj) (n : nat) : option (nat * nat) :=
  match n with
  | O => Some (m_begin m, pos (m_final m))
  | S _ => cap_lookup n (caps (m_final m))
  end.
Definition m_start (m : mobj) (n : nat) : Z :=
  match m_span m n with Some (s, _) => Z.of_nat s | None => -1 end.
Definition m_end (m : mobj) (n : nat) : Z :=
  match m_span m n with Some (_, e) => Z.of_nat e | None => -1 end.

(** [m.group(n)]; [None] is Python's [None]. *)
Definition m_group (m : mobj) (n : nat) : option string :=
  match m_span m n with
  | Some (s, e) => Some (stake (e - s) (sdrop s (m_subject m)))
  | None => None
  end.

(** [m.group(n)] where the text is used as a string: a group that every match
    of the pattern closes. *)
Definition m_text (m : mobj) (n : nat) : string := default EmptyString (m_group m n).

(** ** Matching and searching *)

Definition start_at (before : option ascii) (i : nat) (r : string) : state := St i before r [].

Definition re_match (p : pattern) (s : string) : option mobj :=
  match run (p_fl p) s (p_regex p) (fun y => Some y) (start_at None 0 s) with
  | Some y => Some (Mobj s 0 y)
  | None => None
  end.

(** The first position from [i] on at which [accept] takes a match. *)
Fixpoint search_go (p : pattern) (s : string) (accept : nat -> state -> bool)
    (before : option ascii) (i : nat) (r : string) : option mobj :=
  match run (p_fl p) s (p_regex p)
          (fun y => if accept i y then Some y else None) (start_at before i r) with
  | Some y => Some (Mobj s i y)
  | None =>
      match r with
      | EmptyString => None
      | String c r' => search_go p s accept (Some c) (S i) r'
      end
  end.

Definition re_search (p : pattern) (s : string) : option mobj :=
  search_go p s (fun _ _ => true) None 0 s.

(** The character before position [i]. *)
Definition char_before (s : string) (i : nat) : option ascii :=
  match i with O => None | S j => sget j s end.

(** [p.finditer(s)]: a match that is empty may not stand where the last empty
    match stood. *)
Fixpoint finditer_go (fuel : nat) (p : pattern) (s : string) (i : nat) (must_advance : bool)
    : list mobj :=
  match fuel with
  | O => []
  | S f =>
      match search_go p s
              (fun start y => negb (must_advance && Nat.eqb start i && Nat.eqb (pos y) i))
              (char_before s i) i (sdrop i s) with
      | None => []
      | Some m => m :: finditer_go f p s (pos (m_final m))
                         (Nat.eqb (pos (m_final m)) (m_begin m))
      end
  end.
Definition re_finditer (p : pattern) (s : string) : list mobj :=
  finditer_go (2 * String.length s + 3) p s 0 false.

(** A replacement template: [\n] stands for the text of group [n]. *)
Fixpoint expand (rep : string) (m : mobj) : string :=
  match rep with
  | String c (String d rep' as rest1) =>
      if (code c =? 92)%N && is_digit d
      then m_text m (N.to_nat (code d - 48)) +:+ expand rep' m
      else String c (expand rest1 m)
  | _ => rep
  end.

(** The text with the matches [ms] replaced; [i] is where the last one ended. *)
Fixpoint splice (rep s : string) (i : nat) (ms : list mobj) : string :=
  match ms with
  | [] => sdrop i s
  | m :: ms' =>
      stake (m_begin m - i) (sdrop i s) +:+ expand rep m
        +:+ splice rep s (pos (m_final m)) ms'
  end.
Definition re_sub (p : pattern) (rep s : string) : string := splice rep s 0 (re_finditer p s).

(** [re.split] for a pattern without groups. *)
Fixpoint split_at (s : string) (i : nat) (ms : list mobj) : list string :=
  match ms with
  | [] => [sdrop i s]
  | m :: ms' => stake (m_begin m - i) (sdrop i s) :: split_at s (pos (m_final m)) ms'
  end.
Definition re_split (p : pattern) (s : string) : list string := split_at s 0 (re_finditer p s).

(** ** cpplint's wrappers *)

(** A pattern literal of the sources, compiled.  [p_fails] makes the function total; it
    never stands for one of the literals, which all compile. *)
Definition p_fails : pattern := Pattern (RLook false REmpty) no_flags.
Definition pat_with (fl : flags) (p : string) : pattern := default p_fails (re_compile fl p).
Definition pat (p : string) : pattern := pat_with no_flags p.

(** The functions on a literal that compiles. *)
Definition Match (pattern s : string) : option mobj := re_match (pat pattern) s.
Definition Search (pattern s : string) : option mobj := re_search (pat pattern) s.
Definition ReplaceAll (pattern rep s : string) : string := re_sub (pat pattern) rep s.

(** [_regexp_compile_cache] and the three functions as they are written, with
    the cache as a state they pass on. *)
Abbreviation regexp_cache := (gmap string pattern).

Definition compile_cached (cache : regexp_cache) (p : string) : exn + (regexp_cache * pattern) :=
  match cache !! p with
  | Some q => inr (cache, q)
  | None =>
      match re_compile no_flags p with
      | Some q => inr (<[p := q]> cache, q)
      | None => inl ReError
      end
  end.

Definition Match_cached (cache : regexp_cache) (p s : string) : exn + (regexp_cache * option mobj) :=
  match compile_cached cache p with
  | inl e => inl e
  | inr (cache', q) => inr (cache', re_match q s)
  end.
Definition Search_cached (cache : regexp_cache) (p s : string) : exn + (regexp_cache * option mobj) :=
  match compile_cached cache p with
  | inl e => inl e
  | inr (cache', q) => inr (cache', re_search q s)
  end.
Definition ReplaceAll_cached (cache : regexp_cache) (p rep s : string) : exn + (regexp_cache * string) :=
  match compile_cached cache p with
  | inl e => inl e
  | inr (cache', q) => inr (cache', re_sub q rep s)
  end.

(** [Match] and [Search] for a pattern built at run time: a malformed pattern is
    an exception. *)
Definition MatchE (p s : string) : exn + option mobj :=
  match re_compile no_flags p with Some q => inr (re_match q s) | None => inl ReError end.
Definition SearchE (p s : string) : exn + option mobj :=
  match re_compile no_flags p with Some q => inr (re_search q s) | None => inl ReError end.

(** Whether a match object was returned. *)
Definition matched {A} (o : option A) : bool := match o with Some _ => true | None => false end.

(** ** Specification of searching *)

(** The state in which a match at position [i] starts. *)
Definition state_at (s : string) (i : nat) : state :=
  start_at (char_before s i) i (sdrop i s).

(** An expression can match at position [i] of [s], and with which final states. *)
Definition matches_at (p : pattern) (s : string) (i : nat) (y : state) : Prop :=
  den (p_fl p) s (p_regex p) (state_at s i) y.

Lemma first_some_head {B C} (k : B -> option C) l :
  (forall b, is_Some (k b)) -> first_some k l = head l ≫= k.
Proof. intros Hk. destruct l as [|b l]; simpl; [done|]. destruct (Hk b) as [c ->]. done. Qed.

(** The scan from position [i] finds the first position with an accepted match. *)
Lemma search_go_spec p s accept r : forall i,
  i + String.length r = String.length s -> r = sdrop i s ->
  match search_go p s accept (char_before s i) i r with
  | Some m =>
      m_subject m = s /\ i <= m_begin m <= String.length s
      /\ matches_at p s (m_begin m) (m_final m) /\ accept (m_begin m) (m_final m) = true
      /\ forall j y, i <= j < m_begin m -> matches_at p s j y -> accept j y = false
  | None => forall j y, i <= j <= String.length s -> matches_at p s j y -> accept j y = false
  end.
Proof.
  induction r as [|c r IH]; intros i Hi Hr; cbn [search_go].
  all: destruct (run (p_fl p) s (p_regex p) _ _) as [y|] eqn:E.
  1,3: apply run_sound in E as (z & Hz & Ha); destruct (accept i z) eqn:Hacc; simplify_eq.
  1,2: simpl; repeat split; [lia|lia| |done|lia]; unfold matches_at, state_at;
       by rewrite <- Hr.
  all: assert (Hno : forall y, matches_at p s i y -> accept i y = false).
  1,3: intros y Hy; unfold matches_at, state_at in Hy; rewrite <- Hr in Hy;
       pose proof (run_none _ _ _ _ _ _ _ E Hy) as Hk; simpl in Hk; by destruct (accept i y).
  - simpl in Hi. intros j y Hj. replace j with i by lia. apply Hno.
  - assert (Hget : sget i s = Some c /\ sdrop (S i) s = r).
    { clear -Hr. revert s Hr; induction i as [|i IHi]; intros [|d s] Hr; simpl in *;
        simplify_eq; try done. by apply IHi. }
    destruct Hget as [Hget Hdrop].
    specialize (IH (S i)). cbn [char_before] in IH. rewrite Hget in IH.
    specialize (IH ltac:(simpl in Hi; lia) ltac:(by rewrite Hdrop)).
    destruct (search_go p s accept (Some c) (S i) r) as [m|].
    + destruct IH as (H1 & H2 & H3 & H4 & H5). repeat split; [done|lia|lia|done|done|].
      intros j y Hj. destruct (decide (j = i)) as [->|]; [apply Hno | apply H5; lia].
    + intros j y Hj. destruct (decide (j = i)) as [->|]; [apply Hno | apply IH; lia].
Qed.

Lemma re_search_spec p s :
  match re_search p s with
  | Some m =>
      m_subject m = s /\ m_begin m <= String.length s
      /\ matches_at p s (m_begin m) (m_final m)
      /\ forall j y, j < m_begin m -> ~ matches_at p s j y
  | None => forall j y, j <= String.length s -> ~ matches_at p s j y
  end.
Proof.
  pose proof (search_go_spec p s (fun _ _ => true) s 0 eq_refl eq_refl) as H.
  unfold re_search. simpl in H.
  destruct (search_go p s (fun _ _ => true) None 0 s) as [m|].
  - destruct H as (H1 & H2 & H3 & _ & H5). repeat split; [done|lia|done|].
    intros j y Hj Hm. specialize (H5 j y ltac:(lia) Hm). done.
  - intros j y Hj Hm. specialize (H j y ltac:(lia) Hm). done.
Qed.

Lemma re_match_spec p s :
  match re_match p s with
  | Some m => m_subject m = s /\ m_begin m = 0 /\ matches_at p s 0 (m_final m)
  | None => forall y, ~ matches_at p s 0 y
  end.
Proof.
  unfold re_match, matches_at, state_at. simpl.
  destruct (run (p_fl p) s (p_regex p) _ _) as [y|] eqn:E.
  - apply run_sound in E as (z & Hz & [= ->]). done.
  - intros y Hy.
    by pose proof (run_none _ _ _ _ _ _ _ E Hy).
Qed.

(** ** The cache is transparent *)

(** A cache that holds compiled patterns only. *)
Definition cache_ok (cache : regexp_cache) : Prop :=
  forall p q, cache !! p = Some q -> re_compile no_flags p = Some q.

Lemma cache_ok_empty : cache_ok ∅.
Proof. intros p q H. by rewrite lookup_empty in H. Qed.

Lemma compile_cached_ok cache p :
  cache_ok cache ->
  match compile_cached cache p with
  | inr (cache', q) => cache_ok cache' /\ re_compile no_flags p = Some q /\ pat p = q
  | inl e => e = ReError /\ re_compile no_flags p = None
  end.
Proof.
  intros Hc. unfold compile_cached, pat, pat_with.
  destruct (cache !! p) as [q|] eqn:E.
  - rewrite (Hc _ _ E). done.
  - destruct (re_compile no_flags p) as [q|] eqn:Ep; [|done]. repeat split; try done.
    intros p' q'. rewrite lookup_insert. case_decide; [by subst; intros [= <-] | apply Hc].
Qed.

#[export] Hint Resolve cache_ok_empty : py.

(** ** Patterns that compile *)

Definition compiles (p : string) : bool := matched (re_compile no_flags p).

Lemma p_fails_search s : re_search p_fails s = None.
Proof.
  pose proof (re_search_spec p_fails s) as H. destruct (re_search p_fails s) as [m|]; [|done].
  destruct H as (_ & _ & (_ & H) & _). by destruct (H (state_at s (m_begin m))).
Qed.

(** A match object comes from a pattern that compiles. *)
Lemma SearchE_Some p s m : Search p s = Some m -> SearchE p s = inr (Some m).
Proof.
  unfold Search, SearchE, pat, pat_with. destruct (re_compile no_flags p) as [q|]; simpl; [by intros ->|].
  by rewrite p_fails_search.
Qed.

(** For a pattern that compiles, the functions as they are written return the values of
    the functions for literals, and keep the cache well formed. *)
Lemma cached_literal cache p s rep :
  cache_ok cache -> compiles p = true ->
  exists cache', cache_ok cache'
    /\ Match_cached cache p s = inr (cache', Match p s)
    /\ Search_cached cache p s = inr (cache', Search p s)
    /\ ReplaceAll_cached cache p rep s = inr (cache', ReplaceAll p rep s).
Proof.
  intros Hc Hp. pose proof (compile_cached_ok cache p Hc) as H.
  unfold Match_cached, Search_cached, ReplaceAll_cached, Match, Search, ReplaceAll.
  destruct (compile_cached cache p) as [e|[cache' q]].
  - destruct H as [_ E]. unfold compiles in Hp. by rewrite E in Hp.
  - destruct H as (Hc' & _ & ->). by exists cache'.
Qed.

(** ** Claims *)

(** C32.  The cache of compiled patterns is transparent: from a cache that holds
    compiled patterns, [Match], [Search] and [ReplaceAll] as they are written
    leave such a cache and return what the functions without a cache return;
    they raise exactly for a pattern that does not compile. *)
Theorem cached_regexp_transparent (cache : regexp_cache) (p s rep : string)
    (Hc : cache_ok cache) :
  match re_compile no_flags p with
  | None => Match_cached cache p s = inl ReError /\ Search_cached cache p s = inl ReError
            /\ ReplaceAll_cached cache p rep s = inl ReError
  | Some _ => exists cache', cache_ok cache'
      /\ Match_cached cache p s = inr (cache', Match p s)
      /\ Search_cached cache p s = inr (cache', Search p s)
      /\ ReplaceAll_cached cache p rep s = inr (cache', ReplaceAll p rep s)
  end.
Proof.
  destruct (re_compile no_flags p) as [q|] eqn:E.
  - apply cached_literal; [done|]. unfold compiles. by rewrite E.
  - pose proof (compile_cached_ok cache p Hc) as H.
    unfold Match_cached, Search_cached, ReplaceAll_cached.
    destruct (compile_cached cache p) as [e|[cache' q]]; [by destruct H as [-> _]|].
    destruct H as (_ & H & _). congruence.
Qed.

Lemma cached_regexp_transparent_witness :
  exists cache', cache_ok cache'
    /\ Match_cached ∅ "a+" "aab" = inr (cache', Match "a+" "aab").
Proof.
  destruct (cached_regexp_transparent ∅ "a+" "aab" "x" cache_ok_empty) as (c & H1 & H2 & _).
  exists c. split; [exact H1 | exact H2].
Defined.
