(* ===== verification/RegexFacts.v ===== *)
(** * Reasoning about concrete patterns

    Lemmas that turn the relation [den] of a pattern into equations on the text:
    what a sequence, a set, a repeat or a group read ([reads]), that groups hold
    the text they read, and conversely that a text of the right shape is
    matched.  The tactic [den_inv] takes a match of a concrete pattern apart. *)

From stdpp Require Import base list strings gmap.
From Stdlib Require Import ZArith Lia Ascii.
From S2P Require Import Prelude PyString Regex RegexParse PyRe.

(** ** What a match reads *)

(** Between [x] and [y] the text [t] was read. *)
Definition reads (x : state) (t : string) (y : state) : Prop :=
  pos y = pos x + String.length t /\ rest x = t +:+ rest y.

(** A state of a match in [subject]. *)
Definition coherent (subject : string) (x : state) : Prop :=
  rest x = sdrop (pos x) subject /\ pos x <= String.length subject.

Lemma reads_nil x : reads x EmptyString x.
Proof. split; simpl; [lia | done]. Qed.

Lemma reads_app x y z t u : reads x t y -> reads y u z -> reads x (t +:+ u) z.
Proof.
  intros [H1 H2] [H3 H4]. split; [rewrite slength_app; lia|]. by rewrite H2, H4, sapp_assoc.
Qed.

Lemma eat_reads p x y :
  eat p x = Some y <->
  exists c, p c = true /\ rest x = String c (rest y) /\ pos y = S (pos x)
    /\ before y = Some c /\ caps y = caps x.
Proof.
  unfold eat, advance. split.
  - destruct (rest x) as [|c r]; [done|]. destruct (p c) eqn:E; [|done].
    intros [= <-]. exists c. done.
  - intros (c & Hc & -> & H1 & H2 & H3). rewrite Hc. f_equal.
    destruct y; simpl in *; by subst.
Qed.

Lemma eat_reads_one p x y : eat p x = Some y -> exists c, p c = true /\ reads x (String c EmptyString) y.
Proof.
  intros (c & Hc & H1 & H2 & _)%eat_reads. exists c. split; [done|]. split; simpl; [lia | done].
Qed.

Section Facts.
Context (fl : flags) (subject : string).
Local Abbreviation den := (den fl subject).

Lemma den_reads r x y : den r x y -> exists t, reads x t y.
Proof.
  revert x y. assert (Heat : forall p x y, eat p x = Some y -> exists t, reads x t y).
  { intros p x y (c & _ & H)%eat_reads_one. eauto. }
  assert (Htext : forall t x y, eat_text fl t x = Some y -> exists t, reads x t y).
  { induction t as [|c t IH]; simpl; intros x y.
    - intros [= ->]. exists EmptyString. apply reads_nil.
    - destruct (eat _ x) as [z|] eqn:E; [|done]. intros [u Hu]%IH.
      apply Heat in E as [v Hv]. exists (v +:+ u). by eapply reads_app. }
  assert (Hrefl : forall x, exists t, reads x t x) by (intros x; exists EmptyString; apply reads_nil).
  induction r; intros x y; cbn [Regex.den].
  - intros ->. apply Hrefl.
  - apply Heat.
  - apply Heat.
  - intros (z & [t1 H1]%IHr1 & [t2 H2]%IHr2). exists (t1 +:+ t2). by eapply reads_app.
  - intros [?|?]; eauto.
  - intros (z & H1 & H2).
    assert (E1 : exists t, reads x t z).
    { clear H2. induction H1 as [|n a b c [t Ht]%IHr _ [u Hu]]; [apply Hrefl|].
      exists (t +:+ u). by eapply reads_app. }
    assert (E2 : exists t, reads z t y).
    { clear H1 E1. induction H2 as [|? ? a b c _ [t Ht]%IHr _ [u Hu]]; [apply Hrefl|].
      exists (t +:+ u). by eapply reads_app. }
    destruct E1 as [t1 ?], E2 as [t2 ?]. exists (t1 +:+ t2). by eapply reads_app.
  - intros (z & [t Ht]%IHr & ->). by exists t.
  - intros (t & _ & H). eauto.
  - destruct positive; intros [-> _]; apply Hrefl.
  - intros [-> _]; apply Hrefl.
  - intros [-> _]; apply Hrefl.
  - intros [-> _]; apply Hrefl.
  - intros [-> _]; apply Hrefl.
Qed.

Lemma reads_coherent x t y : coherent subject x -> reads x t y -> coherent subject y.
Proof.
  intros [H1 H2] [H3 H4]. unfold coherent.
  assert (Hs : sdrop (pos y) subject = rest y).
  { rewrite H3, <- sdrop_sdrop, <- H1, H4. apply sdrop_app. }
  split; [done|]. apply (f_equal String.length) in H1. rewrite H4, slength_app, slength_sdrop in H1.
  lia.
Qed.

Lemma den_coherent r x y : coherent subject x -> den r x y -> coherent subject y.
Proof. intros Hx [t Ht]%den_reads. by eapply reads_coherent. Qed.

(** The text between two states, as a match object cuts it out. *)
Lemma reads_text x t y :
  coherent subject x -> reads x t y -> stake (pos y - pos x) (sdrop (pos x) subject) = t.
Proof.
  intros [H1 _] [H3 H4]. rewrite <- H1, H4, H3.
  replace (pos x + String.length t - pos x) with (String.length t) by lia. apply stake_app.
Qed.

(** ** Groups *)

Fixpoint no_groups (r : regex) : bool :=
  match r with
  | RGroup _ _ => false
  | RSeq a b | RAlt a b => no_groups a && no_groups b
  | RRep _ _ _ a => no_groups a
  | _ => true
  end.

Lemma eat_caps p x y : eat p x = Some y -> caps y = caps x.
Proof. by intros (c & _ & _ & _ & _ & H)%eat_reads. Qed.

Lemma den_no_groups r : no_groups r = true -> forall x y, den r x y -> caps y = caps x.
Proof.
  induction r; cbn [no_groups]; intros Hn x y; cbn [Regex.den]; bools; try done;
    try (intros [-> _]; done); try (intros ->; done).
  - apply eat_caps.
  - apply eat_caps.
  - intros (z & H1 & H2). etransitivity; [by eapply IHr2 | by eapply IHr1].
  - intros [?|?]; eauto.
  - intros (z & H1 & H2). transitivity (caps z).
    + clear H1. induction H2 as [|? ? a b c _ Hab _ IH]; [done|]. rewrite IH. by apply IHr.
    + clear H2. induction H1 as [|n a b c Hab _ IH]; [done|]. rewrite IH. by apply IHr.
  - intros (t & _ & H). revert x H. induction t as [|c t IH]; simpl; intros x.
    + by intros [= ->].
    + destruct (eat _ x) eqn:E; [|done]. intros ->%IH. by apply eat_caps in E.
  - by destruct positive; intros [-> _].
Qed.

(** ** Sets and repeats of sets *)

Definition one (negated : bool) (items : list citem) : ascii -> bool := set_mem fl negated items.

Lemma den_set negated items x y :
  den (RSet negated items) x y -> exists c, one negated items c = true
    /\ reads x (String c EmptyString) y.
Proof. apply eat_reads_one. Qed.

(** A class of characters as an expression: a set, or any character but a newline. *)
Definition charset (r : regex) : option (ascii -> bool) :=
  match r with
  | RSet negated items => Some (set_mem fl negated items)
  | RAny => Some (fun c => dotall fl || negb (code c =? 10)%N)
  | _ => None
  end.

Lemma den_charset r p x y : charset r = Some p -> den r x y <-> eat p x = Some y.
Proof. destruct r; simpl; intros [= <-]; done. Qed.

Lemma iters_charset r p hi last x y :
  charset r = Some p -> iters (den r) hi last x y ->
  exists t, sall p t = true /\ reads x t y /\ match hi with Some n => String.length t <= n | None => True end.
Proof.
  intros Hc. induction 1 as [hi last x|hi last x y z Hm Hxy _ IH].
  { exists EmptyString. split_and!; [done | apply reads_nil | destruct hi; simpl; [lia | done]]. }
  apply (den_charset _ _ _ _ Hc), eat_reads_one in Hxy as (c & Hp & Hr).
  destruct IH as (t & Ht & Hrt & Hlen). exists (String c t). split_and!.
  - simpl. by rewrite Hp.
  - apply (reads_app x y z (String c EmptyString) t); done.
  - destruct hi as [[|n]|]; [|simpl in *; lia|done].
    unfold may_iterate in Hm. done.
Qed.

Lemma exactly_charset r p n x y :
  charset r = Some p -> exactly (den r) n x y ->
  exists t, sall p t = true /\ reads x t y /\ String.length t = n.
Proof.
  intros Hc. induction 1 as [x|n x y z Hxy _ IH].
  { exists EmptyString. split_and!; [done | apply reads_nil | done]. }
  apply (den_charset _ _ _ _ Hc), eat_reads_one in Hxy as (c & Hp & Hr).
  destruct IH as (t & Ht & Hrt & Hlen). exists (String c t). split_and!.
  - simpl. by rewrite Hp.
  - apply (reads_app x y z (String c EmptyString) t); done.
  - simpl. lia.
Qed.

(** A repeat of a class reads a text of that class. *)
Lemma den_rep_charset r p greedy lo hi x y :
  charset r = Some p -> den (RRep greedy lo hi r) x y ->
  exists t, sall p t = true /\ reads x t y /\ lo <= String.length t.
Proof.
  intros Hc (z & H1 & H2).
  destruct (exactly_charset r p lo x z Hc H1) as (t & Ht & Hr & Hl).
  destruct (iters_charset r p _ _ z y Hc H2) as (u & Hu & Hru & _).
  exists (t +:+ u). split_and!.
  - by rewrite sall_app, Ht, Hu.
  - by eapply reads_app.
  - rewrite slength_app. lia.
Qed.

(** The state after [t] was read from [x]. *)
Fixpoint after (t : string) (x : state) : state :=
  match t with
  | EmptyString => x
  | String c t' => after t' (advance x c (sdrop 1 (rest x)))
  end.

Lemma after_pos t : forall x, pos (after t x) = pos x + String.length t.
Proof. induction t; intros x; simpl; [lia|]. rewrite IHt. simpl. lia. Qed.

Lemma after_caps t : forall x, caps (after t x) = caps x.
Proof. induction t; intros x; simpl; [done|]. by rewrite IHt. Qed.

Lemma after_rest t : forall x r, rest x = t +:+ r -> rest (after t x) = r.
Proof.
  induction t as [|c t IH]; intros x r H; simpl; [done|]. apply IH. simpl. rewrite H. done.
Qed.

(** A greedy or lazy star of a class can read any text of the class. *)
Lemma den_star_charset r p greedy t : forall x u,
  charset r = Some p -> sall p t = true -> rest x = t +:+ u ->
  den (RRep greedy 0 None r) x (after t x).
Proof.
  intros x u Hc Ht Hx. cbn [Regex.den]. exists x. split; [constructor|]. simpl sub_hi.
  assert (Hi : forall last, (forall q, last = Some q -> q <> pos x) ->
    iters (den r) None last x (after t x)).
  { revert x u Ht Hx. induction t as [|c t IH]; intros x u Ht Hx last Hl; cbn [after].
    { constructor. }
    simpl in Ht. bools. econstructor.
    - unfold may_iterate. destruct last as [q|]; [|done]. simpl.
      apply negb_true_iff, Nat.eqb_neq. by apply Hl.
    - apply (den_charset _ _ _ _ Hc). unfold eat. rewrite Hx. simpl. rewrite H. done.
    - simpl dec. rewrite Hx. simpl sdrop. eapply IH; [done|done|].
      intros q [= <-]. simpl. lia. }
  apply Hi. intros q Hq. discriminate.
Qed.

(** One character of a class. *)
Lemma den_set_intro r p x c u :
  charset r = Some p -> p c = true -> rest x = String c u -> den r x (advance x c u).
Proof. intros Hc Hp Hx. apply (den_charset _ _ _ _ Hc). unfold eat. by rewrite Hx, Hp. Qed.
End Facts.

(** ** Match objects *)

Lemma coherent_start s i : i <= String.length s -> coherent s (state_at s i).
Proof. intros H. split; [done | exact H]. Qed.

(** The text of a group whose span was recorded by [set_cap]. *)
Lemma m_group_reads s i y n x t z :
  cap_lookup (S n) (caps y) = Some (pos x, pos z) ->
  coherent s x -> reads x t z -> m_group (Mobj s i y) (S n) = Some t.
Proof.
  intros Hc Hx Hr. unfold m_group, m_span. cbn [m_final m_subject]. rewrite Hc.
  f_equal. by apply reads_text.
Qed.

(** The bodies of the groups with number [n]. *)
Fixpoint group_bodies (n : nat) (r : regex) : list regex :=
  match r with
  | RSeq a b | RAlt a b => group_bodies n a ++ group_bodies n b
  | RRep _ _ _ a => group_bodies n a
  | RGroup k a => (if Nat.eqb k n then [a] else []) ++ group_bodies n a
  | _ => []
  end.

(** An expression leaves the groups that it does not have alone. *)
Lemma exactly_caps (R : state -> state -> Prop) n k x y :
  (forall x y, R x y -> cap_lookup n (caps y) = cap_lookup n (caps x)) ->
  exactly R k x y -> cap_lookup n (caps y) = cap_lookup n (caps x).
Proof. intros HR H. induction H as [|k x y z Hxy _ IH]; [done|]. rewrite IH. by apply HR. Qed.

Lemma iters_caps (R : state -> state -> Prop) n hi last x y :
  (forall x y, R x y -> cap_lookup n (caps y) = cap_lookup n (caps x)) ->
  iters R hi last x y -> cap_lookup n (caps y) = cap_lookup n (caps x).
Proof. intros HR H. induction H as [|hi last x y z _ Hxy _ IH]; [done|]. rewrite IH. by apply HR. Qed.

Lemma den_fresh fl subject n r : group_bodies n r = [] ->
  forall x y, den fl subject r x y -> cap_lookup n (caps y) = cap_lookup n (caps x).
Proof.
  induction r as [|neg items| |a IHa b IHb|a IHa b IHb|g lo hi a IHa|k a IHa|k|b a IHa| | | |];
    cbn [group_bodies]; intros Ho x y Hd;
    try (f_equal; revert Hd; apply den_no_groups; reflexivity).
  - apply app_nil in Ho as [H1 H2]. destruct Hd as (z & Ha & Hb).
    by rewrite (IHb H2 _ _ Hb), (IHa H1 _ _ Ha).
  - apply app_nil in Ho as [H1 H2]. destruct Hd; eauto.
  - destruct Hd as (z & H1 & H2).
    rewrite (iters_caps _ n _ _ _ _ (IHa Ho) H2). by apply (exactly_caps _ n _ _ _ (IHa Ho) H1).
  - apply app_nil in Ho as [H1 H2]. destruct Hd as (z & Ha & ->). cbn [caps set_cap cap_lookup].
    destruct (Nat.eqb k n); [done|]. eauto.
Qed.

(** ** Matches of a sequence *)

(** The parts of a sequence; a part that is a group carries its number. *)
Definition part (r : regex) : option nat * regex :=
  match r with RGroup n a => (Some n, a) | _ => (None, r) end.
Fixpoint parts (r : regex) : list (option nat * regex) :=
  match r with
  | RSeq a b => part a :: parts b
  | _ => [part r]
  end.

Definition close_part (o : option nat) (x z : state) : state :=
  match o with Some n => set_cap n (pos x) z | None => z end.

(** The parts match one after the other and read the texts [ts]. *)
Fixpoint pieces (fl : flags) (subject : string) (items : list (option nat * regex))
    (x y : state) (ts : list string) : Prop :=
  match items, ts with
  | [], [] => y = x
  | (o, r) :: items', t :: ts' =>
      exists z, den fl subject r x z /\ reads x t z
        /\ pieces fl subject items' (close_part o x z) y ts'
  | _, _ => False
  end.

(** The text that the parts read. *)
Fixpoint sconcat (ts : list string) : string :=
  match ts with
  | [] => EmptyString
  | t :: ts' => t +:+ sconcat ts'
  end.

(** The group [n] is neither one of the parts nor inside one. *)
Fixpoint fresh_group (n : nat) (items : list (option nat * regex)) : bool :=
  match items with
  | [] => true
  | (o, r) :: items' =>
      match group_bodies n r with [] => true | _ => false end
      && match o with Some k => negb (Nat.eqb k n) | None => true end
      && fresh_group n items'
  end.

(** A part that is a group is not set again by a later part. *)
Fixpoint simple_parts (items : list (option nat * regex)) : bool :=
  match items with
  | [] => true
  | (o, r) :: items' =>
      match o with Some n => fresh_group n items' | None => true end && simple_parts items'
  end.

(** The text of a group among the texts of the parts. *)
Fixpoint group_text (n : nat) (items : list (option nat * regex)) (ts : list string)
    : option string :=
  match items, ts with
  | (Some k, _) :: items', t :: ts' => if Nat.eqb k n then Some t else group_text n items' ts'
  | (None, _) :: items', _ :: ts' => group_text n items' ts'
  | _, _ => None
  end.

Section Pieces.
Context (fl : flags) (subject : string).

Lemma den_part r x y :
  den fl subject r x y ->
  exists z t, den fl subject (part r).2 x z /\ reads x t z /\ y = close_part (part r).1 x z.
Proof.
  destruct r; cbn [part fst snd close_part]; intros H;
    try (destruct (den_reads _ _ _ _ _ H) as [t Ht]; by exists y, t).
  destruct H as (z & Hz & ->). destruct (den_reads _ _ _ _ _ Hz) as [t Ht]. by exists z, t.
Qed.

Lemma den_pieces r : forall x y, den fl subject r x y -> exists ts, pieces fl subject (parts r) x y ts.
Proof.
  assert (Hone : forall r x y, den fl subject r x y ->
    exists ts, pieces fl subject [part r] x y ts).
  { intros r' x y (z & t & Hz & Ht & ->)%den_part. exists [t].
    destruct (part r') as [o a]. simpl in *. eauto. }
  induction r; intros x y H; cbn [parts]; try by apply Hone.
  destruct H as (w & (z & t & Hz & Ht & ->)%den_part & H2).
  apply IHr2 in H2 as [ts Hts]. exists (t :: ts).
  destruct (part r1) as [o a]. simpl in *. eauto.
Qed.

Lemma close_part_reads o x z t y : reads x t z -> reads (close_part o x z) t y <-> reads z t y.
Proof. by destruct o. Qed.

Lemma pieces_reads items : forall x y ts,
  pieces fl subject items x y ts -> reads x (sconcat ts) y.
Proof.
  induction items as [|[o r] items IH]; intros x y [|t ts]; simpl; try done.
  - intros ->. apply reads_nil.
  - intros (z & _ & Ht & H%IH). apply (reads_app x (close_part o x z) y); [by destruct o | done].
Qed.

Lemma pieces_fresh items : forall x y ts n,
  fresh_group n items = true ->
  pieces fl subject items x y ts -> cap_lookup n (caps y) = cap_lookup n (caps x).
Proof.
  induction items as [|[o r] items IH]; intros x y [|t ts] n Hf; cbn [fresh_group pieces] in *; try done.
  - by intros ->.
  - bools. intros (z & Hz & _ & Hp). destruct (group_bodies n r) eqn:Eb; [|done].
    rewrite (IH _ _ _ _ H0 Hp), <- (den_fresh _ _ _ _ Eb _ _ Hz). destruct o as [k|]; [|done].
    bools. simpl. by rewrite (proj2 (Nat.eqb_neq k n)).
Qed.

(** Every group of a simple sequence holds the text its part read. *)
Lemma pieces_group items : forall x y ts n t,
  simple_parts items = true -> coherent subject x -> pieces fl subject items x y ts ->
  group_text n items ts = Some t ->
  exists a b, cap_lookup n (caps y) = Some (a, b) /\ stake (b - a) (sdrop a subject) = t.
Proof.
  induction items as [|[o r] items IH]; intros x y [|u ts] n t Hs Hx; cbn [pieces group_text];
    try done.
  cbn [simple_parts] in Hs. bools. intros (z & Hz & Hr & Hp) Hg.
  pose proof (reads_coherent _ _ _ _ Hx Hr) as Hcz.
  assert (Hcz' : coherent subject (close_part o x z)) by (by destruct o).
  destruct o as [k|]; [|by eapply IH].
  destruct (Nat.eqb k n) eqn:E; [|by eapply IH].
  bools. subst k. injection Hg as ->. exists (pos x), (pos z). split.
  - rewrite (pieces_fresh _ _ _ _ _ H Hp). simpl. by rewrite Nat.eqb_refl.
  - by apply reads_text.
Qed.
End Pieces.

(** What a match object of a simple sequence tells about the string. *)
Definition splits (p : pattern) (s : string) (i : nat) (m : mobj) (ts : list string) : Prop :=
  pieces (p_fl p) s (parts (p_regex p)) (state_at s i) (m_final m) ts
  /\ sdrop i s = sconcat ts +:+ rest (m_final m)
  /\ forall n t, group_text (S n) (parts (p_regex p)) ts = Some t ->
       m_group m (S n) = Some t /\ m_text m (S n) = t.

Lemma matches_at_splits p s i y :
  simple_parts (parts (p_regex p)) = true -> i <= String.length s -> matches_at p s i y ->
  exists ts, splits p s i (Mobj s i y) ts.
Proof.
  intros Hs Hi [ts Hts]%den_pieces. exists ts. split_and!; [done | |].
  - by apply pieces_reads in Hts as [_ H].
  - intros n t Ht.
    destruct (pieces_group _ _ _ _ _ _ _ _ Hs (coherent_start s i Hi) Hts Ht) as (a & b & Hc & Hst).
    assert (Hm : m_group (Mobj s i y) (S n) = Some t).
    { unfold m_group, m_span. cbn [m_final m_subject]. by rewrite Hc, Hst. }
    split; [done|]. unfold m_text. by rewrite Hm.
Qed.

Lemma re_match_splits p s m :
  re_match p s = Some m -> simple_parts (parts (p_regex p)) = true -> exists ts, splits p s 0 m ts.
Proof.
  intros E Hs. pose proof (re_match_spec p s) as H. rewrite E in H. destruct H as (H1 & H2 & H3).
  destruct m as [subj i y]; simpl in *; subst. apply matches_at_splits; [done | lia | done].
Qed.

Lemma re_search_splits p s m :
  re_search p s = Some m -> simple_parts (parts (p_regex p)) = true ->
  exists ts, splits p s (m_begin m) m ts.
Proof.
  intros E Hs. pose proof (re_search_spec p s) as H. rewrite E in H.
  destruct H as (H1 & H2 & H3 & _).
  destruct m as [subj i y]; simpl in *; subst. by apply matches_at_splits.
Qed.

Lemma Match_splits p s m :
  Match p s = Some m -> simple_parts (parts (p_regex (pat p))) = true ->
  exists ts, splits (pat p) s 0 m ts.
Proof. unfold Match. apply re_match_splits. Qed.

Lemma Search_splits p s m :
  Search p s = Some m -> simple_parts (parts (p_regex (pat p))) = true ->
  exists ts, splits (pat p) s (m_begin m) m ts.
Proof. unfold Search. apply re_search_splits. Qed.

(** The whole match is the parts put together. *)
Lemma Match_text0 p s m ts :
  Match p s = Some m -> splits (pat p) s 0 m ts -> m_text m 0 = sconcat ts.
Proof.
  unfold Match. intros E (Hp & _ & _).
  pose proof (re_match_spec (pat p) s) as H. rewrite E in H. destruct H as (H1 & H2 & _).
  apply pieces_reads in Hp. unfold m_text, m_group, m_span. rewrite H1, H2. simpl.
  by apply (reads_text s (state_at s 0)); [apply coherent_start; lia|].
Qed.

(** A string that a pattern matches is matched by [Match] and [Search]. *)
Lemma Match_complete p s y : matches_at (pat p) s 0 y -> exists m, Match p s = Some m.
Proof.
  intros Hy. unfold Match. pose proof (re_match_spec (pat p) s) as H.
  destruct (re_match (pat p) s); [by eauto | by apply H in Hy].
Qed.

Lemma Search_complete p s i y :
  i <= String.length s -> matches_at (pat p) s i y -> exists m, Search p s = Some m.
Proof.
  intros Hi Hy. unfold Search. pose proof (re_search_spec (pat p) s) as H.
  destruct (re_search (pat p) s); [by eauto | by apply H in Hy].
Qed.

Lemma pieces_cons fl s o r items x y ts :
  pieces fl s ((o, r) :: items) x y ts ->
  exists z t ts', ts = t :: ts' /\ den fl s r x z /\ reads x t z
    /\ pieces fl s items (close_part o x z) y ts'.
Proof.
  destruct ts as [|t ts]; [done|]. intros (z & H1 & H2 & H3). by exists z, t, ts.
Qed.

Lemma pieces_nil fl s x y ts : pieces fl s [] x y ts -> ts = [] /\ y = x.
Proof. by destruct ts. Qed.

(** Compute the syntax tree of a pattern literal in the goal. *)
Ltac compute_pat :=
  repeat match goal with
  | |- context [pat ?s] =>
      let p := eval vm_compute in (pat s) in
      let E := fresh in
      assert (E : pat s = p) by (vm_compute; reflexivity); rewrite E; clear E
  end.

(** Take the texts of a match apart: from [splits] of a concrete pattern, one
    hypothesis for each part, the equation of the text and the groups. *)
Ltac splits_inv H :=
  let Hp := fresh "Hp" in let Hs := fresh "Hs" in let Hg := fresh "Hg" in
  destruct H as (Hp & Hs & Hg);
  match type of Hp with
  | context [parts (p_regex ?q)] =>
      let q' := eval vm_compute in (parts (p_regex q)) in
      let f' := eval vm_compute in (p_fl q) in
      let Eq := fresh in let Ef := fresh in
      assert (Eq : parts (p_regex q) = q') by (vm_compute; reflexivity);
      assert (Ef : p_fl q = f') by (vm_compute; reflexivity);
      rewrite Eq in Hp, Hg; rewrite Ef in Hp; clear Eq Ef
  end;
  repeat match type of Hp with
  | pieces _ _ (_ :: _) _ _ _ =>
      let t := fresh "t" in let ts := fresh "ts" in let z := fresh "z" in
      apply pieces_cons in Hp as (z & t & ts & -> & ? & ? & Hp)
  | pieces _ _ [] _ _ _ => apply pieces_nil in Hp as [-> Hp]
  end; cbn [sconcat close_part] in *; cbn [group_text Nat.eqb] in Hg.

(** Parts that read nothing. *)
Lemma reads_same x t : reads x t x -> t = EmptyString.
Proof. intros [H _]. destruct t; [done | simpl in H; lia]. Qed.

Lemma den_width0 fl s r x y t :
  match r with RBegin | REnd | RWordB | RNotWordB | REmpty | RLook _ _ => true | _ => false end = true ->
  den fl s r x y -> reads x t y -> t = EmptyString.
Proof.
  destruct r; try done; intros _; cbn [den].
  - intros ->. apply reads_same.
  - destruct positive; intros [-> _]; apply reads_same.
  - intros [-> _]; apply reads_same.
  - intros [-> _]; apply reads_same.
  - intros [-> _]; apply reads_same.
  - intros [-> _]; apply reads_same.
Qed.

(** The text between two states is unique. *)
Lemma reads_inj x y t u : reads x t y -> reads x u y -> t = u.
Proof.
  intros [H1 H2] [H3 H4]. rewrite H2 in H4.
  assert (Hl : String.length t = String.length u) by lia.
  rewrite <- (stake_app t (rest y)), H4, Hl. apply stake_app.
Qed.

Lemma den_set_text fl s neg items x y t :
  den fl s (RSet neg items) x y -> reads x t y ->
  exists c, set_mem fl neg items c = true /\ t = String c EmptyString.
Proof. intros (c & Hc & Hr)%den_set Ht. exists c. split; [done|]. by eapply reads_inj. Qed.

Lemma den_rep_text fl s r p greedy lo hi x y t :
  charset fl r = Some p -> den fl s (RRep greedy lo hi r) x y -> reads x t y ->
  sall p t = true /\ lo <= String.length t.
Proof.
  intros Hc (u & Hu & Hr & Hl)%(den_rep_charset _ _ _ _ _ _ _ _ _ Hc) Ht.
  by rewrite (reads_inj _ _ _ _ Ht Hr).
Qed.

Lemma set_mem_lit d a c : set_mem (Flags false d) false [CRange a a] c = true -> c = a.
Proof.
  unfold set_mem. simpl. rewrite !orb_false_r. unfold in_range. intros H; bools.
  apply N.leb_le in H, H0. apply code_inj. lia.
Qed.

(** A pattern that begins with a literal text. *)
Fixpoint lits (t : string) (r : regex) : regex :=
  match t with
  | EmptyString => r
  | String c t' => RSeq (RSet false [CRange c c]) (lits t' r)
  end.

Lemma den_lits d s r z u t : forall x,
  rest x = t +:+ u -> den (Flags false d) s r (after t x) z ->
  den (Flags false d) s (lits t r) x z.
Proof.
  induction t as [|c t IH]; intros x Hx Hd; [exact Hd|].
  cbn [lits Regex.den]. exists (advance x c (t +:+ u)). split.
  - unfold eat. rewrite Hx. cbn [String.append].
    assert (set_mem (Flags false d) false [CRange c c] c = true) as ->; [|done].
    unfold set_mem. cbn. unfold in_range. by rewrite !N.leb_refl.
  - apply IH; [done|]. cbn [after] in Hd. by rewrite Hx in Hd.
Qed.

Lemma set_mem_space d c : set_mem (Flags false d) false [CClass CSpace false] c = is_space c.
Proof. unfold set_mem. simpl. rewrite !orb_false_r. by destruct (is_space c). Qed.

(** Simplify the parts that [splits_inv] produced: assertions read nothing, a
    set reads one character, a repeat of a set a text of that set. *)
Ltac parts_simpl :=
  repeat match goal with
  | Hd : den ?fl ?s ?r ?x ?y, Hr : reads ?x ?t ?y |- _ =>
      match r with
      | RBegin => idtac | REnd => idtac | RWordB => idtac | RNotWordB => idtac
      | RLook _ _ => idtac
      end;
      is_var t; apply (den_width0 fl s r x y t eq_refl Hd) in Hr; subst t
  | Hd : den ?fl ?s (RSet ?n ?i) ?x ?y, Hr : reads ?x ?t ?y |- _ =>
      is_var t;
      let c := fresh "c" in let Hc := fresh "Hc" in
      destruct (den_set_text fl s n i x y t Hd Hr) as (c & Hc & ->); clear Hr
  | Hc : set_mem (Flags false _) false [CRange ?a ?a] ?c = true |- _ =>
      apply set_mem_lit in Hc; subst c
  | Hd : den ?fl ?s (RRep ?g ?lo ?hi ?r) ?x ?y, Hr : reads ?x ?t ?y |- _ =>
      let Hc := fresh "Hc" in let Hl := fresh "Hl" in
      destruct (den_rep_text fl s r _ g lo hi x y t eq_refl Hd Hr) as [Hc Hl]; clear Hr
  end; repeat progress (cbn [sdrop String.append] in *; rewrite ?sapp_assoc, ?sapp_nil_r in *).

(** ** Texts that a pattern needs *)

Definition is_lit (a : ascii) (r : regex) : bool :=
  match r with RSet false [CRange x y] => Ascii.eqb x a && Ascii.eqb y a | _ => false end.
Fixpoint starts_lit (b : ascii) (r : regex) : bool :=
  match r with RSeq r1 _ => starts_lit b r1 | _ => is_lit b r end.

(** Every match reads the character [a] directly followed by [b]. *)
Fixpoint needs2 (a b : ascii) (r : regex) : bool :=
  match r with
  | RSeq r1 r2 => needs2 a b r1 || needs2 a b r2 || (is_lit a r1 && starts_lit b r2)
  | RAlt r1 r2 => needs2 a b r1 && needs2 a b r2
  | RGroup _ r1 => needs2 a b r1
  | _ => false
  end.

Section Needs.
Context (d : bool) (subject : string).
Local Abbreviation den := (Regex.den (Flags false d) subject).

Lemma is_lit_reads a r x y t :
  is_lit a r = true -> den r x y -> reads x t y -> t = String a EmptyString.
Proof.
  destruct r as [|[] [|[lo hi|] []]| | | | | | | | | | |]; cbn [is_lit]; try done.
  intros H Hd Hr; bools; subst.
  destruct (den_set_text _ _ _ _ _ _ _ Hd Hr) as (c & Hc & ->).
  by apply set_mem_lit in Hc as ->.
Qed.

Lemma starts_lit_reads b r : forall x y t,
  starts_lit b r = true -> den r x y -> reads x t y -> exists u, t = String b u.
Proof.
  induction r; intros x y t H Hd Hr; cbn [starts_lit] in H;
    try (by eexists; eapply (is_lit_reads b); [exact H | exact Hd | exact Hr]).
  destruct Hd as (z & H1 & H2).
  destruct (den_reads _ _ _ _ _ H1) as [t1 Ht1], (den_reads _ _ _ _ _ H2) as [t2 Ht2].
  destruct (IHr1 _ _ _ H H1 Ht1) as [u ->].
  exists (u +:+ t2). eapply reads_inj; [exact Hr|]. exact (reads_app _ _ _ _ _ Ht1 Ht2).
Qed.

Lemma needs2_reads a b r : forall x y t,
  needs2 a b r = true -> den r x y -> reads x t y ->
  exists u v, t = u +:+ String a (String b v).
Proof.
  induction r; intros x y t H Hd Hr; cbn [needs2] in H; try done.
  - destruct Hd as (z & H1 & H2).
    destruct (den_reads _ _ _ _ _ H1) as [t1 Ht1], (den_reads _ _ _ _ _ H2) as [t2 Ht2].
    rewrite (reads_inj _ _ _ _ Hr (reads_app _ _ _ _ _ Ht1 Ht2)).
    apply orb_true_iff in H as [H|H]; [apply orb_true_iff in H as [H|H]|].
    + destruct (IHr1 _ _ _ H H1 Ht1) as (u & v & ->). exists u, (v +:+ t2).
      by rewrite sapp_assoc.
    + destruct (IHr2 _ _ _ H H2 Ht2) as (u & v & ->). exists (t1 +:+ u), v.
      by rewrite sapp_assoc.
    + bools. rewrite (is_lit_reads a _ _ _ _ H H1 Ht1).
      destruct (starts_lit_reads b _ _ _ _ H0 H2 Ht2) as [u ->]. by exists EmptyString, u.
  - bools. destruct Hd as [Hd|Hd]; eauto.
  - destruct Hd as (z & Hd & ->). eauto.
Qed.
End Needs.

Lemma matches_at_needs2 p s i y a b :
  icase (p_fl p) = false -> needs2 a b (p_regex p) = true -> i <= String.length s ->
  matches_at p s i y -> contains s (String a (String b EmptyString)) = true.
Proof.
  destruct p as [r [ic d]]; cbn [p_fl p_regex icase]. intros -> Hn Hi Hm.
  destruct (den_reads _ _ _ _ _ Hm) as [t Ht].
  destruct (needs2_reads d s a b r _ _ _ Hn Hm Ht) as (u & v & ->).
  destruct Ht as [_ Hr]. cbn [rest state_at start_at] in Hr. apply contains_spec.
  exists (stake i s +:+ u), (v +:+ rest y).
  rewrite <- (stake_sdrop i s) at 1. rewrite Hr, !sapp_assoc. done.
Qed.

(** Without a match a substitution changes nothing. *)
Lemma re_sub_no_match p rep s :
  (forall i y, i <= String.length s -> ~ matches_at p s i y) -> re_sub p rep s = s.
Proof.
  intros Hno. unfold re_sub, re_finditer.
  replace (2 * String.length s + 3) with (S (2 * String.length s + 2)) by lia.
  cbn [finditer_go].
  pose proof (search_go_spec p s (fun start y => negb (false && Nat.eqb start 0 && Nat.eqb (pos y) 0))
                s 0 eq_refl eq_refl) as H. cbn [sdrop].
  destruct (search_go _ _ _ _ _ _) as [m|]; [|done].
  destruct H as (_ & Hi & Hm & _). exfalso. eapply Hno; [|exact Hm]. lia.
Qed.

(** ** Substitution of single characters *)

Section Characters.
Context (p : pattern) (f : ascii -> bool) (Hp : charset (p_fl p) (p_regex p) = Some f).

Lemma run_charset {A} s (k : state -> option A) x :
  run (p_fl p) s (p_regex p) k x = match eat f x with Some y => k y | None => None end.
Proof.
  unfold charset in Hp. destruct (p_regex p); simplify_eq; reflexivity.
Qed.

(** The first position with such a character. *)
Lemma search_go_charset s accept r : forall before i,
  (forall j y, accept j y = true) ->
  (sall (fun c => negb (f c)) r = true /\ search_go p s accept before i r = None) \/
  exists u c v y, r = u +:+ String c v /\ sall (fun c => negb (f c)) u = true /\ f c = true /\
    search_go p s accept before i r = Some (Mobj s (i + String.length u) y) /\
    pos y = S (i + String.length u).
Proof.
  induction r as [|c r IH]; intros before i Ha; cbn [search_go]; rewrite run_charset;
    unfold eat, start_at; cbn [rest]; [by left|].
  destruct (f c) eqn:Ec.
  - right. rewrite Ha. eexists EmptyString, c, r, _. cbn. rewrite Nat.add_0_r.
    split_and!; try done.
  - destruct (IH (Some c) (S i) Ha) as [[H ->]|(u & d & v & y & -> & Hu & Hd & -> & Hy)].
    + left. simpl. by rewrite Ec, H.
    + right. exists (String c u), d, v, y. simpl. rewrite Ec, Hu, Nat.add_succ_r in *. done.
Qed.

Lemma smap_none g u : sall (fun c => negb (f c)) u = true ->
  smap (fun c => if f c then g else c) u = u.
Proof.
  induction u as [|c u IH]; [done|]. simpl. intros H. bools. by rewrite H, IH.
Qed.

Lemma smap_app g u v : smap g (u +:+ v) = smap g u +:+ smap g v.
Proof. induction u; simpl; [done|]. by f_equal. Qed.

Lemma splice_charset d s : forall fuel i,
  String.length (sdrop i s) < fuel ->
  splice (String d EmptyString) s i (finditer_go fuel p s i false)
  = smap (fun c => if f c then d else c) (sdrop i s).
Proof.
  induction fuel as [|fuel IH]; intros i Hf; [lia|]. cbn [finditer_go].
  destruct (search_go_charset s (fun start y => negb (false && Nat.eqb start i && Nat.eqb (pos y) i))
    (sdrop i s) (char_before s i) i) as [[H ->]|(u & c & v & y & Er & Hu & Hc & -> & Hy)]; [done| |].
  - cbn [splice]. by rewrite smap_none.
  - assert (Ev : sdrop (S (i + String.length u)) s = v).
    { replace (S (i + String.length u)) with (i + String.length (u +:+ String c EmptyString))
        by (rewrite slength_app; simpl; lia).
      rewrite <- sdrop_sdrop, Er.
      replace (u +:+ String c v) with ((u +:+ String c EmptyString) +:+ v) by (by rewrite sapp_assoc).
      apply sdrop_app. }
    cbn [splice m_begin m_final]. rewrite Hy.
    replace (Nat.eqb (S (i + String.length u)) (i + String.length u)) with false
      by (symmetry; apply Nat.eqb_neq; lia).
    rewrite IH; [|rewrite Ev; rewrite Er, slength_app in Hf; simpl in Hf; lia].
    rewrite Ev, Er. replace (i + String.length u - i) with (String.length u) by lia.
    rewrite stake_app, smap_app, (smap_none d u Hu). simpl. by rewrite Hc.
Qed.

(** [re.sub] of a one-character expression by a character replaces the
    characters one by one. *)
Lemma re_sub_charset d s :
  re_sub p (String d EmptyString) s = smap (fun c => if f c then d else c) s.
Proof. unfold re_sub, re_finditer. rewrite splice_charset; [done|]. simpl. lia. Qed.
End Characters.

(** ** The characters a group can hold *)

Definition all_chars : list ascii := map ascii_of_nat (seq 0 256).

Lemma all_chars_in c : In c all_chars.
Proof.
  apply in_map_iff. exists (nat_of_ascii c). split; [apply ascii_nat_embedding|].
  apply in_seq. pose proof (nat_ascii_bounded c). lia.
Qed.

Section GroupChars.
Context (fl : flags) (subject : string).
Local Abbreviation den := (den fl subject).

(** Every character that the expression reads satisfies [p]. *)
Fixpoint only (p : ascii -> bool) (r : regex) : bool :=
  match r with
  | RSet negated items => forallb (fun c => implb (set_mem fl negated items c) (p c)) all_chars
  | RAny | RBackref _ => false
  | RSeq a b | RAlt a b => only p a && only p b
  | RRep _ _ _ a | RGroup _ a => only p a
  | _ => true
  end.

Definition reads_only (p : ascii -> bool) (x y : state) : Prop :=
  exists t, reads x t y /\ sall p t = true.

Lemma reads_only_trans p x y z : reads_only p x y -> reads_only p y z -> reads_only p x z.
Proof.
  intros (t & Ht & Hp) (u & Hu & Hq). exists (t +:+ u). split; [by eapply reads_app|].
  by rewrite sall_app, Hp, Hq.
Qed.

Lemma reads_only_refl p x : reads_only p x x.
Proof. exists EmptyString. split; [apply reads_nil|done]. Qed.

Lemma exactly_only (R : state -> state -> Prop) p n x y :
  (forall x y, R x y -> reads_only p x y) -> exactly R n x y -> reads_only p x y.
Proof.
  intros HR. revert x. induction n as [|n IH]; intros x H; inversion H; subst.
  - apply reads_only_refl.
  - eapply reads_only_trans; eauto.
Qed.

Lemma iters_only (R : state -> state -> Prop) p hi last x y :
  (forall x y, R x y -> reads_only p x y) -> iters R hi last x y -> reads_only p x y.
Proof.
  intros HR H. induction H; [apply reads_only_refl|]. eapply reads_only_trans; eauto.
Qed.

Lemma den_only p r : only p r = true -> forall x y, den r x y -> reads_only p x y.
Proof.
  induction r as [|neg items| |a IHa b IHb|a IHa b IHb|g lo hi a IHa|n a IHa| |pos a IHa| | | |];
    cbn [only]; intros Ho x y Hd; try done.
  - cbn in Hd. subst. apply reads_only_refl.
  - cbn in Hd. destruct (eat_reads_one _ _ _ Hd) as (c & Hc & Hr). exists (String c EmptyString).
    split; [done|]. rewrite forallb_forall in Ho. specialize (Ho c (all_chars_in c)).
    rewrite Hc in Ho. simpl in *. by rewrite Ho.
  - bools. destruct Hd as (z & H1 & H2). eapply reads_only_trans; eauto.
  - bools. destruct Hd; eauto.
  - destruct Hd as (z & H1 & H2). eapply reads_only_trans.
    + eapply exactly_only; [|exact H1]. eauto.
    + eapply iters_only; [|exact H2]. eauto.
  - destruct Hd as (z & H1 & ->). destruct (IHa Ho _ _ H1) as (t & Ht & Hp). by exists t.
  - destruct pos; destruct Hd as [-> _]; apply reads_only_refl.
  - destruct Hd as [-> _]. apply reads_only_refl.
  - destruct Hd as [-> _]. apply reads_only_refl.
  - destruct Hd as [-> _]. apply reads_only_refl.
  - destruct Hd as [-> _]. apply reads_only_refl.
Qed.

(** The span of group [n] was there before, or is one of a text over [p]. *)
Definition group_only (p : ascii -> bool) (n : nat) (x y : state) : Prop :=
  forall a b, cap_lookup n (caps y) = Some (a, b) ->
  cap_lookup n (caps x) = Some (a, b) \/
  exists u v, coherent subject u /\ reads_only p u v /\ a = pos u /\ b = pos v.

Lemma group_only_same p n x y : caps y = caps x -> group_only p n x y.
Proof. intros E a b. rewrite E. by left. Qed.

Lemma group_only_trans p n x y z : group_only p n x y -> group_only p n y z -> group_only p n x z.
Proof. intros H1 H2 a b [H|H]%H2; [by apply H1|by right]. Qed.

Lemma exactly_coherent_ind (R P : state -> state -> Prop) n x y :
  (forall x, P x x) -> (forall x y z, P x y -> P y z -> P x z) ->
  (forall x y, coherent subject x -> R x y -> coherent subject y /\ P x y) ->
  coherent subject x -> exactly R n x y -> coherent subject y /\ P x y.
Proof.
  intros Hr Ht HR Hx H. induction H as [|n x y z Hxy _ IH]; [auto|].
  destruct (HR _ _ Hx Hxy) as [Hy Hp]. destruct (IH Hy) as [Hz Hp']. eauto.
Qed.

Lemma iters_coherent_ind (R P : state -> state -> Prop) hi last x y :
  (forall x, P x x) -> (forall x y z, P x y -> P y z -> P x z) ->
  (forall x y, coherent subject x -> R x y -> coherent subject y /\ P x y) ->
  coherent subject x -> iters R hi last x y -> coherent subject y /\ P x y.
Proof.
  intros Hr Ht HR Hx H. induction H as [|hi last x y z _ Hxy _ IH]; [auto|].
  destruct (HR _ _ Hx Hxy) as [Hy Hp]. destruct (IH Hy) as [Hz Hp']. eauto.
Qed.

Lemma den_group p n r : forallb (only p) (group_bodies n r) = true ->
  forall x y, coherent subject x -> den r x y -> group_only p n x y.
Proof.
  assert (Hrefl : forall x, group_only p n x x) by (intros; by apply group_only_same).
  induction r as [|neg items| |a IHa b IHb|a IHa b IHb|g lo hi a IHa|k a IHa|k|pos a IHa| | | |];
    cbn [group_bodies]; intros Ho x y Hx Hd; rewrite ?forallb_app in Ho;
    try (apply group_only_same; revert Hd; apply den_no_groups; reflexivity).
  - bools. destruct Hd as (z & H1 & H2). eapply group_only_trans; [by eapply IHa|].
    eapply IHb; [done| |exact H2]. by eapply den_coherent.
  - bools. destruct Hd; eauto.
  - destruct Hd as (z & H1 & H2).
    assert (HR : forall x y, coherent subject x -> den a x y ->
      coherent subject y /\ group_only p n x y) by (intros; split; [by eapply den_coherent|auto]).
    destruct (exactly_coherent_ind _ (group_only p n) _ _ _ Hrefl (group_only_trans p n) HR Hx H1) as [Hz H3].
    destruct (iters_coherent_ind _ (group_only p n) _ _ _ _ Hrefl (group_only_trans p n) HR Hz H2) as [_ H4].
    by eapply group_only_trans.
  - bools. destruct Hd as (z & H1 & ->). intros s e Hl. cbn [caps set_cap cap_lookup] in Hl.
    destruct (Nat.eqb k n) eqn:Ek; [|by eapply IHa].
    simpl in H. bools. simplify_eq. right. exists x, z. split; [done|].
    split; [by eapply den_only|done].
Qed.

End GroupChars.

(** A group all of whose bodies read characters of [q] only holds such characters. *)
Lemma Match_group_only p s m n q t :
  Match p s = Some m -> m_group m (S n) = Some t ->
  forallb (only (p_fl (pat p)) q) (group_bodies (S n) (p_regex (pat p))) = true ->
  sall q t = true.
Proof.
  unfold Match. intros E Hg Ho. pose proof (re_match_spec (pat p) s) as H. rewrite E in H.
  destruct H as (H1 & H2 & Hm). unfold m_group, m_span in Hg.
  destruct (cap_lookup (S n) (caps (m_final m))) as [[a b]|] eqn:Ec; [|done].
  destruct (den_group _ s q (S n) _ Ho _ _ (coherent_start s 0 ltac:(lia)) Hm a b Ec)
    as [Hc|(u & v & Hu & (w & Hw & Hq) & -> & ->)]; [done|].
  rewrite H1, (reads_text s u w v Hu Hw) in Hg. by simplify_eq.
Qed.

(** ** The length of a match *)

(** The least number of characters that a match reads. *)
Fixpoint min_len (r : regex) : nat :=
  match r with
  | RSet _ _ | RAny => 1
  | RSeq a b => min_len a + min_len b
  | RAlt a b => min (min_len a) (min_len b)
  | RRep _ lo _ a => lo * min_len a
  | RGroup _ a => min_len a
  | _ => 0
  end.

Lemma exactly_len (R : state -> state -> Prop) k n x y :
  (forall x y, R x y -> pos x + k <= pos y) -> exactly R n x y -> pos x + n * k <= pos y.
Proof.
  intros HR H. induction H as [x|n x y z Hxy _ IH]; [lia|]. specialize (HR _ _ Hxy). lia.
Qed.

Lemma iters_len (R : state -> state -> Prop) hi last x y :
  (forall x y, R x y -> pos x <= pos y) -> iters R hi last x y -> pos x <= pos y.
Proof.
  intros HR H. induction H as [|hi last x y z _ Hxy _ IH]; [lia|]. specialize (HR _ _ Hxy). lia.
Qed.

Lemma den_len fl s r : forall x y, den fl s r x y -> pos x + min_len r <= pos y.
Proof.
  assert (Hmono : forall r x y, den fl s r x y -> pos x <= pos y).
  { intros r' x y [t [Ht _]]%den_reads. lia. }
  induction r as [|neg items| |a IHa b IHb|a IHa b IHb|g lo hi a IHa|n a IHa| |b a IHa| | | |];
    cbn [min_len]; intros x y Hd; try (specialize (Hmono _ _ _ Hd); lia).
  - apply eat_reads in Hd as (c & _ & _ & Hp & _). lia.
  - apply eat_reads in Hd as (c & _ & _ & Hp & _). lia.
  - destruct Hd as (z & Ha%IHa & Hb%IHb). lia.
  - destruct Hd as [Ha%IHa|Hb%IHb]; lia.
  - destruct Hd as (z & Ha & Hb). apply (exactly_len _ (min_len a)) in Ha; [|exact IHa].
    apply iters_len in Hb; [lia|]. intros x' y'. apply Hmono.
  - destruct Hd as (z & Ha%IHa & ->). done.
Qed.

Lemma den_min_len fl s r x y t : den fl s r x y -> reads x t y -> min_len r <= String.length t.
Proof. intros H%den_len [Ht _]. lia. Qed.
