(* ===== verification/RegexExact.v ===== *)
(** * Exact forms of simple expressions

    For expressions that are a sequence of literal characters, repeated classes,
    optional groups and word boundaries, the relation of the matcher in closed form:
    a match exists exactly when the text has the corresponding shape, and the final
    state is determined by it.  [re_search] returns the first of the ordered results
    at the leftmost position. *)

From stdpp Require Import base list strings.
From Stdlib Require Import ZArith Lia Ascii.
From S2P Require Import Prelude PyString Regex RegexParse PyRe RegexFacts.
Local Open Scope nat_scope.

(** ** Sequences *)

Section Sequences.
Context (fl : flags) (subject : string).

Lemma den_seq_cons r l x y :
  den fl subject (seq_of (r :: l)) x y <->
  exists z, den fl subject r x z /\ den fl subject (seq_of l) z y.
Proof.
  destruct l as [|r' l]; [|done]. cbn [seq_of den]. split; [|by intros (z & H & ->)].
  intros H. by exists y.
Qed.

Lemma den_seq_app l1 l2 : forall x y,
  den fl subject (seq_of (l1 ++ l2)) x y <->
  exists z, den fl subject (seq_of l1) x z /\ den fl subject (seq_of l2) z y.
Proof.
  induction l1 as [|r l1 IH]; intros x y.
  - cbn [app]. split; [by exists x|]. cbn [seq_of den]. by intros (z & -> & H).
  - cbn [app]. rewrite den_seq_cons. setoid_rewrite den_seq_cons. setoid_rewrite IH. naive_solver.
Qed.

Lemma results_seq_cons r l x :
  results fl subject (seq_of (r :: l)) x
  = flat_map (results fl subject (seq_of l)) (results fl subject r x).
Proof.
  destruct l as [|r' l]; [|done]. cbn [seq_of results].
  induction (results fl subject r x) as [|z zs IH]; [done|]. cbn [flat_map app]. by f_equal.
Qed.

Lemma results_seq_snoc l r : forall x,
  results fl subject (seq_of (l ++ [r])) x
  = flat_map (results fl subject r) (results fl subject (seq_of l) x).
Proof.
  induction l as [|r' l IH]; intros x; [cbn; by rewrite app_nil_r|].
  cbn [app]. rewrite !results_seq_cons.
  induction (results fl subject r' x) as [|z zs IHz]; [done|].
  cbn [flat_map]. rewrite IHz, IH. by rewrite flat_map_app.
Qed.
End Sequences.

(** The first result of a sequence whose first part has one result only. *)
Lemma head_flat_map {A B} (f : A -> list B) l z :
  l <> [] -> (forall a, In a l -> a = z) -> f z <> [] -> head (flat_map f l) = head (f z).
Proof.
  destruct l as [|a l]; [done|]. intros _ H Hf. rewrite (H a) by (by left). cbn [flat_map].
  by destruct (f z).
Qed.

(** ** Closed forms *)

Lemma after_before t : forall x, t <> EmptyString -> is_Some (before (after t x)) /\
  forall p, sall p t = true -> forall c, before (after t x) = Some c -> p c = true.
Proof.
  induction t as [|c t IH]; intros x Ht; [done|]. cbn [after]. destruct t as [|d t].
  - cbn. split; [by eexists|]. intros p Hp. cbn [sall] in Hp. bools. by intros ? [= <-].
  - destruct (IH (advance x c (sdrop 1 (rest x)))) as [H1 H2]; [done|]. split; [done|].
    intros p Hp. apply H2. cbn [sall] in Hp |- *. bools. by rewrite H0.
Qed.

Section Exact.
Context (d : bool) (subject : string).
Local Abbreviation den := (Regex.den (Flags false d) subject).

Lemma after_cons_advance x c u : rest x = String c u -> after (String c EmptyString) x = advance x c u.
Proof. intros H. cbn [after]. by rewrite H. Qed.

Lemma after_app t u : forall x, after (t +:+ u) x = after u (after t x).
Proof. induction t; intros x; [done|]. cbn [after String.append]. apply IHt. Qed.

Lemma den_char r p x y :
  charset (Flags false d) r = Some p ->
  den r x y <-> exists c u, p c = true /\ rest x = String c u /\ y = after (String c EmptyString) x.
Proof.
  intros Hc. rewrite (den_charset _ subject r p x y Hc). unfold eat. split.
  - destruct (rest x) as [|c u] eqn:E; [done|]. destruct (p c) eqn:Ep; [|done]. intros [= <-].
    exists c, u. by rewrite (after_cons_advance x c u).
  - intros (c & u & Hp & E & ->). rewrite E, Hp. by rewrite (after_cons_advance x c u).
Qed.

Lemma den_literal c x y :
  den (rlit c) x y <-> exists u, rest x = String c u /\ y = after (String c EmptyString) x.
Proof.
  rewrite (den_char (rlit c) (set_mem (Flags false d) false [lit c]) x y eq_refl). split.
  - intros (c' & u & Hc & E & ->). apply set_mem_lit in Hc as ->. by exists u.
  - intros (u & E & ->). exists c, u. split; [|done].
    unfold set_mem, existsb, item_mem, lit, in_range. cbn [icase andb]. by rewrite !N.leb_refl.
Qed.

Lemma den_texts t : forall x y,
  den (seq_of (map rlit (String.list_ascii_of_string t))) x y <->
  exists u, rest x = t +:+ u /\ y = after t x.
Proof.
  induction t as [|c t IH]; intros x y.
  - cbn. split; [intros ->; by exists (rest x)|]. by intros (u & _ & ->).
  - cbn [String.list_ascii_of_string map]. rewrite den_seq_cons.
    setoid_rewrite IH. setoid_rewrite den_literal. split.
    + intros (z & (u & E & ->) & (v & Hv & ->)).
      exists v. rewrite (after_rest (String c EmptyString) x u E) in Hv. by subst u.
    + intros (u & E & ->). exists (after (String c EmptyString) x). split; [by exists (t +:+ u)|].
      exists u. split; [|done]. by apply (after_rest (String c EmptyString)).
Qed.

(** A star of a class. *)
Lemma iters_class r p hi last x y :
  charset (Flags false d) r = Some p -> iters (den r) hi last x y ->
  exists t u, sall p t = true /\ rest x = t +:+ u /\ y = after t x.
Proof.
  intros Hc. induction 1 as [hi last x|hi last x z y Hm Hxz _ (t & u & Ht & Hz & ->)].
  { by exists EmptyString, (rest x). }
  apply (den_char r p x z Hc) in Hxz as (c & v & Hp & E & ->).
  rewrite (after_rest (String c EmptyString) x v E) in Hz. subst v.
  exists (String c t), u. cbn [sall]. by rewrite Hp.
Qed.

Lemma exactly_class r p n x y :
  charset (Flags false d) r = Some p -> exactly (den r) n x y ->
  exists t u, sall p t = true /\ String.length t = n /\ rest x = t +:+ u /\ y = after t x.
Proof.
  intros Hc. induction 1 as [x|n x z y Hxz _ (t & u & Ht & Hl & Hz & ->)].
  { by exists EmptyString, (rest x). }
  apply (den_char r p x z Hc) in Hxz as (c & v & Hp & E & ->).
  rewrite (after_rest (String c EmptyString) x v E) in Hz. subst v.
  exists (String c t), u. cbn [sall String.length]. by rewrite Hp, Hl.
Qed.

Lemma den_star r p greedy x y :
  charset (Flags false d) r = Some p ->
  den (RRep greedy 0 None r) x y <-> exists t u, sall p t = true /\ rest x = t +:+ u /\ y = after t x.
Proof.
  intros Hc. split.
  - intros (z & H0 & Hi). inversion H0; subst. by eapply iters_class.
  - intros (t & u & Ht & Hx & ->). by eapply den_star_charset.
Qed.

Lemma den_plus r p greedy x y :
  charset (Flags false d) r = Some p ->
  den (RRep greedy 1 None r) x y <->
  exists t u, t <> EmptyString /\ sall p t = true /\ rest x = t +:+ u /\ y = after t x.
Proof.
  intros Hc. split.
  - intros (z & H1 & Hi). apply (exactly_class r p 1 x z Hc) in H1 as (t & u & Ht & Hl & Hx & ->).
    apply (iters_class r p _ _ _ _ Hc) in Hi as (t' & u' & Ht' & Hx' & ->).
    rewrite (after_rest t x u Hx) in Hx'. subst u. exists (t +:+ t'), u'.
    rewrite sall_app, Ht, Ht', sapp_assoc, after_app. split; [by destruct t|done].
  - intros (t & u & Hne & Ht & Hx & ->). destruct t as [|c t]; [done|]. cbn [sall] in Ht. bools.
    assert (H1 : den r x (after (String c EmptyString) x)).
    { apply (den_char r p x _ Hc). by exists c, (t +:+ u). }
    exists (after (String c EmptyString) x). split; [eapply exactly_S; [exact H1|constructor]|].
    assert (Hs : den (RRep greedy 0 None r) (after (String c EmptyString) x)
                   (after t (after (String c EmptyString) x))).
    { apply (den_star r p); [done|]. exists t, u. split; [done|]. split; [|done].
      by apply (after_rest (String c EmptyString)). }
    destruct Hs as (z & Hz0 & Hi). inversion Hz0; subst. exact Hi.
Qed.

(** An optional part that reads at least one character. *)
Lemma den_option r greedy x y :
  den (RRep greedy 0 (Some 1) r) x y <-> y = x \/ den r x y.
Proof.
  split.
  - intros (z & H0 & Hi). inversion H0; subst. inversion Hi as [|hi last x0 w y0 Hm Hw Hrest]; subst; [by left|].
    right. inversion Hrest as [|hi last x0 w' y0 Hm' Hw' Hrest']; subst; [done|]. done.
  - intros [->|H]; (exists x; split; [constructor|]); [constructor|].
    eapply iters_more; [done|exact H|constructor].
Qed.

(** The ordered results of a greedy optional part: first with it, then without. *)
Lemma results_option r x :
  results (Flags false d) subject (RRep true 0 (Some 1) r) x
  = results (Flags false d) subject r x ++ [x].
Proof.
  cbn [results times_results flat_map]. rewrite app_nil_r. unfold loop_fuel.
  cbn [loop_results sub_hi option_map may_iterate Nat.sub andb dec Nat.pred]. f_equal.
  set (l := results (Flags false d) subject r x). clearbody l.
  induction l as [|z zs IH]; [done|]. cbn [flat_map]. rewrite IH.
  by destruct (String.length (rest x)).
Qed.

Lemma results_nonempty r x y : den r x y -> results (Flags false d) subject r x <> [].
Proof. intros H%results_den E. by rewrite E in H. Qed.
End Exact.

(** ** The first match *)

Lemma first_some_id {B} (l : list B) : first_some (fun y => Some y) l = head l.
Proof. by destruct l. Qed.

Lemma sdrop_cons s : forall i c r, sdrop i s = String c r -> sget i s = Some c /\ sdrop (S i) s = r.
Proof.
  induction s as [|d s IH]; intros [|i] c r H; simpl in *; simplify_eq; try done. by apply IH.
Qed.

Lemma search_go_head p s r : forall i m,
  r = sdrop i s ->
  search_go p s (fun _ _ => true) (char_before s i) i r = Some m ->
  head (results (p_fl p) s (p_regex p) (state_at s (m_begin m))) = Some (m_final m).
Proof.
  induction r as [|c r IH]; intros i m Hr; cbn [search_go];
    (destruct (run (p_fl p) s (p_regex p) _ _) as [y|] eqn:E;
     [intros [= <-]; rewrite run_first, first_some_id in E; unfold state_at; cbn [m_begin m_final]; by rewrite <- Hr|]);
    [done|].
  destruct (sdrop_cons s i c r (eq_sym Hr)) as [Hg Hd]. intros H. apply (IH (S i)); [done|].
  cbn [char_before]. by rewrite Hg.
Qed.

(** A search returns the first of the ordered results at the leftmost position with
    a result. *)
Lemma re_search_head p s m : re_search p s = Some m ->
  head (results (p_fl p) s (p_regex p) (state_at s (m_begin m))) = Some (m_final m).
Proof. apply (search_go_head p s s 0 m). done. Qed.
