(* ===== verification/Config.v ===== *)
(** * Tables and command-line settings of cpplint.py

    The module-level tables (error categories, default filters, C++ headers,
    header types, sections and patterns) and the module-level variables that the
    command line sets: the file extensions, the root, the repository, the line
    length.  The leading underscore of a Python name is left out. *)

From stdpp Require Import base list strings gmap.
From Stdlib Require Import ZArith Lia Ascii.
From S2P Require Import Prelude PyString Regex RegexParse PyRe.
Local Open Scope Z_scope.

(** ** Tables *)

(** [_ERROR_CATEGORIES]: the categories of error messages. *)
Definition ERROR_CATEGORIES : list string :=
  ["build/class"; "build/c++11"; "build/c++14"; "build/c++tr1"; "build/deprecated";
   "build/endif_comment"; "build/explicit_make_pair"; "build/forward_decl";
   "build/header_guard"; "build/include"; "build/include_subdir"; "build/include_alpha";
   "build/include_order"; "build/include_what_you_use"; "build/namespaces_literals";
   "build/namespaces"; "build/printf_format"; "build/storage_class"; "legal/copyright";
   "readability/alt_tokens"; "readability/braces"; "readability/casting"; "readability/check";
   "readability/constructors"; "readability/fn_size"; "readability/inheritance";
   "readability/multiline_comment"; "readability/multiline_string"; "readability/namespace";
   "readability/nolint"; "readability/nul"; "readability/strings"; "readability/todo";
   "readability/utf8"; "runtime/arrays"; "runtime/casting"; "runtime/explicit"; "runtime/int";
   "runtime/init"; "runtime/invalid_increment"; "runtime/member_string_references";
   "runtime/memset"; "runtime/indentation_namespace"; "runtime/operator"; "runtime/printf";
   "runtime/printf_format"; "runtime/references"; "runtime/string"; "runtime/threadsafe_fn";
   "runtime/vlog"; "whitespace/blank_line"; "whitespace/braces"; "whitespace/comma";
   "whitespace/comments"; "whitespace/empty_conditional_body"; "whitespace/empty_if_body";
   "whitespace/empty_loop_body"; "whitespace/end_of_line"; "whitespace/ending_newline";
   "whitespace/forcolon"; "whitespace/indent"; "whitespace/line_length"; "whitespace/newline";
   "whitespace/operators"; "whitespace/parens"; "whitespace/semicolon"; "whitespace/tab";
   "whitespace/todo"].

(** [_LEGACY_ERROR_CATEGORIES]: categories that are no longer enforced but may appear in NOLINT comments. *)
Definition LEGACY_ERROR_CATEGORIES : list string :=
  ["readability/streams"; "readability/function"].

(** [_DEFAULT_FILTERS]: the default state of the category filter. *)
Definition DEFAULT_FILTERS : list string :=
  ["-build/include_alpha"].

(** [_DEFAULT_C_SUPPRESSED_CATEGORIES]: categories suppressed for C files. *)
Definition DEFAULT_C_SUPPRESSED_CATEGORIES : list string :=
  ["readability/casting"].

(** [_DEFAULT_KERNEL_SUPPRESSED_CATEGORIES]: categories suppressed for Linux kernel files. *)
Definition DEFAULT_KERNEL_SUPPRESSED_CATEGORIES : list string :=
  ["whitespace/tab"].

(** [_CPP_HEADERS]: the C++ system headers. *)
Definition CPP_HEADERS : list string :=
  ["algobase.h"; "algo.h"; "alloc.h"; "builtinbuf.h"; "bvector.h"; "complex.h"; "defalloc.h";
   "deque.h"; "editbuf.h"; "fstream.h"; "function.h"; "hash_map"; "hash_map.h"; "hash_set";
   "hash_set.h"; "hashtable.h"; "heap.h"; "indstream.h"; "iomanip.h"; "iostream.h"; "istream.h";
   "iterator.h"; "list.h"; "map.h"; "multimap.h"; "multiset.h"; "ostream.h"; "pair.h";
   "parsestream.h"; "pfstream.h"; "procbuf.h"; "pthread_alloc"; "pthread_alloc.h"; "rope";
   "rope.h"; "ropeimpl.h"; "set.h"; "slist"; "slist.h"; "stack.h"; "stdiostream.h";
   "stl_alloc.h"; "stl_relops.h"; "streambuf.h"; "stream.h"; "strfile.h"; "strstream.h";
   "tempbuf.h"; "tree.h"; "type_traits.h"; "vector.h"; "algorithm"; "array"; "atomic"; "bitset";
   "chrono"; "codecvt"; "complex"; "condition_variable"; "deque"; "exception"; "forward_list";
   "fstream"; "functional"; "future"; "initializer_list"; "iomanip"; "ios"; "iosfwd";
   "iostream"; "istream"; "iterator"; "limits"; "list"; "locale"; "map"; "memory"; "mutex";
   "new"; "numeric"; "ostream"; "queue"; "random"; "ratio"; "regex"; "scoped_allocator"; "set";
   "sstream"; "stack"; "stdexcept"; "streambuf"; "string"; "strstream"; "system_error";
   "thread"; "tuple"; "typeindex"; "typeinfo"; "type_traits"; "unordered_map"; "unordered_set";
   "utility"; "valarray"; "vector"; "shared_mutex"; "any"; "charconv"; "codecvt"; "execution";
   "filesystem"; "memory_resource"; "optional"; "string_view"; "variant"; "cassert"; "ccomplex";
   "cctype"; "cerrno"; "cfenv"; "cfloat"; "cinttypes"; "ciso646"; "climits"; "clocale"; "cmath";
   "csetjmp"; "csignal"; "cstdalign"; "cstdarg"; "cstdbool"; "cstddef"; "cstdint"; "cstdio";
   "cstdlib"; "cstring"; "ctgmath"; "ctime"; "cuchar"; "cwchar"; "cwctype"].

(** [_CHECK_MACROS]: the assertion macros. *)
Definition CHECK_MACROS : list string :=
  ["DCHECK"; "CHECK"; "EXPECT_TRUE"; "ASSERT_TRUE"; "EXPECT_FALSE"; "ASSERT_FALSE"].

(** [_TYPES]: type names; the last alternative is empty. *)
Definition TYPES : pattern := pat
  ("^(?:" +:+
   "(char(16_t|32_t)?)|wchar_t|" +:+
   "bool|short|int|long|signed|unsigned|float|double|" +:+
   "(ptrdiff_t|size_t|max_align_t|nullptr_t)|" +:+
   "(u?int(_fast|_least)?(8|16|32|64)_t)|" +:+
   "(u?int(max|ptr)_t)|" +:+
   ")$").

(** [_THIRD_PARTY_HEADERS_PATTERN]: headers excluded from the include checks. *)
Definition THIRD_PARTY_HEADERS_PATTERN : pattern :=
  pat "^(?:[^/]*[A-Z][^/]*\.h|lua\.h|lauxlib\.h|lualib\.h)$".

(** [_TEST_FILE_SUFFIX]. *)
Definition test_suffixes : list string := ["_test"; "_regtest"; "_unittest"].
Definition TEST_FILE_SUFFIX : string := "(" +:+ join "|" test_suffixes +:+ ")$".

(** [_EMPTY_CONDITIONAL_BODY_PATTERN]: complete whitespace, across lines. *)
Definition EMPTY_CONDITIONAL_BODY_PATTERN : pattern := pat_with (Flags false true) "^\s*$".

(** [_CHECK_REPLACEMENT]: macro and operator to the macro that should be used. *)
Definition replacement_ops : list (string * string) :=
  [("==", "EQ"); ("!=", "NE"); (">=", "GE"); (">", "GT"); ("<=", "LE"); ("<", "LT")].
Definition inv_replacement_ops : list (string * string) :=
  [("==", "NE"); ("!=", "EQ"); (">=", "LT"); (">", "LE"); ("<=", "GT"); ("<", "GE")].

Fixpoint assoc (k : string) (l : list (string * string)) : option string :=
  match l with
  | [] => None
  | (a, b) :: l' => if String.eqb a k then Some b else assoc k l'
  end.

Definition CHECK_REPLACEMENT (macro op : string) : option string :=
  if str_mem macro ["DCHECK"; "CHECK"; "EXPECT_TRUE"; "ASSERT_TRUE"] then
    match assoc op replacement_ops with
    | Some r =>
        Some ((if String.eqb macro "DCHECK" then "DCHECK_"
               else if String.eqb macro "CHECK" then "CHECK_"
               else if String.eqb macro "EXPECT_TRUE" then "EXPECT_"
               else "ASSERT_") +:+ r)
    | None => None
    end
  else if str_mem macro ["EXPECT_FALSE"; "ASSERT_FALSE"] then
    match assoc op inv_replacement_ops with
    | Some r => Some ((if String.eqb macro "EXPECT_FALSE" then "EXPECT_" else "ASSERT_") +:+ r)
    | None => None
    end
  else None.

(** [_ALT_TOKEN_REPLACEMENT] and the pattern built from its keys. *)
Definition ALT_TOKEN_REPLACEMENT : list (string * string) :=
  [("and", "&&"); ("bitor", "|"); ("or", "||"); ("xor", "^"); ("compl", "~"); ("bitand", "&");
   ("and_eq", "&="); ("or_eq", "|="); ("xor_eq", "^="); ("not", "!"); ("not_eq", "!=")].
Definition ALT_TOKEN_REPLACEMENT_PATTERN : pattern :=
  pat ("[ =()](" +:+ join "|" (map fst ALT_TOKEN_REPLACEMENT) +:+ ")(?=[ (]|$)").

(** Header types, for [_IncludeState.CheckNextIncludeOrder]. *)
Inductive header_type :=
  | C_SYS_HEADER
  | CPP_SYS_HEADER
  | LIKELY_MY_HEADER
  | POSSIBLE_MY_HEADER
  | OTHER_HEADER.

#[export] Instance header_type_eq_dec : EqDecision header_type.
Proof. solve_decision. Defined.

(** The inline assembly states. *)
Inductive asm_state := NO_ASM | INSIDE_ASM | END_ASM | BLOCK_ASM.

#[export] Instance asm_state_eq_dec : EqDecision asm_state.
Proof. solve_decision. Defined.

(** [_MATCH_ASM], [_SEARCH_C_FILE] and [_SEARCH_KERNEL_FILE]. *)
Definition MATCH_ASM : pattern := pat
  ("^\s*(?:asm|_asm|__asm|__asm__)" +:+
   "(?:\s+(volatile|__volatile__))?" +:+
   "\s*[{(]").
Definition SEARCH_C_FILE : pattern := pat
  ("\b(?:LINT_C_FILE|" +:+
   "vim?:\s*.*(\s*|:)filetype=c(\s*|:|$))").
Definition SEARCH_KERNEL_FILE : pattern := pat "\b(?:LINT_KERNEL_FILE)".

(** ** Settings *)

(** The module-level variables that the command line and the configuration
    files set. *)
Record config := Config {
  valid_extensions : gset string;
  hpp_headers : gset string;
  root : option string;
  repository : option string;
  excludes : option (gset string);
  line_length : Z
}.

Definition initial_config : config := Config ∅ ∅ None None None 80.

(** [{ext.strip() for ext in val.split(',')}]. *)
Definition comma_set (val : string) : gset string :=
  list_to_set (map strip (split_char "," val)).

Definition ProcessHppHeadersOption (val : string) (c : config) : config :=
  Config (valid_extensions c) (comma_set val) (root c) (repository c) (excludes c) (line_length c).

Definition ProcessExtensionsOption (val : string) (c : config) : config :=
  Config (comma_set val) (hpp_headers c) (root c) (repository c) (excludes c) (line_length c).

Definition GetHeaderExtensions (c : config) : gset string :=
  if decide (hpp_headers c ≠ ∅) then hpp_headers c
  else if decide (valid_extensions c ≠ ∅)
       then filter (fun h => Is_true (contains h "h")) (valid_extensions c)
       else list_to_set ["h"; "hh"; "hpp"; "hxx"; "h++"; "cuh"].

Definition IsHeaderExtension (c : config) (file_extension : string) : bool :=
  bool_decide (file_extension ∈ GetHeaderExtensions c).

Definition GetAllExtensions (c : config) : gset string :=
  GetHeaderExtensions c ∪
  (if decide (valid_extensions c ≠ ∅) then valid_extensions c
   else list_to_set ["c"; "cc"; "cpp"; "cxx"; "c++"; "cu"]).

Definition GetNonHeaderExtensions (c : config) : gset string :=
  GetAllExtensions c ∖ GetHeaderExtensions c.

Definition IsSourceExtension (c : config) (s : string) : bool :=
  bool_decide (s ∈ GetNonHeaderExtensions c).
