(* ===== verification/Nolint.v ===== *)
(** * NOLINT comments and global suppressions of cpplint.py

    [_error_suppressions] maps a category, or [None] for every category, to the
    lines on which it is suppressed; [_global_error_suppressions] holds the
    categories that are suppressed on every line. *)

From stdpp Require Import base list strings gmap.
From Stdlib Require Import ZArith Lia Ascii.
From S2P Require Import Prelude PyString Regex RegexParse PyRe RegexFacts RegexExact Config.
Local Open Scope Z_scope.

Record suppressions := Suppressions {
  error_suppressions : gmap (option string) (gset Z);
  global_error_suppressions : gset string
}.

(** [_error_suppressions.setdefault(k, set()).add(line)]. *)
Definition suppress (k : option string) (line : Z) (s : suppressions) : suppressions :=
  Suppressions
    (<[k := {[line]} ∪ default ∅ (error_suppressions s !! k)]> (error_suppressions s))
    (global_error_suppressions s).

Definition NOLINT_PATTERN : string := "\bNOLINT(NEXTLINE)?\b(\([^)]+\))?".

(** The line a NOLINT comment is about: the next one for NOLINTNEXTLINE. *)
Definition nolint_target (m : mobj) (linenum : Z) : Z :=
  match m_group m 1 with Some _ => linenum + 1 | None => linenum end.

(** The new suppressions and the calls of the error handler. *)
Definition ParseNolintSuppressions (filename raw_line : string) (linenum : Z) (s : suppressions)
    : suppressions * list diag :=
  match Search NOLINT_PATTERN raw_line with
  | None => (s, [])
  | Some m =>
      let suppressed_line := nolint_target m linenum in
      match m_group m 2 with
      | None => (suppress None suppressed_line s, [])
      | Some category =>
          if String.eqb category "(*)" then (suppress None suppressed_line s, [])
          else if startswith category "(" && endswith category ")" then
            let category := slice category 1 (-1) in
            if str_mem category ERROR_CATEGORIES
            then (suppress (Some category) suppressed_line s, [])
            else if negb (str_mem category LEGACY_ERROR_CATEGORIES)
            then (s, [Diag filename linenum "readability/nolint" 5
                        ("Unknown NOLINT error category: " +:+ category)])
            else (s, [])
          else (s, [])
      end
  end.

(** The directives of one line that have a global effect. *)
Definition global_suppression_step (s : suppressions) (line : string) : suppressions :=
  let add cats s := Suppressions (error_suppressions s)
                      (list_to_set cats ∪ global_error_suppressions s) in
  let s1 := if matched (re_search SEARCH_C_FILE line)
            then add DEFAULT_C_SUPPRESSED_CATEGORIES s else s in
  if matched (re_search SEARCH_KERNEL_FILE line)
  then add DEFAULT_KERNEL_SUPPRESSED_CATEGORIES s1 else s1.

Definition ProcessGlobalSuppresions (lines : list string) (s : suppressions) : suppressions :=
  fold_left global_suppression_step lines s.

Definition ResetNolintSuppressions (s : suppressions) : suppressions := Suppressions ∅ ∅.

(** [linenum in s]; [None] is in no set of lines. *)
Definition in_lines (linenum : lineno) (s : gset Z) : bool :=
  match linenum with Line n => bool_decide (n ∈ s) | NoLine => false end.

Definition IsErrorSuppressedByNolint (s : suppressions) (category : string) (linenum : lineno) : bool :=
  bool_decide (category ∈ global_error_suppressions s)
  || in_lines linenum (default ∅ (error_suppressions s !! Some category))
  || in_lines linenum (default ∅ (error_suppressions s !! None)).

(** ** Lemmas *)

Lemma suppressed_suppress s k line c (l : Z) :
  IsErrorSuppressedByNolint (suppress k line s) c l = true <->
  IsErrorSuppressedByNolint s c l = true \/ (l = line /\ (k = None \/ k = Some c)).
Proof.
  unfold IsErrorSuppressedByNolint, suppress, in_lines. simpl.
  rewrite !orb_true_iff, !bool_decide_eq_true, !lookup_insert.
  destruct k as [k|]; repeat case_decide; simplify_eq; simpl; set_solver.
Qed.

Lemma not_suppressed_after_reset s c l :
  IsErrorSuppressedByNolint (ResetNolintSuppressions s) c l = false.
Proof. unfold IsErrorSuppressedByNolint. simpl. rewrite !lookup_empty. by destruct l. Qed.

Lemma slice_inner c : slice (String "(" (c +:+ ")")) 1 (-1) = c.
Proof.
  unfold slice, clamp, zlen. cbn [String.length]. rewrite slength_app. simpl String.length.
  replace (Z.to_nat _) with (String.length c) by (simpl; lia).
  replace (Z.to_nat _) with 1%nat by (simpl; lia).
  simpl. apply stake_app.
Qed.

Lemma global_suppression_step_spec s line c l :
  IsErrorSuppressedByNolint (global_suppression_step s line) c l = true <->
  IsErrorSuppressedByNolint s c l = true
  \/ (matched (re_search SEARCH_C_FILE line) = true /\ In c DEFAULT_C_SUPPRESSED_CATEGORIES)
  \/ (matched (re_search SEARCH_KERNEL_FILE line) = true
      /\ In c DEFAULT_KERNEL_SUPPRESSED_CATEGORIES).
Proof.
  unfold global_suppression_step, IsErrorSuppressedByNolint.
  destruct (matched (re_search SEARCH_C_FILE line)), (matched (re_search SEARCH_KERNEL_FILE line));
    cbn [error_suppressions global_error_suppressions];
    rewrite !orb_true_iff, !bool_decide_eq_true, ?elem_of_union, ?elem_of_list_to_set,
      ?list_elem_of_In; intuition discriminate.
Qed.

Lemma global_suppressions_spec lines : forall s c l,
  IsErrorSuppressedByNolint (ProcessGlobalSuppresions lines s) c l = true <->
  IsErrorSuppressedByNolint s c l = true
  \/ exists line, In line lines /\
      ((matched (re_search SEARCH_C_FILE line) = true /\ In c DEFAULT_C_SUPPRESSED_CATEGORIES)
       \/ (matched (re_search SEARCH_KERNEL_FILE line) = true
           /\ In c DEFAULT_KERNEL_SUPPRESSED_CATEGORIES)).
Proof.
  unfold ProcessGlobalSuppresions.
  induction lines as [|line lines IH]; intros s c l; cbn [fold_left].
  { split; [by left | intros [?|(? & [] & _)]; done]. }
  rewrite IH, global_suppression_step_spec. split.
  - intros [[?|?]|(line' & ? & ?)]; [by left | right; exists line; simpl; auto |].
    right. exists line'. simpl. auto.
  - intros [?|(line' & [<-|?] & ?)]; [by left; left | left; by right |].
    right. by exists line'.
Qed.

(** ** The comment as text *)

Definition first_char (r : string) : option ascii := sget 0 r.

(** At position [i] of [s] the whole word NOLINT or NOLINTNEXTLINE stands, and [r]
    follows it. *)
Definition marker_at (s : string) (i : nat) (next : bool) (r : string) : Prop :=
  sdrop i s = "NOLINT" +:+ (if next then "NEXTLINE" else EmptyString) +:+ r
  /\ word_at (char_before s i) = false /\ word_at (first_char r) = false.

(** The first marker of [s]. *)
Definition first_marker (s : string) (next : bool) (r : string) : Prop :=
  exists i, marker_at s i next r /\ forall j next' r', (j < i)%nat -> ~ marker_at s j next' r'.

(** The text after a marker starts with a parenthesised category. *)
Definition names_category (r c : string) : Prop :=
  c <> EmptyString /\ sall (fun a => negb (Ascii.eqb a ")")) c = true
  /\ exists v, r = "(" +:+ c +:+ ")" +:+ v.

(** ** The pattern reads that text *)

Definition nolint_head : list regex :=
  RWordB :: (map rlit (String.list_ascii_of_string "NOLINT")
             ++ [RRep true 0 (Some 1%nat)
                   (RGroup 1 (seq_of (map rlit (String.list_ascii_of_string "NEXTLINE")))); RWordB]).
Definition nolint_category : regex :=
  RGroup 2 (seq_of [rlit "("; RRep true 1 None (RSet true [lit ")"]); rlit ")"]).

Lemma nolint_regex :
  pat NOLINT_PATTERN
  = Pattern (seq_of (nolint_head ++ [RRep true 0 (Some 1%nat) nolint_category])) no_flags.
Proof. vm_compute. reflexivity. Qed.

(** The state after a marker was read from [x]. *)
Definition marked (next : bool) (x : state) : state :=
  if next then set_cap 1 (pos x + 6) (after "NOLINTNEXTLINE" x) else after "NOLINT" x.

Lemma marked_rest (next : bool) x r :
  rest x = "NOLINT" +:+ (if next then "NEXTLINE" else EmptyString) +:+ r -> rest (marked next x) = r.
Proof. destruct next; intros H; unfold marked; cbn [set_cap rest]; by apply after_rest. Qed.

Lemma marked_boundary (next : bool) x r :
  rest x = "NOLINT" +:+ (if next then "NEXTLINE" else EmptyString) +:+ r ->
  at_word_boundary (marked next x) = negb (word_at (first_char r)).
Proof.
  intros H. unfold at_word_boundary, next_char. rewrite (marked_rest next x r H).
  by destruct next, r.
Qed.

Lemma den_nolint_head s x z :
  den no_flags s (seq_of nolint_head) x z <->
  exists (next : bool) r, rest x = "NOLINT" +:+ (if next then "NEXTLINE" else EmptyString) +:+ r
    /\ word_at (before x) = false /\ word_at (first_char r) = false /\ z = marked next x.
Proof.
  unfold nolint_head, no_flags. rewrite den_seq_cons. setoid_rewrite den_seq_app.
  setoid_rewrite (den_texts false). setoid_rewrite den_seq_cons. setoid_rewrite (den_option false).
  split.
  - intros (x1 & [-> Hb] & x2 & (u & Hu & ->) & x3 & Ho & [-> Hb']).
    assert (Hbf : word_at (before x) = false).
    { unfold at_word_boundary, next_char in Hb. rewrite Hu in Hb. by destruct (word_at (before x)). }
    assert (Hm : exists (next : bool) r, rest x = "NOLINT" +:+ (if next then "NEXTLINE" else EmptyString) +:+ r
                   /\ x3 = marked next x).
    { destruct Ho as [->|(y & Hy & ->)]; [by exists false, u|].
      apply (den_texts false) in Hy as (r & Hr & ->). rewrite (after_rest _ _ u Hu) in Hr. subst u.
      exists true, r. split; [done|]. by rewrite after_pos, <- after_app. }
    destruct Hm as (next & r & Hr & ->). exists next, r.
    rewrite (marked_boundary next x r Hr) in Hb'. by destruct (word_at (first_char r)).
  - intros (next & r & Hx & Hb & Hr & ->). exists x. split.
    { split; [done|]. unfold at_word_boundary, next_char. by rewrite Hx, Hb. }
    pose proof (marked_boundary next x r Hx) as Hm. rewrite Hr in Hm.
    exists (after "NOLINT" x). split; [by eexists|]. exists (marked next x). split; [|done].
    destruct next; [right|by left]. exists (after "NEXTLINE" (after "NOLINT" x)). split.
    + apply (den_texts false). exists r. split; [by apply after_rest|done].
    + by rewrite after_pos, <- after_app.
Qed.

Lemma den_nolint_category s z y :
  den no_flags s nolint_category z y <->
  exists c v, c <> EmptyString /\ sall (fun a => negb (Ascii.eqb a ")")) c = true
    /\ rest z = "(" +:+ c +:+ ")" +:+ v /\ y = set_cap 2 (pos z) (after ("(" +:+ c +:+ ")") z).
Proof.
  assert (Hset : forall a, set_mem no_flags true [lit ")"] a = negb (Ascii.eqb a ")")).
  { intros a. destruct (Ascii.eqb_spec a ")") as [->|Hne]; [reflexivity|].
    destruct (set_mem no_flags true [lit ")"] a) eqn:E; [done|].
    exfalso. apply Hne, (set_mem_lit false). unfold set_mem in E |- *.
    by apply negb_false_iff in E. }
  assert (Hall : forall t, sall (set_mem no_flags true [lit ")"]) t
                          = sall (fun a => negb (Ascii.eqb a ")")) t).
  { intros t. induction t as [|a t IH]; [done|]. cbn [sall]. by rewrite Hset, IH. }
  unfold nolint_category, no_flags. cbn [den]. setoid_rewrite den_seq_cons.
  setoid_rewrite den_seq_cons. setoid_rewrite (den_literal false).
  setoid_rewrite (den_plus false s (RSet true [lit ")"]) _ true _ _ eq_refl).
  fold no_flags. split.
  - intros (w & (z1 & (u1 & H1 & ->) & z2 & (c & u2 & Hne & Hc & H2 & ->) & (u3 & H3 & ->)) & ->).
    rewrite (after_rest "(" z u1 H1) in H2. subst u1.
    rewrite (after_rest c _ u2 (after_rest "(" z _ H1)) in H3. subst u2.
    exists c, u3. rewrite <- Hall. split_and!; [done..|]. by rewrite !after_app.
  - intros (c & v & Hne & Hc & Hz & ->). rewrite <- Hall in Hc.
    pose proof (after_rest "(" z _ Hz) as H1. pose proof (after_rest c _ _ H1) as H2.
    eexists. split; [|by rewrite !after_app]. eexists. split; [by eexists|].
    eexists. split; [exists c, (")" +:+ v); by split_and!|]. by eexists.
Qed.

(** The category is determined by the text. *)
Lemma names_category_inj r c d : names_category r c -> names_category r d -> c = d.
Proof.
  intros (_ & Hc & v & ->) (_ & Hd & w & [= E]). revert d Hd E.
  induction c as [|a c IH]; intros [|b d] Hd E; simpl in *; simplify_eq; bools; try done.
  f_equal. by apply IH.
Qed.

Lemma marker_at_inj s i next r next' r' :
  marker_at s i next r -> marker_at s i next' r' -> next = next' /\ r = r'.
Proof.
  intros (E & _ & Hw) (E' & _ & Hw'). rewrite E in E'.
  destruct next, next'; simpl in E'; simplify_eq; try done.
Qed.

Lemma first_marker_inj s next r next' r' :
  first_marker s next r -> first_marker s next' r' -> next = next' /\ r = r'.
Proof.
  intros (i & Hi & Hmin) (j & Hj & Hmin'). destruct (lt_eq_lt_dec i j) as [[H| ->]|H].
  - by destruct (Hmin' i next r H).
  - by eapply marker_at_inj.
  - by destruct (Hmin j next' r' H).
Qed.

(** Statements about the first marker and its category are about the ones there are. *)
Lemma first_marker_exists s next r (P : bool -> string -> Prop) :
  first_marker s next r ->
  (exists next' r', first_marker s next' r' /\ P next' r') <-> P next r.
Proof.
  intros Hf. split; [|by exists next, r]. intros (next' & r' & Hf' & HP).
  by destruct (first_marker_inj _ _ _ _ _ Hf Hf') as [-> ->].
Qed.

Lemma names_category_exists r c (P : string -> Prop) :
  names_category r c -> (exists d, names_category r d /\ P d) <-> P c.
Proof.
  intros Hc. split; [|by exists c]. intros (d & Hd & HP). by rewrite (names_category_inj r c d).
Qed.

(** A match at [i] is a marker there, with or without its category. *)
Lemma nolint_matches s i :
  (exists y, matches_at (pat NOLINT_PATTERN) s i y) <-> exists next r, marker_at s i next r.
Proof.
  rewrite nolint_regex. unfold matches_at. cbn [p_fl p_regex].
  setoid_rewrite den_seq_app. setoid_rewrite den_nolint_head. split.
  - intros (y & z & (next & r & Hr & Hb & Hw & ->) & _). by exists next, r.
  - intros (next & r & Hr & Hb & Hw). exists (marked next (state_at s i)), (marked next (state_at s i)).
    split; [by exists next, r|]. apply (den_option false). by left.
Qed.

(** The final state of the first match: the marker, and the category when there is one. *)
Lemma nolint_final s i next r y :
  marker_at s i next r ->
  head (results no_flags s (p_regex (pat NOLINT_PATTERN)) (state_at s i)) = Some y ->
  let z := marked next (state_at s i) in
  (exists c, names_category r c /\ y = set_cap 2 (pos z) (after ("(" +:+ c +:+ ")") z))
  \/ ((forall c, ~ names_category r c) /\ y = z).
Proof.
  intros Hm. pose proof Hm as (Hr & Hb & Hw). set (x := state_at s i).
  assert (Hrest : rest (marked next x) = r) by (by apply marked_rest).
  rewrite nolint_regex. cbn [p_regex]. rewrite results_seq_snoc.
  rewrite (head_flat_map _ _ (marked next x)).
  - rewrite (results_option false).
    destruct (results (Flags false false) s nolint_category (marked next x)) as [|w ws] eqn:E.
    + intros [= <-]. right. split; [|done]. intros c (Hne & Hc & v & ->).
      assert (Hin : In (set_cap 2 (pos (marked next x)) (after ("(" +:+ c +:+ ")") (marked next x)))
                      (results no_flags s nolint_category (marked next x))).
      { apply results_den, den_nolint_category. by exists c, v. }
      unfold no_flags in Hin. by rewrite E in Hin.
    + intros [= <-]. left. assert (Hin : In w (results no_flags s nolint_category (marked next x))).
      { unfold no_flags. rewrite E. by left. }
      apply results_den, den_nolint_category in Hin as (c & v & Hne & Hc & Hv & ->).
      exists c. split; [|done]. rewrite Hrest in Hv. by split_and!; [..|exists v].
  - apply (results_nonempty false s _ _ (marked next x)), den_nolint_head. by exists next, r.
  - intros a Ha. apply results_den, den_nolint_head in Ha as (next' & r' & Hr' & _ & Hw' & ->).
    by destruct (marker_at_inj s i next r next' r') as [-> _].
  - rewrite (results_option false). by destruct (results _ _ _ _).
Qed.

Lemma marked_pos next x : pos (marked next x) = (pos x + if next then 14 else 6)%nat.
Proof. destruct next; unfold marked; cbn [set_cap pos]; apply after_pos. Qed.

(** What [Search] finds in terms of the text. *)
Lemma Search_nolint s :
  match Search NOLINT_PATTERN s with
  | None => forall next r, ~ first_marker s next r
  | Some m => exists next r, first_marker s next r
      /\ (if next then is_Some (m_group m 1) else m_group m 1 = None)
      /\ ((exists c, names_category r c /\ m_group m 2 = Some ("(" +:+ c +:+ ")"))
          \/ ((forall c, ~ names_category r c) /\ m_group m 2 = None))
  end.
Proof.
  unfold Search. pose proof (re_search_spec (pat NOLINT_PATTERN) s) as H.
  destruct (re_search (pat NOLINT_PATTERN) s) as [m|] eqn:E.
  - apply re_search_head in E. destruct H as (Hs & Hi & Hy & Hmin).
    destruct (proj1 (nolint_matches s (m_begin m)) (ex_intro _ _ Hy)) as (next & r & Hm).
    exists next, r. split.
    { exists (m_begin m). split; [done|]. intros j next' r' Hj Hm'.
      destruct (proj2 (nolint_matches s j) (ex_intro _ next' (ex_intro _ r' Hm'))) as [y' Hy'].
      by eapply Hmin. }
    assert (Hrest : sdrop (m_begin m + if next then 14 else 6) s = r).
    { rewrite <- sdrop_sdrop, (proj1 Hm). by destruct next. }
    apply (nolint_final s _ next r) in E as [(c & Hc & E)|[Hno E]]; [..|done];
      unfold m_group, m_span; rewrite E, Hs; (split; [cbn [caps set_cap cap_lookup Nat.eqb]; rewrite ?after_caps; destruct next; [by eexists|done]|]).
    + left. exists c. split; [done|]. cbn [caps set_cap cap_lookup Nat.eqb pos].
      rewrite after_pos, marked_pos. cbn [pos state_at start_at].
      destruct Hc as (_ & _ & v & ->). rewrite Hrest.
      replace (_ - _)%nat with (String.length ("(" +:+ c +:+ ")")) by lia.
      f_equal. change ("(" +:+ c +:+ ")" +:+ v) with ("(" +:+ (c +:+ (")" +:+ v))).
      rewrite <- (sapp_assoc c ")" v). apply (stake_app ("(" +:+ c +:+ ")")).
    + right. split; [done|]. by destruct next.
  - intros next r (i & Hm & _).
    destruct (proj2 (nolint_matches s i) (ex_intro _ next (ex_intro _ r Hm))) as [y Hy].
    refine (H i y _ Hy). assert (Hl : sdrop i s <> EmptyString) by (by rewrite (proj1 Hm)).
    pose proof (slength_sdrop i s). destruct (sdrop i s); [done|]. simpl in *. lia.
Qed.

(** What the comment after its first marker does, by the category it names. *)
Lemma ParseNolintSuppressions_marker filename line linenum s next r :
  first_marker line next r ->
  let target := if next : bool then linenum + 1 else linenum in
  (forall c, ~ names_category r c) /\
    ParseNolintSuppressions filename line linenum s = (suppress None target s, [])
  \/ exists c, names_category r c /\
    ParseNolintSuppressions filename line linenum s =
      if String.eqb c "*" then (suppress None target s, [])
      else if str_mem c ERROR_CATEGORIES then (suppress (Some c) target s, [])
      else if str_mem c LEGACY_ERROR_CATEGORIES then (s, [])
      else (s, [Diag filename linenum "readability/nolint" 5
                  ("Unknown NOLINT error category: " +:+ c)]).
Proof.
  intros Hf. pose proof (Search_nolint line) as H. unfold ParseNolintSuppressions.
  destruct (Search NOLINT_PATTERN line) as [m|]; [|by destruct (H next r)].
  destruct H as (next' & r' & Hf' & H1 & H2).
  destruct (first_marker_inj line next r next' r' Hf Hf') as [-> ->].
  assert (Ht : nolint_target m linenum = if next' then linenum + 1 else linenum).
  { unfold nolint_target. destruct next'; [by destruct H1 as [? ->]|by rewrite H1]. }
  rewrite Ht. destruct H2 as [(c & Hc & ->)|[Hno ->]]; [right|by left].
  exists c. split; [done|]. change ("(" +:+ c +:+ ")") with (String "(" (c +:+ ")")).
  replace (String.eqb (String "(" (c +:+ ")")) "(*)") with (String.eqb c "*").
  2:{ apply eq_true_iff_eq. rewrite !String.eqb_eq. split; [by intros ->|].
      intros [= E]. destruct c as [|a [|b [|? c]]]; simpl in E; by simplify_eq. }
  destruct (String.eqb c "*"); [done|].
  replace (startswith _ _ && endswith _ _) with true.
  2:{ symmetry. apply andb_true_iff. split; [apply startswith_true; by exists (c +:+ ")")|].
      apply endswith_true. by exists (String "(" c). }
  rewrite slice_inner. destruct (str_mem c ERROR_CATEGORIES); [done|].
  by destruct (str_mem c LEGACY_ERROR_CATEGORIES).
Qed.

#[local] Opaque ERROR_CATEGORIES LEGACY_ERROR_CATEGORIES.

(** C15.  What a NOLINT comment does, from the text of the line.  Its marker is the
    first whole word NOLINT or NOLINTNEXTLINE of the line, and the text in
    parentheses that follows it directly, if any, is its category.  After
    [ParseNolintSuppressions] on line [linenum] a category [c] is suppressed on
    line [l] exactly when it was before, or the line has a marker, [l] is the next
    line for NOLINTNEXTLINE and the line itself for NOLINT, and the comment names
    no category, the category [*], or [c], a known category.  It reports exactly
    the unknown categories that are not legacy ones, once, on the line of the
    comment. *)
Theorem nolint_suppresses_exactly (filename raw_line : string) (linenum : Z) (s : suppressions)
    (c : string) (l : Z) :
  let (s', reports) := ParseNolintSuppressions filename raw_line linenum s in
  (IsErrorSuppressedByNolint s' c l = true
   <-> IsErrorSuppressedByNolint s c l = true
       \/ exists (next : bool) r, first_marker raw_line next r
           /\ l = (if next then linenum + 1 else linenum)
           /\ ((forall d, ~ names_category r d) \/ names_category r "*"
               \/ (names_category r c /\ In c ERROR_CATEGORIES)))
  /\ (forall d, In d reports <->
       exists next r, first_marker raw_line next r /\ exists cat, names_category r cat /\ cat <> "*"
         /\ ~ In cat ERROR_CATEGORIES /\ ~ In cat LEGACY_ERROR_CATEGORIES
         /\ d = Diag filename linenum "readability/nolint" 5
                  ("Unknown NOLINT error category: " +:+ cat))
  /\ (length reports <= 1)%nat.
Proof.
  pose proof (Search_nolint raw_line) as H.
  destruct (Search NOLINT_PATTERN raw_line) as [m|] eqn:E.
  2:{ unfold ParseNolintSuppressions. rewrite E. naive_solver (simpl; lia). }
  destruct H as (next & r & Hf & _).
  destruct (ParseNolintSuppressions_marker filename raw_line linenum s next r Hf) as [[Hno ->]|(cat & Hc & ->)].
  - cbn match. rewrite (first_marker_exists raw_line next r _ Hf), suppressed_suppress.
    setoid_rewrite (first_marker_exists raw_line next r _ Hf). cbn [In length]. naive_solver lia.
  - assert (Hcat : forall d, names_category r d -> d = cat) by (intros; by eapply names_category_inj).
    destruct (String.eqb_spec cat "*") as [->|Hstar];
      [|destruct (str_mem cat ERROR_CATEGORIES) eqn:Ek;
        [|destruct (str_mem cat LEGACY_ERROR_CATEGORIES) eqn:El]];
      cbn match; rewrite (first_marker_exists raw_line next r _ Hf), ?suppressed_suppress;
      setoid_rewrite (first_marker_exists raw_line next r _ Hf);
      setoid_rewrite (names_category_exists r _ _ Hc);
      repeat match goal with
        | H : str_mem _ _ = true |- _ => apply str_mem_In in H
        | H : str_mem _ _ = false |- _ => rewrite <- not_true_iff_false, str_mem_In in H
        end; cbn [In length]; (split; [|split; [|lia]]).
    2,4,6,8: naive_solver.
    all: split; [naive_solver|]; intros [?|(-> & [?|[?%Hcat|[?%Hcat ?]]])]; naive_solver.
Qed.

(** NOLINTNEXTLINE on line 7 suppresses its category on line 8 and not on line 7. *)
Lemma nolint_suppresses_exactly_witness :
  let s := Suppressions ∅ ∅ in
  let line := "int x;  // NOLINTNEXTLINE(build/include)" in
  first_marker line true "(build/include)"
  /\ names_category "(build/include)" "build/include"
  /\ IsErrorSuppressedByNolint (fst (ParseNolintSuppressions "a.cc" line 7 s)) "build/include" 8 = true
  /\ IsErrorSuppressedByNolint (fst (ParseNolintSuppressions "a.cc" line 7 s)) "build/include" 7 = false.
Proof.
  cbv zeta. set (line := "int x;  // NOLINTNEXTLINE(build/include)").
  assert (Hm : first_marker line true "(build/include)").
  { exists 11%nat. split; [done|]. intros j next r Hj (E & _).
    do 11 (destruct j as [|j]; [by destruct next|]). lia. }
  assert (Hc : names_category "(build/include)" "build/include") by (by split_and!; [..|exists EmptyString]).
  assert (Hin : In "build/include" ERROR_CATEGORIES) by (apply str_mem_In; vm_compute; reflexivity).
  pose proof (nolint_suppresses_exactly "a.cc" line 7 (Suppressions ∅ ∅) "build/include" 8) as H8.
  pose proof (nolint_suppresses_exactly "a.cc" line 7 (Suppressions ∅ ∅) "build/include" 7) as H7.
  destruct (ParseNolintSuppressions "a.cc" line 7 (Suppressions ∅ ∅)) as [s' ds]. cbn [fst].
  split; [exact Hm|]. split; [exact Hc|]. split.
  - apply (proj1 H8). right. exists true, "(build/include)". split; [exact Hm|]. split; [reflexivity|].
    right. right. split; [exact Hc|exact Hin].
  - apply not_true_iff_false. intros [E|(next & r & Hf & E & _)]%(proj1 H7); [discriminate E|].
    destruct (first_marker_inj line next r true _ Hf Hm) as [-> _]. discriminate E.
Defined.

(** C31.  Suppressions do not outlive a file: after [ResetNolintSuppressions] no
    category is suppressed on any line, whatever was parsed before; and
    [ProcessGlobalSuppresions] afterwards suppresses, on every line, a category
    exactly when some line of the file marks it as a C file and the category is
    among those suppressed for C files, or marks it as a kernel file and the
    category is among those suppressed there. *)
Theorem reset_then_global_suppressions (s : suppressions) (lines : list string)
    (c : string) (l : Z) :
  IsErrorSuppressedByNolint (ProcessGlobalSuppresions lines (ResetNolintSuppressions s)) c l = true
  <-> exists line, In line lines /\
      ((matched (re_search SEARCH_C_FILE line) = true /\ In c DEFAULT_C_SUPPRESSED_CATEGORIES)
       \/ (matched (re_search SEARCH_KERNEL_FILE line) = true
           /\ In c DEFAULT_KERNEL_SUPPRESSED_CATEGORIES)).
Proof.
  rewrite global_suppressions_spec, not_suppressed_after_reset.
  split; [intros [?|?]; done | by right].
Qed.
