(* ===== verification/LintState.v ===== *)
(** * The linter's global state: class [_CppLintState] and error reporting

    The verbosity, the category filters, the error counts, the output format and
    what was written.  [Error] decides whether a diagnostic is printed (NOLINT
    suppressions, confidence, filters), counts it and formats it. *)

From stdpp Require Import base list strings gmap.
From Stdlib Require Import ZArith Lia Ascii.
From S2P Require Import Prelude PyString Regex RegexParse PyRe Config Nolint.
Local Open Scope Z_scope.

(** ** State *)

Record lint_state := LintState {
  verbose_level : Z;
  error_count : Z;
  filters : list string;
  filters_backup : list string;
  counting : string;
  errors_by_category : gmap string Z;
  quiet : bool;
  output_format : string;
  junit_errors : list string;
  junit_failures : list diag;
  stdout : list string;
  stderr : list string
}.

(** [_CppLintState.__init__]. *)
Definition initial_lint_state : lint_state :=
  LintState 1 0 DEFAULT_FILTERS DEFAULT_FILTERS "total" ∅ false "emacs" [] [] [] [].

(** Field updates. *)
Definition set_verbose_level (v : Z) (st : lint_state) : lint_state :=
  LintState v (error_count st) (filters st) (filters_backup st) (counting st)
    (errors_by_category st) (quiet st) (output_format st) (junit_errors st) (junit_failures st)
    (stdout st) (stderr st).
Definition set_counts (n : Z) (m : gmap string Z) (st : lint_state) : lint_state :=
  LintState (verbose_level st) n (filters st) (filters_backup st) (counting st)
    m (quiet st) (output_format st) (junit_errors st) (junit_failures st)
    (stdout st) (stderr st).
Definition set_filters (fs backup : list string) (st : lint_state) : lint_state :=
  LintState (verbose_level st) (error_count st) fs backup (counting st)
    (errors_by_category st) (quiet st) (output_format st) (junit_errors st) (junit_failures st)
    (stdout st) (stderr st).
Definition set_counting (c : string) (st : lint_state) : lint_state :=
  LintState (verbose_level st) (error_count st) (filters st) (filters_backup st) c
    (errors_by_category st) (quiet st) (output_format st) (junit_errors st) (junit_failures st)
    (stdout st) (stderr st).
Definition set_quiet (q : bool) (st : lint_state) : lint_state :=
  LintState (verbose_level st) (error_count st) (filters st) (filters_backup st) (counting st)
    (errors_by_category st) q (output_format st) (junit_errors st) (junit_failures st)
    (stdout st) (stderr st).
Definition set_output_format (f : string) (st : lint_state) : lint_state :=
  LintState (verbose_level st) (error_count st) (filters st) (filters_backup st) (counting st)
    (errors_by_category st) (quiet st) f (junit_errors st) (junit_failures st)
    (stdout st) (stderr st).
Definition set_output (es : list string) (fs : list diag) (out err : list string)
    (st : lint_state) : lint_state :=
  LintState (verbose_level st) (error_count st) (filters st) (filters_backup st) (counting st)
    (errors_by_category st) (quiet st) (output_format st) es fs out err.

Definition write_stdout (msg : string) (st : lint_state) : lint_state :=
  set_output (junit_errors st) (junit_failures st) (stdout st ++ [msg]) (stderr st) st.
Definition write_stderr (msg : string) (st : lint_state) : lint_state :=
  set_output (junit_errors st) (junit_failures st) (stdout st) (stderr st ++ [msg]) st.

(** ** Methods *)

Definition SetOutputFormat (f : string) (st : lint_state) : lint_state := set_output_format f st.
Definition SetQuiet (q : bool) (st : lint_state) : bool * lint_state := (quiet st, set_quiet q st).
Definition SetVerboseLevel (level : Z) (st : lint_state) : Z * lint_state :=
  (verbose_level st, set_verbose_level level st).
Definition SetCountingStyle (style : string) (st : lint_state) : lint_state :=
  set_counting style st.

Definition signed (filt : string) : bool := startswith filt "+" || startswith filt "-".

(** The filters of a comma-separated list that are not blank. *)
Definition clean_filters (fs : string) : list string :=
  List.filter (fun f => negb (String.eqb f EmptyString)) (map strip (split_char "," fs)).

(** The first filter that has no sign makes [AddFilters] raise, after the new
    filters were appended. *)
Definition AddFilters (fs : string) (st : lint_state) : (exn + unit) * lint_state :=
  let st' := set_filters (filters st ++ clean_filters fs) (filters_backup st) st in
  match List.find (fun f => negb (signed f)) (filters st') with
  | Some f => (inl (ValueError ("Every filter in --filters must start with + or - (" +:+ f
                                +:+ " does not)")), st')
  | None => (inr (), st')
  end.

Definition SetFilters (fs : string) (st : lint_state) : (exn + unit) * lint_state :=
  AddFilters fs (set_filters DEFAULT_FILTERS (filters_backup st) st).

Definition BackupFilters (st : lint_state) : lint_state := set_filters (filters st) (filters st) st.
Definition RestoreFilters (st : lint_state) : lint_state :=
  set_filters (filters_backup st) (filters_backup st) st.
Definition ResetErrorCounts (st : lint_state) : lint_state := set_counts 0 ∅ st.

(** The key under which an error of a category is counted, if any. *)
Definition counting_key (style category : string) : option string :=
  if String.eqb style "detailed" then Some category
  else if String.eqb style "toplevel" then head (split_char "/" category)
  else None.

Definition IncrementErrorCount (category : string) (st : lint_state) : lint_state :=
  let m := errors_by_category st in
  set_counts (error_count st + 1)
    match counting_key (counting st) category with
    | Some k => <[k := default 0 (m !! k) + 1]> m
    | None => m
    end st.

(** [PrintInfo] asks the module-level variable [_quiet], which is [False]. *)
Definition module_quiet : bool := false.
Definition PrintInfo (message : string) (st : lint_state) : lint_state :=
  if negb module_quiet && negb (String.eqb (output_format st) "junit")
  then write_stdout message st else st.

Definition PrintError (message : string) (st : lint_state) : lint_state :=
  if String.eqb (output_format st) "junit"
  then set_output (junit_errors st ++ [message]) (junit_failures st) (stdout st) (stderr st) st
  else write_stderr message st.

Definition AddJUnitFailure (d : diag) (st : lint_state) : lint_state :=
  set_output (junit_errors st) (junit_failures st ++ [d]) (stdout st) (stderr st) st.

(** [sorted(iteritems(d))]: by key, since keys are distinct. *)
Fixpoint insert_by_key (kv : string * Z) (l : list (string * Z)) : list (string * Z) :=
  match l with
  | [] => [kv]
  | x :: l' => if str_ltb (fst x) (fst kv) then x :: insert_by_key kv l' else kv :: l
  end.
Definition sorted_items (m : gmap string Z) : list (string * Z) :=
  fold_right insert_by_key [] (map_to_list m).

Definition PrintErrorCounts (st : lint_state) : lint_state :=
  let st1 :=
    fold_left (fun st '(category, count) =>
        PrintInfo ("Category '" +:+ category +:+ "' errors found: " +:+ str_of_Z count
                   +:+ newline) st)
      (sorted_items (errors_by_category st)) st in
  if 0 <? error_count st
  then PrintInfo ("Total errors found: " +:+ str_of_Z (error_count st) +:+ newline) st1
  else st1.

(** ** Reporting *)

(** The loop over the filters in [_ShouldPrintError]. *)
Fixpoint filter_loop (category : string) (fs : list string) (is_filtered : bool) : exn + bool :=
  match fs with
  | [] => inr is_filtered
  | f :: fs' =>
      if startswith f "-" then
        filter_loop category fs' (if startswith category (slice_from f 1) then true else is_filtered)
      else if startswith f "+" then
        filter_loop category fs' (if startswith category (slice_from f 1) then false else is_filtered)
      else inl AssertionError
  end.

Definition ShouldPrintError (sup : suppressions) (st : lint_state)
    (category : string) (confidence : Z) (linenum : lineno) : exn + bool :=
  if IsErrorSuppressedByNolint sup category linenum then inr false
  else if confidence <? verbose_level st then inr false
  else match filter_loop category (filters st) false with
       | inl e => inl e
       | inr is_filtered => inr (negb is_filtered)
       end.

Definition format_error (fmt : string) (d : diag) : string :=
  let line := match d_line d with Line n => str_of_Z n | NoLine => "None" end in
  let conf := str_of_Z (d_confidence d) in
  if String.eqb fmt "vs7" then
    d_file d +:+ "(" +:+ line +:+ "): error cpplint: [" +:+ d_category d +:+ "] "
    +:+ d_message d +:+ " [" +:+ conf +:+ "]" +:+ newline
  else if String.eqb fmt "eclipse" then
    d_file d +:+ ":" +:+ line +:+ ": warning: " +:+ d_message d +:+ "  [" +:+ d_category d
    +:+ "] [" +:+ conf +:+ "]" +:+ newline
  else
    d_file d +:+ ":" +:+ line +:+ ":  " +:+ d_message d +:+ "  [" +:+ d_category d
    +:+ "] [" +:+ conf +:+ "]" +:+ newline.

Definition Error (sup : suppressions) (d : diag) (st : lint_state) : exn + lint_state :=
  match ShouldPrintError sup st (d_category d) (d_confidence d) (d_line d) with
  | inl e => inl e
  | inr false => inr st
  | inr true =>
      let st1 := IncrementErrorCount (d_category d) st in
      let fmt := output_format st1 in
      inr (if String.eqb fmt "vs7" then PrintError (format_error fmt d) st1
           else if String.eqb fmt "eclipse" then write_stderr (format_error fmt d) st1
           else if String.eqb fmt "junit" then AddJUnitFailure d st1
           else write_stderr (format_error fmt d) st1)
  end.

(** The error handler applied to a sequence of diagnostics. *)
Fixpoint report (sup : suppressions) (ds : list diag) (st : lint_state) : exn + lint_state :=
  match ds with
  | [] => inr st
  | d :: ds' =>
      match Error sup d st with
      | inl e => inl e
      | inr st' => report sup ds' st'
      end
  end.

(** ** Filters *)

(** The invariant of the filter list: every filter has a sign. *)
Definition filters_ok (st : lint_state) : Prop := Forall (fun f => signed f = true) (filters st).

Lemma find_none_signed fs :
  List.find (fun f => negb (signed f)) fs = None <-> Forall (fun f => signed f = true) fs.
Proof.
  induction fs as [|f fs IH]; simpl; [done|]. rewrite Forall_cons.
  destruct (signed f); simpl; [rewrite IH; tauto | split; [done | intros [? _]; done]].
Qed.

Lemma AddFilters_outcome fs st :
  fst (AddFilters fs st) = inr () <-> Forall (fun f => signed f = true) (filters (snd (AddFilters fs st))).
Proof.
  unfold AddFilters. cbn zeta. rewrite <- find_none_signed.
  destruct (List.find _ _) eqn:E; cbn [fst snd]; [|done]. rewrite E. done.
Qed.

Lemma AddFilters_filters fs st : filters (snd (AddFilters fs st)) = filters st ++ clean_filters fs.
Proof. unfold AddFilters. cbn zeta. by destruct (List.find _ _). Qed.

Lemma AddFilters_backup fs st : filters_backup (snd (AddFilters fs st)) = filters_backup st.
Proof. unfold AddFilters. cbn zeta. by destruct (List.find _ _). Qed.

(** A filter applies to a category when the text after its sign is a prefix. *)
Definition applies (category f : string) : bool := startswith category (slice_from f 1).

(** The last filter that applies. *)
Definition last_applying (category : string) (fs : list string) : option string :=
  List.find (applies category) (rev fs).

Lemma last_applying_snoc category fs f :
  last_applying category (fs ++ [f]) =
  if applies category f then Some f else last_applying category fs.
Proof. unfold last_applying. by rewrite rev_unit. Qed.

Lemma filter_loop_app category fs1 fs2 b :
  Forall (fun f => signed f = true) fs1 ->
  filter_loop category (fs1 ++ fs2) b =
  match filter_loop category fs1 b with
  | inl e => inl e
  | inr b' => filter_loop category fs2 b'
  end.
Proof.
  intros H. revert b. induction H as [|f fs Hf _ IH]; intros b; [done|].
  cbn [filter_loop app]. unfold signed in Hf.
  destruct (startswith f "-"), (startswith f "+"); try apply IH. done.
Qed.

Lemma filter_loop_last category fs :
  Forall (fun f => signed f = true) fs ->
  filter_loop category fs false =
  inr (match last_applying category fs with Some f => startswith f "-" | None => false end).
Proof.
  induction fs as [|f fs IH] using rev_ind; [done|].
  rewrite Forall_app, Forall_singleton. intros [Hfs Hf].
  rewrite filter_loop_app, IH, last_applying_snoc by done. cbn [filter_loop].
  unfold signed in Hf. unfold applies.
  destruct (startswith f "-") eqn:E1.
  - destruct (startswith category (slice_from f 1)); by rewrite ?E1.
  - destruct (startswith f "+"); [|done].
    destruct (startswith category (slice_from f 1)); by rewrite ?E1.
Qed.

(** ** Counting *)

(** Whether [Error] prints a diagnostic. *)
Definition printed (sup : suppressions) (st : lint_state) (d : diag) : bool :=
  match ShouldPrintError sup st (d_category d) (d_confidence d) (d_line d) with
  | inr b => b
  | inl _ => false
  end.

(** What decides printing and counting does not change while errors are reported. *)
Definition same_settings (st st' : lint_state) : Prop :=
  verbose_level st' = verbose_level st /\ filters st' = filters st /\ counting st' = counting st
  /\ output_format st' = output_format st.

Lemma same_settings_refl st : same_settings st st.
Proof. done. Qed.

Lemma same_settings_trans a b c : same_settings a b -> same_settings b c -> same_settings a c.
Proof. unfold same_settings. intuition congruence. Qed.

Lemma ShouldPrintError_settings sup st st' c n l :
  same_settings st st' -> ShouldPrintError sup st' c n l = ShouldPrintError sup st c n l.
Proof. intros (E1 & E2 & _). unfold ShouldPrintError. by rewrite E1, E2. Qed.

Lemma Error_ok sup d st :
  filters_ok st ->
  exists st', Error sup d st = inr st' /\ same_settings st st'
    /\ error_count st' = error_count st + (if printed sup st d then 1 else 0)
    /\ forall k, default 0 (errors_by_category st' !! k) =
         default 0 (errors_by_category st !! k)
         + (if printed sup st d && bool_decide (counting_key (counting st) (d_category d) = Some k)
            then 1 else 0).
Proof.
  intros Hok. unfold Error, printed.
  assert (Hr : exists b, ShouldPrintError sup st (d_category d) (d_confidence d) (d_line d) = inr b).
  { unfold ShouldPrintError. rewrite (filter_loop_last _ _ Hok). repeat case_match; eauto. }
  destruct Hr as [b ->]. destruct b; cycle 1.
  { exists st. simpl. split_and!; [done|done|lia|]. intros k. lia. }
  eexists. split; [done|]. unfold PrintError, write_stderr, AddJUnitFailure.
  set (st1 := IncrementErrorCount (d_category d) st).
  assert (Hst1 : forall x, default 0 (errors_by_category st1 !! x) =
    default 0 (errors_by_category st !! x)
    + (if bool_decide (counting_key (counting st) (d_category d) = Some x) then 1 else 0)).
  { intros x. unfold st1, IncrementErrorCount. cbn [errors_by_category set_counts].
    destruct (counting_key (counting st) (d_category d)) as [k|].
    - destruct (decide (k = x)) as [->|Hne].
      + rewrite lookup_insert_eq, bool_decide_true by done. simpl. lia.
      + rewrite lookup_insert_ne, bool_decide_false by congruence. lia.
    - rewrite bool_decide_false by done. lia. }
  repeat case_match; cbn [errors_by_category error_count set_output andb];
    (split_and!; [done | done | exact Hst1]).
Qed.

Lemma report_app sup ds1 ds2 st :
  report sup (ds1 ++ ds2) st =
  match report sup ds1 st with inl e => inl e | inr st' => report sup ds2 st' end.
Proof. revert st; induction ds1; intros st; simpl; [done|]. by destruct (Error sup _ st). Qed.

(** How many of the diagnostics are printed and counted under the key [k]. *)
Definition count_key (sup : suppressions) (st : lint_state) (k : string) (ds : list diag) : Z :=
  Z.of_nat (length (List.filter (fun d =>
    printed sup st d && bool_decide (counting_key (counting st) (d_category d) = Some k)) ds)).

Lemma filter_ext_printed sup st st' (g : diag -> bool) ds :
  same_settings st st' ->
  List.filter (fun d => printed sup st' d && g d) ds = List.filter (fun d => printed sup st d && g d) ds.
Proof.
  intros H. apply List.filter_ext. intros d. unfold printed.
  by rewrite (ShouldPrintError_settings sup st st').
Qed.

Lemma report_ok sup ds : forall st,
  filters_ok st ->
  exists st', report sup ds st = inr st' /\ same_settings st st'
    /\ error_count st' = error_count st + Z.of_nat (length (List.filter (printed sup st) ds))
    /\ forall k, default 0 (errors_by_category st' !! k) =
         default 0 (errors_by_category st !! k) + count_key sup st k ds.
Proof.
  induction ds as [|d ds IH]; intros st Hok; cbn [report].
  { exists st. unfold count_key. simpl. split_and!; [done|done|lia|]. intros; lia. }
  destruct (Error_ok sup d st Hok) as (st1 & -> & Hs & Hc & Hk).
  destruct (IH st1) as (st2 & -> & Hs2 & Hc2 & Hk2).
  { unfold filters_ok. destruct Hs as (_ & -> & _). done. }
  exists st2. split_and!; [done | by eapply same_settings_trans | |].
  - rewrite Hc2, Hc. cbn [List.filter].
    rewrite (List.filter_ext (printed sup st1) (printed sup st)).
    + destruct (printed sup st d); cbn [length]; lia.
    + intros d'. unfold printed. by rewrite (ShouldPrintError_settings sup st st1).
  - intros k. rewrite Hk2, Hk. unfold count_key.
    rewrite (filter_ext_printed sup st st1) by done.
    destruct Hs as (_ & _ & -> & _). cbn [List.filter].
    destruct (printed sup st d && _); cbn [length]; lia.
Qed.

(** ** Claims *)

(** C13.  The last filter wins: with signed filters, a diagnostic that is not
    suppressed and is confident enough is printed exactly when the last filter
    that applies to its category has a plus sign, or no filter applies; the
    assertion in the loop is never reached. *)
Theorem last_filter_wins (sup : suppressions) (st : lint_state) (category : string)
    (confidence linenum : Z) (Hok : filters_ok st) :
  ShouldPrintError sup st category confidence linenum =
  inr (negb (IsErrorSuppressedByNolint sup category linenum)
       && (verbose_level st <=? confidence)
       && match last_applying category (filters st) with
          | Some f => negb (startswith f "-")
          | None => true
          end).
Proof.
  unfold ShouldPrintError. rewrite filter_loop_last by done.
  destruct (IsErrorSuppressedByNolint sup category linenum); [done|]. simpl.
  rewrite Z.leb_antisym. destruct (confidence <? verbose_level st); [done|]. simpl.
  by destruct (last_applying category (filters st)).
Qed.

Lemma last_filter_wins_witness :
  filters_ok initial_lint_state
  /\ ShouldPrintError (Suppressions ∅ ∅) initial_lint_state "build/include_alpha" 5 7 = inr false.
Proof.
  assert (H : filters_ok initial_lint_state) by (repeat constructor).
  split; [exact H|].
  rewrite (last_filter_wins (Suppressions ∅ ∅) initial_lint_state "build/include_alpha" 5 7 H).
  vm_compute. reflexivity.
Defined.

(** C30.  [SetFilters] succeeds exactly when every non-blank filter of the list
    starts with a sign; then the filters are the defaults followed by the list,
    the invariant of the filter list holds, and otherwise [ValueError] is raised.
    [BackupFilters] and [RestoreFilters] bracket any [AddFilters]: the filters
    are restored even when it raised in between. *)
Theorem filters_set_and_restored (fs more : string) (st : lint_state) :
  (fst (SetFilters fs st) = inr () <-> Forall (fun f => signed f = true) (clean_filters fs))
  /\ (fst (SetFilters fs st) = inr () -> filters_ok (snd (SetFilters fs st)))
  /\ filters (snd (SetFilters fs st)) = DEFAULT_FILTERS ++ clean_filters fs
  /\ (forall e, fst (SetFilters fs st) = inl e -> exists msg, e = ValueError msg)
  /\ filters (RestoreFilters (snd (AddFilters more (BackupFilters st)))) = filters st.
Proof.
  unfold SetFilters. split_and!.
  - rewrite AddFilters_outcome, AddFilters_filters. simpl. rewrite Forall_cons. intuition done.
  - rewrite AddFilters_outcome. done.
  - by rewrite AddFilters_filters.
  - intros e. unfold AddFilters. cbn zeta. destruct (List.find _ _); simpl; [|done].
    intros [= <-]. eauto.
  - unfold RestoreFilters. cbn [filters set_filters]. by rewrite AddFilters_backup.
Qed.

(** C14.  Error counts are exact: reporting a sequence of diagnostics never raises
    while the filters are signed, adds to [error_count] the number of diagnostics
    that are printed, and adds to the count of every category key the number of
    printed diagnostics counted under it (the full category with
    [--counting=detailed], its first component with [toplevel], none with
    [total]). *)
Theorem error_counts_exact (sup : suppressions) (ds : list diag) (st : lint_state)
    (Hok : filters_ok st) :
  exists st', report sup ds st = inr st'
    /\ error_count st' = error_count st + Z.of_nat (length (List.filter (printed sup st) ds))
    /\ forall k, default 0 (errors_by_category st' !! k) =
         default 0 (errors_by_category st !! k) + count_key sup st k ds.
Proof.
  destruct (report_ok sup ds st Hok) as (st' & H1 & _ & H3 & H4). eauto.
Qed.

Lemma error_counts_exact_witness :
  exists st', report (Suppressions ∅ ∅)
      [Diag "a.cc" 3 "whitespace/tab" 1 "Tab"; Diag "a.cc" 4 "whitespace/tab" 0 "Tab"]
      (SetCountingStyle "toplevel" initial_lint_state) = inr st'
    /\ error_count st' = 1 /\ default 0 (errors_by_category st' !! "whitespace") = 1.
Proof.
  assert (H : filters_ok (SetCountingStyle "toplevel" initial_lint_state)) by (repeat constructor).
  destruct (error_counts_exact (Suppressions ∅ ∅)
      [Diag "a.cc" 3 "whitespace/tab" 1 "Tab"; Diag "a.cc" 4 "whitespace/tab" 0 "Tab"] _ H)
    as (st' & H1 & H2 & H3).
  exists st'. split; [exact H1|]. split; [rewrite H2; vm_compute; reflexivity|].
  rewrite H3. vm_compute. reflexivity.
Defined.
