(* ===== verification/IncludeState.v ===== *)
(** * Class [_IncludeState] of cpplint.py: the order of includes

    The section of the last include moves forward through the initial section,
    the section of the file's own header, C headers, C++ headers and other
    headers; a C or C++ system header after its section is an error. *)

From stdpp Require Import base list strings.
From Stdlib Require Import ZArith Lia Ascii.
From S2P Require Import Prelude PyString Regex RegexParse PyRe Config.
Local Open Scope Z_scope.

Module IncludeState.

Inductive section :=
  | INITIAL_SECTION
  | MY_H_SECTION
  | C_SECTION
  | CPP_SECTION
  | OTHER_H_SECTION.

#[export] Instance section_eq_dec : EqDecision section.
Proof. solve_decision. Defined.

(** The numbers behind the section names; the code compares them. *)
Definition section_num (s : section) : Z :=
  match s with
  | INITIAL_SECTION => 0
  | MY_H_SECTION => 1
  | C_SECTION => 2
  | CPP_SECTION => 3
  | OTHER_H_SECTION => 4
  end.
Definition section_le (a b : section) : bool := section_num a <=? section_num b.

Definition TYPE_NAMES (t : header_type) : string :=
  match t with
  | C_SYS_HEADER => "C system header"
  | CPP_SYS_HEADER => "C++ system header"
  | LIKELY_MY_HEADER => "header this file implements"
  | POSSIBLE_MY_HEADER => "header this file may implement"
  | OTHER_HEADER => "other header"
  end.

Definition SECTION_NAMES (s : section) : string :=
  match s with
  | INITIAL_SECTION => "... nothing. (This can't be an error.)"
  | MY_H_SECTION => "a header this file implements"
  | C_SECTION => "C system header"
  | CPP_SECTION => "C++ system header"
  | OTHER_H_SECTION => "other header"
  end.

Record t := State {
  include_list : list (list (string * Z));
  current : section;
  last_header : string
}.

(** [FindHeader]: the line of a previous include, or -1. *)
Fixpoint find_in_section (l : list (string * Z)) (header : string) : option Z :=
  match l with
  | [] => None
  | (h, line) :: l' => if String.eqb h header then Some line else find_in_section l' header
  end.
Fixpoint find_in_sections (ls : list (list (string * Z))) (header : string) : Z :=
  match ls with
  | [] => -1
  | l :: ls' =>
      match find_in_section l header with
      | Some line => line
      | None => find_in_sections ls' header
      end
  end.
Definition FindHeader (st : t) (header : string) : Z :=
  find_in_sections (include_list st) header.

(** [self.include_list[-1] = []] on a list that is not empty. *)
Fixpoint clear_last {A} (ls : list (list A)) : list (list A) :=
  match ls with
  | [] => []
  | [_] => [[]]
  | l :: ls' => l :: clear_last ls'
  end.

Definition ResetSection (directive : string) (st : t) : t :=
  State
    (if str_mem directive ["if"; "ifdef"; "ifndef"] then include_list st ++ [[]]
     else if str_mem directive ["else"; "elif"] then clear_last (include_list st)
     else include_list st)
    INITIAL_SECTION EmptyString.

(** [__init__]. *)
Definition init : t := ResetSection EmptyString (State [[]] INITIAL_SECTION EmptyString).

Definition SetLastHeader (header_path : string) (st : t) : t :=
  State (include_list st) (current st) header_path.

Definition CanonicalizeAlphabeticalOrder (header_path : string) : string :=
  lower (str_replace (str_replace header_path "-inl.h" ".h") "-" "_").

(** [elided] are the lines of the file without comments and strings; the
    subscript is Python's, so line 0 looks at the last line. *)
Definition IsInAlphabeticalOrder (st : t) (elided : list string) (linenum : Z)
    (header_path : string) : exn + bool :=
  if str_ltb header_path (last_header st) then
    match py_nth elided (linenum - 1) with
    | Some line => inr (negb (matched (Match "^\s*#\s*include\b" line)))
    | None => inl IndexError
    end
  else inr true.

Definition CheckNextIncludeOrder (header_type : header_type) (st : t) : string * t :=
  let error_message :=
    "Found " +:+ TYPE_NAMES header_type +:+ " after " +:+ SECTION_NAMES (current st) in
  let last_section := current st in
  let failed := (error_message, State (include_list st) (current st) EmptyString) in
  let moved s :=
    (EmptyString, State (include_list st) s
       (if decide (last_section = s) then last_header st else EmptyString)) in
  match header_type with
  | C_SYS_HEADER =>
      if section_le (current st) C_SECTION then moved C_SECTION else failed
  | CPP_SYS_HEADER =>
      if section_le (current st) CPP_SECTION then moved CPP_SECTION else failed
  | LIKELY_MY_HEADER =>
      if section_le (current st) MY_H_SECTION then moved MY_H_SECTION else moved OTHER_H_SECTION
  | POSSIBLE_MY_HEADER =>
      if section_le (current st) MY_H_SECTION then moved MY_H_SECTION else moved OTHER_H_SECTION
  | OTHER_HEADER => moved OTHER_H_SECTION
  end.

(** The calls for a sequence of headers: the messages, in order, and the state. *)
Fixpoint check_all (l : list header_type) (st : t) : list string * t :=
  match l with
  | [] => ([], st)
  | h :: l' =>
      let '(msg, st1) := CheckNextIncludeOrder h st in
      let '(msgs, st2) := check_all l' st1 in
      (msg :: msgs, st2)
  end.

(** ** The abstract order *)

Definition is_my (h : header_type) : Prop := h = LIKELY_MY_HEADER \/ h = POSSIBLE_MY_HEADER.

(** The include order the class promises: own headers, then C, then C++ system
    headers, then everything else (own headers may stand there too). *)
Definition in_order (l : list header_type) : Prop :=
  exists my c cpp other, l = my ++ c ++ cpp ++ other
    /\ Forall is_my my /\ Forall (eq C_SYS_HEADER) c /\ Forall (eq CPP_SYS_HEADER) cpp
    /\ Forall (fun h => is_my h \/ h = OTHER_HEADER) other.

(** What may still come in each section. *)
Definition tail_in_order (s : section) (l : list header_type) : Prop :=
  match s with
  | INITIAL_SECTION | MY_H_SECTION => in_order l
  | C_SECTION =>
      exists c cpp other, l = c ++ cpp ++ other /\ Forall (eq C_SYS_HEADER) c
        /\ Forall (eq CPP_SYS_HEADER) cpp /\ Forall (fun h => is_my h \/ h = OTHER_HEADER) other
  | CPP_SECTION =>
      exists cpp other, l = cpp ++ other /\ Forall (eq CPP_SYS_HEADER) cpp
        /\ Forall (fun h => is_my h \/ h = OTHER_HEADER) other
  | OTHER_H_SECTION => Forall (fun h => is_my h \/ h = OTHER_HEADER) l
  end.

Definition no_message (msgs : list string) : Prop := Forall (fun m => m = EmptyString) msgs.

(** The section after a header type, or [None] for an error. *)
Definition next_section (s : section) (h : header_type) : option section :=
  match h with
  | C_SYS_HEADER => if section_le s C_SECTION then Some C_SECTION else None
  | CPP_SYS_HEADER => if section_le s CPP_SECTION then Some CPP_SECTION else None
  | LIKELY_MY_HEADER | POSSIBLE_MY_HEADER =>
      Some (if section_le s MY_H_SECTION then MY_H_SECTION else OTHER_H_SECTION)
  | OTHER_HEADER => Some OTHER_H_SECTION
  end.

Lemma CheckNextIncludeOrder_next h st :
  match next_section (current st) h with
  | Some s => fst (CheckNextIncludeOrder h st) = EmptyString
              /\ current (snd (CheckNextIncludeOrder h st)) = s
  | None => fst (CheckNextIncludeOrder h st) <> EmptyString
            /\ current (snd (CheckNextIncludeOrder h st)) = current st
  end.
Proof. destruct st as [il s lh]; destruct h, s; done. Qed.

Lemma Forall_eq_cons {A} (a h : A) l : Forall (eq a) (h :: l) <-> a = h /\ Forall (eq a) l.
Proof. apply Forall_cons. Qed.

(** One header at a time, the abstract order is the automaton of [next_section]. *)
Lemma forall_other_cons h l :
  Forall (fun h => is_my h \/ h = OTHER_HEADER) (h :: l) <->
  h <> C_SYS_HEADER /\ h <> CPP_SYS_HEADER /\ Forall (fun h => is_my h \/ h = OTHER_HEADER) l.
Proof. rewrite Forall_cons. unfold is_my. destruct h; intuition congruence. Qed.

(** The abstract order, one header at a time, section by section. *)
Lemma cpp_section_cons h l :
  tail_in_order CPP_SECTION (h :: l) <->
  match h with CPP_SYS_HEADER => tail_in_order CPP_SECTION l | C_SYS_HEADER => False
             | _ => tail_in_order OTHER_H_SECTION l end.
Proof.
  simpl. split.
  - intros ([|x cpp] & other & E & H1 & H2); simpl in E; subst.
    + apply forall_other_cons in H2 as (? & ? & ?). by destruct h.
    + apply Forall_eq_cons in H1 as [<- ?]. simplify_eq. eauto.
  - destruct h; intros H; try done.
    + destruct H as (cpp & other & -> & ? & ?). exists (CPP_SYS_HEADER :: cpp), other.
      split_and!; [done | by constructor | done].
    + exists [], (LIKELY_MY_HEADER :: l). split_and!; [done | done | by apply forall_other_cons].
    + exists [], (POSSIBLE_MY_HEADER :: l). split_and!; [done | done | by apply forall_other_cons].
    + exists [], (OTHER_HEADER :: l). split_and!; [done | done | by apply forall_other_cons].
Qed.

Lemma c_section_cons h l :
  tail_in_order C_SECTION (h :: l) <->
  match h with C_SYS_HEADER => tail_in_order C_SECTION l
             | _ => tail_in_order CPP_SECTION (h :: l) end.
Proof.
  assert (Hnil : forall l, tail_in_order CPP_SECTION l -> tail_in_order C_SECTION l).
  { intros l' (cpp & other & -> & ? & ?). by exists [], cpp, other. }
  split.
  - intros ([|x c] & cpp & other & E & H1 & H2 & H3); simpl in E.
    + assert (H : tail_in_order CPP_SECTION (h :: l)) by (rewrite E; simpl; eauto).
      destruct h; try done. by apply cpp_section_cons in H.
    + apply Forall_eq_cons in H1 as [<- ?]. simplify_eq. simpl. eauto 8.
  - destruct h; try apply Hnil. intros (c & cpp & other & -> & ? & ? & ?).
    exists (C_SYS_HEADER :: c), cpp, other. split_and!; [done | by constructor | done | done].
Qed.

Lemma in_order_cons h l :
  in_order (h :: l) <->
  match h with LIKELY_MY_HEADER | POSSIBLE_MY_HEADER => in_order l
             | _ => tail_in_order C_SECTION (h :: l) end.
Proof.
  assert (Hnil : forall l, tail_in_order C_SECTION l -> in_order l).
  { intros l' (c & cpp & other & -> & ? & ? & ?). by exists [], c, cpp, other. }
  split.
  - intros ([|x my] & c & cpp & other & E & H0 & H1 & H2 & H3); simpl in E.
    + assert (H : tail_in_order C_SECTION (h :: l)) by (rewrite E; simpl; eauto 8).
      destruct h; try done; apply c_section_cons, cpp_section_cons in H; by exists [], [], [], l.
    + apply Forall_cons in H0 as [Hx ?]. simplify_eq.
      destruct Hx as [->| ->]; unfold in_order; eauto 10.
  - destruct h; try apply Hnil; intros (my & c & cpp & other & -> & ? & ? & ? & ?).
    + exists (LIKELY_MY_HEADER :: my), c, cpp, other.
      split_and!; try done. constructor; [by left | done].
    + exists (POSSIBLE_MY_HEADER :: my), c, cpp, other.
      split_and!; try done. constructor; [by right | done].
Qed.

Lemma tail_in_order_cons s h l :
  tail_in_order s (h :: l) <->
  match next_section s h with Some s' => tail_in_order s' l | None => False end.
Proof.
  pose proof (cpp_section_cons h l) as Hcpp. pose proof (c_section_cons h l) as Hc.
  pose proof (in_order_cons h l) as Hmy. pose proof (forall_other_cons h l) as Hoc.
  destruct s; cbn [tail_in_order] in *.
  - rewrite Hmy. destruct h; simpl; try done; rewrite Hc; try done; by rewrite Hcpp.
  - rewrite Hmy. destruct h; simpl; try done; rewrite Hc; try done; by rewrite Hcpp.
  - rewrite Hc. destruct h; simpl; try done; by rewrite Hcpp.
  - rewrite Hcpp. by destruct h.
  - rewrite Hoc. destruct h; simpl; intuition congruence.
Qed.

Lemma tail_in_order_nil s : tail_in_order s [].
Proof. destruct s; simpl; unfold in_order; repeat (exists []); by split_and?. Qed.

(** The first message of a sequence appears exactly when the order is broken. *)
Lemma check_all_in_order l : forall st,
  no_message (fst (check_all l st)) <-> tail_in_order (current st) l.
Proof.
  induction l as [|h l IH]; intros st; cbn [check_all].
  { split; intros _; [apply tail_in_order_nil | constructor]. }
  pose proof (CheckNextIncludeOrder_next h st) as Hn. rewrite tail_in_order_cons.
  destruct (CheckNextIncludeOrder h st) as [msg st1]. specialize (IH st1).
  destruct (check_all l st1) as [msgs st2]. cbn [fst snd] in *. unfold no_message in *.
  rewrite Forall_cons. destruct (next_section (current st) h) as [s|].
  - destruct Hn as [-> <-]. rewrite IH. tauto.
  - destruct Hn as [Hne _]. tauto.
Qed.

Lemma find_in_section_spec l header :
  match find_in_section l header with
  | Some n => In (header, n) l
  | None => forall n, ~ In (header, n) l
  end.
Proof.
  induction l as [|[h n] l IH]; simpl; [tauto|].
  destruct (String.eqb h header) eqn:E; bools; [subst; by left|].
  destruct (find_in_section l header); [by right|].
  intros k [?|?]; [congruence | by eapply IH].
Qed.

(** C12.  [CheckNextIncludeOrder] implements the include order: for a file that
    starts in the initial section, no call returns a message exactly when the
    headers come as own headers, then C system headers, then C++ system headers,
    then own and other headers in any order (an own header is accepted after other
    headers). *)
Theorem include_order_refines (l : list header_type) :
  no_message (fst (check_all l init)) <-> in_order l.
Proof. apply (check_all_in_order l init). Qed.

(** An own header after other headers is accepted, and no call raises: it returns a
    message or none. *)
Lemma own_header_after_others :
  fst (CheckNextIncludeOrder LIKELY_MY_HEADER (State [] OTHER_H_SECTION EmptyString)) = EmptyString.
Proof. reflexivity. Qed.

(** [FindHeader] returns the line of an include of the header that is
    recorded, and -1 exactly when there is none (recorded lines are not
    negative). *)
Theorem FindHeader_spec (st : t) (header : string)
    (Hlines : Forall (Forall (fun hl => 0 <= snd hl)) (include_list st)) :
  (FindHeader st header = -1 <-> forall l n, In l (include_list st) -> ~ In (header, n) l)
  /\ (FindHeader st header <> -1 ->
      exists l, In l (include_list st) /\ In (header, FindHeader st header) l).
Proof.
  unfold FindHeader. induction Hlines as [|l ls Hl _ IH]; cbn [find_in_sections].
  { split; [split; [intros _ ? ? [] | done] | done]. }
  pose proof (find_in_section_spec l header) as Hf.
  destruct (find_in_section l header) as [n|].
  - assert (0 <= n) by (rewrite Forall_forall in Hl;
      apply (Hl (header, n)); by apply list_elem_of_In).
    split; [|intros _; exists l; split; [by left | done]].
    split; [lia|]. intros H'. destruct (H' l n); [by left | done].
  - destruct IH as [IH1 IH2]. split.
    + rewrite IH1. split; [intros H' l' n [<-|?]; eauto | intros H' l' n ?; apply H'; by right].
    + intros (l' & ? & ?)%IH2. exists l'. split; [by right | done].
Qed.

Lemma FindHeader_spec_witness :
  FindHeader (State [[("vector", 3)]; [("map", 7)]] C_SECTION "") "map" = 7
  /\ (FindHeader (State [[("vector", 3)]; [("map", 7)]] C_SECTION "") "set" = -1 <->
      forall l n, In l [[("vector", 3)]; [("map", 7)]] -> ~ In ("set", n) l).
Proof.
  split; [reflexivity|].
  apply (FindHeader_spec (State [[("vector", 3)]; [("map", 7)]] C_SECTION "") "set").
  repeat constructor; simpl; lia.
Defined.

End IncludeState.
