(* ===== verification/FunctionState.v ===== *)
(** * Class [_FunctionState] of cpplint.py: the length of function bodies *)

From stdpp Require Import base list strings.
From Stdlib Require Import ZArith Lia Ascii.
From S2P Require Import Prelude PyString Regex RegexParse PyRe Config.
Local Open Scope Z_scope.

Module FunctionState.

Record t := State {
  in_a_function : bool;
  lines_in_function : Z;
  current_function : string
}.

Definition NORMAL_TRIGGER : Z := 250.
Definition TEST_TRIGGER : Z := 400.

(** [__init__], [Begin], [Count] and [End]. *)
Definition init : t := State false 0 EmptyString.
Definition Begin (function_name : string) (st : t) : t := State true 0 function_name.
Definition Count (st : t) : t :=
  if in_a_function st
  then State true (lines_in_function st + 1) (current_function st) else st.
Definition End_ (st : t) : t := State false (lines_in_function st) (current_function st).

(** [lines > base * 2**v]; for a negative verbosity Python compares with a float. *)
Definition exceeds (lines base v : Z) : bool :=
  if 0 <=? v then base * 2 ^ v <? lines else base <? lines * 2 ^ (- v).

(** [int(math.log(lines / base, 2))]: the logarithm rounded towards zero. *)
Definition log2_ratio (lines base : Z) : Z :=
  if base <=? lines then Z.log2 (lines / base) else - Z.log2 (base / lines).

(** ['%d' % (base * 2**v)]. *)
Definition shown_trigger (base v : Z) : Z := if 0 <=? v then base * 2 ^ v else base / 2 ^ (- v).

Definition base_trigger (st : t) : Z :=
  if matched (Match "T(EST|est)" (current_function st)) then TEST_TRIGGER else NORMAL_TRIGGER.

(** [Check]: the calls of the error handler, with the verbosity level [v]. *)
Definition Check_ (filename : string) (linenum v : Z) (st : t) : list diag :=
  if negb (in_a_function st) then []
  else
    let base := base_trigger st in
    if exceeds (lines_in_function st) base v then
      let level := log2_ratio (lines_in_function st) base in
      let error_level := if 5 <? level then 5 else level in
      [Diag filename linenum "readability/fn_size" error_level
         ("Small and focused functions are preferred: " +:+ current_function st +:+ " has "
          +:+ str_of_Z (lines_in_function st) +:+ " non-comment lines"
          +:+ " (error triggered by exceeding " +:+ str_of_Z (shown_trigger base v)
          +:+ " lines).")]
    else [].

(** [n] calls of [Count]. *)
Fixpoint count_times (n : nat) (st : t) : t :=
  match n with O => st | S n' => count_times n' (Count st) end.

Lemma count_times_in n st :
  in_a_function st = true ->
  count_times n st = State true (lines_in_function st + Z.of_nat n) (current_function st).
Proof.
  revert st; induction n as [|n IH]; intros st Hin; cbn [count_times].
  - destruct st; simpl in *; subst. f_equal. lia.
  - unfold Count. rewrite Hin, IH by done. simpl. f_equal. lia.
Qed.

(** The confidence grows with the verbosity that the length exceeds: at level
    [v] a body longer than the trigger has confidence at least [v], up to 5. *)
Lemma log2_ratio_ge lines base v :
  0 < base -> 0 <= v -> base * 2 ^ v < lines -> v <= log2_ratio lines base.
Proof.
  intros Hb Hv H. pose proof (Z.pow_pos_nonneg 2 v ltac:(lia) Hv).
  unfold log2_ratio. rewrite (proj2 (Z.leb_le base lines)) by nia.
  apply Z.log2_le_pow2; [apply Z.div_str_pos; nia|]. apply Z.div_le_lower_bound; lia.
Qed.

(** C35.  The size check of a function body: after [Begin] and [n] counted
    lines, [Check] at a verbosity [v >= 0] reports exactly when [n] exceeds the
    trigger ([400 * 2^v] lines for a test, [250 * 2^v] otherwise); the single
    report has category readability/fn_size, and its confidence is between
    [min v 5] and 5, so [Error] at the same verbosity [v <= 5] does not drop it.
    After [End] nothing is reported. *)
Theorem function_size_check (filename name : string) (linenum v : Z) (n : nat) (st : t)
    (Hv : 0 <= v) :
  let body := count_times n (Begin name st) in
  let trigger := (if matched (Match "T(EST|est)" name) then 400 else 250) * 2 ^ v in
  (trigger < Z.of_nat n ->
     exists msg level, Check_ filename linenum v body =
       [Diag filename linenum "readability/fn_size" level msg] /\ Z.min v 5 <= level <= 5)
  /\ (Z.of_nat n <= trigger -> Check_ filename linenum v body = [])
  /\ Check_ filename linenum v (End_ body) = [].
Proof.
  cbn zeta. unfold Check_, base_trigger. rewrite count_times_in by done. simpl.
  unfold exceeds. rewrite (proj2 (Z.leb_le 0 v)) by done.
  destruct (matched (Match "T(EST|est)" name)); unfold TEST_TRIGGER, NORMAL_TRIGGER;
    (split_and!; [|intros H; rewrite (proj2 (Z.ltb_ge _ _)) by lia; done|done]);
    intros H; rewrite (proj2 (Z.ltb_lt _ _)) by lia.
  all: do 2 eexists; split; [reflexivity|]; destruct (5 <? _) eqn:E; bools; [lia|].
  all: split; [|lia]; apply Z.le_trans with v; [lia|]; apply log2_ratio_ge; lia.
Qed.

Lemma function_size_check_witness :
  0 <= 0 /\ Check_ "a.cc" 300 0 (count_times 251 (Begin "Foo" init)) <> [].
Proof.
  split; [lia|].
  destruct (function_size_check "a.cc" "Foo" 300 0 251 init ltac:(lia)) as [H _].
  destruct H as (msg & level & H & _); [vm_compute; reflexivity|]. rewrite H. discriminate.
Defined.

End FunctionState.
