(* ===== verification/Cleanse.v ===== *)
(** * Comments and strings removed: [CleansedLines] of cpplint.py

    Raw strings, multi-line comments, comments and strings are removed from the
    lines of a file before the checks look at them.  In the patterns below a
    double quote is written [\x22], which the pattern compiler reads as the quote. *)

From stdpp Require Import base list strings.
From Stdlib Require Import ZArith Lia Ascii.
From S2P Require Import Prelude PyString Regex RegexParse PyRe RegexFacts.
Local Open Scope Z_scope.

(** ** Patterns *)

Definition RE_PATTERN_CLEANSE_LINE_ESCAPES : pattern :=
  pat "\\([abfnrtv?\x22\\\']|\d+|x[0-9a-fA-F]+)".
Definition RE_PATTERN_C_COMMENTS : string := "/\*(?:[^*]|\*(?!/))*\*/".
Definition RE_PATTERN_CLEANSE_LINE_C_COMMENTS : pattern := pat
  ("(\s*" +:+ RE_PATTERN_C_COMMENTS +:+ "\s*$|" +:+
   RE_PATTERN_C_COMMENTS +:+ "\s+|" +:+
   "\s+" +:+ RE_PATTERN_C_COMMENTS +:+ "(?=\W)|" +:+
   RE_PATTERN_C_COMMENTS +:+ ")").
Definition RE_PATTERN_INCLUDE : pattern := pat "^\s*#\s*include\s*([<\x22])([^>\x22]*)[>\x22].*$".

(** Two double quotes: an empty string literal. *)
Definition empty_literal : string := dquote +:+ dquote.

(** ** Strings and comments of one line *)

Definition IsCppString (line : string) : bool :=
  let line := str_replace line "\\" "XX" in
  Z.odd (str_count line dquote - str_count line ("\" +:+ dquote)
         - str_count line ("'" +:+ dquote +:+ "'")).

Definition CleanseComments (line : string) : string :=
  let commentpos := str_find line "//" in
  let line :=
    if negb (commentpos =? -1) && negb (IsCppString (slice_to line commentpos))
    then rstrip (slice_to line commentpos) else line in
  re_sub RE_PATTERN_CLEANSE_LINE_C_COMMENTS EmptyString line.

(** ** Raw strings *)

Definition RAW_STRING : string := "^(.*?)\b(?:R|u8R|uR|UR|LR)\x22([^\s\\()]*)\((.*)$".
Definition RAW_COMMENTED : string :=
  "^([^\'\x22]|\'(\\.|[^\'])*\'|\x22(\\.|[^\x22])*\x22)*//".

(** The inner loop, entered outside of a raw string: the line and the delimiter
    of the raw string that does not end on it. *)
Fixpoint raw_string_loop (fuel : nat) (line : string) : exn + (string * option string) :=
  match fuel with
  | O => inl FuelExhausted
  | S f =>
      match Match RAW_STRING line with
      | Some m =>
          if negb (matched (Match RAW_COMMENTED (m_text m 1))) then
            let delimiter := ")" +:+ m_text m 2 +:+ dquote in
            let end_ := str_find (m_text m 3) delimiter in
            if 0 <=? end_
            then raw_string_loop f
                   (m_text m 1 +:+ empty_literal +:+ slice_from (m_text m 3) (end_ + zlen delimiter))
            else inr (m_text m 1 +:+ empty_literal, Some delimiter)
          else inr (line, None)
      | None => inr (line, None)
      end
  end.

(** One line, with the delimiter of the raw string it starts in. *)
Definition cleanse_raw_line (delimiter : option string) (line : string)
    : exn + (string * option string) :=
  match delimiter with
  | Some d =>
      let end_ := str_find line d in
      if 0 <=? end_ then
        match Match "^(\s*)\S" line with
        | Some leading_space =>
            let line' := m_text leading_space 1 +:+ empty_literal
                         +:+ slice_from line (end_ + zlen d) in
            raw_string_loop (S (String.length line')) line'
        | None => inl AttributeError
        end
      else inr (empty_literal, Some d)
  | None => raw_string_loop (S (String.length line)) line
  end.

Definition CleanseRawStrings (raw_lines : list string) : exn + list string :=
  mapS cleanse_raw_line None raw_lines.

(** ** Multi-line comments *)

Definition opens_comment (line : string) : bool :=
  startswith (strip line) "/*" && (str_find_at (strip line) "*/" 2 <? 0).
Definition closes_comment (line : string) : bool := endswith (strip line) "*/".

(** The first line from [lineix] on that satisfies [p], or the number of lines. *)
Fixpoint find_line (p : string -> bool) (lines : list string) (lineix : nat) : nat :=
  match lines with
  | [] => O
  | line :: lines' =>
      match lineix with
      | O => if p line then O else S (find_line p lines' O)
      | S i => S (find_line p lines' i)
      end
  end.
Definition FindNextMultiLineCommentStart (lines : list string) (lineix : nat) : nat :=
  find_line opens_comment lines lineix.
Definition FindNextMultiLineCommentEnd (lines : list string) (lineix : nat) : nat :=
  find_line closes_comment lines lineix.

(** [for i in range(begin, end): lines[i] = '/**/'] for [end <= len(lines)]. *)
Definition RemoveMultiLineCommentsFromRange (lines : list string) (begin end_ : nat) : list string :=
  take begin lines ++ replicate (end_ - begin) "/**/" ++ drop (Nat.max begin end_) lines.

(** The lines after the call (they are changed in place) and the errors. *)
Fixpoint remove_comments_loop (fuel : nat) (filename : string) (lines : list string) (lineix : nat)
    : exn + list string * list diag :=
  match fuel with
  | O => inl FuelExhausted
  | S f =>
      if Nat.ltb lineix (length lines) then
        let lineix_begin := FindNextMultiLineCommentStart lines lineix in
        if Nat.leb (length lines) lineix_begin then inr (lines, [])
        else
          let lineix_end := FindNextMultiLineCommentEnd lines lineix_begin in
          if Nat.leb (length lines) lineix_end then
            inr (lines, [Diag filename (Z.of_nat lineix_begin + 1) "readability/multiline_comment" 5
                           "Could not find end of multi-line comment"])
          else
            remove_comments_loop f filename
              (RemoveMultiLineCommentsFromRange lines lineix_begin (lineix_end + 1))
              (lineix_end + 1)
      else inr (lines, [])
  end.
Definition RemoveMultiLineComments (filename : string) (lines : list string)
    : exn + list string * list diag :=
  remove_comments_loop (S (length lines)) filename lines 0.

(** ** Strings *)

Definition FIRST_QUOTE : string := "^([^\'\x22]*)([\'\x22])(.*)$".
Definition DIGITS_BEFORE : string := "\b(?:0[bBxX]?|[1-9])[0-9a-fA-F]*$".
Definition DIGITS_AFTER : string := "^((?:\'?[0-9a-zA-Z_])*)(.*)$".

Fixpoint collapse_loop (fuel : nat) (collapsed elided : string) : exn + string :=
  match fuel with
  | O => inl FuelExhausted
  | S f =>
      match Match FIRST_QUOTE elided with
      | None => inr (collapsed +:+ elided)
      | Some m =>
          let head := m_text m 1 in
          let quote := m_text m 2 in
          let tail := m_text m 3 in
          if String.eqb quote dquote then
            let second_quote := str_find tail dquote in
            if 0 <=? second_quote
            then collapse_loop f (collapsed +:+ head +:+ empty_literal)
                   (slice_from tail (second_quote + 1))
            else inr (collapsed +:+ elided)
          else if matched (Search DIGITS_BEFORE head) then
            match Match DIGITS_AFTER ("'" +:+ tail) with
            | Some match_literal =>
                collapse_loop f
                  (collapsed +:+ head +:+ str_replace (m_text match_literal 1) "'" EmptyString)
                  (m_text match_literal 2)
            | None => inl AttributeError
            end
          else
            let second_quote := str_find tail "'" in
            if 0 <=? second_quote
            then collapse_loop f (collapsed +:+ head +:+ "''") (slice_from tail (second_quote + 1))
            else inr (collapsed +:+ elided)
      end
  end.

Definition CollapseStrings (elided : string) : exn + string :=
  if matched (re_match RE_PATTERN_INCLUDE elided) then inr elided
  else
    let elided := re_sub RE_PATTERN_CLEANSE_LINE_ESCAPES EmptyString elided in
    collapse_loop (S (String.length elided)) EmptyString elided.

(** ** [CleansedLines] *)

Record CleansedLines := Cleansed {
  elided : list string;
  lines : list string;
  raw_lines : list string;
  num_lines : Z;
  lines_without_raw_strings : list string
}.

(** [clean_lines.elided[linenum]], [clean_lines.lines[linenum]] and
    [clean_lines.raw_lines[linenum]], and any list of lines. *)
Definition line_at (l : list string) (linenum : Z) : M string := try_get IndexError (py_nth l linenum).
Definition elided_at (c : CleansedLines) (linenum : Z) : M string := line_at (elided c) linenum.
Definition lines_at (c : CleansedLines) (linenum : Z) : M string := line_at (lines c) linenum.
Definition raw_at (c : CleansedLines) (linenum : Z) : M string := line_at (raw_lines c) linenum.

Definition elide_line (line : string) : exn + string :=
  match CollapseStrings line with
  | inl e => inl e
  | inr l => inr (CleanseComments l)
  end.

(** [__init__]. *)
Definition cleanse (ls : list string) : exn + CleansedLines :=
  match CleanseRawStrings ls with
  | inl e => inl e
  | inr no_raw =>
      match mapE elide_line no_raw with
      | inl e => inl e
      | inr el => inr (Cleansed el (map CleanseComments no_raw) ls (Z.of_nat (length ls)) no_raw)
      end
  end.

Definition NumLines (c : CleansedLines) : Z := num_lines c.

(** ** Raw strings: the loops end and never raise *)

Lemma raw_match line m :
  Match RAW_STRING line = Some m ->
  exists g1 r g2 g3 u, line = g1 +:+ r +:+ dquote +:+ g2 +:+ "(" +:+ g3 +:+ u
    /\ m_text m 1 = g1 /\ m_text m 2 = g2 /\ m_text m 3 = g3.
Proof.
  intros [ts H]%Match_splits; [|vm_compute; reflexivity].
  unfold RAW_STRING in H. splits_inv H. parts_simpl.
  exists t0, t2, t4, t6, (rest (m_final m)). split_and!; [done|..].
  - by destruct (Hg 0%nat t0 eq_refl).
  - by destruct (Hg 1%nat t4 eq_refl).
  - by destruct (Hg 2%nat t6 eq_refl).
Qed.

(** A delimiter is never blank. *)
Definition delimiter_ok (d : option string) : Prop :=
  match d with Some d => exists g, d = String ")" g | None => True end.

(** A line gets shorter when a raw string on it is replaced. *)
Lemma shorter_without_raw line g1 r g2 g3 u :
  line = g1 +:+ r +:+ dquote +:+ g2 +:+ "(" +:+ g3 +:+ u ->
  0 <= str_find g3 (")" +:+ g2 +:+ dquote) ->
  (String.length (g1 +:+ empty_literal +:+
     slice_from g3 (str_find g3 (")" +:+ g2 +:+ dquote) + zlen (")" +:+ g2 +:+ dquote)))
   < String.length line)%nat.
Proof.
  intros -> Hf. pose proof (str_find_bound _ _ Hf) as Hb.
  assert (Hd : zlen (")" +:+ g2 +:+ dquote) = zlen g2 + 2).
  { rewrite !zlen_app. unfold zlen. simpl. lia. }
  generalize dependent (")" +:+ g2 +:+ dquote). intros d Hf Hb Hd.
  apply Nat2Z.inj_lt. change (zlen (g1 +:+ empty_literal +:+ slice_from g3 (str_find g3 d + zlen d))
    < zlen (g1 +:+ r +:+ dquote +:+ g2 +:+ "(" +:+ g3 +:+ u)).
  pose proof (zlen_nonneg g2). pose proof (zlen_nonneg r). pose proof (zlen_nonneg u).
  rewrite !zlen_app, zlen_slice_from by lia. unfold dquote, chr, empty_literal.
  assert (zlen dquote = 1) by done. assert (zlen "(" = 1) by done.
  assert (zlen (dquote +:+ dquote) = 2) by done. unfold dquote, chr in *. lia.
Qed.

Lemma raw_string_loop_ok fuel : forall line,
  (String.length line < fuel)%nat ->
  exists line' d, raw_string_loop fuel line = inr (line', d) /\ delimiter_ok d.
Proof.
  induction fuel as [|f IH]; intros line Hf; [lia|]. cbn [raw_string_loop].
  destruct (Match RAW_STRING line) as [m|] eqn:E; [|exists line, None; split; [reflexivity | exact I]].
  destruct (raw_match line m E) as (g1 & r & g2 & g3 & u & Hl & -> & -> & ->).
  destruct (negb _); [|exists line, None; split; [reflexivity | exact I]].
  destruct (0 <=? str_find g3 (")" +:+ g2 +:+ dquote)) eqn:Ef.
  2:{ do 2 eexists. split; [done|]. by exists (g2 +:+ dquote). }
  apply IH. bools. apply shorter_without_raw with (1 := Hl) in Ef. lia.
Qed.

(** A line with a character that is not a space has leading space to match. *)
Lemma leading_space_match line :
  sall is_space line = false -> exists m, Match "^(\s*)\S" line = Some m.
Proof.
  intros H.
  assert (Hd : exists lead c u, line = lead +:+ String c u /\ sall is_space lead = true
                                /\ is_space c = false).
  { induction line as [|c line IH]; [done|]. simpl in H. destruct (is_space c) eqn:Ec.
    - destruct (IH H) as (lead & d & u & -> & ? & ?). exists (String c lead), d, u.
      simpl. by rewrite Ec.
    - by exists EmptyString, c, line. }
  destruct Hd as (lead & c & u & -> & Hlead & Hc).
  set (x := state_at (lead +:+ String c u) 0).
  apply (Match_complete _ _ (advance (set_cap 1 0 (after lead x)) c u)).
  unfold matches_at. fold x. compute_pat. cbn [p_fl p_regex].
  assert (Hrest : rest (after lead x) = String c u) by (by apply after_rest).
  exists x. split; [done|]. exists (set_cap 1 0 (after lead x)). split.
  - exists (after lead x). split; [|done].
    eapply (den_star_charset _ _ _ _ _ lead x (String c u)); [done| |done].
    rewrite <- Hlead. apply sall_ext. intros d. apply set_mem_space.
  - eapply den_set_intro; [done| |done]. unfold set_mem. simpl. by rewrite Hc.
Qed.

Lemma sall_space_delimiter line g :
  0 <= str_find line (String ")" g) -> sall is_space line = false.
Proof.
  destruct (str_find_cases line (String ")" g)) as [[-> _]|(a & b & -> & _)]; [lia|].
  intros _. rewrite !sall_app. simpl. apply andb_false_r.
Qed.

Lemma cleanse_raw_line_ok d line :
  delimiter_ok d ->
  exists line' d', cleanse_raw_line d line = inr (line', d') /\ delimiter_ok d'.
Proof.
  intros Hd. destruct d as [d|]; cbn [cleanse_raw_line]; [|apply raw_string_loop_ok; lia].
  destruct (0 <=? str_find line d) eqn:E; [|by do 2 eexists].
  destruct Hd as [g ->]. bools.
  destruct (leading_space_match line (sall_space_delimiter line g E)) as [m ->].
  apply raw_string_loop_ok. lia.
Qed.

Lemma CleanseRawStrings_ok ls : exists r, CleanseRawStrings ls = inr r /\ length r = length ls.
Proof. apply (mapS_ok delimiter_ok); [|exact I]. intros d line. apply cleanse_raw_line_ok. Qed.

(** ** Strings: the loop ends and never raises *)

Definition not_newline (c : ascii) : bool := negb (code c =? 10)%N.

Lemma first_quote_match s m :
  Match FIRST_QUOTE s = Some m ->
  exists head q tail u, s = head +:+ String q (tail +:+ u) /\ sall not_newline tail = true
    /\ m_text m 1 = head /\ m_text m 2 = String q EmptyString /\ m_text m 3 = tail.
Proof.
  intros [ts H]%Match_splits; [|vm_compute; reflexivity].
  unfold FIRST_QUOTE in H. splits_inv H. parts_simpl.
  exists t0, c, t2, (rest (m_final m)). split_and!; [done|done|..].
  - by destruct (Hg 0%nat t0 eq_refl).
  - by destruct (Hg 1%nat _ eq_refl).
  - by destruct (Hg 2%nat t2 eq_refl).
Qed.

(** The text after a digit separator always matches, and does not grow. *)
Lemma digits_after_match tail :
  sall not_newline tail = true ->
  exists m, Match DIGITS_AFTER ("'" +:+ tail) = Some m
    /\ (String.length (m_text m 2) <= S (String.length tail))%nat.
Proof.
  intros Ht.
  assert (E : exists m, Match DIGITS_AFTER ("'" +:+ tail) = Some m).
  { set (x := state_at ("'" +:+ tail) 0).
    apply (Match_complete _ _ (set_cap 2 0 (after ("'" +:+ tail) (set_cap 1 0 x)))).
    unfold matches_at. fold x. unfold DIGITS_AFTER. compute_pat. cbn [p_fl p_regex].
    exists x. split; [done|]. exists (set_cap 1 0 x). split.
    { exists x. split; [|done]. exists x. split; constructor. }
    exists (set_cap 2 0 (after ("'" +:+ tail) (set_cap 1 0 x))). split.
    - exists (after ("'" +:+ tail) (set_cap 1 0 x)). split; [|done].
      eapply (den_star_charset _ _ _ _ _ _ _ EmptyString); [done| |].
      + simpl. exact Ht.
      + rewrite sapp_nil_r. done.
    - split; [done|]. unfold at_end. cbn [rest set_cap].
      by rewrite (after_rest _ _ EmptyString) by (by rewrite sapp_nil_r). }
  destruct E as [m E]. exists m. split; [done|].
  apply Match_splits in E as [ts H]; [|vm_compute; reflexivity].
  unfold DIGITS_AFTER in H. splits_inv H.
  destruct (Hg 1%nat _ eq_refl) as [_ ->].
  apply (f_equal String.length) in Hs. autorewrite with pysimp in Hs. simpl in Hs. lia.
Qed.

Lemma zlen_after_find s sub :
  0 <= str_find s sub -> (1 <= String.length sub)%nat ->
  (String.length (slice_from s (str_find s sub + 1)) < S (String.length s))%nat.
Proof.
  intros Hf Hs. pose proof (str_find_bound _ _ Hf) as Hb.
  unfold slice_from, clamp. rewrite slength_sdrop. lia.
Qed.

Lemma collapse_loop_ok fuel : forall collapsed s,
  (String.length s < fuel)%nat -> exists r, collapse_loop fuel collapsed s = inr r.
Proof.
  induction fuel as [|f IH]; intros collapsed s Hf; [lia|]. cbn [collapse_loop].
  destruct (Match FIRST_QUOTE s) as [m|] eqn:E; [|by eexists].
  destruct (first_quote_match s m E) as (head & q & tail & u & -> & Ht & -> & -> & ->).
  autorewrite with pysimp in Hf. cbn [String.length] in Hf. autorewrite with pysimp in Hf.
  destruct (String.eqb (String q EmptyString) dquote).
  { destruct (0 <=? str_find tail dquote) eqn:E2; [|by eexists]. bools.
    apply IH. pose proof (zlen_after_find _ _ E2 ltac:(simpl; lia)). lia. }
  destruct (matched (Search DIGITS_BEFORE head)) eqn:Ed.
  - destruct (digits_after_match tail Ht) as (m' & -> & Hl). apply IH.
    destruct head as [|c head]; [vm_compute in Ed; discriminate|]. simpl in Hf. lia.
  - destruct (0 <=? str_find tail "'") eqn:E2; [|by eexists]. bools.
    apply IH. pose proof (zlen_after_find _ _ E2 ltac:(simpl; lia)). lia.
Qed.

Lemma elide_line_ok line : exists r, elide_line line = inr r.
Proof.
  unfold elide_line, CollapseStrings.
  destruct (matched (re_match RE_PATTERN_INCLUDE line)); [by eexists|].
  destruct (collapse_loop_ok (S (String.length (re_sub RE_PATTERN_CLEANSE_LINE_ESCAPES "" line))) ""
              (re_sub RE_PATTERN_CLEANSE_LINE_ESCAPES "" line)) as [r ->]; [lia | by eexists].
Qed.

Lemma cleanse_ok (ls : list string) :
  exists c, cleanse ls = inr c
    /\ raw_lines c = ls
    /\ length (elided c) = length ls /\ length (lines c) = length ls
    /\ length (lines_without_raw_strings c) = length ls
    /\ NumLines c = Z.of_nat (length ls).
Proof.
  unfold cleanse. destruct (CleanseRawStrings_ok ls) as (r & -> & Hr).
  destruct (mapE_ok elide_line r elide_line_ok) as (el & -> & Hel).
  eexists. split; [done|]. cbn [raw_lines elided lines lines_without_raw_strings NumLines num_lines].
  rewrite length_map. by split_and!; try congruence.
Qed.

(** C1.  [CleansedLines] is total: for every list of lines the constructor
    returns (its loops end, no match object is [None] where a group is read),
    and the four copies it holds have the same number of lines, which is what
    [NumLines] returns. *)
Theorem CleansedLines_total (ls : list string) :
  exists c, cleanse ls = inr c
    /\ raw_lines c = ls
    /\ length (elided c) = length ls /\ length (lines c) = length ls
    /\ length (lines_without_raw_strings c) = length ls
    /\ NumLines c = Z.of_nat (length ls).
Proof. apply cleanse_ok. Qed.

(** ** Multi-line comments *)

(** A line that begins a comment and does not end it, and one that ends a comment. *)
Definition begins_comment (line : string) : Prop :=
  exists r, strip line = "/*" +:+ r /\ contains r "*/" = false.
Definition ends_comment (line : string) : Prop := exists r, strip line = r +:+ "*/".

(** The comments that start a line and go over several lines, removed: a line outside
    of them is kept; a comment from the line that begins it to the first line that ends
    one becomes as many empty comments; one without an end is left, with everything
    after it, and reported at its line [n], counted from 1. *)
Inductive comments_removed (filename : string)
    : Z -> list string -> list string -> list diag -> Prop :=
  | removed_nil n : comments_removed filename n [] [] []
  | removed_line n l ls ls' ds :
      ~ begins_comment l -> comments_removed filename (n + 1) ls ls' ds ->
      comments_removed filename n (l :: ls) (l :: ls') ds
  | removed_block n block last rest rest' ds :
      begins_comment (hd last block) -> Forall (fun l => ~ ends_comment l) block ->
      ends_comment last ->
      comments_removed filename (n + Z.of_nat (S (length block))) rest rest' ds ->
      comments_removed filename n (block ++ last :: rest)
        (replicate (S (length block)) "/**/" ++ rest') ds
  | removed_open n first ls :
      begins_comment first -> Forall (fun l => ~ ends_comment l) (first :: ls) ->
      comments_removed filename n (first :: ls) (first :: ls)
        [Diag filename n "readability/multiline_comment" 5
           "Could not find end of multi-line comment"].

Lemma find_from_neg s sub i : 0 <= i -> find_from s sub i < 0 <-> contains s sub = false.
Proof.
  intros Hi. rewrite <- not_true_iff_false, contains_spec.
  destruct (find_from_spec s sub i Hi) as [[-> H]|(n & -> & Hn & H & _)]; (split; [intros Hlt|intros Hc]);
    try lia.
  - intros (a & b & ->). specialize (H (String.length a)). rewrite sdrop_app, slength_app in H.
    apply not_true_iff_false in H; [|lia]. apply H, startswith_true. by exists b.
  - destruct Hc. apply startswith_true in H as [b Hb]. exists (stake n s), b.
    by rewrite <- Hb, stake_sdrop.
Qed.

Lemma opens_comment_spec line : opens_comment line = true <-> begins_comment line.
Proof.
  assert (Hat : forall r, str_find_at ("/*" +:+ r) "*/" 2 = find_from r "*/" 2).
  { intros r. unfold str_find_at. rewrite zlen_app. pose proof (zlen_nonneg r).
    change (zlen "/*") with 2. by rewrite (proj2 (Z.ltb_ge _ _)) by lia. }
  unfold opens_comment, begins_comment. rewrite andb_true_iff, startswith_true, Z.ltb_lt. split.
  - intros [[r Hr] Hf]. exists r. split; [done|]. rewrite Hr, Hat in Hf. by apply find_from_neg in Hf.
  - intros (r & Hr & Hc). split; [by exists r|]. rewrite Hr, Hat. by apply find_from_neg.
Qed.

Lemma closes_comment_spec line : closes_comment line = true <-> ends_comment line.
Proof. apply endswith_true. Qed.

Lemma not_closes ls :
  Forall (fun l => closes_comment l = false) ls <-> Forall (fun l => ~ ends_comment l) ls.
Proof. apply Forall_iff. intros l. by rewrite <- closes_comment_spec, not_true_iff_false. Qed.

(** [find_line] after a part that it skips, and what it finds. *)
Lemma find_line_skip p pre ls : find_line p (pre ++ ls) (length pre) = (length pre + find_line p ls 0)%nat.
Proof. induction pre as [|l pre IH]; [done|]. cbn [app length find_line]. by rewrite IH. Qed.

Lemma find_line_first p ls :
  (find_line p ls 0 = length ls /\ Forall (fun l => p l = false) ls) \/
  exists pre l post, ls = pre ++ l :: post /\ find_line p ls 0 = length pre /\
    Forall (fun l => p l = false) pre /\ p l = true.
Proof.
  induction ls as [|l ls IH]; cbn [find_line]; [by left|].
  destruct (p l) eqn:E; [right; by exists [], l, ls|].
  destruct IH as [[-> H]|(pre & x & post & -> & -> & Hpre & Hx)]; [left; auto|].
  right. exists (l :: pre), x, post. auto.
Qed.

(** Clearing the lines of a block. *)
Lemma clear_block pre block rest :
  RemoveMultiLineCommentsFromRange (pre ++ block ++ rest) (length pre) (length pre + length block)
  = pre ++ replicate (length block) "/**/" ++ rest.
Proof.
  unfold RemoveMultiLineCommentsFromRange. rewrite take_app_length, Nat.max_r by lia.
  do 2 f_equal; [f_equal; lia|]. rewrite <- length_app, app_assoc. apply drop_app_length.
Qed.

Lemma removed_lines filename pre : forall n ls ls' ds,
  Forall (fun l => opens_comment l = false) pre ->
  comments_removed filename (n + Z.of_nat (length pre)) ls ls' ds ->
  comments_removed filename n (pre ++ ls) (pre ++ ls') ds.
Proof.
  induction pre as [|l pre IH]; intros n ls ls' ds Hpre H; [by rewrite Z.add_0_r in H|].
  apply Forall_cons in Hpre as [Hl Hpre]. apply removed_line.
  { by rewrite <- opens_comment_spec, Hl. }
  apply IH; [done|]. by replace (n + 1 + _) with (n + Z.of_nat (length (l :: pre))) by (simpl; lia).
Qed.

(** The loop, from a point up to which everything is done. *)
Lemma remove_comments_loop_spec filename fuel : forall before ls,
  (length ls < fuel)%nat ->
  exists ls' ds,
    remove_comments_loop fuel filename (before ++ ls) (length before) = inr (before ++ ls', ds) /\
    comments_removed filename (Z.of_nat (length before) + 1) ls ls' ds.
Proof.
  induction fuel as [|f IH]; intros before ls Hf; [lia|]. cbn [remove_comments_loop].
  unfold FindNextMultiLineCommentStart, FindNextMultiLineCommentEnd. rewrite length_app, find_line_skip.
  destruct (Nat.ltb _ _) eqn:Ei; bools.
  2:{ destruct ls; [|simpl in Ei; lia]. exists [], []. split; [done|constructor]. }
  destruct (find_line_first opens_comment ls) as [[-> Hno]|(pre & first & post & -> & -> & Hno & Hb)].
  { rewrite Nat.leb_refl. exists ls, []. split; [done|].
    rewrite <- (app_nil_r ls). apply removed_lines; [done|constructor]. }
  rewrite (proj2 (Nat.leb_gt _ _)) by (rewrite length_app; simpl; lia).
  rewrite (app_assoc before pre), <- (length_app before pre), find_line_skip. apply opens_comment_spec in Hb.
  destruct (find_line_first closes_comment (first :: post))
    as [[-> Hne]|(block & last & rest & E & -> & Hne & He)].
  - rewrite (proj2 (Nat.leb_le _ _)) by (rewrite !length_app; simpl; lia).
    eexists (pre ++ first :: post), _. rewrite app_assoc. split; [done|].
    apply removed_lines; [done|].
    replace (Z.of_nat (length before) + 1 + Z.of_nat (length pre))
      with (Z.of_nat (length (before ++ pre)) + 1) by (rewrite length_app; lia).
    apply removed_open; [done|]. by apply not_closes.
  - rewrite (proj2 (Nat.leb_gt _ _)) by (rewrite !length_app, E, length_app; simpl; lia). rewrite E.
    set (n := S (length block)).
    replace (length (before ++ pre) + length block + 1)%nat
      with (length (before ++ pre) + length (block ++ [last]))%nat by (rewrite (length_app block); simpl; lia).
    rewrite (cons_middle last block rest), (app_assoc block), clear_block.
    replace (length (block ++ [last])) with n by (rewrite length_app; unfold n; simpl; lia).
    destruct (IH ((before ++ pre) ++ replicate n "/**/") rest) as (rest' & ds & E' & Hr).
    { apply (f_equal length) in E. rewrite !length_app in *. simpl in *. lia. }
    exists (pre ++ replicate n "/**/" ++ rest'), ds. split.
    { rewrite length_app, length_replicate in E'. rewrite <- !app_assoc in E'. rewrite <- !app_assoc. exact E'. }
    apply removed_lines; [done|]. rewrite <- app_assoc. apply removed_block.
    + destruct block; simpl in E; by simplify_eq.
    + by apply not_closes.
    + by apply closes_comment_spec.
    + rewrite !length_app, length_replicate in Hr. fold n.
      by replace (Z.of_nat (length before) + 1 + _ + _)
        with (Z.of_nat (length before + length pre + n) + 1) by lia.
Qed.

(** What is removed is determined by the lines. *)
Lemma comments_block_inj block : forall block' last last' rest rest',
  Forall (fun l => ~ ends_comment l) block -> Forall (fun l => ~ ends_comment l) block' ->
  ends_comment last -> ends_comment last' ->
  block ++ last :: rest = block' ++ last' :: rest' -> block = block' /\ last = last' /\ rest = rest'.
Proof.
  induction block as [|l block IH]; intros [|l' block'] last last' rest rest' H H' E E' Heq;
    simpl in Heq; simplify_eq; rewrite ?Forall_cons in *; [done|naive_solver..|].
  destruct (IH block' last last' rest rest') as (-> & -> & ->); naive_solver.
Qed.

Lemma block_head (block : list string) last rest : exists t, block ++ last :: rest = hd last block :: t.
Proof. destruct block as [|l block]; simpl; by eexists. Qed.

Lemma comments_removed_inv filename n ls ls' ds :
  comments_removed filename n ls ls' ds ->
  match ls with
  | [] => ls' = [] /\ ds = []
  | l :: t =>
      (~ begins_comment l /\ exists t', ls' = l :: t' /\ comments_removed filename (n + 1) t t' ds) \/
      (begins_comment l /\ Forall (fun l => ~ ends_comment l) ls /\ ls' = ls /\
         ds = [Diag filename n "readability/multiline_comment" 5
                 "Could not find end of multi-line comment"]) \/
      (begins_comment l /\ exists block last rest rest', ls = block ++ last :: rest /\
         Forall (fun l => ~ ends_comment l) block /\ ends_comment last /\
         ls' = replicate (S (length block)) "/**/" ++ rest' /\
         comments_removed filename (n + Z.of_nat (S (length block))) rest rest' ds)
  end.
Proof.
  intros [m|m l t t' ds' Hl H|m block last rest rest' ds' Hb Hn He H|m first t Hb Hn]; eauto 8.
  destruct (block_head block last rest) as [t Et]. rewrite Et, <- Et. eauto 15.
Qed.

Lemma comments_removed_functional filename n ls ls' ds :
  comments_removed filename n ls ls' ds ->
  forall ls2 ds2, comments_removed filename n ls ls2 ds2 -> ls' = ls2 /\ ds = ds2.
Proof.
  induction 1 as [n|n l ls ls' ds Hl _ IH|n block last rest rest' ds Hb Hn He _ IH|n first ls Hb Hn];
    intros ls2 ds2 H2%comments_removed_inv.
  - naive_solver.
  - destruct H2 as [(_ & t' & -> & H)|[[? _]|[? _]]]; [|done..]. by destruct (IH _ _ H) as [-> ->].
  - assert (Hno : ~ Forall (fun l => ~ ends_comment l) (block ++ last :: rest)).
    { intros [_ [H _]%Forall_cons]%Forall_app. done. }
    destruct (block_head block last rest) as [t Et]. rewrite Et, <- Et in H2.
    destruct H2 as [[? _]|[(_ & ? & _)|(_ & b' & l' & r' & r'' & E & Hn' & He' & -> & H)]]; [done..|].
    apply comments_block_inj in E as (<- & <- & <-); [|done..]. by destruct (IH _ _ H) as [-> ->].
  - destruct H2 as [[? _]|[(_ & _ & -> & ->)|(_ & b' & l' & r' & r'' & E & _ & He' & _)]]; [done..|].
    rewrite E in Hn. apply Forall_app in Hn as [_ [H _]%Forall_cons]. done.
Qed.

Lemma RemoveMultiLineComments_ok filename ls :
  exists ls' ds, RemoveMultiLineComments filename ls = inr (ls', ds) /\
    comments_removed filename 1 ls ls' ds.
Proof. apply (remove_comments_loop_spec filename (S (length ls)) [] ls). lia. Qed.

(** C27.  [RemoveMultiLineComments] returns on every list of lines, and what it does is
    exactly this: a line outside of the comments it looks for is kept; a comment that
    starts its line and does not end on it becomes, from that line to the first line
    whose text ends with the closing marker, as many lines with an empty comment; a
    comment without such a line is left as it is, with all that follows, and is reported
    once, at its line counted from 1. *)
Theorem RemoveMultiLineComments_spec (filename : string) (ls : list string) :
  exists ls' ds, RemoveMultiLineComments filename ls = inr (ls', ds) /\
    forall ls2 ds2, comments_removed filename 1 ls ls2 ds2 <-> ls2 = ls' /\ ds2 = ds.
Proof.
  destruct (RemoveMultiLineComments_ok filename ls) as (ls' & ds & E & H). exists ls', ds.
  split; [done|]. intros ls2 ds2. split; [|by intros [-> ->]].
  intros H'. by destruct (comments_removed_functional _ _ _ _ _ H _ _ H') as [-> ->].
Qed.

(** A comment over two lines, and one that is not closed. *)
Lemma RemoveMultiLineComments_spec_witness :
  RemoveMultiLineComments "a.cc" ["int x;"; "/* a"; " b */"; "/* c"; "int y;"]
  = inr (["int x;"; "/**/"; "/**/"; "/* c"; "int y;"],
         [Diag "a.cc" 4 "readability/multiline_comment" 5 "Could not find end of multi-line comment"]).
Proof.
  destruct (RemoveMultiLineComments_spec "a.cc" ["int x;"; "/* a"; " b */"; "/* c"; "int y;"])
    as (ls' & ds & -> & H).
  assert (Hb : forall l, opens_comment l = false -> ~ begins_comment l)
    by (intros l Hl Hc; apply opens_comment_spec in Hc; congruence).
  assert (He : forall l, closes_comment l = false -> ~ ends_comment l)
    by (intros l Hl Hc; apply closes_comment_spec in Hc; congruence).
  destruct (proj1 (H ["int x;"; "/**/"; "/**/"; "/* c"; "int y;"]
    [Diag "a.cc" 4 "readability/multiline_comment" 5 "Could not find end of multi-line comment"]))
    as [<- <-]; [|reflexivity].
  apply removed_line; [apply Hb; reflexivity|].
  apply (removed_block "a.cc" _ ["/* a"] " b */" ["/* c"; "int y;"] ["/* c"; "int y;"]).
  - apply opens_comment_spec. reflexivity.
  - repeat constructor. apply He. reflexivity.
  - apply closes_comment_spec. reflexivity.
  - apply removed_open; [apply opens_comment_spec; reflexivity|].
    repeat constructor; apply He; reflexivity.
Defined.

(** ** Comments on one line *)

Lemma needs_c_comment :
  needs2 "/" "*" (p_regex RE_PATTERN_CLEANSE_LINE_C_COMMENTS) = true
  /\ icase (p_fl RE_PATTERN_CLEANSE_LINE_C_COMMENTS) = false.
Proof. split; vm_compute; reflexivity. Qed.

Lemma no_c_comment line :
  contains line "/*" = false -> re_sub RE_PATTERN_CLEANSE_LINE_C_COMMENTS EmptyString line = line.
Proof.
  intros H. apply re_sub_no_match. intros i y Hi Hm.
  destruct needs_c_comment as [Hn Hic].
  rewrite (matches_at_needs2 _ _ _ _ "/" "*" Hic Hn Hi Hm) in H. discriminate H.
Qed.

(** C28.  [CleanseComments] on a line without the marker that opens a C comment: a line
    without [//] is returned unchanged; at the first [//], when the text before it does
    not end inside a string, the result is the text before it without its trailing
    space; when it does, the whole line is kept, with any [//] after the string. *)
Theorem CleanseComments_spec (before after : string)
    (Hfirst : str_find (before +:+ "//" +:+ after) "//" = zlen before)
    (Hc : contains (before +:+ "//" +:+ after) "/*" = false) :
  CleanseComments (before +:+ "//" +:+ after) =
    (if IsCppString before then before +:+ "//" +:+ after else rstrip before)
  /\ (forall line, contains line "//" = false -> contains line "/*" = false ->
      CleanseComments line = line).
Proof.
  assert (Hb : contains (rstrip before) "/*" = false).
  { apply contains_prefix in Hc. destruct (rstrip_by_app is_space before) as (t & E & _).
    rewrite E in Hc. by apply contains_prefix in Hc. }
  split.
  - unfold CleanseComments. rewrite Hfirst, slice_to_app.
    rewrite (proj2 (Z.eqb_neq _ _)) by (pose proof (zlen_nonneg before); lia).
    destruct (IsCppString before); cbn [andb negb]; apply no_c_comment; assumption.
  - intros line H1 H2. unfold CleanseComments.
    destruct (str_find_cases line "//") as [[-> _]|(a & b & -> & _)].
    + rewrite Z.eqb_refl. cbn [andb negb]. apply no_c_comment; assumption.
    + exfalso. rewrite (proj2 (contains_spec _ _)) in H1; [discriminate H1 | eauto].
Qed.

(** A comment after a string that holds [//] is not removed. *)
Lemma comment_after_url_kept :
  let line := "f(" +:+ dquote +:+ "http://a" +:+ dquote +:+ ");  // note" in
  CleanseComments line = line.
Proof. vm_compute. reflexivity. Qed.

Lemma CleanseComments_spec_witness :
  CleanseComments ("int x;  " +:+ "//" +:+ " note") = "int x;".
Proof.
  destruct (CleanseComments_spec "int x;  " " note") as [H _];
    [vm_compute; reflexivity .. |].
  rewrite H. vm_compute. reflexivity.
Defined.
