(* ===== verification/Expr.v ===== *)
(** * Matching brackets: [CloseExpression] and [ReverseCloseExpression]

    The scans of cpplint.py over one line, with the nesting stack as a list whose
    head is the top, and the searches over the lines of a file. *)

From stdpp Require Import base list strings.
From Stdlib Require Import ZArith Lia Ascii.
From S2P Require Import Prelude PyString Regex RegexParse PyRe RegexFacts Cleanse.
Local Open Scope Z_scope.

(** [char in s] for one character. *)
Definition char_in (c : ascii) (s : string) : bool := negb (sall (fun d => negb (Ascii.eqb c d)) s).

(** [while stack and stack[-1] == c: stack.pop()]. *)
Fixpoint pop_while (c : ascii) (stack : list ascii) : list ascii :=
  match stack with
  | d :: stack' => if Ascii.eqb d c then pop_while c stack' else stack
  | [] => []
  end.

(** [i > 0 and line[i - 1] == c]. *)
Definition prev_is (line : string) (i : Z) (c : ascii) : bool :=
  (0 <? i) && match str_at line (i - 1) with Some d => Ascii.eqb d c | None => false end.

Definition OPERATOR_END : string := "\boperator\s*$".

(** The two brackets match. *)
Definition pair_ok (o c : ascii) : bool :=
  (Ascii.eqb o "(" && Ascii.eqb c ")") || (Ascii.eqb o "[" && Ascii.eqb c "]")
  || (Ascii.eqb o "{" && Ascii.eqb c "}").

(** A position and the stack at the end of the line; the stack is [None] when
    the search is over. *)
Definition scan_result : Type := exn + (Z * option (list ascii)).

(** The loop [for i in xrange(startpos, len(line))], with [n] positions left. *)
Fixpoint find_end (n : nat) (line : string) (i : Z) (stack : list ascii) : scan_result :=
  match n with
  | O => inr (-1, Some stack)
  | S n' =>
      match str_at line i with
      | None => inl IndexError
      | Some char =>
          if char_in char "([{" then find_end n' line (i + 1) (char :: stack)
          else if Ascii.eqb char "<" then
            if prev_is line i "<" then
              match stack with
              | top :: stack' =>
                  if Ascii.eqb top "<" then
                    match stack' with
                    | [] => inr (-1, None)
                    | _ :: _ => find_end n' line (i + 1) stack'
                    end
                  else find_end n' line (i + 1) stack
              | [] => find_end n' line (i + 1) stack
              end
            else if (0 <? i) && matched (Search OPERATOR_END (slice line 0 i))
            then find_end n' line (i + 1) stack
            else find_end n' line (i + 1) ("<"%char :: stack)
          else if char_in char ")]}" then
            match pop_while "<" stack with
            | [] => inr (-1, None)
            | top :: stack' =>
                if pair_ok top char then
                  match stack' with
                  | [] => inr (i + 1, None)
                  | _ :: _ => find_end n' line (i + 1) stack'
                  end
                else inr (-1, None)
            end
          else if Ascii.eqb char ">" then
            if (0 <? i) && (prev_is line i "-" || matched (Search OPERATOR_END (slice line 0 (i - 1))))
            then find_end n' line (i + 1) stack
            else
              match stack with
              | top :: stack' =>
                  if Ascii.eqb top "<" then
                    match stack' with
                    | [] => inr (i + 1, None)
                    | _ :: _ => find_end n' line (i + 1) stack'
                    end
                  else find_end n' line (i + 1) stack
              | [] => find_end n' line (i + 1) stack
              end
          else if Ascii.eqb char ";" then
            match pop_while "<" stack with
            | [] => inr (-1, None)
            | stack' => find_end n' line (i + 1) stack'
            end
          else find_end n' line (i + 1) stack
      end
  end.

Definition FindEndOfExpressionInLine (line : string) (startpos : Z) (stack : list ascii)
    : scan_result :=
  find_end (Z.to_nat (zlen line - startpos)) line startpos stack.

(** Lines [linenum + 1], [linenum + 2], ... while the expression is open; [n] of
    them are left. *)
Fixpoint close_lines (n : nat) (c : CleansedLines) (linenum : Z) (line : string)
    (stack : list ascii) : exn + (string * Z * Z) :=
  match n with
  | O => inr (line, NumLines c, -1)
  | S n' =>
      match stack with
      | [] => inr (line, NumLines c, -1)
      | _ :: _ =>
          match py_nth (elided c) (linenum + 1) with
          | None => inl IndexError
          | Some line' =>
              match FindEndOfExpressionInLine line' 0 stack with
              | inl e => inl e
              | inr (end_pos, stack') =>
                  if -1 <? end_pos then inr (line', linenum + 1, end_pos)
                  else close_lines n' c (linenum + 1) line' (default [] stack')
              end
          end
      end
  end.

Definition CloseExpression (c : CleansedLines) (linenum pos : Z) : exn + (string * Z * Z) :=
  match py_nth (elided c) linenum with
  | None => inl IndexError
  | Some line =>
      match str_at line pos with
      | None => inl IndexError
      | Some ch =>
          if negb (char_in ch "({[<") || matched (Match "<[<=]" (slice_from line pos))
          then inr (line, NumLines c, -1)
          else
            match FindEndOfExpressionInLine line pos [] with
            | inl e => inl e
            | inr (end_pos, stack) =>
                if -1 <? end_pos then inr (line, linenum, end_pos)
                else close_lines (Z.to_nat (NumLines c - 1 - linenum)) c linenum line
                       (default [] stack)
            end
      end
  end.

(** The loop [while i >= 0] of the backward scan; [n] bounds the steps left. *)
Fixpoint find_start (n : nat) (line : string) (i : Z) (stack : list ascii) : scan_result :=
  match n with
  | O => inr (-1, Some stack)
  | S n' =>
      if i <? 0 then inr (-1, Some stack)
      else
      match str_at line i with
      | None => inl IndexError
      | Some char =>
          if char_in char ")]}" then find_start n' line (i - 1) (char :: stack)
          else if Ascii.eqb char ">" then
            if (0 <? i) && (prev_is line i "-"
                            || matched (Match "\s>=\s" (slice_from line (i - 1)))
                            || matched (Search OPERATOR_END (slice line 0 i)))
            then find_start n' line (i - 2) stack
            else find_start n' line (i - 1) (">"%char :: stack)
          else if Ascii.eqb char "<" then
            if prev_is line i "<" then find_start n' line (i - 2) stack
            else
              match stack with
              | top :: stack' =>
                  if Ascii.eqb top ">" then
                    match stack' with
                    | [] => inr (i, None)
                    | _ :: _ => find_start n' line (i - 1) stack'
                    end
                  else find_start n' line (i - 1) stack
              | [] => find_start n' line (i - 1) stack
              end
          else if char_in char "([{" then
            match pop_while ">" stack with
            | [] => inr (-1, None)
            | top :: stack' =>
                if pair_ok char top then
                  match stack' with
                  | [] => inr (i, None)
                  | _ :: _ => find_start n' line (i - 1) stack'
                  end
                else inr (-1, None)
            end
          else if Ascii.eqb char ";" then
            match pop_while ">" stack with
            | [] => inr (-1, None)
            | stack' => find_start n' line (i - 1) stack'
            end
          else find_start n' line (i - 1) stack
      end
  end.

Definition FindStartOfExpressionInLine (line : string) (endpos : Z) (stack : list ascii)
    : scan_result :=
  find_start (Z.to_nat (endpos + 1)) line endpos stack.

(** Lines [linenum - 1], [linenum - 2], ... down to line 0. *)
Fixpoint open_lines (n : nat) (c : CleansedLines) (linenum : Z) (line : string)
    (stack : list ascii) : exn + (string * Z * Z) :=
  match n with
  | O => inr (line, 0, -1)
  | S n' =>
      match stack with
      | [] => inr (line, 0, -1)
      | _ :: _ =>
          match py_nth (elided c) (linenum - 1) with
          | None => inl IndexError
          | Some line' =>
              match FindStartOfExpressionInLine line' (zlen line' - 1) stack with
              | inl e => inl e
              | inr (start_pos, stack') =>
                  if -1 <? start_pos then inr (line', linenum - 1, start_pos)
                  else open_lines n' c (linenum - 1) line' (default [] stack')
              end
          end
      end
  end.

Definition ReverseCloseExpression (c : CleansedLines) (linenum pos : Z) : exn + (string * Z * Z) :=
  match py_nth (elided c) linenum with
  | None => inl IndexError
  | Some line =>
      match str_at line pos with
      | None => inl IndexError
      | Some ch =>
          if negb (char_in ch ")}]>") then inr (line, 0, -1)
          else
            match FindStartOfExpressionInLine line pos [] with
            | inl e => inl e
            | inr (start_pos, stack) =>
                if -1 <? start_pos then inr (line, linenum, start_pos)
                else open_lines (Z.to_nat linenum) c linenum line (default [] stack)
            end
      end
  end.

(** ** Bounds *)

(** The lists of the cleansed file have the length it records. *)
Definition well_sized (c : CleansedLines) : Prop := NumLines c = Z.of_nat (length (elided c)).

(** A scan that found nothing, or a position within the bounds. *)
Definition scan_within (lo hi : Z) (r : scan_result) : Prop :=
  exists p st, r = inr (p, st) /\ (p = -1 \/ (lo <= p <= hi /\ st = None)).

Lemma scan_within_none lo hi st : scan_within lo hi (inr (-1, st)).
Proof. exists (-1), st. auto. Qed.

Lemma scan_within_found lo hi p : lo <= p <= hi -> scan_within lo hi (inr (p, None)).
Proof. intros H. exists p, None. auto. Qed.

Lemma scan_within_mono lo lo' hi hi' r :
  scan_within lo hi r -> lo' <= lo -> hi <= hi' -> scan_within lo' hi' r.
Proof. intros (p & st & -> & Hp) ??. exists p, st. split; [done|]. destruct Hp as [?|[??]]; [by left|right; split; [lia|done]]. Qed.

#[local] Hint Resolve scan_within_none : py.

Ltac scan_step IH :=
  repeat (match goal with
          | |- scan_within _ _ (find_end _ _ _ _) => eapply scan_within_mono; [apply IH; lia|lia|lia]
          | |- scan_within _ _ (find_start _ _ _ _) => eapply scan_within_mono; [apply IH; lia|lia|lia]
          | |- scan_within _ _ (inr (-1, _)) => apply scan_within_none
          | |- scan_within _ _ (inr _) => apply scan_within_found; lia
          | |- context [match ?e with _ => _ end] => destruct e
          end).

Lemma find_end_within n : forall line i stack,
  0 <= i -> i + Z.of_nat n = zlen line ->
  scan_within (i + 1) (zlen line) (find_end n line i stack).
Proof.
  induction n as [|n IH]; intros line i stack Hi Hn; [apply scan_within_none|].
  cbn [find_end]. destruct (str_at_is_Some line i) as [ch ->]; [lia|]. scan_step IH.
Qed.

Lemma find_start_within n : forall line i stack,
  i < zlen line -> i < Z.of_nat n -> scan_within 0 i (find_start n line i stack).
Proof.
  induction n as [|n IH]; intros line i stack Hi Hn; [apply scan_within_none|].
  cbn [find_start]. destruct (i <? 0) eqn:E; bools; [apply scan_within_none|].
  destruct (str_at_is_Some line i) as [ch ->]; [lia|]. scan_step IH.
Qed.

Lemma FindEnd_within line i stack :
  0 <= i <= zlen line -> scan_within (i + 1) (zlen line) (FindEndOfExpressionInLine line i stack).
Proof. intros H. apply find_end_within; lia. Qed.

Lemma FindStart_within line i stack :
  i < zlen line -> scan_within 0 i (FindStartOfExpressionInLine line i stack).
Proof.
  intros H. unfold FindStartOfExpressionInLine. destruct (decide (0 <= i)).
  - apply find_start_within; lia.
  - replace (Z.to_nat (i + 1)) with O by lia. apply scan_within_none.
Qed.

(** What the two searches promise: the "not found" answer (on some line of the
    file), or a position on the line they name, in the bounds [ok] gives. *)
Definition points (c : CleansedLines) (missing : Z) (ok : string -> Z -> Z -> Prop)
    (r : exn + (string * Z * Z)) : Prop :=
  exists line ln p, r = inr (line, ln, p) /\
    ((ln = missing /\ p = -1 /\ In line (elided c)) \/ (py_nth (elided c) ln = Some line /\ ok line ln p)).

Lemma py_nth_In {A} (l : list A) i x : py_nth l i = Some x -> In x l.
Proof.
  unfold py_nth. destruct (_ <? 0); [done|]. intros H%list_elem_of_lookup_2.
  by apply list_elem_of_In.
Qed.

Lemma close_lines_points c lo n : forall linenum line stack,
  well_sized c -> lo <= linenum -> 0 <= linenum -> linenum + Z.of_nat n < NumLines c ->
  In line (elided c) ->
  points c (NumLines c) (fun line' ln p => lo < ln < NumLines c /\ 0 < p <= zlen line')
    (close_lines n c linenum line stack).
Proof.
  induction n as [|n IH]; intros linenum line stack Hw Hlo Hl Hn Hin; cbn [close_lines].
  { eexists _, _, _. split; [done|]. by left. }
  destruct stack as [|o stack]; [eexists _, _, _; split; [done|]; by left|].
  destruct (py_nth_is_Some (elided c) (linenum + 1)) as [line' Hline];
    [rewrite <- Hw; lia|]. rewrite Hline.
  destruct (FindEnd_within line' 0 (o :: stack)) as (p & st & -> & Hp);
    [pose proof (zlen_nonneg line'); lia|].
  destruct (-1 <? p) eqn:E; bools.
  - eexists _, _, _. split; [done|]. right. split; [done|]. destruct Hp as [->|[??]]; lia.
  - apply IH; [done|lia..|by eapply py_nth_In].
Qed.

Lemma open_lines_points c hi n : forall linenum line stack,
  well_sized c -> linenum <= hi -> linenum < NumLines c -> Z.of_nat n = linenum ->
  In line (elided c) ->
  points c 0 (fun line' ln p => 0 <= ln < hi /\ 0 <= p < zlen line')
    (open_lines n c linenum line stack).
Proof.
  induction n as [|n IH]; intros linenum line stack Hw Hhi Hl Hn Hin; cbn [open_lines].
  { eexists _, _, _. split; [done|]. by left. }
  destruct stack as [|o stack]; [eexists _, _, _; split; [done|]; by left|].
  destruct (py_nth_is_Some (elided c) (linenum - 1)) as [line' Hline];
    [rewrite <- Hw; lia|]. rewrite Hline.
  destruct (FindStart_within line' (zlen line' - 1) (o :: stack)) as (p & st & -> & Hp); [lia|].
  destruct (-1 <? p) eqn:E; bools.
  - eexists _, _, _. split; [done|]. right. split; [done|]. destruct Hp as [->|[??]]; lia.
  - apply IH; [done|lia..|by eapply py_nth_In].
Qed.

(** ** Bracketed text, as a grammar over the positions of the file *)

(** [at_pos c ln i ch]: the character at column [i] of line [ln]. *)
Definition at_pos (c : CleansedLines) (ln i : Z) (ch : ascii) : Prop :=
  exists line, py_nth (elided c) ln = Some line /\ str_at line i = Some ch /\ 0 <= ln /\ 0 <= i.

Definition bracket (ch : ascii) : bool := char_in ch "([{" || char_in ch ")]}".
Definition angle (ch : ascii) : bool := Ascii.eqb ch "<" || Ascii.eqb ch ">".

(** The brackets that belong together. *)
Inductive partner : ascii -> ascii -> Prop :=
  | partner_paren : partner "(" ")"
  | partner_square : partner "[" "]"
  | partner_brace : partner "{" "}".

Lemma partner_ok o e : partner o e <-> pair_ok o e = true.
Proof.
  unfold pair_ok. split; [by destruct 1|]. intros H. repeat (apply orb_true_iff in H as [H|H]); bools; subst;
    constructor.
Qed.

(** The text from one position to another is balanced: it is empty, a plain
    character, the end of a line, two balanced texts, or a balanced text between
    brackets that match. *)
Inductive balanced (c : CleansedLines) : Z -> Z -> Z -> Z -> Prop :=
  | bal_nil ln i : balanced c ln i ln i
  | bal_char ln i ch :
      at_pos c ln i ch -> bracket ch = false -> angle ch = false -> balanced c ln i ln (i + 1)
  | bal_eol ln line :
      0 <= ln -> ln + 1 < NumLines c -> py_nth (elided c) ln = Some line ->
      balanced c ln (zlen line) (ln + 1) 0
  | bal_app ln1 i1 ln2 i2 ln3 i3 :
      balanced c ln1 i1 ln2 i2 -> balanced c ln2 i2 ln3 i3 -> balanced c ln1 i1 ln3 i3
  | bal_wrap ln1 i1 ln2 i2 o e :
      at_pos c ln1 i1 o -> at_pos c ln2 i2 e -> partner o e ->
      balanced c ln1 (i1 + 1) ln2 i2 -> balanced c ln1 i1 ln2 (i2 + 1).

(** The bracket at one position is closed by the bracket at the other. *)
Definition closed_by (c : CleansedLines) (ln1 i1 ln2 i2 : Z) : Prop :=
  exists o e, at_pos c ln1 i1 o /\ at_pos c ln2 i2 e /\ partner o e /\
    balanced c ln1 (i1 + 1) ln2 i2.

Definition angle_free (c : CleansedLines) : Prop :=
  forall ln i ch, at_pos c ln i ch -> angle ch = false.

(** The searches from any position with any stack: forwards, the next character
    read is the one at column [i]; backwards, the one before it. *)
Definition close_at (c : CleansedLines) (ln i : Z) (stack : list ascii) : exn + (string * Z * Z) :=
  match py_nth (elided c) ln with
  | None => inl IndexError
  | Some line =>
      match FindEndOfExpressionInLine line i stack with
      | inl e => inl e
      | inr (end_pos, stack') =>
          if -1 <? end_pos then inr (line, ln, end_pos)
          else close_lines (Z.to_nat (NumLines c - 1 - ln)) c ln line (default [] stack')
      end
  end.
Definition open_at (c : CleansedLines) (ln i : Z) (stack : list ascii) : exn + (string * Z * Z) :=
  match py_nth (elided c) ln with
  | None => inl IndexError
  | Some line =>
      match FindStartOfExpressionInLine line (i - 1) stack with
      | inl e => inl e
      | inr (start_pos, stack') =>
          if -1 <? start_pos then inr (line, ln, start_pos)
          else open_lines (Z.to_nat ln) c ln line (default [] stack')
      end
  end.

(** ** The scans, one step at a time *)

Definition no_angle (stack : list ascii) : Prop := Forall (fun ch => angle ch = false) stack.

Lemma pop_while_no_angle ch stack : angle ch = true -> no_angle stack -> pop_while ch stack = stack.
Proof.
  intros Ha Hs. destruct stack as [|d stack]; [done|]. apply Forall_cons in Hs as [Hd _]. simpl.
  destruct (Ascii.eqb d ch) eqn:E; bools; [|done]. by subst; rewrite Ha in Hd.
Qed.

(** What both scans do with a character that closes ([true]) or opens a bracket,
    or ends a statement, when no angle bracket is on the stack. *)
Lemma find_end_step line i stack ch :
  0 <= i -> str_at line i = Some ch -> angle ch = false -> no_angle stack ->
  stack <> [] \/ bracket ch = true ->
  FindEndOfExpressionInLine line i stack =
    if char_in ch "([{" then FindEndOfExpressionInLine line (i + 1) (ch :: stack)
    else if char_in ch ")]}" then
      match stack with
      | [] => inr (-1, None)
      | top :: stack' =>
          if pair_ok top ch then
            match stack' with
            | [] => inr (i + 1, None)
            | _ => FindEndOfExpressionInLine line (i + 1) stack'
            end
          else inr (-1, None)
      end
    else FindEndOfExpressionInLine line (i + 1) stack.
Proof.
  intros Hi Hc Ha Hs Hne. pose proof (str_at_lt _ _ _ Hi Hc).
  unfold FindEndOfExpressionInLine, bracket in *.
  replace (Z.to_nat (zlen line - i)) with (S (Z.to_nat (zlen line - (i + 1)))) by lia.
  cbn [find_end]. rewrite Hc. unfold angle in Ha. bools.
  rewrite !pop_while_no_angle by done.
  destruct (Ascii.eqb ch "<") eqn:?; bools; [done|].
  destruct (Ascii.eqb ch ">") eqn:?; bools; [done|].
  destruct (char_in ch "([{"); [done|]. destruct (char_in ch ")]}").
  - by destruct stack as [|? [|??]].
  - destruct (Ascii.eqb ch ";"), stack; try done. by destruct Hne.
Qed.

Lemma find_start_step line i stack ch :
  0 <= i -> str_at line i = Some ch -> angle ch = false -> no_angle stack ->
  stack <> [] \/ bracket ch = true ->
  FindStartOfExpressionInLine line i stack =
    if char_in ch ")]}" then FindStartOfExpressionInLine line (i - 1) (ch :: stack)
    else if char_in ch "([{" then
      match stack with
      | [] => inr (-1, None)
      | top :: stack' =>
          if pair_ok ch top then
            match stack' with
            | [] => inr (i, None)
            | _ => FindStartOfExpressionInLine line (i - 1) stack'
            end
          else inr (-1, None)
      end
    else FindStartOfExpressionInLine line (i - 1) stack.
Proof.
  intros Hi Hc Ha Hs Hne. pose proof (str_at_lt _ _ _ Hi Hc).
  unfold FindStartOfExpressionInLine, bracket in *.
  replace (Z.to_nat (i + 1)) with (S (Z.to_nat (i - 1 + 1))) by lia.
  cbn [find_start]. rewrite (proj2 (Z.ltb_ge i 0)) by lia. rewrite Hc. unfold angle in Ha. bools.
  rewrite !pop_while_no_angle by done.
  destruct (Ascii.eqb ch "<") eqn:?; bools; [done|].
  destruct (Ascii.eqb ch ">") eqn:?; bools; [done|].
  destruct (char_in ch ")]}"); [done|]. destruct (char_in ch "([{").
  - by destruct stack as [|? [|??]].
  - destruct (Ascii.eqb ch ";"), stack; try done. by destruct Hne.
Qed.

Lemma close_lines_nil n c ln line : close_lines n c ln line [] = inr (line, NumLines c, -1).
Proof. by destruct n. Qed.

Lemma open_lines_nil n c ln line : open_lines n c ln line [] = inr (line, 0, -1).
Proof. by destruct n. Qed.

Section steps.
Context (c : CleansedLines).

Lemma close_at_char ln i stack ch :
  at_pos c ln i ch -> angle ch = false -> no_angle stack -> stack <> [] \/ bracket ch = true ->
  exists line, py_nth (elided c) ln = Some line /\
  close_at c ln i stack =
    if char_in ch "([{" then close_at c ln (i + 1) (ch :: stack)
    else if char_in ch ")]}" then
      match stack with
      | [] => inr (line, NumLines c, -1)
      | top :: stack' =>
          if pair_ok top ch then
            match stack' with
            | [] => inr (line, ln, i + 1)
            | _ => close_at c ln (i + 1) stack'
            end
          else inr (line, NumLines c, -1)
      end
    else close_at c ln (i + 1) stack.
Proof.
  intros (line & Hline & Hc & Hln & Hi) Ha Hs Hne. exists line. split; [done|].
  unfold close_at. rewrite Hline, (find_end_step _ _ _ _ Hi Hc Ha Hs Hne).
  destruct (char_in ch "([{"); [done|]. destruct (char_in ch ")]}"); [|done].
  destruct stack as [|top [|? stack]]; simpl; rewrite ?close_lines_nil; [done|..].
  - destruct (pair_ok top ch); simpl; rewrite ?close_lines_nil; [|done].
    rewrite (proj2 (Z.ltb_lt (-1) (i + 1))); [done|lia].
  - destruct (pair_ok top ch); simpl; rewrite ?close_lines_nil; done.
Qed.

Lemma open_at_char ln i stack ch :
  at_pos c ln i ch -> angle ch = false -> no_angle stack -> stack <> [] \/ bracket ch = true ->
  exists line, py_nth (elided c) ln = Some line /\
  open_at c ln (i + 1) stack =
    if char_in ch ")]}" then open_at c ln i (ch :: stack)
    else if char_in ch "([{" then
      match stack with
      | [] => inr (line, 0, -1)
      | top :: stack' =>
          if pair_ok ch top then
            match stack' with
            | [] => inr (line, ln, i)
            | _ => open_at c ln i stack'
            end
          else inr (line, 0, -1)
      end
    else open_at c ln i stack.
Proof.
  intros (line & Hline & Hc & Hln & Hi) Ha Hs Hne. exists line. split; [done|].
  unfold open_at. replace (i + 1 - 1) with i by lia.
  rewrite Hline, (find_start_step _ _ _ _ Hi Hc Ha Hs Hne).
  destruct (char_in ch ")]}"); [done|]. destruct (char_in ch "([{"); [|done].
  destruct stack as [|top [|? stack]]; simpl; rewrite ?open_lines_nil; [done|..].
  - destruct (pair_ok ch top); simpl; rewrite ?open_lines_nil; [|done].
    rewrite (proj2 (Z.ltb_lt (-1) i)); [done|lia].
  - destruct (pair_ok ch top); simpl; rewrite ?open_lines_nil; done.
Qed.

Lemma close_at_eol ln line stack :
  0 <= ln -> ln + 1 < NumLines c -> py_nth (elided c) ln = Some line -> stack <> [] ->
  is_Some (py_nth (elided c) (ln + 1)) ->
  close_at c ln (zlen line) stack = close_at c (ln + 1) 0 stack.
Proof.
  intros Hln Hn Hline Hne [line' Hline']. unfold close_at at 1. rewrite Hline.
  unfold FindEndOfExpressionInLine. rewrite Z.sub_diag. cbn [Z.to_nat find_end]. simpl.
  replace (Z.to_nat (NumLines c - 1 - ln)) with (S (Z.to_nat (NumLines c - 1 - (ln + 1)))) by lia.
  cbn [close_lines]. destruct stack as [|o stack]; [done|]. unfold close_at. by rewrite Hline'.
Qed.

Lemma open_at_eol ln line stack :
  0 <= ln -> py_nth (elided c) ln = Some line -> stack <> [] ->
  is_Some (py_nth (elided c) (ln + 1)) ->
  open_at c (ln + 1) 0 stack = open_at c ln (zlen line) stack.
Proof.
  intros Hln Hline Hne [line' Hline']. unfold open_at at 1. rewrite Hline'.
  unfold FindStartOfExpressionInLine at 1. cbn [Z.to_nat find_start Z.sub Z.add Z.opp Z.pos_sub]. simpl.
  replace (Z.to_nat (ln + 1)) with (S (Z.to_nat ln)) by lia.
  cbn [open_lines]. destruct stack as [|o stack]; [done|]. unfold open_at.
  replace (ln + 1 - 1) with ln by lia. by rewrite Hline.
Qed.

End steps.

(** ** Soundness and completeness of the searches *)

Lemma char_in_cases ch :
  (char_in ch "([{" = true /\ char_in ch ")]}" = false /\ angle ch = false) \/
  (char_in ch "([{" = false /\ char_in ch ")]}" = true /\ angle ch = false) \/
  (bracket ch = false).
Proof.
  unfold bracket. destruct (char_in ch "([{") eqn:E1, (char_in ch ")]}") eqn:E2; simpl; auto;
    unfold char_in in *; simpl in *; rewrite ?andb_true_r in *; bools;
    rewrite ?negb_involutive, ?andb_false_iff, ?negb_false_iff, ?Ascii.eqb_eq in *;
    naive_solver.
Qed.

Lemma pair_ok_open o e : pair_ok o e = true -> char_in o "([{" = true /\ angle o = false.
Proof. unfold pair_ok. rewrite !orb_true_iff, !andb_true_iff, !Ascii.eqb_eq. naive_solver. Qed.

Lemma pair_ok_close o e :
  pair_ok o e = true -> char_in e "([{" = false /\ char_in e ")]}" = true /\ angle e = false.
Proof. unfold pair_ok. rewrite !orb_true_iff, !andb_true_iff, !Ascii.eqb_eq. naive_solver. Qed.

Section matching.
Context (c : CleansedLines) (Hsize : well_sized c).

Lemma elided_some ln : 0 <= ln < NumLines c -> is_Some (py_nth (elided c) ln).
Proof. intros H. apply py_nth_is_Some. by rewrite <- Hsize. Qed.

(** Both scans pass over balanced text and come out with the stack they had. *)
Lemma close_at_balanced ln i ln' i' :
  balanced c ln i ln' i' -> forall stack, stack <> [] -> no_angle stack ->
  close_at c ln i stack = close_at c ln' i' stack.
Proof.
  induction 1 as [| ln i ch Hch Hb Ha | ln line | ? ? ? ? ? ? _ IH1 _ IH2 | ln1 i1 ln2 i2 o e Ho He Hp _ IH];
    intros stack Hne Hs.
  - done.
  - destruct (close_at_char c ln i stack ch) as (line & _ & ->); auto.
    unfold bracket in Hb. bools. by rewrite H, H0.
  - apply close_at_eol; auto. apply elided_some. lia.
  - rewrite IH1 by done. by apply IH2.
  - apply partner_ok in Hp. destruct (pair_ok_open _ _ Hp) as [Eo Ao]. destruct (pair_ok_close _ _ Hp) as (Ee & Ee' & Ae).
    destruct (close_at_char c ln1 i1 stack o) as (line & _ & ->); auto. rewrite Eo.
    rewrite IH; [|done|by constructor].
    destruct (close_at_char c ln2 i2 (o :: stack) e) as (line' & _ & ->); auto; [by constructor|].
    rewrite Ee, Ee', Hp. by destruct stack.
Qed.

Lemma open_at_balanced ln i ln' i' :
  balanced c ln i ln' i' -> forall stack, stack <> [] -> no_angle stack ->
  open_at c ln' i' stack = open_at c ln i stack.
Proof.
  induction 1 as [| ln i ch Hch Hb Ha | ln line | ? ? ? ? ? ? _ IH1 _ IH2 | ln1 i1 ln2 i2 o e Ho He Hp _ IH];
    intros stack Hne Hs.
  - done.
  - destruct (open_at_char c ln i stack ch) as (line & _ & ->); auto.
    unfold bracket in Hb. bools. by rewrite H, H0.
  - apply open_at_eol; auto. apply elided_some. lia.
  - rewrite IH2 by done. by apply IH1.
  - apply partner_ok in Hp. destruct (pair_ok_open _ _ Hp) as [Eo Ao]. destruct (pair_ok_close _ _ Hp) as (Ee & Ee' & Ae).
    destruct (open_at_char c ln2 i2 stack e) as (line & _ & ->); auto. rewrite Ee'.
    rewrite IH; [|done|by constructor].
    destruct (open_at_char c ln1 i1 (e :: stack) o) as (line' & _ & ->); auto; [by constructor|].
    destruct (char_in_cases o) as [(? & Eo' & _)|[(?&?&?)|?]];
      [|congruence|unfold bracket in *; bools; congruence].
    rewrite Eo', Eo, Hp. by destruct stack.
Qed.

(** The text from a position closes every bracket of the stack, the last of them
    at the given end; and the same backwards. *)
Fixpoint closing (stack : list ascii) (ln i ln' e : Z) : Prop :=
  match stack with
  | [] => ln = ln' /\ i = e
  | o :: stack' => exists ln1 i1 ch,
      balanced c ln i ln1 i1 /\ at_pos c ln1 i1 ch /\ partner o ch /\
      closing stack' ln1 (i1 + 1) ln' e
  end.
Fixpoint opening (stack : list ascii) (ln i ln' p : Z) : Prop :=
  match stack with
  | [] => ln = ln' /\ i = p
  | e :: stack' => exists ln1 i1 ch,
      balanced c ln1 (i1 + 1) ln i /\ at_pos c ln1 i1 ch /\ partner ch e /\
      opening stack' ln1 i1 ln' p
  end.

Lemma closing_skip ln i ln1 i1 stack ln' e :
  stack <> [] -> balanced c ln i ln1 i1 -> closing stack ln1 i1 ln' e -> closing stack ln i ln' e.
Proof.
  destruct stack as [|o stack]; [done|]. intros _ Hb (ln2 & i2 & ch & Hb' & ? & ? & ?).
  exists ln2, i2, ch. eauto using bal_app.
Qed.

Lemma opening_skip ln i ln1 i1 stack ln' p :
  stack <> [] -> balanced c ln1 i1 ln i -> opening stack ln1 i1 ln' p -> opening stack ln i ln' p.
Proof.
  destruct stack as [|o stack]; [done|]. intros _ Hb (ln2 & i2 & ch & Hb' & ? & ? & ?).
  exists ln2, i2, ch. eauto using bal_app.
Qed.

Lemma closing_push ln i o stack ln' e :
  stack <> [] -> at_pos c ln i o -> closing (o :: stack) ln (i + 1) ln' e -> closing stack ln i ln' e.
Proof.
  intros Hne Ho (ln1 & i1 & ch & Hb & Hch & Hp & Hc).
  eapply closing_skip; [done| |exact Hc]. by eapply bal_wrap.
Qed.

Lemma opening_push ln i e stack ln' p :
  stack <> [] -> at_pos c ln i e -> opening (e :: stack) ln i ln' p -> opening stack ln (i + 1) ln' p.
Proof.
  intros Hne He (ln1 & i1 & ch & Hb & Hch & Hp & Ho).
  eapply opening_skip; [done| |exact Ho]. by eapply bal_wrap.
Qed.

Hypothesis Hfree : angle_free c.

Lemma close_at_eof line stack :
  py_nth (elided c) (NumLines c - 1) = Some line ->
  close_at c (NumLines c - 1) (zlen line) stack = inr (line, NumLines c, -1).
Proof.
  intros Hl. unfold close_at. rewrite Hl. unfold FindEndOfExpressionInLine. rewrite Z.sub_diag. simpl.
  by rewrite Z.sub_diag.
Qed.

Lemma open_at_bof stack line :
  py_nth (elided c) 0 = Some line -> open_at c 0 0 stack = inr (line, 0, -1).
Proof. intros Hl. unfold open_at. by rewrite Hl. Qed.

(** If the search is right from the end of line [ln], it is from any of its
    columns. *)
Lemma close_line_sound ln line line' ln' e :
  py_nth (elided c) ln = Some line -> 0 <= ln -> -1 < e ->
  (forall stack, stack <> [] -> no_angle stack ->
     close_at c ln (zlen line) stack = inr (line', ln', e) -> closing stack ln (zlen line) ln' e) ->
  forall k i stack, Z.of_nat k = zlen line - i -> 0 <= i -> stack <> [] -> no_angle stack ->
  close_at c ln i stack = inr (line', ln', e) -> closing stack ln i ln' e.
Proof.
  intros Hline Hln He Heol k. induction k as [|k IH]; intros i stack Hk Hi Hne Hs H.
  { replace i with (zlen line) in * by lia. by apply Heol. }
  destruct (str_at_is_Some line i) as [ch Hch]; [lia|].
  assert (Hat : at_pos c ln i ch) by (exists line; auto).
  pose proof (Hfree _ _ _ Hat) as Ha.
  destruct (close_at_char c ln i stack ch) as (line2 & _ & Hstep); auto. rewrite Hstep in H.
  destruct (char_in_cases ch) as [(E1 & E2 & _)|[(E1 & E2 & _)|E]].
  - rewrite E1 in H. eapply closing_push; [done..|]. apply IH; try done; [lia..|by constructor].
  - rewrite E1, E2 in H. destruct stack as [|top stack]; [done|].
    destruct (pair_ok top ch) eqn:Ep; [|simplify_eq; lia]. exists ln, i, ch.
    split; [constructor|]. split; [done|]. split; [by apply partner_ok|]. apply Forall_cons in Hs as [_ Hs].
    destruct stack; [by simplify_eq|]. apply IH; try done; lia.
  - unfold bracket in E. bools. rewrite H0, H1 in H.
    eapply closing_skip; [done|eapply bal_char; unfold bracket; try done; by rewrite H0, H1|].
    apply IH; try done; lia.
Qed.

Lemma close_at_sound m : forall ln i stack line line' ln' e,
  Z.of_nat m = NumLines c - 1 - ln -> py_nth (elided c) ln = Some line -> 0 <= ln ->
  0 <= i <= zlen line -> stack <> [] -> no_angle stack ->
  close_at c ln i stack = inr (line', ln', e) -> -1 < e -> closing stack ln i ln' e.
Proof.
  induction m as [|m IH]; intros ln i stack line line' ln' e Hm Hline Hln Hi Hne Hs H He;
    (apply (close_line_sound ln line line' ln' e) with (k := Z.to_nat (zlen line - i));
      [done..| |lia|lia|done|done|done]); clear stack H Hne Hs; intros stack Hne Hs H.
  - replace ln with (NumLines c - 1) in * by lia.
    rewrite close_at_eof in H by done. by simplify_eq.
  - destruct (elided_some (ln + 1)) as [line2 Hl2]; [lia|].
    rewrite close_at_eol in H by (try done; lia).
    eapply closing_skip; [done|apply bal_eol; [done|lia|done]|].
    pose proof (zlen_nonneg line2). eapply IH; try exact H; try done; lia.
Qed.

Lemma open_line_sound ln line line' ln' p :
  py_nth (elided c) ln = Some line -> 0 <= ln -> -1 < p ->
  (forall stack, stack <> [] -> no_angle stack ->
     open_at c ln 0 stack = inr (line', ln', p) -> opening stack ln 0 ln' p) ->
  forall k i stack, Z.of_nat k = i -> i <= zlen line -> stack <> [] -> no_angle stack ->
  open_at c ln i stack = inr (line', ln', p) -> opening stack ln i ln' p.
Proof.
  intros Hline Hln He Hbol k. induction k as [|k IH]; intros i stack Hk Hi Hne Hs H.
  { replace i with 0 in * by lia. by apply Hbol. }
  destruct (str_at_is_Some line (i - 1)) as [ch Hch]; [lia|].
  assert (Hat : at_pos c ln (i - 1) ch) by (exists line; split_and!; [done..|lia]).
  pose proof (Hfree _ _ _ Hat) as Ha.
  destruct (open_at_char c ln (i - 1) stack ch) as (line2 & _ & Hstep); auto.
  replace (i - 1 + 1) with i in Hstep by lia. rewrite Hstep in H.
  replace i with (i - 1 + 1) by lia.
  destruct (char_in_cases ch) as [(E1 & E2 & _)|[(E1 & E2 & _)|E]].
  - rewrite E1, E2 in H. destruct stack as [|top stack]; [done|].
    destruct (pair_ok ch top) eqn:Ep; [|simplify_eq; lia]. exists ln, (i - 1), ch.
    split; [constructor|]. split; [done|]. split; [by apply partner_ok|]. apply Forall_cons in Hs as [_ Hs].
    destruct stack; [by simplify_eq|]. apply IH; try done; lia.
  - rewrite E2 in H. eapply opening_push; [done..|]. apply IH; try done; [lia..|by constructor].
  - unfold bracket in E. bools. rewrite H0, H1 in H.
    eapply opening_skip; [done|eapply bal_char; unfold bracket; try done; by rewrite H0, H1|].
    apply IH; try done; lia.
Qed.

Lemma open_at_sound m : forall ln i stack line line' ln' p,
  Z.of_nat m = ln -> ln < NumLines c -> py_nth (elided c) ln = Some line ->
  0 <= i <= zlen line -> stack <> [] -> no_angle stack ->
  open_at c ln i stack = inr (line', ln', p) -> -1 < p -> opening stack ln i ln' p.
Proof.
  induction m as [|m IH]; intros ln i stack line line' ln' p Hm Hlt Hline Hi Hne Hs H Hp;
    (apply (open_line_sound ln line line' ln' p) with (k := Z.to_nat i);
      [done|lia|done| |lia|lia|done|done|done]); clear stack H Hne Hs; intros stack Hne Hs H.
  - replace ln with 0 in * by lia. rewrite (open_at_bof _ line) in H by done. by simplify_eq.
  - destruct (elided_some (ln - 1)) as [line2 Hl2]; [lia|].
    replace ln with (ln - 1 + 1) in H |- * by lia.
    rewrite (open_at_eol c (ln - 1) line2) in H
      by (try done; try lia; replace (ln - 1 + 1) with ln by lia; done).
    eapply opening_skip; [done|apply bal_eol; [lia|lia|done]|].
    pose proof (zlen_nonneg line2). eapply IH; try exact H; try done; lia.
Qed.

End matching.

(** ** The two functions *)

Lemma slice_from_str_at s i ch :
  0 <= i -> str_at s i = Some ch -> slice_from s i = String ch (sdrop (S (Z.to_nat i)) s).
Proof.
  intros Hi Hch. pose proof (str_at_lt _ _ _ Hi Hch). unfold slice_from, clamp.
  rewrite (proj2 (Z.ltb_ge i 0)) by lia. rewrite Z.min_l, Z.max_r by lia. apply sget_sdrop.
  revert Hch. unfold str_at. rewrite (proj2 (Z.ltb_ge i 0)) by lia.
  by rewrite (proj2 (Z.ltb_ge i 0)) by lia.
Qed.

Lemma CloseExpression_close_at c ln i o :
  at_pos c ln i o -> angle_free c -> char_in o "([{" = true ->
  CloseExpression c ln i = close_at c ln i [].
Proof.
  intros (line & Hline & Hch & Hln & Hi) Hf Ho. unfold CloseExpression, close_at. rewrite Hline, Hch.
  assert (Hin : char_in o "({[<" = true).
  { revert Ho. unfold char_in. simpl. rewrite !negb_true_iff, !andb_false_iff, !negb_false_iff.
    naive_solver. }
  rewrite Hin. simpl. destruct (Match "<[<=]" (slice_from line i)) as [m|] eqn:E; [exfalso|done].
  apply Match_splits in E as [ts E]; [|vm_compute; reflexivity]. splits_inv E. parts_simpl.
  rewrite (slice_from_str_at _ _ _ Hi Hch) in Hs. simpl in Hs.
  assert (o = "<"%char) as -> by congruence. discriminate Ho.
Qed.

Lemma char_in_close e : char_in e ")]}" = true -> char_in e ")}]>" = true.
Proof.
  unfold char_in. simpl. rewrite !negb_true_iff, !andb_false_iff, !negb_false_iff. naive_solver.
Qed.

Lemma ReverseCloseExpression_open_at c ln j e :
  at_pos c ln j e -> char_in e ")]}" = true ->
  ReverseCloseExpression c ln j = open_at c ln (j + 1) [].
Proof.
  intros (line & Hline & Hch & Hln & Hi) He. unfold ReverseCloseExpression, open_at.
  rewrite Hline, Hch, (char_in_close _ He). by replace (j + 1 - 1) with j by lia.
Qed.

Section main.
Context (c : CleansedLines) (Hsize : well_sized c).

Lemma CloseExpression_points (linenum pos : Z) (ch : ascii) (Hpos : at_pos c linenum pos ch) :
  points c (NumLines c)
    (fun line ln e => linenum <= ln < NumLines c /\ 0 < e <= zlen line /\ (ln = linenum -> pos < e))
    (CloseExpression c linenum pos).
Proof.
  destruct Hpos as (line & Hline & Hch & Hln & Hi).
  pose proof (py_nth_lt _ _ _ Hln Hline) as Hlt. rewrite <- Hsize in Hlt.
  pose proof (str_at_lt _ _ _ Hi Hch). pose proof (py_nth_In _ _ _ Hline) as Hin.
  unfold CloseExpression. rewrite Hline, Hch.
  destruct (_ || _); [by eexists _, _, _; split; [done|]; left|].
  destruct (FindEnd_within line pos []) as (p & st & -> & Hp); [lia|].
  destruct (-1 <? p) eqn:E; bools.
  - eexists _, _, _. split; [done|]. right. destruct Hp as [->|[? _]]; [lia|]. auto with lia.
  - destruct (close_lines_points c linenum (Z.to_nat (NumLines c - 1 - linenum)) linenum line
      (default [] st)) as (l' & ln' & p' & -> & Hp'); [done|lia..|done|].
    eexists _, _, _. split; [done|]. destruct Hp' as [?|(?&?&?)]; [by left|right]. auto with lia.
Qed.

Lemma ReverseCloseExpression_points (linenum pos : Z) (ch : ascii) (Hpos : at_pos c linenum pos ch) :
  points c 0
    (fun line ln p => 0 <= ln <= linenum /\ 0 <= p < zlen line /\ (ln = linenum -> p <= pos))
    (ReverseCloseExpression c linenum pos).
Proof.
  destruct Hpos as (line & Hline & Hch & Hln & Hi).
  pose proof (py_nth_lt _ _ _ Hln Hline) as Hlt. rewrite <- Hsize in Hlt.
  pose proof (str_at_lt _ _ _ Hi Hch). pose proof (py_nth_In _ _ _ Hline) as Hin.
  unfold ReverseCloseExpression. rewrite Hline, Hch.
  destruct (negb _); [by eexists _, _, _; split; [done|]; left|].
  destruct (FindStart_within line pos []) as (p & st & -> & Hp); [lia|].
  destruct (-1 <? p) eqn:E; bools.
  - eexists _, _, _. split; [done|]. right. destruct Hp as [->|[? _]]; [lia|]. auto with lia.
  - destruct (open_lines_points c linenum (Z.to_nat linenum) linenum line
      (default [] st)) as (l' & ln' & p' & -> & Hp'); [done|lia..|done|].
    eexists _, _, _. split; [done|]. destruct Hp' as [?|(?&?&?)]; [by left|right]. auto with lia.
Qed.

(** C29. On a valid position the two searches never raise, and each returns either
    its "not found" answer or a position inside the line it names: strictly past a
    character of line [linenum] or of a later line, respectively at a character of
    line [linenum] or of an earlier one. *)
Theorem CloseExpression_in_bounds (linenum pos : Z) (ch : ascii)
    (Hpos : at_pos c linenum pos ch) :
  points c (NumLines c)
    (fun line ln e => linenum <= ln < NumLines c /\ 0 < e <= zlen line /\ (ln = linenum -> pos < e))
    (CloseExpression c linenum pos) /\
  points c 0
    (fun line ln p => 0 <= ln <= linenum /\ 0 <= p < zlen line /\ (ln = linenum -> p <= pos))
    (ReverseCloseExpression c linenum pos).
Proof. split; [by eapply CloseExpression_points|by eapply ReverseCloseExpression_points]. Qed.

Hypothesis Hfree : angle_free c.

Lemma CloseExpression_iff ln i o (Ho : at_pos c ln i o) (Hb : char_in o "([{" = true) ln' e :
  (exists line, CloseExpression c ln i = inr (line, ln', e) /\ -1 < e) <->
  closed_by c ln i ln' (e - 1).
Proof.
  rewrite (CloseExpression_close_at _ _ _ _ Ho Hfree Hb).
  pose proof (Hfree _ _ _ Ho) as Ha.
  destruct (close_at_char c ln i [] o) as (line & Hline & ->); auto.
  { by constructor. } { right. unfold bracket. by rewrite Hb. }
  rewrite Hb. assert (Hlen : 0 <= ln < NumLines c /\ 0 <= i < zlen line).
  { destruct Ho as (l & Hl & Hch & ? & ?). rewrite Hl in Hline. simplify_eq.
    apply py_nth_lt in Hl; [|done]. apply str_at_lt in Hch; [|done]. rewrite <- Hsize in Hl. lia. }
  split.
  - intros (line' & H & He).
    destruct (close_at_sound c Hsize Hfree (Z.to_nat (NumLines c - 1 - ln)) ln (i + 1) [o]
      line line' ln' e) as (ln1 & i1 & ch & Hbal & Hch & Hp & -> & Hi1); try done; try lia; try by constructor.
    exists o, ch. replace (e - 1) with i1 by lia. auto.
  - intros (o' & ch & Ho' & Hch & Hp & Hbal).
    assert (o' = o) as ->.
    { destruct Ho as (l & Hl & Hc & ? & ?), Ho' as (l' & Hl' & Hc' & ? & ?). congruence. }
    rewrite (close_at_balanced c Hsize _ _ _ _ Hbal) by (try done; by constructor).
    apply partner_ok in Hp. destruct (pair_ok_close _ _ Hp) as (E1 & E2 & Ae).
    destruct (close_at_char c ln' (e - 1) [o] ch) as (line' & _ & ->); auto; [by constructor|].
    rewrite E1, E2, Hp. exists line'. destruct Hch as (? & _ & _ & _ & ?).
    replace (e - 1 + 1) with e by lia. split; [done|lia].
Qed.

Lemma ReverseCloseExpression_iff ln j e (He : at_pos c ln j e) (Hb : char_in e ")]}" = true) ln' i :
  (exists line, ReverseCloseExpression c ln j = inr (line, ln', i) /\ -1 < i) <->
  closed_by c ln' i ln j.
Proof.
  rewrite (ReverseCloseExpression_open_at _ _ _ _ He Hb).
  pose proof (Hfree _ _ _ He) as Ha.
  destruct (open_at_char c ln j [] e) as (line & Hline & ->); auto.
  { by constructor. } { right. unfold bracket. rewrite Hb. apply orb_true_r. }
  rewrite Hb. assert (Hlen : 0 <= ln < NumLines c /\ 0 <= j < zlen line).
  { destruct He as (l & Hl & Hch & ? & ?). rewrite Hl in Hline. simplify_eq.
    apply py_nth_lt in Hl; [|done]. apply str_at_lt in Hch; [|done]. rewrite <- Hsize in Hl. lia. }
  split.
  - intros (line' & H & Hi).
    destruct (open_at_sound c Hsize Hfree (Z.to_nat ln) ln j [e]
      line line' ln' i) as (ln1 & i1 & ch & Hbal & Hch & Hp & -> & ->); try done; try lia; try by constructor.
    exists ch, e. auto.
  - intros (o & e' & Ho & He' & Hp & Hbal).
    assert (e' = e) as ->.
    { destruct He as (l & Hl & Hc & ? & ?), He' as (l' & Hl' & Hc' & ? & ?). congruence. }
    rewrite (open_at_balanced c Hsize _ _ _ _ Hbal) by (try done; by constructor).
    apply partner_ok in Hp. destruct (pair_ok_open _ _ Hp) as [E1 Ao].
    destruct (open_at_char c ln' i [e] o) as (line' & _ & ->); auto; [by constructor|].
    destruct (char_in_cases o) as [(? & E2 & _)|[(?&?&?)|E2]];
      [|congruence|unfold bracket in E2; bools; congruence].
    rewrite E2, E1, Hp. exists line'. destruct Ho as (? & _ & _ & _ & ?). split; [done|lia].
Qed.
End main.

(** The test of [angle_free], for concrete files. *)
Definition angle_freeb (c : CleansedLines) : bool :=
  forallb (sall (fun ch => negb (angle ch))) (elided c).

Lemma sget_sall p s : forall n ch, sall p s = true -> sget n s = Some ch -> p ch = true.
Proof. induction s as [|d s IH]; intros [|n] ch H Hn; simpl in *; simplify_eq; bools; eauto. Qed.

Lemma angle_freeb_true c : angle_freeb c = true -> angle_free c.
Proof.
  intros H ln i ch (line & Hline & Hch & _). unfold angle_freeb in H. rewrite forallb_forall in H.
  specialize (H _ (py_nth_In _ _ _ Hline)). unfold str_at in Hch.
  destruct (_ <? 0) in Hch; [done|]. apply negb_true_iff.
  by apply (sget_sall (fun ch => negb (angle ch)) line _ ch H Hch).
Qed.

(** C2. In a file without angle brackets, [CloseExpression] on an opening bracket
    answers (line, ln', e) exactly when the bracket just before column [e] of line
    [ln'] closes it, and [ReverseCloseExpression] on a closing bracket answers
    (line, ln', i) exactly when the bracket at column [i] of line [ln'] opens it:
    the text between the two, over any number of lines, is balanced.  Every other
    case is the "not found" answer. *)
Theorem CloseExpression_finds_match (c : CleansedLines) (Hsize : well_sized c)
    (Hfree : angle_free c) :
  (forall ln i o ln' e, at_pos c ln i o -> char_in o "([{" = true ->
     (exists line, CloseExpression c ln i = inr (line, ln', e) /\ -1 < e) <->
     closed_by c ln i ln' (e - 1)) /\
  (forall ln j e ln' i, at_pos c ln j e -> char_in e ")]}" = true ->
     (exists line, ReverseCloseExpression c ln j = inr (line, ln', i) /\ -1 < i) <->
     closed_by c ln' i ln j).
Proof.
  split; intros; [eapply CloseExpression_iff | eapply ReverseCloseExpression_iff]; eauto.
Qed.

(** A file whose call on line 1 spans three lines. *)
Definition demo_lines : list string :=
  ["// Copyright"; "int x = f(a[1], {b,"; "  (c)"; "});"; "// end"].
Definition demo : CleansedLines :=
  match cleanse demo_lines with inr c => c | inl _ => Cleansed [] [] [] 0 [] end.

Lemma CloseExpression_in_bounds_witness :
  exists line, CloseExpression demo 1 9 = inr (line, 3, 2).
Proof.
  destruct (CloseExpression_in_bounds demo) with (linenum := 1) (pos := 9) (ch := "("%char)
    as [(line & ln & p & H & _) _].
  - vm_compute. reflexivity.
  - eexists. split_and!; vm_compute; try reflexivity; discriminate.
  - exists line. revert H. vm_compute. intros H. congruence.
Defined.

Lemma CloseExpression_finds_match_witness :
  closed_by demo 1 9 3 1 /\ closed_by demo 1 11 1 13.
Proof.
  destruct (CloseExpression_finds_match demo) as [H1 H2];
    [vm_compute; reflexivity | apply angle_freeb_true; vm_compute; reflexivity|].
  split.
  - apply (H1 1 9 "("%char 3 2).
    + eexists. split_and!; vm_compute; try reflexivity; discriminate.
    + reflexivity.
    + eexists. split; vm_compute; reflexivity.
  - apply (H2 1 13 "]"%char 1 11).
    + eexists. split_and!; vm_compute; try reflexivity; discriminate.
    + reflexivity.
    + eexists. split; vm_compute; reflexivity.
Defined.

