(* ===== verification/Paths.v ===== *)
(** * File names: the parts of [os.path] that cpplint.py uses, and [FileInfo]

    [os.path] is modelled for POSIX.  The file system and the working directory
    are parameters of [FileInfo]: [exists_ p] is what [os.path.exists(p)] answers
    during a run, [cwd] is [os.getcwd()].  The loops of [RepositoryName] that walk
    up the directory tree take as many steps as the path has characters, which is
    enough: [dirname] shortens a path or leaves it alone. *)

From stdpp Require Import base list strings gmap.
From Stdlib Require Import ZArith Lia Ascii.
From S2P Require Import Prelude PyString Config.
Local Open Scope Z_scope.
Local Open Scope py_scope.

(** ** [os.path] *)

Definition is_slash (c : ascii) : bool := Ascii.eqb c "/".

(** The head keeps its slashes only when it consists of slashes. *)
Definition trim_head (head : string) : string :=
  if sall is_slash head then head else rstrip_by is_slash head.

Definition path_split (p : string) : string * string :=
  let i := str_rfind p "/" + 1 in (trim_head (slice_to p i), slice_from p i).

Definition dirname (p : string) : string := fst (path_split p).
Definition basename (p : string) : string := snd (path_split p).

Definition path_join (a b : string) : string :=
  if startswith b "/" then b
  else if String.eqb a EmptyString || endswith a "/" then a +:+ b
  else a +:+ "/" +:+ b.

(** [os.path.join( *l)]; joining nothing is a [TypeError]. *)
Definition path_joins (l : list string) : exn + string :=
  match l with [] => inl TypeError | a :: l' => inr (fold_left path_join l' a) end.

(** A dot splits off an extension unless only dots stand before it in the name. *)
Definition splitext (p : string) : string * string :=
  let sep := str_rfind p "/" in
  let dot := str_rfind p "." in
  if (sep <? dot) && negb (sall (fun c => Ascii.eqb c ".") (slice p (sep + 1) dot))
  then (slice_to p dot, slice_from p dot) else (p, EmptyString).

(** The components that [normpath] keeps; the last one is the head of [acc]. *)
Fixpoint norm_comps (absolute : bool) (comps acc : list string) : list string :=
  match comps with
  | [] => rev acc
  | c :: comps' =>
      if str_mem c [EmptyString; "."] then norm_comps absolute comps' acc
      else if negb (String.eqb c "..")
              || match acc with [] => negb absolute | top :: _ => String.eqb top ".." end
      then norm_comps absolute comps' (c :: acc)
      else norm_comps absolute comps' (tail acc)
  end.

Definition leading_slashes (p : string) : string :=
  if startswith p "//" && negb (startswith p "///") then "//"
  else if startswith p "/" then "/" else EmptyString.

Definition normpath (p : string) : string :=
  if String.eqb p EmptyString then "."
  else
    let r := leading_slashes p
             +:+ join "/" (norm_comps (startswith p "/") (split_char "/" p) []) in
    if String.eqb r EmptyString then "." else r.

Definition abspath (cwd p : string) : string :=
  normpath (if startswith p "/" then p else path_join cwd p).

Fixpoint common_prefix {A} `{EqDecision A} (a b : list A) : list A :=
  match a, b with
  | x :: a', y :: b' => if decide (x = y) then x :: common_prefix a' b' else []
  | _, _ => []
  end.

(** [commonprefix] compares strings character by character. *)
Fixpoint common_prefix_str (a b : string) : string :=
  match a, b with
  | String x a', String y b' =>
      if Ascii.eqb x y then String x (common_prefix_str a' b') else EmptyString
  | _, _ => EmptyString
  end.

Definition relpath (cwd p start : string) : exn + string :=
  if String.eqb p EmptyString then inl (ValueError "no path specified")
  else
    let comps q := List.filter (fun x => negb (String.eqb x EmptyString))
                     (split_char "/" (abspath cwd q)) in
    let start_list := comps start in
    let path_list := comps p in
    let i := length (common_prefix start_list path_list) in
    let rel_list := repeat ".." (length start_list - i) ++ drop i path_list in
    match rel_list with [] => inr "." | _ => path_joins rel_list end.

(** ** Class [FileInfo] *)

Section FileInfo.
Context (exists_ : string -> bool) (cwd : string) (cfg : config).

Definition FullName (filename : string) : string :=
  str_replace (abspath cwd filename) "\" "/".

(** [os.path.exists(os.path.join(dir, name))]. *)
Definition has (dir name : string) : bool := exists_ (path_join dir name).

(** [while os.path.exists(root_dir)]: the name relative to the repository, if it
    is an ancestor. *)
Fixpoint repository_search (fuel : nat) (repo fullname root_dir : string)
    : exn + option string :=
  match fuel with
  | O => inl FuelExhausted
  | S fuel' =>
      if negb (exists_ root_dir) then inr None
      else if String.eqb root_dir repo then
        let? r := relpath cwd fullname root_dir in inr (Some (str_replace r "\" "/"))
      else
        let one_up_dir := dirname root_dir in
        if String.eqb one_up_dir root_dir then inr None
        else repository_search fuel' repo fullname one_up_dir
  end.

(** [while os.path.exists(os.path.join(one_up_dir, '.svn'))]. *)
Fixpoint svn_search (fuel : nat) (root_dir one_up_dir : string) : exn + string :=
  match fuel with
  | O => inl FuelExhausted
  | S fuel' =>
      if has one_up_dir ".svn"
      then svn_search fuel' (dirname root_dir) (dirname one_up_dir)
      else inr root_dir
  end.

Definition vcs_root (dir : string) : bool := has dir ".git" || has dir ".hg" || has dir ".svn".

(** [while current_dir != os.path.dirname(current_dir)]. *)
Fixpoint vcs_search (fuel : nat) (root_dir current_dir : string) : exn + string :=
  match fuel with
  | O => inl FuelExhausted
  | S fuel' =>
      if String.eqb current_dir (dirname current_dir) then inr root_dir
      else vcs_search fuel' (if vcs_root current_dir then current_dir else root_dir)
             (dirname current_dir)
  end.

(** The name after [commonprefix([root_dir, project_dir])] and one more character. *)
Definition strip_root (root_dir project_dir fullname : string) : string :=
  slice_from fullname (zlen (common_prefix_str root_dir project_dir) + 1).

Definition RepositoryName (filename : string) : exn + string :=
  let fullname := FullName filename in
  if negb (exists_ fullname) then inr fullname
  else
    let project_dir := dirname fullname in
    let fuel := S (String.length project_dir) in
    let? found :=
      match repository cfg with
      | Some repo => if String.eqb repo EmptyString then inr None
                     else repository_search fuel (FullName repo) fullname project_dir
      | None => inr None
      end in
    match found with
    | Some name => inr name
    | None =>
        if has project_dir ".svn" then
          let? root_dir := svn_search fuel project_dir (dirname project_dir) in
          inr (strip_root root_dir project_dir fullname)
        else
          let? root_dir := vcs_search fuel (dirname fullname) (dirname fullname) in
          if vcs_root root_dir then inr (strip_root root_dir project_dir fullname)
          else inr fullname
    end.

(** Directory, base name and extension. *)
Definition Split (filename : string) : exn + (string * string * string) :=
  let? googlename := RepositoryName filename in
  let '(project, rest) := path_split googlename in
  let '(base, ext) := splitext rest in
  inr (project, base, ext).

Definition BaseName (filename : string) : exn + string :=
  let? ' (_, base, _) := Split filename in inr base.
Definition Extension (filename : string) : exn + string :=
  let? ' (_, _, ext) := Split filename in inr ext.
Definition NoExtension (filename : string) : exn + string :=
  let? ' (project, base, _) := Split filename in inr (join "/" [project; base]).
Definition IsSource (filename : string) : exn + bool :=
  let? ext := Extension filename in inr (IsSourceExtension cfg (slice_from ext 1)).
End FileInfo.

(** ** Lemmas on [os.path] *)

(** A path without a slash is its own base name; otherwise it splits at the last
    slash. *)
Lemma path_split_cases p :
  (path_split p = (EmptyString, p) /\ sall (fun c => negb (is_slash c)) p = true) \/
  exists a t, p = a +:+ String "/" t /\ sall (fun c => negb (is_slash c)) t = true
    /\ path_split p = (trim_head (a +:+ "/"), t).
Proof.
  unfold path_split. destruct (str_rfind_char "/" p) as [[H ->]|(a & t & -> & H & ->)].
  - left. split.
    + f_equal.
      * unfold slice_to, clamp. simpl. by destruct p.
      * unfold slice_from, clamp. simpl. pose proof (zlen_nonneg p).
        by rewrite Z.min_l, Z.max_l by lia.
    + erewrite sall_ext; [exact H|]. intros c. unfold is_slash. by rewrite Ascii.eqb_sym.
  - right. exists a, t. split; [done|]. split.
    + erewrite sall_ext; [exact H|]. intros c. unfold is_slash. by rewrite Ascii.eqb_sym.
    + assert (E : a +:+ String "/" t = (a +:+ "/") +:+ t) by (by rewrite sapp_assoc).
      assert (Ez : zlen a + 1 = zlen (a +:+ "/")) by (by rewrite zlen_app).
      rewrite Ez, E, slice_to_app, slice_from_app. done.
Qed.

(** The head: slashes only, or the text before the last run of slashes. *)
Lemma trim_head_cases a :
  (sall is_slash a = true /\ trim_head (a +:+ "/") = a +:+ "/") \/
  exists u, a = trim_head (a +:+ "/") +:+ u /\ sall is_slash u = true
    /\ sall is_slash (trim_head (a +:+ "/")) = false.
Proof.
  unfold trim_head. rewrite sall_app. simpl. rewrite andb_true_r.
  destruct (sall is_slash a) eqn:E; [by left|right].
  rewrite rstrip_by_snoc by done. destruct (rstrip_by_app is_slash a) as (u & Hu & Hall).
  exists u. split; [done|]. split; [done|].
  destruct (sall is_slash (rstrip_by is_slash a)) eqn:E'; [|done].
  rewrite Hu, sall_app, E', Hall in E. done.
Qed.

(** [under d p]: the path [p] goes through the directory [d]. *)
Definition under (d p : string) : Prop := exists t, p = d +:+ String "/" t.

Lemma slash_app u t : sall is_slash u = true -> exists v, u +:+ String "/" t = String "/" v.
Proof.
  destruct u as [|c u]; [by eexists|]. simpl. intros H. bools. unfold is_slash in H. bools. subst.
  by eexists.
Qed.

Lemma dirname_under p : sall is_slash (dirname p) = false -> under (dirname p) p.
Proof.
  unfold dirname, under.
  destruct (path_split_cases p) as [[-> _]|(a & t & Hp & _ & ->)]; simpl; [done|]. intros H.
  destruct (trim_head_cases a) as [[Ha E]|(u & Hu & Hall & _)].
  - rewrite E, sall_app, Ha in H. done.
  - destruct (slash_app u t Hall) as [v Hv]. exists v. rewrite <- Hv, <- sapp_assoc, <- Hu. done.
Qed.

Lemma dirname_shorter p : dirname p = p \/ (String.length (dirname p) < String.length p)%nat.
Proof.
  unfold dirname. destruct (path_split_cases p) as [[-> _]|(a & t & -> & _ & ->)]; simpl.
  - destruct p; simpl; [by left|right; lia].
  - destruct (trim_head_cases a) as [[Ha ->]|(u & Hu & _ & _)].
    + destruct t; [by left|right]. rewrite !slength_app. simpl. lia.
    + right. rewrite Hu at 2. rewrite !slength_app. simpl. lia.
Qed.

Definition absolute (p : string) : Prop := exists t, p = String "/" t.

Lemma dirname_absolute p : absolute p -> absolute (dirname p).
Proof.
  unfold dirname. destruct (path_split_cases p) as [[-> H]|(a & t & -> & _ & ->)]; simpl.
  - intros [t ->]. simpl in H. done.
  - intros [t' E]. destruct (trim_head_cases a) as [[Ha ->]|(u & Hu & _ & Hf)].
    + destruct a as [|c a]; simpl in *; [by eexists|]. simplify_eq. by eexists.
    + destruct (trim_head (a +:+ "/")) as [|c r]; [done|]. subst a. simpl in E. simplify_eq. by eexists.
Qed.

Lemma dirname_fixed p : absolute p -> dirname p = p -> sall is_slash p = true.
Proof.
  intros _ H. destruct (sall is_slash p) eqn:E; [done|].
  destruct (dirname_under p) as [t Ht]; [by rewrite H|]. rewrite H in Ht.
  apply (f_equal String.length) in Ht. rewrite slength_app in Ht. simpl in Ht. lia.
Qed.

Lemma under_trans a b c : under a b -> under b c -> under a c.
Proof. intros [t ->] [u ->]. exists (t +:+ String "/" u). rewrite sapp_assoc. done. Qed.

Lemma common_prefix_str_app a t : common_prefix_str a (a +:+ t) = a.
Proof. induction a as [|c a IH]; simpl; [by destruct t|]. by rewrite Ascii.eqb_refl, IH. Qed.

Lemma strip_root_spec d q p :
  (q = d \/ under d q) -> under d p -> p = d +:+ String "/" (strip_root d q p).
Proof.
  intros Hq [t ->]. unfold strip_root.
  assert (E : common_prefix_str d q = d).
  { destruct Hq as [->|[u ->]]; [|apply common_prefix_str_app].
    rewrite <- (sapp_nil_r d) at 2. apply common_prefix_str_app. }
  rewrite E. assert (E' : d +:+ String "/" t = (d +:+ "/") +:+ t) by (by rewrite sapp_assoc).
  rewrite E' at 2. replace (zlen d + 1) with (zlen (d +:+ "/")) by (by rewrite zlen_app).
  rewrite slice_from_app. done.
Qed.

(** The name that [normpath] gives to an absolute path is absolute. *)
Lemma abspath_absolute cwd p : absolute cwd -> absolute (abspath cwd p).
Proof.
  intros [u Hu]. unfold abspath. assert (Ha : absolute (if startswith p "/" then p else path_join cwd p)).
  { destruct (startswith p "/") eqn:E; [apply startswith_true in E as [t ->]; by eexists|].
    unfold path_join. rewrite E, Hu. simpl. destruct (endswith _ _); by eexists. }
  destruct Ha as [t ->]. unfold normpath.
  unfold leading_slashes. simpl. rewrite startswith_nil. destruct (_ && _); simpl; by eexists.
Qed.

Lemma slashes_snoc s : s <> EmptyString -> sall is_slash s = true -> exists t, s = t +:+ "/".
Proof.
  induction s as [|c s IH]; [done|]. simpl. intros _ H. bools. unfold is_slash in H. bools. subst.
  destruct s as [|d s]; [by exists EmptyString|]. destruct IH as [t ->]; [done..|].
  by exists (String "/" t).
Qed.

Lemma join_slashes s name :
  s <> EmptyString -> sall is_slash s = true -> startswith name "/" = false ->
  path_join s name = s +:+ name.
Proof.
  intros Hne Hs Hn. unfold path_join. rewrite Hn.
  rewrite (proj2 (endswith_true s "/")), orb_true_r by (by apply slashes_snoc). done.
Qed.

Lemma replace_absolute p : absolute p -> absolute (str_replace p "\" "/").
Proof. intros [t ->]. unfold str_replace. simpl. by eexists. Qed.

Lemma path_joins_ok l : l <> [] -> exists r, path_joins l = inr r.
Proof. destruct l; [done|]. by eexists. Qed.

Lemma relpath_ok cwd p start : p <> EmptyString -> exists r, relpath cwd p start = inr r.
Proof.
  intros Hp. unfold relpath. destruct (String.eqb p EmptyString) eqn:E; bools; [done|].
  cbv zeta. destruct (_ ++ _) as [|x l]; [by eexists|]. by apply path_joins_ok.
Qed.

Section search.
Context (exists_ : string -> bool) (cwd : string) (cfg : config).
Local Abbreviation vcs := (vcs_root exists_).

(** The directories above [d], itself included. *)
Definition ancestor (a d : string) : Prop := exists n, a = Nat.iter n dirname d.

(** A directory that is not at the top. *)
Definition proper (d : string) : Prop := dirname d <> d.

Lemma ancestor_refl d : ancestor d d.
Proof. by exists 0%nat. Qed.

Lemma ancestor_up a d : ancestor a (dirname d) -> ancestor a d.
Proof. intros [n ->]. exists (S n). by rewrite Nat.iter_succ_r. Qed.

Lemma ancestor_inv a d : ancestor a d -> a = d \/ ancestor a (dirname d).
Proof. intros [[|n] ->]; [by left|right]. exists n. by rewrite Nat.iter_succ_r. Qed.

Lemma ancestor_fixed a d : dirname d = d -> ancestor a d -> a = d.
Proof. intros Hd [n ->]. induction n as [|n IH]; [done|]. simpl. by rewrite IH. Qed.

Lemma ancestor_under a d : ancestor a d -> sall is_slash a = false -> a = d \/ under a d.
Proof.
  intros [n ->]. revert d. induction n as [|n IH]; intros d Ha; [by left|].
  rewrite Nat.iter_succ_r in *. right. destruct (IH (dirname d) Ha) as [E|Hu].
  - rewrite E in *. by apply dirname_under.
  - eapply under_trans; [exact Hu|]. apply dirname_under. destruct Hu as [t Ht].
    rewrite Ht, sall_app. by rewrite Ha.
Qed.

Lemma absolute_ancestor a d : absolute d -> ancestor a d -> absolute a.
Proof. intros Hd [n ->]. induction n as [|n IH]; [done|]. simpl. by apply dirname_absolute. Qed.

(** What [vcs_search] returns: the outermost directory with a mark, or [root0]. *)
Lemma vcs_search_spec fuel : forall root0 cur,
  (String.length cur < fuel)%nat ->
  (vcs_search exists_ fuel root0 cur = inr root0 /\
     forall a, ancestor a cur -> proper a -> vcs a = false) \/
  (exists r, vcs_search exists_ fuel root0 cur = inr r /\ ancestor r cur /\ proper r /\ vcs r = true /\
     forall a, ancestor a r -> proper a -> a <> r -> vcs a = false).
Proof.
  induction fuel as [|fuel IH]; intros root0 cur Hf; [lia|]. cbn [vcs_search].
  destruct (String.eqb cur (dirname cur)) eqn:E; bools.
  - left. split; [done|]. intros a Ha Hp.
    rewrite (ancestor_fixed a cur) in Hp by done. by destruct Hp.
  - destruct (dirname_shorter cur) as [?|Hlt]; [congruence|].
    destruct (IH (if vcs cur then cur else root0) (dirname cur)) as [[-> Hn]|(r & -> & Hr & Hp & Hv & Ho)];
      [lia| |].
    + destruct (vcs cur) eqn:Ev.
      * right. exists cur. split; [done|]. split; [apply ancestor_refl|]. split; [by apply not_eq_sym|].
        split; [done|]. intros a [->|Ha]%ancestor_inv Hpa Hne; auto. done.
      * left. split; [done|]. intros a [->|Ha]%ancestor_inv Hpa; auto.
    + right. exists r. eauto 6 using ancestor_up.
Qed.

Lemma svn_search_ok fuel : forall root one_up,
  (forall s, absolute s -> sall is_slash s = true -> exists_ (s +:+ ".svn") = false) ->
  absolute one_up -> (String.length one_up < fuel)%nat -> one_up = dirname root ->
  exists r, svn_search exists_ fuel root one_up = inr r /\ ancestor r root
    /\ (r = root \/ sall is_slash r = false).
Proof.
  induction fuel as [|fuel IH]; intros root one_up Htop Habs Hf Hup; [lia|]. cbn [svn_search].
  destruct (has exists_ one_up ".svn") eqn:E; [|exists root; auto using ancestor_refl].
  assert (Hs : sall is_slash one_up = false).
  { destruct (sall is_slash one_up) eqn:Es; [|done]. unfold has in E.
    rewrite join_slashes in E; [|by destruct Habs as [? ->]|done|done]. by rewrite Htop in E. }
  destruct (dirname_shorter one_up) as [Hd|Hlt].
  { apply dirname_fixed in Hd; [congruence|done]. }
  subst one_up.
  destruct (IH (dirname root) (dirname (dirname root))) as (r & -> & Hr & Hc);
    [done|by apply dirname_absolute|lia|done|].
  exists r. split; [done|]. split; [by apply ancestor_up|]. right. by destruct Hc as [->|?].
Qed.

Lemma repository_search_ok fuel : forall repo fullname root,
  (String.length root < fuel)%nat -> fullname <> EmptyString ->
  exists r, repository_search exists_ cwd fuel repo fullname root = inr r.
Proof.
  induction fuel as [|fuel IH]; intros repo fullname root Hf Hne; [lia|]. cbn [repository_search].
  destruct (negb _); [by eexists|]. destruct (String.eqb root repo).
  - destruct (relpath_ok cwd fullname root Hne) as [r ->]. by eexists.
  - destruct (String.eqb (dirname root) root) eqn:E; bools; [by eexists|].
    apply IH; [|done]. destruct (dirname_shorter root); [done|lia].
Qed.

(** ** [RepositoryName] *)

Hypothesis Hcwd : absolute cwd.

Lemma FullName_absolute filename : absolute (FullName cwd filename).
Proof. unfold FullName. apply replace_absolute, abspath_absolute, Hcwd. Qed.

Lemma FullName_nonempty filename : FullName cwd filename <> EmptyString.
Proof. by destruct (FullName_absolute filename) as [t ->]. Qed.

Lemma found_ok filename d :
  exists r, match repository cfg with
            | Some repo => if String.eqb repo EmptyString then inr None
                           else repository_search exists_ cwd (S (String.length d))
                                  (FullName cwd repo) (FullName cwd filename) d
            | None => inr None
            end = inr r.
Proof.
  destruct (repository cfg) as [repo|]; [|by eexists]. destruct (String.eqb repo _); [by eexists|].
  apply repository_search_ok; [lia|apply FullName_nonempty].
Qed.

Lemma RepositoryName_ok (filename : string)
    (Htop : forall s, absolute s -> sall is_slash s = true -> exists_ (s +:+ ".svn") = false) :
  exists r, RepositoryName exists_ cwd cfg filename = inr r.
Proof.
  unfold RepositoryName. destruct (negb _); [by eexists|].
  set (d := dirname (FullName cwd filename)).
  assert (Hd : absolute d) by (apply dirname_absolute, FullName_absolute).
  destruct (found_ok filename d) as [found ->]. cbn [bindE]. destruct found; [by eexists|].
  destruct (has exists_ d ".svn").
  - destruct (svn_search_ok (S (String.length d)) d (dirname d)) as (r & -> & _);
      [done|by apply dirname_absolute| |done|by eexists].
    destruct (dirname_shorter d) as [->|]; lia.
  - destruct (vcs_search_spec (S (String.length d)) d d) as [[-> _]|(r & -> & _)];
      [lia|cbn [bindE]; destruct (vcs_root _ _); by eexists..].
Qed.

(** C22. [RepositoryName] returns: its three searches up the directory tree end,
    provided that no [.svn] lies in the root directory of the file system, and no
    [relpath] or [join] in it raises; so [Split] and the accessors built on it
    return too. *)
Theorem RepositoryName_total (filename : string)
    (Htop : forall s, absolute s -> sall is_slash s = true -> exists_ (s +:+ ".svn") = false) :
  (exists r, RepositoryName exists_ cwd cfg filename = inr r) /\
  (exists project base ext, Split exists_ cwd cfg filename = inr (project, base, ext) /\
     BaseName exists_ cwd cfg filename = inr base /\ Extension exists_ cwd cfg filename = inr ext /\
     NoExtension exists_ cwd cfg filename = inr (project +:+ "/" +:+ base)).
Proof.
  destruct (RepositoryName_ok filename Htop) as [r Hr]. split; [by exists r|].
  unfold BaseName, Extension, NoExtension, Split. rewrite Hr. cbn [bindE].
  destruct (path_split r) as [project rest], (splitext rest) as [base ext]. cbn [bindE].
  by exists project, base, ext.
Qed.

(** C21. Without [--repository], a file that exists outside a Subversion working
    directory is named relative to the outermost directory above it that holds a
    [.git], [.hg] or [.svn], the root directory apart; when there is none, and the
    file is not in the root directory, it keeps its full name. *)
Theorem RepositoryName_outermost (filename : string)
    (Hrepo : repository cfg = None)
    (Hex : exists_ (FullName cwd filename) = true)
    (Hsvn : has exists_ (dirname (FullName cwd filename)) ".svn" = false)
    (Hdeep : proper (dirname (FullName cwd filename))) :
  let fullname := FullName cwd filename in
  exists r, RepositoryName exists_ cwd cfg filename = inr r /\
    ((r = fullname /\ forall a, ancestor a (dirname fullname) -> proper a -> vcs a = false) \/
     exists top, ancestor top (dirname fullname) /\ vcs top = true /\
       (forall a, ancestor a top -> proper a -> a <> top -> vcs a = false) /\
       fullname = top +:+ String "/" r).
Proof.
  intros fullname. subst fullname. unfold RepositoryName. rewrite Hex, Hrepo. cbn [negb bindE].
  rewrite Hsvn. set (d := dirname (FullName cwd filename)) in *.
  assert (Hd : absolute d) by (apply dirname_absolute, FullName_absolute).
  destruct (vcs_search_spec (S (String.length d)) d d)
    as [[-> Hn]|(r & -> & Hr & Hp & Hv & Ho)]; [lia| |]; cbn [bindE].
  - rewrite (Hn d (ancestor_refl d) Hdeep). eexists. split; [done|]. by left.
  - rewrite Hv. eexists. split; [done|]. right. exists r. split; [done|]. split; [done|]. split; [done|].
    assert (Hns : sall is_slash r = false).
    { destruct (sall is_slash r) eqn:E; [|done]. destruct Hp. unfold dirname.
      destruct (absolute_ancestor r d Hd Hr) as [t Ht].
      destruct (slashes_snoc r) as [u Hu]; [by rewrite Ht|done|].
      destruct (path_split_cases r) as [[Es Hs]|(a & v & Hav & Hv' & Es)].
      - rewrite Ht in Hs. done.
      - rewrite Es. simpl. unfold trim_head. rewrite Hav, sall_app in E. simpl in E. bools.
        destruct v as [|c v]; [|simpl in *; bools; congruence].
        rewrite sall_app, H. simpl. done. }
    apply strip_root_spec.
    + destruct (ancestor_under r d Hr Hns) as [->|?]; auto.
    + destruct (ancestor_under r d Hr Hns) as [->|Hu]; [by apply dirname_under|].
      eapply under_trans; [exact Hu|]. apply dirname_under. destruct Hu as [t Ht].
      fold d. by rewrite Ht, sall_app, Hns.
Qed.
End search.

Lemma slice_to_slice_from s i : 0 <= i <= zlen s -> slice_to s i +:+ slice_from s i = s.
Proof. intros _. unfold slice_to, slice_from. apply stake_sdrop. Qed.

Lemma slice_0 s b : slice s 0 b = slice_to s b.
Proof.
  unfold slice, slice_to. replace (clamp (zlen s) 0) with 0
    by (unfold clamp; simpl; pose proof (zlen_nonneg s); lia).
  simpl. by rewrite Z.sub_0_r.
Qed.

(** An extension is a final dot and what follows it; together with the base it is
    the name. *)
Lemma splitext_name p :
  sall (fun c => negb (is_slash c)) p = true ->
  let '(base, ext) := splitext p in
  p = base +:+ ext /\
  (ext = EmptyString \/
   exists e, ext = String "." e /\ sall (fun c => negb (Ascii.eqb "." c)) e = true /\
     sall (fun c => Ascii.eqb c ".") base = false).
Proof.
  intros Hs. unfold splitext.
  assert (E : str_rfind p "/" = -1).
  { destruct (str_rfind_char "/" p) as [[_ ->]|(a & b & -> & _ & _)]; [done|].
    rewrite sall_app in Hs. simpl in Hs. by rewrite andb_false_r in Hs. }
  rewrite E. destruct (str_rfind_char "." p) as [[_ ->]|(a & b & -> & Hb & ->)].
  { split; [by rewrite sapp_nil_r|by left]. }
  pose proof (zlen_nonneg a). rewrite (proj2 (Z.ltb_lt (-1) _)) by lia. cbn [andb].
  replace (-1 + 1) with 0 by lia.
  assert (Ea : slice (a +:+ String "." b) 0 (zlen a) = a).
  { rewrite slice_0, slice_to_app. done. }
  rewrite Ea. destruct (sall _ a) eqn:Ed; cbn [negb].
  - split; [by rewrite sapp_nil_r|by left].
  - rewrite slice_to_app, slice_from_app. split; [done|right]. by exists b.
Qed.

(** C34. [Split] cuts the repository name into directory, base name and extension
    without losing text: base and extension together are what follows the last
    slash, the extension is empty or starts with the last dot of the name and
    holds no other dot, and a name of dots only has no extension. *)
Theorem Split_spec (exists_ : string -> bool) (cwd : string) (cfg : config)
    (filename project base ext name : string)
    (Hname : RepositoryName exists_ cwd cfg filename = inr name)
    (Hsplit : Split exists_ cwd cfg filename = inr (project, base, ext)) :
  sall (fun c => negb (is_slash c)) (base +:+ ext) = true /\
  ((project = EmptyString /\ name = base +:+ ext) \/
   exists a, name = a +:+ String "/" (base +:+ ext) /\ project = trim_head (a +:+ "/")) /\
  (ext = EmptyString \/
   exists e, ext = String "." e /\ sall (fun c => negb (Ascii.eqb "." c)) e = true /\
     sall (fun c => Ascii.eqb c ".") base = false).
Proof.
  unfold Split in Hsplit. rewrite Hname in Hsplit. cbn [bindE] in Hsplit.
  destruct (path_split_cases name) as [[E Hs]|(a & t & Ha & Hs & E)]; rewrite E in Hsplit.
  - pose proof (splitext_name name Hs) as H. destruct (splitext name) as [b x]. simplify_eq.
    destruct H as [Hn H]. rewrite <- Hn. auto.
  - pose proof (splitext_name t Hs) as H. destruct (splitext t) as [b x]. simplify_eq.
    destruct H as [Hn H]. rewrite <- Hn. eauto 6.
Qed.

(** With a [.svn] in every directory up to the root of the file system the search
    for the top of the checkout never ends: no amount of fuel gives a result. *)
Theorem RepositoryName_svn_diverges (fuel : nat) :
  svn_search (fun _ => true) fuel "/src" "/" = inl FuelExhausted.
Proof.
  assert (H : forall root, svn_search (fun _ => true) fuel root "/" = inl FuelExhausted).
  { induction fuel as [|fuel IH]; intros root; [done|]. exact (IH (dirname root)). }
  apply H.
Qed.

(** When the repository is checked out at the root of the file system, the name
    loses its first character. *)
Theorem RepositoryName_at_root :
  RepositoryName (fun p => str_mem p ["/foo.h"; "/.git"]) "/" initial_config "foo.h" = inr "oo.h".
Proof. vm_compute. reflexivity. Qed.

(** A checkout in /home/u/turtle with a file in src/core. *)
Definition demo_fs (p : string) : bool :=
  str_mem p ["/home/u/turtle/src/core/cache.h"; "/home/u/turtle/.git"; "/home/u/turtle/src/.git"].

Lemma demo_fs_no_svn s : absolute s -> sall is_slash s = true -> demo_fs (s +:+ ".svn") = false.
Proof.
  intros [t ->] H. simpl in H. destruct t as [|c t]; [reflexivity|]. simpl in H. bools.
  unfold is_slash in H. bools. subst. unfold demo_fs. apply not_true_iff_false.
  rewrite str_mem_In. intros [E|[E|[E|[]]]]; discriminate E.
Qed.

Lemma RepositoryName_total_witness :
  exists r, RepositoryName demo_fs "/home/u/turtle" initial_config "src/core/cache.h" = inr r.
Proof.
  apply (RepositoryName_total demo_fs "/home/u/turtle" initial_config);
    [by eexists|apply demo_fs_no_svn].
Defined.

Lemma RepositoryName_outermost_witness :
  exists r, RepositoryName demo_fs "/home/u/turtle" initial_config "src/core/cache.h" = inr r /\
    r = "src/core/cache.h".
Proof.
  destruct (RepositoryName_outermost demo_fs "/home/u/turtle" initial_config) with
    (filename := "src/core/cache.h") as (r & H & _).
  - by eexists.
  - reflexivity.
  - vm_compute. reflexivity.
  - vm_compute. reflexivity.
  - vm_compute. discriminate.
  - exists r. split; [exact H|]. assert (E : RepositoryName demo_fs "/home/u/turtle" initial_config
      "src/core/cache.h" = inr "src/core/cache.h") by (vm_compute; reflexivity). congruence.
Defined.

Lemma Split_spec_witness :
  sall (fun c => negb (is_slash c)) ("cache" +:+ ".h") = true.
Proof.
  apply (Split_spec demo_fs "/home/u/turtle" initial_config "src/core/cache.h" "src/core" "cache" ".h"
    "src/core/cache.h"); vm_compute; reflexivity.
Defined.
