(* ===== verification/HeaderGuard.v ===== *)
(** * Copyright lines and header guards of cpplint.py

    [CheckForCopyright], [GetIndentLevel], [PathSplitToList],
    [GetHeaderGuardCPPVariable] with its local functions, and
    [CheckForHeaderGuard].  The debugging output of [GetHeaderGuardCPPVariable] is
    left out: [_root_debug] is a constant, [False]. *)

From stdpp Require Import base list strings gmap.
From Stdlib Require Import ZArith Lia Ascii.
From S2P Require Import Prelude PyString Regex RegexParse PyRe RegexFacts RegexExact Config Cleanse Paths.
Local Open Scope Z_scope.
Local Open Scope py_scope.

(** [re.search(r'Copyright', line, re.I)]. *)
Definition COPYRIGHT : pattern := pat_with (Flags true false) "Copyright".

Definition CheckForCopyright (filename : string) (lines : list string) : M unit :=
  if existsb (fun line => matched (re_search COPYRIGHT line))
       (list_slice lines 1 (Z.min (Z.of_nat (length lines)) 11))
  then retM ()
  else error filename 0 "legal/copyright" 5
         ("No copyright message found.  " +:+ "You should have a line: " +:+ dquote
          +:+ "Copyright [year] <Copyright Owner>" +:+ dquote).

Definition GetIndentLevel (line : string) : Z :=
  match Match "^( *)\S" line with Some indent => zlen (m_text indent 1) | None => 0 end.

(** The loop of [PathSplitToList]; [lst] is reversed already, its head is the last
    component found. *)
Fixpoint path_split_loop (fuel : nat) (path : string) (lst : list string) : exn + list string :=
  match fuel with
  | O => inl FuelExhausted
  | S fuel' =>
      let '(head, tail) := path_split path in
      if String.eqb head path then inr (head :: lst)
      else if String.eqb tail path then inr (tail :: lst)
      else path_split_loop fuel' head (tail :: lst)
  end.
Definition PathSplitToList (path : string) : exn + list string :=
  path_split_loop (S (String.length path)) path [].

Section HeaderGuard.
Context (exists_ : string -> bool) (cwd : string) (cfg : config).

Definition StripListPrefix (lst prefix : list string) : option (list string) :=
  if decide (take (length prefix) lst = prefix) then Some (drop (length prefix) lst) else None.

(** [if maybe_path: return os.path.join( *maybe_path)]. *)
Definition join_path (maybe_path : option (list string)) : option (exn + string) :=
  match maybe_path with Some ((_ :: _) as l) => Some (path_joins l) | _ => None end.

Definition FixupPathFromRoot (filename file_path_from_root : string) : exn + string :=
  match root cfg with
  | None | Some EmptyString => inr file_path_from_root
  | Some root_ =>
      let? path_list := PathSplitToList file_path_from_root in
      let? root_list := PathSplitToList root_ in
      match join_path (StripListPrefix path_list root_list) with
      | Some r => r
      | None =>
          let full_path := FullName cwd filename in
          let root_abspath := abspath cwd root_ in
          let? full_list := PathSplitToList full_path in
          let? abs_list := PathSplitToList root_abspath in
          match join_path (StripListPrefix full_list abs_list) with
          | Some r => r
          | None => inr file_path_from_root
          end
      end
  end.

(** The name without Emacs's flymake marks and with c++ spelt cpp. *)
Definition original_name (filename : string) : string :=
  let filename := re_sub (pat "_flymake\.h$") ".h" filename in
  let filename := re_sub (pat "/\.flymake/([^/]*)$") "/\1" filename in
  str_replace (str_replace filename "C++" "cpp") "c++" "cpp".

Definition GetHeaderGuardCPPVariable (filename : string) : exn + string :=
  let filename := original_name filename in
  let? file_path_from_root := RepositoryName exists_ cwd cfg filename in
  let? file_path_from_root := FixupPathFromRoot filename file_path_from_root in
  inr (upper (re_sub (pat "[^a-zA-Z0-9]") "_" file_path_from_root) +:+ "_").

(** What the loop over the lines finds: the first #ifndef and #define with an
    argument, and the last #endif. *)
Record guards := Guards {
  ifndef : string;
  ifndef_linenum : Z;
  define : string;
  endif : string;
  endif_linenum : Z
}.

Definition guard_step (g : guards) (linenum : Z) (line : string) : guards :=
  let g :=
    match split_ws line with
    | w0 :: w1 :: _ =>
        let g := if String.eqb (ifndef g) EmptyString && String.eqb w0 "#ifndef"
                 then Guards w1 linenum (define g) (endif g) (endif_linenum g) else g in
        if String.eqb (define g) EmptyString && String.eqb w0 "#define"
        then Guards (ifndef g) (ifndef_linenum g) w1 (endif g) (endif_linenum g) else g
    | _ => g
    end in
  if startswith line "#endif"
  then Guards (ifndef g) (ifndef_linenum g) (define g) line linenum else g.

(** [for linenum, line in enumerate(raw_lines)]. *)
Fixpoint guard_scan (g : guards) (linenum : Z) (raw_lines : list string) : guards :=
  match raw_lines with
  | [] => g
  | line :: raw_lines' => guard_scan (guard_step g linenum line) (linenum + 1) raw_lines'
  end.

Definition find_guards (raw_lines : list string) : guards :=
  guard_scan (Guards EmptyString 0 EmptyString EmptyString 0) 0 raw_lines.

(** [not ifndef or not define or ifndef != define]. *)
Definition guard_missing (g : guards) : bool :=
  String.eqb (ifndef g) EmptyString || String.eqb (define g) EmptyString
  || negb (String.eqb (ifndef g) (define g)).

Definition NOLINT_GUARD : string := "//\s*NOLINT\(build/header_guard\)".
Definition PRAGMA_ONCE : string := "^\s*#pragma\s+once".
Definition LINE_COMMENT : string :=
  "^(?:(?:\'(?:\.|[^\'])*\')|(?:\x22(?:\.|[^\x22])*\x22)|[^\'\x22])*//".

(** Whether no line but the first and the last has a // comment. *)
Definition no_single_line_comments (raw_lines : list string) : bool :=
  negb (existsb (fun line => matched (Match LINE_COMMENT line))
          (list_slice raw_lines 1 (Z.of_nat (length raw_lines) - 1))).

Definition endif_message (cppvar : string) : string :=
  "#endif line should be " +:+ dquote +:+ "#endif  // " +:+ cppvar +:+ dquote.
Definition endif_c_message (cppvar : string) : string :=
  "#endif line should be " +:+ dquote +:+ "#endif  /* " +:+ cppvar +:+ " */" +:+ dquote.

(** [if match: ...; return]: a deprecated name is reported. *)
Definition endif_found (filename : string) (g : guards) (m : mobj) (message : string) : M unit :=
  mwhen (bool_decide (m_group m 1 = Some "_"))
    (error filename (endif_linenum g) "build/header_guard" 0 message).

Definition check_endif (filename : string) (raw_lines : list string) (g : guards)
    (cppvar : string) : M unit :=
  let* m := liftE (MatchE ("#endif\s*//\s*" +:+ cppvar +:+ "(_)?\b") (endif g)) in
  match m with
  | Some m => endif_found filename g m (endif_message cppvar)
  | None =>
      let* m := if no_single_line_comments raw_lines
                then liftE (MatchE ("#endif\s*/\*\s*" +:+ cppvar +:+ "(_)?\s*\*/") (endif g))
                else retM None in
      match m with
      | Some m => endif_found filename g m (endif_c_message cppvar)
      | None => error filename (endif_linenum g) "build/header_guard" 5 (endif_message cppvar)
      end
  end.

(** A guard exists: check its name and its #endif line. *)
Definition check_guard (filename : string) (raw_lines : list string) (g : guards)
    (cppvar : string) : M unit :=
  mwhen (negb (String.eqb (ifndef g) cppvar))
    (let error_level := if String.eqb (ifndef g) (cppvar +:+ "_") then 0 else 5 in
     let* raw_line := try_get IndexError (py_nth raw_lines (ifndef_linenum g)) in
     emit (Nolint filename raw_line (ifndef_linenum g)) ;;;
     error filename (ifndef_linenum g) "build/header_guard" error_level
       ("#ifndef header guard has wrong style, please use: " +:+ cppvar)) ;;;
  let* raw_line := try_get IndexError (py_nth raw_lines (endif_linenum g)) in
  emit (Nolint filename raw_line (endif_linenum g)) ;;;
  check_endif filename raw_lines g cppvar.

Definition CheckForHeaderGuard (filename : string) (clean_lines : CleansedLines) : M unit :=
  let raw_lines := lines_without_raw_strings clean_lines in
  if existsb (fun i => matched (Search NOLINT_GUARD i)) raw_lines then retM ()
  else if existsb (fun i => matched (Search PRAGMA_ONCE i)) raw_lines then retM ()
  else
    let* cppvar := liftE (GetHeaderGuardCPPVariable filename) in
    let g := find_guards raw_lines in
    if guard_missing g
    then error filename 0 "build/header_guard" 5
           ("No #ifndef header guard found, suggested CPP variable is: " +:+ cppvar)
    else check_guard filename raw_lines g cppvar.
End HeaderGuard.

(** ** Splitting paths *)

Lemma no_double_head a t :
  contains (a +:+ String "/" t) "//" = false ->
  (a = EmptyString /\ trim_head (a +:+ "/") = "/") \/
  (a <> EmptyString /\ trim_head (a +:+ "/") = a /\ endswith a "/" = false).
Proof.
  intros Hc.
  assert (Hend : forall b, a <> b +:+ "/").
  { intros b ->. apply not_true_iff_false in Hc. apply Hc. apply contains_spec.
    exists b, t. by rewrite sapp_assoc. }
  destruct (decide (a = EmptyString)) as [->|Hne]; [by left|right]. split; [done|].
  destruct (trim_head_cases a) as [[Ha _]|(u & Hu & Hall & _)].
  { destruct (slashes_snoc a) as [b Hb]; [done..|]. by destruct (Hend b). }
  destruct (decide (u = EmptyString)) as [->|Hun].
  - rewrite sapp_nil_r in Hu. split; [done|]. apply not_true_iff_false.
    intros [b Hb]%endswith_true. by destruct (Hend b).
  - destruct (slashes_snoc u Hun Hall) as [b ->]. rewrite <- sapp_assoc in Hu.
    by destruct (Hend (trim_head (a +:+ "/") +:+ b)).
Qed.

Lemma no_slash_start t :
  sall (fun c => negb (is_slash c)) t = true -> startswith t "/" = false.
Proof.
  destruct t as [|c t]; [done|]. cbn [sall startswith]. intros H. bools.
  unfold is_slash in H. by rewrite Ascii.eqb_sym, H.
Qed.

Lemma path_joins_snoc l p t : path_joins l = inr p -> path_joins (l ++ [t]) = inr (path_join p t).
Proof. destruct l as [|a l]; [done|]. simpl. intros [= <-]. by rewrite fold_left_app. Qed.

Definition no_slashes (l : list string) : Prop :=
  Forall (fun w => sall (fun c => negb (is_slash c)) w = true) l.

(** The components of a path, put together again. *)
Lemma path_split_loop_spec fuel : forall path lst,
  (String.length path < fuel)%nat ->
  exists l, path_split_loop fuel path lst = inr (l ++ lst) /\ l <> [] /\ no_slashes (tail l) /\
    (contains path "//" = false -> path_joins l = inr path).
Proof.
  induction fuel as [|fuel IH]; intros path lst Hf; [lia|]. cbn [path_split_loop].
  destruct (path_split path) as [head tl] eqn:Es.
  destruct (String.eqb head path) eqn:E1; bools.
  { exists [head]. split; [done|]. split; [done|]. split; [constructor|]. by subst. }
  destruct (String.eqb tl path) eqn:E2; bools.
  { exists [tl]. split; [done|]. split; [done|]. split; [constructor|]. by subst. }
  destruct (path_split_cases path) as [[E Hs]|(a & t & -> & Hs & E)].
  { rewrite E in Es. by simplify_eq. }
  rewrite E in Es. simplify_eq.
  destruct (IH (trim_head (a +:+ "/")) (tl :: lst)) as (l & Hl & Hne & Hns & Hj).
  { destruct (dirname_shorter (a +:+ String "/" tl)) as [Hd|Hd]; unfold dirname in Hd;
      rewrite E in Hd; simpl in Hd; [congruence|lia]. }
  exists (l ++ [tl]). split; [rewrite <- app_assoc; exact Hl|]. split; [by destruct l|]. split.
  { destruct l as [|w l]; [done|]. apply Forall_app. split; [done|]. by constructor. }
  intros Hc. destruct (no_double_head a tl Hc) as [[-> Eh]|(Ha & Eh & Hend)].
  - rewrite Eh in Hj. erewrite path_joins_snoc; [|by apply Hj].
    unfold path_join. by rewrite no_slash_start.
  - rewrite Eh in Hj. erewrite path_joins_snoc; [|apply Hj; by eapply contains_prefix].
    unfold path_join. rewrite no_slash_start, Hend, orb_false_r by done.
    destruct (String.eqb a EmptyString) eqn:Ea; bools; [done|]. done.
Qed.

Lemma PathSplitToList_ok path : exists l, PathSplitToList path = inr l.
Proof.
  destruct (path_split_loop_spec (S (String.length path)) path []) as (l & H & _); [lia|].
  eexists. exact H.
Qed.

(** C36. [PathSplitToList] ends on every path, only the first component can hold a
    slash, and joining the components gives the path back when the path has no
    doubled slash. *)
Theorem PathSplitToList_roundtrip (path : string) :
  exists l, PathSplitToList path = inr l /\ no_slashes (tail l) /\
    (contains path "//" = false -> path_joins l = inr path).
Proof.
  destruct (path_split_loop_spec (S (String.length path)) path []) as (l & H & _ & Hn & Hj); [lia|].
  rewrite app_nil_r in H. eauto.
Qed.

Lemma PathSplitToList_roundtrip_witness :
  exists l, PathSplitToList "/a/b/" = inr l /\ path_joins l = inr "/a/b/".
Proof.
  destruct (PathSplitToList_roundtrip "/a/b/") as (l & H & _ & Hj). exists l.
  split; [exact H|]. apply Hj. reflexivity.
Defined.

(** ** The guard variable *)

Definition guard_char (c : ascii) : bool := in_range c 65 90 || in_range c 48 57 || Ascii.eqb c "_".

Definition not_alnum : ascii -> bool :=
  set_mem no_flags true [CRange "a" "z"; CRange "A" "Z"; CRange "0" "9"].

Lemma sub_not_alnum s :
  re_sub (pat "[^a-zA-Z0-9]") "_" s = smap (fun c => if not_alnum c then "_"%char else c) s.
Proof. apply re_sub_charset. vm_compute. reflexivity. Qed.

Lemma guard_char_upper c : guard_char (upper_char (if not_alnum c then "_"%char else c)) = true.
Proof. destruct c as [[] [] [] [] [] [] [] []]; vm_compute; reflexivity. Qed.

Lemma smap_smap f g s : smap f (smap g s) = smap (fun c => f (g c)) s.
Proof. induction s as [|c s IH]; simpl; [done|]. by rewrite IH. Qed.

Lemma sall_smap p f s : (forall c, p (f c) = true) -> sall p (smap f s) = true.
Proof. intros H. induction s as [|c s IH]; simpl; [done|]. by rewrite H. Qed.

(** The variable as a function of the path. *)
Definition guard_of_path (path : string) : string :=
  smap (fun c => upper_char (if not_alnum c then "_"%char else c)) path +:+ "_".

Lemma guard_of_path_eq path : upper (re_sub (pat "[^a-zA-Z0-9]") "_" path) +:+ "_" = guard_of_path path.
Proof. rewrite sub_not_alnum. unfold upper, guard_of_path. by rewrite smap_smap. Qed.

Lemma guard_of_path_chars path : sall guard_char (guard_of_path path) = true.
Proof. unfold guard_of_path. rewrite sall_app, sall_smap; [done|]. apply guard_char_upper. Qed.

Section GuardFacts.
Context (exists_ : string -> bool) (cwd : string) (cfg : config).
Context (Hcwd : absolute cwd)
  (Htop : forall s, absolute s -> sall is_slash s = true -> exists_ (s +:+ ".svn") = false).

Lemma join_path_ok m r : join_path m = Some r -> exists p, r = inr p.
Proof. unfold join_path. repeat case_match; intros; simplify_eq. by eexists. Qed.

Lemma FixupPathFromRoot_ok filename path : exists p, FixupPathFromRoot cwd cfg filename path = inr p.
Proof.
  unfold FixupPathFromRoot. destruct (root cfg) as [[|c r]|]; [by eexists| |by eexists].
  destruct (PathSplitToList_ok path) as [l1 ->]. destruct (PathSplitToList_ok (String c r)) as [l2 ->].
  cbn [bindE]. destruct (join_path _) eqn:E; [by eapply join_path_ok|].
  destruct (PathSplitToList_ok (FullName cwd filename)) as [l3 ->].
  destruct (PathSplitToList_ok (abspath cwd (String c r))) as [l4 ->].
  cbn [bindE]. destruct (join_path (StripListPrefix l3 l4)) eqn:E'; [by eapply join_path_ok|].
  by eexists.
Qed.

Lemma GuardVariable_ok filename :
  exists path, GetHeaderGuardCPPVariable exists_ cwd cfg filename = inr (guard_of_path path).
Proof.
  unfold GetHeaderGuardCPPVariable. set (f := original_name filename).
  destruct (RepositoryName_ok exists_ cwd cfg Hcwd f Htop) as [r ->].
  cbn [bindE]. destruct (FixupPathFromRoot_ok f r) as [p ->]. cbn [bindE]. exists p.
  by rewrite guard_of_path_eq.
Qed.

End GuardFacts.

(** ** The lines of a guard *)

(** Line [n] is the first that starts with the directive [d] and an argument. *)
Definition directive (d w line : string) : Prop := exists rest, split_ws line = d :: w :: rest.
Definition first_directive (d : string) (lines : list string) (n : nat) (w : string) : Prop :=
  (exists line, lines !! n = Some line /\ directive d w line) /\
  forall m line w', (m < n)%nat -> lines !! m = Some line -> ~ directive d w' line.
Definition last_endif (lines : list string) (n : nat) (line : string) : Prop :=
  lines !! n = Some line /\ startswith line "#endif" = true /\
  forall m line', (n < m)%nat -> lines !! m = Some line' -> startswith line' "#endif" = false.

(** A value that a scan found, with its line number, or did not find. *)
Definition found (P : nat -> string -> Prop) (w : string) (n : Z) : Prop :=
  (w = EmptyString /\ n = 0 /\ forall k v, ~ P k v) \/
  (w <> EmptyString /\ 0 <= n /\ P (Z.to_nat n) w).

Lemma split_ws_go_nonempty s : forall cur, Forall (fun w => w <> EmptyString) (split_ws_go s cur).
Proof.
  induction s as [|c s IH]; intros cur; simpl.
  - destruct (String.eqb cur EmptyString) eqn:E; bools; repeat constructor. done.
  - destruct (is_space c); [|apply IH].
    destruct (String.eqb cur EmptyString) eqn:E; bools; [apply IH|]. by constructor.
Qed.

Lemma directive_nonempty d w line : directive d w line -> w <> EmptyString.
Proof.
  intros [rest E]. pose proof (split_ws_go_nonempty line EmptyString) as H.
  unfold split_ws in E. rewrite E, !Forall_cons in H. by destruct H as (_ & ? & _).
Qed.

Lemma guard_scan_snoc l x : forall g k,
  guard_scan g k (l ++ [x]) = guard_step (guard_scan g k l) (k + Z.of_nat (length l)) x.
Proof.
  induction l as [|y l IH]; intros g k; simpl; [by rewrite Z.add_0_r|].
  rewrite IH. f_equal. lia.
Qed.

(** How the list of the lines seen grows. *)
Lemma found_snoc_old d l x w n :
  w <> EmptyString -> found (first_directive d l) w n -> found (first_directive d (l ++ [x])) w n.
Proof.
  intros Hw [(? & _)|(_ & Hn & (line & Hl & Hd) & Hf)]; [done|]. right. split; [done|]. split; [done|].
  split.
  - exists line. split; [|done]. by apply lookup_app_l_Some.
  - intros m line' w' Hm Hl'. rewrite lookup_app_l in Hl'; [by eapply Hf|].
    apply lookup_lt_Some in Hl. lia.
Qed.

Lemma found_snoc_none d l x n :
  found (first_directive d l) EmptyString n -> (forall w, ~ directive d w x) ->
  found (first_directive d (l ++ [x])) EmptyString n.
Proof.
  intros [(_ & -> & Hno)|[? _]] Hx; [|done]. left. split; [done|]. split; [done|].
  intros k v [(line & Hl & Hd) Hf]. apply lookup_app_Some in Hl as [Hl|[Hk Hl]].
  - apply (Hno k v). split; [eauto|]. intros m line' w' Hm Hl'. apply (Hf m); [done|].
    by apply lookup_app_l_Some.
  - apply list_lookup_singleton_Some in Hl as [_ <-]. by apply (Hx v).
Qed.

Lemma first_none d l m line w :
  found (first_directive d l) EmptyString 0 -> l !! m = Some line -> ~ directive d w line.
Proof.
  intros [(_ & _ & Hno)|[? _]]; [|done]. revert line w.
  induction m as [m IH] using lt_wf_ind. intros line w Hl Hd.
  apply (Hno m w). split; [eauto|]. intros k line' w' Hk Hl' Hd'. by eapply (IH k).
Qed.

Lemma found_snoc_new d l x w n :
  found (first_directive d l) EmptyString n -> directive d w x ->
  found (first_directive d (l ++ [x])) w (Z.of_nat (length l)).
Proof.
  intros Hf Hd. right. split; [by eapply directive_nonempty|]. split; [lia|]. rewrite Nat2Z.id. split.
  - exists x. split; [|done]. by rewrite lookup_app_r, Nat.sub_diag by lia.
  - intros m line w' Hm Hl. rewrite lookup_app_l in Hl by done.
    assert (n = 0) as -> by (destruct Hf as [(_ & -> & _)|[? _]]; done).
    by eapply first_none.
Qed.

(** One line of the scan, for the directives and for #endif. *)
Lemma guard_step_ifndef g k x :
  (exists w, directive "#ifndef" w x /\ ifndef g = EmptyString /\
     ifndef (guard_step g k x) = w /\ ifndef_linenum (guard_step g k x) = k) \/
  ((ifndef g <> EmptyString \/ forall w, ~ directive "#ifndef" w x) /\
     ifndef (guard_step g k x) = ifndef g /\ ifndef_linenum (guard_step g k x) = ifndef_linenum g).
Proof.
  unfold guard_step, directive. destruct (split_ws x) as [|w0 [|w1 ws]] eqn:E.
  1, 2: right; split; [right; by intros w [? ?]|destruct (startswith x _); done].
  destruct (String.eqb (ifndef g) EmptyString) eqn:E1; bools; simpl.
  - destruct (String.eqb w0 "#ifndef") eqn:E2; bools; simpl.
    + left. exists w1. split; [subst; by eexists|]. split; [done|].
      destruct (_ && _), (startswith x _); done.
    + right. split; [right; intros w [? ?]; congruence|].
      destruct (_ && _), (startswith x _); done.
  - right. split; [by left|]. destruct (_ && _), (startswith x _); done.
Qed.

Lemma guard_step_define g k x :
  (exists w, directive "#define" w x /\ define g = EmptyString /\ define (guard_step g k x) = w) \/
  ((define g <> EmptyString \/ forall w, ~ directive "#define" w x) /\
     define (guard_step g k x) = define g).
Proof.
  unfold guard_step, directive. destruct (split_ws x) as [|w0 [|w1 ws]] eqn:E.
  1, 2: right; split; [right; by intros w [? ?]|destruct (startswith x _); done].
  set (g' := if _ && String.eqb w0 "#ifndef" then _ else g).
  assert (Ed : define g' = define g) by (unfold g'; destruct (_ && _); done). cbv zeta. rewrite Ed.
  destruct (String.eqb (define g) EmptyString) eqn:E1; bools; simpl.
  - destruct (String.eqb w0 "#define") eqn:E2; bools; simpl.
    + left. exists w1. split; [subst; by eexists|]. split; [done|]. destruct (startswith x _); done.
    + right. split; [right; intros w [? ?]; congruence|]. destruct (startswith x _); done.
  - right. split; [by left|]. destruct (startswith x _); done.
Qed.

Lemma guard_step_endif g k x :
  if startswith x "#endif"
  then endif (guard_step g k x) = x /\ endif_linenum (guard_step g k x) = k
  else endif (guard_step g k x) = endif g /\ endif_linenum (guard_step g k x) = endif_linenum g.
Proof.
  unfold guard_step. destruct (startswith x "#endif"); [done|].
  destruct (split_ws x) as [|w0 [|w1 ws]]; [done..|]. destruct (_ && _), (_ && _); done.
Qed.

(** The scan finds the first #ifndef and #define and the last #endif. *)
Lemma find_guards_spec lines :
  let g := find_guards lines in
  found (first_directive "#ifndef" lines) (ifndef g) (ifndef_linenum g) /\
  (exists n, found (first_directive "#define" lines) (define g) n) /\
  found (last_endif lines) (endif g) (endif_linenum g).
Proof.
  unfold find_guards. induction lines as [|x l IH] using rev_ind; cbv zeta in *.
  { split_and!; [left|exists 0; left|left]; (split; [done|]; split; [done|]).
    - intros k v [(? & H & _) _]. done.
    - intros k v [(? & H & _) _]. done.
    - intros k v (H & _). done. }
  rewrite guard_scan_snoc. set (g := guard_scan _ 0 l) in *. destruct IH as (H1 & (n & H2) & H3).
  split_and!.
  - destruct (guard_step_ifndef g (0 + Z.of_nat (length l)) x)
      as [(w & Hd & E & -> & ->)|([Hne|Hno] & -> & ->)].
    + rewrite E in H1. by eapply found_snoc_new.
    + by apply found_snoc_old.
    + destruct (decide (ifndef g = EmptyString)) as [E|E]; [|by apply found_snoc_old].
      rewrite E in *. by apply found_snoc_none.
  - destruct (guard_step_define g (0 + Z.of_nat (length l)) x)
      as [(w & Hd & E & ->)|([Hne|Hno] & ->)].
    + rewrite E in H2. eexists. by eapply found_snoc_new.
    + eexists. by apply found_snoc_old.
    + destruct (decide (define g = EmptyString)) as [E|E]; [|eexists; by apply found_snoc_old].
      rewrite E in *. eexists. by eapply found_snoc_none.
  - pose proof (guard_step_endif g (0 + Z.of_nat (length l)) x) as He.
    destruct (startswith x "#endif") eqn:Ex; destruct He as [-> ->].
    + right. split; [by destruct x|]. split; [lia|]. rewrite Z.add_0_l, Nat2Z.id. split_and!.
      * by rewrite lookup_app_r, Nat.sub_diag by lia.
      * done.
      * intros m line' Hm Hl%lookup_lt_Some. rewrite length_app in Hl. simpl in Hl. lia.
    + destruct H3 as [(E1 & E2 & Hno)|(Hne & Hn & Hl & Hs & Hlast)].
      * left. split; [done|]. split; [done|]. intros k v (Hl & Hs & Hlast).
        apply lookup_app_Some in Hl as [Hl|[Hk Hl]].
        -- apply (Hno k v). split; [done|]. split; [done|]. intros m line' Hm Hl'.
           apply (Hlast m); [done|]. by apply lookup_app_l_Some.
        -- apply list_lookup_singleton_Some in Hl as [_ <-]. congruence.
      * right. split; [done|]. split; [done|]. split; [by apply lookup_app_l_Some|]. split; [done|].
        intros m line' Hm Hl'. apply lookup_app_Some in Hl' as [Hl'|[Hk Hl']]; [by eapply Hlast|].
        apply list_lookup_singleton_Some in Hl' as [_ <-]. done.
Qed.

(** ** The patterns with the guard variable in them *)

Lemma guard_char_plain c : guard_char c = true -> is_special c = false.
Proof. destruct c as [[] [] [] [] [] [] [] []]; vm_compute; congruence. Qed.

Lemma sall_impl (p q : ascii -> bool) s :
  (forall c, p c = true -> q c = true) -> sall p s = true -> sall q s = true.
Proof.
  intros H. induction s as [|c s IH]; [done|]. cbn [sall]. intros Hs. bools. by rewrite H, IH.
Qed.

Lemma guard_escape v : sall guard_char v = true -> re_escape v = v.
Proof.
  intros H. apply re_escape_plain. revert H. apply sall_impl. intros c Hc.
  by rewrite guard_char_plain.
Qed.

(** ** The #endif line as text *)

(** The line is #endif, the opening [o] of a comment and the name [v], with white
    space between them, and [u] follows. *)
Definition endif_names (o v line u : string) : Prop :=
  exists w1 w2, sall is_space w1 = true /\ sall is_space w2 = true
    /\ line = "#endif" +:+ w1 +:+ o +:+ w2 +:+ v +:+ u.

(** [deprecated] says whether one more underscore follows the name. *)
Definition underscore (deprecated : bool) : string := if deprecated then "_" else EmptyString.

(** A // comment with the name, and no further character of a word. *)
Definition closed_by_line (v line : string) (deprecated : bool) : Prop :=
  exists r, endif_names "//" v line (underscore deprecated +:+ r) /\ word_at (sget 0 r) = false.

(** A comment between /* and */ with the name and nothing else. *)
Definition closed_by_block (v line : string) (deprecated : bool) : Prop :=
  exists w r, endif_names "/*" v line (underscore deprecated +:+ w +:+ "*/" +:+ r)
    /\ sall is_space w = true.

Lemma is_space_set c : set_mem no_flags false [CClass CSpace false] c = is_space c.
Proof. unfold set_mem. cbn [existsb item_mem class_mem no_flags icase andb]. by rewrite !orb_false_r. Qed.

Lemma sall_space_set t : sall (set_mem no_flags false [CClass CSpace false]) t = sall is_space t.
Proof. induction t as [|c t IH]; [done|]. cbn [sall]. by rewrite is_space_set, IH. Qed.

(** ** The patterns read that text *)

Definition spaces_re : regex := RRep true 0 None (RSet false [CClass CSpace false]).
Definition endif_open (o v : string) : list regex :=
  map rlit (String.list_ascii_of_string "#endif") ++ spaces_re
  :: map rlit (String.list_ascii_of_string o) ++ spaces_re
  :: map rlit (String.list_ascii_of_string v).
Definition underscore_re : regex := RRep true 0 (Some 1%nat) (RGroup 1 (rlit "_")).

(** The items of the parser for the part before the name, in order. *)
Definition lit_item (c : ascii) : regex * bool := (rlit c, true).
Definition endif_items (o : string) : list (regex * bool) :=
  map lit_item (String.list_ascii_of_string "#endif") ++ (spaces_re, false)
  :: map lit_item (String.list_ascii_of_string o) ++ [(spaces_re, false)].

Lemma items_around (v : list ascii) items :
  rev (map fst (rev (map lit_item v) ++ rev items)) = map fst items ++ map rlit v.
Proof. rewrite <- rev_app_distr, map_rev, rev_involutive, map_app, map_map. done. Qed.

Lemma endif_items_open o v :
  map fst (endif_items o) ++ map rlit (String.list_ascii_of_string v) = endif_open o v.
Proof.
  unfold endif_items, endif_open. rewrite map_app, map_cons, map_app, !map_map.
  cbn [fst lit_item map]. by rewrite <- !app_assoc, <- app_comm_cons, <- app_assoc.
Qed.

Lemma snoc_cons {A} (l : list A) a b r : l ++ a :: b :: r = (l ++ [a]) ++ b :: r.
Proof. by rewrite <- app_assoc. Qed.

(** The pattern of the // comment and that of the other one, compiled. *)
Lemma endif_regexes v : sall guard_char v = true ->
  re_compile no_flags ("#endif\s*//\s*" +:+ v +:+ "(_)?\b")
    = Some (Pattern (seq_of (endif_open "//" v ++ [underscore_re; RWordB])) no_flags) /\
  re_compile no_flags ("#endif\s*/\*\s*" +:+ v +:+ "(_)?\s*\*/")
    = Some (Pattern (seq_of (endif_open "/*" v ++
        [underscore_re; spaces_re; rlit "*"; rlit "/"])) no_flags).
Proof.
  intros Hv. rewrite <- (guard_escape v Hv) at 1 3.
  rewrite <- !endif_items_open, <- !items_around, !snoc_cons. split.
  - compile_around "#endif\s*//\s*" v "(_)?\b" 12%nat 5%nat. reflexivity.
  - compile_around "#endif\s*/\*\s*" v "(_)?\s*\*/" 12%nat 8%nat. reflexivity.
Qed.

Lemma den_spaces s x y :
  den no_flags s spaces_re x y <-> exists t u, sall is_space t = true /\ rest x = t +:+ u /\ y = after t x.
Proof.
  unfold spaces_re. rewrite (den_star false s (RSet false [CClass CSpace false]) _ true x y eq_refl).
  fold no_flags. by setoid_rewrite sall_space_set.
Qed.

(** The part up to the name. *)
Lemma den_endif_open s o v x y :
  den no_flags s (seq_of (endif_open o v)) x y <->
  exists w1 w2 u, sall is_space w1 = true /\ sall is_space w2 = true
    /\ rest x = "#endif" +:+ w1 +:+ o +:+ w2 +:+ v +:+ u
    /\ y = after ("#endif" +:+ w1 +:+ o +:+ w2 +:+ v) x.
Proof.
  unfold endif_open, no_flags. rewrite den_seq_app. setoid_rewrite (den_texts false).
  setoid_rewrite den_seq_cons. setoid_rewrite den_seq_app. setoid_rewrite (den_texts false).
  setoid_rewrite den_seq_cons. setoid_rewrite (den_texts false). setoid_rewrite den_spaces. split.
  - intros (z1 & (u1 & H1 & ->) & z2 & (w1 & u2 & Hw1 & H2 & ->) & z3 & (u3 & H3 & ->) & z4
      & (w2 & u4 & Hw2 & H4 & ->) & (u & H5 & ->)).
    rewrite (after_rest _ _ _ H1) in H2. subst u1. rewrite (after_rest _ _ _ (after_rest _ _ _ H1)) in H3.
    subst u2. pose proof (after_rest _ _ _ (after_rest _ _ _ (after_rest _ _ _ H1))) as E3.
    rewrite E3 in H4. subst u3. rewrite (after_rest _ _ _ E3) in H5. subst u4.
    exists w1, w2, u. by rewrite !after_app.
  - intros (w1 & w2 & u & Hw1 & Hw2 & Hx & ->). rewrite !after_app.
    pose proof (after_rest _ _ _ Hx) as H1. pose proof (after_rest _ _ _ H1) as H2.
    pose proof (after_rest _ _ _ H2) as H3. pose proof (after_rest _ _ _ H3) as H4.
    eexists. split; [by eexists|]. eexists. split; [by exists w1; eexists|].
    eexists. split; [by eexists|]. eexists. split; [by exists w2; eexists|]. by eexists.
Qed.

(** The state after the name and the underscore that may follow it. *)
Definition named_state (t : string) (deprecated : bool) (x : state) : state :=
  if deprecated then set_cap 1 (pos (after t x)) (after "_" (after t x)) else after t x.

Lemma named_state_rest t deprecated x u :
  rest x = t +:+ underscore deprecated +:+ u -> rest (named_state t deprecated x) = u.
Proof.
  intros H. apply after_rest in H. destruct deprecated; cbn [named_state set_cap rest]; [|done].
  by apply after_rest.
Qed.

Lemma den_endif_named s o v T x y :
  den no_flags s (seq_of (endif_open o v ++ underscore_re :: T)) x y <->
  exists w1 w2 deprecated u, sall is_space w1 = true /\ sall is_space w2 = true
    /\ rest x = ("#endif" +:+ w1 +:+ o +:+ w2 +:+ v) +:+ underscore deprecated +:+ u
    /\ den no_flags s (seq_of T) (named_state ("#endif" +:+ w1 +:+ o +:+ w2 +:+ v) deprecated x) y.
Proof.
  rewrite den_seq_app. setoid_rewrite den_endif_open. setoid_rewrite den_seq_cons.
  unfold underscore_re. setoid_rewrite (den_option false). split.
  - intros (z & (w1 & w2 & u & H1 & H2 & Hx & ->) & z' & Hz' & HT). exists w1, w2.
    destruct Hz' as [->|(z & Hz & ->)].
    + exists false, u. rewrite !sapp_assoc. done.
    + apply (den_literal false) in Hz as (u' & Hu & ->). exists true, u'. rewrite !sapp_assoc.
      rewrite (after_rest ("#endif" +:+ w1 +:+ o +:+ w2 +:+ v) x u) in Hu by (by rewrite !sapp_assoc).
      by subst u.
  - intros (w1 & w2 & dep & u & H1 & H2 & Hx & HT). eexists. split.
    { exists w1, w2, (underscore dep +:+ u). rewrite !sapp_assoc in Hx. by split_and!. }
    eexists. split; [|exact HT]. destruct dep; [right|by left].
    eexists. split; [|done]. apply (den_literal false). exists u. split; [|done]. by apply (after_rest _ _ _ Hx).
Qed.

(** A match of one of the patterns on the whole line, in terms of the text. *)
Lemma MatchE_endif (P : string -> Prop) pattern o v T line :
  re_compile no_flags pattern
    = Some (Pattern (seq_of (endif_open o v ++ underscore_re :: T)) no_flags) ->
  (forall t deprecated u, rest (named_state (t +:+ v) deprecated (state_at line 0)) = u ->
     (exists y, den no_flags line (seq_of T) (named_state (t +:+ v) deprecated (state_at line 0)) y)
     <-> P u) ->
  (forall x y, den no_flags line (seq_of T) x y -> caps y = caps x) ->
  exists o_m, MatchE pattern line = inr o_m /\
  match o_m with
  | Some m => exists deprecated u, endif_names o v line (underscore deprecated +:+ u) /\ P u
      /\ bool_decide (m_group m 1 = Some "_") = deprecated
  | None => forall deprecated u, endif_names o v line (underscore deprecated +:+ u) -> ~ P u
  end.
Proof.
  intros Hc HP Hcaps. unfold MatchE. rewrite Hc. eexists. split; [done|].
  pose proof (re_match_spec (Pattern (seq_of (endif_open o v ++ underscore_re :: T)) no_flags) line) as H.
  assert (Hshape : forall w1 w2, "#endif" +:+ w1 +:+ o +:+ w2 +:+ v = ("#endif" +:+ w1 +:+ o +:+ w2) +:+ v)
    by (intros; by rewrite !sapp_assoc).
  destruct (re_match _ line) as [m|].
  - destruct H as (Hs & _ & Hd). unfold matches_at in Hd. cbn [p_fl p_regex] in Hd.
    apply den_endif_named in Hd as (w1 & w2 & dep & u & Hw1 & Hw2 & Hx & HT).
    exists dep, u. change (rest (state_at line 0)) with line in Hx. split.
    { exists w1, w2. rewrite !sapp_assoc in Hx. done. }
    split.
    { rewrite Hshape in HT, Hx. 
      apply (HP ("#endif" +:+ w1 +:+ o +:+ w2) dep u (named_state_rest _ dep (state_at line 0) u Hx)).
      by eexists. }
    apply Hcaps in HT. unfold m_group, m_span. rewrite HT, Hs. clear HT.
    set (t := "#endif" +:+ w1 +:+ o +:+ w2 +:+ v) in *. destruct dep; unfold named_state.
    + cbn [set_cap caps cap_lookup Nat.eqb pos]. rewrite !after_pos. cbn [pos state_at start_at Nat.add].
      rewrite Hx, sdrop_app, Nat.add_comm, Nat.add_sub.
      apply bool_decide_eq_true. reflexivity.
    + rewrite after_caps. apply bool_decide_eq_false. done.
  - intros dep u (w1 & w2 & Hw1 & Hw2 & Hl) Hu.
    assert (Hx : rest (state_at line 0) = (("#endif" +:+ w1 +:+ o +:+ w2) +:+ v) +:+ underscore dep +:+ u)
      by (rewrite !sapp_assoc; exact Hl).
    apply (HP _ dep u (named_state_rest _ dep _ u Hx)) in Hu as [y Hy].
    apply (H y). unfold matches_at. cbn [p_fl p_regex]. apply den_endif_named.
    exists w1, w2, dep, u. by rewrite Hshape.
Qed.

Lemma guard_char_word c : guard_char c = true -> is_word c = true.
Proof. destruct c as [[] [] [] [] [] [] [] []]; vm_compute; congruence. Qed.

(** After the name a word ends exactly when no character of a word follows. *)
Lemma named_state_boundary t v deprecated x u :
  sall guard_char v = true -> v <> EmptyString ->
  rest (named_state (t +:+ v) deprecated x) = u ->
  at_word_boundary (named_state (t +:+ v) deprecated x) = negb (word_at (sget 0 u)).
Proof.
  intros Hv Hne Hu. unfold at_word_boundary, next_char. rewrite Hu.
  replace (word_at (before _)) with true; [by destruct u|]. symmetry.
  destruct deprecated; [done|]. unfold named_state. rewrite after_app.
  destruct (after_before v (after t x) Hne) as [[c Hc] Hw]. rewrite Hc.
  apply (Hw is_word); [|done]. revert Hv. apply sall_impl, guard_char_word.
Qed.

Lemma endif_line_pattern v line : sall guard_char v = true -> v <> EmptyString ->
  exists o, MatchE ("#endif\s*//\s*" +:+ v +:+ "(_)?\b") line = inr o /\
  match o with
  | Some m => exists deprecated, closed_by_line v line deprecated
      /\ bool_decide (m_group m 1 = Some "_") = deprecated
  | None => forall deprecated, ~ closed_by_line v line deprecated
  end.
Proof.
  intros Hv Hne. destruct (endif_regexes v Hv) as [Hc _].
  destruct (MatchE_endif (fun u => word_at (sget 0 u) = false) _ _ _ _ line Hc) as (o & E & Ho).
  - intros t dep u Hu. cbn [seq_of den]. rewrite (named_state_boundary t v dep _ u Hv Hne Hu).
    destruct (word_at (sget 0 u)); naive_solver.
  - by intros x y [-> _].
  - exists o. split; [exact E|]. destruct o as [m|].
    + destruct Ho as (dep & u & Hn & Hw & Hb). exists dep. split; [by exists u|done].
    + intros dep (r & Hn & Hw). by apply (Ho dep r).
Qed.

Lemma endif_block_pattern v line : sall guard_char v = true ->
  exists o, MatchE ("#endif\s*/\*\s*" +:+ v +:+ "(_)?\s*\*/") line = inr o /\
  match o with
  | Some m => exists deprecated, closed_by_block v line deprecated
      /\ bool_decide (m_group m 1 = Some "_") = deprecated
  | None => forall deprecated, ~ closed_by_block v line deprecated
  end.
Proof.
  intros Hv. destruct (endif_regexes v Hv) as [_ Hc].
  assert (Htail : forall x y, den no_flags line (seq_of [spaces_re; rlit "*"; rlit "/"]) x y <->
    exists w r, sall is_space w = true /\ rest x = w +:+ "*/" +:+ r /\ y = after (w +:+ "*/") x).
  { intros x y. rewrite den_seq_cons. setoid_rewrite den_spaces.
    setoid_rewrite (den_texts false line "*/"). split.
    - intros (z & (w & u & Hw & Hx & ->) & r & Hz & ->). rewrite (after_rest _ _ _ Hx) in Hz. subst u.
      exists w, r. by rewrite after_app.
    - intros (w & r & Hw & Hx & ->). eexists. split; [by exists w; eexists|].
      exists r. rewrite (after_rest _ _ _ Hx), after_app. done. }
  destruct (MatchE_endif (fun u => exists w r, u = w +:+ "*/" +:+ r /\ sall is_space w = true)
    _ _ _ _ line Hc) as (o & E & Ho).
  - intros t dep u Hu. setoid_rewrite Htail. rewrite Hu. naive_solver.
  - intros x y (w & r & _ & _ & ->)%Htail. apply after_caps.
  - exists o. split; [exact E|]. destruct o as [m|].
    + destruct Ho as (dep & u & Hn & (w & r & -> & Hw) & Hb). exists dep. split; [by exists w, r|done].
    + intros dep (w & r & Hn & Hw). apply (Ho dep (w +:+ "*/" +:+ r)); [done|]. by exists w, r.
Qed.

(** ** [CheckForHeaderGuard] *)

(** A file with the NOLINT comment for header guards, or with #pragma once. *)
Definition exempt (raw_lines : list string) : bool :=
  existsb (fun i => matched (Search NOLINT_GUARD i)) raw_lines
  || existsb (fun i => matched (Search PRAGMA_ONCE i)) raw_lines.

Definition guard_diag (filename : string) (linenum confidence : Z) (message : string) : diag :=
  Diag filename linenum "build/header_guard" confidence message.

(** What is reported for the line that closes the guard [v]: nothing when a // comment
    names it, or another comment does in a file without // comments; the deprecated
    spelling with confidence 0; anything else with confidence 5. *)
Inductive endif_report (filename : string) (raw : list string) (line : string) (ln : Z) (v : string)
    : list diag -> Prop :=
  | report_line deprecated :
      closed_by_line v line deprecated ->
      endif_report filename raw line ln v
        (if deprecated then [guard_diag filename ln 0 (endif_message v)] else [])
  | report_block deprecated :
      (forall d, ~ closed_by_line v line d) -> no_single_line_comments raw = true ->
      closed_by_block v line deprecated ->
      endif_report filename raw line ln v
        (if deprecated then [guard_diag filename ln 0 (endif_c_message v)] else [])
  | report_unclosed :
      (forall d, ~ closed_by_line v line d) ->
      (no_single_line_comments raw = true -> forall d, ~ closed_by_block v line d) ->
      endif_report filename raw line ln v [guard_diag filename ln 5 (endif_message v)].

Lemma endif_found_diags filename g m message :
  outcome (endif_found filename g m message) = inr () /\
  diags (endif_found filename g m message) =
    if bool_decide (m_group m 1 = Some "_") then [guard_diag filename (endif_linenum g) 0 message] else [].
Proof. unfold endif_found. by destruct (bool_decide _). Qed.

(** The check of the #endif line returns and reports what the text asks for. *)
Lemma check_endif_diags filename raw g v :
  sall guard_char v = true -> v <> EmptyString ->
  outcome (check_endif filename raw g v) = inr () /\
  endif_report filename raw (endif g) (endif_linenum g) v (diags (check_endif filename raw g v)).
Proof.
  intros Hv Hne. destruct (endif_line_pattern v (endif g) Hv Hne) as (o1 & E1 & H1).
  destruct (endif_block_pattern v (endif g) Hv) as (o2 & E2 & H2).
  unfold check_endif, liftE. rewrite E1, E2. cbn [bindM].
  destruct o1 as [m|].
  { destruct H1 as (dep & H1 & Hd). destruct (endif_found_diags filename g m (endif_message v)) as [Ho Hds].
    rewrite Hd in Hds. destruct (endif_found _ _ _ _) as [w r]. split; [exact Ho|].
    change (endif_report filename raw (endif g) (endif_linenum g) v (diags (w, r))).
    rewrite Hds. by apply report_line. }
  destruct (no_single_line_comments raw) eqn:En; unfold retM; cbn [bindM].
  2:{ split; [done|]. apply report_unclosed; [done|congruence]. }
  destruct o2 as [m|]; [|split; [done|]; by apply report_unclosed].
  destruct H2 as (dep & H2 & Hd). destruct (endif_found_diags filename g m (endif_c_message v)) as [Ho Hds].
  rewrite Hd in Hds. destruct (endif_found _ _ _ _) as [w r]. split; [exact Ho|].
  change (endif_report filename raw (endif g) (endif_linenum g) v (diags (w, r))).
  rewrite Hds. by apply report_block.
Qed.

(** The report is determined by the line. *)
Lemma spaces_split w : forall w' a b t t',
  sall is_space w = true -> sall is_space w' = true -> is_space a = false -> is_space b = false ->
  w +:+ String a t = w' +:+ String b t' -> w = w' /\ String a t = String b t'.
Proof.
  induction w as [|c w IH]; intros [|c' w'] a b t t' Hw Hw' Ha Hb E; simpl in *; bools;
    simplify_eq; try congruence; [done|].
  destruct (IH w' a b t t') as [-> ->]; done.
Qed.

Lemma sapp_cancel a : forall b c, a +:+ b = a +:+ c -> b = c.
Proof. induction a as [|x a IH]; intros b c E; [done|]. injection E. apply IH. Qed.

Lemma guard_char_not_space c : guard_char c = true -> is_space c = false.
Proof. destruct c as [[] [] [] [] [] [] [] []]; vm_compute; congruence. Qed.

Lemma endif_names_inj a o v line u u' :
  sall guard_char v = true -> v <> EmptyString -> is_space a = false ->
  endif_names (String a o) v line u -> endif_names (String a o) v line u' -> u = u'.
Proof.
  intros Hv Hne Ha (w1 & w2 & H1 & H2 & ->) (w1' & w2' & H1' & H2' & E).
  apply (sapp_cancel "#endif") in E.
  destruct (spaces_split _ _ _ _ _ _ H1 H1' Ha Ha E) as [_ [= E2]].
  apply sapp_cancel in E2. destruct v as [|c v]; [done|]. simpl in Hv. bools.
  apply guard_char_not_space in H. destruct (spaces_split _ _ _ _ _ _ H2 H2' H H E2) as [_ [= E3]].
  by apply sapp_cancel in E3.
Qed.

Lemma closed_by_line_inj v line d d' :
  sall guard_char v = true -> v <> EmptyString ->
  closed_by_line v line d -> closed_by_line v line d' -> d = d'.
Proof.
  intros Hv Hne (r & Hr & Hw) (r' & Hr' & Hw').
  pose proof (endif_names_inj "/" "/" v line _ _ Hv Hne eq_refl Hr Hr') as E.
  destruct d, d'; simpl in E; subst; try done.
Qed.

Lemma closed_by_block_inj v line d d' :
  sall guard_char v = true -> v <> EmptyString ->
  closed_by_block v line d -> closed_by_block v line d' -> d = d'.
Proof.
  intros Hv Hne (w & r & Hr & Hw) (w' & r' & Hr' & Hw').
  pose proof (endif_names_inj "/" "*" v line _ _ Hv Hne eq_refl Hr Hr') as E.
  destruct d, d'; simpl in E; try done; [destruct w' as [|c w']|destruct w as [|c w]];
    simpl in *; simplify_eq; bools; discriminate.
Qed.

Lemma endif_report_functional filename raw line ln v ds ds' :
  sall guard_char v = true -> v <> EmptyString ->
  endif_report filename raw line ln v ds -> endif_report filename raw line ln v ds' -> ds = ds'.
Proof.
  intros Hv Hne [d H|d Hn Hs H|Hn Hs] [d' H'|d' Hn' Hs' H'|Hn' Hs']; try naive_solver.
  - by rewrite (closed_by_line_inj v line d d').
  - by rewrite (closed_by_block_inj v line d d').
Qed.

Lemma py_nth_nat {A} (l : list A) n x : 0 <= n -> l !! Z.to_nat n = Some x -> py_nth l n = Some x.
Proof.
  intros Hn H. unfold py_nth. by rewrite (proj2 (Z.ltb_ge n 0)), (proj2 (Z.ltb_ge n 0)) by lia.
Qed.

Lemma first_directive_inj d l n n' w w' :
  first_directive d l n w -> first_directive d l n' w' -> n = n' /\ w = w'.
Proof.
  intros [(line & Hl & Hd) Hf] [(line' & Hl' & Hd') Hf'].
  destruct (lt_eq_lt_dec n n') as [[H | ->]|H].
  - by destruct (Hf' n line w H Hl).
  - split; [done|]. destruct Hd as [r E], Hd' as [r' E']. congruence.
  - by destruct (Hf n' line' w' H Hl').
Qed.

(** The value a scan found is the first directive of the file. *)
Lemma found_first d l w n n' w' :
  found (first_directive d l) w n -> first_directive d l n' w' -> w = w' /\ n = Z.of_nat n'.
Proof.
  intros [(_ & _ & Hno)|(_ & Hn & Hf)] H; [by destruct (Hno n' w')|].
  destruct (first_directive_inj _ _ _ _ _ _ Hf H) as [<- <-]. split; [done|lia].
Qed.

Lemma found_last l w n n' w' :
  found (last_endif l) w n -> last_endif l n' w' -> w = w' /\ n = Z.of_nat n'.
Proof.
  intros [(_ & _ & Hno)|(_ & Hn & Hl & Hs & Hmax)] H; [by destruct (Hno n' w')|].
  destruct H as (Hl' & Hs' & Hmax'). destruct (lt_eq_lt_dec (Z.to_nat n) n') as [[H|H]|H].
  - by rewrite (Hmax n' w' H Hl') in Hs'.
  - subst n'. split; [congruence|lia].
  - by rewrite (Hmax' (Z.to_nat n) w H Hl) in Hs.
Qed.

Lemma guard_missing_false raw :
  guard_missing (find_guards raw) = false ->
  exists n k, ifndef_linenum (find_guards raw) = Z.of_nat n /\
    first_directive "#ifndef" raw n (ifndef (find_guards raw)) /\
    first_directive "#define" raw k (ifndef (find_guards raw)).
Proof.
  intros H. unfold guard_missing in H. bools.
  destruct (find_guards_spec raw) as ([(? & _)|(_ & Hn & Hi)] & (k & [(? & _)|(_ & Hk & Hd)]) & _);
    try congruence.
  eexists _, _. rewrite H0. split; [|split; [|exact Hd]]; [by rewrite Z2Nat.id|].
  by rewrite <- H0.
Qed.

Lemma guard_missing_agree raw n k name :
  first_directive "#ifndef" raw n name -> first_directive "#define" raw k name ->
  guard_missing (find_guards raw) = false /\ ifndef (find_guards raw) = name /\
  ifndef_linenum (find_guards raw) = Z.of_nat n.
Proof.
  intros Hi Hd. destruct (find_guards_spec raw) as (Fi & (k' & Fd) & _).
  destruct (found_first _ _ _ _ _ _ Fi Hi) as [E1 E2]. destruct (found_first _ _ _ _ _ _ Fd Hd) as [E3 _].
  split; [|done]. unfold guard_missing. rewrite E1, E3, String.eqb_refl.
  destruct Hi as [(line & _ & Hw) _]. apply directive_nonempty in Hw.
  by destruct (String.eqb name EmptyString) eqn:E; bools.
Qed.

(** What is left of the check when the guard names agree. *)
Lemma guard_present_diags filename raw v n :
  sall guard_char v = true -> v <> EmptyString ->
  let g := find_guards raw in
  guard_missing g = false -> ifndef_linenum g = Z.of_nat n ->
  forall m, m = check_guard filename raw g v ->
  outcome m = inr () /\
  exists endif_ds, diags m =
    (if String.eqb (ifndef g) v then []
     else [guard_diag filename (Z.of_nat n) (if String.eqb (ifndef g) (v +:+ "_") then 0 else 5)
             ("#ifndef header guard has wrong style, please use: " +:+ v)]) ++ endif_ds /\
    endif_report filename raw (endif g) (endif_linenum g) v endif_ds.
Proof.
  intros Hv Hne g Hm Hn m ->. unfold check_guard.
  destruct (guard_missing_false raw Hm) as (n' & k & En & ((line & Hl & _) & _) & _).
  assert (n' = n) as -> by (fold g in En; lia).
  destruct (find_guards_spec raw) as (_ & _ & He). fold g in He.
  assert (He' : exists eline, py_nth raw (endif_linenum g) = Some eline).
  { destruct He as [(_ & E0 & _)|(_ & H0 & Hlast)].
    - rewrite E0. destruct raw as [|x raw]; [by rewrite lookup_nil in Hl|]. by exists x.
    - exists (endif g). apply py_nth_nat; [done|apply Hlast]. }
  destruct He' as (eline & Eline).
  assert (Hp : py_nth raw (ifndef_linenum g) = Some line)
    by (rewrite Hn; apply py_nth_nat; [lia|by rewrite Nat2Z.id]).
  rewrite Eline. destruct (check_endif_diags filename raw g v Hv Hne) as (Ho & Hds).
  destruct (check_endif filename raw g v) as [w r]. cbn [outcome snd] in Ho. subst r.
  destruct (String.eqb (ifndef g) v); cbn [negb mwhen]; [|rewrite Hp]; rewrite ?Hn.
  all: (split; [done|]); eexists; (split; [|exact Hds]); done.
Qed.

(** The variable always has this form when there is one. *)
Lemma GuardVariable_form exists_ cwd cfg filename v :
  GetHeaderGuardCPPVariable exists_ cwd cfg filename = inr v ->
  sall guard_char v = true /\ v <> EmptyString.
Proof.
  unfold GetHeaderGuardCPPVariable. destruct (RepositoryName _ _ _ _) as [e|r]; [done|]. cbn [bindE].
  destruct (FixupPathFromRoot _ _ _ _) as [e|path]; [done|]. cbn [bindE].
  rewrite guard_of_path_eq. intros [= <-]. split; [apply guard_of_path_chars|].
  unfold guard_of_path. by destruct (smap _ path).
Qed.


(** A header of the repository with a guard of the wrong style. *)
Definition guard_lines : list string :=
  ["// Copyright"; "#ifndef SRC_CORE_CACHE_H"; "#define SRC_CORE_CACHE_H"; "#endif"; "//"].
Definition guard_demo : CleansedLines :=
  match cleanse guard_lines with inr c => c | inl _ => Cleansed [] [] [] 0 [] end.

Lemma bare_endif_not_closed o v u : ~ endif_names (String "/" o) v "#endif" u.
Proof. intros (w1 & w2 & _ & _ & E). apply (sapp_cancel "#endif" EmptyString) in E. by destruct w1. Qed.



(** The example of the docstring of [PathSplitToList], as the code answers it. *)
Theorem PathSplitToList_docstring : PathSplitToList "/a/b/c/" = inr ["/"; "a"; "b"; "c"; EmptyString].
Proof. reflexivity. Qed.
