(* ===== verification/LineChecks.v ===== *)
(** * Checks of whole files and of single lines of cpplint.py

    [CheckForBadCharacters], [CheckForNewlineAtEOF],
    [CheckForMultilineCommentsAndStrings], [CheckPosixThreading],
    [CheckVlogArguments], [CheckInvalidIncrement], [IsMacroDefinition] and
    [IsForwardClassDeclaration]. *)

From stdpp Require Import base list strings.
From Stdlib Require Import ZArith Lia Ascii.
From S2P Require Import Prelude PyString Regex RegexParse PyRe RegexFacts Cleanse.
Local Open Scope Z_scope.
Local Open Scope py_scope.

(** [for linenum, line in enumerate(lines)], from line [n] on. *)
Fixpoint menumerate {A} (n : Z) (lines : list A) (body : Z -> A -> M unit) : M unit :=
  match lines with
  | [] => retM ()
  | line :: lines' => body n line ;;; menumerate (n + 1) lines' body
  end.

(** This check is the one that looks for a character outside Latin-1, so its lines
    are lists of code points. *)
Definition CheckForBadCharacters (filename : string) (lines : list (list N)) : M unit :=
  menumerate 0 lines (fun linenum line =>
    mwhen (bool_decide (65533%N ∈ line))
      (error filename linenum "readability/utf8" 5
         "Line contains invalid UTF-8 (or Unicode replacement character).") ;;;
    mwhen (bool_decide (0%N ∈ line))
      (error filename linenum "readability/nul" 5 "Line contains NUL byte.")).

(** [len(lines) < 3 or lines[-2]]. *)
Definition CheckForNewlineAtEOF (filename : string) (lines : list string) : M unit :=
  let n := Z.of_nat (length lines) in
  mwhen ((n <? 3) || match py_nth lines (-2) with
                     | Some line => negb (String.eqb line EmptyString)
                     | None => false
                     end)
    (error filename (n - 2) "whitespace/ending_newline" 5
       "Could not find a newline character at the end of the file.").

Definition multiline_comment_message : string :=
  "Complex multi-line /*...*/-style comment found. "
  +:+ "Lint may give bogus warnings.  "
  +:+ "Consider replacing these with //-style comments, "
  +:+ "with #if 0...#endif, "
  +:+ "or with more clearly structured multi-line comments.".
Definition multiline_string_message : string :=
  "Multi-line string (" +:+ dquote +:+ "..." +:+ dquote +:+ ") found.  This lint script doesn't "
  +:+ "do well with such strings, and may give bogus warnings.  "
  +:+ "Use C++11 raw strings or concatenation instead.".

(** A line without its escaped backslashes opens more comments than it closes. *)
Definition opens_more_comments (line : string) : bool := str_count line "*/" <? str_count line "/*".
(** Its number of quotes that are not escaped is odd. *)
Definition odd_quotes (line : string) : bool :=
  negb ((str_count line dquote - str_count line ("\" +:+ dquote)) mod 2 =? 0).

Definition CheckForMultilineCommentsAndStrings (filename : string) (clean_lines : CleansedLines)
    (linenum : Z) : M unit :=
  let* line := try_get IndexError (py_nth (elided clean_lines) linenum) in
  let line := str_replace line "\\" EmptyString in
  mwhen (opens_more_comments line)
    (error filename linenum "readability/multiline_comment" 5 multiline_comment_message) ;;;
  mwhen (odd_quotes line)
    (error filename linenum "readability/multiline_string" 5 multiline_string_message).

(** ** Thread safety *)

Definition UNSAFE_FUNC_PREFIX : string := "(?:[-+*/=%^&|(<]\s*|>\s+)".

(** The function, its thread-safe alternative and the validation pattern. *)
Definition THREADING_LIST : list (string * string * string) :=
  [ ("asctime(", "asctime_r(", UNSAFE_FUNC_PREFIX +:+ "asctime\([^)]+\)");
    ("ctime(", "ctime_r(", UNSAFE_FUNC_PREFIX +:+ "ctime\([^)]+\)");
    ("getgrgid(", "getgrgid_r(", UNSAFE_FUNC_PREFIX +:+ "getgrgid\([^)]+\)");
    ("getgrnam(", "getgrnam_r(", UNSAFE_FUNC_PREFIX +:+ "getgrnam\([^)]+\)");
    ("getlogin(", "getlogin_r(", UNSAFE_FUNC_PREFIX +:+ "getlogin\(\)");
    ("getpwnam(", "getpwnam_r(", UNSAFE_FUNC_PREFIX +:+ "getpwnam\([^)]+\)");
    ("getpwuid(", "getpwuid_r(", UNSAFE_FUNC_PREFIX +:+ "getpwuid\([^)]+\)");
    ("gmtime(", "gmtime_r(", UNSAFE_FUNC_PREFIX +:+ "gmtime\([^)]+\)");
    ("localtime(", "localtime_r(", UNSAFE_FUNC_PREFIX +:+ "localtime\([^)]+\)");
    ("rand(", "rand_r(", UNSAFE_FUNC_PREFIX +:+ "rand\(\)");
    ("strtok(", "strtok_r(", UNSAFE_FUNC_PREFIX +:+ "strtok\([^)]+\)");
    ("ttyname(", "ttyname_r(", UNSAFE_FUNC_PREFIX +:+ "ttyname\([^)]+\)") ].

Definition CheckPosixThreading (filename : string) (clean_lines : CleansedLines) (linenum : Z)
    : M unit :=
  let* line := try_get IndexError (py_nth (elided clean_lines) linenum) in
  mfor THREADING_LIST (fun '(single_thread_func, multithread_safe_func, pattern) =>
    mwhen (matched (Search pattern line))
      (error filename linenum "runtime/threadsafe_fn" 2
         ("Consider using " +:+ multithread_safe_func +:+ "...) instead of " +:+ single_thread_func
          +:+ "...) for improved thread safety."))).

(** ** Logging and increments *)

Definition VLOG_SYMBOLIC : string := "\bVLOG\((INFO|ERROR|WARNING|DFATAL|FATAL)\)".

Definition CheckVlogArguments (filename : string) (clean_lines : CleansedLines) (linenum : Z)
    : M unit :=
  let* line := try_get IndexError (py_nth (elided clean_lines) linenum) in
  mwhen (matched (Search VLOG_SYMBOLIC line))
    (error filename linenum "runtime/vlog" 5
       ("VLOG() should be used with numeric verbosity level.  "
        +:+ "Use LOG() if you want symbolic severity levels.")).

Definition RE_PATTERN_INVALID_INCREMENT : pattern := pat "^\s*\*\w+(\+\+|--);".

Definition CheckInvalidIncrement (filename : string) (clean_lines : CleansedLines) (linenum : Z)
    : M unit :=
  let* line := try_get IndexError (py_nth (elided clean_lines) linenum) in
  mwhen (matched (re_match RE_PATTERN_INVALID_INCREMENT line))
    (error filename linenum "runtime/invalid_increment" 5
       "Changing pointer instead of value (or unused value of operator*).").

(** ** Questions about a line; [clean_lines] is a list of lines here *)

Definition IsMacroDefinition (clean_lines : list string) (linenum : Z) : exn + bool :=
  let? line := match py_nth clean_lines linenum with Some l => inr l | None => inl IndexError end in
  if matched (Search "^#define" line) then inr true
  else if 0 <? linenum then
    let? previous :=
      match py_nth clean_lines (linenum - 1) with Some l => inr l | None => inl IndexError end in
    inr (matched (Search "\\$" previous))
  else inr false.

Definition IsForwardClassDeclaration (clean_lines : list string) (linenum : Z)
    : exn + option mobj :=
  let? line := match py_nth clean_lines linenum with Some l => inr l | None => inl IndexError end in
  inr (Match "^\s*(\btemplate\b)*.*class\s+\w+;\s*$" line).

(** ** Properties *)

(** The lines [ProcessFileData] makes of a text: split at the newlines, with a
    marker before and after. *)
Definition file_lines (text : string) : list string :=
  ["// marker so line numbers and indices both start at 1"]
  ++ split_char (ascii_of_N 10) text
  ++ ["// marker so line numbers end in a known way"].

Lemma split_char_snoc sep s :
  split_char sep (s +:+ String sep EmptyString) = split_char sep s ++ [EmptyString].
Proof.
  induction s as [|c s IH]; simpl; [by rewrite Ascii.eqb_refl|].
  destruct (Ascii.eqb c sep); rewrite IH; [done|].
  pose proof (split_char_nonempty sep s). by destruct (split_char sep s).
Qed.

(** The last piece is empty exactly when nothing follows the last separator. *)
Lemma split_char_last sep s :
  last (split_char sep s) = Some EmptyString <->
  s = EmptyString \/ exists t, s = t +:+ String sep EmptyString.
Proof.
  split.
  - intros H. destruct (decide (s = EmptyString)) as [->|Hne]; [by left|right].
    revert H Hne. induction s as [|c s IH]; [done|]. intros H _. simpl in H.
    destruct (Ascii.eqb c sep) eqn:E; bools; [subst|].
    + destruct s as [|d s]; [by exists EmptyString|].
      destruct IH as [t Ht]; [|done|exists (String sep t); by rewrite Ht].
      destruct (split_char sep (String d s)) eqn:Es; [by destruct (split_char_nonempty sep (String d s))|].
      exact H.
    + destruct s as [|d s]; [done|].
      destruct IH as [t Ht]; [|done|exists (String c t); by rewrite Ht].
      destruct (split_char sep (String d s)) as [|w [|w' ws]] eqn:Es.
      * by destruct (split_char_nonempty sep (String d s)).
      * done.
      * exact H.
  - intros [->|[t ->]]; [done|]. by rewrite split_char_snoc, last_snoc.
Qed.

Lemma py_nth_second_last {A} (l : list A) (x y : A) : py_nth (l ++ [x; y]) (-2) = Some x.
Proof.
  unfold py_nth. rewrite length_app. simpl.
  replace (-2 + Z.of_nat (length l + 2)) with (Z.of_nat (length l)) by lia.
  rewrite (proj2 (Z.ltb_ge _ _)) by lia. rewrite Nat2Z.id, lookup_app_r by lia.
  by rewrite Nat.sub_diag.
Qed.



Lemma menumerate_diags {A} (body : Z -> A -> M unit) (ds : Z -> A -> list diag) :
  (forall n x, body n x = (map Report (ds n x), inr ())) ->
  forall l n, menumerate n l body = (map Report (concat (imap (fun i x => ds (n + Z.of_nat i) x) l)), inr ()).
Proof.
  intros Hb l. induction l as [|x l IH]; intros n; [done|]. cbn [menumerate].
  rewrite Hb, IH. cbn. rewrite map_app, Z.add_0_r.
  assert (E : imap (fun i y => ds (n + 1 + Z.of_nat i) y) l
    = imap ((fun i y => ds (n + Z.of_nat i) y) ∘ S) l)
    by (apply imap_ext; intros i y _; simpl; f_equal; lia).
  by rewrite E.
Qed.

Lemma reports_map ds : reports (map Report ds) = ds.
Proof. induction ds as [|d ds IH]; [done|]. cbn. f_equal. exact IH. Qed.

(** [CheckForBadCharacters] reports exactly the lines with a bad character: the
    replacement character under readability/utf8, NUL under readability/nul. *)
Theorem bad_characters_exact (filename : string) (lines : list (list N)) (d : diag) :
  let m := CheckForBadCharacters filename lines in
  outcome m = inr () /\
  (In d (diags m) <-> exists n line, lines !! n = Some line /\ d_file d = filename /\
     d_line d = Z.of_nat n /\ d_confidence d = 5 /\
     ((65533%N ∈ line /\ d_category d = "readability/utf8" /\
       d_message d = "Line contains invalid UTF-8 (or Unicode replacement character).") \/
      (0%N ∈ line /\ d_category d = "readability/nul" /\ d_message d = "Line contains NUL byte."))).
Proof.
  set (utf8 n := Diag filename n "readability/utf8" 5
    "Line contains invalid UTF-8 (or Unicode replacement character).").
  set (nul n := Diag filename n "readability/nul" 5 "Line contains NUL byte.").
  cbv zeta. unfold CheckForBadCharacters.
  rewrite (menumerate_diags _ (fun n (line : list N) =>
    (if bool_decide (65533%N ∈ line) then [utf8 n] else [])
    ++ (if bool_decide (0%N ∈ line) then [nul n] else []))).
  2: { intros n line. by destruct (bool_decide (65533%N ∈ line)), (bool_decide (0%N ∈ line)). }
  split; [done|]. unfold diags. cbn [fst]. rewrite reports_map, in_concat. split.
  - intros (ds & Hds & Hd). apply list_elem_of_In, elem_of_lookup_imap in Hds as (n & line & -> & Hl).
    exists n, line. split; [done|]. rewrite Z.add_0_l in Hd. apply in_app_iff in Hd.
    destruct Hd as [Hd|Hd]; case_bool_decide; simpl in Hd; destruct Hd as [<-|[]] || destruct Hd;
      simpl; auto 10.
  - intros (n & line & Hl & Hf & Hn & Hc & Hk). eexists. split.
    + apply list_elem_of_In. apply elem_of_lookup_imap. eauto.
    + rewrite Z.add_0_l. apply in_app_iff. destruct d as [f ln c k msg]; simpl in *; subst.
      destruct Hk as [(Hk & -> & ->)|(Hk & -> & ->)]; [left|right];
        rewrite bool_decide_true by done; by left.
Qed.
