(* ===== verification/Nesting.v ===== *)
(** * Blocks and the nesting state of cpplint.py

    [_BlockInfo], [_ExternCInfo], [_ClassInfo], [_NamespaceInfo],
    [_PreprocessorInfo] and [NestingState].  The stacks are lists whose head is the
    top.  A block is an object: [oid] is its identity, new for every object that is
    built and for every object that [copy.deepcopy] copies.  The blocks on the stack
    are modified in place, so [previous_stack_top], which the sources only test for
    its class and its identity, is the reference to a block and not a copy of it. *)

From stdpp Require Import base list strings gmap.
From Stdlib Require Import ZArith Lia Ascii.
From S2P Require Import Prelude PyString Regex RegexParse PyRe RegexFacts Config Cleanse Expr HeaderGuard.
Local Open Scope Z_scope.
Local Open Scope py_scope.

(** ** Blocks *)

Record class_info := ClassInfo {
  class_name : string;
  is_derived : bool;
  access : string;
  is_struct : bool;
  class_indent : Z;
  last_line : Z
}.

(** The class of a block, with the attributes that only it has. *)
Inductive block_kind :=
  | BlockInfo
  | ExternCInfo
  | KClass (ci : class_info)
  | NamespaceInfo (name : string).

Record block := Block {
  oid : nat;
  kind : block_kind;
  starting_linenum : Z;
  seen_open_brace : bool;
  open_parentheses : Z;
  inline_asm : asm_state;
  check_namespace_indentation : bool
}.

(** [_BlockInfo.__init__] for each class. *)
Definition new_block (n : nat) (linenum : Z) (seen : bool) : block :=
  Block n BlockInfo linenum seen 0 NO_ASM false.
Definition new_extern_c (n : nat) (linenum : Z) : block :=
  Block n ExternCInfo linenum true 0 NO_ASM false.
Definition new_namespace (n : nat) (name : option string) (linenum : Z) : block :=
  Block n (NamespaceInfo (default EmptyString name)) linenum false 0 NO_ASM true.

(** Attribute updates. *)
Definition set_seen (b : block) : block :=
  Block (oid b) (kind b) (starting_linenum b) true (open_parentheses b) (inline_asm b)
    (check_namespace_indentation b).
Definition set_kind (k : block_kind) (b : block) : block :=
  Block (oid b) k (starting_linenum b) (seen_open_brace b) (open_parentheses b) (inline_asm b)
    (check_namespace_indentation b).
Definition set_asm (p : Z) (a : asm_state) (b : block) : block :=
  Block (oid b) (kind b) (starting_linenum b) (seen_open_brace b) p a
    (check_namespace_indentation b).
Definition set_oid (n : nat) (b : block) : block :=
  Block n (kind b) (starting_linenum b) (seen_open_brace b) (open_parentheses b) (inline_asm b)
    (check_namespace_indentation b).

Definition IsBlockInfo (b : block) : bool :=
  match kind b with BlockInfo => true | _ => false end.
Definition is_namespace (b : block) : bool :=
  match kind b with NamespaceInfo _ => true | _ => false end.
Definition is_class (b : block) : bool := match kind b with KClass _ => true | _ => false end.
Definition is_extern_c (b : block) : bool := match kind b with ExternCInfo => true | _ => false end.

(** The line on which a class ends: the first of the [n] lines from line [i] after
    which as many braces were closed as opened. *)
Fixpoint class_last_line (n : nat) (c : CleansedLines) (i depth : Z) : exn + Z :=
  match n with
  | O => inr 0
  | S n' =>
      match py_nth (elided c) i with
      | None => inl IndexError
      | Some line =>
          let depth := depth + (str_count line "{" - str_count line "}") in
          if depth =? 0 then inr i else class_last_line n' c (i + 1) depth
      end
  end.

Definition new_class (n : nat) (name class_or_struct : string) (c : CleansedLines) (linenum : Z)
    : exn + block :=
  let struct := String.eqb class_or_struct "struct" in
  let? raw := match py_nth (raw_lines c) linenum with Some l => inr l | None => inl IndexError end in
  let? last := class_last_line (Z.to_nat (NumLines c - linenum)) c linenum 0 in
  inr (Block n (KClass (ClassInfo name false (if struct then "public" else "private") struct
                          (GetIndentLevel raw) last))
         linenum false 0 NO_ASM true).

(** [CheckBegin]: only a class does something. *)
Definition BARE_COLON : string := "(^|[^:]):($|[^:])".
Definition CheckBegin (c : CleansedLines) (linenum : Z) (b : block) : exn + block :=
  match kind b with
  | KClass ci =>
      let? line := match py_nth (elided c) linenum with Some l => inr l | None => inl IndexError end in
      inr (if matched (Search BARE_COLON line)
           then set_kind (KClass (ClassInfo (class_name ci) true (access ci) (is_struct ci)
                                    (class_indent ci) (last_line ci))) b
           else b)
  | _ => inr b
  end.

Definition parent_name (ci : class_info) : string :=
  (if is_struct ci then "struct " else "class ") +:+ class_name ci.

(** The loop over the lines of a class from its end: [n] lines from line [i]
    backwards. *)
Fixpoint disallow_loop (n : nat) (filename : string) (c : CleansedLines) (name : string) (i : Z)
    (seen_last_thing : bool) : M unit :=
  match n with
  | O => retM ()
  | S n' =>
      let* line := try_get IndexError (py_nth (elided c) i) in
      let* m := liftE (SearchE ("\b(DISALLOW_COPY_AND_ASSIGN|DISALLOW_IMPLICIT_CONSTRUCTORS)\("
                                +:+ name +:+ "\)") line) in
      match m with
      | Some m => mwhen seen_last_thing
                    (error filename i "readability/constructors" 3
                       (m_text m 1 +:+ " should be the last thing in the class"))
      | None => disallow_loop n' filename c name (i - 1)
                  (seen_last_thing || negb (matched (Match "^\s*$" line)))
      end
  end.

Definition class_CheckEnd (filename : string) (c : CleansedLines) (linenum : Z) (b : block)
    (ci : class_info) : M unit :=
  disallow_loop (Z.to_nat (linenum - 1 - starting_linenum b)) filename c (class_name ci)
    (linenum - 1) false ;;;
  let* line := try_get IndexError (py_nth (elided c) linenum) in
  match Match "^( *)\}" line with
  | Some indent =>
      mwhen (negb (zlen (m_text indent 1) =? class_indent ci))
        (error filename linenum "whitespace/indent" 3
           ("Closing brace should be aligned with beginning of " +:+ parent_name ci))
  | None => retM ()
  end.

Definition NAMESPACE_END : string := "^\s*};*\s*(//|/\*).*\bnamespace\b".
Definition NAMESPACE_END_NAMED : string := "^\s*};*\s*(//|/\*).*\bnamespace\s+".
Definition NAMESPACE_END_ANONYMOUS : string := "^\s*};*\s*(//|/\*).*\bnamespace[\*/\.\\\s]*$".
Definition NAMESPACE_ANONYMOUS_WORDS : string :=
  "^\s*}.*\b(namespace anonymous|anonymous namespace)\b".

Definition namespace_CheckEnd (filename : string) (c : CleansedLines) (linenum : Z) (b : block)
    (name : string) : M unit :=
  let report message := error filename linenum "readability/namespace" 5 message in
  let* line := try_get IndexError (py_nth (raw_lines c) linenum) in
  if (linenum - starting_linenum b <? 10) && negb (matched (Match NAMESPACE_END line)) then retM ()
  else if negb (String.eqb name EmptyString) then
    let* m := liftE (MatchE (NAMESPACE_END_NAMED +:+ re_escape name +:+ "[\*/\.\\\s]*$") line) in
    mwhen (negb (matched m))
      (report ("Namespace should be terminated with " +:+ dquote +:+ "// namespace " +:+ name
               +:+ dquote))
  else
    mwhen (negb (matched (Match NAMESPACE_END_ANONYMOUS line)))
      (if matched (Match NAMESPACE_ANONYMOUS_WORDS line)
       then report ("Anonymous namespace should be terminated with " +:+ dquote +:+ "// namespace"
                    +:+ dquote +:+ " or " +:+ dquote +:+ "// anonymous namespace" +:+ dquote)
       else report ("Anonymous namespace should be terminated with " +:+ dquote +:+ "// namespace"
                    +:+ dquote)).

Definition CheckEnd (filename : string) (c : CleansedLines) (linenum : Z) (b : block) : M unit :=
  match kind b with
  | KClass ci => class_CheckEnd filename c linenum b ci
  | NamespaceInfo name => namespace_CheckEnd filename c linenum b name
  | _ => retM ()
  end.

(** ** [NestingState] *)

(** A reference to a block: its identity and its class. *)
Inductive block_class := CBlockInfo | CExternCInfo | CClassInfo | CNamespaceInfo.
Definition class_of (b : block) : block_class :=
  match kind b with
  | BlockInfo => CBlockInfo
  | ExternCInfo => CExternCInfo
  | KClass _ => CClassInfo
  | NamespaceInfo _ => CNamespaceInfo
  end.
Record ref := Ref { r_oid : nat; r_class : block_class }.
Definition ref_of (b : block) : ref := Ref (oid b) (class_of b).

Record preprocessor_info := PreprocessorInfo {
  stack_before_if : list block;
  stack_before_else : list block;
  seen_else : bool
}.

(** [next_oid] is the identity of the next object. *)
Record nesting_state := NestingState {
  stack : list block;
  previous_stack_top : option ref;
  pp_stack : list preprocessor_info;
  next_oid : nat
}.

Definition initial_nesting : nesting_state := NestingState [] None [] 0.

Definition set_stack (s : list block) (st : nesting_state) : nesting_state :=
  NestingState s (previous_stack_top st) (pp_stack st) (next_oid st).
(** [self.stack.append(b)] for an object made with the next identity. *)
Definition push_block (b : nat -> block) (st : nesting_state) : nesting_state :=
  NestingState (b (next_oid st) :: stack st) (previous_stack_top st) (pp_stack st) (S (next_oid st)).
(** [copy.deepcopy] of a stack, the first copy with identity [n]. *)
Definition deepcopy (n : nat) (s : list block) : list block := imap (fun i b => set_oid (n + i) b) s.

Definition SeenOpenBrace (st : nesting_state) : bool :=
  match stack st with [] => true | b :: _ => seen_open_brace b end.
Definition InNamespaceBody (st : nesting_state) : bool :=
  match stack st with [] => false | b :: _ => is_namespace b end.
Definition InExternC (st : nesting_state) : bool :=
  match stack st with [] => false | b :: _ => is_extern_c b end.
Definition InClassDeclaration (st : nesting_state) : bool :=
  match stack st with [] => false | b :: _ => is_class b end.
Definition InAsmBlock (st : nesting_state) : bool :=
  match stack st with [] => false | b :: _ => negb (bool_decide (inline_asm b = NO_ASM)) end.

(** ** [InTemplateArgumentList] *)

Definition TEMPLATE_TOKEN : string := "^[^{};=\[\]\.<>]*(.)".

(** The loop; every round moves the position forward, so as many rounds as the
    lines from [linenum] on have characters and ends are enough. *)
Fixpoint template_loop (fuel : nat) (c : CleansedLines) (linenum pos : Z) : exn + bool :=
  match fuel with
  | O => inl FuelExhausted
  | S fuel' =>
      if NumLines c <=? linenum then inr false
      else
        match py_nth (elided c) linenum with
        | None => inl IndexError
        | Some line =>
            match Match TEMPLATE_TOKEN (slice_from line pos) with
            | None => template_loop fuel' c (linenum + 1) 0
            | Some m =>
                let token := m_text m 1 in
                let pos := pos + zlen (m_text m 0) in
                if str_mem token ["{"; "}"; ";"] then inr false
                else if str_mem token [">"; "="; "["; "]"; "."] then inr true
                else if negb (String.eqb token "<") then
                  if zlen line <=? pos + 1 then template_loop fuel' c (linenum + 1) 0
                  else template_loop fuel' c linenum (pos + 1)
                else
                  let? ' (_, end_line, end_pos) := CloseExpression c linenum (pos - 1) in
                  if end_pos <? 0 then inr false else template_loop fuel' c end_line end_pos
            end
        end
  end.

(** The characters and line ends from line [linenum] on. *)
Definition text_size (c : CleansedLines) (linenum : Z) : nat :=
  list_sum (map (fun l => S (String.length l)) (drop (Z.to_nat linenum) (elided c))).

Definition InTemplateArgumentList (c : CleansedLines) (linenum pos : Z) : exn + bool :=
  template_loop (S (text_size c linenum)) c linenum pos.

(** ** [UpdatePreprocessor] *)

Definition PP_IF : string := "^\s*#\s*(if|ifdef|ifndef)\b".
Definition PP_ELSE : string := "^\s*#\s*(else|elif)\b".
Definition PP_ENDIF : string := "^\s*#\s*endif\b".

Definition UpdatePreprocessor (line : string) (st : nesting_state) : nesting_state :=
  let n := next_oid st in
  let k := length (stack st) in
  if matched (Match PP_IF line) then
    NestingState (stack st) (previous_stack_top st)
      (PreprocessorInfo (deepcopy n (stack st)) [] false :: pp_stack st) (n + k)
  else if matched (Match PP_ELSE line) then
    match pp_stack st with
    | [] => st
    | top :: rest =>
        let top' := if seen_else top then top
                    else PreprocessorInfo (stack_before_if top) (deepcopy n (stack st)) true in
        let n' := if seen_else top then n else (n + k)%nat in
        NestingState (deepcopy n' (stack_before_if top)) (previous_stack_top st) (top' :: rest)
          (n' + length (stack_before_if top))
    end
  else if matched (Match PP_ENDIF line) then
    match pp_stack st with
    | [] => st
    | top :: rest =>
        NestingState (if seen_else top then stack_before_else top else stack st)
          (previous_stack_top st) rest n
    end
  else st.

(** ** [Update] *)

(** The parentheses of the line, counted in the innermost block, and whether it
    starts or ends inline assembly. *)
Definition update_asm (line : string) (b : block) : block :=
  let depth_change := str_count line "(" - str_count line ")" in
  let p := open_parentheses b + depth_change in
  set_asm p
    (match inline_asm b with
     | NO_ASM | END_ASM =>
         if negb (depth_change =? 0) && (p =? 1) && matched (re_match MATCH_ASM line)
         then INSIDE_ASM else NO_ASM
     | INSIDE_ASM => if p =? 0 then END_ASM else INSIDE_ASM
     | BLOCK_ASM => BLOCK_ASM
     end) b.

Definition update_top (f : block -> block) (st : nesting_state) : nesting_state :=
  match stack st with [] => st | b :: s => set_stack (f b :: s) st end.

Definition NAMESPACE_DECL : string := "^\s*namespace\b\s*([:\w]+)?(.*)$".

(** [while True] over the namespaces at the start of the line; the line gets
    shorter each time. *)
Fixpoint namespace_loop (fuel : nat) (linenum : Z) (line : string) (st : nesting_state)
    : exn + (string * nesting_state) :=
  match fuel with
  | O => inl FuelExhausted
  | S fuel' =>
      match Match NAMESPACE_DECL line with
      | None => inr (line, st)
      | Some m =>
          let st := push_block (fun n => new_namespace n (m_group m 1) linenum) st in
          let line := m_text m 2 in
          if str_find line "{" =? -1 then namespace_loop fuel' linenum line st
          else namespace_loop fuel' linenum (slice_from line (str_find line "{" + 1))
                 (update_top set_seen st)
      end
  end.

Definition CLASS_DECL : string :=
  "^(\s*(?:template\s*<[\w\s<>,:=]*>\s*)?"
  +:+ "(class|struct)\s+(?:[A-Z_]+\s+)*(\w+(?:::\w+)*))"
  +:+ "(.*)$".

(** A class declaration in what is left of the line. *)
Definition update_class (c : CleansedLines) (linenum : Z) (line : string) (st : nesting_state)
    : exn + (string * nesting_state) :=
  match Match CLASS_DECL line with
  | Some m =>
      if match stack st with [] => true | b :: _ => open_parentheses b =? 0 end then
        let end_declaration := zlen (m_text m 1) in
        let? in_template := InTemplateArgumentList c linenum end_declaration in
        if in_template then inr (line, st)
        else
          let? b := new_class (next_oid st) (m_text m 3) (m_text m 2) c linenum in
          inr (m_text m 4, push_block (fun _ => b) st)
      else inr (line, st)
  | None => inr (line, st)
  end.

(** [if not self.SeenOpenBrace(): self.stack[-1].CheckBegin(...)]. *)
Definition update_begin (c : CleansedLines) (linenum : Z) (st : nesting_state) : exn + nesting_state :=
  match stack st with
  | [] => inr st
  | b :: s =>
      if seen_open_brace b then inr st
      else let? b' := CheckBegin c linenum b in inr (set_stack (b' :: s) st)
  end.

Definition ACCESS_KEYWORD : string :=
  "^(.*)\b(public|private|protected|signals)(\s+(?:slots\s*)?)?" +:+ ":(?:[^:]|$)".

(** The access keyword of a line inside a class, and its indentation. *)
Definition update_access (filename : string) (linenum : Z) (line : string) (st : nesting_state)
    : M nesting_state :=
  match stack st with
  | b :: s =>
      match kind b with
      | KClass ci =>
          match Match ACCESS_KEYWORD line with
          | Some m =>
              let ci' := ClassInfo (class_name ci) (is_derived ci) (m_text m 2) (is_struct ci)
                           (class_indent ci) (last_line ci) in
              let indent := m_text m 1 in
              mwhen (negb (zlen indent =? class_indent ci + 1) && matched (Match "^\s*$" indent))
                (error filename linenum "whitespace/indent" 3
                   (m_text m 2 +:+ m_text m 3 +:+ ": should be indented +1 space inside "
                    +:+ parent_name ci)) ;;;
              retM (set_stack (set_kind (KClass ci') b :: s) st)
          | None => retM st
          end
      | _ => retM st
      end
  | [] => retM st
  end.

Definition BRACE_TOKEN : string := "^[^{;)}]*([{;)}])(.*)$".
Definition EXTERN_C : string := "^extern\s*\x22[^\x22]*\x22\s*\{".

(** One brace, semicolon or closing parenthesis. *)
Definition brace_step (filename : string) (c : CleansedLines) (linenum : Z) (line token : string)
    (st : nesting_state) : M nesting_state :=
  if String.eqb token "{" then
    retM (if negb (SeenOpenBrace st) then update_top set_seen st
          else if matched (Match EXTERN_C line)
          then push_block (fun n => new_extern_c n linenum) st
          else
            let st := push_block (fun n => new_block n linenum true) st in
            if matched (re_match MATCH_ASM line)
            then update_top (fun b => set_asm (open_parentheses b) BLOCK_ASM b) st else st)
  else if String.eqb token ";" || String.eqb token ")" then
    retM (if negb (SeenOpenBrace st) then set_stack (tail (stack st)) st else st)
  else
    match stack st with
    | [] => retM st
    | b :: s => CheckEnd filename c linenum b ;;; retM (set_stack s st)
    end.

(** [while True] over the rest of the line. *)
Fixpoint brace_loop (fuel : nat) (filename : string) (c : CleansedLines) (linenum : Z)
    (line : string) (st : nesting_state) : M nesting_state :=
  match fuel with
  | O => raise FuelExhausted
  | S fuel' =>
      match Match BRACE_TOKEN line with
      | None => retM st
      | Some m =>
          let* st := brace_step filename c linenum line (m_text m 1) st in
          brace_loop fuel' filename c linenum (m_text m 2) st
      end
  end.

Definition Update (filename : string) (c : CleansedLines) (linenum : Z) (st : nesting_state)
    : M nesting_state :=
  let* line := try_get IndexError (py_nth (elided c) linenum) in
  let st := NestingState (stack st) (option_map ref_of (head (stack st))) (pp_stack st) (next_oid st) in
  let st := UpdatePreprocessor line st in
  let st := update_top (update_asm line) st in
  let* ' (line, st) := liftE (namespace_loop (S (String.length line)) linenum line st) in
  let* ' (line, st) := liftE (update_class c linenum line st) in
  let* st := liftE (update_begin c linenum st) in
  let* st := update_access filename linenum line st in
  brace_loop (S (String.length line)) filename c linenum line st.

(** The innermost class of the stack. *)
Definition InnermostClass (st : nesting_state) : option block := List.find is_class (stack st).

(** [for obj in self.stack]: from the outermost block. *)
Definition CheckCompletedBlocks (filename : string) (st : nesting_state) : M unit :=
  mfor (rev (stack st)) (fun obj =>
    match kind obj with
    | KClass ci =>
        error filename (starting_linenum obj) "build/class" 5
          ("Failed to find complete declaration of class " +:+ class_name ci)
    | NamespaceInfo name =>
        error filename (starting_linenum obj) "build/namespaces" 5
          ("Failed to find complete declaration of namespace " +:+ name)
    | _ => retM ()
    end).

(** ** [InTemplateArgumentList] ends *)

Lemma template_token_length s m :
  Match TEMPLATE_TOKEN s = Some m -> 1 <= zlen (m_text m 0) <= zlen s.
Proof.
  intros E. destruct (Match_splits _ _ _ E) as [ts H]; [vm_compute; reflexivity|].
  rewrite (Match_text0 _ _ _ _ E H).
  unfold TEMPLATE_TOKEN in H. splits_inv H. parts_simpl.
  apply (f_equal zlen) in Hs. rewrite !zlen_app in *.
  match goal with Hany : den _ _ RAny ?x ?y, Hr : reads ?x ?t ?y |- _ =>
    destruct (eat_reads_one _ _ _ Hany) as (ch & _ & Hone); pose proof (reads_inj _ _ _ _ Hr Hone) as ->
  end.
  pose proof (zlen_nonneg (rest (m_final m))). pose proof (zlen_nonneg t0).
  change (zlen EmptyString) with 0. rewrite !zlen_String in *. change (zlen EmptyString) with 0 in *. lia.
Qed.

Lemma text_size_drop c i line :
  0 <= i -> py_nth (elided c) i = Some line ->
  text_size c i = (S (String.length line) + text_size c (i + 1))%nat.
Proof.
  intros Hi Hl. unfold text_size.
  assert (E : elided c !! Z.to_nat i = Some line).
  { revert Hl. unfold py_nth. rewrite (proj2 (Z.ltb_ge i 0)) by lia.
    by rewrite (proj2 (Z.ltb_ge i 0)) by lia. }
  rewrite (drop_S _ line) by done. replace (Z.to_nat (i + 1)) with (S (Z.to_nat i)) by lia. done.
Qed.

Lemma text_size_mono c i j : 0 <= i <= j -> (text_size c j <= text_size c i)%nat.
Proof.
  intros H. unfold text_size. replace (Z.to_nat j) with (Z.to_nat i + Z.to_nat (j - i))%nat by lia.
  rewrite <- drop_drop. set (l := drop (Z.to_nat i) (elided c)). clearbody l.
  generalize (Z.to_nat (j - i)) as n. clear. intros n. revert l.
  induction n as [|n IH]; intros [|x l]; simpl; try lia. specialize (IH l). lia.
Qed.

(** The text after a position. *)
Definition text_left (c : CleansedLines) (linenum pos : Z) : Z :=
  match py_nth (elided c) linenum with
  | Some line => Z.of_nat (text_size c linenum) - Z.min pos (zlen line)
  | None => 0
  end.

Lemma template_loop_ok c (Hsize : well_sized c) fuel : forall linenum pos,
  0 <= linenum -> 0 <= pos -> text_left c linenum pos < Z.of_nat fuel ->
  exists b, template_loop fuel c linenum pos = inr b.
Proof.
  induction fuel as [|fuel IH]; intros linenum pos Hl Hp Hf.
  { exfalso. unfold text_left in Hf. destruct (py_nth _ _) eqn:E; [|lia].
    rewrite (text_size_drop c linenum s) in Hf by done. unfold zlen in Hf. lia. }
  cbn [template_loop]. destruct (NumLines c <=? linenum) eqn:El; bools; [by eexists|].
  destruct (py_nth_is_Some (elided c) linenum) as [line Hline]; [rewrite <- Hsize; lia|].
  rewrite Hline. unfold text_left in Hf. rewrite Hline in Hf.
  pose proof (text_size_drop c linenum line Hl Hline) as Hts.
  assert (Hlen : zlen line = Z.of_nat (String.length line)) by done.
  (* moving to a later line, or further on this one *)
  assert (Hnext : forall ln p, linenum < ln -> 0 <= p -> exists b, template_loop fuel c ln p = inr b).
  { intros ln p Hln Hp'. apply IH; [lia|done|]. pose proof (text_size_mono c (linenum + 1) ln ltac:(lia)).
    unfold text_left. destruct (py_nth (elided c) ln) as [l|]; [pose proof (zlen_nonneg l)|]; lia. }
  assert (Hhere : forall p, Z.min pos (zlen line) < Z.min p (zlen line) -> 0 <= p ->
    exists b, template_loop fuel c linenum p = inr b).
  { intros p Hlt Hp'. apply IH; [done|done|]. unfold text_left. rewrite Hline. lia. }
  destruct (Match TEMPLATE_TOKEN (slice_from line pos)) as [m|] eqn:Em; [|apply Hnext; lia].
  pose proof (template_token_length _ _ Em) as Hm.
  assert (Hpos : pos <= zlen line /\ zlen (slice_from line pos) = zlen line - pos).
  { destruct (Z.le_gt_cases pos (zlen line)); [split; [done|]; apply zlen_slice_from; lia|].
    exfalso. revert Hm. unfold slice_from, clamp. rewrite (proj2 (Z.ltb_ge pos 0)) by lia.
    unfold zlen. rewrite slength_sdrop. unfold zlen in *. lia. }
  set (q := pos + zlen (m_text m 0)) in *. cbv zeta.
  destruct (str_mem (m_text m 1) ["{"; "}"; ";"]); [by eexists|].
  destruct (str_mem (m_text m 1) [">"; "="; "["; "]"; "."]); [by eexists|].
  destruct (negb (String.eqb (m_text m 1) "<")).
  { destruct (zlen line <=? q + 1) eqn:Eq; bools; [apply Hnext; lia|apply Hhere; lia]. }
  destruct (str_at_is_Some line (q - 1)) as [ch Hch]; [lia|].
  destruct (CloseExpression_points c Hsize linenum (q - 1) ch) as (l & ln & e & -> & Hc).
  { exists line. split_and!; [done|done|done|lia]. }
  cbn [bindE]. destruct (e <? 0) eqn:Ee; bools; [by eexists|].
  destruct Hc as [(_ & -> & _)|(Hln & Hr & He & Hsame)]; [lia|].
  destruct (decide (ln = linenum)) as [->|Hne]; [apply Hhere; lia|apply Hnext; lia].
Qed.


Lemma InTemplateArgumentList_ok c linenum pos :
  well_sized c -> 0 <= linenum -> 0 <= pos -> exists b, InTemplateArgumentList c linenum pos = inr b.
Proof.
  intros Hs Hl Hp. apply template_loop_ok; [done..|]. unfold text_left.
  destruct (py_nth _ _) as [l|]; [|lia]. pose proof (zlen_nonneg l). lia.
Qed.

(** ** Conditional compilation *)

(** Stacks of blocks that differ in the identities of the objects only. *)
Definition same_block (a b : block) : Prop := set_oid 0 a = set_oid 0 b.
Definition same_stack (s t : list block) : Prop := Forall2 same_block s t.

#[export] Instance same_block_equivalence : Equivalence same_block.
Proof. split; unfold same_block; congruence. Qed.

#[export] Instance same_stack_equivalence : Equivalence same_stack.
Proof. change same_stack with (Forall2 same_block). split; apply _. Qed.

Lemma deepcopy_same n s : same_stack (deepcopy n s) s.
Proof.
  unfold deepcopy, same_stack.
  assert (H : forall f : nat -> nat, Forall2 same_block (imap (fun i b => set_oid (f i) b) s) s).
  { induction s as [|b s IH]; intros f; [constructor|]. constructor; [done|]. apply (IH (f ∘ S)). }
  apply (H (fun i => (n + i)%nat)).
Qed.

Lemma deepcopy_length n s : length (deepcopy n s) = length s.
Proof. apply length_imap. Qed.

(** What a line is to the preprocessor, in the order in which the code asks. *)
Inductive pp_directive := PpIf | PpElse | PpEndif | PpNone.
Definition directive_of (line : string) : pp_directive :=
  if matched (Match PP_IF line) then PpIf
  else if matched (Match PP_ELSE line) then PpElse
  else if matched (Match PP_ENDIF line) then PpEndif else PpNone.

Lemma UpdatePreprocessor_directive line st :
  UpdatePreprocessor line st =
  match directive_of line, pp_stack st with
  | PpIf, pp =>
      NestingState (stack st) (previous_stack_top st)
        (PreprocessorInfo (deepcopy (next_oid st) (stack st)) [] false :: pp)
        (next_oid st + length (stack st))
  | PpElse, top :: rest =>
      let n := if seen_else top then next_oid st else (next_oid st + length (stack st))%nat in
      NestingState (deepcopy n (stack_before_if top)) (previous_stack_top st)
        ((if seen_else top then top
          else PreprocessorInfo (stack_before_if top) (deepcopy (next_oid st) (stack st)) true) :: rest)
        (n + length (stack_before_if top))
  | PpEndif, top :: rest =>
      NestingState (if seen_else top then stack_before_else top else stack st)
        (previous_stack_top st) rest (next_oid st)
  | _, _ => st
  end.
Proof.
  unfold UpdatePreprocessor, directive_of.
  destruct (matched (Match PP_IF line)); [done|]. destruct (matched (Match PP_ELSE line)).
  { by destruct (pp_stack st). }
  destruct (matched (Match PP_ENDIF line)); by destruct (pp_stack st).
Qed.

(** The lines of a conditional: between the directives the stack may change in
    any way, the preprocessor stack may not. *)
Definition between (st st' : nesting_state) : Prop := pp_stack st' = pp_stack st.

(** C9. Only the first branch of a conditional counts: every #else and #elif
    starts from the stack before the #if, and the #endif brings back the stack that
    the first branch ended with, whatever the other branches did, and the
    preprocessor stack from before the #if.  A conditional without #else leaves the
    stack to its only branch.  Stacks are compared up to the identity of the
    blocks, which are copied. *)
Theorem conditional_keeps_first_branch (st a b b' : nesting_state)
    (if_line else_line elif_line endif_line : string)
    (Hif : directive_of if_line = PpIf) (Helse : directive_of else_line = PpElse)
    (Helif : directive_of elif_line = PpElse) (Hendif : directive_of endif_line = PpEndif)
    (Ha : between (UpdatePreprocessor if_line st) a)
    (Hb : between (UpdatePreprocessor else_line a) b)
    (Hb' : between (UpdatePreprocessor elif_line b) b') :
  same_stack (stack (UpdatePreprocessor if_line st)) (stack st) /\
  same_stack (stack (UpdatePreprocessor else_line a)) (stack st) /\
  same_stack (stack (UpdatePreprocessor elif_line b)) (stack st) /\
  same_stack (stack (UpdatePreprocessor endif_line b)) (stack a) /\
  same_stack (stack (UpdatePreprocessor endif_line b')) (stack a) /\
  stack (UpdatePreprocessor endif_line a) = stack a /\
  pp_stack (UpdatePreprocessor endif_line a) = pp_stack st /\
  pp_stack (UpdatePreprocessor endif_line b') = pp_stack st.
Proof.
  unfold between in *. rewrite UpdatePreprocessor_directive, Hif in Ha. simpl in Ha.
  rewrite UpdatePreprocessor_directive, Helse, Ha in Hb. simpl in Hb.
  rewrite UpdatePreprocessor_directive, Helif, Hb in Hb'. simpl in Hb'.
  rewrite !UpdatePreprocessor_directive, Hif, Helse, Helif, Hendif, Ha, Hb, Hb'. simpl.
  split_and!; repeat rewrite deepcopy_same; reflexivity.
Qed.

Lemma conditional_keeps_first_branch_witness :
  let base := set_stack [new_block 7 3 true] initial_nesting in
  let a := set_stack [new_block 8 4 true; new_block 7 3 true]
             (UpdatePreprocessor "#ifdef A" base) in
  let b := set_stack [] (UpdatePreprocessor "# else" a) in
  let b' := set_stack [] (UpdatePreprocessor "#elif B" b) in
  same_stack (stack (UpdatePreprocessor "#endif" b')) (stack a).
Proof.
  intros base a b b'.
  apply (conditional_keeps_first_branch base a b b' "#ifdef A" "# else" "#elif B" "#endif");
    vm_compute; reflexivity.
Defined.
