(* ===== verification/NestingFacts.v ===== *)
(** * The nesting state stays well formed, and follows the braces

    The invariant of [NestingState] and that [Update] keeps it and never raises;
    the depth of the stack on lines that declare nothing. *)

From stdpp Require Import base list strings gmap.
From Stdlib Require Import ZArith Lia Ascii.
From S2P Require Import Prelude PyString Regex RegexParse PyRe RegexFacts Config Cleanse Expr HeaderGuard Nesting.
Local Open Scope Z_scope.
Local Open Scope py_scope.

(** The proofs below never look into a match: they use the lemmas about the
    patterns. *)
#[local] Opaque Match re_match.

(** ** The invariant *)

(** The characters of a class name, none of which is special in a pattern. *)
Definition name_char (c : ascii) : bool := is_word c || Ascii.eqb c ":".

(** A block made before object [n]. *)
Definition block_ok (n : nat) (b : block) : Prop :=
  (oid b < n)%nat /\ 0 <= starting_linenum b /\
  match kind b with KClass ci => sall name_char (class_name ci) = true | _ => True end.

(** A stack of distinct objects. *)
Definition stack_ok (n : nat) (s : list block) : Prop :=
  Forall (block_ok n) s /\ NoDup (map oid s).

Definition pp_ok (n : nat) (pp : preprocessor_info) : Prop :=
  stack_ok n (stack_before_if pp) /\ stack_ok n (stack_before_else pp).

Definition nesting_ok (st : nesting_state) : Prop :=
  stack_ok (next_oid st) (stack st) /\ Forall (pp_ok (next_oid st)) (pp_stack st).

(** The file has its lines. *)
Definition file_ok (c : CleansedLines) : Prop :=
  well_sized c /\ NumLines c = Z.of_nat (length (raw_lines c)).

Lemma block_ok_mono n m b : (n <= m)%nat -> block_ok n b -> block_ok m b.
Proof. intros Hnm (? & ? & ?). split_and!; [lia|done|done]. Qed.

Lemma stack_ok_mono n m s : (n <= m)%nat -> stack_ok n s -> stack_ok m s.
Proof. intros Hnm [H1 H2]. split; [|done]. eapply Forall_impl; [done|]. eauto using block_ok_mono. Qed.

Lemma pp_ok_mono n m l : (n <= m)%nat -> Forall (pp_ok n) l -> Forall (pp_ok m) l.
Proof. intros Hnm H. eapply Forall_impl; [done|]. intros pp [? ?]. split; by eapply stack_ok_mono. Qed.

Lemma initial_nesting_ok : nesting_ok initial_nesting.
Proof. repeat split; constructor. Qed.

Lemma stack_ok_nil n : stack_ok n [].
Proof. split; constructor. Qed.

(** Pushing a block with the next identity. *)
Lemma push_block_ok b st :
  nesting_ok st -> oid (b (next_oid st)) = next_oid st -> block_ok (S (next_oid st)) (b (next_oid st)) ->
  nesting_ok (push_block b st).
Proof.
  intros [[Hs Hd] Hp] Ho Hb. unfold push_block, nesting_ok. cbn [stack next_oid pp_stack].
  split; [split|].
  - constructor; [done|]. eapply Forall_impl; [done|]. intros x. apply block_ok_mono. lia.
  - cbn [map]. constructor; [|done]. rewrite Ho. intros (x & E & Hx)%list_elem_of_In%in_map_iff.
    rewrite Forall_forall in Hs. apply list_elem_of_In in Hx. apply Hs in Hx as [Hx _]. lia.
  - eapply pp_ok_mono; [|done]. lia.
Qed.

(** Changing the top, or dropping it. *)
Lemma set_top_ok b b' s st :
  nesting_ok st -> stack st = b :: s -> oid b' = oid b -> starting_linenum b' = starting_linenum b ->
  match kind b' with KClass ci => sall name_char (class_name ci) = true | _ => True end ->
  nesting_ok (set_stack (b' :: s) st).
Proof.
  intros [[Hs Hd] Hp] E Ho Hl Hk. rewrite E in *. apply Forall_cons in Hs as [(? & ? & ?) Hs].
  split; [split|done]; cbn.
  - constructor; [|done]. split_and!; [by rewrite Ho|by rewrite Hl|done].
  - rewrite Ho. exact Hd.
Qed.

Lemma drop_top_ok b s st : nesting_ok st -> stack st = b :: s -> nesting_ok (set_stack s st).
Proof.
  intros [[Hs Hd] Hp] E. rewrite E in *. apply Forall_cons in Hs as [_ Hs]. cbn in Hd.
  apply NoDup_cons in Hd as [_ Hd]. done.
Qed.

Lemma update_top_ok f st :
  nesting_ok st -> (forall b, oid (f b) = oid b /\ starting_linenum (f b) = starting_linenum b
    /\ kind (f b) = kind b) ->
  nesting_ok (update_top f st).
Proof.
  intros H Hf. unfold update_top. destruct (stack st) as [|b s] eqn:E; [done|].
  destruct (Hf b) as (H1 & H2 & H3). eapply set_top_ok; [done..|]. rewrite H3.
  destruct H as [[Hs _] _]. rewrite E in Hs. by apply Forall_cons in Hs as [(_ & _ & ?) _].
Qed.

Lemma deepcopy_oids m s : map oid (deepcopy m s) = seq m (length s).
Proof.
  unfold deepcopy. revert m. induction s as [|b s IH]; intros m; [done|]. cbn [imap length seq map].
  f_equal; [cbn; lia|]. rewrite <- IH. f_equal. apply imap_ext. intros. cbn. f_equal. lia.
Qed.

Lemma deepcopy_ok n m s :
  stack_ok n s -> (n <= m)%nat -> stack_ok (m + length s) (deepcopy m s).
Proof.
  intros [Hs _] Hnm. split.
  - unfold deepcopy. apply Forall_forall. intros b (i & b' & -> & Hi)%elem_of_lookup_imap.
    rewrite Forall_forall in Hs. pose proof (lookup_lt_Some _ _ _ Hi).
    destruct (Hs b') as (_ & ? & ?); [by eapply list_elem_of_lookup_2|].
    split_and!; cbn; [lia|done|done].
  - rewrite deepcopy_oids. apply NoDup_seq.
Qed.

Lemma UpdatePreprocessor_ok line st : nesting_ok st -> nesting_ok (UpdatePreprocessor line st).
Proof.
  intros [Hs Hp]. rewrite UpdatePreprocessor_directive. destruct (directive_of line).
  - split; cbn; [eapply stack_ok_mono; [|done]; lia|]. constructor.
    + split; cbn; [by eapply deepcopy_ok|apply stack_ok_nil].
    + eapply pp_ok_mono; [|done]. lia.
  - destruct (pp_stack st) as [|top rest] eqn:E; [by split; rewrite ?E|].
    apply Forall_cons in Hp as [[Hi He] Hp]. destruct (seen_else top); split; cbn.
    + by eapply deepcopy_ok.
    + constructor; [split; (eapply stack_ok_mono; [|done]; lia)|eapply pp_ok_mono; [|done]; lia].
    + eapply deepcopy_ok; [done|lia].
    + constructor; [split; cbn|eapply pp_ok_mono; [|done]; lia].
      * eapply stack_ok_mono; [|done]. lia.
      * eapply stack_ok_mono; [|by eapply deepcopy_ok]. lia.
  - destruct (pp_stack st) as [|top rest] eqn:E; [by split; rewrite ?E|].
    apply Forall_cons in Hp as [[Hi He] Hp]. split; cbn; [by destruct (seen_else top)|done].
  - by split.
Qed.

(** ** The checks at the ends of blocks return *)

Lemma name_char_plain c : name_char c = true -> is_special c = false.
Proof. destruct c as [[] [] [] [] [] [] [] []]; vm_compute; congruence. Qed.

Lemma disallow_pattern name line :
  sall name_char name = true ->
  exists m, SearchE ("\b(DISALLOW_COPY_AND_ASSIGN|DISALLOW_IMPLICIT_CONSTRUCTORS)\(" +:+ name +:+ "\)") line
    = inr m.
Proof.
  intros Hn. unfold SearchE. rewrite <- (re_escape_plain name).
  2: { revert Hn. apply sall_impl. intros c Hc. by rewrite name_char_plain. }
  compile_around "\b(DISALLOW_COPY_AND_ASSIGN|DISALLOW_IMPLICIT_CONSTRUCTORS)\(" name "\)" 59%nat 1%nat.
  by eexists.
Qed.

Lemma namespace_pattern name line :
  exists m, MatchE (NAMESPACE_END_NAMED +:+ re_escape name +:+ "[\*/\.\\\s]*$") line = inr m.
Proof.
  unfold MatchE, NAMESPACE_END_NAMED.
  compile_around "^\s*};*\s*(//|/\*).*\bnamespace\s+" name "[\*/\.\\\s]*$" 29%nat 3%nat.
  by eexists.
Qed.

(** A computation that returns. *)
Definition ok {A} (m : M A) : Prop := exists a, outcome m = inr a.

Lemma ok_ret {A} (a : A) : ok (retM a).
Proof. by exists a. Qed.
Lemma ok_error f l c k msg : ok (error f l c k msg).
Proof. by exists (). Qed.
Lemma ok_mwhen b m : ok m -> ok (mwhen b m).
Proof. destruct b; [done|]. intros _. apply ok_ret. Qed.
Lemma ok_bind {A B} (m : M A) (f : A -> M B) :
  ok m -> (forall a, outcome m = inr a -> ok (f a)) -> ok (bindM m f).
Proof.
  intros [a Ha] Hf. destruct (Hf a Ha) as [b Hb]. destruct m as [w r]. cbn in Ha. subst r.
  cbn [bindM]. destruct (f a) as [w' r']. by exists b.
Qed.
Lemma ok_get {A} e (o : option A) : is_Some o -> ok (try_get e o).
Proof. intros [a ->]. apply ok_ret. Qed.
Lemma ok_lift {A} (r : exn + A) : (exists a, r = inr a) -> ok (liftE r).
Proof. intros [a ->]. by exists a. Qed.

#[local] Hint Resolve ok_ret ok_error ok_mwhen : py.

Lemma disallow_loop_ok filename c name : file_ok c -> sall name_char name = true ->
  forall n i seen, Z.of_nat n <= i + 1 -> i < NumLines c ->
  ok (disallow_loop n filename c name i seen).
Proof.
  intros [Hw _] Hn n. induction n as [|n IH]; intros i seen Hi Hlt; cbn [disallow_loop]; [apply ok_ret|].
  apply ok_bind; [apply ok_get, py_nth_is_Some; rewrite <- Hw; lia|]. intros line _.
  apply ok_bind; [apply ok_lift, disallow_pattern; done|]. intros [m|] _; [auto with py|].
  apply IH; lia.
Qed.

Lemma CheckEnd_ok filename c linenum n b :
  file_ok c -> block_ok n b -> 0 <= linenum < NumLines c -> ok (CheckEnd filename c linenum b).
Proof.
  intros Hf (_ & Hs & Hk) Hl. unfold CheckEnd. destruct (kind b) as [| |ci|name]; [apply ok_ret..| |].
  - unfold class_CheckEnd. apply ok_bind; [apply disallow_loop_ok; [done..|lia|lia]|]. intros _ _.
    apply ok_bind; [apply ok_get, py_nth_is_Some; destruct Hf as [<- _]; lia|]. intros line _.
    destruct (Match _ line); auto with py.
  - unfold namespace_CheckEnd.
    apply ok_bind; [apply ok_get, py_nth_is_Some; destruct Hf as [_ <-]; lia|]. intros line _.
    destruct (_ && _); [apply ok_ret|]. destruct (negb (String.eqb name _)).
    + apply ok_bind; [apply ok_lift, namespace_pattern|]. intros m _. auto with py.
    + apply ok_mwhen. destruct (matched _); auto with py.
Qed.

(** ** The steps of [Update] *)

(** The state is returned as it is. *)
Ltac returned :=
  repeat lazymatch goal with |- exists _, _ => eexists end; split; [reflexivity | assumption].

Lemma namespace_decl_shorter line m :
  Match NAMESPACE_DECL line = Some m -> (String.length (m_text m 2) < String.length line)%nat.
Proof.
  intros [ts H]%Match_splits; [|vm_compute; reflexivity].
  unfold NAMESPACE_DECL in H. splits_inv H. parts_simpl.
  destruct (Hg 1%nat _ eq_refl) as [_ ->]. subst line. repeat (rewrite slength_app || cbn [String.length]).
  lia.
Qed.

Lemma brace_token_shorter line m :
  Match BRACE_TOKEN line = Some m -> (String.length (m_text m 2) < String.length line)%nat.
Proof.
  intros [ts H]%Match_splits; [|vm_compute; reflexivity].
  unfold BRACE_TOKEN in H. splits_inv H. parts_simpl.
  destruct (Hg 1%nat _ eq_refl) as [_ ->]. subst line. repeat (rewrite slength_app || cbn [String.length]).
  lia.
Qed.

Lemma slice_from_length s i : (String.length (slice_from s i) <= String.length s)%nat.
Proof. unfold slice_from. rewrite slength_sdrop. lia. Qed.

Lemma class_name_chars line m :
  Match CLASS_DECL line = Some m -> sall name_char (m_text m 3) = true.
Proof.
  intros E. unfold m_text. destruct (m_group m 3) as [t|] eqn:Eg; [|done].
  eapply (Match_group_only _ _ _ 2); [exact E|exact Eg|vm_compute; reflexivity].
Qed.

Section Steps.
Context (filename : string) (c : CleansedLines) (Hc : file_ok c) (linenum : Z)
  (Hl : 0 <= linenum < NumLines c).

Lemma namespace_loop_ok fuel : forall line st,
  nesting_ok st -> (String.length line < fuel)%nat ->
  exists line' st', namespace_loop fuel linenum line st = inr (line', st') /\ nesting_ok st'.
Proof.
  induction fuel as [|fuel IH]; intros line st Hst Hf; [lia|]. cbn [namespace_loop].
  destruct (Match NAMESPACE_DECL line) as [m|] eqn:E; [|returned].
  pose proof (namespace_decl_shorter _ _ E) as Hlt. clear E. cbv zeta.
  assert (Hpush : nesting_ok (push_block (fun n => new_namespace n (m_group m 1) linenum) st)).
  { apply push_block_ok; [done|done|]. split_and!; cbn; [lia|lia|done]. }
  destruct (_ =? _).
  - apply IH; [done|lia].
  - apply IH; [by apply update_top_ok|].
    pose proof (slice_from_length (m_text m 2) (str_find (m_text m 2) "{" + 1)). lia.
Qed.

Lemma class_last_line_ok n : forall i depth,
  0 <= i -> i + Z.of_nat n <= NumLines c -> exists r, class_last_line n c i depth = inr r.
Proof.
  induction n as [|n IH]; intros i depth Hi Hn; cbn [class_last_line]; [by eexists|].
  destruct (py_nth_is_Some (elided c) i) as [line ->]; [destruct Hc as [<- _]; lia|].
  destruct (_ =? 0); [by eexists|]. apply IH; lia.
Qed.

Lemma new_class_ok n name kw :
  sall name_char name = true ->
  exists b, new_class n name kw c linenum = inr b /\ oid b = n /\ block_ok (S n) b.
Proof.
  intros Hn. unfold new_class.
  destruct (py_nth_is_Some (raw_lines c) linenum) as [raw ->]; [destruct Hc as [_ <-]; lia|].
  cbn [bindE]. destruct (class_last_line_ok (Z.to_nat (NumLines c - linenum)) linenum 0) as [r ->]; [lia..|].
  cbn [bindE]. eexists. split; [done|]. split; [done|]. split_and!; cbn; [lia|lia|done].
Qed.

Lemma update_class_ok line st :
  nesting_ok st ->
  exists line' st', update_class c linenum line st = inr (line', st') /\ nesting_ok st'.
Proof.
  intros Hst. unfold update_class. destruct (Match CLASS_DECL line) as [m|] eqn:E; [|returned].
  destruct (match stack st with [] => _ | _ => _ end); [|returned]. cbv zeta.
  destruct (InTemplateArgumentList_ok c linenum (zlen (m_text m 1))) as [b ->];
    [apply Hc|lia|apply zlen_nonneg|].
  cbn [bindE]. destruct b; [returned|].
  destruct (new_class_ok (next_oid st) (m_text m 3) (m_text m 2)) as (b & -> & Ho & Hb);
    [by eapply class_name_chars|].
  cbn [bindE]. eexists _, _. split; [done|]. by apply push_block_ok.
Qed.

Lemma update_begin_ok st :
  nesting_ok st -> exists st', update_begin c linenum st = inr st' /\ nesting_ok st'.
Proof.
  intros Hst. unfold update_begin. destruct (stack st) as [|b s] eqn:E; [returned|].
  destruct (seen_open_brace b); [returned|]. pose proof Hst as [[Hs _] _]. rewrite E in Hs.
  apply Forall_cons in Hs as [(_ & _ & Hk) _]. unfold CheckBegin. destruct (kind b) as [| |ci|name] eqn:Ek.
  1, 2, 4: eexists; split; [done|]; eapply set_top_ok; [done..|]; by rewrite Ek.
  destruct (py_nth_is_Some (elided c) linenum) as [line ->]; [destruct Hc as [<- _]; lia|].
  cbn [bindE]. eexists. split; [done|]. destruct (matched _); eapply set_top_ok; try done. by rewrite Ek.
Qed.

Lemma update_access_ok line st :
  nesting_ok st -> exists st', outcome (update_access filename linenum line st) = inr st' /\ nesting_ok st'.
Proof.
  intros Hst. unfold update_access. destruct (stack st) as [|b s] eqn:E; [returned|].
  destruct (kind b) as [| |ci|name] eqn:Ek; try returned.
  destruct (Match ACCESS_KEYWORD line) as [m|]; [|returned]. cbv zeta.
  pose proof Hst as [[Hs _] _]. rewrite E in Hs. apply Forall_cons in Hs as [(_ & _ & Hk) _].
  rewrite Ek in Hk. destruct (mwhen _ _) as [w r] eqn:Ew.
  assert (r = inr ()) as -> by (unfold mwhen in Ew; destruct (_ && _); by injection Ew).
  cbn. eexists. split; [done|]. by eapply set_top_ok.
Qed.

Lemma brace_step_ok line token st :
  nesting_ok st ->
  exists st', outcome (brace_step filename c linenum line token st) = inr st' /\ nesting_ok st'.
Proof.
  intros Hst. unfold brace_step. destruct (String.eqb token "{").
  - eexists. split; [done|]. destruct (negb _); [by apply update_top_ok|].
    destruct (matched _).
    + apply push_block_ok; [done|done|]. split_and!; cbn; [lia|lia|done].
    + assert (nesting_ok (push_block (fun n => new_block n linenum true) st)).
      { apply push_block_ok; [done|done|]. split_and!; cbn; [lia|lia|done]. }
      destruct (matched _); [|done]. by apply update_top_ok.
  - destruct (_ || _).
    + eexists. split; [done|]. destruct (negb _); [|done].
      destruct (stack st) as [|b s] eqn:E; cbn; [|by eapply drop_top_ok].
      destruct Hst as [_ ?]. split; [apply stack_ok_nil|done].
    + destruct (stack st) as [|b s] eqn:E; [returned|].
      pose proof Hst as [[Hs _] _]. rewrite E in Hs. apply Forall_cons in Hs as [Hb _].
      destruct (CheckEnd_ok filename c linenum _ b Hc Hb Hl) as [u Hu].
      destruct (CheckEnd filename c linenum b) as [w r]. cbn in Hu. subst r. cbn.
      eexists. split; [done|]. by eapply drop_top_ok.
Qed.

Lemma brace_loop_ok fuel : forall line st,
  nesting_ok st -> (String.length line < fuel)%nat ->
  exists st', outcome (brace_loop fuel filename c linenum line st) = inr st' /\ nesting_ok st'.
Proof.
  induction fuel as [|fuel IH]; intros line st Hst Hf; [lia|]. cbn [brace_loop].
  destruct (Match BRACE_TOKEN line) as [m|] eqn:E; [|returned].
  pose proof (brace_token_shorter _ _ E).
  destruct (brace_step_ok line (m_text m 1) st Hst) as (st1 & H1 & Hst1).
  destruct (brace_step _ _ _ _ _ _) as [w r]. cbn in H1. subst r. cbn [bindM].
  destruct (IH (m_text m 2) st1 Hst1 ltac:(lia)) as (st2 & H2 & Hst2).
  destruct (brace_loop _ _ _ _ _ _) as [w' r']. eexists. split; [exact H2|done].
Qed.

Lemma Update_ok st :
  nesting_ok st -> exists st', outcome (Update filename c linenum st) = inr st' /\ nesting_ok st'.
Proof.
  intros Hst. unfold Update.
  destruct (py_nth_is_Some (elided c) linenum) as [line ->]; [destruct Hc as [<- _]; lia|].
  cbn [try_get retM bindM app].
  set (st0 := NestingState _ _ _ _).
  assert (H0 : nesting_ok (update_top (update_asm line) (UpdatePreprocessor line st0)))
    by (apply update_top_ok; [by apply UpdatePreprocessor_ok|done]).
  destruct (namespace_loop_ok (S (String.length line)) line _ H0) as (l1 & st1 & -> & H1); [lia|].
  cbn [liftE bindM app]. destruct (update_class_ok l1 st1 H1) as (l2 & st2 & -> & H2).
  cbn [liftE bindM app]. destruct (update_begin_ok st2 H2) as (st3 & -> & H3). cbn [liftE bindM app].
  destruct (update_access_ok l2 st3 H3) as (st4 & E4 & H4).
  destruct (update_access _ _ _ _) as [w4 r4]. cbn in E4. subst r4. cbn [bindM app].
  destruct (brace_loop_ok (S (String.length l2)) l2 st4 H4) as (st5 & E5 & H5); [lia|].
  destruct (brace_loop _ _ _ _ _ _) as [w5 r5]. cbn in E5. subst r5. by exists st5.
Qed.
End Steps.

(** [Update] on [n] lines from line [linenum] on. *)
Fixpoint update_lines (n : nat) (filename : string) (c : CleansedLines) (linenum : Z)
    (st : nesting_state) : M nesting_state :=
  match n with
  | O => retM st
  | S n' =>
      let* st := Update filename c linenum st in update_lines n' filename c (linenum + 1) st
  end.

Lemma update_lines_ok filename c n : forall linenum st,
  file_ok c -> 0 <= linenum -> linenum + Z.of_nat n <= NumLines c -> nesting_ok st ->
  exists st', outcome (update_lines n filename c linenum st) = inr st' /\ nesting_ok st'.
Proof.
  induction n as [|n IH]; intros linenum st Hc Hl Hn Hst; cbn [update_lines]; [by exists st|].
  destruct (Update_ok filename c Hc linenum ltac:(lia) st Hst) as (st1 & E1 & H1).
  destruct (Update filename c linenum st) as [w r]. cbn in E1. subst r. cbn [bindM].
  destruct (IH (linenum + 1) st1 Hc ltac:(lia) ltac:(lia) H1) as (st2 & E2 & H2).
  destruct (update_lines _ _ _ _ _) as [w' r']. by exists st2.
Qed.

(** C4. [NestingState.Update] never raises: on every line of a cleansed file, from
    a well-formed nesting state, it returns (its loops end, the patterns it builds
    from class and namespace names compile, no line is out of range) and the new
    state is well formed: the blocks of every stack, the saved ones included, are
    distinct objects with a valid starting line and a class name that is a plain
    word. *)
Theorem Update_total (filename : string) (c : CleansedLines) (linenum : Z) (st : nesting_state)
    (Hc : file_ok c) (Hl : 0 <= linenum < NumLines c) (Hst : nesting_ok st) :
  exists st', outcome (Update filename c linenum st) = inr st' /\ nesting_ok st'.
Proof. by apply Update_ok. Qed.

Lemma Update_total_witness :
  exists st', outcome (Update "a.cc" demo 1 initial_nesting) = inr st' /\ nesting_ok st'.
Proof.
  apply (Update_total "a.cc" demo 1 initial_nesting);
    [split; vm_compute; reflexivity|vm_compute; split; congruence|apply initial_nesting_ok].
Defined.

(** C3. Cleansing any file and updating the nesting state with its lines, from
    the first to the last, returns a well-formed state. *)
Theorem nesting_of_file_total (filename : string) (ls : list string) :
  exists c st, cleanse ls = inr c /\
    outcome (update_lines (length ls) filename c 0 initial_nesting) = inr st /\ nesting_ok st.
Proof.
  destruct (cleanse_ok ls) as (c & E & Hr & He & _ & _ & Hn).
  assert (Hc : file_ok c) by (split; [unfold well_sized; congruence|congruence]).
  destruct (update_lines_ok filename c (length ls) 0 initial_nesting Hc) as (st & H1 & H2);
    [lia|lia|apply initial_nesting_ok|]. by exists c, st.
Qed.

(** ** Braces *)

Definition is_brace_token (ch : ascii) : bool := char_in ch "{;)}".

Lemma brace_set ch :
  set_mem (Flags false false) false [lit "{"; lit ";"; lit ")"; lit "}"] ch = is_brace_token ch /\
  set_mem (Flags false false) true [lit "{"; lit ";"; lit ")"; lit "}"] ch = negb (is_brace_token ch).
Proof. destruct ch as [[] [] [] [] [] [] [] []]; vm_compute; split; reflexivity. Qed.

Lemma no_newline_tail s u : sall not_newline (s +:+ u) = true -> sall not_newline u = true.
Proof. rewrite sall_app. intros H. by bools. Qed.

Lemma at_end_nil x : sall not_newline (rest x) = true -> at_end x = true -> rest x = EmptyString.
Proof.
  unfold at_end. destruct (rest x) as [|c [|d r]]; [done| |done]. cbn [sall]. unfold not_newline.
  intros H1 H2. bools. congruence.
Qed.

Lemma brace_token_some line m :
  sall not_newline line = true -> Match BRACE_TOKEN line = Some m ->
  exists a ch b, line = a +:+ String ch b /\ sall (fun d => negb (is_brace_token d)) a = true /\
    is_brace_token ch = true /\ m_text m 1 = String ch EmptyString /\ m_text m 2 = b.
Proof.
  intros Hn [ts H]%Match_splits; [|vm_compute; reflexivity].
  unfold BRACE_TOKEN in H. splits_inv H. parts_simpl.
  assert (Er : rest (m_final m) = EmptyString).
  { destruct H7 as [E He]. rewrite Hp. apply at_end_nil.
    - rewrite <- Hp. rewrite Hs in Hn. apply no_newline_tail in Hn. cbn [sall] in Hn. bools.
      by apply no_newline_tail in H2.
    - rewrite E. exact He. }
  rewrite Er, sapp_nil_r in Hs. exists t0, c, t2. split; [exact Hs|]. split.
  { erewrite sall_ext; [exact Hc1|]. intros d. symmetry. apply brace_set. }
  split; [rewrite <- (proj1 (brace_set c)); exact Hc|].
  split; [apply (Hg 0%nat _ eq_refl)|apply (Hg 1%nat _ eq_refl)].
Qed.

Lemma first_such (p : ascii -> bool) s :
  sall (fun c => negb (p c)) s = true \/
  exists a c b, s = a +:+ String c b /\ sall (fun c => negb (p c)) a = true /\ p c = true.
Proof.
  induction s as [|c s IH]; [by left|]. destruct (p c) eqn:E.
  - right. by exists EmptyString, c, s.
  - destruct IH as [H|(a & d & b & -> & H1 & H2)]; [left; cbn [sall]; by rewrite E|right].
    exists (String c a), d, b. split; [done|]. cbn [sall]. by rewrite E.
Qed.

(** Without a match the line has no brace, semicolon or closing parenthesis. *)
Lemma brace_token_none line :
  sall not_newline line = true -> Match BRACE_TOKEN line = None ->
  sall (fun d => negb (is_brace_token d)) line = true.
Proof.
  intros Hn Hm. destruct (first_such is_brace_token line) as [H|(a & c & b & -> & Ha & Hc)]; [done|].
  exfalso. apply no_newline_tail in Hn. cbn [sall] in Hn. bools.
  set (x := state_at (a +:+ String c b) 0). set (x1 := after a x).
  assert (R1 : rest x1 = String c b) by (by apply after_rest).
  set (x2 := set_cap 1 (pos x1) (advance x1 c b)). set (x3 := after b x2).
  destruct (Match_complete BRACE_TOKEN (a +:+ String c b) (set_cap 2 (pos x2) x3)) as [m E];
    [|rewrite E in Hm; discriminate Hm].
  unfold matches_at. fold x. unfold BRACE_TOKEN. compute_pat. cbn [p_fl p_regex].
  exists x. split; [done|]. exists x1. split.
  { eapply (den_star_charset _ _ _ _ _ _ _ (String c b)); [done| |done].
    erewrite sall_ext; [exact Ha|]. intros d. apply brace_set. }
  exists x2. split.
  { exists (advance x1 c b). split; [|done].
    eapply den_set_intro; [done| |exact R1]. etransitivity; [exact (proj1 (brace_set c))|exact Hc]. }
  exists (set_cap 2 (pos x2) x3). split.
  { exists x3. split; [|done]. eapply (den_star_charset _ _ _ _ _ _ _ EmptyString); [done| |].
    - exact H0.
    - by rewrite sapp_nil_r. }
  split; [done|]. unfold at_end. cbn [rest set_cap]. unfold x3.
  by rewrite (after_rest _ _ EmptyString) by (by rewrite sapp_nil_r).
Qed.

(** The reference: the number of open blocks after a text, when closing braces
    without a block are ignored. *)
Fixpoint brace_depth (text : string) (depth : nat) : nat :=
  match text with
  | EmptyString => depth
  | String c text' =>
      brace_depth text'
        (if Ascii.eqb c "{" then S depth else if Ascii.eqb c "}" then pred depth else depth)
  end.

Lemma brace_depth_plain a b depth :
  sall (fun d => negb (is_brace_token d)) a = true -> brace_depth (a +:+ b) depth = brace_depth b depth.
Proof.
  revert depth. induction a as [|c a IH]; intros depth; [done|]. cbn [sall]. intros H. bools.
  change (String c a +:+ b) with (String c (a +:+ b)). cbn [brace_depth].
  destruct (Ascii.eqb c "{") eqn:E1; [bools; by subst|].
  destruct (Ascii.eqb c "}") eqn:E2; [bools; by subst|]. by apply IH.
Qed.

Definition all_seen (st : nesting_state) : Prop := Forall (fun b => seen_open_brace b = true) (stack st).

Lemma all_seen_SeenOpenBrace st : all_seen st -> SeenOpenBrace st = true.
Proof. unfold all_seen, SeenOpenBrace. destruct (stack st); [done|]. by intros [? _]%Forall_cons. Qed.

(** One token changes the depth of the stack as the reference says. *)
Lemma brace_step_depth filename c linenum line ch st st' :
  all_seen st -> is_brace_token ch = true ->
  outcome (brace_step filename c linenum line (String ch EmptyString) st) = inr st' ->
  all_seen st' /\ length (stack st') = brace_depth (String ch EmptyString) (length (stack st)).
Proof.
  intros Hs Ht. unfold brace_step. rewrite (all_seen_SeenOpenBrace st Hs). cbn [negb].
  assert (Hch : ch = "{"%char \/ ch = ";"%char \/ ch = ")"%char \/ ch = "}"%char).
  { revert Ht. unfold is_brace_token, char_in. cbn [sall].
    rewrite !negb_true_iff, !andb_false_iff, !negb_false_iff, !Ascii.eqb_eq. naive_solver. }
  unfold all_seen in *. destruct Hch as [->|[->|[->| ->]]]; cbn.
  - intros [= <-]. destruct (matched _); cbn; [by split; [constructor|]|].
    destruct (matched _); cbn; by split; [constructor|].
  - by intros [= <-].
  - by intros [= <-].
  - destruct (stack st) as [|b s] eqn:E; cbn; [intros [= <-]; by rewrite E|].
    destruct (CheckEnd _ _ _ _) as [w [e|u]]; cbn; [done|]. intros [= <-]. cbn.
    by apply Forall_cons in Hs as [_ Hs].
Qed.

Lemma brace_loop_depth filename c linenum fuel : forall line st st',
  all_seen st -> sall not_newline line = true ->
  outcome (brace_loop fuel filename c linenum line st) = inr st' ->
  all_seen st' /\ length (stack st') = brace_depth line (length (stack st)).
Proof.
  induction fuel as [|fuel IH]; intros line st st' Hs Hn H; [done|]. cbn [brace_loop] in H.
  destruct (Match BRACE_TOKEN line) as [m|] eqn:E.
  - destruct (brace_token_some line m Hn E) as (a & ch & b & -> & Ha & Hch & E1 & E2).
    rewrite E1, E2 in H. clear E.
    destruct (brace_step filename c linenum _ _ st) as [w [e|st1]] eqn:Es; [discriminate H|].
    destruct (brace_step_depth filename c linenum (a +:+ String ch b) ch st st1 Hs Hch) as [Hs1 Hd];
      [by rewrite Es|].
    cbn [bindM] in H. apply no_newline_tail in Hn. cbn [sall] in Hn. bools.
    destruct (brace_loop fuel filename c linenum b st1) as [w' r'] eqn:El.
    destruct (IH b st1 st' Hs1 H1) as [Hs2 Hd2]; [by rewrite El|]. split; [done|].
    rewrite Hd2, Hd, brace_depth_plain by done. done.
  - injection H as <-. split; [done|].
    rewrite <- (sapp_nil_r line), brace_depth_plain; [done|]. by apply brace_token_none.
Qed.

(** A line that declares no namespace or class and is no directive. *)
Definition plain_line (line : string) : bool :=
  negb (matched (Match NAMESPACE_DECL line)) && negb (matched (Match CLASS_DECL line))
  && match directive_of line with PpNone => true | _ => false end && sall not_newline line.

Lemma matched_false {A} (o : option A) : matched o = false -> o = None.
Proof. by destruct o. Qed.

Lemma update_access_seen filename linenum line st st' :
  all_seen st -> outcome (update_access filename linenum line st) = inr st' ->
  all_seen st' /\ length (stack st') = length (stack st).
Proof.
  unfold all_seen, update_access. intros Hs. destruct (stack st) as [|b s] eqn:E.
  { intros [= <-]. by rewrite E. }
  apply Forall_cons in Hs as [Hb Hs].
  assert (Hsame : Forall (fun b => seen_open_brace b = true) (stack st) /\ length (stack st) = length (b :: s))
    by (rewrite E; by split; [constructor|]).
  destruct (kind b) as [| |ci|name];
    [intros [= <-]; exact Hsame|intros [= <-]; exact Hsame| |intros [= <-]; exact Hsame].
  destruct (Match ACCESS_KEYWORD line) as [m|]; [|intros [= <-]; exact Hsame]. cbv zeta.
  destruct (mwhen _ _) as [w [e|u]]; cbn; [intros [=]|]. intros [= <-]. cbn.
  split; [by constructor|reflexivity].
Qed.

Lemma update_top_seen f st :
  all_seen st -> (forall b, seen_open_brace (f b) = seen_open_brace b) ->
  all_seen (update_top f st) /\ length (stack (update_top f st)) = length (stack st).
Proof.
  unfold all_seen, update_top. intros Hs Hf. destruct (stack st) as [|b s] eqn:E; cbn; rewrite ?E; [done|].
  apply Forall_cons in Hs as [Hb Hs]. split; [|done]. constructor; [by rewrite Hf|done].
Qed.

Lemma update_begin_seen c linenum st : all_seen st -> update_begin c linenum st = inr st.
Proof.
  unfold update_begin, all_seen. destruct (stack st) as [|b s]; [done|].
  by intros [-> _]%Forall_cons.
Qed.

(** [Update] on such a line comes down to its braces. *)
Lemma Update_plain filename c linenum line st st' :
  py_nth (elided c) linenum = Some line -> plain_line line = true -> all_seen st ->
  outcome (Update filename c linenum st) = inr st' ->
  all_seen st' /\ length (stack st') = brace_depth line (length (stack st)).
Proof.
  intros Hline Hp Hs. unfold plain_line in Hp. bools.
  apply matched_false in H, H2.
  unfold Update. rewrite Hline. cbn [try_get retM bindM app].
  rewrite UpdatePreprocessor_directive. destruct (directive_of line); try discriminate H1.
  rename H into Hnamespace, H2 into Hclass.
  set (st0 := update_top _ _).
  assert (Hs0 : all_seen st0 /\ length (stack st0) = length (stack st))
    by (apply (update_top_seen (update_asm line) (NestingState (stack st) _ (pp_stack st) _));
        [exact Hs|reflexivity]).
  destruct Hs0 as [Hs0 E0]. cbn [namespace_loop]. rewrite Hnamespace. cbn [liftE bindM app].
  unfold update_class. rewrite Hclass. clear Hnamespace Hclass. cbn [liftE bindM app].
  rewrite (update_begin_seen c linenum st0 Hs0). cbn [liftE bindM app].
  destruct (update_access filename linenum line st0) as [w4 [e|st4]] eqn:E4; [intros [=]|].
  destruct (update_access_seen filename linenum line st0 st4 Hs0) as [Hs4 El4]; [by rewrite E4|].
  cbn [bindM app]. intros H5.
  destruct (brace_loop_depth filename c linenum (S (String.length line)) line st4 st' Hs4 H0) as [Hs5 E5].
  { destruct (brace_loop _ _ _ _ _ _) as [w5 r5]. exact H5. }
  split; [done|]. by rewrite E5, El4, E0.
Qed.

(** C8. On a line that declares nothing and is no directive, when every open
    block has its brace, [Update] returns and the number of blocks on the stack
    follows the braces of the line exactly, one up for each opening brace and one
    down for each closing brace that has a block to close. *)
Theorem stack_follows_braces (filename : string) (c : CleansedLines) (linenum : Z)
    (line : string) (st : nesting_state)
    (Hc : file_ok c) (Hl : 0 <= linenum < NumLines c) (Hst : nesting_ok st)
    (Hline : py_nth (elided c) linenum = Some line) (Hplain : plain_line line = true)
    (Hseen : all_seen st) :
  exists st', outcome (Update filename c linenum st) = inr st' /\ all_seen st' /\ nesting_ok st' /\
    length (stack st') = brace_depth line (length (stack st)).
Proof.
  destruct (Update_ok filename c Hc linenum Hl st Hst) as (st' & E & Hst').
  destruct (Update_plain filename c linenum line st st' Hline Hplain Hseen E) as [H1 H2].
  exists st'. exact (conj E (conj H1 (conj Hst' H2))).
Qed.

Definition brace_demo : CleansedLines :=
  match cleanse ["// m"; "void f(int a) { if (a) { g(); } for (;;) {"; "}}}"; "// end"] with
  | inr c => c
  | inl _ => Cleansed [] [] [] 0 []
  end.

Lemma stack_follows_braces_witness :
  exists st', outcome (Update "a.cc" brace_demo 1 initial_nesting) = inr st' /\ length (stack st') = 2%nat.
Proof.
  destruct (stack_follows_braces "a.cc" brace_demo 1
    "void f(int a) { if (a) { g(); } for (;;) {" initial_nesting) as (st' & H & _ & _ & Hd).
  - split; vm_compute; reflexivity.
  - vm_compute. split; congruence.
  - apply initial_nesting_ok.
  - vm_compute. reflexivity.
  - vm_compute. reflexivity.
  - constructor.
  - exists st'. split; [exact H|exact Hd].
Defined.

(** ** A class after a namespace on the same line *)

(** The offset that [Update] hands to [InTemplateArgumentList] counts from the
    text after the namespace, but is used from the start of the line.  So the same
    class template is recognised on a line of its own, and taken for a block of
    another kind when a namespace opens on its line. *)
Definition template_class : string := "template <class T> class C {".
Definition kinds_after (line : string) : list block_class :=
  match cleanse ["// m"; line; "};"; "// end"] with
  | inr c =>
      match Update "a.h" c 1 initial_nesting with
      | (_, inr st) => map class_of (stack st)
      | (_, inl _) => []
      end
  | inl _ => []
  end.

Theorem namespace_offset_hides_class :
  kinds_after template_class = [CClassInfo] /\
  kinds_after ("namespace a { " +:+ template_class) = [CBlockInfo; CNamespaceInfo].
Proof. split; vm_compute; reflexivity. Qed.
