(* ===== verification/Constructs.v ===== *)
(** * Non-standard constructs and constructors: [CheckForNonStandardConstructs]

    The check of cpplint.py that warns about constructs outside the C++ standard
    and, inside a class, about constructors that should be marked explicit. *)

From stdpp Require Import base list strings.
From Stdlib Require Import ZArith Lia Ascii.
From S2P Require Import Prelude PyString Regex RegexParse PyRe RegexFacts Config Cleanse Expr HeaderGuard Nesting.
Local Open Scope Z_scope.
Local Open Scope py_scope.

(** ** The constructor's arguments *)

Definition unbalanced (arg : string) : bool :=
  (str_count arg ">" <? str_count arg "<") || (str_count arg ")" <? str_count arg "(").

(** The loop that joins arguments at the commas inside template or parameter
    lists, from the argument [cur] on: [constructor_args[i + 1]] raises when an
    argument that is not balanced is the last one. *)
Fixpoint collapse_from (cur : string) (rest : list string) : exn + list string :=
  match rest with
  | [] => if unbalanced cur then inl IndexError else inr [cur]
  | next :: rest' =>
      if unbalanced cur then collapse_from (cur +:+ "," +:+ next) rest'
      else let? l := collapse_from next rest' in inr (cur :: l)
  end.
Definition collapse_args (args : list string) : exn + list string :=
  match args with [] => inr [] | a :: args' => collapse_from a args' end.

(** What the check asks about the arguments. *)
Definition variadic_args (args : list string) : list string :=
  List.filter (fun arg => contains arg "&&...") args.
Definition defaulted_args (args : list string) : list string :=
  List.filter (fun arg => contains arg "=") args.
Definition noarg_constructor (args : list string) : bool :=
  match args with [] => true | [a] => String.eqb (strip a) "void" | _ => false end.
Definition onearg_constructor (args : list string) : bool :=
  let n := Z.of_nat (length args) in
  ((n =? 1) && negb (noarg_constructor args))
  || ((1 <=? n) && negb (noarg_constructor args)
      && (n - 1 <=? Z.of_nat (length (defaulted_args args))))
  || ((n <=? 2) && (1 <=? Z.of_nat (length (variadic_args args)))).

Definition CONSTRUCTOR_HEAD : string :=
  "\s+(?:(?:inline|constexpr)\s+)*(explicit\s+)?" +:+ "(?:(?:inline|constexpr)\s+)*".
Definition CONSTRUCTOR_ARGS : string := "\s*" +:+ "\(((?:[^()]|\([^()]*\))*)\)".
Definition COPY_ARG : string := "(\s*<[^>]*>)?(\s+const)?\s*(?:<\w+>\s*)?&".

(** The arguments of a constructor that was found, and the report. *)
Definition check_explicit (filename base_classname : string) (linenum : Z) (m : mobj) : M unit :=
  let is_marked_explicit := matched (m_group m 1) in
  let args := m_text m 2 in
  let constructor_args := if String.eqb args EmptyString then [] else split_char "," args in
  let* constructor_args := liftE (collapse_args constructor_args) in
  let onearg := onearg_constructor constructor_args in
  let first := hd EmptyString constructor_args in
  let initializer_list_constructor :=
    onearg && matched (Search "\bstd\s*::\s*initializer_list\b" first) in
  let* copy_constructor :=
    if onearg then
      let* m := liftE (MatchE ("(const\s+)?" +:+ re_escape base_classname +:+ COPY_ARG)
                         (strip first)) in
      retM (matched m)
    else retM false in
  if negb is_marked_explicit && onearg && negb initializer_list_constructor
     && negb copy_constructor then
    if negb (bool_decide (defaulted_args constructor_args = []))
       || negb (bool_decide (variadic_args constructor_args = []))
    then error filename linenum "runtime/explicit" 5
           ("Constructors callable with one argument " +:+ "should be marked explicit.")
    else error filename linenum "runtime/explicit" 5
           "Single-parameter constructors should be marked explicit."
  else
    mwhen (is_marked_explicit && negb onearg && noarg_constructor constructor_args)
      (error filename linenum "runtime/explicit" 5
         "Zero-parameter constructors should not be marked explicit.").

(** ** The check *)

Definition STORAGE_CLASS : string :=
  "\b(const|volatile|void|char|short|int|long"
  +:+ "|float|double|signed|unsigned"
  +:+ "|schar|u?int8|u?int16|u?int32|u?int64)"
  +:+ "\s+(register|static|extern|typedef)\b".

(** The reports on the line with its strings. *)
Definition check_formats (filename : string) (linenum : Z) (line : string) : M unit :=
  mwhen (matched (Search "printf\s*\(.*\x22.*%[-+ ]?\d*q" line))
    (error filename linenum "runtime/printf_format" 3
       "%q in format strings is deprecated.  Use %ll instead.") ;;;
  mwhen (matched (Search "printf\s*\(.*\x22.*%\d+\$" line))
    (error filename linenum "runtime/printf_format" 2
       "%N$ formats are unconventional.  Try rewriting to avoid them.") ;;;
  let line := str_replace line "\\" EmptyString in
  mwhen (matched (Search "(\x22|\').*\\(%|\[|\(|{)" line))
    (error filename linenum "build/printf_format" 3
       "%, [, (, and { are undefined character escapes.  Unescape them.").

(** The reports on the line without comments and strings, of any nesting. *)
Definition check_constructs (filename : string) (linenum : Z) (line : string) : M unit :=
  mwhen (matched (Search STORAGE_CLASS line))
    (error filename linenum "build/storage_class" 5
       ("Storage-class specifier (static, extern, typedef, etc) should be "
        +:+ "at the beginning of the declaration.")) ;;;
  mwhen (matched (Match "\s*#\s*endif\s*[^/\s]+" line))
    (error filename linenum "build/endif_comment" 5
       "Uncommented text after #endif is non-standard.  Use a comment.") ;;;
  mwhen (matched (Match "\s*class\s+(\w+\s*::\s*)+\w+\s*;" line))
    (error filename linenum "build/forward_decl" 5
       "Inner-style forward declarations are invalid.  Remove this line.") ;;;
  mwhen (matched (Search "(\w+|[+-]?\d+(\.\d*)?)\s*(<|>)\?=?\s*(\w+|[+-]?\d+)(\.\d*)?" line))
    (error filename linenum "build/deprecated" 3
       ">? and <? (max and min) operators are non-standard and deprecated.") ;;;
  mwhen (matched (Search "^\s*const\s*string\s*&\s*\w+\s*;" line))
    (error filename linenum "runtime/member_string_references" 2
       ("const string& members are dangerous. It is much better to use "
        +:+ "alternatives, such as pointers or simple constants.")).

(** [classinfo.name.split('::')[-1]]. *)
Definition base_name (name : string) : string := default EmptyString (last (split_str name "::")).

Definition CheckForNonStandardConstructs (filename : string) (clean_lines : CleansedLines)
    (linenum : Z) (nesting_state : nesting_state) : M unit :=
  let* line := lines_at clean_lines linenum in
  check_formats filename linenum line ;;;
  let* line := elided_at clean_lines linenum in
  check_constructs filename linenum line ;;;
  match InnermostClass nesting_state with
  | Some (Block _ (KClass ci) _ true _ _ _) =>
      let base_classname := base_name (class_name ci) in
      let* m := liftE (MatchE (CONSTRUCTOR_HEAD +:+ re_escape base_classname +:+ CONSTRUCTOR_ARGS)
                         line) in
      match m with
      | Some m => check_explicit filename base_classname linenum m
      | None => retM ()
      end
  | _ => retM ()
  end.

(** ** The arguments of a constructor *)

Lemma join_snoc sep p x : p <> [] -> join sep (p ++ [x]) = join sep p +:+ sep +:+ x.
Proof.
  induction p as [|a p IH]; [done|]. intros _. destruct p as [|b p]; [done|].
  cbn [app] in *. change (join sep (a :: b :: p ++ [x])) with (a +:+ sep +:+ join sep (b :: p ++ [x])).
  change (join sep (a :: b :: p)) with (a +:+ sep +:+ join sep (b :: p)).
  rewrite IH by done. by rewrite !sapp_assoc.
Qed.

(** The pieces of one argument: together they are balanced, and fewer of them are not. *)
Definition one_argument (pieces : list string) : Prop :=
  pieces <> [] /\ unbalanced (join "," pieces) = false /\
  forall n, (1 <= n < length pieces)%nat -> unbalanced (join "," (take n pieces)) = true.

(** The pieces are never balanced, however many are joined. *)
Definition never_balanced (pieces : list string) : Prop :=
  pieces <> [] /\
  forall n, (1 <= n <= length pieces)%nat -> unbalanced (join "," (take n pieces)) = true.

Lemma collapse_from_argument rest q : forall p, p <> [] ->
  (forall n, (n < length q)%nat -> unbalanced (join "," (p ++ take n q)) = true) ->
  unbalanced (join "," (p ++ q)) = false ->
  collapse_from (join "," p) (q ++ rest)
  = bindE (collapse_args rest) (fun l => inr (join "," (p ++ q) :: l)).
Proof.
  induction q as [|x q IH]; intros p Hp Hn Hb.
  - rewrite app_nil_r in *. cbn [app]. destruct rest as [|a rest]; cbn [collapse_from collapse_args]; by rewrite Hb.
  - cbn [app collapse_from]. pose proof (Hn 0%nat ltac:(simpl; lia)) as H0. cbn [take] in H0.
    rewrite app_nil_r in H0. rewrite H0, <- join_snoc by done.
    rewrite (IH (p ++ [x])); [by rewrite <- app_assoc|by destruct p| |by rewrite <- app_assoc].
    intros n Hl. rewrite <- app_assoc. apply (Hn (S n)). simpl. lia.
Qed.

Lemma collapse_args_argument pieces rest :
  one_argument pieces ->
  collapse_args (pieces ++ rest) = bindE (collapse_args rest) (fun l => inr (join "," pieces :: l)).
Proof.
  intros (Hne & Hb & Hn). destruct pieces as [|a q]; [done|].
  apply (collapse_from_argument rest q [a]); [done| |done].
  intros n Hl. apply (Hn (S n)). simpl. lia.
Qed.

Lemma collapse_from_never q : forall p, p <> [] ->
  (forall n, (n <= length q)%nat -> unbalanced (join "," (p ++ take n q)) = true) ->
  collapse_from (join "," p) q = inl IndexError.
Proof.
  induction q as [|x q IH]; intros p Hp Hn; cbn [collapse_from];
    pose proof (Hn 0%nat ltac:(lia)) as H0; cbn [take] in H0; rewrite app_nil_r in H0; rewrite H0; [done|].
  rewrite <- join_snoc by done. apply IH; [by destruct p|].
  intros n Hl. rewrite <- app_assoc. apply (Hn (S n)). simpl. lia.
Qed.

Lemma collapse_args_never pieces : never_balanced pieces -> collapse_args pieces = inl IndexError.
Proof.
  intros [Hne Hn]. destruct pieces as [|a q]; [done|]. apply (collapse_from_never q [a]); [done|].
  intros n Hl. apply (Hn (S n)). simpl. lia.
Qed.

(** Pieces start with those of one argument, or are never balanced. *)
Lemma first_argument pieces :
  pieces <> [] -> never_balanced pieces \/
  exists arg rest, pieces = arg ++ rest /\ one_argument arg.
Proof.
  intros Hne.
  assert (H : forall k, (forall n, (1 <= n <= k)%nat -> unbalanced (join "," (take n pieces)) = true) \/
    exists n, (1 <= n <= k)%nat /\ unbalanced (join "," (take n pieces)) = false /\
      forall m, (1 <= m < n)%nat -> unbalanced (join "," (take m pieces)) = true).
  { induction k as [|k [IH|(n & Hn & Hb & Hm)]]; [left; lia| |right; exists n; split; [lia|done]].
    destruct (unbalanced (join "," (take (S k) pieces))) eqn:E.
    - left. intros n Hn. destruct (decide (n = S k)) as [->|]; [done|apply IH; lia].
    - right. exists (S k). split; [lia|]. split; [done|]. intros m Hm. apply IH. lia. }
  destruct (H (length pieces)) as [Hn|(n & Hn & Hb & Hm)]; [by left|]. right.
  exists (take n pieces), (drop n pieces). split; [by rewrite take_drop|]. split.
  - destruct pieces; [done|]. destruct n; [lia|done].
  - split; [done|]. intros m Hlm. rewrite length_take in Hlm. rewrite take_take, Nat.min_l by lia.
    apply Hm. lia.
Qed.

(** Pieces are those of some arguments, and of a last one that is not closed if any. *)
Definition arguments_of (pieces : list string) (args : list (list string)) (open : list string) : Prop :=
  pieces = concat args ++ open /\ Forall one_argument args /\ (open = [] \/ never_balanced open).

Lemma arguments_exist pieces : exists args open, arguments_of pieces args open.
Proof.
  induction pieces as [pieces IH] using (induction_ltof1 _ (@length string)).
  destruct pieces as [|a q]; [exists [], []; split_and!; [done|constructor|by left]|].
  destruct (first_argument (a :: q)) as [Hn|(arg & rest & E & Ha)]; [done| |].
  { exists [], (a :: q). split_and!; [done|constructor|by right]. }
  destruct (IH rest) as (args & open & -> & Hf & Ho).
  { unfold ltof. rewrite E, length_app. destruct Ha as [Hne _]. destruct arg; [done|simpl; lia]. }
  exists (arg :: args), open. split_and!; [by rewrite E; cbn [concat]; rewrite app_assoc|by constructor|done].
Qed.

Lemma collapse_args_of pieces args open :
  arguments_of pieces args open ->
  collapse_args pieces = match open with [] => inr (map (join ",") args) | _ => inl IndexError end.
Proof.
  intros (-> & Hf & Ho). induction Hf as [|arg args Ha _ IH]; cbn [concat app map].
  - destruct Ho as [->|Hn]; [done|]. rewrite (collapse_args_never open Hn).
    by destruct open; [destruct Hn|].
  - rewrite <- app_assoc, collapse_args_argument, IH by done. by destruct open.
Qed.

(** C38. The arguments of a constructor are put together again after the split at
    every comma.  The loop returns [r] exactly when the pieces are the pieces of whole
    arguments, each of them the shortest run of pieces without an open angle bracket or
    parenthesis, and [r] has one text per argument, its pieces joined with commas; so
    pieces are joined only at commas inside brackets.  It raises only [IndexError], and
    exactly when after some whole arguments the rest is never balanced. *)
Theorem collapse_args_spec (pieces : list string) :
  (forall r, collapse_args pieces = inr r <->
     exists args, pieces = concat args /\ Forall one_argument args /\ r = map (join ",") args) /\
  (forall e, collapse_args pieces = inl e <->
     e = IndexError /\ exists args open, pieces = concat args ++ open /\
       Forall one_argument args /\ never_balanced open).
Proof.
  destruct (arguments_exist pieces) as (args & open & H). pose proof (collapse_args_of _ _ _ H) as E.
  destruct H as (Hp & Hf & Ho). split; [intros r|intros e]; split.
  - intros Hr. destruct open; [|congruence]. rewrite app_nil_r in Hp. exists args. split_and!; [done..|congruence].
  - intros (args' & -> & Hf' & ->). rewrite (collapse_args_of _ args' []); [done|].
    split_and!; [by rewrite app_nil_r|done|by left].
  - intros He. destruct open as [|o open]; [congruence|]. split; [congruence|].
    destruct Ho as [?|Ho]; [done|]. by exists args, (o :: open).
  - intros (-> & args' & open' & -> & Hf' & Ho'). rewrite (collapse_args_of _ args' open').
    + by destruct open'; [destruct Ho'|].
    + split_and!; [done|done|by right].
Qed.

(** [std::map<int, char> a] and [int b], split at the commas and put together again. *)
Lemma collapse_args_spec_witness :
  collapse_args ["std::map<int"; " char> a"; " int b"] = inr ["std::map<int, char> a"; " int b"]
  /\ collapse_args ["int a"; " f(int"] = inl IndexError.
Proof.
  split.
  - apply (collapse_args_spec ["std::map<int"; " char> a"; " int b"]).
    exists [["std::map<int"; " char> a"]; [" int b"]]. split; [reflexivity|]. split; [|reflexivity].
    repeat constructor; try discriminate.
    + intros [|[|n]] Hn; simpl in Hn; try lia. reflexivity.
    + intros n Hn. simpl in Hn. lia.
  - apply (collapse_args_spec ["int a"; " f(int"]). split; [reflexivity|].
    exists [["int a"]], [" f(int"]. split; [reflexivity|]. split.
    + repeat constructor; try discriminate. intros n Hn. simpl in Hn. lia.
    + split; [discriminate|]. intros [|[|n]] Hn; simpl in Hn; try lia. reflexivity.
Defined.
