(* ===== verification/Spacing.v ===== *)
(** * Horizontal and vertical spacing: the whitespace checks of cpplint.py

    [CheckSpacingForFunctionCall], [IsBlankLine], [CheckComment], [CheckSpacing],
    [CheckOperatorSpacing], [CheckParenthesisSpacing], [CheckCommaSpacing],
    [_IsType], [CheckBracesSpacing], [IsDecltype], [CheckSectionSpacing] and
    [GetPreviousNonBlankLine]. *)

From stdpp Require Import base list strings.
From Stdlib Require Import ZArith Lia Ascii.
From S2P Require Import Prelude PyString Regex RegexParse PyRe RegexFacts Config Cleanse Expr HeaderGuard Nesting.
Local Open Scope Z_scope.
Local Open Scope py_scope.

(** [Search(p, s)] and [Match(p, s)] as conditions. *)
Definition finds (p s : string) : bool := matched (Search p s).
Definition starts (p s : string) : bool := matched (Match p s).

(** [c in string.whitespace]: the whitespace of ASCII. *)
Definition string_whitespace (c : ascii) : bool := in_range c 9 13 || (code c =? 32)%N.

(** [s.isdigit()] on Latin-1: decimal digits and superscripts. *)
Definition isdigit (s : string) : bool :=
  negb (String.eqb s EmptyString)
  && sall (fun c => is_digit c || (code c =? 178)%N || (code c =? 179)%N || (code c =? 185)%N) s.

(** ** Function calls *)

(** The text inside the parentheses of the first control structure, or the line. *)
Fixpoint control_text (patterns : list string) (line : string) : string :=
  match patterns with
  | [] => line
  | p :: patterns' =>
      match Search p line with Some m => m_text m 1 | None => control_text patterns' line end
  end.
Definition CONTROL_PATTERNS : list string :=
  ["\bif\s*\((.*)\)\s*{"; "\bfor\s*\((.*)\)\s*{"; "\bwhile\s*\((.*)\)\s*[{;]";
   "\bswitch\s*\((.*)\)\s*{"].

Definition CheckSpacingForFunctionCall (filename : string) (clean_lines : CleansedLines)
    (linenum : Z) : M unit :=
  let report := error filename linenum "whitespace/parens" in
  let* line := elided_at clean_lines linenum in
  let fncall := control_text CONTROL_PATTERNS line in
  mwhen (negb (finds "\b(if|for|while|switch|return|new|delete|catch|sizeof)\b" fncall)
         && negb (finds " \([^)]+\)\([^)]*(\)|,$)" fncall)
         && negb (finds " \([^)]+\)\[[^\]]+\]" fncall))
    ((if finds "\w\s*\(\s(?!\s*\\$)" fncall
      then report 4 "Extra space after ( in function call"
      else mwhen (finds "\(\s+(?!(\s*\\)|\()" fncall) (report 2 "Extra space after (")) ;;;
     mwhen (finds "\w\s+\(" fncall
            && negb (finds "_{0,2}asm_{0,2}\s+_{0,2}volatile_{0,2}\s+\(" fncall)
            && negb (finds "#\s*define|typedef|using\s+\w+\s*=" fncall)
            && negb (finds "\w\s+\((\w+::)*\*\w+\)\(" fncall)
            && negb (finds "\bcase\s+\(" fncall))
       (report (if finds "\boperator_*\b" line then 0 else 4)
          "Extra space before ( in function call") ;;;
     mwhen (finds "[^)]\s+\)\s*[^{\s]" fncall)
       (if finds "^\s+\)" fncall
        then report 2 "Closing ) should be moved to the previous line"
        else report 2 "Extra space before )")).

(** ** Comments *)

Definition IsBlankLine (line : string) : bool := String.eqb line EmptyString || isspace line.

Definition RE_PATTERN_TODO : pattern := pat "^//(\s*)TODO(\(.+?\))?:?(\s|$)?".

(** The mistakes in a TODO comment. *)
Definition check_todo (filename : string) (linenum : Z) (comment : string) : M unit :=
  match re_match RE_PATTERN_TODO comment with
  | None => retM ()
  | Some m =>
      mwhen (1 <? zlen (m_text m 1))
        (error filename linenum "whitespace/todo" 2 "Too many spaces before TODO") ;;;
      mwhen (String.eqb (m_text m 2) EmptyString)
        (error filename linenum "readability/todo" 2
           ("Missing username in TODO; it should look like "
            +:+ dquote +:+ "// TODO(my_username): Stuff." +:+ dquote)) ;;;
      mwhen (negb (bool_decide (m_group m 3 = Some " ") || bool_decide (m_group m 3 = Some EmptyString)))
        (error filename linenum "whitespace/todo" 2
           "TODO(my_username) should be followed by a space")
  end.

(** [line[i] not in string.whitespace], where the index is in range. *)
Definition nonblank_at (line : string) (i : Z) : bool :=
  match str_at line i with Some c => negb (string_whitespace c) | None => false end.

Definition CheckComment (line filename : string) (linenum next_line_start : Z) : M unit :=
  let commentpos := str_find line "//" in
  mwhen (negb (commentpos =? -1)
         && (str_count (re_sub (pat "\\.") EmptyString (slice line 0 commentpos)) dquote mod 2 =? 0))
    (mwhen (negb (starts "^.*{ *//" line && (next_line_start =? commentpos))
            && (((1 <=? commentpos) && nonblank_at line (commentpos - 1))
                || ((2 <=? commentpos) && nonblank_at line (commentpos - 2))))
       (error filename linenum "whitespace/comments" 2
          "At least two spaces is best between code and comments") ;;;
     let comment := slice_from line commentpos in
     check_todo filename linenum comment ;;;
     mwhen (starts "//[^ ]*\w" comment && negb (starts "(///|//\!)(\s+|$)" comment))
       (error filename linenum "whitespace/comments" 4
          "Should have a space between // and comment")).

(** ** Blank lines *)

(** [while search_position >= 0 and Match(r' {6}\w', elided[search_position])],
    from [search_position = n - 1]: the position where it stops. *)
Fixpoint initializer_search (n : nat) (elided : list string) : exn + Z :=
  match n with
  | O => inr (-1)
  | S n' =>
      match py_nth elided (Z.of_nat n') with
      | None => inl IndexError
      | Some line => if starts " {6}\w" line then initializer_search n' elided else inr (Z.of_nat n')
      end
  end.

(** A blank line after a line that opens a block is excused after a function
    header that is continued or an initializer list. *)
Definition block_exception (elided : list string) (linenum : Z) (prev_line : string) : exn + bool :=
  if starts " {6}\w" prev_line then
    let? search_position := initializer_search (Z.to_nat (linenum - 1)) elided in
    if 0 <=? search_position then
      match py_nth elided search_position with
      | None => inl IndexError
      | Some line => inr (String.eqb (slice_to line 5) "    :")
      end
    else inr false
  else inr (starts " {4}\w[^\(]*\)\s*(const\s*)?(\{\s*$|:)" prev_line || starts " {4}:" prev_line).

Definition check_blank_line (filename : string) (clean_lines : CleansedLines) (linenum : Z) : M unit :=
  let* prev_line := elided_at clean_lines (linenum - 1) in
  let prevbrace := str_rfind prev_line "{" in
  (if negb (prevbrace =? -1) && (str_find (slice_from prev_line prevbrace) "}" =? -1) then
     let* exception := liftE (block_exception (elided clean_lines) linenum prev_line) in
     mwhen (negb exception)
       (error filename linenum "whitespace/blank_line" 2
          ("Redundant blank line at the start of a code block " +:+ "should be deleted."))
   else retM ()) ;;;
  (if linenum + 1 <? NumLines clean_lines then
     let* next_line := line_at (lines_without_raw_strings clean_lines) (linenum + 1) in
     mwhen (negb (String.eqb next_line EmptyString) && starts "\s*}" next_line
            && (str_find next_line "} else " =? -1))
       (error filename linenum "whitespace/blank_line" 3
          ("Redundant blank line at the end of a code block " +:+ "should be deleted."))
   else retM ()) ;;;
  match Match "\s*(public|protected|private):" prev_line with
  | Some m =>
      error filename linenum "whitespace/blank_line" 3
        ("Do not leave a blank line after " +:+ dquote +:+ m_text m 1 +:+ ":" +:+ dquote)
  | None => retM ()
  end.

Definition CheckSpacing (filename : string) (clean_lines : CleansedLines) (linenum : Z)
    (nesting_state : nesting_state) : M unit :=
  let raw := lines_without_raw_strings clean_lines in
  let* line := line_at raw linenum in
  mwhen (IsBlankLine line && negb (InNamespaceBody nesting_state) && negb (InExternC nesting_state))
    (check_blank_line filename clean_lines linenum) ;;;
  let* next_line_start :=
    if linenum + 1 <? NumLines clean_lines then
      let* next_line := line_at raw (linenum + 1) in
      retM (zlen next_line - zlen (lstrip next_line))
    else retM 0 in
  CheckComment line filename linenum next_line_start ;;;
  let* line := elided_at clean_lines linenum in
  mwhen (finds "\w\s+\[" line && negb (finds "(?:auto&?|delete|return)\s+\[" line))
    (error filename linenum "whitespace/braces" 5 "Extra space before [") ;;;
  mwhen (finds "for *\(.*[^:]:[^: ]" line || finds "for *\(.*[^: ]:[^:]" line)
    (error filename linenum "whitespace/forcolon" 2
       "Missing space around colon in range-based for loop").

(** ** Operators *)

Definition OPERATOR_CALL : string := "^(.*\boperator\b)(\S+)(\s*\(.*)$".

(** [while True]: the characters after the word operator become underscores. *)
Fixpoint mask_operators (fuel : nat) (line : string) : exn + string :=
  match fuel with
  | O => inl FuelExhausted
  | S fuel' =>
      match Match OPERATOR_CALL line with
      | Some m => mask_operators fuel'
                    (m_text m 1 +:+ repeat_char "_" (String.length (m_text m 2)) +:+ m_text m 3)
      | None => inr line
      end
  end.

(** Comparison operators: < and > count only where they do not close an
    expression. *)
Definition check_comparisons (filename : string) (clean_lines : CleansedLines) (linenum : Z)
    (line : string) : M unit :=
  let report op := error filename linenum "whitespace/operators" 3 ("Missing spaces around " +:+ op) in
  match Search "[^<>=!\s](==|!=|<=|>=|\|\|)[^<>=!\s,;\)]" line with
  | Some m => report (m_text m 1)
  | None =>
      if starts "#.*include" line then retM ()
      else
        match Match "^(.*[^\s<])<[^\s=<,]" line with
        | Some m =>
            let* ' (_, _, end_pos) := liftE (CloseExpression clean_lines linenum (zlen (m_text m 1))) in
            mwhen (end_pos <=? -1) (report "<")
        | None => retM ()
        end ;;;
        match Match "^(.*[^-\s>])>[^\s=>,]" line with
        | Some m =>
            let* ' (_, _, start_pos) :=
              liftE (ReverseCloseExpression clean_lines linenum (zlen (m_text m 1))) in
            mwhen (start_pos <=? -1) (report ">")
        | None => retM ()
        end
  end.

Definition SHIFT_LEFT : string := "(operator|[^\s(<])(?:L|UL|LL|ULL|l|ul|ll|ull)?<<([^\s,=<])".

Definition CheckOperatorSpacing (filename : string) (clean_lines : CleansedLines) (linenum : Z)
    : M unit :=
  let report := error filename linenum "whitespace/operators" in
  let* line := elided_at clean_lines linenum in
  let* line := liftE (mask_operators (S (String.length line)) line) in
  mwhen ((finds "[\w.]=" line || finds "=[\w.]" line)
         && negb (finds "\b(if|while|for) " line)
         && negb (finds "(>=|<=|==|!=|&=|\^=|\|=|\+=|\*=|\/=|\%=)" line)
         && negb (finds "operator=" line))
    (report 4 "Missing spaces around =") ;;;
  check_comparisons filename clean_lines linenum line ;;;
  match Search SHIFT_LEFT line with
  | Some m =>
      mwhen (negb (isdigit (m_text m 1) && isdigit (m_text m 2))
             && negb (String.eqb (m_text m 1) "operator" && String.eqb (m_text m 2) ";"))
        (report 3 "Missing spaces around <<")
  | None => retM ()
  end ;;;
  mwhen (finds ">>[a-zA-Z_]" line) (report 3 "Missing spaces around >>") ;;;
  match Search "(!\s|~\s|[\s]--[\s;]|[\s]\+\+[\s;])" line with
  | Some m => report 4 ("Extra space for operator " +:+ m_text m 1)
  | None => retM ()
  end.

(** ** Parentheses, commas and semicolons *)

Definition CONTROL_PARENS : string :=
  "\b(if|for|while|switch)\s*" +:+ "\(([ ]*)(.).*[^ ]+([ ]*)\)\s*{\s*$".

Definition CheckParenthesisSpacing (filename : string) (clean_lines : CleansedLines) (linenum : Z)
    : M unit :=
  let report := error filename linenum "whitespace/parens" 5 in
  let* line := elided_at clean_lines linenum in
  match Search " (if\(|for\(|while\(|switch\()" line with
  | Some m => report ("Missing space before ( in " +:+ m_text m 1)
  | None => retM ()
  end ;;;
  match Search CONTROL_PARENS line with
  | Some m =>
      let left := zlen (m_text m 2) in
      let right := zlen (m_text m 4) in
      mwhen (negb (left =? right)
             && negb ((String.eqb (m_text m 3) ";" && (left =? 1 + right))
                      || (String.eqb (m_text m 2) EmptyString && finds "\bfor\s*\(.*; \)" line)))
        (report ("Mismatching spaces inside () in " +:+ m_text m 1)) ;;;
      mwhen (negb ((left =? 0) || (left =? 1)))
        (report ("Should have zero or one spaces inside ( and ) in " +:+ m_text m 1))
  | None => retM ()
  end.

Definition CheckCommaSpacing (filename : string) (clean_lines : CleansedLines) (linenum : Z)
    : M unit :=
  let* line := elided_at clean_lines linenum in
  (if finds ",[^,\s]" (ReplaceAll "\boperator\s*,\s*\(" "F(" line) then
     let* raw := line_at (lines_without_raw_strings clean_lines) linenum in
     mwhen (finds ",[^,\s]" raw)
       (error filename linenum "whitespace/comma" 3 "Missing space after ,")
   else retM ()) ;;;
  mwhen (finds ";[^\s};\\)/]" line)
    (error filename linenum "whitespace/semicolon" 3 "Missing space after ;").

(** ** Braces *)

(** [while first_line >= next_block_start]: the last of the [n] lines up to line
    [i] that has the word template. *)
Fixpoint template_line (n : nat) (c : CleansedLines) (i : Z) : exn + option Z :=
  match n with
  | O => inr None
  | S n' =>
      match py_nth (elided c) i with
      | None => inl IndexError
      | Some line => if 0 <=? str_find line "template" then inr (Some i) else template_line n' c (i - 1)
      end
  end.

(** Whether one of the [n] lines from line [i] on has the pattern. *)
Fixpoint search_lines (p : string) (n : nat) (c : CleansedLines) (i : Z) : exn + bool :=
  match n with
  | O => inr false
  | S n' =>
      match py_nth (elided c) i with
      | None => inl IndexError
      | Some line =>
          let? m := SearchE p line in
          if matched m then inr true else search_lines p n' c (i + 1)
      end
  end.

(** The walk up the nesting stack, innermost block first. *)
Fixpoint is_type_walk (typename_pattern : string) (c : CleansedLines) (blocks : list block)
    : exn + bool :=
  match blocks with
  | [] => inr false
  | b :: outer =>
      if is_namespace b then inr false
      else
        let last_line := starting_linenum b in
        let next_block_start := match outer with [] => 0 | o :: _ => starting_linenum o end in
        let? first_line := template_line (Z.to_nat (last_line - next_block_start + 1)) c last_line in
        match first_line with
        | None => is_type_walk typename_pattern c outer
        | Some first_line =>
            let? hit := search_lines typename_pattern (Z.to_nat (last_line + 1 - first_line)) c first_line in
            if hit then inr true else is_type_walk typename_pattern c outer
        end
  end.

(** [_IsType]. *)
Definition IsType (c : CleansedLines) (nesting_state : nesting_state) (expr : string) : exn + bool :=
  let token := match Match "^.*(\b\S+)$" expr with Some m => m_text m 1 | None => expr end in
  if matched (re_match TYPES token) then inr true
  else is_type_walk ("\b(?:typename|class|struct)\s+" +:+ re_escape token +:+ "\b") c
         (stack nesting_state).

(** [for offset in xrange(...): trailing_text += clean_lines.elided[offset]]. *)
Fixpoint append_lines (n : nat) (c : CleansedLines) (offset : Z) (text : string) : exn + string :=
  match n with
  | O => inr text
  | S n' =>
      match py_nth (elided c) offset with
      | None => inl IndexError
      | Some line => append_lines n' c (offset + 1) (text +:+ line)
      end
  end.

(** A brace without a space before it that is not an initializer list. *)
Definition check_brace_space (filename : string) (clean_lines : CleansedLines) (linenum : Z)
    (nesting_state : nesting_state) (line : string) : M unit :=
  match Match "^(.*[^ ({>]){" line with
  | None => retM ()
  | Some m =>
      let leading_text := m_text m 1 in
      let* ' (endline, endlinenum, endpos) :=
        liftE (CloseExpression clean_lines linenum (zlen leading_text)) in
      let trailing_text := if -1 <? endpos then slice_from endline endpos else EmptyString in
      let last := Z.min (endlinenum + 3) (NumLines clean_lines - 1) in
      let* trailing_text :=
        liftE (append_lines (Z.to_nat (last - (endlinenum + 1))) clean_lines (endlinenum + 1)
                 trailing_text) in
      if starts "^[\s}]*[{.;,)<>\]:]" trailing_text then retM ()
      else
        let* is_type := liftE (IsType clean_lines nesting_state leading_text) in
        mwhen (negb is_type) (error filename linenum "whitespace/braces" 5 "Missing space before {")
  end.

Definition CheckBracesSpacing (filename : string) (clean_lines : CleansedLines) (linenum : Z)
    (nesting_state : nesting_state) : M unit :=
  let* line := elided_at clean_lines linenum in
  check_brace_space filename clean_lines linenum nesting_state line ;;;
  mwhen (finds "}else" line)
    (error filename linenum "whitespace/braces" 5 "Missing space before else") ;;;
  let report := error filename linenum "whitespace/semicolon" 5 in
  if finds ":\s*;\s*$" line then report "Semicolon defining empty statement. Use {} instead."
  else if finds "^\s*;\s*$" line then
    report ("Line contains only semicolon. If this should be an empty statement, "
            +:+ "use {} instead.")
  else
    mwhen (finds "\s+;\s*$" line && negb (finds "\bfor\b" line))
      (report ("Extra space before last semicolon. If this should be an empty "
               +:+ "statement, use {} instead.")).

Definition IsDecltype (clean_lines : CleansedLines) (linenum column : Z) : exn + bool :=
  let? ' (text, _, start_col) := ReverseCloseExpression clean_lines linenum column in
  if start_col <? 0 then inr false else inr (finds "\bdecltype\s*$" (slice text 0 start_col)).

(** ** Sections of a class *)

(** The first of the [n] lines from line [i] on that ends with an opening brace,
    or [default_]. *)
Fixpoint class_head_end (n : nat) (c : CleansedLines) (i default_ : Z) : exn + Z :=
  match n with
  | O => inr default_
  | S n' =>
      match py_nth (lines c) i with
      | None => inl IndexError
      | Some line => if finds "\{\s*$" line then inr i else class_head_end n' c (i + 1) default_
      end
  end.

(** [start] and [last_line] are the attributes of the class. *)
Definition CheckSectionSpacing (filename : string) (clean_lines : CleansedLines)
    (start last_line linenum : Z) : M unit :=
  if (last_line - start <=? 24) || (linenum <=? start) then retM ()
  else
    let* line := lines_at clean_lines linenum in
    match Match "\s*(public|protected|private):" line with
    | None => retM ()
    | Some m =>
        let* prev_line := lines_at clean_lines (linenum - 1) in
        if negb (IsBlankLine prev_line) && negb (finds "\b(class|struct)\b" prev_line)
           && negb (finds "\\$" prev_line)
        then
          let* end_class_head :=
            liftE (class_head_end (Z.to_nat (linenum - start)) clean_lines start start) in
          mwhen (end_class_head <? linenum - 1)
            (error filename linenum "whitespace/blank_line" 3
               (dquote +:+ m_text m 1 +:+ ":" +:+ dquote +:+ " should be preceded by a blank line"))
        else retM ()
    end.

(** [while prevlinenum >= 0], from [prevlinenum = n - 1]. *)
Fixpoint previous_nonblank (n : nat) (c : CleansedLines) : exn + (string * Z) :=
  match n with
  | O => inr (EmptyString, -1)
  | S n' =>
      match py_nth (elided c) (Z.of_nat n') with
      | None => inl IndexError
      | Some prevline => if IsBlankLine prevline then previous_nonblank n' c else inr (prevline, Z.of_nat n')
      end
  end.
Definition GetPreviousNonBlankLine (clean_lines : CleansedLines) (linenum : Z) : exn + (string * Z) :=
  previous_nonblank (Z.to_nat linenum) clean_lines.

(** ** The loop over operators ends *)

(** The characters of a text that are not word characters. *)
Fixpoint nonwords (s : string) : nat :=
  match s with
  | EmptyString => 0
  | String c s' => (if is_word c then 0 else 1) + nonwords s'
  end.

Lemma nonwords_app s t : nonwords (s +:+ t) = (nonwords s + nonwords t)%nat.
Proof. induction s as [|c s IH]; simpl; [done|]. rewrite IH. lia. Qed.

Lemma nonwords_underscores n : nonwords (repeat_char "_" n) = 0%nat.
Proof. induction n; simpl; [done|]. by rewrite IHn. Qed.

Lemma nonwords_le s : (nonwords s <= String.length s)%nat.
Proof. induction s as [|c s IH]; simpl; [lia|]. destruct (is_word c); lia. Qed.

(** Before a boundary that follows a word character stands another character. *)
Lemma boundary_after_word fl s a x y :
  is_word a = true -> den fl s (RSeq (RSet false [CRange a a]) RWordB) x y ->
  icase fl = false -> word_at (next_char y) = false.
Proof.
  intros Ha (z & Hz & -> & Hb) Hi. apply eat_reads in Hz as (c & Hc & _ & _ & Hbef & _).
  destruct fl as [ic d]; cbn in Hi; subst ic. apply set_mem_lit in Hc as ->.
  unfold at_word_boundary in Hb. rewrite Hbef in Hb. cbn [word_at] in Hb. rewrite Ha in Hb.
  by destruct (word_at (next_char z)).
Qed.

Lemma operator_call_masks line m :
  Match OPERATOR_CALL line = Some m ->
  (nonwords (m_text m 1 +:+ repeat_char "_" (String.length (m_text m 2)) +:+ m_text m 3)
   < nonwords line)%nat.
Proof.
  intros [ts H]%Match_splits; [|vm_compute; reflexivity].
  unfold OPERATOR_CALL in H. splits_inv H.
  destruct (Hg 0%nat _ eq_refl) as [_ ->], (Hg 1%nat _ eq_refl) as [_ ->], (Hg 2%nat _ eq_refl) as [_ ->].
  assert (Hw : word_at (next_char z0) = false).
  { repeat match goal with Hd : den _ _ (RSeq _ (RSeq _ _)) z _ |- _ => destruct Hd as (? & _ & Hd)
           | Hd : den _ _ (RSeq _ (RSeq _ _)) ?a z0 |- _ => destruct Hd as (? & _ & Hd) end.
    by eapply (boundary_after_word _ _ "r"). }
  pose proof (den_min_len _ _ _ _ _ _ H3 H4) as Hl. destruct H4 as [_ H4]. cbn [set_cap rest] in H4.
  destruct t1 as [|c t1]; [cbn in Hl; lia|].
  unfold next_char in Hw. rewrite H4 in Hw. cbn in Hw.
  cbn [sdrop] in Hs. rewrite Hs. rewrite !nonwords_app, nonwords_underscores.
  cbn [nonwords]. rewrite Hw. lia.
Qed.

Lemma mask_operators_ends fuel : forall line,
  (nonwords line < fuel)%nat -> exists r, mask_operators fuel line = inr r.
Proof.
  induction fuel as [|fuel IH]; intros line Hf; [lia|]. cbn [mask_operators].
  destruct (Match OPERATOR_CALL line) as [m|] eqn:E; [|by exists line].
  apply operator_call_masks in E. apply IH. lia.
Qed.
