(* ===== verification/Braces.v ===== *)
(** * Braces, semicolons and bodies

    [CheckBraces], [CheckTrailingSemicolon], [CheckEmptyBlockBody],
    [FindCheckMacro], [CheckCheck], [CheckAltTokens] and [GetLineWidth] of
    cpplint.py. *)

From stdpp Require Import base list strings.
From Stdlib Require Import ZArith Lia Ascii.
From S2P Require Import Prelude PyString Regex RegexParse PyRe RegexFacts Config Cleanse Expr HeaderGuard Nesting NestingFacts Spacing.
Local Open Scope Z_scope.
Local Open Scope py_scope.

(** [GetLineWidth]: every character of Latin-1 is one column wide, normalisation
    keeps it, and none is combining. *)
Definition GetLineWidth (line : string) : Z := zlen line.

(** ** Where braces stand *)

(** [while endlinenum < len(elided) and ';' not in elided[endlinenum][endpos:]]:
    the line where it stops. *)
Fixpoint semicolon_line (n : nat) (c : CleansedLines) (endlinenum endpos : Z) : exn + Z :=
  match n with
  | O => inr endlinenum
  | S n' =>
      match py_nth (elided c) endlinenum with
      | None => inl IndexError
      | Some line => if contains (slice_from line endpos) ";" then inr endlinenum
                     else semicolon_line n' c (endlinenum + 1) 0
      end
  end.

Definition LAMBDA_BODY : string := "^[^{};]*\[[^\[\]]*\][^{}]*\{[^{}]*\}\s*\)*[;,]\s*$".

(** The body of an if or else without braces, from the end of the condition. *)
Definition check_single_statement (filename : string) (c : CleansedLines) (linenum if_indent : Z)
    (is_if : bool) (endlinenum endpos : Z) : M unit :=
  let report := error filename linenum "readability/braces" 4 in
  let count := Z.of_nat (length (elided c)) in
  let* endlinenum := liftE (semicolon_line (Z.to_nat (count - endlinenum)) c endlinenum endpos) in
  if endlinenum <? count then
    let* endline := elided_at c endlinenum in
    let endpos := str_find endline ";" in
    if negb (starts ";[\s}]*(\\?)$" (slice_from endline endpos)) then
      mwhen (negb (starts LAMBDA_BODY endline))
        (report "If/else bodies with multiple statements require braces")
    else if endlinenum <? count - 1 then
      let* next_line := elided_at c (endlinenum + 1) in
      let next_indent := GetIndentLevel next_line in
      if is_if && starts "\s*else\b" next_line && negb (next_indent =? if_indent) then
        report ("Else clause should be indented at the same level as if. "
                +:+ "Ambiguous nested if/else chains require braces.")
      else mwhen (if_indent <? next_indent)
             (report "If/else bodies with multiple statements require braces")
    else retM ()
  else retM ().

(** [if_else_match]: an if or else of the line. *)
Definition check_if_else (filename : string) (c : CleansedLines) (linenum : Z) (line : string)
    (if_else_match : mobj) : M unit :=
  let if_indent := GetIndentLevel line in
  let if_match := Search "\bif\s*\(" line in
  let* ' (endline, endlinenum, endpos) :=
    match if_match with
    | Some m => liftE (CloseExpression c linenum (m_end m 0 - 1))
    | None => retM (line, linenum, m_end if_else_match 0)
    end in
  let rest := slice_from endline endpos in
  if starts "\s*{" rest then retM ()
  else
    let* brace_next :=
      if starts "\s*$" rest && (endlinenum <? Z.of_nat (length (elided c)) - 1) then
        let* next := elided_at c (endlinenum + 1) in retM (starts "\s*{" next)
      else retM false in
    if brace_next then retM ()
    else check_single_statement filename c linenum if_indent (matched if_match) endlinenum endpos.

(** The braces around an else. *)
Definition check_else_braces (filename : string) (c : CleansedLines) (linenum : Z) (line : string)
    : M unit :=
  let report := error filename linenum "readability/braces" 5
                  "If an else has a brace on one side, it should have it on both" in
  if finds "else if\s*\(" line then
    let brace_on_left := finds "}\s*else if\s*\(" line in
    let pos := str_find_at line "(" (str_find line "else if") in
    if 0 <? pos then
      let* ' (endline, _, endpos) := liftE (CloseExpression c linenum pos) in
      let brace_on_right := negb (str_find (slice_from endline endpos) "{" =? -1) in
      mwhen (negb (Bool.eqb brace_on_left brace_on_right)) report
    else retM ()
  else mwhen (finds "}\s*else[^{]*$" line || starts "[^}]*else\s*{" line) report.

Definition CheckBraces (cfg : config) (filename : string) (clean_lines : CleansedLines) (linenum : Z)
    : M unit :=
  let* line := elided_at clean_lines linenum in
  (if starts "\s*{\s*$" line then
     let* ' (prevline, _) := liftE (GetPreviousNonBlankLine clean_lines linenum) in
     mwhen (negb (finds "[,;:}{(]\s*$" prevline) && negb (starts "\s*#" prevline)
            && negb ((line_length cfg - 2 <? GetLineWidth prevline) && contains prevline "[]"))
       (error filename linenum "whitespace/braces" 4
          "{ should almost always be at the end of the previous line")
   else retM ()) ;;;
  (if starts "\s*else\b\s*(?:if\b|\{|$)" line then
     let* ' (prevline, _) := liftE (GetPreviousNonBlankLine clean_lines linenum) in
     mwhen (starts "\s*}\s*$" prevline)
       (error filename linenum "whitespace/newline" 4
          "An else should appear on the same line as the preceding }")
   else retM ()) ;;;
  check_else_braces filename clean_lines linenum line ;;;
  mwhen (finds "\belse [^\s{]" line && negb (finds "\belse if\b" line))
    (error filename linenum "whitespace/newline" 4
       "Else clause should never be on same line as else (use 2 lines)") ;;;
  mwhen (starts "\s*do [^\s{]" line)
    (error filename linenum "whitespace/newline" 4
       "do/while clauses should not be on a single line") ;;;
  match Search "\b(if\s*\(|else\b)" line with
  | Some if_else_match =>
      if starts "\s*#" line then retM ()
      else check_if_else filename clean_lines linenum line if_else_match
  | None => retM ()
  end.

(** ** Redundant semicolons *)

(** The macros after which a block is checked all the same. *)
Definition SAFE_MACROS : list string :=
  ["TEST"; "TEST_F"; "MATCHER"; "MATCHER_P"; "TYPED_TEST"; "EXCLUSIVE_LOCKS_REQUIRED";
   "SHARED_LOCKS_REQUIRED"; "LOCKS_EXCLUDED"; "INTERFACE_DEF"].

(** The text before the parenthesis says that the braces are no block. *)
Definition not_a_block (line_prefix : string) : bool :=
  match Search "\b([A-Z_][A-Z0-9_]*)\s*$" line_prefix with
  | Some macro => negb (str_mem (m_text macro 1) SAFE_MACROS)
  | None => false
  end
  || match Match "^(.*\])\s*$" line_prefix with
     | Some func => negb (finds "\boperator\s*\[\s*\]" (m_text func 1))
     | None => false
     end
  || finds "\b(?:struct|union)\s+alignas\s*$" line_prefix
  || finds "\bdecltype$" line_prefix
  || finds "\s+=\s*$" line_prefix.

(** The text before the opening brace of a block after which a semicolon is
    redundant. *)
Definition block_start (c : CleansedLines) (linenum : Z) (line : string) : exn + option string :=
  match Match "^(.*\)\s*)\{" line with
  | Some m =>
      let? ' (text, open_line, start) :=
        ReverseCloseExpression c linenum (str_rfind (m_text m 1) ")") in
      if (-1 <? start) && not_a_block (slice text 0 start) then inr None
      else if 1 <? open_line then
        match py_nth (elided c) (open_line - 1) with
        | None => inl IndexError
        | Some prev => inr (if finds "\]\s*$" prev then None else Some (m_text m 1))
        end
      else inr (Some (m_text m 1))
  | None =>
      match Match "^(.*(?:else|\)\s*const)\s*)\{" line with
      | Some m => inr (Some (m_text m 1))
      | None =>
          let? ' (prevline, _) := GetPreviousNonBlankLine c linenum in
          if negb (String.eqb prevline EmptyString) && finds "[;{}]\s*$" prevline
          then inr (match Match "^(\s*)\{" line with Some m => Some (m_text m 1) | None => None end)
          else inr None
      end
  end.

Definition CheckTrailingSemicolon (filename : string) (clean_lines : CleansedLines) (linenum : Z)
    : M unit :=
  let* line := elided_at clean_lines linenum in
  let* before := liftE (block_start clean_lines linenum line) in
  match before with
  | None => retM ()
  | Some before =>
      let* ' (endline, endlinenum, endpos) := liftE (CloseExpression clean_lines linenum (zlen before)) in
      if (-1 <? endpos) && starts "^\s*;" (slice_from endline endpos) then
        let* previous := raw_at clean_lines (endlinenum - 1) in
        emit (Nolint filename previous (endlinenum - 1)) ;;;
        let* last := raw_at clean_lines endlinenum in
        emit (Nolint filename last endlinenum) ;;;
        error filename endlinenum "readability/braces" 4 "You don't need a ; after a }"
      else retM ()
  end.

(** ** Empty bodies *)

(** [while not Search(r'^\s*\{', opening_line_fragment)], with [n] lines after
    [opening_linenum]: the line of the brace and the fragment that starts with it,
    or nothing where the function returns. *)
Fixpoint opening_brace (n : nat) (c : CleansedLines) (opening_linenum : Z) (fragment : string)
    : exn + option (Z * string) :=
  if finds "^\s*\{" fragment then inr (Some (opening_linenum, fragment))
  else if finds "^(?!\s*$)" fragment then inr None
  else
    match n with
    | O => inr None
    | S n' =>
        match py_nth (elided c) (opening_linenum + 1) with
        | None => inl IndexError
        | Some line => opening_brace n' c (opening_linenum + 1) line
        end
    end.

(** [while Search(r'^\s*$|^(?=\s*else)', current_line_fragment)]: whether an else
    follows the body. *)
Fixpoint else_follows (n : nat) (c : CleansedLines) (current_linenum : Z) (fragment : string)
    : exn + bool :=
  if finds "^\s*$|^(?=\s*else)" fragment then
    if finds "^(?=\s*else)" fragment then inr true
    else
      match n with
      | O => inr false
      | S n' =>
          match py_nth (elided c) (current_linenum + 1) with
          | None => inl IndexError
          | Some line => else_follows n' c (current_linenum + 1) line
          end
      end
  else inr false.

(** [list(s)]: the characters, as strings. *)
Fixpoint chars (s : string) : list string :=
  match s with EmptyString => [] | String a s' => String a EmptyString :: chars s' end.

(** The text between the braces, with the comments of the lines inside. *)
Definition body_text (c : CleansedLines) (opening_line : string)
    (opening_linenum opening_pos closing_linenum closing_pos : Z) : exn + string :=
  if opening_linenum <? closing_linenum then
    match py_nth (elided c) closing_linenum with
    | None => inl IndexError
    | Some closing =>
        inr (join newline
               (chars (slice_from opening_line (opening_pos + 1))
                ++ list_slice (raw_lines c) (opening_linenum + 1) closing_linenum
                ++ [slice_to closing (closing_pos - 1)]))
    end
  else inr (slice opening_line (opening_pos + 1) (closing_pos - 1)).

(** The lines after line [i]. *)
Definition lines_after (c : CleansedLines) (i : Z) : nat :=
  Z.to_nat (Z.of_nat (length (elided c)) - 1 - i).

(** An if statement, from the end of its condition. *)
Definition check_if_body (filename : string) (c : CleansedLines) (end_line : string)
    (end_linenum end_pos : Z) : M unit :=
  let* opening :=
    liftE (opening_brace (lines_after c end_linenum) c end_linenum (slice_from end_line end_pos)) in
  match opening with
  | None => retM ()
  | Some (opening_linenum, fragment) =>
      let* opening_line := elided_at c opening_linenum in
      let opening_pos := str_find fragment "{" + (if opening_linenum =? end_linenum then end_pos else 0) in
      let* ' (closing_line, closing_linenum, closing_pos) :=
        liftE (CloseExpression c opening_linenum opening_pos) in
      if closing_pos <? 0 then retM ()
      else
        let* raw := raw_at c opening_linenum in
        if negb (String.eqb raw (CleanseComments raw)) then retM ()
        else
          let* body := liftE (body_text c opening_line opening_linenum opening_pos
                                closing_linenum closing_pos) in
          if negb (matched (re_search EMPTY_CONDITIONAL_BODY_PATTERN body)) then retM ()
          else
            let* has_else := liftE (else_follows (lines_after c closing_linenum) c closing_linenum
                                      (slice_from closing_line closing_pos)) in
            mwhen (negb has_else)
              (error filename end_linenum "whitespace/empty_if_body" 4
                 "If statement had no body and no else clause")
  end.

Definition CheckEmptyBlockBody (filename : string) (clean_lines : CleansedLines) (linenum : Z)
    : M unit :=
  let* line := elided_at clean_lines linenum in
  match Match "\s*(for|while|if)\s*\(" line with
  | None => retM ()
  | Some m =>
      let is_if := String.eqb (m_text m 1) "if" in
      let* ' (end_line, end_linenum, end_pos) :=
        liftE (CloseExpression clean_lines linenum (str_find line "(")) in
      mwhen ((0 <=? end_pos) && starts ";" (slice_from end_line end_pos))
        (if is_if
         then error filename end_linenum "whitespace/empty_conditional_body" 5
                "Empty conditional bodies should use {}"
         else error filename end_linenum "whitespace/empty_loop_body" 5
                "Empty loop bodies should use {} or continue") ;;;
      mwhen ((0 <=? end_pos) && is_if)
        (check_if_body filename clean_lines end_line end_linenum end_pos)
  end.

(** ** CHECK macros *)

(** [for macro in _CHECK_MACROS]. *)
Fixpoint find_check_macro (macros : list string) (line : string) : option (string * Z) :=
  match macros with
  | [] => None
  | macro :: macros' =>
      if 0 <=? str_find line macro then
        match Match ("^(.*\b" +:+ macro +:+ "\s*)\(") line with
        | Some m => Some (macro, zlen (m_text m 1))
        | None => find_check_macro macros' line
        end
      else find_check_macro macros' line
  end.
Definition FindCheckMacro (line : string) : option (string * Z) := find_check_macro CHECK_MACROS line.

Definition CHECK_TOKEN : string :=
  "^\s*(<<|<<=|>>|>>=|->\*|->|&&|\|\||" +:+ "==|!=|>=|>|<=|<|\()(.*)$".

(** What the loop over the expression finds: it gives up, or it ends with the left
    operand, and the operator and the right operand if there is an operator. *)
Inductive operands := GiveUp | Operands (lhs : string) (operator : option string) (rhs : string).

(** [while expression]: every round removes text from the expression. *)
Fixpoint split_operands (fuel : nat) (expression lhs : string) : exn + operands :=
  match fuel with
  | O => inl FuelExhausted
  | S fuel' =>
      if String.eqb expression EmptyString then inr (Operands lhs None EmptyString)
      else
        match Match CHECK_TOKEN expression with
        | Some m =>
            let token := m_text m 1 in
            let rest := m_text m 2 in
            if String.eqb token "(" then
              let? ' (end_, _) := FindEndOfExpressionInLine rest 0 ["("%char] in
              if end_ <? 0 then inr GiveUp
              else split_operands fuel' (slice_from rest end_) (lhs +:+ "(" +:+ slice rest 0 end_)
            else if str_mem token ["&&"; "||"] then inr GiveUp
            else if str_mem token ["<<"; "<<="; ">>"; ">>="; "->*"; "->"]
            then split_operands fuel' rest (lhs +:+ token)
            else inr (Operands lhs (Some token) rest)
        | None =>
            match Match "^([^-=!<>()&|]+)(.*)$" expression with
            | Some m => split_operands fuel' (m_text m 2) (lhs +:+ m_text m 1)
            | None =>
                match Match "^(\s*\S)(.*)$" expression with
                | Some m => split_operands fuel' (m_text m 2) (lhs +:+ m_text m 1)
                | None => inr (Operands lhs None EmptyString)
                end
            end
        end
  end.

Definition MATCH_CONSTANT : string :=
  "^([-+]?(\d+|0[xX][0-9a-fA-F]+)[lLuU]{0,3}|\x22.*\x22|\'.*\')$".

(** The text between the parentheses of the macro. *)
Definition macro_argument (c : CleansedLines) (linenum start_pos : Z) (last_line : string)
    (end_line end_pos : Z) : exn + string :=
  match py_nth (elided c) linenum with
  | None => inl IndexError
  | Some line =>
      if linenum =? end_line then inr (slice line (start_pos + 1) (end_pos - 1))
      else
        let? text := append_lines (Z.to_nat (end_line - (linenum + 1))) c (linenum + 1)
                       (slice_from line (start_pos + 1)) in
        inr (text +:+ slice last_line 0 (end_pos - 1))
  end.

Definition CheckCheck (filename : string) (clean_lines : CleansedLines) (linenum : Z) : M unit :=
  let* line := elided_at clean_lines linenum in
  match FindCheckMacro line with
  | None => retM ()
  | Some (check_macro, start_pos) =>
      let* ' (last_line, end_line, end_pos) := liftE (CloseExpression clean_lines linenum start_pos) in
      if (end_pos <? 0) || negb (starts "\s*;" (slice_from last_line end_pos)) then retM ()
      else
        let* expression :=
          liftE (macro_argument clean_lines linenum start_pos last_line end_line end_pos) in
        let* parts := liftE (split_operands (S (String.length expression)) expression EmptyString) in
        match parts with
        | Operands lhs (Some operator) rhs =>
            if String.eqb lhs EmptyString || String.eqb rhs EmptyString
               || (-1 <? str_find rhs "&&") || (-1 <? str_find rhs "||") then retM ()
            else
              mwhen (starts MATCH_CONSTANT (strip lhs) || starts MATCH_CONSTANT (strip rhs))
                (let* replacement := try_get KeyError (CHECK_REPLACEMENT check_macro operator) in
                 error filename linenum "readability/check" 2
                   ("Consider using " +:+ replacement +:+ " instead of " +:+ check_macro
                    +:+ "(a " +:+ operator +:+ " b)"))
        | _ => retM ()
        end
  end.

(** ** Alternative tokens *)

Definition CheckAltTokens (filename : string) (clean_lines : CleansedLines) (linenum : Z) : M unit :=
  let* line := elided_at clean_lines linenum in
  if starts "^\s*#" line then retM ()
  else if (0 <=? str_find line "/*") || (0 <=? str_find line "*/") then retM ()
  else
    mfor (re_finditer ALT_TOKEN_REPLACEMENT_PATTERN line) (fun m =>
      let* replacement := try_get KeyError (assoc (m_text m 1) ALT_TOKEN_REPLACEMENT) in
      error filename linenum "readability/alt_tokens" 2
        ("Use operator " +:+ replacement +:+ " instead of " +:+ m_text m 1)).

(** ** The loop over an expression ends *)

(** A text with a part that reads at least one character is longer than any of the
    other parts. *)
Ltac group_shorter Hs :=
  repeat match goal with Hd : den _ _ ?r ?x ?y, Hr : reads ?x ?u ?y |- _ =>
    pose proof (den_min_len _ _ _ _ _ _ Hd Hr); clear Hr end;
  cbn [min_len Nat.add Nat.mul Nat.min] in *; cbn [sdrop] in Hs; rewrite Hs; rewrite !slength_app; lia.

Lemma check_token_shorter e m :
  Match CHECK_TOKEN e = Some m -> (String.length (m_text m 2) < String.length e)%nat.
Proof.
  intros [ts H]%Match_splits; [|vm_compute; reflexivity].
  unfold CHECK_TOKEN in H. splits_inv H. destruct (Hg 1%nat _ eq_refl) as [_ ->].
  group_shorter Hs.
Qed.

Lemma plain_text_shorter e m :
  Match "^([^-=!<>()&|]+)(.*)$" e = Some m -> (String.length (m_text m 2) < String.length e)%nat.
Proof.
  intros [ts H]%Match_splits; [|vm_compute; reflexivity].
  splits_inv H. destruct (Hg 1%nat _ eq_refl) as [_ ->]. group_shorter Hs.
Qed.

Lemma one_character_shorter e m :
  Match "^(\s*\S)(.*)$" e = Some m -> (String.length (m_text m 2) < String.length e)%nat.
Proof.
  intros [ts H]%Match_splits; [|vm_compute; reflexivity].
  splits_inv H. destruct (Hg 1%nat _ eq_refl) as [_ ->]. group_shorter Hs.
Qed.

Lemma split_operands_ends fuel : forall e lhs,
  (String.length e < fuel)%nat -> exists r, split_operands fuel e lhs = inr r.
Proof.
  induction fuel as [|fuel IH]; intros e lhs Hf; [lia|]. cbn [split_operands].
  destruct (String.eqb e EmptyString); [by eexists|].
  destruct (Match CHECK_TOKEN e) as [m|] eqn:E.
  - apply check_token_shorter in E. repeat case_match; try (by eexists); try (apply IH; lia).
    destruct (FindEnd_within (m_text m 2) 0 ["("%char]) as (p & st & -> & _);
      [unfold zlen; lia|]. cbn [bindE]. case_match; [by eexists|]. apply IH.
    pose proof (slice_from_length (m_text m 2) p). lia.
  - clear E. destruct (Match "^([^-=!<>()&|]+)(.*)$" e) as [m|] eqn:E.
    + apply plain_text_shorter in E. apply IH. lia.
    + clear E. destruct (Match "^(\s*\S)(.*)$" e) as [m|] eqn:E; [|by eexists].
      apply one_character_shorter in E. apply IH. lia.
Qed.
