(* ===== verification/Style.v ===== *)
(** * Namespace indentation, function lengths and style

    [IsBlockInNameSpace], [ShouldCheckNamespaceIndentation],
    [CheckItemIndentationInNamespace], [CheckForNamespaceIndentation],
    [CheckForFunctionLengths] and [CheckStyle] of cpplint.py. *)

From stdpp Require Import base list strings.
From Stdlib Require Import ZArith Lia Ascii.
From S2P Require Import Prelude PyString Regex RegexParse PyRe RegexFacts Config FunctionState Cleanse Expr Paths HeaderGuard LineChecks Nesting Spacing Braces.
Local Open Scope Z_scope.
Local Open Scope py_scope.

(** ** Namespace indentation *)

Definition IsBlockInNameSpace (st : nesting_state) (is_forward_declaration : bool) : bool :=
  if is_forward_declaration then match stack st with b :: _ => is_namespace b | [] => false end
  else
    match stack st with
    | b :: outer :: _ => check_namespace_indentation b && is_namespace outer
    | _ => false
    end.

Definition ShouldCheckNamespaceIndentation (st : nesting_state) (is_namespace_indent_item : bool)
    (raw_lines_no_comments : list string) (linenum : Z) : exn + bool :=
  let? m := IsForwardClassDeclaration raw_lines_no_comments linenum in
  let is_forward_declaration := matched m in
  if negb (is_namespace_indent_item || is_forward_declaration) then inr false
  else
    let? is_macro := IsMacroDefinition raw_lines_no_comments linenum in
    if is_macro then inr false else inr (IsBlockInNameSpace st is_forward_declaration).

Definition CheckItemIndentationInNamespace (filename : string) (raw_lines_no_comments : list string)
    (linenum : Z) : M unit :=
  let* line := line_at raw_lines_no_comments linenum in
  mwhen (starts "^\s+" line)
    (error filename linenum "runtime/indentation_namespace" 4 "Do not indent within a namespace").

(** The top of the stack was just pushed onto a namespace that was the top before
    the line: objects are compared by identity. *)
Definition namespace_indent_item (st : nesting_state) : bool :=
  match stack st, previous_stack_top st with
  | b :: outer :: _, Some r =>
      check_namespace_indentation b
      && match r_class r with CNamespaceInfo => true | _ => false end
      && Nat.eqb (r_oid r) (oid outer)
  | _, _ => false
  end.

Definition CheckForNamespaceIndentation (filename : string) (st : nesting_state)
    (clean_lines : CleansedLines) (line : Z) : M unit :=
  let* should := liftE (ShouldCheckNamespaceIndentation st (namespace_indent_item st)
                          (elided clean_lines) line) in
  mwhen should (CheckItemIndentationInNamespace filename (elided clean_lines) line).

(** ** Function lengths *)

Import FunctionState.

Definition FUNCTION_HEAD : string := "(\w(\w|::|\*|\&|\s)*)\(".

(** The line starts a function that is not a macro call. *)
Definition starting_func (line : string) : exn + bool :=
  match Match FUNCTION_HEAD line with
  | None => inr false
  | Some m =>
      match last (split_ws (m_text m 1)) with
      | None => inl IndexError
      | Some function_name =>
          inr (String.eqb function_name "TEST" || String.eqb function_name "TEST_F"
               || negb (starts "[A-Z_]+$" function_name))
      end
  end.

(** The name that [Begin] gets. *)
Definition function_title (line joined_line : string) : exn + string :=
  match Search "((\w|:)*)\(" line with
  | None => inl AttributeError
  | Some m =>
      let function := m_text m 1 in
      inr (if starts "TEST" function
           then match Search "(\(.*\))" joined_line with
                | Some p => function +:+ m_text p 1
                | None => function
                end
           else function +:+ "()")
  end.

(** [for start_linenum in xrange(linenum, NumLines)], with [n] lines left: the body
    is not found, or it is trivial, or a function begins. *)
Inductive body := NotFound | Trivial | Begins (function : string).

Fixpoint find_body (n : nat) (c : CleansedLines) (line : string) (start_linenum : Z)
    (joined_line : string) : exn + body :=
  match n with
  | O => inr NotFound
  | S n' =>
      match py_nth (lines c) start_linenum with
      | None => inl IndexError
      | Some start_line =>
          let joined_line := joined_line +:+ " " +:+ lstrip start_line in
          if finds "(;|})" start_line then inr Trivial
          else if finds "{" start_line then
            let? function := function_title line joined_line in inr (Begins function)
          else find_body n' c line (start_linenum + 1) joined_line
      end
  end.

(** [v] is the verbosity level, which [_FunctionState.Check] reads. *)
Definition CheckForFunctionLengths (filename : string) (clean_lines : CleansedLines) (linenum v : Z)
    (function_state : FunctionState.t) : M FunctionState.t :=
  let* line := lines_at clean_lines linenum in
  let* starting := liftE (starting_func line) in
  if starting then
    let* b := liftE (find_body (Z.to_nat (NumLines clean_lines - linenum)) clean_lines line linenum
                       EmptyString) in
    match b with
    | NotFound =>
        error filename linenum "readability/fn_size" 5 "Lint failed to find start of function body." ;;;
        retM function_state
    | Trivial => retM function_state
    | Begins function => retM (Begin function function_state)
    end
  else if starts "^\}\s*$" line then
    mfor (Check_ filename linenum v function_state) (fun d => emit (Report d)) ;;;
    retM (End_ function_state)
  else if negb (starts "^\s*$" line) then retM (Count function_state)
  else retM function_state.

(** ** Style *)

(** [while initial_spaces < len(line) and line[initial_spaces] == ' ']. *)
Fixpoint count_spaces (line : string) : Z :=
  match line with
  | String c line' => if Ascii.eqb c " " then 1 + count_spaces line' else 0
  | EmptyString => 0
  end.

Definition LABEL_PATTERN : string := "\s*\w+\s*:\s*\\?$".
Definition SINGLE_LINE_LAMBDA : string := "^[^{};]*\[[^\[\]]*\][^{}]*\{[^{}\n\r]*\}".

(** [line and line[-1].isspace()]. *)
Definition ends_in_space (line : string) : bool :=
  match str_at line (-1) with Some c => is_space c | None => false end.

Section Style.
Context (exists_ : string -> bool) (cwd : string) (cfg : config).

Definition is_header_guard (filename file_extension line : string) : exn + bool :=
  if IsHeaderExtension cfg file_extension then
    let? cppvar := GetHeaderGuardCPPVariable exists_ cwd cfg filename in
    inr (startswith line ("#ifndef " +:+ cppvar) || startswith line ("#define " +:+ cppvar)
         || startswith line ("#endif  // " +:+ cppvar))
  else inr false.

(** Lines that may be long: comments with a URL, one word or an Id, and doxygen
    copies. *)
Definition may_be_long (line : string) : bool :=
  starts "^\s*//.*http(s?)://\S*$" line
  || starts "^\s*//\s*[^\s]*$" line
  || starts "^// \$Id:.*#[0-9]+ \$$" line
  || starts "^\s*/// [@\\](copydoc|copydetails|copybrief) .*$" line.

(** The indentation, the end and the length of the line. *)
Definition check_line_layout (filename : string) (c : CleansedLines) (linenum : Z)
    (file_extension line prev cleansed_line : string) : M unit :=
  let initial_spaces := count_spaces line in
  (if negb (finds "[\x22,=><] *$" prev) && ((initial_spaces =? 1) || (initial_spaces =? 3))
      && negb (starts LABEL_PATTERN cleansed_line) then
     let* raw := raw_at c linenum in
     mwhen (negb (negb (String.eqb raw line) && starts "^\s*\x22\x22" line))
       (error filename linenum "whitespace/indent" 3
          ("Weird number of spaces at line-start.  " +:+ "Are you using a 2-space indent?"))
   else retM ()) ;;;
  mwhen (ends_in_space line)
    (error filename linenum "whitespace/end_of_line" 4
       "Line ends in whitespace.  Consider deleting these extra spaces.") ;;;
  let* guard := liftE (is_header_guard filename file_extension line) in
  mwhen (negb (startswith line "#include") && negb guard && negb (may_be_long line)
         && (line_length cfg <? GetLineWidth line))
    (error filename linenum "whitespace/line_length" 2
       ("Lines should be <= " +:+ str_of_Z (line_length cfg) +:+ " characters long")).

(** More than one command on a line. *)
Definition check_one_command (filename : string) (c : CleansedLines) (linenum : Z)
    (line cleansed_line : string) : M unit :=
  if (1 <? str_count cleansed_line ";") && negb (starts SINGLE_LINE_LAMBDA line)
     && (str_find cleansed_line "for" =? -1) then
    let* ' (previous, _) := liftE (GetPreviousNonBlankLine c linenum) in
    mwhen (((str_find previous "for" =? -1) || negb (str_find previous ";" =? -1))
           && negb ((negb (str_find cleansed_line "case " =? -1)
                     || negb (str_find cleansed_line "default:" =? -1))
                    && negb (str_find cleansed_line "break;" =? -1)))
      (error filename linenum "whitespace/newline" 0 "More than one command on the same line")
  else retM ().

Definition CheckStyle (filename : string) (clean_lines : CleansedLines) (linenum : Z)
    (file_extension : string) (nesting_state : nesting_state) : M unit :=
  let raw_lines := lines_without_raw_strings clean_lines in
  let* line := line_at raw_lines linenum in
  let* prev := if 0 <? linenum then line_at raw_lines (linenum - 1) else retM EmptyString in
  mwhen (negb (str_find line (chr 9) =? -1))
    (error filename linenum "whitespace/tab" 1 "Tab found; better to use spaces") ;;;
  let* cleansed_line := elided_at clean_lines linenum in
  check_line_layout filename clean_lines linenum file_extension line prev cleansed_line ;;;
  check_one_command filename clean_lines linenum line cleansed_line ;;;
  CheckBraces cfg filename clean_lines linenum ;;;
  CheckTrailingSemicolon filename clean_lines linenum ;;;
  CheckEmptyBlockBody filename clean_lines linenum ;;;
  CheckSpacing filename clean_lines linenum nesting_state ;;;
  CheckOperatorSpacing filename clean_lines linenum ;;;
  CheckParenthesisSpacing filename clean_lines linenum ;;;
  CheckCommaSpacing filename clean_lines linenum ;;;
  CheckBracesSpacing filename clean_lines linenum nesting_state ;;;
  CheckSpacingForFunctionCall filename clean_lines linenum ;;;
  CheckCheck filename clean_lines linenum ;;;
  CheckAltTokens filename clean_lines linenum ;;;
  match InnermostClass nesting_state with
  | Some (Block _ (KClass ci) start _ _ _ _) =>
      CheckSectionSpacing filename clean_lines start (last_line ci) linenum
  | _ => retM ()
  end.
End Style.
