(* ===== verification/Includes.v ===== *)
(** * Include lines, header files and the headers a file should include

    [_DropCommonSuffixes], [_ClassifyInclude], [CheckIncludeLine],
    [CheckHeaderFileIncluded], [FilesBelongToSameModule], [UpdateIncludeState] and
    [CheckForIncludeWhatYouUse] of cpplint.py.  A loop over a set of extensions
    goes through its [elements]. *)

From stdpp Require Import base list strings gmap.
From Stdlib Require Import ZArith Lia Ascii.
From S2P Require Import Prelude PyString Regex RegexParse PyRe RegexFacts Config IncludeState Cleanse Expr Paths Spacing.
Local Open Scope Z_scope.
Local Open Scope py_scope.
Import IncludeState.

(** ** Suffixes *)

(** [s.lstrip(c)], [s.strip(chars)]. *)
Definition lstrip_char (c : ascii) (s : string) : string := lstrip_by (Ascii.eqb c) s.
Definition strip_chars (chars s : string) : string :=
  lstrip_by (fun c => char_in c chars) (rstrip_by (fun c => char_in c chars) s).

(** The suffixes, in the order of the loop; the arguments are the extensions in
    the order in which the sets are iterated. *)
Definition common_suffixes (nonheader header : list string) : list string :=
  flat_map (fun t => map (fun ext => lstrip_char "_" t +:+ "." +:+ ext) nonheader) test_suffixes
  ++ flat_map (fun s => map (fun ext => s +:+ "." +:+ ext) header) ["inl"; "imp"; "internal"].

(** [filename] ends with [suffix] after a dash or an underscore. *)
Definition has_suffix (filename suffix : string) : bool :=
  endswith filename suffix && (zlen suffix <? zlen filename)
  && match str_at filename (- zlen suffix - 1) with
     | Some c => Ascii.eqb c "-" || Ascii.eqb c "_"
     | None => false
     end.

Definition drop_suffixes (suffixes : list string) (filename : string) : string :=
  match List.find (has_suffix filename) suffixes with
  | Some suffix => slice_to filename (- zlen suffix - 1)
  | None => fst (splitext filename)
  end.

(** [_DropCommonSuffixes]. *)
Definition DropCommonSuffixes (cfg : config) (filename : string) : string :=
  drop_suffixes (common_suffixes (elements (GetNonHeaderExtensions cfg))
                   (elements (GetHeaderExtensions cfg))) filename.

(** ** Include lines *)

Definition RE_FIRST_COMPONENT : pattern := pat "^[^-_.]+".

(** [include_state.include_list[-1].append(x)]. *)
Fixpoint append_last {A} (x : A) (ls : list (list A)) : option (list (list A)) :=
  match ls with
  | [] => None
  | [l] => Some [l ++ [x]]
  | l :: ls' => match append_last x ls' with Some r => Some (l :: r) | None => None end
  end.

Section Includes.
Context (exists_ : string -> bool) (cwd : string) (cfg : config).

Definition first_component (base : string) : option string :=
  match re_match RE_FIRST_COMPONENT base with Some m => Some (m_text m 0) | None => None end.

(** [_ClassifyInclude(FileInfo(filename), include, is_system)]. *)
Definition ClassifyInclude (filename include : string) (is_system : bool) : exn + header_type :=
  let is_cpp_h := bool_decide (include ∈ CPP_HEADERS) in
  let is_system := is_system && negb (str_mem (snd (splitext include)) [".hpp"; ".hxx"; ".h++"]) in
  if is_system then inr (if is_cpp_h then CPP_SYS_HEADER else C_SYS_HEADER)
  else
    let? name := RepositoryName exists_ cwd cfg filename in
    let '(target_dir, target_base) := path_split (DropCommonSuffixes cfg name) in
    let '(include_dir, include_base) := path_split (DropCommonSuffixes cfg include) in
    let target_dir_pub := str_replace (normpath (target_dir +:+ "/../public")) "\" "/" in
    if String.eqb target_base include_base
       && (String.eqb include_dir target_dir || String.eqb include_dir target_dir_pub)
    then inr LIKELY_MY_HEADER
    else
      match first_component target_base, first_component include_base with
      | Some a, Some b => inr (if String.eqb a b then POSSIBLE_MY_HEADER else OTHER_HEADER)
      | _, _ => inr OTHER_HEADER
      end.

(** [for extension in GetNonHeaderExtensions()]: the first extension of the
    include whose file lies in another package. *)
Fixpoint foreign_source (exts : list string) (filename include : string) : exn + option string :=
  match exts with
  | [] => inr None
  | extension :: exts' =>
      if endswith include ("." +:+ extension) then
        let? name := RepositoryName exists_ cwd cfg filename in
        if String.eqb (dirname name) (dirname include) then foreign_source exts' filename include
        else inr (Some extension)
      else foreign_source exts' filename include
  end.

(** [basefilename + '.' + ext]. *)
Definition header_file (filename ext : string) : exn + string :=
  let? extension := Extension exists_ cwd cfg filename in
  inr (slice filename 0 (zlen filename - zlen extension) +:+ "." +:+ ext).

(** [for ext in GetHeaderExtensions()]: the include names the file's own header. *)
Fixpoint own_header (exts : list string) (filename include : string) : exn + bool :=
  match exts with
  | [] => inr false
  | ext :: exts' =>
      let? headerfile := header_file filename ext in
      let? headername := RepositoryName exists_ cwd cfg headerfile in
      if contains include headername || contains headername include then inr true
      else own_header exts' filename include
  end.

(** An include that is neither a duplicate nor a source file of another package. *)
Definition record_include (filename : string) (clean_lines : CleansedLines) (linenum : Z)
    (include : string) (is_system : bool) (st : IncludeState.t) : M IncludeState.t :=
  let* include_list' := try_get IndexError (append_last (include, linenum) (include_list st)) in
  let st := State include_list' (current st) (last_header st) in
  let* kind := liftE (ClassifyInclude filename include is_system) in
  let '(error_message, st) := CheckNextIncludeOrder kind st in
  (if String.eqb error_message EmptyString then retM ()
   else
     let* base := liftE (BaseName exists_ cwd cfg filename) in
     error filename linenum "build/include_order" 4
       (error_message +:+ ". Should be: " +:+ base +:+ ".h, c system, c++ system, other.")) ;;;
  let canonical_include := CanonicalizeAlphabeticalOrder include in
  let* in_order := liftE (IsInAlphabeticalOrder st (elided clean_lines) linenum canonical_include) in
  mwhen (negb in_order)
    (error filename linenum "build/include_alpha" 4
       ("Include " +:+ dquote +:+ include +:+ dquote +:+ " not in alphabetical order")) ;;;
  retM (SetLastHeader canonical_include st).

Definition CheckIncludeLine (filename : string) (clean_lines : CleansedLines) (linenum : Z)
    (st : IncludeState.t) : M IncludeState.t :=
  let* line := lines_at clean_lines linenum in
  match Match "#include\s*\x22([^/]+\.h)\x22" line with
  | Some m => mwhen (negb (matched (re_match THIRD_PARTY_HEADERS_PATTERN (m_text m 1))))
                (error filename linenum "build/include_subdir" 4
                   "Include the directory when naming .h files")
  | None => retM ()
  end ;;;
  match re_search RE_PATTERN_INCLUDE line with
  | None => retM st
  | Some m =>
      let include := m_text m 2 in
      let is_system := String.eqb (m_text m 1) "<" in
      let duplicate_line := FindHeader st include in
      if 0 <=? duplicate_line then
        error filename linenum "build/include" 4
          (dquote +:+ include +:+ dquote +:+ " already included at " +:+ filename +:+ ":"
           +:+ str_of_Z duplicate_line) ;;;
        retM st
      else
        let* foreign := liftE (foreign_source (elements (GetNonHeaderExtensions cfg)) filename include) in
        match foreign with
        | Some extension =>
            error filename linenum "build/include" 4
              ("Do not include ." +:+ extension +:+ " files from other packages") ;;;
            retM st
        | None =>
            let* third_src_header :=
              liftE (own_header (elements (GetHeaderExtensions cfg)) filename include) in
            if third_src_header || negb (matched (re_match THIRD_PARTY_HEADERS_PATTERN include))
            then record_include filename clean_lines linenum include is_system st
            else retM st
        end
  end.

(** ** The file's own header *)

(** The loops over [include_list]: [None] where the function returns, otherwise the
    line of the first include. *)
Fixpoint scan_includes (headername : string) (fs : list (string * Z)) (first_include : option Z)
    : option (option Z) :=
  match fs with
  | [] => Some first_include
  | (f, line) :: fs' =>
      if contains f headername || contains headername f then None
      else scan_includes headername fs'
             (match first_include with
              | Some n => if n =? 0 then Some line else Some n
              | None => Some line
              end)
  end.

Fixpoint header_included_loop (exts : list string) (filename : string) (st : IncludeState.t) : M unit :=
  match exts with
  | [] => retM ()
  | ext :: exts' =>
      let* headerfile := liftE (header_file filename ext) in
      if exists_ headerfile then
        let* headername := liftE (RepositoryName exists_ cwd cfg headerfile) in
        match scan_includes headername (concat (include_list st)) None with
        | None => retM ()
        | Some first_include =>
            let* name := liftE (RepositoryName exists_ cwd cfg filename) in
            error filename (match first_include with Some n => Line n | None => NoLine end)
              "build/include" 5 (name +:+ " should include its header file " +:+ headername) ;;;
            header_included_loop exts' filename st
        end
      else header_included_loop exts' filename st
  end.

Definition CheckHeaderFileIncluded (filename : string) (st : IncludeState.t) : M unit :=
  let* base := liftE (BaseName exists_ cwd cfg filename) in
  if finds TEST_FILE_SUFFIX base then retM ()
  else header_included_loop (elements (GetHeaderExtensions cfg)) filename st.
End Includes.
