(* ===== verification/WhatYouUse.v ===== *)
(** * Missing includes: [CheckForIncludeWhatYouUse] of cpplint.py

    The tables of the standard headers and their patterns, [FilesBelongToSameModule],
    [UpdateIncludeState] and the check.  A [dict] is the list of its items in
    insertion order.  [read_header] is the file system: the lines of a header,
    each with its line end, or nothing when it cannot be opened. *)

From stdpp Require Import base list strings gmap.
From Stdlib Require Import ZArith Lia Ascii.
From S2P Require Import Prelude PyString Regex RegexParse PyRe RegexFacts Config IncludeState Cleanse Expr Paths Spacing Includes.
Local Open Scope Z_scope.
Local Open Scope py_scope.
Import IncludeState.

(** ** The tables *)

Definition HEADERS_CONTAINING_TEMPLATES : list (string * list string) :=
  [ ("<deque>", ["deque"]);
    ("<functional>",
       ["unary_function"; "binary_function";
        "plus"; "minus"; "multiplies"; "divides"; "modulus";
        "negate";
        "equal_to"; "not_equal_to"; "greater"; "less";
        "greater_equal"; "less_equal";
        "logical_and"; "logical_or"; "logical_not";
        "unary_negate"; "not1"; "binary_negate"; "not2";
        "bind1st"; "bind2nd";
        "pointer_to_unary_function";
        "pointer_to_binary_function";
        "ptr_fun";
        "mem_fun_t"; "mem_fun"; "mem_fun1_t"; "mem_fun1_ref_t";
        "mem_fun_ref_t";
        "const_mem_fun_t"; "const_mem_fun1_t";
        "const_mem_fun_ref_t"; "const_mem_fun1_ref_t";
        "mem_fun_ref"]);
    ("<limits>", ["numeric_limits"]);
    ("<list>", ["list"]);
    ("<map>", ["multimap"]);
    ("<memory>", ["allocator"; "make_shared"; "make_unique"; "shared_ptr"; "unique_ptr"; "weak_ptr"]);
    ("<queue>", ["queue"; "priority_queue"]);
    ("<set>", ["multiset"]);
    ("<stack>", ["stack"]);
    ("<string>", ["char_traits"; "basic_string"]);
    ("<tuple>", ["tuple"]);
    ("<unordered_map>", ["unordered_map"; "unordered_multimap"]);
    ("<unordered_set>", ["unordered_set"; "unordered_multiset"]);
    ("<utility>", ["pair"]);
    ("<vector>", ["vector"]);
    ("<hash_map>", ["hash_map"; "hash_multimap"]);
    ("<hash_set>", ["hash_set"; "hash_multiset"]);
    ("<slist>", ["slist"]) ].

Definition HEADERS_MAYBE_TEMPLATES : list (string * list string) :=
  [ ("<algorithm>", ["copy"; "max"; "min"; "min_element"; "sort"; "transform"]);
    ("<utility>", ["forward"; "make_pair"; "move"; "swap"]) ].

Definition RE_PATTERN_STRING : pattern := pat "\bstring\b".

(** Pattern, template and header. *)
Definition re_pattern_headers_maybe_templates : list (pattern * string * string) :=
  flat_map (fun '(header, templates) =>
      map (fun template => (pat ("[^>.]\b" +:+ template +:+ "(<.*?>)?\([^\)]"), template, header))
        templates)
    HEADERS_MAYBE_TEMPLATES
  ++ [(pat "[^>.]\bset\s*\<", "set<>", "<set>");
      (pat "(std\b::\bmap\s*\<)|(^(std\b::\b)map\b\(\s*\<)", "map<>", "<map>")].

Definition re_pattern_templates : list (pattern * string * string) :=
  flat_map (fun '(header, templates) =>
      map (fun template => (pat ("(\<|\b)" +:+ template +:+ "\s*\<"), template +:+ "<>", header))
        templates)
    HEADERS_CONTAINING_TEMPLATES.

(** ** Modules *)

Section WhatYouUse.
Context (exists_ : string -> bool) (cwd : string) (cfg : config).

Definition FilesBelongToSameModule (filename_cc filename_h : string) : exn + (bool * string) :=
  let? ext_cc := Extension exists_ cwd cfg filename_cc in
  if negb (bool_decide (lstrip_char "." ext_cc ∈ GetNonHeaderExtensions cfg))
  then inr (false, EmptyString)
  else
    let? ext_h := Extension exists_ cwd cfg filename_h in
    if negb (IsHeaderExtension cfg (lstrip_char "." ext_h)) then inr (false, EmptyString)
    else
      let? base_cc := BaseName exists_ cwd cfg filename_cc in
      let filename_cc := slice_to filename_cc (- zlen ext_cc) in
      let filename_cc :=
        match Search TEST_FILE_SUFFIX base_cc with
        | Some m => slice_to filename_cc (- zlen (m_text m 1))
        | None => filename_cc
        end in
      let filename_cc := str_replace filename_cc "/public/" "/" in
      let filename_cc := str_replace filename_cc "/internal/" "/" in
      let filename_h := slice_to filename_h (- zlen ext_h) in
      let filename_h :=
        if endswith filename_h "-inl" then slice_to filename_h (- zlen "-inl") else filename_h in
      let filename_h := str_replace filename_h "/public/" "/" in
      let filename_h := str_replace filename_h "/internal/" "/" in
      if endswith filename_cc filename_h
      then inr (true, slice_to filename_cc (- zlen filename_h))
      else inr (false, EmptyString).

(** The includes of a header's lines, from line [linenum + 1] on. *)
Fixpoint add_includes (lines : list string) (linenum : Z) (include_dict : list (string * Z))
    : list (string * Z) :=
  match lines with
  | [] => include_dict
  | line :: lines' =>
      let linenum := linenum + 1 in
      add_includes lines' linenum
        (match re_search RE_PATTERN_INCLUDE (CleanseComments line) with
         | Some m => dict_setdefault (m_text m 2) linenum include_dict
         | None => include_dict
         end)
  end.

Context (read_header : string -> option (list string)).

Definition UpdateIncludeState (filename : string) (include_dict : list (string * Z))
    : bool * list (string * Z) :=
  match read_header filename with
  | None => (false, include_dict)
  | Some lines => (true, add_includes lines 0 include_dict)
  end.

(** [for header in header_keys]. *)
Fixpoint load_headers (header_keys : list string) (abs_filename : string) (header_found : bool)
    (include_dict : list (string * Z)) : exn + (bool * list (string * Z)) :=
  match header_keys with
  | [] => inr (header_found, include_dict)
  | header :: header_keys' =>
      let? ' (same_module, common_path) := FilesBelongToSameModule abs_filename header in
      if same_module then
        let '(ok, include_dict) := UpdateIncludeState (common_path +:+ header) include_dict in
        load_headers header_keys' abs_filename (header_found || ok) include_dict
      else load_headers header_keys' abs_filename header_found include_dict
  end.

(** ** The headers that are required *)

Definition required_headers : Type := list (string * (Z * string)).

(** [prefix.endswith('std::') or not prefix.endswith('::')] for the text before a
    match. *)
Definition in_std (line : string) (m : mobj) : bool :=
  let prefix := slice_to line (m_start m 0) in
  endswith prefix "std::" || negb (endswith prefix "::").

Definition require_line (required : required_headers) (linenum : Z) (line : string) : required_headers :=
  if match str_at line 0 with None => true | Some c => Ascii.eqb c "#" end then required
  else
    let required :=
      match re_search RE_PATTERN_STRING line with
      | Some m => if in_std line m then dict_set "<string>" (linenum, "string") required else required
      | None => required
      end in
    let required :=
      fold_left (fun required '(p, template, header) =>
          if matched (re_search p line) then dict_set header (linenum, template) required else required)
        re_pattern_headers_maybe_templates required in
    if negb (contains line "<") then required
    else
      fold_left (fun required '(p, template, header) =>
          match re_search p line with
          | Some m => if in_std line m then dict_set header (linenum, template) required else required
          | None => required
          end)
        re_pattern_templates required.

(** [for linenum in xrange(clean_lines.NumLines())], with [n] lines left. *)
Fixpoint require_lines (n : nat) (c : CleansedLines) (linenum : Z) (required : required_headers)
    : exn + required_headers :=
  match n with
  | O => inr required
  | S n' =>
      match py_nth (elided c) linenum with
      | None => inl IndexError
      | Some line => require_lines n' c (linenum + 1) (require_line required linenum line)
      end
  end.

(** [sorted(required, key=required.__getitem__)]: by line and template; a stable
    sort. *)
Definition use_lt (a b : Z * string) : bool :=
  (fst a <? fst b) || ((fst a =? fst b) && str_ltb (snd a) (snd b)).
Fixpoint insert_use (x : string * (Z * string)) (l : required_headers) : required_headers :=
  match l with
  | [] => [x]
  | y :: l' => if use_lt (snd y) (snd x) then y :: insert_use x l' else x :: l
  end.
Definition sort_uses (l : required_headers) : required_headers := fold_right insert_use [] l.

Definition CheckForIncludeWhatYouUse (filename : string) (clean_lines : CleansedLines)
    (st : IncludeState.t) : M unit :=
  let* required := liftE (require_lines (Z.to_nat (NumLines clean_lines)) clean_lines 0 []) in
  let include_dict := dict_of (concat (include_list st)) in
  let abs_filename := FullName cwd filename in
  let abs_filename := re_sub (pat "_flymake\.cc$") ".cc" abs_filename in
  let* ' (header_found, include_dict) :=
    liftE (load_headers (map fst include_dict) abs_filename false include_dict) in
  if negb header_found
     && existsb (fun extension => endswith filename ("." +:+ extension))
          (elements (GetNonHeaderExtensions cfg))
  then retM ()
  else
    mfor (sort_uses required) (fun '(header, (linenum, template)) =>
      mwhen (negb (matched (dict_get (strip_chars ("<>" +:+ dquote) header) include_dict)))
        (error filename linenum "build/include_what_you_use" 4
           ("Add #include " +:+ header +:+ " for " +:+ template))).
End WhatYouUse.
