(* ===== verification/Casts.v ===== *)
(** * Casts, references and virtual functions

    [_GetTextInside], [ExpectingFunctionArgs], [CheckCStyleCast], [CheckCasts],
    [IsDerivedFunction], [IsOutOfLineMethodDefinition], [IsInitializerList],
    [CheckForNonConstReference], [CheckMakePairUsesDeduction],
    [CheckRedundantVirtual] and [CheckRedundantOverrideOrFinal] of cpplint.py. *)

From stdpp Require Import base list strings.
From Stdlib Require Import ZArith Lia Ascii.
From S2P Require Import Prelude PyString Regex RegexParse PyRe RegexFacts Config Cleanse Expr HeaderGuard Nesting Spacing.
Local Open Scope Z_scope.
Local Open Scope py_scope.

(** [clean_lines.elided[linenum]] where only exceptions are of interest. *)
Definition elided_get (c : CleansedLines) (linenum : Z) : exn + string :=
  match py_nth (elided c) linenum with Some line => inr line | None => inl IndexError end.

(** ** Text inside brackets *)

(** [matching_punctuation] and [closing_punctuation]. *)
Definition matching_punctuation (c : ascii) : option ascii :=
  if Ascii.eqb c "(" then Some ")"%char
  else if Ascii.eqb c "{" then Some "}"%char
  else if Ascii.eqb c "[" then Some "]"%char
  else None.
Definition closing_punctuation (c : ascii) : bool := char_in c ")}]".

(** [while punctuation_stack and position < len(text)], on the text from
    [position] on: the position after the last bracket, or nothing. *)
Fixpoint inside_loop (text : string) (punctuation_stack : list ascii) (position : nat) : option nat :=
  match punctuation_stack with
  | [] => Some position
  | top :: stack' =>
      match text with
      | EmptyString => None
      | String c text' =>
          if Ascii.eqb c top then inside_loop text' stack' (S position)
          else if closing_punctuation c then None
          else
            match matching_punctuation c with
            | Some k => inside_loop text' (k :: punctuation_stack) (S position)
            | None => inside_loop text' punctuation_stack (S position)
            end
      end
  end.

(** [_GetTextInside].  The one pattern it is called with has no [^] or [$], so the
    flag [re.M] changes nothing; a pattern that does not compile raises. *)
Definition GetTextInside (text start_pattern : string) : exn + option string :=
  let? m := SearchE start_pattern text in
  match m with
  | None => inr None
  | Some m =>
      let start_position := m_end m 0 in
      if start_position <=? 0 then inl AssertionError
      else
        match str_at text (start_position - 1) with
        | None => inl IndexError
        | Some c =>
            match matching_punctuation c with
            | None => inl AssertionError
            | Some k =>
                inr (match inside_loop (slice_from text start_position) [k] (Z.to_nat start_position) with
                     | Some position => Some (slice text start_position (Z.of_nat position - 1))
                     | None => None
                     end)
            end
        end
  end.

(** ** Casts *)

Definition ExpectingFunctionArgs (c : CleansedLines) (linenum : Z) : exn + bool :=
  let? line := elided_get c linenum in
  if starts "^\s*MOCK_(CONST_)?METHOD\d+(_T)?\(" line then inr true
  else if 2 <=? linenum then
    let? line1 := elided_get c (linenum - 1) in
    if starts "^\s*MOCK_(?:CONST_)?METHOD\d+(?:_T)?\((?:\S+,)?\s*$" line1 then inr true
    else
      let? line2 := elided_get c (linenum - 2) in
      if starts "^\s*MOCK_(?:CONST_)?METHOD\d+(?:_T)?\(\s*$" line2 then inr true
      else inr (finds "\bstd::m?function\s*\<\s*$" line1)
  else inr false.

(** [for i in xrange(linenum - 1, max(0, linenum - 5), -1)], with [n] lines left
    down from line [i]. *)
Fixpoint cast_context (n : nat) (c : CleansedLines) (i : Z) (context : string) : exn + string :=
  match n with
  | O => inr context
  | S n' => let? line := elided_get c i in cast_context n' c (i - 1) (line +:+ context)
  end.

Definition CheckCStyleCast (filename : string) (clean_lines : CleansedLines) (linenum : Z)
    (cast_type pattern : string) : M bool :=
  let* line := elided_at clean_lines linenum in
  match Search pattern line with
  | None => retM false
  | Some m =>
      let context := slice line 0 (m_start m 1 - 1) in
      if starts ".*\b(?:sizeof|alignof|alignas|[_A-Z][_A-Z0-9]*)\s*$" context then retM false
      else
        let* context :=
          liftE (if 0 <? linenum
                 then cast_context (Z.to_nat (linenum - 1 - Z.max 0 (linenum - 5))) clean_lines
                        (linenum - 1) context
                 else inr context) in
        let remainder := slice_from line (m_end m 0) in
        if starts ".*\b[_A-Z][_A-Z0-9]*\s*\((?:\([^()]*\)|[^()])*$" context then retM false
        else if endswith context " operator++" || endswith context " operator--" then retM false
        else if starts "^\s*(?:;|const\b|throw\b|final\b|override\b|[=>{),]|->)" remainder
        then retM false
        else
          error filename linenum "readability/casting" 4
            ("Using C-style cast.  Use " +:+ cast_type +:+ "<" +:+ m_text m 1 +:+ ">(...) instead") ;;;
          retM true
  end.

Definition CONVERSION_CAST : string :=
  "(\bnew\s+(?:const\s+)?|\S<\s*(?:const\s+)?)?\b"
  +:+ "(int|float|double|bool|char|int32|uint32|int64|uint64)"
  +:+ "(\([^)].*)".
Definition ADDRESS_OF_CAST : string :=
  "(?:[^\w]&\(([^)*][^)]*)\)[\w(])|" +:+ "(?:[^\w]&(static|dynamic|down|reinterpret)_cast\b)".

(** A conversion function such as int(x). *)
Definition check_conversion (filename : string) (linenum : Z) (line : string) (m : mobj) : M unit :=
  let matched_type := m_text m 2 in
  let matched_funcptr := m_text m 3 in
  if matched (m_group m 1) then retM ()
  else if negb (String.eqb matched_funcptr EmptyString)
          && (starts "\((?:[^() ]+::\s*\*\s*)?[^() ]+\)\s*\(" matched_funcptr
              || startswith matched_funcptr "(*)") then retM ()
  else
    let* alias := liftE (MatchE ("\s*using\s+\S+\s*=\s*" +:+ matched_type) line) in
    if matched alias then retM ()
    else
      let* placement := liftE (SearchE ("new\(\S+\)\s*" +:+ matched_type) line) in
      mwhen (negb (matched placement))
        (error filename linenum "readability/casting" 4
           ("Using deprecated casting style.  " +:+ "Use static_cast<" +:+ matched_type
            +:+ ">(...) instead")).

(** The address of a cast is bound to something dereferenced.  A subscript past
    the end of the line raises. *)
Definition dereferenced (c : CleansedLines) (linenum : Z) (line : string) : exn + bool :=
  match Match "^(.*&(?:static|dynamic|down|reinterpret)_cast\b)<" line with
  | None => inr false
  | Some m =>
      let? ' (_, y1, x1) := CloseExpression c linenum (zlen (m_text m 1)) in
      if x1 <? 0 then inr false
      else
        let? line1 := elided_get c y1 in
        match str_at line1 x1 with
        | None => inl IndexError
        | Some ch =>
            if negb (Ascii.eqb ch "(") then inr false
            else
              let? ' (_, y2, x2) := CloseExpression c y1 x1 in
              if x2 <? 0 then inr false
              else
                let? line2 := elided_get c y2 in
                let? next := if y2 <? NumLines c - 1 then elided_get c (y2 + 1) else inr EmptyString in
                inr (starts "\s*(?:->|\[)" (slice_from line2 x2 +:+ next))
        end
  end.

(** What follows the conversion functions. *)
Definition check_c_style (filename : string) (clean_lines : CleansedLines) (linenum : Z)
    (line : string) (expecting_function : bool) : M unit :=
  (if expecting_function then retM false
   else CheckCStyleCast filename clean_lines linenum "static_cast"
          "\((int|float|double|bool|char|u?int(16|32|64))\)") ;;;
  let* const_cast := CheckCStyleCast filename clean_lines linenum "const_cast"
                       "\((char\s?\*+\s?)\)\s*\x22" in
  (if const_cast then retM false
   else CheckCStyleCast filename clean_lines linenum "reinterpret_cast" "\((\w+\s?\*+\s?)\)") ;;;
  if finds ADDRESS_OF_CAST line then
    let* parenthesis_error := liftE (dereferenced clean_lines linenum line) in
    if parenthesis_error then
      error filename linenum "readability/casting" 4
        ("Are you taking an address of something dereferenced "
         +:+ "from a cast?  Wrapping the dereferenced expression in "
         +:+ "parentheses will make the binding more obvious")
    else
      error filename linenum "runtime/casting" 4
        ("Are you taking an address of a cast?  "
         +:+ "This is dangerous: could be a temp var.  "
         +:+ "Take the address before doing the cast, rather than after")
  else retM ().

Definition CheckCasts (filename : string) (clean_lines : CleansedLines) (linenum : Z) : M unit :=
  let* line := elided_at clean_lines linenum in
  let* expecting_function := liftE (ExpectingFunctionArgs clean_lines linenum) in
  match Search CONVERSION_CAST line with
  | Some m =>
      if expecting_function then check_c_style filename clean_lines linenum line expecting_function
      else if starts "\([^()]+\)\s*\[" (m_text m 3) then retM ()
      else
        check_conversion filename linenum line m ;;;
        check_c_style filename clean_lines linenum line expecting_function
  | None => check_c_style filename clean_lines linenum line expecting_function
  end.

(** ** Parameters by reference *)

Definition FUNCTION_NAME : string := "^([^()]*\w+)\(".

(** [for i in xrange(linenum, max(-1, linenum - 10), -1)], with [n] lines left. *)
Fixpoint is_derived_loop (n : nat) (c : CleansedLines) (i : Z) : exn + bool :=
  match n with
  | O => inr false
  | S n' =>
      let? line := elided_get c i in
      match Match FUNCTION_NAME line with
      | Some m =>
          let? ' (end_line, _, closing_paren) := CloseExpression c i (zlen (m_text m 1)) in
          inr ((0 <=? closing_paren) && finds "\boverride\b" (slice_from end_line closing_paren))
      | None => is_derived_loop n' c (i - 1)
      end
  end.
(** The number of lines that are scanned back. *)
Definition scan_back (linenum : Z) : nat := Z.to_nat (linenum - Z.max (-1) (linenum - 10)).
Definition IsDerivedFunction (c : CleansedLines) (linenum : Z) : exn + bool :=
  is_derived_loop (scan_back linenum) c linenum.

Fixpoint out_of_line_loop (n : nat) (c : CleansedLines) (i : Z) : exn + bool :=
  match n with
  | O => inr false
  | S n' =>
      let? line := elided_get c i in
      if starts FUNCTION_NAME line then inr (starts "^[^()]*\w+::\w+\(" line)
      else out_of_line_loop n' c (i - 1)
  end.
Definition IsOutOfLineMethodDefinition (c : CleansedLines) (linenum : Z) : exn + bool :=
  out_of_line_loop (scan_back linenum) c linenum.

(** [for i in xrange(linenum, 1, -1)], with [n] lines left. *)
Fixpoint initializer_list_loop (n : nat) (c : CleansedLines) (linenum i : Z) : exn + bool :=
  match n with
  | O => inr false
  | S n' =>
      let? line := elided_get c i in
      let line :=
        if i =? linenum then
          match Match "^(.*)\{\s*$" line with Some m => m_text m 1 | None => line end
        else line in
      if finds "\s:\s*\w+[({]" line then inr true
      else if finds "\}\s*,\s*$" line then inr true
      else if finds "[{};]\s*$" line then inr false
      else initializer_list_loop n' c linenum (i - 1)
  end.
Definition IsInitializerList (c : CleansedLines) (linenum : Z) : exn + bool :=
  initializer_list_loop (Z.to_nat (linenum - 1)) c linenum linenum.

Definition RE_PATTERN_IDENT : string := "[_a-zA-Z]\w*".
Definition RE_PATTERN_TYPE : string :=
  "(?:const\s+)?(?:typename\s+|class\s+|struct\s+|union\s+|enum\s+)?"
  +:+ "(?:\w|"
  +:+ "\s*<(?:<(?:<[^<>]*>|[^<>])*>|[^<>])*>|"
  +:+ "::)+".
Definition RE_PATTERN_REF_PARAM : pattern := pat
  ("(" +:+ RE_PATTERN_TYPE +:+ "(?:\s*(?:\bconst\b|[*]))*\s*"
   +:+ "&\s*" +:+ RE_PATTERN_IDENT +:+ ")\s*(?:=[^,()]+)?[,)]").
Definition RE_PATTERN_CONST_REF_PARAM : string :=
  "(?:.*\s*\bconst\s*&\s*" +:+ RE_PATTERN_IDENT
  +:+ "|const\s+" +:+ RE_PATTERN_TYPE +:+ "\s*&\s*" +:+ RE_PATTERN_IDENT +:+ ")".
Definition RE_PATTERN_REF_STREAM_PARAM : string := "(?:.*stream\s*&\s*" +:+ RE_PATTERN_IDENT +:+ ")".

(** [for i in xrange(startline, linenum + 1): line += elided[i].strip()]. *)
Fixpoint join_stripped (n : nat) (c : CleansedLines) (i : Z) (line : string) : exn + string :=
  match n with
  | O => inr line
  | S n' => let? l := elided_get c i in join_stripped n' c (i + 1) (line +:+ strip l)
  end.

(** The line, with the beginning of a type that was broken over lines. *)
Definition join_type (c : CleansedLines) (linenum : Z) (line : string) : exn + string :=
  if linenum <=? 1 then inr line
  else
    let? previous :=
      if starts "\s*::(?:[\w<>]|::)+\s*&\s*\S" line then
        let? l := elided_get c (linenum - 1) in
        inr (Search "\b((?:const\s*)?(?:[\w<>]|::)+[\w<>])\s*$" l)
      else if starts "\s*[a-zA-Z_]([\w<>]|::)+\s*&\s*\S" line then
        let? l := elided_get c (linenum - 1) in
        inr (Search "\b((?:const\s*)?(?:[\w<>]|::)+::)\s*$" l)
      else inr None in
    match previous with
    | Some m => inr (m_text m 1 +:+ lstrip line)
    | None =>
        let endpos := str_rfind line ">" in
        if endpos <=? -1 then inr line
        else
          let? ' (_, startline, startpos) := ReverseCloseExpression c linenum endpos in
          if (-1 <? startpos) && (startline <? linenum)
          then join_stripped (Z.to_nat (linenum + 1 - startline)) c startline EmptyString
          else inr line
    end.

(** [for i in xrange(linenum - 1, max(0, linenum - 10), -1)]: a line that starts an
    initializer list. *)
Fixpoint initializer_above (n : nat) (c : CleansedLines) (i : Z) : exn + bool :=
  match n with
  | O => inr false
  | S n' =>
      let? previous_line := elided_get c i in
      if negb (finds "[),]\s*$" previous_line) then inr false
      else if starts "^\s*:\s+\S" previous_line then inr true
      else initializer_above n' c (i - 1)
  end.

Definition WHITELISTED_FUNCTIONS : string :=
  "(?:[sS]wap(?:<\w:+>)?|"
  +:+ "operator\s*[<>][<>]|"
  +:+ "static_assert|COMPILE_ASSERT"
  +:+ ")\s*\(".

(** A function whose references are accepted, on the line or, for a parameter list
    over several lines, on the two lines before. *)
Definition whitelisted (c : CleansedLines) (linenum : Z) (line : string) : exn + bool :=
  if finds WHITELISTED_FUNCTIONS line then inr true
  else if finds "\S+\([^)]*$" line then inr false
  else
    let? one := if 0 <? linenum then
                  let? l := elided_get c (linenum - 1) in inr (finds WHITELISTED_FUNCTIONS l)
                else inr false in
    if one then inr true
    else if 1 <? linenum then
      let? l := elided_get c (linenum - 2) in inr (finds WHITELISTED_FUNCTIONS l)
    else inr false.

(** [nesting_state.previous_stack_top] is a block that is neither a class nor a
    namespace. *)
Definition in_function (st : nesting_state) : bool :=
  match previous_stack_top st with
  | Some r => match r_class r with CClassInfo | CNamespaceInfo => false | _ => true end
  | None => false
  end.

(** The questions that make the check return, in order, and the line it looks at. *)
Definition reference_line (c : CleansedLines) (linenum : Z) (st : nesting_state) (line : string)
    : exn + option string :=
  let? derived := IsDerivedFunction c linenum in
  if derived then inr None
  else
    let? out_of_line := IsOutOfLineMethodDefinition c linenum in
    if out_of_line then inr None
    else
      let? line := join_type c linenum line in
      if in_function st then inr None
      else
        let? above := if 0 <? linenum
                      then initializer_above (Z.to_nat (linenum - 1 - Z.max 0 (linenum - 10))) c (linenum - 1)
                      else inr false in
        if above then inr None
        else if finds "\\\s*$" line then inr None
        else
          let? in_list := IsInitializerList c linenum in
          if in_list then inr None
          else
            let? white := whitelisted c linenum line in
            if white then inr None else inr (Some line).

Definition CheckForNonConstReference (filename : string) (clean_lines : CleansedLines) (linenum : Z)
    (nesting_state : nesting_state) : M unit :=
  let* line := elided_at clean_lines linenum in
  if negb (contains line "&") then retM ()
  else
    let* line := liftE (reference_line clean_lines linenum nesting_state line) in
    match line with
    | None => retM ()
    | Some line =>
        let decls := ReplaceAll "{[^}]*}" " " line in
        mfor (re_finditer RE_PATTERN_REF_PARAM decls) (fun m =>
          let parameter := m_text m 1 in
          mwhen (negb (starts RE_PATTERN_CONST_REF_PARAM parameter)
                 && negb (starts RE_PATTERN_REF_STREAM_PARAM parameter))
            (error filename linenum "runtime/references" 2
               ("Is this a non-const reference? "
                +:+ "If so, make const or use a pointer: " +:+ ReplaceAll " *<" "<" parameter)))
    end.

(** ** [make_pair], virtual, override and final *)

Definition RE_PATTERN_EXPLICIT_MAKEPAIR : pattern := pat "\bmake_pair\s*<".

Definition CheckMakePairUsesDeduction (filename : string) (clean_lines : CleansedLines) (linenum : Z)
    : M unit :=
  let* line := elided_at clean_lines linenum in
  mwhen (matched (re_search RE_PATTERN_EXPLICIT_MAKEPAIR line))
    (error filename linenum "build/explicit_make_pair" 4
       ("For C++11-compatibility, omit template arguments from make_pair"
        +:+ " OR use pair directly OR if appropriate, construct a pair directly")).

(** [for start_line in xrange(linenum, min(linenum + 3, NumLines))]: the end of the
    parameter list, or -1 twice. *)
Fixpoint parameter_list_end (n : nat) (c : CleansedLines) (start_line start_col : Z) : exn + (Z * Z) :=
  match n with
  | O => inr (-1, -1)
  | S n' =>
      let? line := elided_get c start_line in
      match Match "^([^(]*)\(" (slice_from line start_col) with
      | Some m =>
          let? ' (_, end_line, end_col) := CloseExpression c start_line (start_col + zlen (m_text m 1)) in
          inr (end_line, end_col)
      | None => parameter_list_end n' c (start_line + 1) 0
      end
  end.

(** [for i in xrange(end_line, min(end_line + 3, NumLines))]. *)
Fixpoint override_loop (n : nat) (filename : string) (c : CleansedLines) (linenum i end_col : Z) : M unit :=
  match n with
  | O => retM ()
  | S n' =>
      let* line := elided_at c i in
      let line := slice_from line end_col in
      match Search "\b(override|final)\b" line with
      | Some m =>
          error filename linenum "readability/inheritance" 4
            (dquote +:+ "virtual" +:+ dquote +:+ " is redundant since function is "
             +:+ "already declared as " +:+ dquote +:+ m_text m 1 +:+ dquote)
      | None => retM ()
      end ;;;
      if finds "[^\w]\s*$" line then retM () else override_loop n' filename c linenum (i + 1) 0
  end.

Definition CheckRedundantVirtual (filename : string) (clean_lines : CleansedLines) (linenum : Z)
    : M unit :=
  let* line := elided_at clean_lines linenum in
  match Match "^(.*)(\bvirtual\b)(.*)$" line with
  | None => retM ()
  | Some virtual =>
      if finds "\b(public|protected|private)\s+$" (m_text virtual 1)
         || starts "^\s+(public|protected|private)\b" (m_text virtual 3)
         || starts "^.*[^:]:[^:].*$" line
      then retM ()
      else
        let* ' (end_line, end_col) :=
          liftE (parameter_list_end (Z.to_nat (Z.min (linenum + 3) (NumLines clean_lines) - linenum))
                   clean_lines linenum (zlen (m_text virtual 2))) in
        if end_col <? 0 then retM ()
        else
          override_loop (Z.to_nat (Z.min (end_line + 3) (NumLines clean_lines) - end_line))
            filename clean_lines linenum end_line end_col
  end.

Definition CheckRedundantOverrideOrFinal (filename : string) (clean_lines : CleansedLines)
    (linenum : Z) : M unit :=
  let* line := elided_at clean_lines linenum in
  let declarator_end := str_rfind line ")" in
  let* fragment :=
    if 0 <=? declarator_end then retM (Some (slice_from line declarator_end))
    else if 1 <? linenum then
      let* previous := elided_at clean_lines (linenum - 1) in
      retM (if 0 <=? str_rfind previous ")" then Some line else None)
    else retM None in
  match fragment with
  | None => retM ()
  | Some fragment =>
      mwhen (finds "\boverride\b" fragment && finds "\bfinal\b" fragment)
        (error filename linenum "readability/inheritance" 4
           (dquote +:+ "override" +:+ dquote +:+ " is redundant since function is "
            +:+ "already declared as " +:+ dquote +:+ "final" +:+ dquote))
  end.

(** ** The text that [_GetTextInside] returns *)

(** Texts in which every bracket is closed by its partner. *)
Inductive well_bracketed : string -> Prop :=
  | wb_nil : well_bracketed EmptyString
  | wb_char c t : bracket c = false -> well_bracketed t -> well_bracketed (String c t)
  | wb_brackets o k t u :
      partner o k -> well_bracketed t -> well_bracketed u ->
      well_bracketed (String o (t +:+ String k u)).

Lemma matching_partner o k : matching_punctuation o = Some k <-> partner o k.
Proof.
  unfold matching_punctuation. split; [|by destruct 1].
  repeat case_match; intros; simplify_eq; bools; subst; constructor.
Qed.

Lemma partner_closing o k :
  partner o k -> closing_punctuation k = true /\ closing_punctuation o = false.
Proof. by destruct 1. Qed.

Lemma plain_character c :
  bracket c = false <-> matching_punctuation c = None /\ closing_punctuation c = false.
Proof. by destruct c as [[] [] [] [] [] [] [] []]; vm_compute; intuition. Qed.

(** A text that closes the brackets of a stack, and ends with the last of them. *)
Inductive closes : list ascii -> string -> Prop :=
  | closes_nil : closes [] EmptyString
  | closes_cons k ks t u : well_bracketed t -> closes ks u -> closes (k :: ks) (t +:+ String k u).

Lemma inside_loop_sound text : forall stack pos pos',
  inside_loop text stack pos = Some pos' ->
  exists u rest, text = u +:+ rest /\ closes stack u /\ pos' = (pos + String.length u)%nat.
Proof.
  induction text as [|c text IH]; intros [|top stack] pos pos' H; cbn [inside_loop] in H; simplify_eq.
  1,2: (eexists EmptyString, _; split_and!; [done|constructor|simpl; lia]).
  destruct (Ascii.eqb c top) eqn:Et; bools; subst.
  { apply IH in H as (u & rest & -> & Hu & ->). exists (String top u), rest. split_and!; [done| |simpl; lia].
    exact (closes_cons top stack EmptyString u wb_nil Hu). }
  destruct (closing_punctuation c) eqn:Ec; [done|].
  destruct (matching_punctuation c) as [k|] eqn:Em; apply IH in H as (u & rest & -> & Hu & ->);
    exists (String c u), rest; (split_and!; [done| |simpl; lia]).
  - apply matching_partner in Em.
    inversion Hu as [|k' ks t u' Ht Hu' E1 E2]; subst. inversion Hu' as [|k' ks t' u3 Ht' Hu3 E1 E2]; subst.
    pose proof (closes_cons top stack _ u3 (wb_brackets c k t t' Em Ht Ht') Hu3) as H.
    cbn [String.append] in H. by rewrite sapp_assoc in H.
  - inversion Hu as [|k' ks t u' Ht Hu' E1 E2]; subst.
    exact (closes_cons top stack _ u' (wb_char c t (proj2 (plain_character c) (conj Em Ec)) Ht) Hu').
Qed.

Lemma inside_loop_complete t : well_bracketed t -> forall top stack rest pos,
  closing_punctuation top = true ->
  inside_loop (t +:+ rest) (top :: stack) pos
  = inside_loop rest (top :: stack) (pos + String.length t)%nat.
Proof.
  induction 1 as [|c t [Hm Hc]%plain_character Ht IH|o k t u Hm Ht IHt Hu IHu]; intros top stack rest pos Htop.
  - cbn [String.append String.length]. by rewrite Nat.add_0_r.
  - cbn [String.append]. cbn [inside_loop].
    destruct (Ascii.eqb c top) eqn:E; bools; [by subst; rewrite Htop in Hc|]. rewrite Hc, Hm, IH by done.
    f_equal. simpl. lia.
  - destruct (partner_closing o k Hm) as [Hk Ho]. apply matching_partner in Hm.
    cbn [String.append]. cbn [inside_loop].
    destruct (Ascii.eqb o top) eqn:E; bools; [by subst; rewrite Htop in Ho|]. rewrite Ho, Hm.
    rewrite sapp_assoc, IHt by done. cbn [String.append]. cbn [inside_loop].
    rewrite Ascii.eqb_refl, IHu by done. f_equal. simpl. rewrite slength_app. simpl. lia.
Qed.

(** A slice from [e] is a prefix of the text from [e]. *)
Lemma slice_prefix s e n :
  0 <= e <= zlen s -> (n <= String.length (slice_from s e))%nat ->
  slice s e (e + Z.of_nat n) = stake n (slice_from s e).
Proof.
  intros He Hn. assert (Hl := zlen_slice_from s e He). unfold zlen in Hl.
  unfold slice, slice_from, clamp in *. rewrite (proj2 (Z.ltb_ge e 0)) in * by lia.
  rewrite (proj2 (Z.ltb_ge (e + Z.of_nat n) 0)) by lia.
  f_equal. unfold zlen in *. lia.
Qed.

(** C7. Where the start pattern ends with an opening bracket, [_GetTextInside]
    returns the balanced text between that bracket and the bracket that closes it,
    and nothing exactly when it is never closed or some bracket before does not
    match: the result is [t] if and only if [t] is balanced and followed by the
    closing partner. *)
Theorem GetTextInside_balanced (text start_pattern : string) (m : mobj) (o k : ascii)
    (Hm : Search start_pattern text = Some m) (Hpos : 0 < m_end m 0)
    (Ho : str_at text (m_end m 0 - 1) = Some o) (Hk : partner o k) :
  exists r, GetTextInside text start_pattern = inr r /\
    forall t, r = Some t <->
      well_bracketed t /\ exists rest, slice_from text (m_end m 0) = t +:+ String k rest.
Proof.
  unfold GetTextInside. rewrite (SearchE_Some _ _ _ Hm). cbn [bindE]. rewrite (proj2 (Z.leb_gt _ _)) by lia. rewrite Ho, (proj2 (matching_partner o k) Hk).
  clear Hm. set (e := m_end m 0) in *. assert (0 <= e - 1) by lia. pose proof (str_at_lt _ _ _ H Ho).
  destruct (partner_closing o k Hk) as [Hkc _]. eexists. split; [reflexivity|]. intros t.
  assert (Hslice : forall u rest, slice_from text e = u +:+ String k rest ->
            slice text e (Z.of_nat (Z.to_nat e + S (String.length u)) - 1) = u).
  { intros u rest Hu.
    replace (Z.of_nat (Z.to_nat e + S (String.length u)) - 1) with (e + Z.of_nat (String.length u)) by lia.
    rewrite slice_prefix; [rewrite Hu; apply stake_app|lia|rewrite Hu, slength_app; lia]. }
  split.
  - destruct (inside_loop _ _ _) as [p|] eqn:E; [|done]. intros [= <-].
    apply inside_loop_sound in E as (u & rest & Hu & Hc & ->).
    inversion Hc as [|k' ks t' u' Ht' Hu' E1 E2]; subst. inversion Hu'; subst.
    rewrite sapp_assoc in Hu. cbn [String.append] in Hu.
    rewrite slength_app. cbn [String.length]. rewrite Nat.add_1_r.
    rewrite (Hslice t' rest Hu). eauto.
  - intros [Ht [rest Hu]]. rewrite Hu, (inside_loop_complete t Ht) by done.
    cbn [inside_loop]. rewrite Ascii.eqb_refl.
    replace (S (Z.to_nat e + String.length t)) with (Z.to_nat e + S (String.length t))%nat by lia.
    destruct rest; cbn [inside_loop]; by rewrite (Hslice t _ Hu).
Qed.

Lemma GetTextInside_balanced_witness :
  GetTextInside "x = printf(f(a[1]), {2}) + g(3)" "printf\(" = inr (Some "f(a[1]), {2}"%string).
Proof.
  destruct (Search "printf\(" "x = printf(f(a[1]), {2}) + g(3)") as [m|] eqn:E;
    [|exfalso; revert E; vm_compute; discriminate].
  assert (Hm : m_end m 0 = 11).
  { assert (H : option_map (fun m => m_end m 0)
                  (Search "printf\(" "x = printf(f(a[1]), {2}) + g(3)") = Some 11)
      by (vm_compute; reflexivity).
    rewrite E in H. by injection H. }
  destruct (GetTextInside_balanced _ _ m "("%char ")"%char E) as (r & Hr & Ht);
    [rewrite Hm; lia|rewrite Hm; vm_compute; reflexivity|constructor|].
  rewrite Hr. f_equal. apply Ht. split.
  - apply (wb_char "f"); [reflexivity|].
    apply (wb_brackets "(" ")" "a[1]" ", {2}"); [constructor| |].
    + apply (wb_char "a"); [reflexivity|]. apply (wb_brackets "[" "]" "1" EmptyString); by repeat constructor.
    + do 2 (apply wb_char; [reflexivity|]). apply (wb_brackets "{" "}" "2" EmptyString); by repeat constructor.
  - exists " + g(3)"%string. rewrite Hm. vm_compute. reflexivity.
Defined.
