(* ===== verification/Language.v ===== *)
(** * Language rules: [CheckLanguage] of cpplint.py and the checks it calls

    [CheckGlobalStatic], [CheckPrintf], [CheckLanguage], [FlagCxx11Features] and
    [FlagCxx14Features]. *)

From stdpp Require Import base list strings gmap.
From Stdlib Require Import ZArith Lia Ascii.
From S2P Require Import Prelude PyString Regex RegexParse PyRe RegexFacts Config IncludeState Cleanse Expr Paths Nesting Spacing Includes Casts.
Local Open Scope Z_scope.
Local Open Scope py_scope.

(** ** Global strings *)

Definition GLOBAL_STRING : string :=
  "((?:|static +)(?:|const +))(?::*std::)?string( +const)? +" +:+ "([a-zA-Z0-9_:]+)\b(.*)".

Definition CheckGlobalStatic (filename : string) (clean_lines : CleansedLines) (linenum : Z) : M unit :=
  let* line := elided_at clean_lines linenum in
  let* line :=
    if (linenum + 1 <? NumLines clean_lines) && negb (finds "[;({]" line) then
      let* next := elided_at clean_lines (linenum + 1) in retM (line +:+ strip next)
    else retM line in
  match Match GLOBAL_STRING line with
  | Some m =>
      if finds "\bstring\b(\s+const)?\s*[\*\&]\s*(const\s+)?\w" line
         || finds "\boperator\W" line
         || starts "\s*(<.*>)?(::[a-zA-Z0-9_]+)*\s*\(([^\x22]|$)" (m_text m 4)
      then retM ()
      else if finds "\bconst\b" line then
        error filename linenum "runtime/string" 4
          ("For a static/global string constant, use a C style string "
           +:+ "instead: " +:+ dquote +:+ m_text m 1 +:+ "char" +:+ m_text m 2 +:+ " " +:+ m_text m 3
           +:+ "[]" +:+ dquote +:+ ".")
      else
        error filename linenum "runtime/string" 4 "Static/global string variables are not permitted."
  | None => retM ()
  end ;;;
  mwhen (finds "\b([A-Za-z0-9_]*_)\(\1\)" line
         || finds "\b([A-Za-z0-9_]*_)\(CHECK_NOTNULL\(\1\)\)" line)
    (error filename linenum "runtime/init" 4
       "You seem to be initializing a member variable with itself.").

(** ** printf *)

Definition CheckPrintf (filename : string) (clean_lines : CleansedLines) (linenum : Z) : M unit :=
  let* line := elided_at clean_lines linenum in
  match Search "snprintf\s*\(([^,]*),\s*([0-9]*)\s*," line with
  | Some m =>
      mwhen (negb (String.eqb (m_text m 2) "0"))
        (error filename linenum "runtime/printf" 3
           ("If you can, use sizeof(" +:+ m_text m 1 +:+ ") instead of " +:+ m_text m 2
            +:+ " as the 2nd arg " +:+ "to snprintf."))
  | None => retM ()
  end ;;;
  mwhen (finds "\bsprintf\s*\(" line)
    (error filename linenum "runtime/printf" 5 "Never use sprintf. Use snprintf instead.") ;;;
  match Search "\b(strcpy|strcat)\s*\(" line with
  | Some m => error filename linenum "runtime/printf" 4
                ("Almost always, snprintf is better than " +:+ m_text m 1)
  | None => retM ()
  end.

(** The format string bug. *)
Definition check_format_string (filename : string) (linenum : Z) (line : string) : M unit :=
  let* printf_args := liftE (GetTextInside line "(?i)\b(string)?printf\s*\(") in
  let args := default EmptyString printf_args in
  if String.eqb args EmptyString then retM ()
  else
    match Match "([\w.\->()]+)$" args with
    | Some m =>
        if String.eqb (m_text m 1) "__VA_ARGS__" then retM ()
        else
          let* f := try_get AttributeError
                      (re_search (pat_with (Flags true false) "\b((?:string)?printf)\s*\(") line) in
          error filename linenum "runtime/printf" 4
            ("Potential format string bug. Do " +:+ m_text f 1 +:+ "(" +:+ dquote +:+ "%s" +:+ dquote
             +:+ ", " +:+ m_text m 1 +:+ ") instead.")
    | None => retM ()
    end.

(** ** Variable-length arrays *)

(** [for tok in tokens]: whether all are compile-time constants. *)
Fixpoint const_tokens (tokens : list string) (skip_next : bool) : bool :=
  match tokens with
  | [] => true
  | tok :: tokens' =>
      if skip_next then const_tokens tokens' false
      else if finds "sizeof\(.+\)" tok then const_tokens tokens' false
      else if finds "arraysize\(\w+\)" tok then const_tokens tokens' false
      else
        let tok := lstrip_by (Ascii.eqb "(") tok in
        let tok := rstrip_by (Ascii.eqb ")") tok in
        if String.eqb tok EmptyString
           || starts "\d+" tok || starts "0[xX][0-9a-fA-F]+" tok || starts "k[A-Z0-9]\w*" tok
           || starts "(.+::)?k[A-Z0-9]\w*" tok || starts "(.+::)?[A-Z][A-Z0-9_]*" tok
        then const_tokens tokens' false
        else if startswith tok "sizeof" then const_tokens tokens' true
        else false
  end.

Definition ARRAY_SIZE_SPLIT : string := "\s|\+|\-|\*|\/|<<|>>]".

Definition check_arrays (filename : string) (linenum : Z) (line : string) : M unit :=
  match Match "\s*(.+::)?(\w+) [a-z]\w*\[(.+)];" line with
  | Some m =>
      mwhen (negb (String.eqb (m_text m 2) "return") && negb (String.eqb (m_text m 2) "delete")
             && (str_find (m_text m 3) "]" =? -1)
             && negb (const_tokens (re_split (pat ARRAY_SIZE_SPLIT) (m_text m 3)) false))
        (error filename linenum "runtime/arrays" 1
           ("Do not use variable-length arrays.  Use an appropriately named "
            +:+ "('k' followed by CamelCase) compile-time constant for the size."))
  | None => retM ()
  end.

(** ** The check *)

(** Types, operators, formats, memset and using-directives. *)
Definition check_language_line (filename : string) (linenum : Z) (line : string) : M unit :=
  (if finds "\bshort port\b" line then
     mwhen (negb (finds "\bunsigned short port\b" line))
       (error filename linenum "runtime/int" 4
          ("Use " +:+ dquote +:+ "unsigned short" +:+ dquote +:+ " for ports, not " +:+ dquote
           +:+ "short" +:+ dquote))
   else
     match Search "\b(short|long(?! +double)|long long)\b" line with
     | Some m => error filename linenum "runtime/int" 4
                   ("Use int16/int64/etc, rather than the C type " +:+ m_text m 1)
     | None => retM ()
     end) ;;;
  mwhen (finds "\boperator\s*&\s*\(\s*\)" line)
    (error filename linenum "runtime/operator" 4 "Unary operator& is dangerous.  Do not use it.") ;;;
  mwhen (finds "\}\s*if\s*\(" line)
    (error filename linenum "readability/braces" 4
       ("Did you mean " +:+ dquote +:+ "else if" +:+ dquote +:+ "? If not, start a new line for "
        +:+ dquote +:+ "if" +:+ dquote +:+ ".")) ;;;
  check_format_string filename linenum line ;;;
  match Search "memset\s*\(([^,]*),\s*([^,]*),\s*0\s*\)" line with
  | Some m =>
      mwhen (negb (starts "^''|-?[0-9]+|0x[0-9A-Fa-f]$" (m_text m 2)))
        (error filename linenum "runtime/memset" 4
           ("Did you mean " +:+ dquote +:+ "memset(" +:+ m_text m 1 +:+ ", 0, " +:+ m_text m 2 +:+ ")"
            +:+ dquote +:+ "?"))
  | None => retM ()
  end ;;;
  mwhen (finds "\busing namespace\b" line)
    (error filename linenum
       (if finds "\bliterals\b" line then "build/namespaces_literals" else "build/namespaces") 5
       ("Do not use namespace using-directives.  " +:+ "Use using-declarations instead.")) ;;;
  check_arrays filename linenum line.

Section Language.
Context (exists_ : string -> bool) (cwd : string) (cfg : config).

Definition CheckLanguage (filename : string) (clean_lines : CleansedLines) (linenum : Z)
    (file_extension : string) (include_state : IncludeState.t) : M IncludeState.t :=
  let* line := elided_at clean_lines linenum in
  if String.eqb line EmptyString then retM include_state
  else if matched (re_search RE_PATTERN_INCLUDE line)
  then CheckIncludeLine exists_ cwd cfg filename clean_lines linenum include_state
  else
    let include_state :=
      match Match "^\s*#\s*(if|ifdef|ifndef|elif|else|endif)\b" line with
      | Some m => IncludeState.ResetSection (m_text m 1) include_state
      | None => include_state
      end in
    CheckCasts filename clean_lines linenum ;;;
    CheckGlobalStatic filename clean_lines linenum ;;;
    CheckPrintf filename clean_lines linenum ;;;
    check_language_line filename linenum line ;;;
    mwhen (IsHeaderExtension cfg file_extension && finds "\bnamespace\s*{" line
           && match str_at line (-1) with Some c => negb (Ascii.eqb c "\") | None => false end)
      (error filename linenum "build/namespaces" 4
         ("Do not use unnamed namespaces in header files.  See "
          +:+ "https://google-styleguide.googlecode.com/svn/trunk/cppguide.xml#Namespaces"
          +:+ " for more information.")) ;;;
    retM include_state.
End Language.

(** ** C++11 and C++14 *)

Definition CXX_INCLUDE : string := "\s*#\s*include\s+[<\x22]([^<\x22]+)[\x22>]".

Definition CXX11_HEADERS : list string :=
  ["cfenv"; "condition_variable"; "fenv.h"; "future"; "mutex"; "thread"; "chrono"; "ratio"; "regex";
   "system_error"].

Definition FlagCxx11Features (filename : string) (clean_lines : CleansedLines) (linenum : Z) : M unit :=
  let* line := elided_at clean_lines linenum in
  match Match CXX_INCLUDE line with
  | Some include =>
      mwhen (startswith (m_text include 1) "tr1/")
        (error filename linenum "build/c++tr1" 5
           ("C++ TR1 headers such as <" +:+ m_text include 1 +:+ "> are unapproved.")) ;;;
      mwhen (str_mem (m_text include 1) CXX11_HEADERS)
        (error filename linenum "build/c++11" 5
           ("<" +:+ m_text include 1 +:+ "> is an unapproved C++11 header."))
  | None => retM ()
  end ;;;
  if starts "\s*#" line && negb (starts "\s*#\s*define\b" line) then retM ()
  else
    mfor ["alignment_of"; "aligned_union"] (fun top_name =>
      mwhen (finds ("\bstd::" +:+ top_name +:+ "\b") line)
        (error filename linenum "build/c++11" 5
           ("std::" +:+ top_name +:+ " is an unapproved C++11 class or function.  Send c-style "
            +:+ "an example of where it would make your code more readable, and "
            +:+ "they may let you use it."))).

Definition FlagCxx14Features (filename : string) (clean_lines : CleansedLines) (linenum : Z) : M unit :=
  let* line := elided_at clean_lines linenum in
  match Match CXX_INCLUDE line with
  | Some include =>
      mwhen (str_mem (m_text include 1) ["scoped_allocator"; "shared_mutex"])
        (error filename linenum "build/c++14" 5
           ("<" +:+ m_text include 1 +:+ "> is an unapproved C++14 header."))
  | None => retM ()
  end.
