(* ===== verification/Process.v ===== *)
(** * Linting a file: [ProcessLine] and [ProcessFileData] of cpplint.py

    The checks composed as the linter composes them, over the include state, the
    function state and the nesting state.  A file's checks produce events
    ([Prelude.event]); [handle] is what each event does to the suppressions and to
    the linter's state. *)

From stdpp Require Import base list strings gmap.
From Stdlib Require Import ZArith Lia Ascii.
From S2P Require Import Prelude PyString Regex RegexParse PyRe RegexFacts Config Nolint LintState IncludeState FunctionState Cleanse Expr Paths HeaderGuard LineChecks Nesting NestingFacts Constructs Spacing Braces Style Includes WhatYouUse Casts Language.
Local Open Scope Z_scope.
Local Open Scope py_scope.

(** The states of a file that is being linted. *)
Record file_state := FileState {
  include_state : IncludeState.t;
  function_state : FunctionState.t;
  nesting : nesting_state
}.
Definition initial_file_state : file_state :=
  FileState IncludeState.init FunctionState.init initial_nesting.

(** The code points of a line, for [CheckForBadCharacters]. *)
Fixpoint code_points (s : string) : list N :=
  match s with EmptyString => [] | String c s' => code c :: code_points s' end.

Section Process.
(** The file system, the working directory, the settings, the verbosity level, and
    how a header is read. *)
Context (exists_ : string -> bool) (cwd : string) (cfg : config) (verbosity : Z)
  (read_header : string -> option (list string)).

(** [extra_check_functions]: functions of the caller that run on each line. *)
Context (extra_check_functions : list (string -> CleansedLines -> Z -> M unit)).

(** The checks of a line that change no state of the file. *)
Definition line_checks (filename : string) (clean_lines : CleansedLines) (line : Z)
    (st : nesting_state) : M unit :=
  CheckForNonConstReference filename clean_lines line st ;;;
  CheckForNonStandardConstructs filename clean_lines line st ;;;
  CheckVlogArguments filename clean_lines line ;;;
  CheckPosixThreading filename clean_lines line ;;;
  CheckInvalidIncrement filename clean_lines line ;;;
  CheckMakePairUsesDeduction filename clean_lines line ;;;
  CheckRedundantVirtual filename clean_lines line ;;;
  CheckRedundantOverrideOrFinal filename clean_lines line ;;;
  mfor extra_check_functions (fun check_fn => check_fn filename clean_lines line).

Definition ProcessLine (filename file_extension : string) (clean_lines : CleansedLines) (line : Z)
    (fs : file_state) : M file_state :=
  let* raw := raw_at clean_lines line in
  emit (Nolint filename raw line) ;;;
  let* st := Update filename clean_lines line (nesting fs) in
  CheckForNamespaceIndentation filename st clean_lines line ;;;
  if InAsmBlock st then retM (FileState (include_state fs) (function_state fs) st)
  else
    let* function_state :=
      CheckForFunctionLengths filename clean_lines line verbosity (function_state fs) in
    CheckForMultilineCommentsAndStrings filename clean_lines line ;;;
    CheckStyle exists_ cwd cfg filename clean_lines line file_extension st ;;;
    let* include_state :=
      CheckLanguage exists_ cwd cfg filename clean_lines line file_extension (include_state fs) in
    line_checks filename clean_lines line st ;;;
    retM (FileState include_state function_state st).

(** [for line in xrange(clean_lines.NumLines())], with [n] lines left. *)
Fixpoint process_lines (n : nat) (filename file_extension : string) (clean_lines : CleansedLines)
    (line : Z) (fs : file_state) : M file_state :=
  match n with
  | O => retM fs
  | S n' =>
      let* fs := ProcessLine filename file_extension clean_lines line fs in
      FlagCxx11Features filename clean_lines line ;;;
      process_lines n' filename file_extension clean_lines (line + 1) fs
  end.

(** The list [lines] is one object: [RemoveMultiLineComments] changes it in place,
    and the last two checks see it as it was left. *)
Definition ProcessFileData (filename file_extension : string) (lines : list string) : M unit :=
  let lines := ["// marker so line numbers and indices both start at 1"] ++ lines
               ++ ["// marker so line numbers end in a known way"] in
  emit ResetSuppressions ;;;
  CheckForCopyright filename lines ;;;
  emit (GlobalSuppressions lines) ;;;
  let* removed := liftE (RemoveMultiLineComments filename lines) in
  let '(lines, ds) := removed in
  mfor ds (fun d => emit (Report d)) ;;;
  let* clean_lines := liftE (cleanse lines) in
  mwhen (IsHeaderExtension cfg file_extension)
    (CheckForHeaderGuard exists_ cwd cfg filename clean_lines) ;;;
  let* fs := process_lines (Z.to_nat (NumLines clean_lines)) filename file_extension clean_lines 0
               initial_file_state in
  CheckCompletedBlocks filename (nesting fs) ;;;
  CheckForIncludeWhatYouUse exists_ cwd cfg read_header filename clean_lines (include_state fs) ;;;
  mwhen (IsSourceExtension cfg file_extension)
    (CheckHeaderFileIncluded exists_ cwd cfg filename (include_state fs)) ;;;
  CheckForBadCharacters filename (map code_points lines) ;;;
  CheckForNewlineAtEOF filename lines.
End Process.

(** ** What the events do *)

(** The global state of the program that linting changes. *)
Record linter := Linter { suppressed : suppressions; lint : lint_state }.

Definition with_lint (l : linter) (r : exn + lint_state) : linter * option exn :=
  match r with inl e => (l, Some e) | inr st => (Linter (suppressed l) st, None) end.

(** An exception of the error handler ends the run. *)
Definition handle (e : event) (l : linter) : linter * option exn :=
  match e with
  | Report d => with_lint l (Error (suppressed l) d (lint l))
  | Nolint filename raw_line linenum =>
      let '(sup, ds) := ParseNolintSuppressions filename raw_line linenum (suppressed l) in
      with_lint (Linter sup (lint l)) (report sup ds (lint l))
  | ResetSuppressions => (Linter (ResetNolintSuppressions (suppressed l)) (lint l), None)
  | GlobalSuppressions lines => (Linter (ProcessGlobalSuppresions lines (suppressed l)) (lint l), None)
  end.

Fixpoint handle_all (es : list event) (l : linter) : linter * option exn :=
  match es with
  | [] => (l, None)
  | e :: es' =>
      match handle e l with
      | (l', None) => handle_all es' l'
      | (l', Some x) => (l', Some x)
      end
  end.

(** A check run in a state of the linter. *)
Definition run_check {A} (m : M A) (l : linter) : linter * (exn + A) :=
  match handle_all (events m) l with
  | (l', None) => (l', outcome m)
  | (l', Some x) => (l', inl x)
  end.
