(* ===== verification/Termination.v ===== *)
(** * The linter ends on every file

    Every loop of the checks ends: [ProcessFileData] of cpplint.py returns or raises
    one of Python's exceptions for every file, whatever its lines are.  The lemmas
    follow the calls, from the bracket searches up to the whole file. *)

From stdpp Require Import base list strings gmap.
From Stdlib Require Import ZArith Lia Ascii.
From S2P Require Import Prelude PyString Regex RegexParse PyRe RegexFacts Config Nolint LintState IncludeState FunctionState Cleanse Expr Paths HeaderGuard LineChecks Nesting NestingFacts Constructs Spacing Braces Style Includes WhatYouUse Casts Language Process.
Local Open Scope Z_scope.
Local Open Scope py_scope.

(** ** Bracket searches *)

Lemma find_end_ends n : forall line i st, ends (find_end n line i st).
Proof. induction n as [|n IH]; intros; cbn [find_end]; ends. Qed.
Lemma find_start_ends n : forall line i st, ends (find_start n line i st).
Proof. induction n as [|n IH]; intros; cbn [find_start]; ends. Qed.
#[export] Hint Resolve find_end_ends find_start_ends : ends.

Lemma close_lines_ends n : forall c l line st, ends (close_lines n c l line st).
Proof. induction n as [|n IH]; intros; cbn [close_lines]; ends. Qed.
Lemma open_lines_ends n : forall c l line st, ends (open_lines n c l line st).
Proof. induction n as [|n IH]; intros; cbn [open_lines]; ends. Qed.
#[export] Hint Resolve close_lines_ends open_lines_ends : ends.

Lemma CloseExpression_ends c l p : ends (CloseExpression c l p).
Proof. ends. Qed.
Lemma ReverseCloseExpression_ends c l p : ends (ReverseCloseExpression c l p).
Proof. ends. Qed.
Lemma line_at_ends l i : halts (line_at l i).
Proof. ends. Qed.
#[export] Hint Resolve CloseExpression_ends ReverseCloseExpression_ends line_at_ends : ends.

(** ** The checks of a line *)

Lemma collapse_from_ends l : forall cur, ends (collapse_from cur l).
Proof. induction l as [|x l IH]; intros; cbn [collapse_from]; ends. Qed.
#[export] Hint Resolve collapse_from_ends : ends.

Lemma CheckForNonStandardConstructs_ends f c l st : halts (CheckForNonStandardConstructs f c l st).
Proof. ends. Qed.
#[export] Hint Resolve CheckForNonStandardConstructs_ends : ends.

Lemma initializer_search_ends n : forall l, ends (initializer_search n l).
Proof. induction n as [|n IH]; intros; cbn [initializer_search]; ends. Qed.
Lemma template_line_ends n : forall c i, ends (template_line n c i).
Proof. induction n as [|n IH]; intros; cbn [template_line]; ends. Qed.
Lemma search_lines_ends n : forall p c i, ends (search_lines p n c i).
Proof. induction n as [|n IH]; intros; cbn [search_lines]; ends. Qed.
#[export] Hint Resolve initializer_search_ends template_line_ends search_lines_ends : ends.

Lemma is_type_walk_ends l : forall p c, ends (is_type_walk p c l).
Proof. induction l as [|x l IH]; intros; cbn [is_type_walk]; ends. Qed.
Lemma append_lines_ends n : forall c i t, ends (append_lines n c i t).
Proof. induction n as [|n IH]; intros; cbn [append_lines]; ends. Qed.
Lemma class_head_end_ends n : forall c i d, ends (class_head_end n c i d).
Proof. induction n as [|n IH]; intros; cbn [class_head_end]; ends. Qed.
Lemma previous_nonblank_ends n : forall c, ends (previous_nonblank n c).
Proof. induction n as [|n IH]; intros; cbn [previous_nonblank]; ends. Qed.
#[export] Hint Resolve is_type_walk_ends append_lines_ends class_head_end_ends previous_nonblank_ends : ends.

Lemma mask_line_ends line : ends (mask_operators (S (String.length line)) line).
Proof. apply ends_some_value, mask_operators_ends. pose proof (nonwords_le line). lia. Qed.
#[export] Hint Resolve mask_line_ends : ends.

Lemma CheckSpacing_ends f c l st : halts (CheckSpacing f c l st).
Proof. ends. Qed.
Lemma CheckSpacingForFunctionCall_ends f c l : halts (CheckSpacingForFunctionCall f c l).
Proof. ends. Qed.
Lemma CheckOperatorSpacing_ends f c l : halts (CheckOperatorSpacing f c l).
Proof. ends. Qed.
Lemma CheckParenthesisSpacing_ends f c l : halts (CheckParenthesisSpacing f c l).
Proof. ends. Qed.
Lemma CheckCommaSpacing_ends f c l : halts (CheckCommaSpacing f c l).
Proof. ends. Qed.
Lemma CheckBracesSpacing_ends f c l st : halts (CheckBracesSpacing f c l st).
Proof. ends. Qed.
Lemma CheckSectionSpacing_ends f c s e l : halts (CheckSectionSpacing f c s e l).
Proof. ends. Qed.
#[export] Hint Resolve CheckSpacing_ends CheckSpacingForFunctionCall_ends CheckOperatorSpacing_ends CheckParenthesisSpacing_ends CheckCommaSpacing_ends CheckBracesSpacing_ends CheckSectionSpacing_ends : ends.

Lemma semicolon_line_ends n : forall c l p, ends (semicolon_line n c l p).
Proof. induction n as [|n IH]; intros; cbn [semicolon_line]; ends. Qed.
Lemma opening_brace_ends n : forall c l t, ends (opening_brace n c l t).
Proof. induction n as [|n IH]; intros; cbn [opening_brace]; ends. Qed.
Lemma else_follows_ends n : forall c l t, ends (else_follows n c l t).
Proof. induction n as [|n IH]; intros; cbn [else_follows]; ends. Qed.
Lemma split_expression_ends e lhs : ends (split_operands (S (String.length e)) e lhs).
Proof. apply ends_some_value, split_operands_ends. lia. Qed.
#[export] Hint Resolve semicolon_line_ends opening_brace_ends else_follows_ends split_expression_ends : ends.

Lemma CheckBraces_ends cfg f c l : halts (CheckBraces cfg f c l).
Proof. ends. Qed.
Lemma CheckTrailingSemicolon_ends f c l : halts (CheckTrailingSemicolon f c l).
Proof. ends. Qed.
Lemma CheckEmptyBlockBody_ends f c l : halts (CheckEmptyBlockBody f c l).
Proof. ends. Qed.
Lemma CheckCheck_ends f c l : halts (CheckCheck f c l).
Proof. ends. Qed.
Lemma CheckAltTokens_ends f c l : halts (CheckAltTokens f c l).
Proof. ends. Qed.
#[export] Hint Resolve CheckBraces_ends CheckTrailingSemicolon_ends CheckEmptyBlockBody_ends CheckCheck_ends CheckAltTokens_ends : ends.

Lemma find_body_ends n : forall c line s j, ends (find_body n c line s j).
Proof. induction n as [|n IH]; intros; cbn [find_body]; ends. Qed.
#[export] Hint Resolve find_body_ends : ends.

Lemma CheckForNamespaceIndentation_ends f st c l : halts (CheckForNamespaceIndentation f st c l).
Proof. ends. Qed.
Lemma CheckForFunctionLengths_ends f c l v st : halts (CheckForFunctionLengths f c l v st).
Proof. ends. Qed.
#[export] Hint Resolve CheckForNamespaceIndentation_ends CheckForFunctionLengths_ends : ends.

Lemma cast_context_ends n : forall c i t, ends (cast_context n c i t).
Proof. induction n as [|n IH]; intros; cbn [cast_context]; ends. Qed.
Lemma is_derived_loop_ends n : forall c i, ends (is_derived_loop n c i).
Proof. induction n as [|n IH]; intros; cbn [is_derived_loop]; ends. Qed.
Lemma out_of_line_loop_ends n : forall c i, ends (out_of_line_loop n c i).
Proof. induction n as [|n IH]; intros; cbn [out_of_line_loop]; ends. Qed.
Lemma initializer_list_loop_ends n : forall c l i, ends (initializer_list_loop n c l i).
Proof. induction n as [|n IH]; intros; cbn [initializer_list_loop]; ends. Qed.
Lemma join_stripped_ends n : forall c i t, ends (join_stripped n c i t).
Proof. induction n as [|n IH]; intros; cbn [join_stripped]; ends. Qed.
Lemma initializer_above_ends n : forall c i, ends (initializer_above n c i).
Proof. induction n as [|n IH]; intros; cbn [initializer_above]; ends. Qed.
Lemma parameter_list_end_ends n : forall c l p, ends (parameter_list_end n c l p).
Proof. induction n as [|n IH]; intros; cbn [parameter_list_end]; ends. Qed.
Lemma override_loop_ends n : forall f c l i e, halts (override_loop n f c l i e).
Proof. induction n as [|n IH]; intros; cbn [override_loop]; ends. Qed.
#[export] Hint Resolve cast_context_ends is_derived_loop_ends out_of_line_loop_ends initializer_list_loop_ends join_stripped_ends initializer_above_ends parameter_list_end_ends override_loop_ends : ends.

Lemma CheckCasts_ends f c l : halts (CheckCasts f c l).
Proof. ends. Qed.
Lemma CheckForNonConstReference_ends f c l st : halts (CheckForNonConstReference f c l st).
Proof. ends. Qed.
Lemma CheckMakePairUsesDeduction_ends f c l : halts (CheckMakePairUsesDeduction f c l).
Proof. ends. Qed.
Lemma CheckRedundantVirtual_ends f c l : halts (CheckRedundantVirtual f c l).
Proof. ends. Qed.
Lemma CheckRedundantOverrideOrFinal_ends f c l : halts (CheckRedundantOverrideOrFinal f c l).
Proof. ends. Qed.
#[export] Hint Resolve CheckCasts_ends CheckForNonConstReference_ends CheckMakePairUsesDeduction_ends CheckRedundantVirtual_ends CheckRedundantOverrideOrFinal_ends : ends.

Lemma CheckGlobalStatic_ends f c l : halts (CheckGlobalStatic f c l).
Proof. ends. Qed.
Lemma CheckPrintf_ends f c l : halts (CheckPrintf f c l).
Proof. ends. Qed.
Lemma FlagCxx11Features_ends f c l : halts (FlagCxx11Features f c l).
Proof. ends. Qed.
Lemma CheckForMultilineCommentsAndStrings_ends f c l : halts (CheckForMultilineCommentsAndStrings f c l).
Proof. ends. Qed.
Lemma CheckPosixThreading_ends f c l : halts (CheckPosixThreading f c l).
Proof. ends. Qed.
Lemma CheckVlogArguments_ends f c l : halts (CheckVlogArguments f c l).
Proof. ends. Qed.
Lemma CheckInvalidIncrement_ends f c l : halts (CheckInvalidIncrement f c l).
Proof. ends. Qed.
#[export] Hint Resolve CheckGlobalStatic_ends CheckPrintf_ends FlagCxx11Features_ends CheckForMultilineCommentsAndStrings_ends CheckPosixThreading_ends CheckVlogArguments_ends CheckInvalidIncrement_ends : ends.

(** ** Names, includes and header guards *)

Section Names.
Context (exists_ : string -> bool) (cwd : string) (cfg : config).
(** The working directory is absolute and no [.svn] lies in the root directory. *)
Context (Hcwd : absolute cwd)
  (Htop : forall s, absolute s -> sall is_slash s = true -> exists_ (s +:+ ".svn") = false).

Lemma RepositoryName_ends f : ends (RepositoryName exists_ cwd cfg f).
Proof. by apply ends_some_value, RepositoryName_ok. Qed.
Lemma GuardVariable_ends f : ends (GetHeaderGuardCPPVariable exists_ cwd cfg f).
Proof. destruct (GuardVariable_ok exists_ cwd cfg Hcwd Htop f) as [p ->]. apply ends_inr. Qed.
Hint Resolve RepositoryName_ends GuardVariable_ends : ends.

Lemma CheckStyle_ends f c l e st : halts (CheckStyle exists_ cwd cfg f c l e st).
Proof. ends. Qed.

Lemma foreign_source_ends l : forall f i, ends (foreign_source exists_ cwd cfg l f i).
Proof. induction l as [|x l IH]; intros; cbn [foreign_source]; ends. Qed.
Lemma own_header_ends l : forall f i, ends (own_header exists_ cwd cfg l f i).
Proof. induction l as [|x l IH]; intros; cbn [own_header]; ends. Qed.
Lemma header_included_loop_ends l : forall f st, halts (header_included_loop exists_ cwd cfg l f st).
Proof. induction l as [|x l IH]; intros; cbn [header_included_loop]; ends. Qed.
Hint Resolve foreign_source_ends own_header_ends header_included_loop_ends : ends.

Lemma CheckLanguage_ends f c l e st : halts (CheckLanguage exists_ cwd cfg f c l e st).
Proof. ends. Qed.
Lemma CheckHeaderFileIncluded_ends f st : halts (CheckHeaderFileIncluded exists_ cwd cfg f st).
Proof. ends. Qed.

Lemma load_headers_ends rd l : forall f b d, ends (load_headers exists_ cwd cfg rd l f b d).
Proof. induction l as [|x l IH]; intros; cbn [load_headers]; ends. Qed.
Lemma require_lines_ends n : forall c l r, ends (require_lines n c l r).
Proof. induction n as [|n IH]; intros; cbn [require_lines]; ends. Qed.
Hint Resolve load_headers_ends require_lines_ends : ends.

Lemma CheckForIncludeWhatYouUse_ends rd f c st :
  halts (CheckForIncludeWhatYouUse exists_ cwd cfg rd f c st).
Proof. ends. Qed.
Lemma CheckForHeaderGuard_ends f c : halts (CheckForHeaderGuard exists_ cwd cfg f c).
Proof. ends. Qed.
End Names.

(** ** A file *)

Lemma menumerate_ends {A} (body : Z -> A -> M unit) (Hb : forall i a, halts (body i a)) l :
  forall n, halts (menumerate n l body).
Proof. induction l as [|x l IH]; intros; cbn [menumerate]; ends. Qed.

Lemma CheckForBadCharacters_ends f l : halts (CheckForBadCharacters f l).
Proof. unfold CheckForBadCharacters. apply menumerate_ends. intros. ends. Qed.
Lemma CheckCompletedBlocks_ends f st : halts (CheckCompletedBlocks f st).
Proof. ends. Qed.
#[export] Hint Resolve CheckForBadCharacters_ends CheckCompletedBlocks_ends : ends.

Section File.
Context (exists_ : string -> bool) (cwd : string) (cfg : config) (verbosity : Z)
  (read_header : string -> option (list string))
  (extra : list (string -> CleansedLines -> Z -> M unit)).
Context (Hcwd : absolute cwd)
  (Htop : forall s, absolute s -> sall is_slash s = true -> exists_ (s +:+ ".svn") = false)
  (Hextra : forall check f c l, In check extra -> halts (check f c l)).

Lemma extra_ends f c l : halts (mfor extra (fun check => check f c l)).
Proof.
  revert Hextra. induction extra as [|g gs IH]; intros H; cbn [mfor]; [apply halts_retM|].
  apply halts_bindM; [apply H; by left|]. intros _ _. apply IH. intros. apply H. by right.
Qed.
Hint Resolve extra_ends CheckStyle_ends CheckLanguage_ends : ends.

Lemma line_checks_ends f c l st : halts (line_checks extra f c l st).
Proof. unfold line_checks. repeat (apply halts_bindM; [solve [ends]|intros _ _]). apply extra_ends. Qed.
Hint Resolve line_checks_ends : ends.

(** A line leaves the nesting state well formed. *)
Definition state_ok (fs : file_state) : Prop := nesting_ok (nesting fs).

Lemma ProcessLine_ends f e c l fs :
  file_ok c -> 0 <= l < NumLines c -> state_ok fs ->
  yields state_ok (ProcessLine exists_ cwd cfg verbosity extra f e c l fs).
Proof.
  intros Hc Hl Hst. unfold ProcessLine.
  apply yields_then; [ends|]. intros raw. apply yields_then; [ends|]. intros _.
  apply (yields_bindM nesting_ok).
  { destruct (Update_ok f c Hc l Hl (nesting fs) Hst) as (st & E & Hok). by eapply yields_value. }
  intros st Hok. apply yields_then; [ends|]. intros _.
  destruct (InAsmBlock st); [by apply yields_retM|].
  repeat (apply yields_then; [solve [ends; eauto with ends]|intros ?]). by apply yields_retM.
Qed.

Lemma process_lines_ends f e c n : forall l fs,
  file_ok c -> 0 <= l -> l + Z.of_nat n <= NumLines c -> state_ok fs ->
  halts (process_lines exists_ cwd cfg verbosity extra n f e c l fs).
Proof.
  induction n as [|n IH]; intros l fs Hc Hl Hn Hst; cbn [process_lines]; [apply halts_retM|].
  eapply halts_yields, yields_bindM; [apply ProcessLine_ends; auto; lia|].
  intros fs' Hst'. apply yields_then; [ends|]. intros _. apply yields_halts, IH; auto; lia.
Qed.

Lemma ProcessFileData_ends f e ls :
  halts (ProcessFileData exists_ cwd cfg verbosity read_header extra f e ls).
Proof.
  unfold ProcessFileData. cbv zeta.
  do 3 (apply halts_bindM; [solve [ends]|intros _ _]).
  destruct (RemoveMultiLineComments_ok f (["// marker so line numbers and indices both start at 1"] ++ ls
    ++ ["// marker so line numbers end in a known way"])) as (ls' & ds & -> & _).
  apply halts_bindM; [apply halts_liftE, ends_inr|]. intros removed [= <-].
  apply halts_bindM; [ends|intros _ _].
  destruct (cleanse_ok ls') as (c & -> & Hr & He & _ & _ & Hn).
  assert (Hc : file_ok c) by (split; [unfold well_sized; congruence|congruence]).
  apply halts_bindM; [apply halts_liftE, ends_inr|]. intros c' [= <-].
  apply halts_bindM; [apply halts_mwhen; by apply CheckForHeaderGuard_ends|intros _ _].
  apply halts_bindM; [apply process_lines_ends; [done|lia|lia|apply initial_nesting_ok]|intros fs _].
  apply halts_bindM; [ends|intros _ _].
  apply halts_bindM; [by apply CheckForIncludeWhatYouUse_ends|intros _ _].
  apply halts_bindM; [apply halts_mwhen; by apply CheckHeaderFileIncluded_ends|intros _ _].
  ends.
Qed.
End File.

(** C5. Linting a file ends: for every file, every setting and every file system
    whose root directory holds no [.svn], [ProcessFileData] returns or raises one of
    Python's exceptions, whatever the lines of the file are, provided that the extra
    checks of the caller end. *)
Theorem ProcessFileData_terminates (exists_ : string -> bool) (cwd : string) (cfg : config)
    (verbosity : Z) (read_header : string -> option (list string))
    (extra : list (string -> CleansedLines -> Z -> M unit)) (filename extension : string)
    (ls : list string)
    (Hcwd : absolute cwd)
    (Htop : forall s, absolute s -> sall is_slash s = true -> exists_ (s +:+ ".svn") = false)
    (Hextra : forall check f c l, In check extra -> outcome (check f c l) <> inl FuelExhausted) :
  outcome (ProcessFileData exists_ cwd cfg verbosity read_header extra filename extension ls)
  <> inl FuelExhausted.
Proof. by apply ProcessFileData_ends. Qed.

Lemma ProcessFileData_terminates_witness :
  outcome (ProcessFileData (fun _ => false) "/home/u" initial_config 1 (fun _ => None) []
             "a.cc" "cc" ["int operator()(int a) { CHECK(a == 1); }"])
  <> inl FuelExhausted.
Proof.
  apply (ProcessFileData_terminates (fun _ => false) "/home/u" initial_config 1 (fun _ => None) []
           "a.cc" "cc" ["int operator()(int a) { CHECK(a == 1); }"]).
  - by exists "home/u"%string.
  - reflexivity.
  - intros check f c l [].
Defined.

(** ** Exceptions that do occur *)

Definition lint_lines (ls : list string) : exn + unit :=
  outcome (ProcessFileData (fun _ => false) "/home/u" initial_config 1 (fun _ => None) [] "a.cc" "cc" ls).

(** A constructor whose last argument has a less-than sign in its default value:
    [constructor_args[i + 1]] in [CheckForNonStandardConstructs] raises. *)
Lemma unbalanced_argument_raises :
  lint_lines ["class Foo {"; " public:"; "  Foo(int a = b < c);"; "};"] = inl IndexError.
Proof. vm_compute. reflexivity. Qed.

(** A line that ends after the angle brackets of a cast whose address is taken:
    [clean_lines.elided[y1][x1]] in [CheckCasts] raises. *)
Lemma address_of_cast_at_end_of_line_raises :
  lint_lines ["int* f() {"; "  return &static_cast<T*>"; "      (p)[1];"; "}"] = inl IndexError.
Proof. vm_compute. reflexivity. Qed.
