(* ===== verification/JUnit.v ===== *)
(** * JUnit output: [_CppLintState.FormatJUnitXML]

    The tree of elements that the method builds, and its text as
    [xml.etree.ElementTree.tostring] writes it. *)

From stdpp Require Import base list strings gmap.
From Stdlib Require Import ZArith Lia Ascii Permutation.
From S2P Require Import Prelude PyString Regex RegexParse PyRe Config Nolint LintState.
Local Open Scope Z_scope.

(** ** Elements and their text *)

Inductive xml := Element (tag : string) (attrib : list (string * string)) (text : string) (children : list xml).

Definition escape_cdata (s : string) : string :=
  str_replace (str_replace (str_replace s "&" "&amp;") "<" "&lt;") ">" "&gt;".
Definition escape_attrib (s : string) : string :=
  str_replace (str_replace (str_replace (str_replace (escape_cdata s) dquote "&quot;")
    cr "&#13;") newline "&#10;") (chr 9) "&#09;".

(** An element without text and children is closed at once. *)
Fixpoint tostring (e : xml) : string :=
  let '(Element tag attrib text children) := e in
  let head := "<" +:+ tag
    +:+ join EmptyString (map (fun '(k, v) => " " +:+ k +:+ "=" +:+ dquote +:+ escape_attrib v +:+ dquote)
                            attrib) in
  if String.eqb text EmptyString && bool_decide (length children = 0%nat) then head +:+ " />"
  else head +:+ ">" +:+ escape_cdata text +:+ join EmptyString (map tostring children)
       +:+ "</" +:+ tag +:+ ">".

(** ** The tree *)

(** [for failure in self._junit_failures]: [failed_file_order] and
    [failures_by_file]. *)
Definition group_step (g : list string * list (string * list diag)) (failure : diag)
    : list string * list (string * list diag) :=
  let '(order, by_file) := g in
  let failed_file := d_file failure in
  let '(order, by_file) :=
    if str_mem failed_file order then (order, by_file)
    else (order ++ [failed_file], dict_set failed_file [] by_file) in
  (order, dict_set failed_file (default [] (dict_get failed_file by_file) ++ [failure]) by_file).
Definition group_failures (failures : list diag) : list string * list (string * list diag) :=
  fold_left group_step failures ([], []).

(** ['{0}: {1} [{2}] [{3}]']. *)
Definition failure_text (d : diag) : string :=
  match d_line d with Line n => str_of_Z n | NoLine => "None" end
  +:+ ": " +:+ d_message d +:+ " [" +:+ d_category d +:+ "] [" +:+ str_of_Z (d_confidence d) +:+ "]".

Definition failure_case (by_file : list (string * list diag)) (failed_file : string) : xml :=
  let failures := default [] (dict_get failed_file by_file) in
  Element "testcase" [("name", failed_file)] EmptyString
    [Element "failure" [] (join newline (map failure_text failures)) []].

Definition testsuite (st : lint_state) : xml :=
  let num_errors := Z.of_nat (length (junit_errors st)) in
  let num_failures := Z.of_nat (length (junit_failures st)) in
  let attrib tests := [("name", "cpplint"); ("errors", str_of_Z num_errors);
                       ("failures", str_of_Z num_failures); ("tests", str_of_Z tests)] in
  if (num_errors =? 0) && (num_failures =? 0) then
    Element "testsuite" (attrib 1) EmptyString [Element "testcase" [("name", "passed")] EmptyString []]
  else
    Element "testsuite" (attrib (num_errors + num_failures)) EmptyString
      ((if 0 <? num_errors
        then [Element "testcase" [("name", "errors")] EmptyString
                [Element "error" [] (join newline (junit_errors st)) []]]
        else [])
       ++ (if 0 <? num_failures
           then let '(failed_file_order, failures_by_file) := group_failures (junit_failures st) in
                map (failure_case failures_by_file) failed_file_order
           else [])).

Definition FormatJUnitXML (st : lint_state) : string :=
  "<?xml version=" +:+ dquote +:+ "1.0" +:+ dquote +:+ " encoding=" +:+ dquote +:+ "UTF-8" +:+ dquote
  +:+ " ?>" +:+ newline +:+ tostring (testsuite st).

(** ** Every failure is written once *)

(** The failures of a file, in the order in which they were reported. *)
Definition failures_of (failures : list diag) (failed_file : string) : list diag :=
  List.filter (fun d => String.eqb (d_file d) failed_file) failures.

(** File [f] failed before file [g] did. *)
Definition fails_before (ds : list diag) (f g : string) : Prop :=
  exists pre suf, ds = pre ++ suf /\ (exists d, d ∈ pre /\ d_file d = f) /\
    forall d, d ∈ pre -> d_file d <> g.

Lemma fails_before_snoc ds d f g : fails_before ds f g -> fails_before (ds ++ [d]) f g.
Proof. intros (pre & suf & -> & H). exists pre, (suf ++ [d]). by rewrite app_assoc. Qed.

Lemma failures_of_snoc ds d f :
  failures_of (ds ++ [d]) f = failures_of ds f ++ if String.eqb (d_file d) f then [d] else [].
Proof. unfold failures_of. by rewrite List.filter_app. Qed.

Lemma failures_of_none ds f : (forall d, d ∈ ds -> d_file d <> f) -> failures_of ds f = [].
Proof.
  intros H. unfold failures_of. destruct (List.filter _ ds) as [|d l] eqn:E; [done|]. exfalso.
  assert (Hd : In d (List.filter (fun x => String.eqb (d_file x) f) ds)) by (rewrite E; by left).
  apply filter_In in Hd as [H1 H2]. bools. apply (H d); [by apply list_elem_of_In|done].
Qed.

(** The files of the failures, each once, in the order of their first failures. *)
Record file_order (ds : list diag) (order : list string) : Prop := {
  order_nodup : NoDup order;
  order_files : forall f, f ∈ order <-> exists d, d ∈ ds /\ d_file d = f;
  order_first : forall a f b g c, order = a ++ f :: b ++ g :: c -> fails_before ds f g
}.

Lemma file_order_snoc ds order d :
  file_order ds order ->
  file_order (ds ++ [d]) (if str_mem (d_file d) order then order else order ++ [d_file d]).
Proof.
  intros [Hnd Hin Hfst].
  assert (Hfiles : forall f, (exists d', d' ∈ ds ++ [d] /\ d_file d' = f) <-> f ∈ order \/ f = d_file d).
  { intros f. rewrite Hin. split.
    - intros (d' & [H|H%list_elem_of_singleton]%elem_of_app & <-); [left; eauto|right; by subst].
    - intros [(d' & H & <-)| ->]; eexists; rewrite elem_of_app, list_elem_of_singleton; eauto. }
  destruct (str_mem (d_file d) order) eqn:E.
  - apply str_mem_In, list_elem_of_In in E. split; [done| |].
    + intros f. rewrite Hfiles. split; [auto|]. by intros [?| ->].
    + intros a f b g c Ho. by eapply fails_before_snoc, Hfst.
  - assert (Hn : d_file d ∉ order).
    { intros H%list_elem_of_In%str_mem_In. congruence. }
    split.
    + apply NoDup_app. split; [done|]. split; [|apply NoDup_singleton].
      intros x Hx Hy%list_elem_of_singleton. by subst.
    + intros f. by rewrite Hfiles, elem_of_app, list_elem_of_singleton.
    + intros a f b g c Ho. destruct c as [|x c] using rev_ind.
      * replace (a ++ f :: b ++ [g]) with ((a ++ f :: b) ++ [g]) in Ho by (by rewrite <- app_assoc).
        apply app_inj_tail in Ho as [-> <-]. exists ds, [d]. split; [done|]. split.
        -- apply Hin, elem_of_app. right. by left.
        -- intros d' Hd' Heq. apply Hn, Hin. eauto.
      * replace (a ++ f :: b ++ g :: c ++ [x]) with ((a ++ f :: b ++ g :: c) ++ [x]) in Ho
          by (by rewrite <- app_assoc; simpl; rewrite <- app_assoc).
        apply app_inj_tail in Ho as [-> <-]. eapply fails_before_snoc, Hfst. reflexivity.
Qed.

Lemma group_failures_spec ds :
  let '(order, by_file) := group_failures ds in
  file_order ds order /\ forall f, default [] (dict_get f by_file) = failures_of ds f.
Proof.
  unfold group_failures. induction ds as [|d ds IH] using rev_ind.
  { cbn. split; [|done]. split; [constructor| |by intros []].
    intros f. split; [intros H|intros (d & H & _)]; by apply not_elem_of_nil in H. }
  rewrite fold_left_app. cbn [fold_left]. destruct (fold_left group_step ds ([], [])) as [order by_file].
  destruct IH as [Ho Hget]. pose proof (file_order_snoc ds order d Ho) as Ho'. unfold group_step.
  destruct (str_mem (d_file d) order) eqn:E; (split; [exact Ho'|]); intros f;
    rewrite !dict_get_set, failures_of_snoc, ?String.eqb_refl;
    destruct (String.eqb_spec (d_file d) f) as [<-|]; cbn; rewrite ?Hget, ?app_nil_r; try done.
  rewrite failures_of_none; [done|]. intros d' Hd' Heq.
  assert (H : d_file d ∈ order) by (apply (order_files _ _ Ho); eauto).
  apply list_elem_of_In, str_mem_In in H. congruence.
Qed.

Lemma group_perm (ds : list diag) : forall order,
  NoDup order -> (forall d, d ∈ ds -> d_file d ∈ order) ->
  Permutation (concat (map (failures_of ds) order)) ds.
Proof.
  induction ds as [|d ds IH]; intros order Hnd Hin.
  { clear. induction order; [done|]. exact IHorder. }
  assert (Hd : d_file d ∈ order) by (apply Hin; by left).
  apply list_elem_of_split in Hd as (a & b & ->).
  assert (Hskip : forall l, d_file d ∉ l -> map (failures_of (d :: ds)) l = map (failures_of ds) l).
  { intros l Hl. apply map_ext_in. intros f Hf. unfold failures_of. cbn [List.filter].
    destruct (String.eqb_spec (d_file d) f) as [<-|]; [|done]. by apply list_elem_of_In in Hf. }
  apply NoDup_app in Hnd as (Ha & Hab & [Hb Hnb]%NoDup_cons).
  rewrite map_app, concat_app. cbn [map concat].
  rewrite (Hskip a), (Hskip b) by (done || (intros H; apply (Hab _ H); by left)).
  assert (E : failures_of (d :: ds) (d_file d) = d :: failures_of ds (d_file d)).
  { unfold failures_of. cbn [List.filter]. by rewrite String.eqb_refl. }
  rewrite E. cbn [app]. rewrite <- Permutation_middle. apply perm_skip.
  specialize (IH (a ++ d_file d :: b)). rewrite map_app, concat_app in IH. apply IH.
  - apply NoDup_app. split; [done|]. split; [done|]. by apply NoDup_cons.
  - intros d' Hd'. apply Hin. by right.
Qed.

(** The test cases of the report: one for the errors of the run, if any, and one
    for a file with failures. *)
Definition error_cases (errors : list string) : list xml :=
  match errors with
  | [] => []
  | _ => [Element "testcase" [("name", "errors")] EmptyString
            [Element "error" [] (join newline errors) []]]
  end.
Definition case_of (failures : list diag) (f : string) : xml :=
  Element "testcase" [("name", f)] EmptyString
    [Element "failure" [] (join newline (map failure_text (failures_of failures f))) []].

(** C18. The JUnit report of a run with errors or failures: it counts them, and its
    test cases are one for the errors, if any, and one per file with a failure,
    without repetition, in the order of the files' first failures, each with exactly
    that file's failures in the order in which they were reported.  Together the
    cases hold every failure exactly once. *)
Theorem junit_groups_failures (st : lint_state)
    (Hne : junit_errors st <> [] \/ junit_failures st <> []) :
  let errors := junit_errors st in
  let failures := junit_failures st in
  exists order, file_order failures order /\
    FormatJUnitXML st =
      "<?xml version=" +:+ dquote +:+ "1.0" +:+ dquote +:+ " encoding=" +:+ dquote +:+ "UTF-8" +:+ dquote
      +:+ " ?>" +:+ newline
      +:+ tostring (Element "testsuite"
            [("name", "cpplint"); ("errors", str_of_Z (Z.of_nat (length errors)));
             ("failures", str_of_Z (Z.of_nat (length failures)));
             ("tests", str_of_Z (Z.of_nat (length errors + length failures)))] EmptyString
            (error_cases errors ++ map (case_of failures) order)) /\
    Permutation (concat (map (failures_of failures) order)) failures.
Proof.
  cbv zeta. pose proof (group_failures_spec (junit_failures st)) as H.
  destruct (group_failures (junit_failures st)) as [order by_file] eqn:Eg. destruct H as [Ho Hget].
  exists order. split; [done|]. split.
  - unfold FormatJUnitXML, testsuite. do 12 f_equal.
    rewrite Eg. assert (Hcase : map (failure_case by_file) order = map (case_of (junit_failures st)) order).
    { apply map_ext. intros f. unfold failure_case, case_of. by rewrite Hget. }
    assert (Hnil : junit_failures st = [] -> order = []).
    { intros E. rewrite E in Eg. by injection Eg. }
    rewrite Hcase, Nat2Z.inj_add.
    destruct (junit_errors st) as [|e es], (junit_failures st) as [|d ds]; try (by destruct Hne);
      cbn [length error_cases app]; repeat (rewrite (proj2 (Z.eqb_neq _ _)) by lia);
      repeat (rewrite (proj2 (Z.ltb_lt _ _)) by lia); rewrite ?andb_false_r; try done.
    by rewrite (Hnil eq_refl).
  - apply group_perm; [apply Ho|]. intros d Hd. apply (order_files _ _ Ho). eauto.
Qed.

Definition junit_demo : lint_state :=
  set_output [] [Diag "b.cc" 3 "whitespace/tab" 1 "Tab"; Diag "a.cc" 1 "legal/copyright" 5 "No copyright";
                 Diag "b.cc" 9 "whitespace/tab" 1 "Tab"] [] [] initial_lint_state.

Lemma junit_groups_failures_witness : exists order, file_order (junit_failures junit_demo) order.
Proof.
  destruct (junit_groups_failures junit_demo) as (order & Ho & _); [right; discriminate|]. by exists order.
Defined.
