(* ===== verification/Driver.v ===== *)
(** * Configuration files, files and the command line of cpplint.py

    [ProcessConfigOverrides], [ProcessFile], [ParseArguments], [_ExpandDirectories],
    [_FilterExcludedFiles] and [main], over the global state of the program: the
    settings, the suppressions and [_cpplint_state].  The operating system is a
    parameter: which paths are files or directories, what a file holds, what
    [os.walk] and [glob.glob] list. *)

From stdpp Require Import base list strings gmap.
From Stdlib Require Import ZArith Lia Ascii.
From S2P Require Import Prelude PyString Regex RegexParse PyRe RegexFacts Config Nolint LintState Cleanse Paths Process JUnit.
Local Open Scope Z_scope.
Local Open Scope py_scope.

(** ** The program's state and its computations *)

Record program := Program { settings : config; state : linter }.

(** A computation changes the program and returns, or raises; what it changed
    before stays changed. *)
Definition P (A : Type) : Type := program -> program * (exn + A).

Definition retP {A} (a : A) : P A := fun p => (p, inr a).
Definition raiseP {A} (e : exn) : P A := fun p => (p, inl e).
Definition bindP {A B} (m : P A) (f : A -> P B) : P B :=
  fun p => match m p with (p', inr a) => f a p' | (p', inl e) => (p', inl e) end.
Definition getP {A} (f : program -> A) : P A := fun p => (p, inr (f p)).
Definition modify_settings (f : config -> config) : P unit :=
  fun p => (Program (f (settings p)) (state p), inr ()).
Definition modify_lint (f : lint_state -> lint_state) : P unit :=
  fun p => (Program (settings p) (Linter (suppressed (state p)) (f (lint (state p)))), inr ()).
(** A method of [_cpplint_state] that can raise. *)
Definition lint_method (f : lint_state -> (exn + unit) * lint_state) : P unit :=
  fun p => let '(r, st) := f (lint (state p)) in
           (Program (settings p) (Linter (suppressed (state p)) st), r).
(** The checks of a file. *)
Definition run_checks {A} (m : M A) : P A :=
  fun p => let '(l, r) := run_check m (state p) in (Program (settings p) l, r).

Notation "'let!' x := c 'in' k" := (bindP c (fun x => k))
  (at level 10, x name, c at level 200, k at level 200,
   format "'let!'  x  :=  c  'in' '//' k") : py_scope.
Notation "c >>> k" := (bindP c (fun _ => k)) (at level 60, right associativity) : py_scope.

Fixpoint forP {A} (l : list A) (body : A -> P unit) : P unit :=
  match l with
  | [] => retP ()
  | x :: l' => body x >>> forP l' body
  end.
Definition whenP (c : bool) (body : P unit) : P unit := if c then body else retP ().

Definition lint_of {A} (f : lint_state -> A) : P A := getP (fun p => f (lint (state p))).

(** Assignments to the module-level variables. *)
Definition set_line_length (n : Z) (c : config) : config :=
  Config (valid_extensions c) (hpp_headers c) (root c) (repository c) (excludes c) n.
Definition set_root (r : string) (c : config) : config :=
  Config (valid_extensions c) (hpp_headers c) (Some r) (repository c) (excludes c) (line_length c).
Definition set_repository (r : string) (c : config) : config :=
  Config (valid_extensions c) (hpp_headers c) (root c) (Some r) (excludes c) (line_length c).
Definition add_excludes (l : list string) (c : config) : config :=
  Config (valid_extensions c) (hpp_headers c) (root c) (repository c)
    (Some (default ∅ (excludes c) ∪ list_to_set l)) (line_length c).

(** ** Strings *)

(** [s.partition(sep)] for one character: the text before and after it. *)
Fixpoint partition (sep : ascii) (s : string) : string * string :=
  match s with
  | EmptyString => (EmptyString, EmptyString)
  | String c s' =>
      if Ascii.eqb c sep then (EmptyString, s')
      else let '(a, b) := partition sep s' in (String c a, b)
  end.

(** [int(s)]: an optional sign and digits, with single underscores between them;
    [None] is [ValueError]. *)
Fixpoint digits_value (s : string) (acc : Z) (after_digit : bool) : option Z :=
  match s with
  | EmptyString => if after_digit then Some acc else None
  | String c s' =>
      if is_digit c then digits_value s' (10 * acc + Z.of_N (code c - 48)) true
      else if Ascii.eqb c "_" && after_digit then digits_value s' acc false
      else None
  end.
Definition py_int (s : string) : option Z :=
  match strip s with
  | String "-" s' => option_map Z.opp (digits_value s' 0 false)
  | String "+" s' => digits_value s' 0 false
  | s' => digits_value s' 0 false
  end.

(** ** [getopt.getopt] with long options only *)

Definition LONG_OPTIONS : list string :=
  ["help"; "output="; "verbose="; "v="; "version"; "counting="; "filter="; "root="; "repository=";
   "linelength="; "extensions="; "exclude="; "recursive"; "headers="; "quiet"].

(** [long_has_args]: whether the option takes an argument, and its full name;
    [None] is [GetoptError]. *)
Definition long_has_args (opt : string) : option (bool * string) :=
  let possibilities := List.filter (fun o => startswith o opt) LONG_OPTIONS in
  if str_mem opt possibilities then Some (false, opt)
  else if str_mem (opt +:+ "=") possibilities then Some (true, opt)
  else
    match possibilities with
    | [o] => Some (if endswith o "=" then (true, slice_to o (-1)) else (false, o))
    | _ => None
    end.

(** The option [opt] (without its dashes), with the arguments after it. *)
Definition do_longs (opt : string) (args : list string) : option (string * string * list string) :=
  let '(name, optarg) :=
    if contains opt "=" then let '(a, b) := partition "=" opt in (a, Some b) else (opt, None) in
  match long_has_args name with
  | None => None
  | Some (true, full) =>
      match optarg, args with
      | Some v, _ => Some ("--" +:+ full, v, args)
      | None, v :: args' => Some ("--" +:+ full, v, args')
      | None, [] => None
      end
  | Some (false, full) =>
      match optarg with Some _ => None | None => Some ("--" +:+ full, EmptyString, args) end
  end.

(** The options with their values, and the arguments that are left; a short option
    is an error. *)
Fixpoint getopt (fuel : nat) (args : list string) (opts : list (string * string))
    : option (list (string * string) * list string) :=
  match fuel with
  | O => None
  | S fuel' =>
      match args with
      | [] => Some (opts, [])
      | a :: args' =>
          if negb (startswith a "-") || String.eqb a "-" then Some (opts, args)
          else if String.eqb a "--" then Some (opts, args')
          else if startswith a "--" then
            match do_longs (slice_from a 2) args' with
            | None => None
            | Some (o, v, rest) => getopt fuel' rest (opts ++ [(o, v)])
            end
          else None
      end
  end.

(** ** Configuration files *)

Section Driver.
(** The operating system. *)
Context (exists_ isfile isdir : string -> bool) (cwd : string)
  (read_cfg read_header : string -> option (list string)) (read_text : string -> option string)
  (walk : string -> list (string * list string)) (glob : string -> list string).
(** [re.compile(p).match(s)] for a pattern that the user wrote. *)
Context (user_match : string -> string -> exn + bool).
(** [_USAGE] with its arguments, and [sys.version]. *)
Context (usage : config -> string) (python_version : string).

(** One line of a configuration file; the result is whether to keep looking, and
    the filters; or nothing, when the function returns [False]. *)
Definition config_line (filename cfg_file base_name line : string) (keep_looking : bool)
    (cfg_filters : list string) : P (option (bool * list string)) :=
  let line := fst (partition "#" line) in
  let continue_ := retP (Some (keep_looking, cfg_filters)) in
  if String.eqb (strip line) EmptyString then continue_
  else
    let '(name, val) := partition "=" line in
    let name := strip name in
    let val := strip val in
    if String.eqb name "set noparent" then retP (Some (false, cfg_filters))
    else if String.eqb name "filter" then retP (Some (keep_looking, cfg_filters ++ [val]))
    else if String.eqb name "exclude_files" then
      if String.eqb base_name EmptyString then continue_
      else
        let! hit := (fun p => (p, user_match val base_name)) in
        if hit then
          let! q := lint_of quiet in
          whenP (negb q)
            (modify_lint (PrintInfo
               ("Ignoring " +:+ dquote +:+ filename +:+ dquote +:+ ": file excluded by " +:+ dquote
                +:+ cfg_file +:+ dquote +:+ ". " +:+ "File path component " +:+ dquote +:+ base_name
                +:+ dquote +:+ " matches " +:+ "pattern " +:+ dquote +:+ val +:+ dquote
                +:+ newline))) >>>
          retP None
        else continue_
    else if String.eqb name "linelength" then
      match py_int val with
      | Some n => modify_settings (set_line_length n)
      | None => modify_lint (PrintError "Line length must be numeric.")
      end >>> continue_
    else if String.eqb name "extensions" then
      modify_settings (ProcessExtensionsOption val) >>> continue_
    else if String.eqb name "root" then
      modify_settings (set_root (path_join (dirname cfg_file) val)) >>> continue_
    else if String.eqb name "headers" then
      modify_settings (ProcessHppHeadersOption val) >>> continue_
    else
      modify_lint (PrintError ("Invalid configuration option (" +:+ name +:+ ") in file " +:+ cfg_file
                               +:+ newline)) >>>
      continue_.

Fixpoint config_lines (lines : list string) (filename cfg_file base_name : string)
    (keep_looking : bool) (cfg_filters : list string) : P (option (bool * list string)) :=
  match lines with
  | [] => retP (Some (keep_looking, cfg_filters))
  | line :: lines' =>
      let! r := config_line filename cfg_file base_name line keep_looking cfg_filters in
      match r with
      | None => retP None
      | Some (keep_looking, cfg_filters) =>
          config_lines lines' filename cfg_file base_name keep_looking cfg_filters
      end
  end.

(** [while keep_looking]: the filters of the files, nearest first. *)
Fixpoint config_loop (fuel : nat) (filename abs_filename : string) (keep_looking : bool)
    (cfg_filters : list string) : P (option (list string)) :=
  match fuel with
  | O => raiseP FuelExhausted
  | S fuel' =>
      if negb keep_looking then retP (Some cfg_filters)
      else
        let '(abs_path, base_name) := path_split abs_filename in
        if String.eqb base_name EmptyString then retP (Some cfg_filters)
        else
          let cfg_file := path_join abs_path "CPPLINT.cfg" in
          if negb (isfile cfg_file) then config_loop fuel' filename abs_path true cfg_filters
          else
            match read_cfg cfg_file with
            | None =>
                modify_lint (PrintError ("Skipping config file '" +:+ cfg_file
                                         +:+ "': Can't open for reading" +:+ newline)) >>>
                retP (Some cfg_filters)
            | Some lines =>
                let! r := config_lines lines filename cfg_file base_name true cfg_filters in
                match r with
                | None => retP None
                | Some (keep_looking, cfg_filters) =>
                    config_loop fuel' filename abs_path keep_looking cfg_filters
                end
            end
  end.

Definition ProcessConfigOverrides (filename : string) : P bool :=
  let abs_filename := abspath cwd filename in
  let! r := config_loop (S (S (String.length abs_filename))) filename abs_filename true [] in
  match r with
  | None => retP false
  | Some cfg_filters =>
      forP (rev cfg_filters) (fun f => lint_method (AddFilters f)) >>> retP true
  end.

(** ** Files *)

(** The lines without their carriage returns, and the numbers of the lines that
    end with LF and with CRLF; the last piece is left alone. *)
Fixpoint strip_cr (n : Z) (lines : list string) : list string * list Z * list Z :=
  match lines with
  | [] => ([], [], [])
  | [l] => ([l], [], [])
  | l :: lines' =>
      let '(ls, lf, crlf) := strip_cr (n + 1) lines' in
      if endswith l cr then (rstrip_by (Ascii.eqb (ascii_of_N 13)) l :: ls, lf, n :: crlf)
      else (l :: ls, n :: lf, crlf)
  end.

Definition process_text (filename : string) (vlevel : Z)
    (extra_check_functions : list (string -> CleansedLines -> Z -> M unit)) (text : string) : P unit :=
  let '(lines, lf_lines, crlf_lines) := strip_cr 1 (split_char (ascii_of_N 10) text) in
  let file_extension := slice_from filename (str_rfind filename "." + 1) in
  let! cfg := getP settings in
  if negb (String.eqb filename "-") && negb (bool_decide (file_extension ∈ GetAllExtensions cfg)) then
    modify_lint (PrintError ("Ignoring " +:+ filename +:+ "; not a valid file name " +:+ "("
                             +:+ join ", " (elements (GetAllExtensions cfg)) +:+ ")" +:+ newline))
  else
    run_checks (ProcessFileData exists_ cwd cfg vlevel read_header extra_check_functions filename
                  file_extension lines) >>>
    whenP (negb (bool_decide (lf_lines = [])) && negb (bool_decide (crlf_lines = [])))
      (forP crlf_lines (fun linenum =>
         run_checks (error filename linenum "whitespace/newline" 1
                       "Unexpected \r (^M) found; better to use only \n"))).

Definition ProcessFile (filename : string) (vlevel : Z)
    (extra_check_functions : list (string -> CleansedLines -> Z -> M unit)) : P unit :=
  modify_lint (fun st => snd (SetVerboseLevel vlevel st)) >>>
  modify_lint BackupFilters >>>
  let! old_errors := lint_of error_count in
  let! go_on := ProcessConfigOverrides filename in
  if negb go_on then modify_lint RestoreFilters
  else
    match read_text filename with
    | None =>
        modify_lint (PrintError ("Skipping input '" +:+ filename +:+ "': Can't open for reading"
                                 +:+ newline)) >>>
        modify_lint RestoreFilters
    | Some text =>
        process_text filename vlevel extra_check_functions text >>>
        let! q := lint_of quiet in
        let! errors := lint_of error_count in
        whenP (negb q || negb (old_errors =? errors))
          (modify_lint (PrintInfo ("Done processing " +:+ filename +:+ newline))) >>>
        modify_lint RestoreFilters
    end.

(** ** The command line *)

Definition PrintUsage {A} (message : option string) : P A :=
  let! text := getP (fun p => usage (settings p)) in
  modify_lint (write_stderr text) >>>
  match message with
  | Some m => raiseP (SystemExitMessage (newline +:+ "FATAL ERROR: " +:+ m))
  | None => raiseP (SystemExit 0)
  end.

Definition PrintVersion {A} : P A :=
  modify_lint (write_stdout ("Cpplint fork (https://github.com/cpplint/cpplint)" +:+ newline)) >>>
  modify_lint (write_stdout ("cpplint " +:+ "1.4.4" +:+ newline)) >>>
  modify_lint (write_stdout ("Python " +:+ python_version +:+ newline)) >>>
  raiseP (SystemExit 0).

Definition PrintCategories {A} : P A :=
  modify_lint (write_stderr (join EmptyString
                               (map (fun cat => "  " +:+ cat +:+ newline) ERROR_CATEGORIES))) >>>
  raiseP (SystemExit 0).

(** The local variables of [ParseArguments]. *)
Record options := Options {
  o_verbosity : Z;
  o_output_format : string;
  o_filters : string;
  o_quiet : bool;
  o_counting : string;
  o_recursive : bool
}.

(** One round of [for (opt, val) in opts]. *)
Definition parse_option (opt val : string) (o : options) : P options :=
  let '(Options v f fl q c r) := o in
  if String.eqb opt "--help" then PrintUsage None
  else if String.eqb opt "--version" then PrintVersion
  else if String.eqb opt "--output" then
    if str_mem val ["emacs"; "vs7"; "eclipse"; "junit"] then retP (Options v val fl q c r)
    else PrintUsage (Some ("The only allowed output formats are emacs, vs7, eclipse " +:+ "and junit."))
  else if String.eqb opt "--quiet" then retP (Options v f fl true c r)
  else if String.eqb opt "--verbose" || String.eqb opt "--v" then
    match py_int val with
    | Some n => retP (Options n f fl q c r)
    | None => raiseP (ValueError "invalid literal for int()")
    end
  else if String.eqb opt "--filter" then
    if String.eqb val EmptyString then PrintCategories else retP (Options v f val q c r)
  else if String.eqb opt "--counting" then
    if str_mem val ["total"; "toplevel"; "detailed"] then retP (Options v f fl q val r)
    else PrintUsage (Some "Valid counting options are total, toplevel, and detailed")
  else if String.eqb opt "--root" then modify_settings (set_root val) >>> retP o
  else if String.eqb opt "--repository" then modify_settings (set_repository val) >>> retP o
  else if String.eqb opt "--linelength" then
    match py_int val with
    | Some n => modify_settings (set_line_length n) >>> retP o
    | None => PrintUsage (Some "Line length must be digits.")
    end
  else if String.eqb opt "--exclude" then modify_settings (add_excludes (glob val)) >>> retP o
  else if String.eqb opt "--extensions" then modify_settings (ProcessExtensionsOption val) >>> retP o
  else if String.eqb opt "--headers" then modify_settings (ProcessHppHeadersOption val) >>> retP o
  else if String.eqb opt "--recursive" then retP (Options v f fl q c true)
  else retP o.

Fixpoint parse_options (opts : list (string * string)) (o : options) : P options :=
  match opts with
  | [] => retP o
  | (opt, val) :: opts' => let! o := parse_option opt val o in parse_options opts' o
  end.

(** [_ExpandDirectories]: the files below the directories; the result is a set
    that is filtered by extension. *)
Definition expand_one (filename : string) : gset string :=
  if negb (isdir filename) then {[filename]}
  else
    list_to_set (flat_map (fun '(root, files) =>
      map (fun loopfile =>
             let fullname := path_join root loopfile in
             if startswith fullname "./" then slice_from fullname 2 else fullname) files)
      (walk filename)).
Definition ExpandDirectories (cfg : config) (filenames : list string) : list string :=
  List.filter (fun f => bool_decide (slice_from (snd (splitext f)) 1 ∈ GetAllExtensions cfg))
    (elements (union_list (map expand_one filenames))).

(** [_FilterExcludedFiles]. *)
Definition FilterExcludedFiles (excluded : gset string) (filenames : list string) : list string :=
  let exclude_paths := map (abspath cwd) (elements excluded) in
  List.filter (fun f => negb (str_mem (abspath cwd f) exclude_paths)) filenames.

Definition ParseArguments (args : list string) : P (list string) :=
  match getopt (S (length args)) args [] with
  | None => PrintUsage (Some "Invalid arguments.")
  | Some (opts, filenames) =>
      let! v := lint_of verbose_level in
      let! f := lint_of output_format in
      let! q := lint_of quiet in
      let! o := parse_options opts (Options v f EmptyString q EmptyString false) in
      if bool_decide (filenames = []) then PrintUsage (Some "No files were specified.")
      else
        let! cfg := getP settings in
        let filenames := if o_recursive o then ExpandDirectories cfg filenames else filenames in
        let filenames :=
          match excludes cfg with
          | Some ex => if bool_decide (ex = ∅) then filenames else FilterExcludedFiles ex filenames
          | None => filenames
          end in
        modify_lint (SetOutputFormat (o_output_format o)) >>>
        modify_lint (fun st => snd (SetQuiet (o_quiet o) st)) >>>
        modify_lint (fun st => snd (SetVerboseLevel (o_verbosity o) st)) >>>
        lint_method (SetFilters (o_filters o)) >>>
        modify_lint (SetCountingStyle (o_counting o)) >>>
        retP filenames
  end.

(** ** The program *)

Definition main (args : list string) : P unit :=
  let! filenames := ParseArguments args in
  modify_lint ResetErrorCounts >>>
  forP filenames (fun filename =>
    let! v := lint_of verbose_level in ProcessFile filename v []) >>>
  let! q := lint_of quiet in
  let! errors := lint_of error_count in
  whenP (negb q || (0 <? errors)) (modify_lint PrintErrorCounts) >>>
  let! fmt := lint_of output_format in
  whenP (String.eqb fmt "junit") (modify_lint (fun st => write_stderr (FormatJUnitXML st) st)) >>>
  let! errors := lint_of error_count in
  raiseP (SystemExit (if 0 <? errors then 1 else 0)).
End Driver.
