(* ===== verification/DriverFacts.v ===== *)
(** * The program as a whole: it ends, restores its filters and exits as it reports

    Facts about [ProcessConfigOverrides], [ProcessFile] and [main] of cpplint.py.  Two
    predicates follow the statements of a computation of the program: [endsP], its
    loops end from every state, and [keeps I], it preserves the invariant [I] of the
    program's state, also when it raises. *)

From stdpp Require Import base list strings gmap.
From Stdlib Require Import ZArith Lia Ascii.
From S2P Require Import Prelude PyString Regex RegexParse PyRe RegexFacts Config Nolint LintState Cleanse Paths Process JUnit Termination Driver.
Local Open Scope Z_scope.
Local Open Scope py_scope.

(** ** Following the statements *)

Definition endsP {A} (m : P A) : Prop := forall p, ends (snd (m p)).
Definition keeps {A} (I : program -> Prop) (m : P A) : Prop := forall p, I p -> I (fst (m p)).

Create HintDb driver.

Section Ends.
Context {A B : Type}.

Lemma endsP_bindP (m : P A) (f : A -> P B) : endsP m -> (forall a, endsP (f a)) -> endsP (bindP m f).
Proof.
  intros Hm Hf p. unfold bindP. specialize (Hm p). destruct (m p) as [p' [e|a]]; [|apply Hf].
  exact (ends_same e Hm).
Qed.
Lemma endsP_retP (a : A) : endsP (retP a).
Proof. intros p. apply ends_inr. Qed.
Lemma endsP_raiseP e : e <> FuelExhausted -> endsP (A := A) (raiseP e).
Proof. intros H p. by apply ends_inl. Qed.
Lemma endsP_getP (f : program -> A) : endsP (getP f).
Proof. intros p. apply ends_inr. Qed.
Lemma endsP_forP (l : list A) body : (forall a, endsP (body a)) -> endsP (forP l body).
Proof.
  intros H. induction l as [|a l IH]; intros p; [apply ends_inr|]. cbn [forP]. unfold bindP.
  specialize (H a p). destruct (body a p) as [p' [e|u]]; [|apply IH]. exact (ends_same e H).
Qed.
End Ends.

Lemma endsP_modify_settings f : endsP (modify_settings f).
Proof. intros p. apply ends_inr. Qed.
Lemma endsP_modify_lint f : endsP (modify_lint f).
Proof. intros p. apply ends_inr. Qed.
Lemma endsP_whenP c body : endsP body -> endsP (whenP c body).
Proof. destruct c; [done|]. intros _. apply endsP_retP. Qed.
Lemma endsP_AddFilters fs : endsP (lint_method (AddFilters fs)).
Proof. intros p. unfold lint_method, AddFilters. destruct (List.find _ _); [by apply ends_inl|apply ends_inr]. Qed.
Lemma endsP_SetFilters fs : endsP (lint_method (SetFilters fs)).
Proof. intros p. unfold lint_method, SetFilters, AddFilters. destruct (List.find _ _); [by apply ends_inl|apply ends_inr]. Qed.

Section Keeps.
Context {A B : Type} (I : program -> Prop).

Lemma keeps_bindP (m : P A) (f : A -> P B) :
  keeps I m -> (forall a, keeps I (f a)) -> keeps I (bindP m f).
Proof.
  intros Hm Hf p Hp. unfold bindP. specialize (Hm p Hp). destruct (m p) as [p' [e|a]]; [done|].
  by apply Hf.
Qed.
Lemma keeps_retP (a : A) : keeps I (retP a).
Proof. by intros p. Qed.
Lemma keeps_raiseP e : keeps (A := A) I (raiseP e).
Proof. by intros p. Qed.
Lemma keeps_getP (f : program -> A) : keeps I (getP f).
Proof. by intros p. Qed.
Lemma keeps_forP (l : list A) body : (forall a, keeps I (body a)) -> keeps I (forP l body).
Proof.
  intros H. induction l as [|a l IH]; intros p Hp; [done|]. cbn [forP]. unfold bindP.
  specialize (H a p Hp). destruct (body a p) as [p' [e|u]]; [done|]. by apply IH.
Qed.
Lemma keeps_whenP c body : keeps I body -> keeps I (whenP c body).
Proof. destruct c; [done|]. by intros _ p. Qed.
End Keeps.

#[export] Hint Resolve endsP_retP endsP_getP endsP_modify_settings endsP_modify_lint
  endsP_AddFilters endsP_SetFilters keeps_retP keeps_raiseP keeps_getP : driver.
#[export] Hint Extern 1 (endsP (raiseP _)) => apply endsP_raiseP; discriminate : driver.

Ltac driver_step :=
  lazymatch goal with
  | |- endsP (bindP _ _) => apply endsP_bindP
  | |- endsP (whenP _ _) => apply endsP_whenP
  | |- endsP (forP _ _) => apply endsP_forP
  | |- endsP (match ?e with _ => _ end) => destruct e
  | |- endsP (let _ := _ in _) => cbv zeta
  | |- endsP ?m => first [solve [eauto 3 with driver nocore] | let f := head m in unfold f]
  | |- keeps _ (bindP _ _) => apply keeps_bindP
  | |- keeps _ (whenP _ _) => apply keeps_whenP
  | |- keeps _ (forP _ _) => apply keeps_forP
  | |- keeps _ (match ?e with _ => _ end) => destruct e
  | |- keeps _ (let _ := _ in _) => cbv zeta
  | |- keeps _ ?m => first [solve [eauto 3 with driver nocore] | let f := head m in unfold f]
  | |- forall _, _ => intros ?
  end.
Ltac driver := repeat driver_step.

(** ** The error handler ends *)

Lemma filter_loop_ends fs : forall cat b, ends (filter_loop cat fs b).
Proof. induction fs as [|f fs IH]; intros; cbn [filter_loop]; ends. Qed.
#[export] Hint Resolve filter_loop_ends : ends.

Lemma report_ends sup ds : forall st, ends (report sup ds st).
Proof. induction ds as [|d ds IH]; intros; cbn [report]; ends. Qed.
#[export] Hint Resolve report_ends : ends.

Lemma handle_ends e l : snd (handle e l) <> Some FuelExhausted.
Proof.
  assert (H : forall l r, ends r -> snd (with_lint l r) <> Some FuelExhausted).
  { intros l' [x|st] Hr; [|done]. cbn. intros [= ->]. by apply Hr. }
  destruct e as [d|f raw n| |ls]; cbn [handle]; try done.
  - apply H. ends.
  - destruct (ParseNolintSuppressions f raw n (suppressed l)) as [sup ds]. apply H. ends.
Qed.

Lemma handle_all_ends es : forall l, snd (handle_all es l) <> Some FuelExhausted.
Proof.
  induction es as [|e es IH]; intros l; cbn [handle_all]; [done|].
  pose proof (handle_ends e l). destruct (handle e l) as [l' [x|]]; [done|apply IH].
Qed.

Lemma endsP_run_checks {A} (m : M A) : halts m -> endsP (run_checks m).
Proof.
  intros Hm p. unfold run_checks, run_check. pose proof (handle_all_ends (events m) (state p)) as H.
  destruct (handle_all _ _) as [l [x|]]; [|done]. intros [= ->]. by apply H.
Qed.

(** ** The program ends *)

(** [getopt] has fuel for all of its arguments: more does not change the result. *)
Lemma do_longs_length opt args o v rest :
  do_longs opt args = Some (o, v, rest) -> (length rest <= length args)%nat.
Proof. unfold do_longs. repeat case_match; intros; simplify_eq; simpl; lia. Qed.

Lemma getopt_fuel f1 : forall f2 args opts,
  (length args < f1)%nat -> (length args < f2)%nat -> getopt f1 args opts = getopt f2 args opts.
Proof.
  induction f1 as [|f1 IH]; intros [|f2] args opts H1 H2; try lia. cbn [getopt].
  destruct args as [|a args]; [done|]. cbn [length] in *. repeat (case_match; [done|]).
  case_match; [|done]. destruct (do_longs _ _) as [[[o v] rest]|] eqn:E; [|done].
  apply do_longs_length in E. apply IH; lia.
Qed.

Section Program.
Context (exists_ isfile isdir : string -> bool) (cwd : string)
  (read_cfg read_header : string -> option (list string)) (read_text : string -> option string)
  (walk : string -> list (string * list string)) (glob : string -> list string)
  (user_match : string -> string -> exn + bool) (usage : config -> string) (python_version : string).

Lemma path_split_shorter p h t :
  path_split p = (h, t) -> t <> EmptyString -> (String.length h < String.length p)%nat.
Proof.
  intros E Ht. destruct (path_split_cases p) as [[H _]|(a & u & -> & _ & H)]; rewrite H in E; simplify_eq.
  - destruct t; simpl; [done|lia].
  - rewrite slength_app. destruct t as [|c t]; [done|]. cbn [String.length].
    destruct (trim_head_cases a) as [[_ ->]|(v & Hv & _)]; [rewrite slength_app; simpl; lia|].
    rewrite Hv at 2. rewrite slength_app. lia.
Qed.

Section Terminates.
Context (Hcwd : absolute cwd)
  (Htop : forall s, absolute s -> sall is_slash s = true -> exists_ (s +:+ ".svn") = false)
  (Huser : forall pattern text, user_match pattern text <> inl FuelExhausted).

Lemma user_match_ends v b : endsP (fun p => (p, user_match v b)).
Proof. intros p. apply Huser. Qed.
Hint Resolve user_match_ends : driver.

Lemma config_lines_ends ls : forall f g b k fs, endsP (config_lines user_match ls f g b k fs).
Proof. induction ls as [|l ls IH]; intros; cbn [config_lines]; driver. Qed.
Hint Resolve config_lines_ends : driver.

Lemma config_loop_ends fuel : forall f path keep fs,
  (S (String.length path) < fuel)%nat -> endsP (config_loop isfile read_cfg user_match fuel f path keep fs).
Proof.
  induction fuel as [|fuel IH]; intros f path keep fs Hf; [lia|]. cbn [config_loop].
  destruct (negb keep); [driver|]. destruct (path_split path) as [h t] eqn:E.
  destruct (String.eqb t EmptyString) eqn:Et; bools; [driver|].
  pose proof (path_split_shorter _ _ _ E Et).
  assert (Hnext : forall k fs', endsP (config_loop isfile read_cfg user_match fuel f h k fs'))
    by (intros; apply IH; lia).
  driver.
Qed.
Lemma ProcessConfigOverrides_ends f : endsP (ProcessConfigOverrides isfile cwd read_cfg user_match f).
Proof.
  unfold ProcessConfigOverrides. apply endsP_bindP; [apply config_loop_ends; lia|]. intros r. driver.
Qed.
Hint Resolve ProcessConfigOverrides_ends : driver.

Lemma process_text_ends f v text : endsP (process_text exists_ cwd read_header f v [] text).
Proof.
  unfold process_text. destruct (strip_cr _ _) as [[ls lf] crlf].
  apply endsP_bindP; [driver|]. intros cfg. destruct (_ && _); [driver|].
  apply endsP_bindP; [|intros _; apply endsP_whenP, endsP_forP; intros; apply endsP_run_checks; ends].
  apply endsP_run_checks, ProcessFileData_ends; [done|done|]. intros ? ? ? ? [].
Qed.
Hint Resolve process_text_ends : driver.

Lemma parse_options_ends opts : forall o, endsP (parse_options glob usage python_version opts o).
Proof. induction opts as [|[opt val] opts IH]; intros; cbn [parse_options]; driver. Qed.
Hint Resolve parse_options_ends : driver.

Lemma main_ends args :
  endsP (main exists_ isfile isdir cwd read_cfg read_header read_text walk glob user_match usage
           python_version args).
Proof. driver. Qed.
End Terminates.

(** ** Invariants of the linter's state *)

Definition on_lint (J : lint_state -> Prop) (p : program) : Prop := J (lint (state p)).

Lemma keeps_modify_settings J f : keeps (on_lint J) (modify_settings f).
Proof. by intros p. Qed.
Lemma keeps_modify_lint (J : lint_state -> Prop) f :
  (forall st, J st -> J (f st)) -> keeps (on_lint J) (modify_lint f).
Proof. intros H p. apply H. Qed.
Lemma keeps_lint_method (J : lint_state -> Prop) f :
  (forall st, J st -> J (snd (f st))) -> keeps (on_lint J) (lint_method f).
Proof.
  intros H p Hp. specialize (H _ Hp). unfold lint_method. by destruct (f (lint (state p))).
Qed.
Lemma keeps_user_match J v b : keeps (on_lint J) (fun p => (p, user_match v b)).
Proof. by intros p. Qed.

(** The checks keep what the error handler keeps. *)
Definition error_keeps (J : lint_state -> Prop) : Prop :=
  forall sup d st st', Error sup d st = inr st' -> J st -> J st'.

Lemma report_keeps J : error_keeps J -> forall sup ds st st', report sup ds st = inr st' -> J st -> J st'.
Proof.
  intros HJ sup ds. induction ds as [|d ds IH]; intros st st'; cbn [report]; [by intros [= <-]|].
  destruct (Error sup d st) eqn:E; [done|]. intros H Hst. eapply IH; [exact H|]. by eapply HJ.
Qed.

Lemma handle_keeps J e l : error_keeps J -> J (lint l) -> J (lint (fst (handle e l))).
Proof.
  intros HJ Hl. destruct e as [d|f raw n| |ls]; cbn [handle]; try done.
  - destruct (Error _ d (lint l)) eqn:E; [done|]. by eapply HJ.
  - destruct (ParseNolintSuppressions f raw n (suppressed l)) as [sup ds].
    destruct (report sup ds (lint l)) eqn:E; [done|]. by eapply report_keeps.
Qed.

Lemma handle_all_keeps J es : error_keeps J -> forall l, J (lint l) -> J (lint (fst (handle_all es l))).
Proof.
  intros HJ. induction es as [|e es IH]; intros l Hl; cbn [handle_all]; [done|].
  pose proof (handle_keeps J e l HJ Hl). destruct (handle e l) as [l' [x|]]; [done|by apply IH].
Qed.

Lemma keeps_run_checks {A} J (m : M A) : error_keeps J -> keeps (on_lint J) (run_checks m).
Proof.
  intros HJ p Hp. unfold run_checks, run_check.
  pose proof (handle_all_keeps J (events m) HJ (state p) Hp).
  by destruct (handle_all _ _) as [l [x|]].
Qed.
Hint Resolve keeps_modify_settings keeps_user_match : driver.

(** What linting a file asks of an invariant of the linter's state: the error
    handler, the messages and the filters of configuration files keep it. *)
Class linting_keeps (J : lint_state -> Prop) : Prop := {
  lk_error : error_keeps J;
  lk_info : forall msg st, J st -> J (PrintInfo msg st);
  lk_print : forall msg st, J st -> J (PrintError msg st);
  lk_add : forall fs st, J st -> J (snd (AddFilters fs st))
}.

Section Linting.
Context (J : lint_state -> Prop) `{!linting_keeps J}.

Lemma keeps_info msg : keeps (on_lint J) (modify_lint (PrintInfo msg)).
Proof. apply keeps_modify_lint, lk_info. Qed.
Lemma keeps_print msg : keeps (on_lint J) (modify_lint (PrintError msg)).
Proof. apply keeps_modify_lint, lk_print. Qed.
Lemma keeps_add fs : keeps (on_lint J) (lint_method (AddFilters fs)).
Proof. apply keeps_lint_method, lk_add. Qed.
Lemma keeps_checks {A} (m : M A) : keeps (on_lint J) (run_checks m).
Proof. apply keeps_run_checks, lk_error. Qed.
Hint Resolve keeps_info keeps_print keeps_add keeps_checks : driver.

Lemma config_lines_keeps ls : forall f g b k fs,
  keeps (on_lint J) (config_lines user_match ls f g b k fs).
Proof. induction ls as [|l ls IH]; intros; cbn [config_lines]; driver. Qed.
Hint Resolve config_lines_keeps : driver.

Lemma config_loop_keeps fuel : forall f path keep fs,
  keeps (on_lint J) (config_loop isfile read_cfg user_match fuel f path keep fs).
Proof. induction fuel as [|fuel IH]; intros; cbn [config_loop]; driver. Qed.
Hint Resolve config_loop_keeps : driver.

Lemma ProcessConfigOverrides_keeps f :
  keeps (on_lint J) (ProcessConfigOverrides isfile cwd read_cfg user_match f).
Proof. driver. Qed.

Lemma process_text_keeps f v extra text :
  keeps (on_lint J) (process_text exists_ cwd read_header f v extra text).
Proof. driver. Qed.
End Linting.

(** The saved filters: only [BackupFilters] and [RestoreFilters] set them. *)
Definition backup_is (fs : list string) (st : lint_state) : Prop := filters_backup st = fs.
(** In JUnit mode every error that was counted is a recorded failure. *)
Definition junit_counts (st : lint_state) : Prop :=
  output_format st = "junit"%string /\ error_count st = Z.of_nat (length (junit_failures st)).
(** Nothing was reported in JUnit mode. *)
Definition no_failures (st : lint_state) : Prop := junit_failures st = [].

Lemma backup_error fs : error_keeps (backup_is fs).
Proof.
  intros sup d st st'. unfold Error. repeat case_match; intros; simplify_eq; try done.
  all: unfold PrintError; repeat case_match; done.
Qed.

Lemma junit_error : error_keeps junit_counts.
Proof.
  intros sup d st st' E [Hf Hn]. revert E. unfold Error.
  destruct (ShouldPrintError _ _ _ _ _) as [|[]]; [done| |by intros [= <-]].
  cbn [output_format IncrementErrorCount set_counts]. rewrite Hf. cbn [String.eqb Ascii.eqb Bool.eqb].
  intros [= <-]. split; [done|]. cbn. rewrite Hn, length_app. cbn [length]. lia.
Qed.

#[local] Instance backup_linting fs : linting_keeps (backup_is fs).
Proof.
  split; [apply backup_error|..]; intros msg st Hst; unfold PrintInfo, PrintError, AddFilters;
    cbv zeta; repeat case_match; done.
Qed.
#[local] Instance junit_linting : linting_keeps junit_counts.
Proof.
  split; [apply junit_error|..]; intros msg st Hst; unfold PrintInfo, PrintError, AddFilters;
    cbv zeta; repeat case_match; done.
Qed.

(** ** Filters are restored *)

Lemma bindP_inr {A B} (m : P A) (f : A -> P B) p p' b :
  bindP m f p = (p', inr b) -> exists p1 a, m p = (p1, inr a) /\ f a p1 = (p', inr b).
Proof. unfold bindP. destruct (m p) as [p1 [e|a]]; [done|]. by exists p1, a. Qed.

Lemma bindP_ok {A B} (m : P A) (f : A -> P B) p p' a : m p = (p', inr a) -> bindP m f p = f a p'.
Proof. unfold bindP. by intros ->. Qed.

Lemma keeps_value {A} I (m : P A) p p' r : keeps I m -> m p = (p', r) -> I p -> I p'.
Proof. intros H E Hp. specialize (H p Hp). by rewrite E in H. Qed.

(** C16. [ProcessFile] leaves the filters of the linter as it found them whenever it
    returns: after a file that was linted, one that a configuration file excludes,
    one that cannot be read, whatever filters the configuration files added. *)
Theorem ProcessFile_restores_filters (filename : string) (vlevel : Z)
    (extra : list (string -> CleansedLines -> Z -> M unit)) (p p' : program)
    (H : ProcessFile exists_ isfile cwd read_cfg read_header read_text user_match filename vlevel extra p
         = (p', inr ())) :
  filters (lint (state p')) = filters (lint (state p)).
Proof.
  unfold ProcessFile in H. apply bindP_inr in H as (p1 & [] & [= <-] & H).
  apply bindP_inr in H as (p2 & [] & [= <-] & H). apply bindP_inr in H as (p3 & old & [= <- <-] & H).
  apply bindP_inr in H as (p4 & go_on & Hcfg & H).
  set (fs := filters (lint (state p))).
  assert (H4 : on_lint (backup_is fs) p4)
    by (by eapply keeps_value; [apply ProcessConfigOverrides_keeps; apply _|exact Hcfg|]).
  destruct (negb go_on); [by injection H as <-|].
  destruct (read_text filename) as [text|].
  - apply bindP_inr in H as (p5 & [] & Htext & H). apply bindP_inr in H as (p6 & q & [= <- <-] & H).
    apply bindP_inr in H as (p7 & n & [= <- <-] & H). apply bindP_inr in H as (p8 & [] & Hinfo & H).
    injection H as <-. change (on_lint (backup_is fs) p8).
    eapply keeps_value; [apply keeps_whenP, keeps_info; apply _|exact Hinfo|].
    by eapply keeps_value; [apply process_text_keeps; apply _|exact Htext|].
  - apply bindP_inr in H as (p5 & [] & Hmsg & H). injection H as <-.
    change (on_lint (backup_is fs) p5). by eapply keeps_value; [apply keeps_print; apply _|exact Hmsg|].
Qed.

(** ** The exit code *)

#[local] Hint Extern 1 (keeps _ (modify_lint _)) =>
  first [apply keeps_info; apply _ | apply keeps_print; apply _ | by apply keeps_modify_lint] : driver.
#[local] Hint Extern 1 (keeps _ (ProcessConfigOverrides _ _ _ _ _)) =>
  apply ProcessConfigOverrides_keeps; apply _ : driver.
#[local] Hint Extern 1 (keeps _ (process_text _ _ _ _ _ _ _)) =>
  apply process_text_keeps; apply _ : driver.

Lemma ProcessFile_junit f v extra :
  keeps (on_lint junit_counts)
    (ProcessFile exists_ isfile cwd read_cfg read_header read_text user_match f v extra).
Proof. driver. Qed.

Lemma PrintErrorCounts_junit st : output_format st = "junit"%string -> PrintErrorCounts st = st.
Proof.
  intros H.
  assert (Hi : forall msg, PrintInfo msg st = st)
    by (intros msg; unfold PrintInfo; rewrite H; by rewrite andb_false_r).
  assert (Hf : forall l, fold_left (fun st '(category, count) =>
      PrintInfo ("Category '" +:+ category +:+ "' errors found: " +:+ str_of_Z count +:+ newline) st)
      l st = st).
  { induction l as [|[k n] l IH]; [done|]. cbn [fold_left]. by rewrite Hi. }
  unfold PrintErrorCounts. rewrite Hf. case_match; [apply Hi|done].
Qed.

Lemma parse_options_no_failures opts : forall o,
  keeps (on_lint no_failures) (parse_options glob usage python_version opts o).
Proof. induction opts as [|[opt val] opts IH]; intros; cbn [parse_options]; driver. Qed.
#[local] Hint Resolve parse_options_no_failures : driver.

Lemma ParseArguments_no_failures args :
  keeps (on_lint no_failures) (ParseArguments isdir cwd walk glob usage python_version args).
Proof.
  assert (H : forall fs, keeps (on_lint no_failures) (lint_method (SetFilters fs))).
  { intros fs. apply keeps_lint_method. intros st Hst. unfold SetFilters, AddFilters. cbv zeta.
    case_match; done. }
  driver.
Qed.

(** The loop of [main] over the files. *)
Definition lint_files (filenames : list string) : P unit :=
  forP filenames (fun filename =>
    let! v := lint_of verbose_level in
    ProcessFile exists_ isfile cwd read_cfg read_header read_text user_match filename v []).

Lemma lint_files_junit files : keeps (on_lint junit_counts) (lint_files files).
Proof.
  apply keeps_forP. intros f. apply keeps_bindP; [apply keeps_getP|]. intros v. apply ProcessFile_junit.
Qed.

(** C17. With [--output=junit], a run of [main] that parses its arguments and lints
    its files exits with 1 if a failure was recorded and with 0 otherwise; the error
    count is the number of recorded failures, and the last thing it writes is the
    JUnit report of exactly these failures. *)
Theorem main_junit_exit_code (args files : list string) (p p1 p2 : program)
    (Hp : junit_failures (lint (state p)) = [])
    (Hparse : ParseArguments isdir cwd walk glob usage python_version args p = (p1, inr files))
    (Hfmt : output_format (lint (state p1)) = "junit"%string)
    (Hfiles : lint_files files (fst (modify_lint ResetErrorCounts p1)) = (p2, inr ())) :
  let st := lint (state p2) in
  exists p',
    main exists_ isfile isdir cwd read_cfg read_header read_text walk glob user_match usage
      python_version args p
    = (p', inl (SystemExit (if bool_decide (junit_failures st = []) then 0 else 1))) /\
    error_count st = Z.of_nat (length (junit_failures st)) /\
    stderr (lint (state p')) = stderr st ++ [FormatJUnitXML st].
Proof.
  assert (H1 : on_lint no_failures p1)
    by (by eapply keeps_value; [apply ParseArguments_no_failures|exact Hparse|]).
  assert (H2 : on_lint junit_counts p2).
  { eapply keeps_value; [apply lint_files_junit|exact Hfiles|]. split; [done|].
    cbn. unfold on_lint, no_failures in H1. by rewrite H1. }
  destruct H2 as [Hf Hn]. intros st. fold st in Hf, Hn.
  set (p3 := Program (settings p2) (Linter (suppressed (state p2)) (write_stderr (FormatJUnitXML st) st))).
  exists p3. split_and!; [|done|done].
  assert (Hcode : (0 <? error_count st) = negb (bool_decide (junit_failures st = []))).
  { rewrite Hn. destruct (junit_failures st) as [|d l]; [done|].
    rewrite bool_decide_eq_false_2 by done. apply Z.ltb_lt. cbn [length]. lia. }
  assert (Hcounts : forall c, whenP c (modify_lint PrintErrorCounts) p2 = (p2, inr ())).
  { intros []; [|done]. unfold whenP, modify_lint. fold st. rewrite (PrintErrorCounts_junit st Hf).
    by destruct p2 as [cfg [sup l]]. }
  unfold main. rewrite (bindP_ok _ _ _ _ _ Hparse).
  rewrite (bindP_ok (modify_lint ResetErrorCounts) _ p1 _ () eq_refl).
  rewrite (bindP_ok _ _ _ p2 () Hfiles).
  rewrite (bindP_ok (lint_of quiet) _ p2 _ _ eq_refl), (bindP_ok (lint_of error_count) _ p2 _ _ eq_refl).
  rewrite (bindP_ok _ _ _ _ _ (Hcounts _)), (bindP_ok (lint_of output_format) _ p2 _ _ eq_refl).
  fold st. rewrite Hf. cbn [String.eqb Ascii.eqb Bool.eqb whenP].
  rewrite (bindP_ok (modify_lint (fun st => write_stderr (FormatJUnitXML st) st)) _
    p2 p3 () eq_refl).
  rewrite (bindP_ok (lint_of error_count) _ p3 _ _ eq_refl).
  change (error_count (lint (state p3))) with (error_count st). rewrite Hcode.
  unfold raiseP. by destruct (bool_decide _).
Qed.
End Program.

(** C6. The program ends: for every command line and state, [main] (which parses the
    arguments, looks for configuration files and lints every file) returns or
    raises, provided that the working directory is absolute, no [.svn] lies in the
    root directory and matching the user's patterns ends. *)
Theorem main_terminates (exists_ isfile isdir : string -> bool) (cwd : string)
    (read_cfg read_header : string -> option (list string)) (read_text : string -> option string)
    (walk : string -> list (string * list string)) (glob : string -> list string)
    (user_match : string -> string -> exn + bool) (usage : config -> string) (python_version : string)
    (Hcwd : absolute cwd)
    (Htop : forall s, absolute s -> sall is_slash s = true -> exists_ (s +:+ ".svn") = false)
    (Huser : forall pattern text, user_match pattern text <> inl FuelExhausted)
    (args : list string) (p : program) :
  snd (main exists_ isfile isdir cwd read_cfg read_header read_text walk glob user_match usage
         python_version args p) <> inl FuelExhausted.
Proof. by apply main_ends. Qed.

(** ** An example *)

(** Two files in two directories; the first directory has a configuration file. *)
Definition demo_isfile (f : string) : bool := String.eqb f "/p/a/CPPLINT.cfg".
Definition demo_cfg (f : string) : option (list string) :=
  Some ["set noparent"; "linelength=40"; "filter=-legal"; "# end"]%string.
Definition demo_text (f : string) : option string := Some "// Copyright 2023 A"%string.
Definition demo_program : program :=
  Program initial_config (Linter (Suppressions ∅ ∅) initial_lint_state).
Definition demo_process (f : string) : P unit :=
  ProcessFile (fun _ => false) demo_isfile "/p" demo_cfg (fun _ => None) demo_text
    (fun _ _ => inr false) f 1 [].
Definition demo_main (args : list string) : P unit :=
  main (fun _ => false) demo_isfile (fun _ => false) "/p" demo_cfg (fun _ => None) demo_text
    (fun _ => []) (fun _ => []) (fun _ _ => inr false) (fun _ => EmptyString) "3" args.

Lemma pair_eq {A B} (x : A * B) b : snd x = b -> x = (fst x, b).
Proof. destruct x. simpl. by intros ->. Qed.

Lemma main_terminates_witness :
  snd (demo_main ["--quiet"; "a/x.cc"] demo_program) <> inl FuelExhausted.
Proof.
  apply (main_terminates (fun _ => false) demo_isfile (fun _ => false) "/p" demo_cfg (fun _ => None)
           demo_text (fun _ => []) (fun _ => []) (fun _ _ => inr false) (fun _ => EmptyString) "3").
  - by exists "p"%string.
  - reflexivity.
  - discriminate.
Defined.

Lemma ProcessFile_restores_filters_witness :
  filters (lint (state (fst (demo_process "a/x.cc" demo_program)))) = DEFAULT_FILTERS.
Proof.
  apply (ProcessFile_restores_filters (fun _ => false) demo_isfile "/p" demo_cfg (fun _ => None)
           demo_text (fun _ _ => inr false) "a/x.cc" 1 [] demo_program).
  apply pair_eq. vm_compute. reflexivity.
Defined.

(** [ProcessFile] does not restore the other settings: the line length that the
    configuration file of one directory sets is still in force for the next file,
    in a directory without a configuration file. *)
Lemma config_settings_leak :
  line_length (settings (fst (demo_process "a/x.cc" demo_program))) = 40 /\
  line_length (settings (fst (demo_process "b/y.cc" demo_program))) = 80 /\
  line_length (settings (fst (demo_process "b/y.cc"
                                (fst (demo_process "a/x.cc" demo_program))))) = 40.
Proof. vm_compute. split_and!; reflexivity. Qed.

(** A file without a copyright line, linted with [--output=junit]. *)
Lemma main_junit_exit_code_witness :
  snd (main (fun _ => false) demo_isfile (fun _ => false) "/p" demo_cfg (fun _ => None)
         (fun _ => Some "int x;"%string) (fun _ => []) (fun _ => []) (fun _ _ => inr false)
         (fun _ => EmptyString) "3" ["--output=junit"; "b/y.cc"] demo_program) = inl (SystemExit 1).
Proof.
  set (parse := ParseArguments (fun _ => false) "/p" (fun _ => []) (fun _ => []) (fun _ => EmptyString) "3"
                  ["--output=junit"; "b/y.cc"] demo_program).
  set (run := lint_files (fun _ => false) demo_isfile "/p" demo_cfg (fun _ => None)
                (fun _ => Some "int x;"%string) (fun _ _ => inr false) ["b/y.cc"]
                (fst (modify_lint ResetErrorCounts (fst parse)))).
  assert (H1 : parse = (fst parse, inr ["b/y.cc"%string])) by (apply pair_eq; vm_compute; reflexivity).
  assert (H2 : output_format (lint (state (fst parse))) = "junit"%string) by (vm_compute; reflexivity).
  assert (H3 : run = (fst run, inr ())) by (apply pair_eq; vm_compute; reflexivity).
  destruct (main_junit_exit_code (fun _ => false) demo_isfile (fun _ => false) "/p" demo_cfg
    (fun _ => None) (fun _ => Some "int x;"%string) (fun _ => []) (fun _ => []) (fun _ _ => inr false)
    (fun _ => EmptyString) "3" ["--output=junit"; "b/y.cc"] ["b/y.cc"] demo_program (fst parse) (fst run)
    eq_refl H1 H2 H3) as (p' & E & _ & _).
  rewrite E. vm_compute. reflexivity.
Defined.
