(* ===== verification/ClangTidy.v ===== *)
(** * run_clang_tidy.py and run_clang_tidy_extra.py

    The helpers are functions; the worker threads of [main] and [run_tidy] are a
    step relation.  [clang-tidy] is a parameter: the return code of its run on a
    file, and where the worker's handling of the file raises an exception, if it
    does, which ends the worker's thread.  A state of the run holds what the threads share (the queue with its
    count of unfinished tasks, the list of failed files), what the main thread has
    still to put into the queue, and where each worker is in its loop; of the
    temporary directory it holds how many files for fixes the workers have created.
    The file system, the database, the number of processors and the runs of the
    clang tools are parameters.  The option parser, the printed text and the handler
    of the keyboard interrupt are not modelled. *)

From stdpp Require Import base list strings relations.
From Stdlib Require Import ZArith Lia Ascii Permutation.
From S2P Require Import Prelude PyString Regex RegexParse PyRe RegexFacts Cleanse Paths.
Local Open Scope Z_scope.

(** ** [CheckConfig] *)

(** [_init_config]. *)
Definition ignore_pats : list string := [".*/third_party/.*"].

Definition should_skip (path : string) : bool :=
  existsb (fun p => matched (Match p path)) ignore_pats.

(** ** Helpers of run_clang_tidy.py *)

Definition make_absolute (f directory : string) : string :=
  if startswith f "/" then f else normpath (path_join directory f).

(** [find_compilation_database]: [isfile] and [realpath] are the file system's
    answers; [result] is ./ and then ../ as often as needed. *)
Section Database.
Context (isfile : string -> bool) (realpath : string -> string).

Fixpoint find_database_loop (fuel : nat) (path result : string) : exn + string :=
  match fuel with
  | O => inl FuelExhausted
  | S fuel' =>
      if isfile (path_join result path) then inr (realpath result)
      else if String.eqb (realpath result) "/" then inl (SystemExit 1)
      else find_database_loop fuel' path (result +:+ "../")
  end.

Definition find_compilation_database (fuel : nat) (path : string) : exn + string :=
  find_database_loop fuel path "./".
End Database.

(** The options of the command line that a call of clang-tidy depends on. *)
Record tidy_args := TidyArgs {
  clang_tidy_binary : string;
  checks : option string;
  header_filter : option string;
  extra_arg : list string;
  extra_arg_before : list string;
  quiet : bool;
  config : option string
}.

(** [if s: l.append(prefix + s)] for an option that may be missing. *)
Definition option_arg (prefix : string) (s : option string) : list string :=
  match s with Some s => if String.eqb s EmptyString then [] else [prefix +:+ s] | None => [] end.

(** [fixes] is the name of the temporary file for the fixes, if there is a
    temporary directory. *)
Definition get_tidy_invocation (f : string) (args : tidy_args) (fixes : option string)
    (build_path : string) : list string :=
  [clang_tidy_binary args]
  ++ match header_filter args with Some h => ["-header-filter=" +:+ h] | None => [] end
  ++ option_arg "-checks=" (checks args)
  ++ match fixes with Some name => ["-export-fixes"; name] | None => [] end
  ++ map (fun arg => "-extra-arg=" +:+ arg) (extra_arg args)
  ++ map (fun arg => "-extra-arg-before=" +:+ arg) (extra_arg_before args)
  ++ ["-p=" +:+ build_path]
  ++ (if quiet args then ["-quiet"] else [])
  ++ option_arg "-config=" (config args)
  ++ [f].

(** The command that applies the fixes. *)
Definition apply_fixes_invocation (binary : string) (format : bool) (style : option string)
    (tmpdir : string) : list string :=
  [binary] ++ (if format then ["-format"] else []) ++ option_arg "-style=" style ++ [tmpdir].

(** [merge_replacement_files] where the temporary directory holds [yaml_files]
    files: the module yaml that it reads them with is not imported.  Without a
    file it empties [mergefile], which the system may refuse. *)
Definition merge_replacement_files (yaml_files : nat) (mergefile_opens : bool) : exn + unit :=
  match yaml_files with
  | O => if mergefile_opens then inr () else inl OSError
  | S _ => inl NameError
  end.

(** The filter that [main] builds from the command line's files. *)
Definition compile_file_filter (files : list string) : exn + pattern :=
  match re_compile no_flags (join "|" files) with Some p => inr p | None => inl ReError end.

(** ** What [main] does before it starts the workers *)

Section Prepare.
(** The file system, whether a command runs, the entries of a database (their file
    and directory) and the number of processors. *)
Context (isfile : string -> bool) (realpath : string -> string) (runs : list string -> bool)
  (load : string -> exn + list (string * string)) (cpu_count : nat).

(** [check_clang_apply_replacements_binary]. *)
Definition check_clang_apply_replacements_binary (binary : string) : exn + unit :=
  if runs [binary; "--version"] then inr () else inl (SystemExit 1).

(** What the workers and the loop over the files use. *)
Record job := Job {
  build_path_ : string;
  all_files : list string;
  max_task_ : nat;
  has_tmpdir : bool;
  file_name_re_ : pattern
}.

(** From the options to the compiled filter; [fuel] is for the search of the
    database, and the number of tasks [j] is not negative. *)
Definition prepare (fuel : nat) (args : tidy_args) (build_path : option string) (j : nat)
    (fix_ : bool) (export_fixes : option string) (apply_binary : string) (filters : list string)
    : exn + job :=
  let db_path := "compile_commands.json"%string in
  bindE (match build_path with
         | Some p => inr p
         | None => find_compilation_database isfile realpath fuel db_path
         end) (fun build_path =>
  if negb (runs ([clang_tidy_binary args; "-list-checks"; "-p=" +:+ build_path]
                 ++ option_arg "-checks=" (checks args) ++ ["-"])) then inl (SystemExit 1)
  else
    bindE (load (path_join build_path db_path)) (fun database =>
    let files := map (fun '(file, directory) => make_absolute file directory) database in
    let max_task := if Nat.eqb j 0 then cpu_count else j in
    let tmpdir := fix_ || match export_fixes with
                          | Some f => negb (String.eqb f EmptyString)
                          | None => false
                          end in
    bindE (if tmpdir then check_clang_apply_replacements_binary apply_binary else inr ()) (fun _ =>
    bindE (compile_file_filter filters) (fun re =>
    inr (Job build_path files max_task tmpdir re))))).
End Prepare.

(** ** The worker pool *)

(** Where [run_tidy] can raise while it handles a file: before it has the invocation
    (the print, the temporary file of [get_tidy_invocation]), in [subprocess.Popen] or
    [communicate], or with the output, which is decoded and written. *)
Inductive raise_point := InInvocation | InRun | InOutput.

Section Pool.
(** What a run of clang-tidy on a file returns, where the handling of the file raises
    an exception if it does, the compiled filter, and the number of workers, which
    also bounds the queue. *)
Context (returncode : string -> Z) (raises : string -> option raise_point)
  (file_name_re : pattern) (max_task : nat).

(** Whether [main] made a temporary directory, into which each invocation puts a
    file for the fixes. *)
Context (tmpdir : bool).

Definition selected (name : string) : bool := matched (re_search file_name_re name).

(** A worker waits for a file, has taken one, has handled it and still has to call
    [task_done], or its thread has ended with an exception. *)
Inductive worker := Idle | Got (name : string) | Handled (name : string) | Died (name : string).

Record pool := Pool {
  files : list string;
  task_queue : list string;
  workers : list worker;
  unfinished : nat;
  failed_files : list string;
  fix_files : nat;
  joined : bool
}.

Definition start (fs : list string) : pool := Pool fs [] (repeat Idle max_task) 0 [] 0 false.

(** What a worker does to the shared list with a file it has taken:
    [failed_files.append(name)] when clang-tidy fails on a file that is not
    skipped. *)
Definition after_run (name : string) (failed : list string) : list string :=
  if should_skip name then failed
  else if returncode name =? 0 then failed else failed ++ [name].

(** The body of the loop between [queue.get] and [queue.task_done], on the failed files
    and the number of files for fixes: what it leaves of them, and whether it gets to
    [task_done] or raises on the way.  A skipped file is not run. *)
Definition tidy_file (name : string) (failed : list string) (n : nat) : list string * nat * bool :=
  match raises name with
  | Some InInvocation => (failed, n, false)
  | point =>
      let n := if tmpdir then S n else n in
      if should_skip name then (failed, n, true)
      else match point with
           | Some InRun => (failed, n, false)
           | Some InOutput => (after_run name failed, n, false)
           | _ => (after_run name failed, n, true)
           end
  end.

(** The main thread: it fills the queue in the order of the database, asking again
    and again for a file that is not selected or while the queue is full, and then
    waits in [join]. *)
Inductive main_step : pool -> pool -> Prop :=
  | main_put f fs q ws u fl n :
      selected f = true -> (length q < max_task)%nat ->
      main_step (Pool (f :: fs) q ws u fl n false) (Pool fs (q ++ [f]) ws (S u) fl n false)
  | main_full f fs q ws u fl n :
      selected f = true -> (max_task <= length q)%nat ->
      main_step (Pool (f :: fs) q ws u fl n false) (Pool (f :: fs) q ws u fl n false)
  | main_not_selected f fs q ws u fl n :
      selected f = false ->
      main_step (Pool (f :: fs) q ws u fl n false) (Pool (f :: fs) q ws u fl n false)
  | main_join q ws fl n :
      main_step (Pool [] q ws 0 fl n false) (Pool [] q ws 0 fl n true).

(** A worker in [run_tidy]: [queue.get], the handling of the file, after which the
    thread goes on or has died, [queue.task_done]. *)
Inductive worker_step : pool -> pool -> Prop :=
  | worker_get i f fs q ws u fl n j :
      ws !! i = Some Idle ->
      worker_step (Pool fs (f :: q) ws u fl n j) (Pool fs q (<[i := Got f]> ws) u fl n j)
  | worker_run i f fs q ws u fl n j fl' n' ok :
      ws !! i = Some (Got f) -> tidy_file f fl n = (fl', n', ok) ->
      worker_step (Pool fs q ws u fl n j)
        (Pool fs q (<[i := if ok then Handled f else Died f]> ws) u fl' n' j)
  | worker_done i f fs q ws u fl n j :
      ws !! i = Some (Handled f) ->
      worker_step (Pool fs q ws (S u) fl n j) (Pool fs q (<[i := Idle]> ws) u fl n j).

(** The threads interleave. *)
Inductive step (p p' : pool) : Prop :=
  | by_main : main_step p p' -> step p p'
  | by_worker : worker_step p p' -> step p p'.

Definition reachable (fs : list string) : pool -> Prop := rtc step (start fs).

(** [return_code], once [join] has returned. *)
Definition return_code (p : pool) : Z := if decide (failed_files p = []) then 0 else 1.

(** The end of [main]: the fixes are merged and applied, and a failure of either
    makes the exit code 1.  [mergefile_opens] and [apply_runs] are the system's
    answers. *)
Definition exit_code (export_fixes fix_ mergefile_opens apply_runs : bool) (p : pool) : Z :=
  let code := return_code p in
  let code :=
    if export_fixes then
      match merge_replacement_files (fix_files p) mergefile_opens with inl _ => 1 | inr _ => code end
    else code in
  if fix_ then (if apply_runs then code else 1) else code.

(** The files on which clang-tidy runs and fails. *)
Definition fails (name : string) : bool := negb (should_skip name) && negb (returncode name =? 0).

Lemma after_run_fails name failed : after_run name failed = failed ++ List.filter fails [name].
Proof.
  unfold after_run, fails. cbn [List.filter]. destruct (should_skip name); [by rewrite app_nil_r|].
  destruct (returncode name =? 0); [by rewrite app_nil_r|done].
Qed.

(** Whether the handling of a file gets to [task_done]. *)
Definition completes (name : string) : bool :=
  match raises name with
  | None => true
  | Some InInvocation => false
  | Some _ => should_skip name
  end.

Lemma tidy_file_completes name failed n : snd (tidy_file name failed n) = completes name.
Proof. unfold tidy_file, completes. by destruct (raises name) as [[]|], (should_skip name). Qed.

Lemma tidy_file_completed name failed n fl' n' :
  tidy_file name failed n = (fl', n', true) ->
  fl' = after_run name failed /\ n' = (if tmpdir then S n else n).
Proof.
  unfold tidy_file, after_run. destruct (raises name) as [[]|], (should_skip name);
    intros [= <- <-]; done.
Qed.

(** The files in the hands of a worker: all of them, and those it has not handled. *)
Definition held (w : worker) : list string :=
  match w with Idle => [] | Got f | Handled f | Died f => [f] end.
Definition waiting (w : worker) : list string := match w with Got f => [f] | _ => [] end.
Definition busy (w : worker) : nat := match w with Idle => 0 | _ => 1 end.
Definition alive (w : worker) : Prop := match w with Died _ => False | _ => True end.

Definition in_hand (p : pool) : list string := concat (map waiting (workers p)).
Definition busy_count (p : pool) : nat := list_sum (map busy (workers p)).

(** Where the files are: still to be put, in the queue, in a worker's hands, or
    completed. *)
Definition worker_ok (w : worker) : Prop :=
  match w with Handled f => completes f = true | Died f => completes f = false | _ => True end.
Definition pool_files (fs : list string) (p : pool) : Prop :=
  Forall worker_ok (workers p) /\
  exists before finished, fs = before ++ files p /\
    Permutation before (task_queue p ++ concat (map held (workers p)) ++ finished) /\
    Forall (fun f => completes f = true) finished /\
    Forall (fun f => selected f = true) before.

(** What every reachable state satisfies: the count of unfinished tasks; and while no
    worker has died, each file that was put is in the queue, in a worker's hands, or
    accounted for in the failures. *)
Definition pool_ok (fs : list string) (p : pool) : Prop :=
  unfinished p = (length (task_queue p) + busy_count p)%nat /\
  length (workers p) = max_task /\
  (joined p = true -> files p = [] /\ unfinished p = 0%nat) /\
  (Forall alive (workers p) -> exists before, fs = before ++ files p /\
    Permutation (List.filter fails before)
      (failed_files p ++ List.filter fails (task_queue p ++ in_hand p)) /\
    (tmpdir = true -> length before = (fix_files p + length (task_queue p) + length (in_hand p))%nat)).

Lemma in_hand_insert (g : worker -> list string) ws i w w' :
  ws !! i = Some w ->
  Permutation (g w ++ concat (map g (<[i := w']> ws))) (g w' ++ concat (map g ws)).
Proof.
  revert i. induction ws as [|v ws IH]; intros [|i] H; simplify_eq/=; [by rewrite Permutation_app_swap_app|].
  rewrite Permutation_app_swap_app, (IH i H). apply Permutation_app_swap_app.
Qed.

Lemma busy_insert ws i w w' :
  ws !! i = Some w ->
  (busy w + list_sum (map busy (<[i := w']> ws)) = busy w' + list_sum (map busy ws))%nat.
Proof.
  revert i. induction ws as [|v ws IH]; intros [|i] H; simplify_eq/=; [lia|]. specialize (IH i H). lia.
Qed.

Lemma alive_insert ws i w w' :
  ws !! i = Some w -> alive w -> Forall alive (<[i := w']> ws) -> Forall alive ws /\ alive w'.
Proof.
  revert i. induction ws as [|v ws IH]; intros [|i] H Hw Hall; simplify_eq/=;
    apply Forall_cons in Hall as [Hv Hall]; rewrite Forall_cons; [done|].
  destruct (IH i H Hw Hall). done.
Qed.

Lemma filter_perm (l l' : list string) :
  Permutation l l' -> Permutation (List.filter fails l) (List.filter fails l').
Proof.
  induction 1; simpl; repeat case_match; eauto using Permutation, perm_swap.
Qed.

#[local] Instance filter_fails_proper : Proper (Permutation ==> Permutation) (List.filter fails).
Proof. intros l l'. apply filter_perm. Qed.

Lemma idle_pool n :
  list_sum (map busy (repeat Idle n)) = 0%nat /\ concat (map waiting (repeat Idle n)) = [] /\
  concat (map held (repeat Idle n)) = [] /\ Forall worker_ok (repeat Idle n).
Proof. induction n as [|n (H1 & H2 & H3 & H4)]; [done|]. repeat split; try done. by constructor. Qed.

Lemma start_ok fs : pool_ok fs (start fs).
Proof.
  unfold start, pool_ok, busy_count, in_hand.
  cbn [files task_queue workers unfinished failed_files fix_files joined].
  destruct (idle_pool max_task) as (-> & -> & _). split; [done|]. split; [apply repeat_length|].
  split; [done|]. intros _. exists []. repeat split; constructor.
Qed.

(** A worker's step moves a file between the queue, its hands and the files made
    for the fixes. *)
Lemma in_hand_length ws i w w' :
  ws !! i = Some w ->
  (length (waiting w) + length (concat (map waiting (<[i := w']> ws)))
   = length (waiting w') + length (concat (map waiting ws)))%nat.
Proof.
  intros H. pose proof (Permutation_length (in_hand_insert waiting ws i w w' H)) as E.
  by rewrite !length_app in E.
Qed.

Ltac pool_cases H :=
  destruct H as [H|H];
  [destruct H as [f rest q ws u fl n Hf Hq|f rest q ws u fl n Hf Hq|f rest q ws u fl n Hf|q ws fl n]
  |destruct H as [i f rest q ws u fl n j Hi|i f rest q ws u fl n j fl' n' ok Hi Hrun
                 |i f rest q ws u fl n j Hi]].

Lemma step_ok fs p p' : pool_ok fs p -> step p p' -> pool_ok fs p'.
Proof.
  intros (Hu & Hw & Hj & Hput) Hstep.
  pool_cases Hstep;
    unfold pool_ok, busy_count, in_hand in *;
    cbn [files task_queue workers unfinished failed_files fix_files joined] in *.
  - split; [rewrite length_app; cbn [length]; lia|]. split; [done|]. split; [done|].
    intros (before & -> & Hperm & Hn)%Hput. exists (before ++ [f]). split; [by rewrite <- app_assoc|]. split.
    + rewrite List.filter_app, Hperm, <- app_assoc. apply Permutation_app_head.
      rewrite <- List.filter_app. apply filter_perm. rewrite <- !app_assoc.
      apply Permutation_app_head. apply Permutation_app_comm.
    + intros T. specialize (Hn T). rewrite !length_app. cbn [length]. lia.
  - split_and!; eauto.
  - split_and!; eauto.
  - split_and!; eauto.
  - pose proof (busy_insert ws i Idle (Got f) Hi) as Hb. cbn [busy] in Hb.
    cbn [length] in Hu. split; [lia|]. split; [by rewrite length_insert|]. split; [done|].
    intros Ha. destruct (alive_insert ws i Idle (Got f) Hi I Ha) as [(before & -> & Hperm & Hn)%Hput _].
    pose proof (in_hand_insert waiting ws i Idle (Got f) Hi) as Hp. cbn [waiting app] in Hp.
    exists before. split; [done|]. split; [|intros T; specialize (Hn T); cbn [length] in *;
      pose proof (in_hand_length ws i Idle (Got f) Hi) as Hl; cbn [waiting length] in Hl; lia].
    rewrite Hperm. apply Permutation_app_head.
    apply filter_perm. rewrite Hp. cbn [app]. apply Permutation_middle.
  - pose proof (busy_insert ws i (Got f) (if ok then Handled f else Died f) Hi) as Hb.
    split; [destruct ok; cbn [busy] in Hb; lia|]. split; [by rewrite length_insert|]. split; [done|].
    intros Ha. destruct (alive_insert ws i (Got f) _ Hi I Ha) as [(before & -> & Hperm & Hn)%Hput Hok].
    destruct ok; [|destruct Hok]. apply tidy_file_completed in Hrun as [-> ->].
    pose proof (in_hand_insert waiting ws i (Got f) (Handled f) Hi) as Hp. cbn [waiting app] in Hp.
    exists before. split; [done|]. split; [|intros T; specialize (Hn T); rewrite T;
      pose proof (in_hand_length ws i (Got f) (Handled f) Hi) as Hl; cbn [waiting length] in Hl; lia].
    rewrite Hperm, after_run_fails, <- app_assoc.
    apply Permutation_app_head. rewrite <- List.filter_app. apply filter_perm.
    rewrite <- Hp. cbn [app]. symmetry. apply Permutation_middle.
  - pose proof (busy_insert ws i (Handled f) Idle Hi) as Hb. cbn [busy] in Hb.
    split; [lia|]. split; [by rewrite length_insert|]. split; [intros Ej; destruct (Hj Ej); done|].
    intros Ha. destruct (alive_insert ws i (Handled f) _ Hi I Ha) as [(before & -> & Hperm & Hn)%Hput _].
    pose proof (in_hand_insert waiting ws i (Handled f) Idle Hi) as Hp. cbn [waiting app] in Hp.
    exists before. split; [done|]. split; [by rewrite Hperm, Hp|]. intros T. specialize (Hn T).
    pose proof (in_hand_length ws i (Handled f) Idle Hi) as Hl. cbn [waiting length] in Hl. lia.
Qed.

Lemma start_files fs : pool_files fs (start fs).
Proof.
  unfold start, pool_files. cbn [files task_queue workers].
  destruct (idle_pool max_task) as (_ & _ & -> & Hok). split; [done|].
  exists [], []. repeat split; constructor.
Qed.

Lemma step_files fs p p' : pool_files fs p -> step p p' -> pool_files fs p'.
Proof.
  intros (Hok & before & finished & -> & Hperm & Hfin & Hsel) Hstep.
  pool_cases Hstep; unfold pool_files in *; cbn [files task_queue workers] in *.
  - split; [done|]. exists (before ++ [f]), finished. split; [by rewrite <- app_assoc|]. split.
    { rewrite Hperm, <- !app_assoc. apply Permutation_app_head. rewrite app_assoc.
      rewrite Permutation_app_comm. done. }
    split; [done|]. apply Forall_app. by split; [|constructor].
  - split; [done|]. by exists before, finished.
  - split; [done|]. by exists before, finished.
  - split; [done|]. by exists before, finished.
  - split; [by apply Forall_insert|]. exists before, finished. split; [done|]. split; [|done].
    pose proof (in_hand_insert held ws i Idle (Got f) Hi) as Hp. cbn [held app] in Hp.
    rewrite Hperm, Hp. cbn [app]. apply Permutation_middle.
  - pose proof (tidy_file_completes f fl n) as Hc. rewrite Hrun in Hc. cbn [snd] in Hc.
    split; [apply Forall_insert; [done|]; by destruct ok|].
    exists before, finished. split; [done|]. split; [|done].
    pose proof (in_hand_insert held ws i (Got f) (if ok then Handled f else Died f) Hi) as Hp.
    assert (Hp' : Permutation (concat (map held (<[i := if ok then Handled f else Died f]> ws)))
                    (concat (map held ws))).
    { destruct ok; cbn [held] in Hp; by apply Permutation_app_inv_l in Hp. }
    by rewrite Hp'.
  - pose proof (Forall_lookup_1 _ _ _ _ Hok Hi) as Hf. cbn [worker_ok] in Hf.
    split; [by apply Forall_insert|]. exists before, (f :: finished). split; [done|].
    split; [|split; [by constructor|done]].
    pose proof (in_hand_insert held ws i (Handled f) Idle Hi) as Hp. cbn [held app] in Hp.
    rewrite Hperm, <- Hp. apply Permutation_app_head. cbn [app]. apply Permutation_middle.
Qed.

Lemma reachable_ind (P : pool -> Prop) fs p :
  P (start fs) -> (forall p p', P p -> step p p' -> P p') -> reachable fs p -> P p.
Proof.
  intros H0 Hs H. unfold reachable in H. revert H0.
  induction H as [|x y z Hxy _ IH]; [done|]. intros Hx. apply IH. by eapply Hs.
Qed.

Lemma reachable_ok fs p : reachable fs p -> pool_ok fs p.
Proof. apply reachable_ind; [apply start_ok|apply step_ok]. Qed.

Lemma reachable_files fs p : reachable fs p -> pool_files fs p.
Proof. apply reachable_ind; [apply start_files|apply step_files]. Qed.

Lemma all_idle ws : list_sum (map busy ws) = 0%nat ->
  Forall alive ws /\ concat (map waiting ws) = [] /\ concat (map held ws) = [].
Proof.
  induction ws as [|w ws IH]; [done|]. cbn [map list_sum fold_right]. intros H.
  change (fold_right Nat.add 0 (map busy ws))%nat with (list_sum (map busy ws)) in H.
  destruct w; cbn [busy] in H; try lia. destruct IH as (H1 & H2 & H3); [done|]. by repeat constructor.
Qed.

(** In a joined pool the queue is empty and every worker waits for a file. *)
Lemma joined_idle fs p :
  reachable fs p -> joined p = true ->
  files p = [] /\ unfinished p = 0%nat /\ task_queue p = [] /\ Forall alive (workers p) /\
  in_hand p = [] /\ concat (map held (workers p)) = [].
Proof.
  intros Hreach Hjoined. destruct (reachable_ok fs p Hreach) as (Hu & _ & Hj & _).
  destruct (Hj Hjoined) as [Ef E0]. rewrite E0 in Hu. unfold busy_count in Hu.
  destruct (all_idle (workers p)) as (H1 & H2 & H3); [lia|].
  destruct (task_queue p); [done|cbn in Hu; lia].
Qed.

(** A joined pool has handled every file. *)
Lemma joined_ok fs p :
  reachable fs p -> joined p = true ->
  Permutation (failed_files p) (List.filter fails fs) /\
  Forall (fun f => selected f = true) fs /\ (tmpdir = true -> fix_files p = length fs).
Proof.
  intros Hreach Hjoined.
  destruct (joined_idle fs p Hreach Hjoined) as (Ef & _ & Hq & Ha & Hh & _).
  destruct (reachable_ok fs p Hreach) as (_ & _ & _ & Hput).
  destruct (Hput Ha) as (before & E & Hperm & Hn).
  destruct (reachable_files fs p Hreach) as (_ & before' & fin & E' & _ & _ & Hsel).
  rewrite Ef, app_nil_r in E, E'. subst. rewrite Hq, Hh in *. cbn in Hperm. rewrite app_nil_r in Hperm.
  split; [done|]. split; [done|]. intros T. specialize (Hn T). cbn in Hn. lia.
Qed.

Lemma return_code_spec fs p :
  Permutation (failed_files p) (List.filter fails fs) ->
  return_code p = (if existsb fails fs then 1 else 0).
Proof.
  intros Hp. unfold return_code. destruct (existsb fails fs) eqn:E.
  - apply existsb_exists in E as (f & Hin & Hf). destruct (decide (failed_files p = [])) as [E|]; [|done].
    rewrite E in Hp. apply Permutation_nil in Hp. exfalso.
    assert (H : In f (List.filter fails fs)) by (by apply filter_In). by rewrite Hp in H.
  - destruct (decide (failed_files p = [])) as [|E']; [done|]. destruct E'.
    assert (H : List.filter fails fs = []).
    { revert E. clear. induction fs as [|f fs IH]; [done|]. cbn. by destruct (fails f). }
    rewrite H in Hp. symmetry in Hp. by apply Permutation_nil in Hp.
Qed.

(** C10. When the pool has been joined, every file was selected and handled
    exactly once: the failed files are, up to the order in which the workers
    finished, the files of the database that are not skipped and on which
    clang-tidy fails. *)
Theorem tidy_pool_complete (fs : list string) (p : pool)
    (Hreach : reachable fs p) (Hjoined : joined p = true) :
  Permutation (failed_files p) (List.filter fails fs) /\
  Forall (fun f => selected f = true) fs /\ unfinished p = 0%nat.
Proof.
  destruct (joined_ok fs p Hreach Hjoined) as (H1 & H2 & _). split; [done|]. split; [done|].
  by apply (joined_idle fs p).
Qed.

(** C24. A file of the database that the command line does not select stops the
    run: the main thread keeps asking whether the file is selected, so the pool is
    never joined and the program does not end. *)
Theorem tidy_unselected_file_hangs (fs : list string) (f : string)
    (Hin : In f fs) (Hnot : selected f = false) :
  forall p, reachable fs p -> joined p = false.
Proof.
  intros p Hp. destruct (joined p) eqn:E; [|done]. exfalso.
  destruct (reachable_files fs p Hp) as (_ & before & fin & -> & _ & _ & Hsel).
  destruct (joined_idle _ p Hp E) as (Ef & _). rewrite Ef, app_nil_r in Hin.
  rewrite Forall_forall in Hsel. apply list_elem_of_In, Hsel in Hin. congruence.
Qed.

(** C25. An exception while a file is handled (clang-tidy cannot be started, its output
    is not UTF-8, no temporary file) stops the run as well: it ends the worker's thread
    before [task_done], so with such a file in the database [join] never returns,
    however the threads interleave. *)
Theorem tidy_crashed_worker_hangs (fs : list string) (f : string)
    (Hin : In f fs) (Hraise : completes f = false) :
  forall p, reachable fs p -> joined p = false.
Proof.
  intros p Hp. destruct (joined p) eqn:E; [|done]. exfalso.
  destruct (joined_idle fs p Hp E) as (Ef & _ & Hq & _ & _ & Hh).
  destruct (reachable_files fs p Hp) as (_ & before & fin & -> & Hperm & Hfin & _).
  rewrite Ef, app_nil_r in Hin. rewrite Hq, Hh in Hperm. cbn [app] in Hperm.
  apply (Permutation_in _ Hperm) in Hin. rewrite Forall_forall in Hfin.
  apply list_elem_of_In, Hfin in Hin. congruence.
Qed.

(** The work left. *)
Definition worker_work (w : worker) : nat :=
  match w with Got _ => 2 | Handled _ => 1 | Idle | Died _ => 0 end.
Definition work_left (p : pool) : nat :=
  4 * length (files p) + 3 * length (task_queue p) + list_sum (map worker_work (workers p))
  + (if joined p then 0 else 1).

Lemma work_insert ws i w w' :
  ws !! i = Some w ->
  (worker_work w + list_sum (map worker_work (<[i := w']> ws))
   = worker_work w' + list_sum (map worker_work ws))%nat.
Proof.
  revert i. induction ws as [|v ws IH]; intros [|i] H; simplify_eq/=; [lia|]. specialize (IH i H). lia.
Qed.

Lemma step_work p p' : step p p' -> p' = p \/ (work_left p' < work_left p)%nat.
Proof.
  intros Hstep. pool_cases Hstep;
    [right|by left|by left|right|right|right|right]; unfold work_left;
    cbn [files task_queue workers joined length].
  - rewrite length_app. cbn [length]. lia.
  - lia.
  - pose proof (work_insert ws i _ (Got f) Hi) as H. cbn [worker_work] in H. lia.
  - pose proof (work_insert ws i _ (if ok then Handled f else Died f) Hi) as H.
    destruct ok; cbn [worker_work] in H; lia.
  - pose proof (work_insert ws i _ Idle Hi) as H. cbn [worker_work] in H. lia.
Qed.

Lemma some_worker ws : list_sum (map busy ws) <> 0%nat -> exists i w, ws !! i = Some w /\ w <> Idle.
Proof.
  induction ws as [|w ws IH]; [done|]. intros H. destruct w as [|f|f|f].
  - destruct IH as (i & w & Hi & Hw); [exact H|]. by exists (S i), w.
  - by exists 0%nat, (Got f).
  - by exists 0%nat, (Handled f).
  - by exists 0%nat, (Died f).
Qed.

Lemma idle_worker ws : length ws <> 0%nat -> list_sum (map busy ws) = 0%nat -> ws !! 0%nat = Some Idle.
Proof. destruct ws as [|[| | |] ws]; [done|done|cbn; lia..]. Qed.

(** C11. When every file is selected, the handling of none of them raises and there is
    a worker, the run cannot get stuck: a reachable state that is not joined has a step that reduces the work
    left, and every step reduces it or changes nothing, so the pool is joined
    after at most as many effective steps as there is work at the start. *)
Theorem tidy_pool_progress (fs : list string) (p : pool)
    (Hmax : max_task <> 0%nat) (Hall : Forall (fun f => selected f = true) fs)
    (Hruns : Forall (fun f => completes f = true) fs)
    (Hreach : reachable fs p) :
  (forall p', step p p' -> p' = p \/ (work_left p' < work_left p)%nat) /\
  (joined p = false -> exists p', step p p' /\ (work_left p' < work_left p)%nat).
Proof.
  split; [apply step_work|]. intros Hj.
  destruct (reachable_ok fs p Hreach) as (Hu & Hw & _ & _).
  destruct (reachable_files fs p Hreach) as (Hok & before & fin & -> & Hperm & _).
  assert (Hdo : forall p', step p p' -> p' <> p -> exists p', step p p' /\ (work_left p' < work_left p)%nat).
  { intros p' Hs Hne. exists p'. split; [done|]. by destruct (step_work p p' Hs). }
  destruct p as [rest q ws u fl n j]; cbn [joined files task_queue workers unfinished] in *; subst j.
  assert (Hlive : forall i f, ws !! i = Some (Died f) -> False).
  { intros i f Hi. pose proof (Forall_lookup_1 _ _ _ _ Hok Hi) as Hf. cbn [worker_ok] in Hf.
    apply Forall_app in Hruns as [Hb _]. rewrite Forall_forall in Hb.
    enough (In f before) as Hin by (apply list_elem_of_In, Hb in Hin; congruence).
    apply (Permutation_in _ (Permutation_sym Hperm)), in_or_app. right. apply in_or_app. left.
    apply in_concat. exists [f]. split; [|by left]. apply in_map_iff. exists (Died f). split; [done|].
    by apply list_elem_of_lookup_2, list_elem_of_In in Hi. }
  unfold busy_count in Hu. cbn [workers] in Hu.
  destruct (decide (list_sum (map busy ws) = 0%nat)) as [Eb|Eb].
  - pose proof (idle_worker ws ltac:(lia) Eb) as Hi. rewrite Eb in Hu. destruct q as [|f q].
    + cbn [length Nat.add] in Hu. subst u. destruct rest as [|f rest].
      * eapply Hdo; [apply by_main, main_join|]. intros E. by apply (f_equal joined) in E.
      * apply Forall_app in Hall as [_ [Hf _]%Forall_cons].
        eapply Hdo; [apply by_main, main_put; [done|cbn; lia]|]. intros E.
        apply (f_equal (fun p => length (files p))) in E. cbn in E. lia.
    + eapply Hdo; [by apply by_worker, (worker_get 0)|]. intros E.
      apply (f_equal (fun p => length (task_queue p))) in E. cbn in E. lia.
  - destruct (some_worker ws Eb) as (i & [|f|f|f] & Hi & Hne); [done|..|by destruct (Hlive i f)].
    + destruct (tidy_file f fl n) as [[fl' n'] ok] eqn:Er.
      eapply Hdo; [by eapply by_worker, (worker_run i f)|]. intros E.
      apply (f_equal (fun p => workers p !! i)) in E. cbn [workers] in E.
      rewrite list_lookup_insert_eq, Hi in E; [by destruct ok|by eapply lookup_lt_Some].
    + destruct u as [|u]; [lia|]. eapply Hdo; [by apply by_worker, (worker_done i f)|]. intros E.
      apply (f_equal unfinished) in E. cbn in E. lia.
Qed.
End Pool.

(** A run of one worker on one file on which clang-tidy fails. *)
Definition demo_pool (j : bool) : pool := Pool [] [] [Idle] 0 ["/a.cpp"] 0 j.

Lemma demo_run : reachable (fun _ => 1) (fun _ => None) (pat ".*") 1 false ["/a.cpp"] (demo_pool true).
Proof.
  assert (Hs : selected (pat ".*") "/a.cpp" = true) by (vm_compute; reflexivity).
  eapply rtc_l; [apply by_main, main_put; [exact Hs|cbn; lia]|].
  eapply rtc_l; [apply by_worker, (worker_get _ _ _ 0 "/a.cpp"); reflexivity|].
  eapply rtc_l; [apply by_worker, (worker_run _ _ _ 0 "/a.cpp" _ _ _ _ _ _ _ ["/a.cpp"] 0%nat true);
    [reflexivity|vm_compute; reflexivity]|].
  eapply rtc_l; [apply by_worker, (worker_done _ _ _ 0 "/a.cpp"); reflexivity|].
  eapply rtc_l; [apply by_main, main_join|]. apply rtc_refl.
Qed.

Lemma tidy_pool_complete_witness :
  Permutation ["/a.cpp"] (List.filter (fails (fun _ => 1)) ["/a.cpp"]).
Proof. exact (proj1 (tidy_pool_complete _ _ _ _ _ ["/a.cpp"] (demo_pool true) demo_run eq_refl)). Defined.

Lemma tidy_unselected_file_hangs_witness :
  selected (pat "src/") "/a.cpp" = false /\
  joined (start 1 ["/a.cpp"]) = false.
Proof.
  assert (H : selected (pat "src/") "/a.cpp" = false) by (vm_compute; reflexivity).
  split; [exact H|].
  apply (tidy_unselected_file_hangs (fun _ => 0) (fun _ => None) (pat "src/") 1 false ["/a.cpp"] "/a.cpp");
    [left; reflexivity|exact H|apply rtc_refl].
Defined.

(** The only worker took the file, and clang-tidy could not be started. *)
Lemma crashed_run :
  reachable (fun _ => 0) (fun _ => Some InRun) (pat ".*") 1 false ["/a.cpp"]
    (Pool [] [] [Died "/a.cpp"] 1 [] 0 false).
Proof.
  assert (Hs : selected (pat ".*") "/a.cpp" = true) by (vm_compute; reflexivity).
  eapply rtc_l; [apply by_main, main_put; [exact Hs|cbn; lia]|].
  eapply rtc_l; [apply by_worker, (worker_get _ _ _ 0 "/a.cpp"); reflexivity|].
  eapply rtc_l; [apply by_worker, (worker_run _ _ _ 0 "/a.cpp" _ _ _ _ _ _ _ [] 0%nat false);
    [reflexivity|vm_compute; reflexivity]|].
  apply rtc_refl.
Qed.

Lemma tidy_crashed_worker_hangs_witness :
  joined (Pool [] [] [Died "/a.cpp"] 1 [] 0 false) = false.
Proof.
  apply (tidy_crashed_worker_hangs (fun _ => 0) (fun _ => Some InRun) (pat ".*") 1 false ["/a.cpp"] "/a.cpp");
    [left; reflexivity|vm_compute; reflexivity|exact crashed_run].
Defined.

Lemma tidy_pool_progress_witness :
  exists p', step (fun _ => 1) (fun _ => None) (pat ".*") 1 false (start 1 ["/a.cpp"]) p' /\
    (work_left p' < work_left (start 1 ["/a.cpp"]))%nat.
Proof.
  apply (tidy_pool_progress (fun _ => 1) (fun _ => None) (pat ".*") 1 false ["/a.cpp"] (start 1 ["/a.cpp"]));
    [lia|constructor; [vm_compute; reflexivity|constructor]|constructor; [reflexivity|constructor]
    |apply rtc_refl|reflexivity].
Defined.

(** C23. The exit code of a run that ends: 1 exactly when clang-tidy failed on a
    file that is not skipped, when the fixes of at least one file were to be
    exported (their merging always fails) or the file for them cannot be opened, or
    when the fixes could not be applied. *)
Theorem tidy_exit_code (returncode : string -> Z) (raises : string -> option raise_point)
    (file_name_re : pattern) (max_task : nat)
    (export_fixes fix_ mergefile_opens apply_runs : bool) (fs : list string) (p : pool)
    (Hreach : reachable returncode raises file_name_re max_task (fix_ || export_fixes) fs p)
    (Hjoined : joined p = true) :
  exit_code export_fixes fix_ mergefile_opens apply_runs p =
  if existsb (fails returncode) fs
     || (export_fixes && (negb (Nat.eqb (length fs) 0) || negb mergefile_opens))
     || (fix_ && negb apply_runs)
  then 1 else 0.
Proof.
  destruct (joined_ok _ _ _ _ _ fs p Hreach Hjoined) as (Hp & _ & Hn).
  pose proof (return_code_spec returncode fs p Hp) as Hr. unfold exit_code. rewrite Hr.
  destruct export_fixes.
  - rewrite orb_true_r in Hn. rewrite (Hn eq_refl).
    destruct fs as [|f fs], mergefile_opens, fix_, apply_runs; cbn -[existsb];
      destruct (existsb _ _); reflexivity.
  - destruct fix_, apply_runs, (existsb _ _); reflexivity.
Qed.

Lemma tidy_exit_code_witness : exit_code false false true true (demo_pool true) = 1.
Proof.
  rewrite (tidy_exit_code (fun _ => 1) (fun _ => None) (pat ".*") 1 false false true true ["/a.cpp"]
    (demo_pool true) demo_run eq_refl). vm_compute. reflexivity.
Defined.

(** ** Skipping and the database *)

Lemma skip_match path m :
  Match ".*/third_party/.*" path = Some m -> contains path "/third_party/" = true.
Proof.
  intros [ts H]%Match_splits; [|vm_compute; reflexivity]. splits_inv H. parts_simpl.
  apply contains_spec. cbn [sdrop] in Hs. eexists _, _. rewrite Hs. reflexivity.
Qed.

Lemma skip_complete a b :
  sall not_newline a = true -> sall not_newline b = true ->
  exists m, Match ".*/third_party/.*" (a +:+ "/third_party/" +:+ b) = Some m.
Proof.
  intros Ha Hb. set (s := a +:+ "/third_party/" +:+ b). set (x := state_at s 0).
  assert (R : rest (after a x) = "/third_party/" +:+ b) by (by apply after_rest).
  set (y := after "/third_party/" (after a x)).
  assert (Ry : rest y = b) by (by apply after_rest).
  apply (Match_complete _ _ (after b y)). unfold matches_at. fold x. compute_pat. cbn [p_fl p_regex].
  exists (after a x). split.
  { eapply (den_star_charset _ _ _ _ _ _ _ ("/third_party/" +:+ b)); [done|exact Ha|done]. }
  apply (den_lits _ s _ _ b "/third_party/"); [exact R|]. fold y.
  eapply (den_star_charset _ _ _ _ _ _ _ EmptyString); [done|exact Hb|].
  by rewrite Ry, sapp_nil_r.
Qed.

(** C40. [should_skip] skips exactly the paths that hold /third_party/, so a directory
    third_party at any depth below the start of the path, for every path without a
    newline (the dot of the pattern matches none). *)
Theorem should_skip_spec (path : string) (Hnl : sall not_newline path = true) :
  should_skip path = contains path "/third_party/".
Proof.
  unfold should_skip, ignore_pats. cbn [existsb]. rewrite orb_false_r.
  destruct (contains path "/third_party/") eqn:E.
  - apply contains_spec in E as (a & b & ->). rewrite !sall_app in Hnl. bools.
    destruct (skip_complete a b) as [m Hm]; [assumption|assumption|]. rewrite Hm. reflexivity.
  - destruct (Match ".*/third_party/.*" path) as [m|] eqn:Em; [|reflexivity].
    apply skip_match in Em. congruence.
Qed.

Lemma should_skip_spec_witness :
  should_skip "/src/third_party/x.cpp" = true /\ should_skip "third_party/x.cpp" = false.
Proof.
  split; [rewrite (should_skip_spec "/src/third_party/x.cpp")|rewrite (should_skip_spec "third_party/x.cpp")];
    vm_compute; reflexivity.
Defined.

(** [./] followed by [n] times [../]. *)
Fixpoint up (n : nat) : string := match n with O => "./" | S n' => up n' +:+ "../" end.

Lemma find_database_from (isfile : string -> bool) (realpath : string -> string) path k : forall d n,
  d = (k - n)%nat -> (n <= k)%nat ->
  (forall i, (n <= i < k)%nat -> isfile (path_join (up i) path) = false /\ realpath (up i) <> "/") ->
  (isfile (path_join (up k) path) = true \/ realpath (up k) = "/") ->
  forall fuel, (d < fuel)%nat ->
  find_database_loop isfile realpath fuel path (up n) =
  if isfile (path_join (up k) path) then inr (realpath (up k)) else inl (SystemExit 1).
Proof.
  induction d as [|d IH]; intros n Hd Hn Hbefore Hk [|fuel] Hf; try lia; cbn [find_database_loop].
  - assert (n = k) as -> by lia. destruct (isfile (path_join (up k) path)) eqn:E; [done|].
    destruct Hk as [Hk| ->]; [congruence|]. done.
  - destruct (Hbefore n ltac:(lia)) as [-> Hr]. destruct (String.eqb_spec (realpath (up n)) "/"); [done|].
    change (up n +:+ "../") with (up (S n)). apply IH; [lia|lia| |done|lia].
    intros i Hi. apply Hbefore. lia.
Qed.

(** C26. [find_compilation_database] ends for a working directory below the root,
    and returns the nearest directory, going up from the working directory, that
    has the database; if there is none up to the root, it exits with code 1.
    [depth] is the number of directories between the working directory and /. *)
Theorem find_database_nearest (isfile : string -> bool) (realpath : string -> string)
    (path : string) (depth : nat)
    (Hroot : realpath (up depth) = "/") (Hbelow : forall i, (i < depth)%nat -> realpath (up i) <> "/") :
  forall fuel, (depth < fuel)%nat ->
  (exists n, (n <= depth)%nat /\ isfile (path_join (up n) path) = true /\
     (forall i, (i < n)%nat -> isfile (path_join (up i) path) = false) /\
     find_compilation_database isfile realpath fuel path = inr (realpath (up n))) \/
  ((forall i, (i <= depth)%nat -> isfile (path_join (up i) path) = false) /\
   find_compilation_database isfile realpath fuel path = inl (SystemExit 1)).
Proof.
  intros fuel Hf. unfold find_compilation_database. change "./"%string with (up 0).
  assert (Hfirst : forall d, (exists n, (n <= d)%nat /\ isfile (path_join (up n) path) = true /\
      forall i, (i < n)%nat -> isfile (path_join (up i) path) = false) \/
    (forall i, (i <= d)%nat -> isfile (path_join (up i) path) = false)).
  { induction d as [|d [(n & H1 & H2 & H3)|IH]].
    - destruct (isfile (path_join (up 0) path)) eqn:E.
      + left. exists 0%nat. repeat split; [lia|done|lia].
      + right. intros i Hi. by assert (i = 0%nat) as -> by lia.
    - left. exists n. repeat split; [lia|done|done].
    - destruct (isfile (path_join (up (S d)) path)) eqn:E.
      + left. exists (S d). repeat split; [lia|done|]. intros i Hi. apply IH. lia.
      + right. intros i Hi. destruct (decide (i = S d)) as [->|]; [done|]. apply IH. lia. }
  destruct (Hfirst depth) as [(n & H1 & H2 & H3)|Hnone]; [left; exists n|right];
    repeat (split; [done|]).
  - erewrite (find_database_from _ _ _ n n); [by rewrite H2|lia|lia| |by left|lia].
    intros i Hi. split; [by apply H3; lia|apply Hbelow; lia].
  - erewrite (find_database_from _ _ _ depth depth); [by rewrite (Hnone depth)|lia|lia| |by right|lia].
    intros i Hi. split; [by apply Hnone; lia|apply Hbelow; lia].
Qed.

Lemma find_database_nearest_witness :
  find_compilation_database (fun f => String.eqb f "./../db.json")
    (fun r => if String.eqb r "./" then "/a" else "/")%string 2 "db.json" = inr "/"%string.
Proof.
  destruct (find_database_nearest (fun f => String.eqb f "./../db.json")
    (fun r => if String.eqb r "./" then "/a" else "/")%string "db.json" 1) with (fuel := 2%nat)
    as [(n & Hn & H1 & _ & ->)|[H _]].
  - reflexivity.
  - intros [|i] Hi; [vm_compute; discriminate|lia].
  - lia.
  - destruct n as [|[|n]]; [vm_compute in H1; discriminate|reflexivity|lia].
  - specialize (H 1%nat ltac:(lia)). vm_compute in H. discriminate.
Defined.
