(* ===== verification/ClangFormat.v ===== *)
(** * run_clang_format.py

    [check] and the main program.  The file system and clang-format are parameters:
    what [os.walk] lists, the decoded text of a file and of clang-format's output
    for it, and whether [clang-format -i] succeeds.  [fnmatch] and
    [str.splitlines] are modelled; [difflib.unified_diff] of two lists of lines is
    empty exactly when they are equal, and only that is used of it. *)

From stdpp Require Import base list strings.
From Stdlib Require Import ZArith Lia Ascii.
From S2P Require Import Prelude PyString Paths.
Local Open Scope Z_scope.
Local Open Scope py_scope.

(** ** [fnmatch.fnmatch] *)

Inductive glob_token :=
  | GStar
  | GAny
  | GChar (c : ascii)
  | GSet (negated : bool) (ranges : list (ascii * ascii)).

(** The ranges of a set; a single character is a range of one. *)
Fixpoint set_ranges (stuff : string) : list (ascii * ascii) :=
  match stuff with
  | EmptyString => []
  | String a (String b (String c rest) as rest1) =>
      if Ascii.eqb b "-" then (a, c) :: set_ranges rest else (a, a) :: set_ranges rest1
  | String a rest1 => (a, a) :: set_ranges rest1
  end.

(** [stuff], from the text after the bracket: an optional exclamation mark, an
    optional closing bracket, and everything up to the next closing bracket; with
    the text after that, or nothing when there is none. *)
Fixpoint until_bracket (s : string) : option (string * string) :=
  match s with
  | EmptyString => None
  | String c s' =>
      if Ascii.eqb c "]" then Some (EmptyString, s')
      else match until_bracket s' with Some (a, b) => Some (String c a, b) | None => None end
  end.
Definition bracket_text (s : string) : option (string * string) :=
  let '(bang, s1) := match s with String "!" s' => ("!"%string, s') | _ => (EmptyString, s) end in
  let '(close, s2) := match s1 with String "]" s' => ("]"%string, s') | _ => (EmptyString, s1) end in
  match until_bracket s2 with Some (a, b) => Some (bang +:+ close +:+ a, b) | None => None end.

Fixpoint glob_parse (fuel : nat) (pat : string) : list glob_token :=
  match fuel, pat with
  | O, _ | _, EmptyString => []
  | S f, String c pat' =>
      if Ascii.eqb c "*" then GStar :: glob_parse f pat'
      else if Ascii.eqb c "?" then GAny :: glob_parse f pat'
      else if Ascii.eqb c "[" then
        match bracket_text pat' with
        | None => GChar "[" :: glob_parse f pat'
        | Some (stuff, rest) =>
            match stuff with
            | String "!" stuff' => GSet true (set_ranges stuff') :: glob_parse f rest
            | _ => GSet false (set_ranges stuff) :: glob_parse f rest
            end
        end
      else GChar c :: glob_parse f pat'
  end.

Definition in_ranges (c : ascii) (ranges : list (ascii * ascii)) : bool :=
  existsb (fun '(a, b) => in_range c (code a) (code b)) ranges.

(** [GStar] tries every rest of the text. *)
Fixpoint glob_match (ts : list glob_token) (s : string) : bool :=
  match ts with
  | [] => String.eqb s EmptyString
  | GStar :: ts' =>
      (fix star (s : string) : bool :=
         glob_match ts' s || match s with String _ s' => star s' | EmptyString => false end) s
  | GAny :: ts' => match s with String _ s' => glob_match ts' s' | EmptyString => false end
  | GChar c :: ts' =>
      match s with String d s' => Ascii.eqb d c && glob_match ts' s' | EmptyString => false end
  | GSet negated ranges :: ts' =>
      match s with
      | String d s' => negb (Bool.eqb negated (in_ranges d ranges)) && glob_match ts' s'
      | EmptyString => false
      end
  end.

Definition fnmatch (name pat : string) : bool := glob_match (glob_parse (String.length pat) pat) name.

(** ** [str.splitlines(True)] *)

Definition line_boundary (c : ascii) : bool :=
  in_range c 10 13 || in_range c 28 30 || (code c =? 133)%N.

(** The lines with their ends; [cur] is the line read so far.  A carriage return
    and the newline after it are one end. *)
Fixpoint splitlines_go (s cur : string) : list string :=
  match s with
  | EmptyString => if String.eqb cur EmptyString then [] else [cur]
  | String c s' =>
      let cur := cur +:+ String c EmptyString in
      if line_boundary c then
        if (code c =? 13)%N && startswith s' newline then splitlines_go s' cur
        else cur :: splitlines_go s' EmptyString
      else splitlines_go s' cur
  end.
Definition splitlines (s : string) : list string := splitlines_go s EmptyString.

Lemma splitlines_go_join s : forall cur, join EmptyString (splitlines_go s cur) = cur +:+ s.
Proof.
  assert (Hcons : forall a l, join EmptyString (a :: l) = a +:+ join EmptyString l).
  { intros a [|b l]; [by rewrite sapp_nil_r|done]. }
  induction s as [|c s IH]; intros cur; cbn [splitlines_go].
  - rewrite sapp_nil_r. by destruct (String.eqb_spec cur EmptyString) as [->|].
  - destruct (line_boundary c); [|rewrite IH, sapp_assoc; done].
    destruct (_ && _); [rewrite IH, sapp_assoc; done|]. rewrite Hcons, IH, sapp_assoc. done.
Qed.

(** Splitting loses nothing. *)
Lemma splitlines_inj a b : splitlines a = splitlines b -> a = b.
Proof.
  intros H. pose proof (splitlines_go_join a EmptyString) as Ha.
  pose proof (splitlines_go_join b EmptyString) as Hb.
  unfold splitlines in H. rewrite H, Hb in Ha. done.
Qed.

(** ** [check] *)

Section Format.
Context (walk : string -> list (string * list string)) (exclude_globs : list string).
(** The text of a file, and clang-format's output for it. *)
Context (read_source format_output : string -> exn + string).
Context (format_in_place : list string -> exn + unit).

Definition is_source_file (x : string) : bool := endswith x ".h" || endswith x ".cpp".
Definition excluded (filename : string) : bool :=
  existsb (fun exclude_glob => fnmatch filename exclude_glob) exclude_globs.

Definition formatted_filenames (source_dir : string) : list string :=
  flat_map (fun '(directory, filenames) =>
      List.filter (fun x => negb (excluded x))
        (List.filter is_source_file (map (path_join directory) filenames)))
    (walk source_dir).

(** One file: clang-format runs first, then the file is read. *)
Definition has_issues (filename : string) : exn + bool :=
  let? formatted := format_output filename in
  let? original := read_source filename in
  inr (negb (bool_decide (splitlines original = splitlines formatted))).

Fixpoint check_files (filenames : list string) (err : bool) : exn + bool :=
  match filenames with
  | [] => inr err
  | filename :: filenames' =>
      let? issues := has_issues filename in check_files filenames' (issues || err)
  end.

Definition check (fix_ : bool) (source_dir : string) : exn + bool :=
  let filenames := formatted_filenames source_dir in
  if fix_ then let? _ := format_in_place filenames in inr false
  else check_files filenames false.

(** ** The main program *)

(** [for source_dir in args.source_dirs.split(',')]: each directory's answer
    replaces the one before. *)
Fixpoint check_dirs (fix_ : bool) (dirs : list string) (had_err : bool) : exn + bool :=
  match dirs with
  | [] => inr had_err
  | source_dir :: dirs' =>
      if 0 <? zlen source_dir then
        let? had_err := check fix_ source_dir in check_dirs fix_ dirs' had_err
      else check_dirs fix_ dirs' had_err
  end.

Definition format_exit_code (fix_ : bool) (source_dirs : string) : exn + Z :=
  let? had_err := check_dirs fix_ (split_char "," source_dirs) false in
  inr (if had_err then 1 else 0).

(** ** Properties *)

(** The file is not formatted as clang-format would. *)
Definition misformatted (filename : string) : Prop :=
  exists a b, read_source filename = inr a /\ format_output filename = inr b /\ a <> b.

Lemma has_issues_spec filename b :
  has_issues filename = inr b -> (b = true <-> misformatted filename).
Proof.
  unfold has_issues, misformatted.
  destruct (format_output filename) as [e|f] eqn:Ef, (read_source filename) as [e'|o] eqn:Eo; try done.
  intros [= <-]. rewrite negb_true_iff, bool_decide_eq_false. split.
  - intros H. exists o, f. split; [done|]. split; [done|]. intros ->. done.
  - intros (a & c & E1 & E2 & Hne) Heq. injection E1 as <-. injection E2 as <-. by apply Hne, splitlines_inj.
Qed.

Lemma check_files_spec fs : forall err b,
  check_files fs err = inr b ->
  (b = true <-> err = true \/ exists f, In f fs /\ misformatted f).
Proof.
  induction fs as [|f fs IH]; intros err b H; cbn [check_files] in H.
  - injection H as <-. split; [by left|intros [?|(? & [] & _)]; done].
  - destruct (has_issues f) as [e|i] eqn:Ei; [done|]. cbn [bindE] in H.
    rewrite (IH _ _ H), orb_true_iff, (has_issues_spec f i Ei). split.
    + intros [[?|?]|(g & ? & ?)]; [right; exists f; split; [by left|done]|by left|].
      right. exists g. split; [by right|done].
    + intros [?|(g & [<-|?] & ?)]; [left; by right|left; by left|right; eauto].
Qed.

(** C37. [check] without --fix answers whether there is a misformatted file among
    the .h and .cpp files below the directory that no exclusion pattern matches:
    the comparison line by line loses nothing. *)
Theorem format_check_exact (source_dir : string) (b : bool) (Hrun : check false source_dir = inr b) :
  b = true <->
  exists directory filenames name,
    In (directory, filenames) (walk source_dir) /\ In name filenames /\
    let f := path_join directory name in
    (endswith f ".h" = true \/ endswith f ".cpp" = true) /\
    (forall g, In g exclude_globs -> fnmatch f g = false) /\ misformatted f.
Proof.
  unfold check in Hrun. rewrite (check_files_spec _ _ _ Hrun). unfold formatted_filenames. split.
  - intros [|(f & Hf & Hbad)]; [done|]. apply in_flat_map in Hf as ([directory names] & Hw & Hf).
    apply filter_In in Hf as [[Hf Hs]%filter_In He]. apply in_map_iff in Hf as (name & <- & Hn).
    exists directory, names, name. split; [done|]. split; [done|]. cbv zeta. unfold is_source_file in Hs.
    split; [by apply orb_true_iff|]. split; [|done]. intros g Hg. unfold excluded in He. bools.
    destruct (fnmatch (path_join directory name) g) eqn:Eg; [|done]. exfalso.
    assert (existsb (fun g => fnmatch (path_join directory name) g) exclude_globs = true)
      by (apply existsb_exists; eauto). congruence.
  - intros (directory & names & name & Hw & Hn & Hs & Hg & Hbad). right.
    exists (path_join directory name). split; [|done]. apply in_flat_map. exists (directory, names).
    split; [done|]. apply filter_In. split.
    + apply filter_In. split; [apply in_map_iff; eauto|]. by apply orb_true_iff.
    + unfold excluded. apply negb_true_iff. destruct (existsb _ _) eqn:E; [|done].
      apply existsb_exists in E as (g & Hin & Hm). rewrite (Hg g Hin) in Hm. done.
Qed.

End Format.

(** Only the last directory decides the exit code: a misformatted file in an
    earlier one goes unnoticed. *)
Lemma format_forgets_earlier_directories :
  let walk d := if String.eqb d "src" then [("src", ["a.cpp"])] else [("test", ["b.cpp"])]%string in
  let read f := inr (if String.eqb f "src/a.cpp" then "int  x;" else "int y;")%string in
  let fmt f := inr (if String.eqb f "src/a.cpp" then "int x;" else "int y;")%string in
  check walk [] read fmt (fun _ => inr ()) false "src" = inr true /\
  format_exit_code walk [] read fmt (fun _ => inr ()) false "src,test" = inr 0.
Proof. split; vm_compute; reflexivity. Qed.

Lemma format_check_exact_witness :
  (true = true <-> exists directory filenames name,
    In (directory, filenames) [("src"%string, ["a.cpp"%string])] /\ In name filenames /\
    let f := path_join directory name in
    (endswith f ".h" = true \/ endswith f ".cpp" = true) /\
    (forall g, In g (@nil string) -> fnmatch f g = false) /\
    misformatted (fun _ => inr "int  x;"%string) (fun _ => inr "int x;"%string) f).
Proof.
  apply (format_check_exact (fun _ => [("src", ["a.cpp"])]%string) [] (fun _ => inr "int  x;"%string)
    (fun _ => inr "int x;"%string) (fun _ => inr ()) "src" true).
  vm_compute. reflexivity.
Defined.
