(* ===== verification/Patterns.v ===== *)
(** * The patterns of the checks

    Every pattern that a check of cpplint.py passes to [Match], [Search] or
    [ReplaceAll] as a literal, file by file as the development models them, with the
    patterns that are made from a fixed list of names, and those of
    run_clang_tidy_extra.py.  All of them compile, so the functions as they are written,
    with the cache, return for them what the checks of this development use. *)

From stdpp Require Import base list strings gmap.
From Stdlib Require Import ZArith Lia Ascii.
From S2P Require Import Prelude PyString Regex RegexParse PyRe Config Nolint IncludeState.
From S2P Require Import FunctionState Cleanse Expr HeaderGuard LineChecks Nesting Constructs.
From S2P Require Import Spacing Braces Style Includes Casts Language ClangTidy.

Definition Nolint_patterns : list string :=
  [NOLINT_PATTERN].

Definition IncludeState_patterns : list string :=
  ["^\s*#\s*include\b"].

Definition FunctionState_patterns : list string :=
  ["T(EST|est)"].

Definition Cleanse_patterns : list string :=
  [RAW_STRING; RAW_COMMENTED; "^(\s*)\S"; FIRST_QUOTE; DIGITS_BEFORE; DIGITS_AFTER].

Definition Expr_patterns : list string :=
  [OPERATOR_END; "<[<=]"; "\s>=\s"].

Definition HeaderGuard_patterns : list string :=
  ["^( *)\S"; LINE_COMMENT; NOLINT_GUARD; PRAGMA_ONCE].

Definition LineChecks_patterns : list string :=
  [VLOG_SYMBOLIC; "^#define"; "\\$"; "^\s*(\btemplate\b)*.*class\s+\w+;\s*$"].

Definition Nesting_patterns : list string :=
  [BARE_COLON; "^\s*$"; "^( *)\}"; NAMESPACE_END; NAMESPACE_END_ANONYMOUS;
   NAMESPACE_ANONYMOUS_WORDS; TEMPLATE_TOKEN; PP_IF; PP_ELSE; PP_ENDIF; NAMESPACE_DECL;
   CLASS_DECL; ACCESS_KEYWORD; EXTERN_C; BRACE_TOKEN].

Definition Constructs_patterns : list string :=
  ["\bstd\s*::\s*initializer_list\b"; "printf\s*\(.*\x22.*%[-+ ]?\d*q";
   "printf\s*\(.*\x22.*%\d+\$"; "(\x22|\').*\\(%|\[|\(|{)"; STORAGE_CLASS;
   "\s*#\s*endif\s*[^/\s]+"; "\s*class\s+(\w+\s*::\s*)+\w+\s*;";
   "(\w+|[+-]?\d+(\.\d*)?)\s*(<|>)\?=?\s*(\w+|[+-]?\d+)(\.\d*)?";
   "^\s*const\s*string\s*&\s*\w+\s*;"].

Definition Spacing_patterns : list string :=
  ["\b(if|for|while|switch|return|new|delete|catch|sizeof)\b"; " \([^)]+\)\([^)]*(\)|,$)";
   " \([^)]+\)\[[^\]]+\]"; "\w\s*\(\s(?!\s*\\$)"; "\(\s+(?!(\s*\\)|\()"; "\w\s+\(";
   "_{0,2}asm_{0,2}\s+_{0,2}volatile_{0,2}\s+\("; "#\s*define|typedef|using\s+\w+\s*=";
   "\w\s+\((\w+::)*\*\w+\)\("; "\bcase\s+\("; "\boperator_*\b"; "[^)]\s+\)\s*[^{\s]"; "^\s+\)";
   "^.*{ *//"; "//[^ ]*\w"; "(///|//\!)(\s+|$)"; " {6}\w";
   " {4}\w[^\(]*\)\s*(const\s*)?(\{\s*$|:)"; " {4}:"; "\s*}"; "\s*(public|protected|private):";
   "\w\s+\["; "(?:auto&?|delete|return)\s+\["; "for *\(.*[^:]:[^: ]"; "for *\(.*[^: ]:[^:]";
   OPERATOR_CALL; "[^<>=!\s](==|!=|<=|>=|\|\|)[^<>=!\s,;\)]"; "#.*include";
   "^(.*[^\s<])<[^\s=<,]"; "^(.*[^-\s>])>[^\s=>,]"; "[\w.]="; "=[\w.]"; "\b(if|while|for) ";
   "(>=|<=|==|!=|&=|\^=|\|=|\+=|\*=|\/=|\%=)"; "operator="; SHIFT_LEFT; ">>[a-zA-Z_]";
   "(!\s|~\s|[\s]--[\s;]|[\s]\+\+[\s;])"; " (if\(|for\(|while\(|switch\()"; CONTROL_PARENS;
   "\bfor\s*\(.*; \)"; ",[^,\s]"; "\boperator\s*,\s*\("; ";[^\s};\\)/]"; "^.*(\b\S+)$";
   "^(.*[^ ({>]){"; "^[\s}]*[{.;,)<>\]:]"; "}else"; ":\s*;\s*$"; "^\s*;\s*$"; "\s+;\s*$";
   "\bfor\b"; "\bdecltype\s*$"; "\{\s*$"; "\b(class|struct)\b"].

Definition Braces_patterns : list string :=
  [";[\s}]*(\\?)$"; LAMBDA_BODY; "\s*else\b"; "\bif\s*\("; "\s*{"; "\s*$"; "else if\s*\(";
   "}\s*else if\s*\("; "}\s*else[^{]*$"; "[^}]*else\s*{"; "\s*{\s*$"; "[,;:}{(]\s*$"; "\s*#";
   "\s*else\b\s*(?:if\b|\{|$)"; "\s*}\s*$"; "\belse [^\s{]"; "\belse if\b"; "\s*do [^\s{]";
   "\b(if\s*\(|else\b)"; "\b([A-Z_][A-Z0-9_]*)\s*$"; "^(.*\])\s*$"; "\boperator\s*\[\s*\]";
   "\b(?:struct|union)\s+alignas\s*$"; "\bdecltype$"; "\s+=\s*$"; "^(.*\)\s*)\{"; "\]\s*$";
   "^(.*(?:else|\)\s*const)\s*)\{"; "[;{}]\s*$"; "^(\s*)\{"; "^\s*;"; "^\s*\{"; "^(?!\s*$)";
   "^\s*$|^(?=\s*else)"; "^(?=\s*else)"; "\s*(for|while|if)\s*\("; ";"; CHECK_TOKEN;
   "^([^-=!<>()&|]+)(.*)$"; "^(\s*\S)(.*)$"; "\s*;"; MATCH_CONSTANT; "^\s*#"].

Definition Style_patterns : list string :=
  ["^\s+"; FUNCTION_HEAD; "[A-Z_]+$"; "((\w|:)*)\("; "TEST"; "(\(.*\))"; "(;|})"; "{"; "^\}\s*$";
   "^\s*//.*http(s?)://\S*$"; "^\s*//\s*[^\s]*$"; "^// \$Id:.*#[0-9]+ \$$";
   "^\s*/// [@\\](copydoc|copydetails|copybrief) .*$"; "[\x22,=><] *$"; LABEL_PATTERN;
   "^\s*\x22\x22"; SINGLE_LINE_LAMBDA].

Definition Includes_patterns : list string :=
  ["#include\s*\x22([^/]+\.h)\x22"; TEST_FILE_SUFFIX].

Definition Casts_patterns : list string :=
  ["^\s*MOCK_(CONST_)?METHOD\d+(_T)?\("; "^\s*MOCK_(?:CONST_)?METHOD\d+(?:_T)?\((?:\S+,)?\s*$";
   "^\s*MOCK_(?:CONST_)?METHOD\d+(?:_T)?\(\s*$"; "\bstd::m?function\s*\<\s*$";
   ".*\b(?:sizeof|alignof|alignas|[_A-Z][_A-Z0-9]*)\s*$";
   ".*\b[_A-Z][_A-Z0-9]*\s*\((?:\([^()]*\)|[^()])*$";
   "^\s*(?:;|const\b|throw\b|final\b|override\b|[=>{),]|->)";
   "\((?:[^() ]+::\s*\*\s*)?[^() ]+\)\s*\("; "^(.*&(?:static|dynamic|down|reinterpret)_cast\b)<";
   "\s*(?:->|\[)"; ADDRESS_OF_CAST; CONVERSION_CAST; "\([^()]+\)\s*\["; FUNCTION_NAME;
   "\boverride\b"; "^[^()]*\w+::\w+\("; "^(.*)\{\s*$"; "\s:\s*\w+[({]"; "\}\s*,\s*$";
   "[{};]\s*$"; "\s*::(?:[\w<>]|::)+\s*&\s*\S"; "\b((?:const\s*)?(?:[\w<>]|::)+[\w<>])\s*$";
   "\s*[a-zA-Z_]([\w<>]|::)+\s*&\s*\S"; "\b((?:const\s*)?(?:[\w<>]|::)+::)\s*$"; "[),]\s*$";
   "^\s*:\s+\S"; WHITELISTED_FUNCTIONS; "\S+\([^)]*$"; "\\\s*$"; "{[^}]*}";
   RE_PATTERN_CONST_REF_PARAM; RE_PATTERN_REF_STREAM_PARAM; " *<"; "^([^(]*)\(";
   "\b(override|final)\b"; "[^\w]\s*$"; "^(.*)(\bvirtual\b)(.*)$";
   "\b(public|protected|private)\s+$"; "^\s+(public|protected|private)\b"; "^.*[^:]:[^:].*$";
   "\bfinal\b"; "\((int|float|double|bool|char|u?int(16|32|64))\)"; "\((char\s?\*+\s?)\)\s*\x22";
   "\((\w+\s?\*+\s?)\)"].

Definition Language_patterns : list string :=
  ["[;({]"; GLOBAL_STRING; "\bstring\b(\s+const)?\s*[\*\&]\s*(const\s+)?\w"; "\boperator\W";
   "\s*(<.*>)?(::[a-zA-Z0-9_]+)*\s*\(([^\x22]|$)"; "\bconst\b"; "\b([A-Za-z0-9_]*_)\(\1\)";
   "\b([A-Za-z0-9_]*_)\(CHECK_NOTNULL\(\1\)\)"; "snprintf\s*\(([^,]*),\s*([0-9]*)\s*,";
   "\bsprintf\s*\("; "\b(strcpy|strcat)\s*\("; "([\w.\->()]+)$"; "sizeof\(.+\)";
   "arraysize\(\w+\)"; "\d+"; "0[xX][0-9a-fA-F]+"; "k[A-Z0-9]\w*"; "(.+::)?k[A-Z0-9]\w*";
   "(.+::)?[A-Z][A-Z0-9_]*"; "\s*(.+::)?(\w+) [a-z]\w*\[(.+)];"; "\bshort port\b";
   "\bunsigned short port\b"; "\b(short|long(?! +double)|long long)\b";
   "\boperator\s*&\s*\(\s*\)"; "\}\s*if\s*\("; "memset\s*\(([^,]*),\s*([^,]*),\s*0\s*\)";
   "^''|-?[0-9]+|0x[0-9A-Fa-f]$"; "\busing namespace\b"; "\bliterals\b";
   "^\s*#\s*(if|ifdef|ifndef|elif|else|endif)\b"; "\bnamespace\s*{"; CXX_INCLUDE;
   "\s*#\s*define\b"].

(** Patterns made from the names of a list. *)
Definition made_patterns : list string :=
  map snd THREADING_LIST ++ CONTROL_PATTERNS ++ ignore_pats
  ++ map (fun macro => "^(.*\b" +:+ macro +:+ "\s*)\(") CHECK_MACROS
  ++ map (fun top_name => "\bstd::" +:+ top_name +:+ "\b") ["alignment_of"; "aligned_union"].

Definition pattern_literals : list string :=
  Nolint_patterns ++ IncludeState_patterns ++ FunctionState_patterns ++ Cleanse_patterns
  ++ Expr_patterns ++ HeaderGuard_patterns ++ LineChecks_patterns ++ Nesting_patterns
  ++ Constructs_patterns ++ Spacing_patterns ++ Braces_patterns ++ Style_patterns
  ++ Includes_patterns ++ Casts_patterns ++ Language_patterns ++ made_patterns.

Lemma literals_compile : forallb compiles pattern_literals = true.
Proof. vm_compute. reflexivity. Qed.


